(* ===== verification/_CoqProject ===== *)
-Q . S2P
Prelude.v
GoStrings.v
GoCodec.v
Platform.v
HttpUtil.v
Regexp.v
PathMatch.v
Json.v
JsonDecode.v
JsonString.v
Net.v
Url.v
Digests.v
Artifact.v
Report.v
Indent.v
TimeText.v
Paths.v
Config.v
Acl.v
Secrets.v
SecLog.v
Logging.v
Inspectors.v
InspectorLib.v
Archives.v
OpenPgp.v
Git.v
GitProps.v
Craft.v
BldBin.v
Store.v
Lxd.v
SnapApi.v
SnapRefresh.v
Assertion.v
Snap.v
Session.v
SessionFile.v
Messages.v
Service.v
ServiceProps.v
Fetchctl.v
Dispatcher.v
Control.v
Cert.v
Proxy.v
Bodies.v
Pipeline.v
Lifecycle.v
Main.v
AptConfig.v
AptRelease.v
AptPackages.v
License.v
AptIndex.v
Deb.v
Detectors.v
Chisel.v
GoMod.v
Cargo.v
Maven.v
Pip.v
Wheel.v
Registry.v
SessionSpec.v
