(* ===== verification/Prelude.v ===== *)
(** * Verification of the fetch service: root of the development

    The fetch service is a proxy between a build and the network. A build gets a session with a token; the
    proxy lets a request out and a file in only as the inspectors decide, and keeps every file with its digests
    and the opinions on it. This library models the Go code under src/ and proves what it promises: a strict
    session gets nothing but approved files, sessions do not mix, every message gets one answer, and what the
    inspectors approve has been checked against signed data.

    ** How the program works, and where it is modelled

    A request takes this way. [proxy/auth/basic.go] authenticates it ([HttpUtil], [Proxy.basicAuth]) by a message
    to the dispatcher. [proxy/acl] decides about its address ([Acl]). [proxy/proxy.go] makes an artifact of it and
    sends it to the dispatcher, which runs the request inspectors ([Proxy.processRequest],
    [Service.handleRequestInspection]); then secrets are injected ([Secrets]) and it is sent. The response is copied
    to a file while its digests are computed ([Bodies], [Proxy.localDownload]) and sent to the dispatcher, whose
    goroutine runs the response inspectors over the file and reports back ([Service.run_task],
    [Service.handleCompleteInspection]). The verdict decides whether the client gets the file. [Pipeline] puts these
    steps together, tunnels included, as a whole exchange from the client to the answer it gets. The control API
    ([Control]) and the fetchctl socket ([Fetchctl]) create, report and end sessions by messages to the same
    dispatcher, and timers end them ([Session], [Dispatcher]).

    Standard library, platform and shared lemmas:
    - [Prelude]: errors, results, integers of 64 bits, automation, generic lemmas.
    - [GoStrings], [GoCodec], [Regexp], [PathMatch], [Paths], [Url], [Net]: the parts of Go's packages strings,
      strconv, encoding, regexp, path, net/url and net that the source calls. Go strings are byte strings.
    - [Json], [JsonDecode], [JsonString], [Indent], [TimeText]: encoding/json, its decoding into Go values, and what
      strings, integers, indented values and times become through it.
    - [Platform], [Archives], [HttpUtil], [License]: requests and responses, and the classes for what is not
      in the repository (file system, glob, MIME types, archives, the license tool); utils/.

    Data and configuration:
    - [Digests], [Artifact], [Report]: metadata/ and inspectors/common, with the opinions of the inspectors, how they
      add up, and the JSON reports of utils/json_utils.go.
    - [Config], [Acl], [Secrets]: service/config, glob, proxy/acl, secrets, and the configurations of the inspectors.
    - [SecLog], [Logging]: seclog and logger; a handler that logs a security event returns it.

    Inspectors. [Inspectors] has the interface of an inspector (record [Inspector]), its laws (class
    [InspectorLaws]: it only changes its own inspection and keeps the artifact's digest and size and the method, URL
    and headers of the request) and the runs over requests and files of inspectors/inspectors.go. [InspectorLib] has what the format inspectors share: their
    state as a part of the state of all (class [Part] with its laws), URL patterns, and the proofs of
    [InspectorLaws]. One file per family, with the sources under inspectors/:
    - [Git], [GitProps], [Craft], [GoMod]: git/, craft/, gomod/.
    - [OpenPgp]: utils/openpgp.go, for the inspectors that check signatures.
    - [AptConfig], [AptRelease], [AptPackages], [AptIndex], [Deb]: apt/ and deb/.
    - [Snap], [SnapApi], [SnapRefresh], [Assertion]: snap/.
    - [Store], [BldBin], [Lxd], [Chisel]: store/, bldbin/, lxd/, chisel/.
    - [Cargo], [Maven], [Pip], [Wheel]: cargo/, maven/, pip/.
    - [Detectors]: the file types registered by inspectors.go.
    - [Registry]: inspectors.New over all of these, and whole runs, where one inspector relies on what another
      one found in an earlier file.

    The service:
    - [Session], [SessionFile]: session/, the table of sessions, tokens, artifacts, saved files, timers and their
      resources; the metadata file read back.
    - [Messages], [Service], [ServiceProps]: service/messages, the handlers of service/handlers.go and
      service/fetchctl_handlers.go, and their properties. A handler takes the state [World] (sessions, files, options,
      configuration) and what it draws from the clock, at random and from the order of maps ([Draws]), and gives the
      new state and its effects: answers, goroutines, events.
    - [Dispatcher]: the loop of service/service.go with clients, goroutines, timers and the channel of expired
      sessions as the transition system [sys_step] over [Sys].
    - [SessionSpec]: the abstract specification of sessions and the refinement.
    - [Proxy], [Cert], [Bodies], [Control], [Fetchctl]: proxy/, control/ with its routes, service/fetchctl and
      cmd/fetchctl.
    - [Pipeline]: the wiring of proxy/proxy.go: its handlers in the order they are installed, the round tripper, the
      interception of tunnels, and clients with their connections. What the proxy library does between the handlers is
      the documented behaviour [Pipeline.ProxyDoc], with an instance.
    - [Lifecycle], [Main]: the start, the idle timer, the stop, and cmd/fetch/main.go.

    ** What the theorems show

    - Safety of the proxy: [Pipeline.exchange_delivers] and [Pipeline.exchange_sends] about whole exchanges,
      [Proxy.request_gate], [Inspectors.strict_only_pending], [ServiceProps.response_verdict],
      [Artifact.approved_spec]. The examples of [Pipeline] show the limits: partial content is not inspected, an
      address that is denied has been contacted, a tunnel outlives its token.
    - Chains of trust: [Registry.approved_package_trusted] (package, package list, signed release),
      [Snap.snap_approved] (assertions up to the root key), [Lxd.rootfs_verified], [Store.bin_package_listed],
      [Wheel.wheel_verified], [Cargo.crate_matches_request], [Chisel.chisel_approved],
      [Craft.craft_approves_checkout] and the theorems of [GitProps] about fetches.
    - Concurrency: [Dispatcher.answered_once], [Dispatcher.every_request_answered] and
      [Dispatcher.sessions_keep_inspected] hold for every interleaving; [Lifecycle.idle_shutdown] and
      [Lifecycle.service_stop] for the end of the service.
    - Refinement: [SessionSpec.sessions_refine] with [SessionSpec.sessions_monotone] for the service,
      [Fetchctl.command_served] and [Fetchctl.create_session_command] for the commands through JSON, the socket
      and the server, [Bodies.pieces_whole] for streams of pieces against whole bodies.
    - Types: [Registry.session_inspectors_typed]: the 41 inspectors are well formed and keep to their interface.
    - Round trips: [GitProps.decodeGitProtocol_encode], [Logging.event_line_faithful],
      [SessionFile.session_file_roundtrip] (through indented JSON, the calendar and joined paths),
      [JsonString.json_string_roundtrip], and those of [Digests], [Json], [GoCodec].
    - Termination: [Assertion.VerifyChain_terminates]; where it does not end, [Assertion.self_signed_diverges].
    - Errors and bounds: [Inspectors.inspector_error_rejects], [Session.Finish_spec], [Control.control_errors],
      [Config.UpdateConfig_spec], [Main.exit_status], [ServiceProps.create_timeout_range].

    ** Conventions

    Definitions have the names of the source, with a prefix where two files use one name. A Go error is an [error]
    (below); [(T, error)] is a [result] or a pair. Pointers to artifacts and sessions are addresses in a heap where
    aliasing matters ([Session], [Service]); elsewhere values. A panic is an error value or [None] of the step that
    makes it; [AptRelease.release_empty_line_panics], [Deb.deb_empty_description_panics] and
    [Wheel.record_panic_example] exhibit those that a file from outside can cause. Integers are [Z] with [wrap_i64] and
    [wrap_u64] where the source computes with 64 bits. Third-party libraries and the operating system are type
    classes, what the code relies on is stated as laws ([OsLaws], [GoProxyLaws], [MapOrderLaws], hypotheses of sections), and each class
    with laws has an instance that shows they can hold ([mem_os], the instances of the witnesses).

    Fuel. Where the recursion of the source is not structural the model has fuel, chosen so that it is never
    what ends it: twice the length of the text plus one for JSON ([Json.parse_fuel]); the length plus one for
    packet lines, pack files and scanners; the length of the text for the star of a regular expression, each
    turn of which consumes a byte; any number greater than the length of a body for [Bodies.io_Copy].
    [Assertion.VerifyChain] has no bound in the source: its result is an option, and
    [Assertion.VerifyChain_terminates] gives a sufficient fuel. Scanners keep their limits
    of 64 KiB ([GoStrings.Scanner_Lines]) or 1 MiB.

    ** What is not modelled, and why

    - Not in the repository, hence parameters: hashes, compression and archives, YAML, TOML, XML and HTML, OpenPGP
      packets, X.509 and TLS certificates, squash file systems, the proxy, router and command line libraries, the tomb
      library, the transport of net/http, the git and licensecheck programs, the kernel's sockets and files.
    - profile/profile.go (a layer over net/http/pprof; its end is an event of [Main]), version, testutils and
      logger/testlogger. Constants of inspectors/mimetypes are literals in the inspectors.
    - Texts of the decoding errors of JSON and base64; flags and widths of formats; the monotonic clock; the refusal of
      [time.Time] to write years past 9999 in JSON; lower case beyond ASCII, unicode.ToUpper being a parameter; the
      difference between nil and empty maps, which the source does not observe.
    - Two goroutines at once inside one inspection: an inspection is one step of [Dispatcher], and a message of
      [Proxy] or [Control] is answered at once, since it shares nothing but the channels that [Dispatcher]
      interleaves. Maps shared with annotations are recorded by value.
    - Failed writes to pipes and to temporary files of an inspection are taken not to happen; file names
      that alias one another are excluded by [OsLaws]. *)
From stdpp Require Import base gmap strings list option fin_maps.
From Stdlib Require Import ZArith Lia.

(** ** Errors

    A Go [error] is one of: a package-level variable made by [errors.New] (compared by identity,
    hence a constructor of its own), an ad-hoc error made by [errors.New]/[fmt.Errorf] or returned
    by the operating system (only its text is observable), or an error wrapped with [%w]. *)
Inductive error : Set :=
| ESentinel (msg : string)
| EText (msg : string)
| EWrap (pre : string) (inner : error) (post : string).

#[export] Instance error_eq_dec : EqDecision error.
Proof. solve_decision. Defined.

(** [err.Error()] *)
Fixpoint error_string (e : error) : string :=
  match e with
  | ESentinel m | EText m => m
  | EWrap pre e' post => pre +:+ error_string e' +:+ post
  end.

(** [errors.Is(err, target)] *)
Fixpoint errors_is (e target : error) : bool :=
  bool_decide (e = target) ||
  match e with
  | EWrap _ e' _ => errors_is e' target
  | _ => false
  end.

(** ** Results: a value or an error

    Go's [(T, error)] returns where the value is only meaningful when the error is nil. *)
Inductive result (A : Type) : Type :=
| Ok (a : A)
| Err (e : error).
Arguments Ok {A} a.
Arguments Err {A} e.

#[export] Instance result_eq_dec {A} `{EqDecision A} : EqDecision (result A).
Proof. solve_decision. Defined.

#[export] Instance result_ret : MRet result := fun A a => Ok a.
#[export] Instance result_bind : MBind result :=
  fun A B f r => match r with Ok a => f a | Err e => Err e end.
#[export] Instance result_fmap : FMap result :=
  fun A B f r => match r with Ok a => Ok (f a) | Err e => Err e end.

Definition is_ok {A} (r : result A) : bool := match r with Ok _ => true | Err _ => false end.

(** [Err] unless the option holds a value. *)
Definition option_or_err {A} (o : option A) (e : error) : result A :=
  match o with Some a => Ok a | None => Err e end.

Lemma bind_Ok {A B} (f : A -> result B) (r : result A) b :
  r ≫= f = Ok b <-> exists a, r = Ok a /\ f a = Ok b.
Proof. destruct r; cbn; naive_solver. Qed.

Lemma is_ok_true {A} (r : result A) : is_ok r = true <-> exists a, r = Ok a.
Proof. destruct r; cbn; naive_solver. Qed.

(** ** Automation *)

Declare Scope fetch_scope.
Delimit Scope fetch_scope with fetch.

(** Case analysis on the discriminee of the outermost match in a hypothesis or in the goal. *)
Ltac destruct_match_in H :=
  match type of H with
  | context [match ?x with _ => _ end] =>
      lazymatch x with
      | context [match _ with _ => _ end] => fail
      | _ => let E := fresh "E" in destruct x eqn:E
      end
  end.

Ltac destruct_match_goal :=
  match goal with
  | |- context [match ?x with _ => _ end] =>
      lazymatch x with
      | context [match _ with _ => _ end] => fail
      | _ => let E := fresh "E" in destruct x eqn:E
      end
  end.

(** Inverts a computation that is known to have produced a value. *)
Ltac inv_result H :=
  repeat (first [progress simplify_eq/= | apply bind_Ok in H; destruct H as (? & ? & H)
                | destruct_match_in H]; try done).

Ltac split_bools :=
  repeat match goal with
  | H : (_ && _)%bool = true |- _ => apply andb_true_iff in H; destruct H
  | H : (_ || _)%bool = false |- _ => apply orb_false_iff in H; destruct H
  | H : negb _ = true |- _ => apply negb_true_iff in H
  | H : negb _ = false |- _ => apply negb_false_iff in H
  | H : bool_decide _ = true |- _ => apply bool_decide_eq_true in H
  | H : bool_decide _ = false |- _ => apply bool_decide_eq_false in H
  end.

(** Lemmas that normalise the string and hex encoders, for round trips. *)
Create HintDb codec.
(** Lemmas on the state transformers of the service. *)
Create HintDb service.

(** ** Generic lemmas *)

(** The outcome of a computation by its parts, for witnesses that evaluate it. *)
Lemma triple_eta {A B C} (r : A * B * C) (c : C) : r.2 = c -> r = (r.1.1, r.1.2, c).
Proof. destruct r as [[a b] c']. by intros <-. Qed.

(** Concatenation computes on a constructor (stdpp blocks it). *)
#[global] Arguments String.append !_ _ / : simpl nomatch.

Lemma existsb_false_iff {A} (f : A -> bool) (l : list A) :
  existsb f l = false <-> forall x, In x l -> f x = false.
Proof.
  split.
  - intros H x Hx. destruct (f x) eqn:E; [|done].
    assert (existsb f l = true) by (apply existsb_exists; eauto). congruence.
  - intros H. destruct (existsb f l) eqn:E; [|done].
    apply existsb_exists in E as (x & Hx & Hf). rewrite (H x Hx) in Hf. done.
Qed.

Lemma if_same {A} (b : bool) (x : A) : (if b then x else x) = x.
Proof. by destruct b. Qed.

Lemma app_str_assoc (a b c : string) : (a +:+ b) +:+ c = a +:+ (b +:+ c).
Proof. induction a as [|x a IH]; [done|]. simpl. f_equal. apply IH. Qed.

Lemma app_str_nil_r (a : string) : a +:+ "" = a.
Proof. induction a as [|x a IH]; [done|]. simpl. f_equal. apply IH. Qed.

Lemma length_app_str (a b : string) :
  String.length (a +:+ b) = String.length a + String.length b.
Proof. induction a as [|x a IH]; [done|]. simpl. f_equal. apply IH. Qed.
#[export] Hint Rewrite app_str_assoc app_str_nil_r length_app_str : codec.
