(* ===== verification/GoStrings.v ===== *)
(** * The parts of Go's standard library the service computes with

    Go strings and byte slices are sequences of bytes: [string] here is Rocq's byte string.
    Models of [strings], [slices], [strconv], [bufio.ScanLines] and [path/filepath], restricted to
    what the source uses, each with the lemmas the components rely on. *)
From stdpp Require Import base gmap strings list option.
From Stdlib Require Import ZArith Lia Ascii.
From S2P Require Import Prelude.

Notation byte := ascii.

Definition byte_Z (c : ascii) : Z := Z.of_N (N_of_ascii c).
Definition chr (n : N) : ascii := ascii_of_N n.
Definition nl : ascii := chr 10.
Definition cr : ascii := chr 13.
Definition slash : ascii := "/"%char.

Definition str1 (c : ascii) : string := String c "".

(** ** Prefixes and suffixes *)

Fixpoint strip_prefix (p s : string) : option string :=
  match p, s with
  | "", _ => Some s
  | String a p', String b s' => if decide (a = b) then strip_prefix p' s' else None
  | String _ _, "" => None
  end.

Fixpoint rev_onto (s acc : string) : string :=
  match s with "" => acc | String c s' => rev_onto s' (String c acc) end.
Definition srev (s : string) : string := rev_onto s "".

Definition HasPrefix (s p : string) : bool := if strip_prefix p s then true else false.
Definition strip_suffix (p s : string) : option string :=
  srev <$> strip_prefix (srev p) (srev s).
Definition HasSuffix (s p : string) : bool := if strip_suffix p s then true else false.

(** [strings.CutPrefix] and [strings.CutSuffix]: the remainder and whether it was found. *)
Definition CutPrefix (s p : string) : string * bool :=
  match strip_prefix p s with Some r => (r, true) | None => (s, false) end.
Definition CutSuffix (s p : string) : string * bool :=
  match strip_suffix p s with Some r => (r, true) | None => (s, false) end.
Definition TrimPrefix (s p : string) : string := fst (CutPrefix s p).
Definition TrimSuffix (s p : string) : string := fst (CutSuffix s p).

(** ** Splitting and joining *)

(** [strings.Cut(s, sep)]: around the first occurrence of [sep]. *)
Fixpoint Cut (s sep : string) : option (string * string) :=
  match strip_prefix sep s with
  | Some r => Some ("", r)
  | None =>
      match s with
      | "" => None
      | String c s' => match Cut s' sep with
                       | Some (a, b) => Some (String c a, b)
                       | None => None
                       end
      end
  end.

Definition Contains (s sub : string) : bool := if Cut s sub then true else false.

(** [strings.Split(s, sep)] for a separator of one byte (the only kind the source uses). *)
Fixpoint Split (s : string) (c : ascii) : list string :=
  match s with
  | "" => [""]
  | String x s' =>
      if decide (x = c) then "" :: Split s' c
      else match Split s' c with
           | w :: ws => String x w :: ws
           | [] => [str1 x]
           end
  end.

(** [strings.SplitN(s, sep, 2)] *)
Definition SplitN2 (s sep : string) : list string :=
  match Cut s sep with Some (a, b) => [a; b] | None => [s] end.

Fixpoint Join (l : list string) (sep : string) : string :=
  match l with
  | [] => ""
  | [x] => x
  | x :: l' => x +:+ sep +:+ Join l' sep
  end.

(** [strings.ReplaceAll(s, old, new)] with a one-byte [old]. *)
Fixpoint ReplaceAll (s : string) (old : ascii) (new : string) : string :=
  match s with
  | "" => ""
  | String x s' => (if decide (x = old) then new else str1 x) +:+ ReplaceAll s' old new
  end.

(** [slices.Index] *)
Fixpoint slices_Index (l : list string) (x : string) : option nat :=
  match l with
  | [] => None
  | y :: l' => if decide (y = x) then Some 0 else S <$> slices_Index l' x
  end.
Definition slices_Contains (l : list string) (x : string) : bool :=
  existsb (String.eqb x) l.

(** ** White space *)

(** The UTF-8 encodings of the runes with the White_Space property ([unicode.IsSpace]). *)
Definition space_runes : list string :=
  map str1 [chr 9; chr 10; chr 11; chr 12; chr 13; chr 32] ++
  map (fun l => fold_right (fun n s => String (chr n) s) "" l)
    ([[194; 133]; [194; 160]; [225; 154; 128]; [226; 128; 168]; [226; 128; 169];
      [226; 128; 175]; [226; 129; 159]; [227; 128; 128]]%N ++
     map (fun n => [226; 128; 128 + n]%N) [0; 1; 2; 3; 4; 5; 6; 7; 8; 9; 10]%N).

Fixpoint strip_first (ps : list string) (s : string) : option string :=
  match ps with
  | [] => None
  | p :: ps' => match strip_prefix p s with Some r => Some r | None => strip_first ps' s end
  end.

Fixpoint trim_left (fuel : nat) (ps : list string) (s : string) : string :=
  match fuel with
  | O => s
  | S n => match strip_first ps s with Some r => trim_left n ps r | None => s end
  end.

(** [strings.TrimSpace]: each round removes at least one byte, so the length is enough fuel. *)
Definition TrimSpace (s : string) : string :=
  let l := trim_left (String.length s) space_runes s in
  srev (trim_left (String.length l) (map srev space_runes) (srev l)).

(** [strings.Trim(s, cutset)] for a one-byte cutset. *)
Definition TrimByte (s : string) (c : ascii) : string :=
  let l := trim_left (String.length s) [str1 c] s in
  srev (trim_left (String.length l) [str1 c] (srev l)).

Definition is_upper (c : ascii) : bool := ((65 <=? byte_Z c) && (byte_Z c <=? 90))%Z.
Definition lower_byte (c : ascii) : ascii :=
  if is_upper c then chr (N_of_ascii c + 32) else c.
(** [strings.ToLower], on ASCII text. *)
Fixpoint ToLower (s : string) : string :=
  match s with "" => "" | String c s' => String (lower_byte c) (ToLower s') end.

(** ** Integers *)

(** Value of a digit in bases up to 36, as [strconv] reads it. *)
Definition digit_val (c : ascii) : option Z :=
  let z := byte_Z c in
  (if (48 <=? z) && (z <=? 57) then Some (z - 48)
   else if (97 <=? z) && (z <=? 122) then Some (z - 87)
   else if (65 <=? z) && (z <=? 90) then Some (z - 55)
   else None)%Z.

Fixpoint parse_digits (base : Z) (s : string) (acc : Z) : option Z :=
  match s with
  | "" => Some acc
  | String c s' =>
      match digit_val c with
      | Some d => if (d <? base)%Z then parse_digits base s' (acc * base + d)%Z else None
      | None => None
      end
  end.

(** [strconv.ParseUint(s, base, bits)], for an explicit base (no underscores, no prefix). *)
Definition ParseUint (s : string) (base bits : Z) : result Z :=
  match s with
  | "" => Err (EText "invalid syntax")
  | _ => match parse_digits base s 0 with
         | None => Err (EText "invalid syntax")
         | Some v => if (v <? 2 ^ bits)%Z then Ok v else Err (EText "value out of range")
         end
  end.

(** [strconv.ParseInt(s, base, bits)]; [strconv.Atoi(s)] is [ParseInt s 10 64]. *)
Definition ParseInt (s : string) (base bits : Z) : result Z :=
  let '(neg, u) := match s with
                   | String c s' => if decide (c = "-"%char) then (true, s')
                                    else if decide (c = "+"%char) then (false, s') else (false, s)
                   | "" => (false, "")
                   end in
  match ParseUint u base 64 with
  | Err (EText "invalid syntax") => Err (EText "invalid syntax")
  | Err _ => Err (EText "value out of range")
  | Ok v =>
      (if negb neg && (2 ^ (bits - 1) <=? v) then Err (EText "value out of range")
       else if neg && (2 ^ (bits - 1) <? v) then Err (EText "value out of range")
       else Ok (if neg then - v else v))%Z
  end.
Definition Atoi (s : string) : result Z := ParseInt s 10 64.

(** Decimal rendering of an integer ([%d], [strconv.Itoa], [strconv.FormatInt(_, 10)]). *)
Fixpoint digits_of_pos_nat (fuel : nat) (n : N) (acc : string) : string :=
  match fuel with
  | O => acc
  | S f => let acc' := String (chr (48 + n mod 10)) acc in
           if (n <? 10)%N then acc' else digits_of_pos_nat f (n / 10)%N acc'
  end.
Definition N_to_dec (n : N) : string := digits_of_pos_nat (S (N.to_nat (N.log2 n))) n "".
Definition Itoa (z : Z) : string :=
  if (z <? 0)%Z then "-" +:+ N_to_dec (Z.to_N (- z)) else N_to_dec (Z.to_N z).

(** ** Machine integers *)

Definition wrap_u64 (z : Z) : Z := (z mod 2 ^ 64)%Z.
Definition wrap_i64 (z : Z) : Z := ((z + 2 ^ 63) mod 2 ^ 64 - 2 ^ 63)%Z.

(** ** Lines *)

Definition drop_cr (s : string) : string := TrimSuffix s (str1 cr).

(** The tokens of a [bufio.Scanner] with [bufio.ScanLines]: the text between line feeds, without
    the trailing carriage return; the empty rest after the last line feed is no token. *)
Definition ScanLines (s : string) : list string :=
  match s with
  | "" => []
  | _ =>
      let ls := Split s nl in
      drop_cr <$> (if String.eqb (List.last ls "") "" then removelast ls else ls)
  end.

(** The scanner gives up at a line that does not fit its buffer with its line feed (64 KiB unless set); the
    lines before it were read. *)
Definition ErrTooLong : error := ESentinel "bufio.Scanner: token too long".
Fixpoint short_lines (limit : Z) (l : list string) : list string * option error :=
  match l with
  | [] => ([], None)
  | x :: l' =>
      if (Z.of_nat (String.length x) <? limit)%Z then
        let '(xs, e) := short_lines limit l' in (drop_cr x :: xs, e)
      else ([], Some ErrTooLong)
  end.
Definition Scanner_Buffer (limit : Z) (s : string) : list string * option error :=
  match s with
  | "" => ([], None)
  | _ =>
      let ls := Split s nl in
      short_lines limit (if String.eqb (List.last ls "") "" then removelast ls else ls)
  end.
Definition Scanner_Lines : string -> list string * option error := Scanner_Buffer 65536.

(** [strings.Fields]: the pieces between runs of white space; every round removes a byte or more. *)
Definition nonempty (w : string) : list string := match w with "" => [] | _ => [w] end.
Fixpoint fields_from (fuel : nat) (word s : string) : list string :=
  match fuel with
  | O => nonempty word
  | S n =>
      match strip_first space_runes s with
      | Some r => nonempty word ++ fields_from n "" r
      | None => match s with
                | "" => nonempty word
                | String c s' => fields_from n (word +:+ str1 c) s'
                end
      end
  end.
Definition Fields (s : string) : list string := fields_from (S (String.length s)) "" s.

(** [strings.SplitAfter] with a separator that is not empty: the pieces end in the separator, but the last. *)
Fixpoint split_after (fuel : nat) (s sep : string) : list string :=
  match fuel with
  | O => [s]
  | S n => match Cut s sep with
           | Some (a, b) => (a +:+ sep) :: split_after n b sep
           | None => [s]
           end
  end.
Definition SplitAfter (s sep : string) : list string := split_after (String.length s) s sep.

(** [strings.LastIndex]: the text before and after the last occurrence of a separator. *)
Fixpoint CutLast (s sep : string) : option (string * string) :=
  match s with
  | "" => None
  | String c s' =>
      match CutLast s' sep with
      | Some (a, b) => Some (String c a, b)
      | None => match strip_prefix sep s with Some b => Some ("", b) | None => None end
      end
  end.

(** ** Paths *)

(** One step of [path/filepath.Clean] on the stack of kept elements (innermost first). *)
Definition clean_step (rooted : bool) (st : list string) (e : string) : list string :=
  match e with
  | "" | "." => st
  | ".." => match st with
            | [] => if rooted then [] else [".."]
            | ".." :: _ => ".." :: st
            | _ :: st' => st'
            end
  | _ => e :: st
  end.

Definition Clean (p : string) : string :=
  match p with
  | "" => "."
  | String c _ =>
      let rooted := bool_decide (c = slash) in
      let elems := rev (fold_left (clean_step rooted) (Split p slash) []) in
      let body := Join elems "/" in
      if rooted then "/" +:+ body else match elems with [] => "." | _ => body end
  end.

(** [filepath.Join]: empty elements are ignored and the result is cleaned. *)
Definition filepath_Join (l : list string) : string :=
  match List.filter (fun e => negb (String.eqb e "")) l with
  | [] => ""
  | l' => Clean (Join l' "/")
  end.

(** The text after the last slash, reversed scan: what [filepath.Dir] cuts off. *)
Fixpoint drop_to_slash (s : string) : string :=
  match s with "" => "" | String c s' => if decide (c = slash) then s else drop_to_slash s' end.
(** [filepath.Dir] *)
Definition Dir (p : string) : string := Clean (srev (drop_to_slash (srev p))).

(** ** Lemmas *)

Lemma strip_prefix_Some p s r : strip_prefix p s = Some r <-> s = p +:+ r.
Proof.
  revert s; induction p as [|a p IH]; intros [|b s]; simpl; try naive_solver.
  case_decide as Hab; [|naive_solver]. subst. rewrite IH. naive_solver.
Qed.

Lemma strip_prefix_app p r : strip_prefix p (p +:+ r) = Some r.
Proof. by apply strip_prefix_Some. Qed.
#[export] Hint Rewrite strip_prefix_app : codec.

Lemma rev_onto_app s acc : rev_onto s acc = rev_onto s "" +:+ acc.
Proof.
  revert acc; induction s as [|c s IH]; intros acc; simpl; [done|].
  rewrite IH, (IH (String c "")). by rewrite app_str_assoc.
Qed.

Lemma srev_cons c s : srev (String c s) = srev s +:+ str1 c.
Proof. unfold srev; simpl. by rewrite rev_onto_app. Qed.

Lemma srev_app a b : srev (a +:+ b) = srev b +:+ srev a.
Proof.
  induction a as [|c a IH]; simpl; [by rewrite app_str_nil_r|].
  by rewrite !srev_cons, IH, app_str_assoc.
Qed.

Lemma srev_involutive s : srev (srev s) = s.
Proof. induction s as [|c s IH]; [done|]. by rewrite srev_cons, srev_app, IH. Qed.

Lemma length_srev s : String.length (srev s) = String.length s.
Proof.
  induction s as [|c s IH]; [done|].
  rewrite srev_cons, length_app_str, IH; simpl; lia.
Qed.

Lemma strip_suffix_Some p s r : strip_suffix p s = Some r <-> s = r +:+ p.
Proof.
  unfold strip_suffix. rewrite fmap_Some. split.
  - intros (x & Hx & ->). apply strip_prefix_Some in Hx.
    rewrite <- (srev_involutive s), Hx, srev_app, srev_involutive. done.
  - intros ->. exists (srev r). rewrite srev_involutive, strip_prefix_Some, srev_app. done.
Qed.

Lemma HasPrefix_true s p : HasPrefix s p = true <-> exists r, s = p +:+ r.
Proof.
  unfold HasPrefix. destruct (strip_prefix p s) eqn:E.
  - apply strip_prefix_Some in E. naive_solver.
  - split; [done|]. intros [r ->]. by rewrite strip_prefix_app in E.
Qed.

Lemma HasSuffix_true s p : HasSuffix s p = true <-> exists r, s = r +:+ p.
Proof.
  unfold HasSuffix. destruct (strip_suffix p s) eqn:E.
  - apply strip_suffix_Some in E. naive_solver.
  - split; [done|]. intros [r ->].
    by rewrite (proj2 (strip_suffix_Some p (r +:+ p) r) eq_refl) in E.
Qed.

Lemma Cut_Some s sep a b : Cut s sep = Some (a, b) -> s = a +:+ sep +:+ b.
Proof.
  revert a b; induction s as [|c s IH]; intros a b; simpl;
    destruct (strip_prefix sep _) eqn:E; intros H; simplify_eq.
  - by apply strip_prefix_Some in E.
  - by apply strip_prefix_Some in E.
  - destruct (Cut s sep) as [[a' b']|]; simplify_eq. simpl. f_equal. by apply IH.
Qed.

Fixpoint occurs (c : ascii) (s : string) : bool :=
  match s with "" => false | String x s' => bool_decide (x = c) || occurs c s' end.

Lemma occurs_app c a b : occurs c (a +:+ b) = occurs c a || occurs c b.
Proof. induction a as [|x a IH]; [done|]. cbn [String.append occurs]. by rewrite IH, orb_assoc. Qed.

(** The part before the first occurrence of a one-byte separator does not contain it. *)
Lemma Cut1_spec s c a b :
  Cut s (str1 c) = Some (a, b) <-> s = a +:+ str1 c +:+ b /\ occurs c a = false.
Proof.
  revert a b; induction s as [|x s IH]; intros a b; simpl.
  - split; [done|]. intros [H _]. by destruct a.
  - case_decide as Hx.
    + subst. split.
      * intros. by simplify_eq.
      * intros [H Ho]. destruct a; simplify_eq/=; [done|].
        rewrite bool_decide_eq_true_2 in Ho by done. done.
    + destruct (Cut s (str1 c)) as [[a' b']|] eqn:E.
      * split.
        -- intros. simplify_eq/=. destruct (proj1 (IH _ _) eq_refl) as [-> Ho].
           rewrite bool_decide_eq_false_2 by done. split; [done|]. simpl. done.
        -- intros [H Ho]. destruct a as [|y a]; simplify_eq/=. split_bools.
           assert (Some (a', b') = Some (a, b)) by (apply IH; done). by simplify_eq.
      * split; [done|]. intros [H Ho]. destruct a as [|y a]; simplify_eq/=. split_bools.
        assert (None = Some (a, b)) by (apply IH; done). done.
Qed.

Lemma Cut1_None s c : Cut s (str1 c) = None <-> occurs c s = false.
Proof.
  induction s as [|x s IH]; simpl; [done|].
  case_decide as Hx.
  - rewrite bool_decide_eq_true_2 by done. done.
  - rewrite bool_decide_eq_false_2 by done. simpl. rewrite <- IH.
    destruct (Cut s (str1 c)) as [[]|]; done.
Qed.

Lemma Split_not_nil s c : Split s c <> [].
Proof. destruct s; simpl; [done|]. case_decide; [done|]. by destruct (Split s c). Qed.

(** [strings.Join] undoes [strings.Split]. *)
Lemma Join_Split s c : Join (Split s c) (str1 c) = s.
Proof.
  induction s as [|x s IH]; simpl; [done|].
  pose proof (Split_not_nil s c) as Hn. case_decide as Hx.
  - destruct (Split s c) as [|w ws] eqn:E; [done|]. subst x. rewrite <- IH. done.
  - destruct (Split s c) as [|w ws] eqn:E; [done|]. rewrite <- IH. by destruct ws.
Qed.

Lemma Split_no_sep s c w : In w (Split s c) -> occurs c w = false.
Proof.
  revert w; induction s as [|x s IH]; simpl; intros w Hw.
  - by destruct Hw as [<-|[]].
  - case_decide as Hx.
    + destruct Hw as [<-|Hw]; [done|]. by apply IH.
    + destruct (Split s c) as [|w' ws] eqn:E; [by apply Split_not_nil in E|].
      destruct Hw as [<-|Hw]; [|apply IH; by right].
      simpl. rewrite bool_decide_eq_false_2 by done. apply IH. by left.
Qed.

Lemma slices_Index_Some l x n :
  slices_Index l x = Some n -> l !! n = Some x.
Proof.
  revert n; induction l as [|y l IH]; simpl; [done|]. intros n.
  case_decide; [naive_solver|].
  rewrite fmap_Some. intros (m & Hm & ->). simpl. by apply IH.
Qed.

Lemma wrap_u64_range z : (0 <= wrap_u64 z < 2 ^ 64)%Z.
Proof. apply Z.mod_pos_bound. lia. Qed.
Lemma wrap_u64_small z : (0 <= z < 2 ^ 64)%Z -> wrap_u64 z = z.
Proof. apply Z.mod_small. Qed.
Lemma wrap_i64_range z : (- 2 ^ 63 <= wrap_i64 z < 2 ^ 63)%Z.
Proof. unfold wrap_i64. pose proof (Z.mod_pos_bound (z + 2 ^ 63) (2 ^ 64)). lia. Qed.
Lemma wrap_i64_small z : (- 2 ^ 63 <= z < 2 ^ 63)%Z -> wrap_i64 z = z.
Proof. intros. unfold wrap_i64. rewrite Z.mod_small; lia. Qed.

Lemma digit_val_nonneg c d : digit_val c = Some d -> (0 <= d)%Z.
Proof.
  unfold digit_val. intros H.
  repeat case_match; simplify_eq; split_bools; lia.
Qed.

Lemma parse_digits_nonneg base s acc v :
  (0 <= base)%Z -> (0 <= acc)%Z -> parse_digits base s acc = Some v -> (0 <= v)%Z.
Proof.
  intros Hb; revert acc; induction s as [|c s IH]; simpl; intros acc Ha H; simplify_eq; [done|].
  repeat case_match; simplify_eq. apply IH in H; [done|].
  apply digit_val_nonneg in H0. nia.
Qed.

Lemma ParseUint_bounds s base bits v :
  (0 <= base)%Z -> ParseUint s base bits = Ok v -> (0 <= v < 2 ^ bits)%Z.
Proof.
  intros Hb. unfold ParseUint. destruct s; [done|].
  destruct (parse_digits base (String a s) 0) eqn:E; [|done].
  case_match; [|done]. intros; simplify_eq.
  apply parse_digits_nonneg in E; [|done|lia]. lia.
Qed.

Lemma ParseInt_bounds s base bits v :
  (0 <= base)%Z -> (1 <= bits)%Z -> ParseInt s base bits = Ok v ->
  (- 2 ^ (bits - 1) <= v < 2 ^ (bits - 1))%Z.
Proof.
  intros Hb Hbits. unfold ParseInt.
  set (p := match s with "" => _ | String c s' => _ end). destruct p as [neg u].
  assert (0 < 2 ^ (bits - 1))%Z by (apply Z.pow_pos_nonneg; lia).
  destruct (ParseUint u base 64) as [w|e] eqn:E.
  - apply ParseUint_bounds in E; [|done].
    destruct neg; simpl; repeat case_match; intros; simplify_eq; split_bools; simpl in *; lia.
  - intros Hp. repeat case_match; done.
Qed.
