(* ===== verification/GoCodec.v ===== *)
(** * Go's textual encodings: hexadecimal, base64, UTF-8 and quoted strings

    Models of [encoding/hex], [encoding/base64] (standard alphabet), [unicode/utf8] and
    [strconv.Quote]/[strconv.Unquote], with their round trips. *)
From stdpp Require Import base gmap strings list option.
From Stdlib Require Import ZArith Lia Ascii.
From S2P Require Import Prelude GoStrings.

(** ** Exhaustive reasoning on bytes *)

Definition all_bytes : list ascii := map (fun n => chr (N.of_nat n)) (seq 0 256).

Lemma all_bytes_complete c : In c all_bytes.
Proof.
  unfold all_bytes. apply in_map_iff. exists (nat_of_ascii c). split.
  - unfold chr, nat_of_ascii. rewrite N2Nat.id. apply ascii_N_embedding.
  - apply in_seq. pose proof (nat_ascii_bounded c). lia.
Qed.

Lemma forall_bytes (f : ascii -> bool) : forallb f all_bytes = true -> forall c, f c = true.
Proof. intros H c. rewrite forallb_forall in H. apply H, all_bytes_complete. Qed.

(** A decidable fact about bytes holds if it evaluates to true on all of them. *)
Lemma forall_bytes_dec (P : ascii -> Prop) `{forall c, Decision (P c)} :
  forallb (fun c => bool_decide (P c)) all_bytes = true -> forall c, P c.
Proof.
  intros Hf c. apply (bool_decide_eq_true (P c)).
  exact (forall_bytes (fun c => bool_decide (P c)) Hf c).
Qed.

Ltac by_all_bytes c :=
  pattern c; lazymatch goal with |- ?P c => apply (forall_bytes_dec P) end;
  vm_compute; reflexivity.

(** ** Hexadecimal *)

Definition hex_digit (n : N) : ascii :=
  if (n <? 10)%N then chr (48 + n) else chr (87 + n).

Definition hex_val (c : ascii) : option N :=
  let n := N_of_ascii c in
  if ((48 <=? n) && (n <=? 57))%N then Some (n - 48)%N
  else if ((97 <=? n) && (n <=? 102))%N then Some (n - 87)%N
  else if ((65 <=? n) && (n <=? 70))%N then Some (n - 55)%N
  else None.

(** [hex.EncodeToString] *)
Fixpoint EncodeToString (s : string) : string :=
  match s with
  | "" => ""
  | String c s' =>
      String (hex_digit (N_of_ascii c / 16)) (String (hex_digit (N_of_ascii c mod 16))
        (EncodeToString s'))
  end.

Definition ErrLength : error := ESentinel "encoding/hex: odd length hex string".
Definition InvalidByteError (c : ascii) : error :=
  EText ("encoding/hex: invalid byte: " +:+ str1 c).

(** [hex.DecodeString]: both cases are accepted, the first invalid byte is reported, and an odd
    trailing digit is a length error. *)
Fixpoint DecodeString (s : string) : result string :=
  match s with
  | "" => Ok ""
  | String a s1 =>
      match s1 with
      | "" => match hex_val a with None => Err (InvalidByteError a) | Some _ => Err ErrLength end
      | String b s2 =>
          match hex_val a, hex_val b with
          | None, _ => Err (InvalidByteError a)
          | _, None => Err (InvalidByteError b)
          | Some x, Some y =>
              r ← DecodeString s2; Ok (String (chr (x * 16 + y)) r)
          end
      end
  end.

Lemma hex_digit_val_hi c : hex_val (hex_digit (N_of_ascii c / 16)) = Some (N_of_ascii c / 16)%N.
Proof. by_all_bytes c. Qed.

Lemma hex_digit_val_lo c :
  hex_val (hex_digit (N_of_ascii c mod 16)) = Some (N_of_ascii c mod 16)%N.
Proof. by_all_bytes c. Qed.

(** A byte is a hex digit exactly when its lower-case form is the canonical digit of its value. *)
Lemma hex_val_lower c :
  match hex_val c with
  | Some n => (n < 16)%N /\ lower_byte c = hex_digit n
  | None => hex_val (lower_byte c) = None
  end.
Proof.
  pose (f := fun c => match hex_val c with
    | Some n => (n <? 16)%N && bool_decide (lower_byte c = hex_digit n)
    | None => bool_decide (hex_val (lower_byte c) = None)
    end).
  assert (H : f c = true) by (apply forall_bytes; vm_compute; reflexivity).
  unfold f in H. destruct (hex_val c); split_bools; [|done].
  split; [|done]. by apply N.ltb_lt.
Qed.

Lemma byte_div_mod c : chr (N_of_ascii c / 16 * 16 + N_of_ascii c mod 16) = c.
Proof.
  unfold chr. rewrite (N.mul_comm _ 16), <- (N.div_mod' (N_of_ascii c) 16).
  apply ascii_N_embedding.
Qed.

Lemma chr_nibbles x y : (x < 16)%N -> (y < 16)%N ->
  (N_of_ascii (chr (x * 16 + y)) / 16 = x /\ N_of_ascii (chr (x * 16 + y)) mod 16 = y)%N.
Proof.
  intros Hx Hy. unfold chr. rewrite N_ascii_embedding by lia.
  split; symmetry.
  - apply (N.div_unique _ _ _ y); lia.
  - apply (N.mod_unique _ _ x); lia.
Qed.

Lemma DecodeString_EncodeToString s : DecodeString (EncodeToString s) = Ok s.
Proof.
  induction s as [|c s IH]; [done|]. simpl.
  rewrite hex_digit_val_hi, hex_digit_val_lo, IH. simpl. by rewrite byte_div_mod.
Qed.
#[export] Hint Rewrite DecodeString_EncodeToString : codec.

Lemma length_EncodeToString s : String.length (EncodeToString s) = 2 * String.length s.
Proof. induction s as [|c s IH]; [done|]. simpl in *. lia. Qed.
#[export] Hint Rewrite length_EncodeToString : codec.

Definition str_ind2 (P : string -> Prop) (H0 : P "") (H1 : forall a, P (str1 a))
    (H2 : forall a b s, P s -> P (String a (String b s))) : forall s, P s :=
  fix go s := match s with
    | "" => H0
    | String a s1 => match s1 with
        | "" => H1 a
        | String b s2 => H2 a b s2 (go s2)
        end
    end.

Lemma hex_val_lower_byte c : hex_val (lower_byte c) = hex_val c.
Proof. by_all_bytes c. Qed.

Lemma DecodeString_lower s d : DecodeString (ToLower s) = Ok d <-> DecodeString s = Ok d.
Proof.
  revert d; induction s as [|a|a b s IH] using str_ind2; intros d; [done| |]; simpl;
    rewrite !hex_val_lower_byte.
  - destruct (hex_val a); naive_solver.
  - destruct (hex_val a), (hex_val b); try naive_solver.
    rewrite !bind_Ok. naive_solver.
Qed.

(** Decoding succeeds exactly on the text that lower-cases to the encoding of the result. *)
Lemma DecodeString_Ok s d : DecodeString s = Ok d <-> ToLower s = EncodeToString d.
Proof.
  split; [|intros H; by rewrite <- DecodeString_lower, H, DecodeString_EncodeToString].
  revert d; induction s as [|a|a b s IH] using str_ind2; intros d H.
  - by simplify_eq/=.
  - simpl in H. destruct (hex_val a); done.
  - simpl in H. pose proof (hex_val_lower a) as Ha. pose proof (hex_val_lower b) as Hb.
    destruct (hex_val a) as [x|]; [|done]. destruct (hex_val b) as [y|]; [|done].
    apply bind_Ok in H as (r & Hr & H). simplify_eq/=.
    destruct Ha as [Hx ->], Hb as [Hy ->].
    apply IH in Hr as ->. destruct (chr_nibbles x y) as [-> ->]; done.
Qed.

Lemma length_ToLower s : String.length (ToLower s) = String.length s.
Proof. induction s as [|c s IH]; [done|]. simpl. by rewrite IH. Qed.

Lemma DecodeString_length s d : DecodeString s = Ok d -> String.length s = 2 * String.length d.
Proof.
  intros H%DecodeString_Ok. by rewrite <- (length_ToLower s), H, length_EncodeToString.
Qed.

(** ** UTF-8 *)

Definition in_range (lo hi : Z) (c : ascii) : bool := ((lo <=? byte_Z c) && (byte_Z c <=? hi))%Z.
Definition cont_byte : ascii -> bool := in_range 128 191.

(** Length of the valid UTF-8 encoding [s] starts with; 0 if there is none
    ([utf8.DecodeRuneInString]; an invalid byte decodes to RuneError with size 1). *)
Definition rune_len (s : string) : nat :=
  match s with
  | "" => 0
  | String a s1 =>
      if (byte_Z a <? 128)%Z then 1
      else match s1 with
      | "" => 0
      | String b s2 =>
          if in_range 194 223 a then if cont_byte b then 2 else 0
          else match s2 with
          | "" => 0
          | String c s3 =>
              let ok3 := if (byte_Z a =? 224)%Z then in_range 160 191 b
                         else if (byte_Z a =? 237)%Z then in_range 128 159 b
                         else in_range 225 239 a && cont_byte b in
              if ok3 && cont_byte c then 3
              else match s3 with
              | "" => 0
              | String d _ =>
                  let ok4 := if (byte_Z a =? 240)%Z then in_range 144 191 b
                             else if (byte_Z a =? 244)%Z then in_range 128 143 b
                             else in_range 241 243 a && cont_byte b in
                  if ok4 && cont_byte c && cont_byte d then 4 else 0
              end
          end
      end
  end.

Definition str_of_bytes (l : list N) : string := fold_right (fun n s => String (chr n) s) "" l.
Definition RuneErrorBytes : string := str_of_bytes [239; 191; 189]%N.

(** Surrogate halves and values above the last code point are not encodable. *)
Definition valid_rune (r : N) : bool := ((r <? 55296) || ((57343 <? r) && (r <=? 1114111)))%N.

(** [utf8.EncodeRune] *)
Definition EncodeRune (r : N) : string :=
  if (r <? 128)%N then str_of_bytes [r]
  else if (r <? 2048)%N then str_of_bytes [192 + r / 64; 128 + r mod 64]%N
  else if negb (valid_rune r) then RuneErrorBytes
  else if (r <? 65536)%N then
    str_of_bytes [224 + r / 4096; 128 + (r / 64) mod 64; 128 + r mod 64]%N
  else str_of_bytes [240 + r / 262144; 128 + (r / 4096) mod 64; 128 + (r / 64) mod 64;
                     128 + r mod 64]%N.

(** ** Quoted strings *)

Definition dquote : ascii := chr 34.
Definition squote : ascii := chr 39.
Definition backquote : ascii := chr 96.
Definition backslash : ascii := chr 92.

Definition ErrSyntax : error := ESentinel "invalid syntax".

Fixpoint take_hex (n : nat) (s : string) (acc : N) : option (N * string) :=
  match n, s with
  | O, _ => Some (acc, s)
  | S _, "" => None
  | S n', String c s' =>
      match hex_val c with Some x => take_hex n' s' (acc * 16 + x)%N | None => None end
  end.

Definition octal_val (c : ascii) : option N :=
  let n := N_of_ascii c in if ((48 <=? n) && (n <=? 55))%N then Some (n - 48)%N else None.

Fixpoint str_take (n : nat) (s : string) : string :=
  match n, s with S n', String c s' => String c (str_take n' s') | _, _ => "" end.
Fixpoint str_drop (n : nat) (s : string) : string :=
  match n, s with S n', String _ s' => str_drop n' s' | _, _ => s end.

Lemma str_take_drop n s : str_take n s +:+ str_drop n s = s.
Proof. revert s; induction n as [|n IH]; intros [|c s]; simpl; try done. by rewrite IH. Qed.
Lemma str_take_app n p t : String.length p = n -> str_take n (p +:+ t) = p.
Proof. revert n; induction p as [|c p IH]; intros [|n]; simpl; try done. intros [= H]. by rewrite IH. Qed.
Lemma str_drop_app n p t : String.length p = n -> str_drop n (p +:+ t) = t.
Proof. revert n; induction p as [|c p IH]; intros [|n]; simpl; try done. intros [= H]. by apply IH. Qed.

(** The escape [e] followed by [s], after a backslash: the bytes it stands for and the rest. *)
Definition unquote_escape (e : ascii) (s : string) (quote : ascii) : option (string * string) :=
  let simple n := Some (str_of_bytes [n], s) in
  let rune n :=
    match take_hex n s 0 with
    | Some (v, r) => if valid_rune v then Some (EncodeRune v, r) else None
    | None => None
    end in
  if decide (e = "a"%char) then simple 7%N
  else if decide (e = "b"%char) then simple 8%N
  else if decide (e = "f"%char) then simple 12%N
  else if decide (e = "n"%char) then simple 10%N
  else if decide (e = "r"%char) then simple 13%N
  else if decide (e = "t"%char) then simple 9%N
  else if decide (e = "v"%char) then simple 11%N
  else if decide (e = "x"%char) then
    match take_hex 2 s 0 with Some (v, r) => Some (str_of_bytes [v], r) | None => None end
  else if decide (e = "u"%char) then rune 4
  else if decide (e = "U"%char) then rune 8
  else if decide (e = backslash) then simple 92%N
  else if decide (e = squote \/ e = dquote) then
    if decide (e = quote) then Some (str1 e, s) else None
  else match octal_val e, s with
  | Some x, String f (String g r) =>
      match octal_val f, octal_val g with
      | Some y, Some z =>
          let v := (x * 64 + y * 8 + z)%N in
          if (v <=? 255)%N then Some (str_of_bytes [v], r) else None
      | _, _ => None
      end
  | _, _ => None
  end.

(** [strconv.UnquoteChar(s, quote)] followed by the encoding of the character: the bytes it stands
    for and the rest of the input. *)
Definition UnquoteChar (s : string) (quote : ascii) : option (string * string) :=
  match s with
  | "" => None
  | String c s1 =>
      if decide (c = quote) then None
      else if (128 <=? byte_Z c)%Z then
        match rune_len s with
        | O => Some (RuneErrorBytes, s1)
        | n => Some (str_take n s, str_drop n s)
        end
      else if decide (c <> backslash) then Some (str1 c, s1)
      else match s1 with
           | "" => None
           | String e s2 => unquote_escape e s2 quote
           end
  end.

(** The characters up to the closing quote. *)
Fixpoint unquote_body (fuel : nat) (s : string) (quote : ascii) : option (string * string) :=
  match fuel with
  | O => None
  | S fuel' =>
      match s with
      | "" => None
      | String c s1 =>
          if decide (c = quote) then Some ("", s1)
          else if decide (c = nl) then None
          else match UnquoteChar s quote with
          | None => None
          | Some (b, r) =>
              if decide (quote = squote) then
                match r with
                | String c' r' => if decide (c' = quote) then Some (b, r') else None
                | "" => None
                end
              else match unquote_body fuel' r quote with
                   | Some (bs, r') => Some (b +:+ bs, r')
                   | None => None
                   end
          end
      end
  end.

(** [strconv.Unquote]: every round of the body consumes a byte, so its length is enough fuel. *)
Definition Unquote (s : string) : result string :=
  match s with
  | "" => Err ErrSyntax
  | String q s1 =>
      if decide (q = backquote) then
        match Cut s1 (str1 backquote) with
        | Some (body, "") => Ok (ReplaceAll body cr "")
        | _ => Err ErrSyntax
        end
      else if decide (q = dquote \/ q = squote) then
        match unquote_body (S (String.length s1)) s1 q with
        | Some (out, "") => Ok out
        | _ => Err ErrSyntax
        end
      else Err ErrSyntax
  end.

Definition printable : ascii -> bool := in_range 32 126.

(** [strconv.Quote] on ASCII text. *)
Definition quote_char (c : ascii) : string :=
  if decide (c = dquote \/ c = backslash) then String backslash (str1 c)
  else if printable c then str1 c
  else String backslash
    (if decide (c = nl) then "n" else if decide (c = cr) then "r"
     else if decide (c = chr 9) then "t" else if decide (c = chr 7) then "a"
     else if decide (c = chr 8) then "b" else if decide (c = chr 12) then "f"
     else if decide (c = chr 11) then "v" else "x" +:+ EncodeToString (str1 c)).
Fixpoint quote_chars (s : string) : string :=
  match s with "" => "" | String c s' => quote_char c +:+ quote_chars s' end.
Definition Quote (s : string) : string := String dquote (quote_chars s +:+ str1 dquote).

(** Text that needs no escape. *)
Definition plain_char (c : ascii) : bool :=
  printable c && negb (bool_decide (c = dquote)) && negb (bool_decide (c = backslash)).
Fixpoint str_forall (f : ascii -> bool) (s : string) : bool :=
  match s with "" => true | String c s' => f c && str_forall f s' end.

Lemma str_forall_app f a b : str_forall f (a +:+ b) = str_forall f a && str_forall f b.
Proof. induction a as [|c a IH]; [done|]. simpl. by rewrite IH, andb_assoc. Qed.

Lemma quote_plain c : plain_char c = true -> quote_char c = str1 c.
Proof.
  unfold plain_char, quote_char. intros. split_bools.
  rewrite decide_False by naive_solver.
  by match goal with H : printable c = true |- _ => rewrite H end.
Qed.

Lemma UnquoteChar_plain c s :
  plain_char c = true -> UnquoteChar (String c s) dquote = Some (str1 c, s) /\ c <> nl.
Proof.
  unfold plain_char, printable, in_range. intros. split_bools. split.
  - unfold UnquoteChar. rewrite decide_False by naive_solver.
    destruct (128 <=? byte_Z c)%Z eqn:E; [lia|]. by rewrite decide_True.
  - intros ->. done.
Qed.

Lemma unquote_body_plain s fuel r :
  str_forall plain_char s = true -> String.length s < fuel ->
  unquote_body fuel (s +:+ String dquote r) dquote = Some (s, r).
Proof.
  revert fuel; induction s as [|c s IH]; intros [|fuel] Hs Hf; simpl in *; try lia; [done|].
  split_bools. destruct (UnquoteChar_plain c (s +:+ String dquote r)) as [E Hn]; [done|].
  rewrite decide_False by (intros ->; done). rewrite decide_False by done.
  simpl in E. rewrite E. rewrite IH by (done || lia). done.
Qed.

Lemma quote_chars_plain s : str_forall plain_char s = true -> quote_chars s = s.
Proof.
  induction s as [|c s IH]; simpl; [done|]. intros. split_bools.
  by rewrite quote_plain, IH.
Qed.

Lemma Unquote_Quote_plain s : str_forall plain_char s = true -> Unquote (Quote s) = Ok s.
Proof.
  intros Hs. unfold Unquote, Quote. rewrite quote_chars_plain by done.
  rewrite decide_False by done. rewrite decide_True by auto.
  unfold str1. rewrite unquote_body_plain; [done|done|]. rewrite length_app_str. lia.
Qed.

Lemma EncodeToString_plain s : str_forall plain_char (EncodeToString s) = true.
Proof.
  induction s as [|c s IH]; [done|]. simpl. rewrite IH, andb_true_r.
  apply (forall_bytes (fun c => plain_char (hex_digit (N_of_ascii c / 16)) &&
    plain_char (hex_digit (N_of_ascii c mod 16)))).
  vm_compute. reflexivity.
Qed.

Lemma Unquote_Quote_hex s : Unquote (Quote (EncodeToString s)) = Ok (EncodeToString s).
Proof. apply Unquote_Quote_plain, EncodeToString_plain. Qed.
#[export] Hint Rewrite Unquote_Quote_hex : codec.

(** ** Base64, standard alphabet with padding *)

Definition b64_digit (n : N) : ascii :=
  if (n <? 26)%N then chr (65 + n)
  else if (n <? 52)%N then chr (71 + n)
  else if (n <? 62)%N then chr (n - 4)
  else if (n =? 62)%N then "+"%char else "/"%char.

Definition b64_val (c : ascii) : option N :=
  let n := N_of_ascii c in
  if ((65 <=? n) && (n <=? 90))%N then Some (n - 65)%N
  else if ((97 <=? n) && (n <=? 122))%N then Some (n - 71)%N
  else if ((48 <=? n) && (n <=? 57))%N then Some (n + 4)%N
  else if Ascii.eqb c "+" then Some 62%N
  else if Ascii.eqb c "/" then Some 63%N
  else None.

(** [base64.StdEncoding.EncodeToString] *)
Fixpoint b64_encode (s : string) : string :=
  match s with
  | "" => ""
  | String a "" =>
      let v := (N_of_ascii a * 16)%N in
      String (b64_digit (v / 64)) (String (b64_digit (v mod 64)) "==")
  | String a (String b "") =>
      let v := (N_of_ascii a * 1024 + N_of_ascii b * 4)%N in
      String (b64_digit (v / 4096)) (String (b64_digit (v / 64 mod 64))
        (String (b64_digit (v mod 64)) "="))
  | String a (String b (String c s')) =>
      let v := (N_of_ascii a * 65536 + N_of_ascii b * 256 + N_of_ascii c)%N in
      String (b64_digit (v / 262144)) (String (b64_digit (v / 4096 mod 64))
        (String (b64_digit (v / 64 mod 64)) (String (b64_digit (v mod 64)) (b64_encode s'))))
  end.

Definition CorruptInputError : error := EText "illegal base64 data".

(** One group of four characters, the last of them padding in the final group. Bits that padding
    leaves unused are ignored, as Go's decoder does unless it is strict. *)
Fixpoint b64_groups (s : string) : result string :=
  match s with
  | "" => Ok ""
  | String a (String b (String c (String d s'))) =>
      match b64_val a, b64_val b with
      | Some x, Some y =>
          if Ascii.eqb c "=" then
            if Ascii.eqb d "=" && String.eqb s' "" then Ok (str1 (chr (x * 4 + y / 16)))
            else Err CorruptInputError
          else match b64_val c with
          | None => Err CorruptInputError
          | Some z =>
              if Ascii.eqb d "=" then
                if String.eqb s' "" then
                  Ok (String (chr (x * 4 + y / 16)) (str1 (chr (y mod 16 * 16 + z / 4))))
                else Err CorruptInputError
              else match b64_val d with
              | None => Err CorruptInputError
              | Some w =>
                  r ← b64_groups s';
                  Ok (String (chr (x * 4 + y / 16)) (String (chr (y mod 16 * 16 + z / 4))
                       (String (chr (z mod 4 * 64 + w)) r)))
              end
          end
      | _, _ => Err CorruptInputError
      end
  | _ => Err CorruptInputError
  end.

(** [base64.StdEncoding.DecodeString]: line breaks are skipped. *)
Definition b64_decode (s : string) : result string :=
  b64_groups (ReplaceAll (ReplaceAll s nl "") cr "").

Lemma b64_val_digit n : (n < 64)%N -> b64_val (b64_digit n) = Some n.
Proof.
  intros Hn.
  assert (H : forallb (fun i => bool_decide (b64_val (b64_digit (N.of_nat i)) = Some (N.of_nat i)))
                (seq 0 64) = true) by (vm_compute; reflexivity).
  rewrite forallb_forall in H. specialize (H (N.to_nat n)). rewrite N2Nat.id in H.
  apply (bool_decide_eq_true (b64_val (b64_digit n) = Some n)), H, in_seq. lia.
Qed.

Lemma b64_digit_plain n : (n < 64)%N ->
  b64_digit n <> nl /\ b64_digit n <> cr /\ Ascii.eqb (b64_digit n) "=" = false.
Proof.
  intros Hn.
  assert (H : forallb (fun i => negb (Ascii.eqb (b64_digit (N.of_nat i)) nl ||
      Ascii.eqb (b64_digit (N.of_nat i)) cr || Ascii.eqb (b64_digit (N.of_nat i)) "="))
                (seq 0 64) = true) by (vm_compute; reflexivity).
  rewrite forallb_forall in H. specialize (H (N.to_nat n)). rewrite N2Nat.id in H.
  specialize (H ltac:(apply in_seq; lia)). apply negb_true_iff in H. split_bools.
  split_and!; [by apply Ascii.eqb_neq|by apply Ascii.eqb_neq|done].
Qed.

Definition str_ind3 (P : string -> Prop) (H0 : P "") (H1 : forall a, P (str1 a))
    (H2 : forall a b, P (String a (str1 b)))
    (H3 : forall a b c s, P s -> P (String a (String b (String c s)))) : forall s, P s :=
  fix go s := match s with
    | "" => H0
    | String a "" => H1 a
    | String a (String b "") => H2 a b
    | String a (String b (String c s')) => H3 a b c s' (go s')
    end.

Lemma N_of_ascii_bound c : (N_of_ascii c < 256)%N.
Proof. apply N_ascii_bounded. Qed.

Lemma chr_of_ascii n c : n = N_of_ascii c -> chr n = c.
Proof. intros ->. apply ascii_N_embedding. Qed.

Lemma ReplaceAll_cons_ne x s old : x <> old -> ReplaceAll (String x s) old "" =
  String x (ReplaceAll s old "").
Proof. intros. simpl. by rewrite decide_False. Qed.

(** A quotient and remainder of a sum in base 64, 16, 4. *)
Ltac solve_bits :=
  try apply chr_of_ascii;
  repeat match goal with |- context [N_of_ascii ?c] =>
    lazymatch goal with
    | H : (N_of_ascii c < 256)%N |- _ => fail
    | _ => pose proof (N_of_ascii_bound c)
    end end;
  zify; Z.to_euclidean_division_equations; lia.

Lemma b64_roundtrip s : b64_decode (b64_encode s) = Ok s.
Proof.
  assert (Hnl : forall s, ReplaceAll (ReplaceAll (b64_encode s) nl "") cr "" = b64_encode s).
  { assert (Hd : forall n t, (n < 64)%N ->
      ReplaceAll (ReplaceAll t nl "") cr "" = t ->
      ReplaceAll (ReplaceAll (String (b64_digit n) t) nl "") cr "" = String (b64_digit n) t).
    { intros n t Hn Ht. destruct (b64_digit_plain n Hn) as (? & ? & _).
      by rewrite !ReplaceAll_cons_ne, Ht. }
    clear s. intros s. induction s as [|a|a b|a b c s IH] using str_ind3; [done| | |];
      cbn [b64_encode str1]; repeat (apply Hd; [solve_bits|]). all: done. }
  unfold b64_decode. rewrite Hnl. clear Hnl.
  induction s as [|a|a b|a b c s IH] using str_ind3; [done| | |]; cbn [b64_encode str1 b64_groups].
  - rewrite !b64_val_digit by solve_bits. simpl. do 2 f_equal. solve_bits.
  - rewrite !b64_val_digit by solve_bits.
    match goal with |- context [Ascii.eqb (b64_digit ?n) "="] =>
      rewrite (proj2 (proj2 (b64_digit_plain n ltac:(solve_bits)))) end. simpl.
    do 2 f_equal; [solve_bits|]. f_equal. solve_bits.
  - rewrite !b64_val_digit by solve_bits.
    do 2 (match goal with |- context [Ascii.eqb (b64_digit ?n) "="] =>
      rewrite (proj2 (proj2 (b64_digit_plain n ltac:(solve_bits)))) end).
    rewrite IH. simpl. do 2 f_equal; [solve_bits|]. f_equal; [solve_bits|]. f_equal. solve_bits.
Qed.
