(* ===== verification/Platform.v ===== *)
(** * The platform: HTTP values, the operating system and third-party libraries

    Data of Go's [net/url], [net/http] and [time] packages the service computes with, and the
    interfaces of what is not part of this repository: the file system, the glob library and the
    MIME type detector. The interfaces are classes; what the code relies on is stated as laws, and
    a concrete file system shows that the laws can hold. *)
From stdpp Require Import base gmap strings list option fin_maps.
From Stdlib Require Import ZArith Lia Ascii.
From S2P Require Import Prelude GoStrings GoCodec.

(** ** Time

    [time.Time] in UTC as nanoseconds since the Unix epoch; [time.Duration] as nanoseconds. *)
Definition Time : Type := Z.
Definition Duration : Type := Z.
Definition Second : Duration := 1000000000%Z.
Definition Hour : Duration := (3600 * Second)%Z.
(** The zero [time.Time]: January 1 of year 1. *)
Definition zero_time : Time := (-62135596800 * Second)%Z.

(** [uint64(d.Seconds())] for a duration: the whole seconds. *)
Definition whole_seconds (d : Duration) : Z := wrap_u64 (Z.quot d Second).

(** ** URLs *)

Record URL := mkURL {
  Scheme : string;
  Host : string;
  Path : string;
  RawQuery : string;
}.

#[export] Instance URL_eq_dec : EqDecision URL.
Proof. solve_decision. Defined.

Definition is_digits (s : string) : bool := str_forall (in_range 48 57) s.

(** Splits around the last occurrence of a byte. *)
Definition cut_last (c : ascii) (s : string) : option (string * string) :=
  match Cut (srev s) (str1 c) with
  | Some (b, a) => Some (srev a, srev b)
  | None => None
  end.

(** [URL.Hostname] and [URL.Port]. *)
Definition split_host_port (h : string) : string * string :=
  let '(host, port) :=
    match cut_last ":"%char h with
    | Some (a, b) => if is_digits b then (a, b) else (h, "")
    | None => (h, "")
    end in
  match strip_prefix "[" host with
  | Some r => match strip_suffix "]" r with Some r' => (r', port) | None => (host, port) end
  | None => (host, port)
  end.
Definition URL_Hostname (u : URL) : string := fst (split_host_port (Host u)).
Definition URL_Port (u : URL) : string := snd (split_host_port (Host u)).

Definition is_alnum (c : ascii) : bool :=
  in_range 48 57 c || in_range 65 90 c || in_range 97 122 c.
Fixpoint mem_char (c : ascii) (s : string) : bool :=
  match s with "" => false | String x s' => Ascii.eqb x c || mem_char c s' end.

Definition upper_hex (n : N) : ascii := if (n <? 10)%N then chr (48 + n) else chr (55 + n).
Definition percent (c : ascii) : string :=
  String "%" (String (upper_hex (N_of_ascii c / 16)) (str1 (upper_hex (N_of_ascii c mod 16)))).

Fixpoint escape_path (s : string) : string :=
  match s with
  | "" => ""
  | String c s' =>
      (if is_alnum c || mem_char c "-_.~$&+,/:;=@" then str1 c else percent c) +:+ escape_path s'
  end.

(** [URL.String] for a URL without user information, opaque part or fragment. *)
Definition URL_String (u : URL) : string :=
  (if String.eqb (Scheme u) "" then "" else Scheme u +:+ ":") +:+
  (if String.eqb (Scheme u) "" && String.eqb (Host u) "" then "" else "//" +:+ Host u) +:+
  (if negb (String.eqb (Path u) "") && negb (HasPrefix (Path u) "/") && negb (String.eqb (Host u) "")
   then "/" else "") +:+
  escape_path (Path u) +:+
  (if String.eqb (RawQuery u) "" then "" else "?" +:+ RawQuery u).

(** ** HTTP requests *)

(** [http.Header]: canonical key to values. *)
Notation Header := (gmap string (list string)).
Definition Header_Get (h : Header) (k : string) : string :=
  match h !! k with Some (v :: _) => v | _ => "" end.
Definition Header_Set (h : Header) (k v : string) : Header := <[k := [v]]> h.
Definition Header_Del (h : Header) (k : string) : Header := delete k h.

(** A body is read to the end, where the reader reports [io.EOF] or another error. *)
Record Body := mkBody { body_data : string; body_err : option error }.

Record HttpRequest := mkHttpRequest {
  Method : string;
  ReqURL : URL;
  ReqHeader : Header;
  ReqBody : option Body;
  ContentLength : Z;
  TransferEncoding : list string;
  RemoteAddr : string;
  LocalAddr : option string; (** the server address kept in the request context *)
}.

Record HttpResponse := mkHttpResponse {
  StatusCode : Z;
  Status : string;
  RespHeader : Header;
  RespBody : Body;
}.

Definition StatusOK : Z := 200.
Definition StatusBadRequest : Z := 400.
Definition StatusUnauthorized : Z := 401.
Definition StatusForbidden : Z := 403.
Definition StatusNotFound : Z := 404.
Definition StatusRequestEntityTooLarge : Z := 413.
Definition StatusInternalServerError : Z := 500.

(** [net.SplitHostPort]: around the last colon; an IPv6 host is in brackets. *)
Definition SplitHostPort (hp : string) : result (string * string) :=
  let addr_err why := Err (EText ("address " +:+ hp +:+ ": " +:+ why)) in
  match cut_last ":"%char hp with
  | None => addr_err "missing port in address"
  | Some (h, p) =>
      match strip_prefix "[" hp with
      | Some r =>
          match Cut r "]" with
          | None => addr_err "missing ']' in address"
          | Some (host, rest) =>
              if String.eqb rest "" then addr_err "missing port in address"
              else if String.eqb rest (":" +:+ p) then
                if mem_char "["%char r then addr_err "unexpected '[' in address"
                else if mem_char "]"%char rest then addr_err "unexpected ']' in address"
                else Ok (host, p)
              else if HasPrefix rest ":" then addr_err "too many colons in address"
              else addr_err "missing port in address"
          end
      | None =>
          if mem_char ":"%char h then addr_err "too many colons in address"
          else if mem_char "["%char hp then addr_err "unexpected '[' in address"
          else if mem_char "]"%char hp then addr_err "unexpected ']' in address"
          else Ok (h, p)
      end
  end.

(** ** The file system *)

Definition ErrNotExist : error := ESentinel "file does not exist".
(** [os.IsNotExist] and [errors.Is(_, os.ErrNotExist)]. *)
Definition IsNotExist (e : error) : bool := errors_is e ErrNotExist.

(** The calls of package [os] the service makes. [Stat] tells directories ([true]) from files. *)
Class Os := {
  FS : Type;
  os_Stat : FS -> string -> result bool;
  os_ReadFile : FS -> string -> result string;
  os_MkdirAll : FS -> string -> FS * option error;
  os_Create : FS -> string -> FS * option error; (** create or truncate *)
  os_WriteFile : FS -> string -> string -> FS * option error;
  os_Remove : FS -> string -> FS * option error;
  os_RemoveAll : FS -> string -> FS * option error;
  os_Rename : FS -> string -> string -> FS * option error;
}.

(** [q] is [p] or lies below it. *)
Definition under (p q : string) : bool := String.eqb p q || HasPrefix q (p +:+ "/").

(** What the service relies on: the documented effect of a call that succeeds, and that it leaves
    the other paths alone. *)
Class OsLaws `{Os} := {
  os_Create_other fs p fs' e q : os_Create fs p = (fs', e) -> q <> p ->
    os_ReadFile fs' q = os_ReadFile fs q;
  os_WriteFile_read fs p d fs' : os_WriteFile fs p d = (fs', None) -> os_ReadFile fs' p = Ok d;
  os_ReadFile_stat fs p d : os_ReadFile fs p = Ok d -> os_Stat fs p = Ok false;
  os_WriteFile_other fs p d fs' e q : os_WriteFile fs p d = (fs', e) -> q <> p ->
    os_ReadFile fs' q = os_ReadFile fs q;
  os_RemoveAll_gone fs p fs' q : os_RemoveAll fs p = (fs', None) -> under p q = true ->
    os_Stat fs' q = Err ErrNotExist;
  os_RemoveAll_other fs p fs' e q : os_RemoveAll fs p = (fs', e) -> under p q = false ->
    os_ReadFile fs' q = os_ReadFile fs q /\ os_Stat fs' q = os_Stat fs q;
  os_Remove_other fs p fs' e q : os_Remove fs p = (fs', e) -> q <> p ->
    os_ReadFile fs' q = os_ReadFile fs q;
  os_MkdirAll_read fs p fs' e q d : os_MkdirAll fs p = (fs', e) -> os_ReadFile fs q = Ok d ->
    os_ReadFile fs' q = Ok d;
  os_Rename_read fs p q fs' d : os_Rename fs p q = (fs', None) -> os_ReadFile fs p = Ok d ->
    os_ReadFile fs' q = Ok d;
  os_Rename_fail fs p q fs' e r : os_Rename fs p q = (fs', Some e) ->
    os_ReadFile fs' r = os_ReadFile fs r /\ os_Stat fs' r = os_Stat fs r;
  os_Rename_other fs p q fs' e r : os_Rename fs p q = (fs', e) -> under p r = false ->
    under q r = false -> os_ReadFile fs' r = os_ReadFile fs r;
}.

(** ** Glob patterns and MIME detection *)

(** [github.com/gobwas/glob], compiled with ['/'] as the only separator. *)
Class GlobLib := {
  Pattern : Type;
  glob_Compile : string -> result Pattern;
  glob_Match : Pattern -> string -> bool;
}.

(** [github.com/gabriel-vasile/mimetype]. *)
Class MimeLib := {
  MIME : Type;
  MIME_String : MIME -> string;
  MIME_Is : MIME -> string -> bool;
  DetectReader : string -> result MIME;
}.

(** ** A file system in memory

    Paths are keys; [None] is a directory. It satisfies the laws, so theorems that assume them are
    not vacuous, and it runs the witnesses. *)
Notation MemFS := (gmap string (option string)).

Definition mem_Stat (m : MemFS) (p : string) : result bool :=
  match m !! p with Some None => Ok true | Some (Some _) => Ok false | None => Err ErrNotExist end.
Definition mem_ReadFile (m : MemFS) (p : string) : result string :=
  match m !! p with
  | Some (Some d) => Ok d
  | Some None => Err (EText "is a directory")
  | None => Err ErrNotExist
  end.
Definition mem_MkdirAll (m : MemFS) (p : string) : MemFS * option error :=
  match m !! p with
  | Some (Some _) => (m, Some (EText "not a directory"))
  | _ => (<[p := None]> m, None)
  end.
Definition mem_WriteFile (m : MemFS) (p d : string) : MemFS * option error :=
  match m !! p with
  | Some None => (m, Some (EText "is a directory"))
  | _ => (<[p := Some d]> m, None)
  end.
Definition mem_Remove (m : MemFS) (p : string) : MemFS * option error :=
  match m !! p with None => (m, Some ErrNotExist) | Some _ => (delete p m, None) end.
Definition mem_RemoveAll (m : MemFS) (p : string) : MemFS * option error :=
  (filter (fun kv => under p kv.1 = false) m, None).
Definition mem_Rename (m : MemFS) (p q : string) : MemFS * option error :=
  match m !! p with
  | Some (Some d) => (<[q := Some d]> (delete p m), None)
  | Some None => (m, Some (EText "is a directory"))
  | None => (m, Some ErrNotExist)
  end.

#[export] Instance mem_os : Os := {|
  FS := MemFS;
  os_Stat := mem_Stat;
  os_ReadFile := mem_ReadFile;
  os_MkdirAll := mem_MkdirAll;
  os_Create := fun m p => mem_WriteFile m p "";
  os_WriteFile := mem_WriteFile;
  os_Remove := mem_Remove;
  os_RemoveAll := mem_RemoveAll;
  os_Rename := mem_Rename;
|}.

Lemma under_refl p : under p p = true.
Proof. unfold under. by rewrite String.eqb_refl. Qed.

Lemma under_false_ne p q : under p q = false -> q <> p.
Proof. intros H ->. by rewrite under_refl in H. Qed.

Lemma mem_RemoveAll_lookup m p q m' e :
  mem_RemoveAll m p = (m', e) -> m' !! q = if under p q then None else m !! q.
Proof.
  unfold mem_RemoveAll. intros H. simplify_eq. destruct (under p q) eqn:E.
  - apply map_lookup_filter_None. right. intros x _. simpl. by rewrite E.
  - destruct (m !! q) as [x|] eqn:Ex.
    + by apply map_lookup_filter_Some.
    + apply map_lookup_filter_None. by left.
Qed.

(** Evaluates a call on the lookup of its path, and then the lookups after it. *)
Ltac mem_solve :=
  cbn; unfold mem_Stat, mem_ReadFile, mem_MkdirAll, mem_WriteFile, mem_Remove, mem_Rename;
  intros; repeat (case_match; simplify_map_eq; try done).

#[export] Instance mem_os_laws : OsLaws.
Proof.
  split.
  - intros fs p fs' e q H Hne. revert H. mem_solve.
  - mem_solve.
  - mem_solve.
  - intros fs p d fs' e q H Hne. revert H. mem_solve.
  - intros fs p fs' q H Hu. apply (mem_RemoveAll_lookup _ _ q) in H. rewrite Hu in H.
    change (mem_Stat fs' q = Err ErrNotExist). unfold mem_Stat. by rewrite H.
  - intros fs p fs' e q H Hu. apply (mem_RemoveAll_lookup _ _ q) in H. rewrite Hu in H.
    change (mem_ReadFile fs' q = mem_ReadFile fs q /\ mem_Stat fs' q = mem_Stat fs q).
    unfold mem_Stat, mem_ReadFile. by rewrite H.
  - mem_solve.
  - intros fs p fs' e q d. destruct (decide (q = p)) as [->|]; mem_solve.
  - mem_solve.
  - intros fs p q fs' e r. mem_solve.
  - intros fs p q fs' e r H Hp Hq. apply under_false_ne in Hp, Hq. revert H. mem_solve.
Qed.

(** ** Concrete libraries, for witnesses *)

(** Patterns that match only themselves. *)
Definition literal_glob : GlobLib :=
  {| Pattern := string; glob_Compile := fun s => Ok s; glob_Match := String.eqb |}.

(** Every file is plain text. *)
Definition text_mime : MimeLib :=
  {| MIME := unit; MIME_String := fun _ => "text/plain"; MIME_Is := fun _ => String.eqb "text/plain";
     DetectReader := fun _ => Ok tt |}.
