(* ===== verification/HttpUtil.v ===== *)
(** * Requests: addresses, origins and credentials

    [ServerIP] and [ClientIP] of [utils/misc_utils.go], [NormalizedOrigin] of
    [utils/url_utils.go], the basic authentication of [net/http] that the control API uses, and
    the proxy authentication of [proxy/auth/basic.go]. *)
From stdpp Require Import base gmap strings list option.
From Stdlib Require Import ZArith Lia Ascii.
From S2P Require Import Prelude GoStrings GoCodec Platform.

Definition ServerIP (r : HttpRequest) : string :=
  match LocalAddr r with
  | None => "unknown"
  | Some a => match SplitHostPort a with Ok (ip, _) => ip | Err _ => a end
  end.

Definition ClientIP (r : HttpRequest) : string :=
  match SplitHostPort (RemoteAddr r) with
  | Ok (ip, _) => ip
  | Err e => error_string e +:+ " (" +:+ RemoteAddr r +:+ ")"
  end.

(** [Request.UserAgent] *)
Definition Request_UserAgent (r : HttpRequest) : string := Header_Get (ReqHeader r) "User-Agent".

(** ** Basic authentication *)

(** [Request.BasicAuth] of [net/http]. The prefix is matched without regard to letter case. *)
Definition parseBasicAuth (auth : string) : option (string * string) :=
  if String.eqb (ToLower (str_take 6 auth)) "basic " then
    match b64_decode (str_drop 6 auth) with
    | Ok cs => Cut cs ":"
    | Err _ => None
    end
  else None.
Definition BasicAuth (r : HttpRequest) : option (string * string) :=
  let auth := Header_Get (ReqHeader r) "Authorization" in
  if String.eqb auth "" then None else parseBasicAuth auth.

(** [Request.SetBasicAuth] *)
Definition basic_credentials (user pw : string) : string :=
  "Basic " +:+ b64_encode (user +:+ ":" +:+ pw).

(** ** Proxy authentication *)

Definition proxyAuthorizationHeader : string := "Proxy-Authorization".

Definition set_ReqHeader (h : Header) (r : HttpRequest) : HttpRequest :=
  mkHttpRequest (Method r) (ReqURL r) h (ReqBody r) (ContentLength r) (TransferEncoding r)
    (RemoteAddr r) (LocalAddr r).

Section Auth.
(** The authentication function, which may also change the request, and what it changes beyond it. *)
Context {W : Type}.
Variable f : HttpRequest -> string -> string -> W -> HttpRequest * bool * W.

(** [auth]: the request without its credentials, the user the context gets, and the verdict. *)
Definition auth (req : HttpRequest) (w : W) : HttpRequest * option string * bool * W :=
  let authheader := SplitN2 (Header_Get (ReqHeader req) proxyAuthorizationHeader) " " in
  let req := set_ReqHeader (Header_Del (ReqHeader req) proxyAuthorizationHeader) req in
  match authheader with
  | [scheme; credentials] =>
      if negb (String.eqb scheme "Basic") then (req, None, false, w)
      else match b64_decode credentials with
      | Err _ => (req, None, false, w)
      | Ok userpassraw =>
          match SplitN2 userpassraw ":" with
          | [user; passwd] =>
              let '(req, ok, w) := f req user passwd w in (req, Some user, ok, w)
          | _ => (req, None, false, w)
          end
      end
  | _ => (req, None, false, w)
  end.

(** [BasicUnauthorized] *)
Definition unauthorizedMsg : string := "407 Proxy Authentication Required".
Definition BasicUnauthorized (realm : string) : HttpResponse :=
  mkHttpResponse 407 "" (<["Proxy-Authenticate" := ["Basic realm=" +:+ realm]]>
    {["Proxy-Connection" := ["close"]]}) (mkBody unauthorizedMsg None).

(** [Basic]: a request that is not part of an authenticated tunnel is authenticated by its own header,
    and the context stays as it is. The first result is the response that refuses it. *)
Definition Basic (realm : string) (user_data : option string) (req : HttpRequest) (w : W) :
    option HttpResponse * HttpRequest * W :=
  match user_data with
  | Some _ => (None, req, w)
  | None =>
      match auth req w with
      | (req, _, true, w) => (None, req, w)
      | (req, _, false, w) => (Some (BasicUnauthorized realm), req, w)
      end
  end.

(** [BasicConnect]: the context of an accepted tunnel holds the user. *)
Definition BasicConnect (realm : string) (user_data : option string) (req : HttpRequest) (w : W) :
    option HttpResponse * option string * W :=
  match user_data with
  | Some u => (None, Some u, w)
  | None =>
      match auth req w with
      | (_, u, true, w) => (None, u, w)
      | (_, u, false, w) => (Some (BasicUnauthorized realm), u, w)
      end
  end.
End Auth.

(** ** Origins *)

(** The origin with the default HTTPS port if there is none. *)
Definition NormalizedOrigin (u : URL) : string :=
  if String.eqb (Scheme u) "https" && String.eqb (URL_Port u) "" then
    Scheme u +:+ "://" +:+ Host u +:+ ":443"
  else Scheme u +:+ "://" +:+ Host u.

(** ** Lemmas *)

Lemma Cut_user user pw : occurs ":" user = false -> Cut (user +:+ ":" +:+ pw) ":" = Some (user, pw).
Proof. intros H. by apply (Cut1_spec _ ":"%char). Qed.

(** Credentials written by a client are read back. *)
Lemma parse_basic_credentials user pw : occurs ":" user = false ->
  parseBasicAuth (basic_credentials user pw) = Some (user, pw).
Proof.
  intros H. unfold parseBasicAuth, basic_credentials.
  rewrite (str_take_app _ "Basic "), (str_drop_app _ "Basic "), b64_roundtrip by done. simpl.
  by apply Cut_user.
Qed.

Lemma auth_header {W} (f : HttpRequest -> string -> string -> W -> HttpRequest * bool * W) req w :
  let '(req', u, ok, w') := auth f req w in
  (ok = true -> exists user pw credentials, u = Some user /\
     Header_Get (ReqHeader req) proxyAuthorizationHeader = "Basic " +:+ credentials /\
     b64_decode credentials = Ok (user +:+ ":" +:+ pw) /\ occurs ":" user = false /\
     f (set_ReqHeader (Header_Del (ReqHeader req) proxyAuthorizationHeader) req) user pw w
       = (req', true, w')).
Proof.
  unfold auth, SplitN2. destruct (Cut _ " ") as [[scheme cred]|] eqn:E1; [|done].
  destruct (String.eqb scheme "Basic") eqn:Es; simpl; [|done]. apply String.eqb_eq in Es. subst.
  destruct (b64_decode cred) as [raw|] eqn:E2; [|done].
  destruct (Cut raw ":") as [[user pw]|] eqn:E3; [|done].
  destruct (f _ user pw w) as [[req' ok] w'] eqn:E4. intros ->. exists user, pw, cred.
  split; [done|]. apply Cut_Some in E1. split; [exact E1|].
  apply (Cut1_spec _ ":"%char) in E3 as [-> Ho]. done.
Qed.
