(* ===== verification/Regexp.v ===== *)
(** * Regular expressions: Go's package [regexp]

    The syntax the service uses and its leftmost-first matching, by backtracking in order of
    preference. A character class consumes one rune, as in Go: the whole UTF-8 encoding, or one byte
    that is not part of one. No expression of the service repeats a part that can match nothing. *)
From stdpp Require Import base gmap strings list option.
From Stdlib Require Import ZArith Lia Ascii.
From S2P Require Import Prelude GoStrings GoCodec Platform.

(** ** Syntax *)

(** A class is a list of ranges of ASCII characters, possibly negated. *)
Inductive re : Type :=
| REmpty
| RClass (neg : bool) (ranges : list (N * N))
| RSeq (r1 r2 : re)
| RAlt (r1 r2 : re)
| RStar (r : re)
| RGroup (n : nat) (r : re)
| RBegin
| REnd
| RWordBoundary.

#[export] Instance re_eq_dec : EqDecision re.
Proof. solve_decision. Defined.

Definition in_ranges (rs : list (N * N)) (c : ascii) : bool :=
  existsb (fun r => ((fst r <=? N_of_ascii c) && (N_of_ascii c <=? snd r))%N) rs.

Definition chr_range (c : ascii) : N * N := (N_of_ascii c, N_of_ascii c).
Definition RChar (c : ascii) : re := RClass false [chr_range c].
Definition word_ranges : list (N * N) := [(48, 57); (65, 90); (95, 95); (97, 122)]%N.
Definition digit_ranges : list (N * N) := [(48, 57)]%N.
Definition RDot : re := RClass true [(10, 10)]%N.
Definition RPlus (r : re) : re := RSeq r (RStar r).
Definition ROpt (r : re) : re := RAlt r REmpty.
Fixpoint RRepeat (n : nat) (r : re) : re :=
  match n with 0 => REmpty | S n' => RSeq r (RRepeat n' r) end.

(** ** Matching *)

(** A position: the text before it, reversed, and the text after it. *)
Definition pos : Type := string * string.
Definition start (s : string) : pos := ("", s).

Definition rune_width (s : string) : nat := Nat.max 1 (rune_len s).

(** The position [n] bytes further. *)
Fixpoint forward (n : nat) (p : pos) : pos :=
  match n, p with
  | S n', (pre, String c s) => forward n' (String c pre, s)
  | _, _ => p
  end.

Definition class_has (neg : bool) (rs : list (N * N)) (c : ascii) : bool :=
  if (N_of_ascii c <? 128)%N then xorb neg (in_ranges rs c) else neg.

Definition is_word (c : ascii) : bool := in_ranges word_ranges c.
Definition word_at (s : string) : bool := match s with String c _ => is_word c | "" => false end.

(** The texts of the groups matched so far, the last first. *)
Notation captures := (list (nat * string)).

(** The text between two positions. *)
Definition between (p q : pos) : string :=
  str_take (String.length (snd p) - String.length (snd q)) (snd p).

(** As many repetitions as possible first; a repetition has to consume something. *)
Fixpoint run_star (step : pos -> captures -> list (pos * captures)) (fuel : nat) (p : pos)
    (c : captures) : list (pos * captures) :=
  match fuel with
  | 0 => [(p, c)]
  | S fuel' =>
      flat_map (fun qc => if String.length (snd (fst qc)) <? String.length (snd p)
                          then run_star step fuel' (fst qc) (snd qc) else []) (step p c)
      ++ [(p, c)]
  end.

(** The ends of all matches that start at a position, in order of preference. *)
Fixpoint run (r : re) (p : pos) (c : captures) : list (pos * captures) :=
  match r with
  | REmpty => [(p, c)]
  | RClass neg rs =>
      match snd p with
      | "" => []
      | String b _ => if class_has neg rs b then [(forward (rune_width (snd p)) p, c)] else []
      end
  | RSeq r1 r2 => flat_map (fun qc => run r2 (fst qc) (snd qc)) (run r1 p c)
  | RAlt r1 r2 => run r1 p c ++ run r2 p c
  | RStar r => run_star (run r) (S (String.length (snd p))) p c
  | RGroup n r => map (fun qc => (fst qc, (n, between p (fst qc)) :: snd qc)) (run r p c)
  | RBegin => if String.eqb (fst p) "" then [(p, c)] else []
  | REnd => if String.eqb (snd p) "" then [(p, c)] else []
  | RWordBoundary => if xorb (word_at (fst p)) (word_at (snd p)) then [(p, c)] else []
  end.

(** The positions a search tries, from the left. *)
Fixpoint starts (fuel : nat) (p : pos) : list pos :=
  p :: match fuel, snd p with
       | S fuel', String _ _ => starts fuel' (forward (rune_width (snd p)) p)
       | _, _ => []
       end.

(** A compiled expression and its number of groups. *)
Record Regexp := mkRegexp { prog : re; NumSubexp : nat }.

Definition matches_from (rx : Regexp) (s : string) : list (pos * (pos * captures)) :=
  flat_map (fun p => map (pair p) (run (prog rx) p [])) (starts (String.length s) (start s)).

Definition MatchString (rx : Regexp) (s : string) : bool :=
  match matches_from rx s with [] => false | _ => true end.

Fixpoint group_text (n : nat) (c : captures) : string :=
  match c with [] => "" | (m, t) :: c' => if n =? m then t else group_text n c' end.

(** The text of the match and of its groups; empty if there is no match. *)
Definition FindStringSubmatch (rx : Regexp) (s : string) : list string :=
  match matches_from rx s with
  | [] => []
  | (p, (q, c)) :: _ => between p q :: map (fun n => group_text n c) (seq 1 (NumSubexp rx))
  end.

Definition FindString (rx : Regexp) (s : string) : string :=
  match FindStringSubmatch rx s with m :: _ => m | [] => "" end.

(** ** Parsing *)

(** An escaped character outside or inside a class. *)
Definition escape_ranges (c : ascii) : option (list (N * N)) :=
  if Ascii.eqb c "w" then Some word_ranges
  else if Ascii.eqb c "d" then Some digit_ranges
  else if is_word c then None
  else Some [chr_range c].

(** One character of a class, after which a range may continue. *)
Definition class_char (s : string) : option (ascii * string) :=
  match s with
  | String "\" (String c s') => if is_word c then None else Some (c, s')
  | String c s' => Some (c, s')
  | "" => None
  end.

(** The ranges of a class up to the closing bracket. *)
Fixpoint parse_class (fuel : nat) (first : bool) (s : string) : option (list (N * N) * string) :=
  match fuel with
  | 0 => None
  | S fuel' =>
      match s with
      | "" => None
      | String "]" s' => if first then None else Some ([], s')
      | String "\" (String "w" s') =>
          '(rs, s') ← parse_class fuel' false s'; Some (word_ranges ++ rs, s')
      | String "\" (String "d" s') =>
          '(rs, s') ← parse_class fuel' false s'; Some (digit_ranges ++ rs, s')
      | _ =>
          '(lo, s') ← class_char s;
          match s' with
          | String "-" (String "]" _) | "" =>
              '(rs, s') ← parse_class fuel' false s'; Some (chr_range lo :: rs, s')
          | String "-" s'' =>
              '(hi, s') ← class_char s'';
              '(rs, s') ← parse_class fuel' false s'; Some ((N_of_ascii lo, N_of_ascii hi) :: rs, s')
          | _ => '(rs, s') ← parse_class fuel' false s'; Some (chr_range lo :: rs, s')
          end
      end
  end.

(** [n] is the number of the next group. [parse_alt] stops at a closing parenthesis or at the end. *)
Fixpoint parse_alt (fuel : nat) (n : nat) (s : string) : option (re * nat * string) :=
  match fuel with
  | 0 => None
  | S fuel' =>
      '(r, n, s) ← parse_seq fuel' n s;
      match s with
      | String "|" s' => '(r', n, s) ← parse_alt fuel' n s'; Some (RAlt r r', n, s)
      | _ => Some (r, n, s)
      end
  end
with parse_seq (fuel : nat) (n : nat) (s : string) : option (re * nat * string) :=
  match fuel with
  | 0 => None
  | S fuel' =>
      match s with
      | "" => Some (REmpty, n, s)
      | String ")" _ | String "|" _ => Some (REmpty, n, s)
      | _ =>
          '(r, n, s) ← parse_atom fuel' n s;
          let '(r, s) := match s with
                         | String "*" s' => (RStar r, s')
                         | String "+" s' => (RPlus r, s')
                         | String "?" s' => (ROpt r, s')
                         | _ => (r, s)
                         end in
          '(r, s) ← match s with
                    | String "{" s' =>
                        '(k, s') ← Cut s' "}";
                        match ParseUint k 10 32 with
                        | Ok k => Some (RRepeat (Z.to_nat k) r, s')
                        | Err _ => None
                        end
                    | _ => Some (r, s)
                    end;
          '(r', n, s) ← parse_seq fuel' n s; Some (RSeq r r', n, s)
      end
  end
with parse_atom (fuel : nat) (n : nat) (s : string) : option (re * nat * string) :=
  match fuel with
  | 0 => None
  | S fuel' =>
      match s with
      | String "(" (String "?" (String ":" s')) =>
          '(r, n, s) ← parse_alt fuel' n s';
          match s with String ")" s' => Some (r, n, s') | _ => None end
      | String "(" s' =>
          '(r, m, s) ← parse_alt fuel' (S n) s';
          match s with String ")" s' => Some (RGroup n r, m, s') | _ => None end
      | String "[" (String "^" s') =>
          '(rs, s') ← parse_class fuel' true s'; Some (RClass true rs, n, s')
      | String "[" s' => '(rs, s') ← parse_class fuel' true s'; Some (RClass false rs, n, s')
      | String "." s' => Some (RDot, n, s')
      | String "^" s' => Some (RBegin, n, s')
      | String "$" s' => Some (REnd, n, s')
      | String "\" (String "b" s') => Some (RWordBoundary, n, s')
      | String "\" (String c s') => rs ← escape_ranges c; Some (RClass false rs, n, s')
      | String c s' => if mem_char c "*+?{" then None else Some (RChar c, n, s')
      | "" => None
      end
  end.

Definition Compile (s : string) : option Regexp :=
  match parse_alt (3 * S (String.length s)) 1 s with
  | Some (r, n, "") => Some (mkRegexp r (pred n))
  | _ => None
  end.

(** [regexp.MustCompile] panics for other texts; every expression of the service is compiled when the
    program starts, or evaluated by an example below. *)
Definition MustCompile (s : string) : Regexp :=
  default (mkRegexp (RClass false []) 0) (Compile s).

(** ** Meaning *)

(** [w] is the first rune of [w +:+ post]. *)
Definition is_rune (w post : string) : Prop :=
  w <> "" /\ str_take (rune_width (w +:+ post)) (w +:+ post) = w.

(** The texts an expression matches between [pre] (reversed) and [post], and the groups they set. *)
Inductive Matches : re -> string -> string -> string -> captures -> captures -> Prop :=
| M_empty pre post c : Matches REmpty pre "" post c c
| M_class neg rs pre b w post c : class_has neg rs b = true -> is_rune (String b w) post ->
    Matches (RClass neg rs) pre (String b w) post c c
| M_seq r1 r2 pre w1 w2 post c1 c2 c3 :
    Matches r1 pre w1 (w2 +:+ post) c1 c2 -> Matches r2 (rev_onto w1 pre) w2 post c2 c3 ->
    Matches (RSeq r1 r2) pre (w1 +:+ w2) post c1 c3
| M_alt_l r1 r2 pre w post c c' : Matches r1 pre w post c c' -> Matches (RAlt r1 r2) pre w post c c'
| M_alt_r r1 r2 pre w post c c' : Matches r2 pre w post c c' -> Matches (RAlt r1 r2) pre w post c c'
| M_star_nil r pre post c : Matches (RStar r) pre "" post c c
| M_star_cons r pre w1 w2 post c1 c2 c3 : w1 <> "" ->
    Matches r pre w1 (w2 +:+ post) c1 c2 -> Matches (RStar r) (rev_onto w1 pre) w2 post c2 c3 ->
    Matches (RStar r) pre (w1 +:+ w2) post c1 c3
| M_group n r pre w post c c' : Matches r pre w post c c' ->
    Matches (RGroup n r) pre w post c ((n, w) :: c')
| M_begin post c : Matches RBegin "" "" post c c
| M_end pre c : Matches REnd pre "" "" c c
| M_word_boundary pre post c : xorb (word_at pre) (word_at post) = true ->
    Matches RWordBoundary pre "" post c c.

(** ** Lemmas *)

Lemma rev_onto_rev_onto a b acc : rev_onto b (rev_onto a acc) = rev_onto (a +:+ b) acc.
Proof. revert acc; induction a as [|c a IH]; intros acc; [done|]. apply IH. Qed.

Lemma forward_spec n pre s :
  forward n (pre, s) = (rev_onto (str_take n s) pre, str_drop n s).
Proof. revert pre s; induction n as [|n IH]; intros pre [|c s]; simpl; done. Qed.

Lemma str_take_full n s : String.length s <= n -> str_take n s = s.
Proof. revert n; induction s as [|c s IH]; intros [|n] H; simpl in *; try done; [lia|]. rewrite IH; [done|lia]. Qed.

Lemma str_take_length_app a b : str_take (String.length a) (a +:+ b) = a.
Proof. induction a as [|c a IH]; simpl; [by destruct b|]. by rewrite IH. Qed.

Lemma app_str_inv_head a b c : a +:+ b = a +:+ c -> b = c.
Proof. induction a as [|x a IH]; [done|]. simpl. intros [= H]. by apply IH. Qed.

Lemma between_app pre pre' w post : between (pre, w +:+ post) (pre', post) = w.
Proof.
  unfold between. simpl. rewrite length_app_str.
  replace (_ + _ - _) with (String.length w) by lia. apply str_take_length_app.
Qed.

Lemma rune_width_pos s : 1 <= rune_width s.
Proof. unfold rune_width. lia. Qed.

(** What a run finds is a match of the text between the positions. *)
Definition found (r : re) (p : pos) (c : captures) (qc : pos * captures) : Prop :=
  exists w, snd p = w +:+ snd (fst qc) /\ fst (fst qc) = rev_onto w (fst p) /\
  Matches r (fst p) w (snd (fst qc)) c (snd qc).

Lemma run_star_sound r fuel p c qc :
  (forall p c qc, In qc (run r p c) -> found r p c qc) ->
  In qc (run_star (run r) fuel p c) -> found (RStar r) p c qc.
Proof.
  intros Hr. revert p c qc. induction fuel as [|fuel IH]; intros p c qc; simpl.
  { intros [<-|[]]. exists "". split; [done|]. split; [done|]. constructor. }
  intros H. apply in_app_iff in H as [H|[<-|[]]].
  - apply in_flat_map in H as ([q1 c1] & H1 & H2). simpl in H2.
    destruct (_ <? _) eqn:El; [|done]. apply Nat.ltb_lt in El.
    apply Hr in H1 as (w1 & E1 & F1 & M1). apply IH in H2 as (w2 & E2 & F2 & M2). simpl in *.
    exists (w1 +:+ w2). rewrite E1, E2, app_str_assoc. split; [done|].
    split; [by rewrite F2, F1, rev_onto_rev_onto|].
    eapply M_star_cons; [|rewrite <- E2; exact M1|rewrite <- F1; exact M2].
    intros ->. rewrite E1 in El. simpl in El. lia.
  - exists "". split; [done|]. split; [done|]. constructor.
Qed.

Lemma run_sound r : forall p c qc, In qc (run r p c) -> found r p c qc.
Proof.
  induction r as [|neg rs|r1 IH1 r2 IH2|r1 IH1 r2 IH2|r IH|n r IH| | |]; intros p c qc; simpl.
  - intros [<-|[]]. exists "". repeat split; constructor.
  - destruct p as [pre [|b s]]; [done|]. simpl. destruct (class_has neg rs b) eqn:E; [|done].
    intros [<-|[]]. pose proof (forward_spec (rune_width (String b s)) pre (String b s)) as Hf.
    assert (Hb : exists t, str_take (rune_width (String b s)) (String b s) = String b t).
    { pose proof (rune_width_pos (String b s)). destruct (rune_width (String b s)); [lia|].
      simpl. eauto. }
    destruct Hb as [t Ht]. rewrite Hf. exists (String b t). rewrite <- Ht. simpl.
    pose proof (str_take_drop (rune_width (String b s)) (String b s)) as Hc.
    split; [by rewrite Hc|]. split; [done|].
    rewrite Ht in Hc |- *. constructor; [done|]. split; [done|]. by rewrite Hc.
  - intros H. apply in_flat_map in H as ([q1 c1] & H1 & H2).
    apply IH1 in H1 as (w1 & E1 & F1 & M1). apply IH2 in H2 as (w2 & E2 & F2 & M2). simpl in *.
    exists (w1 +:+ w2). rewrite E1, E2, app_str_assoc. split; [done|].
    split; [by rewrite F2, F1, rev_onto_rev_onto|].
    eapply M_seq; [rewrite <- E2; exact M1|rewrite <- F1; exact M2].
  - intros H. apply in_app_iff in H as [H|H].
    + apply IH1 in H as (w & E1 & F1 & M1). exists w. split; [done|]. split; [done|]. by constructor.
    + apply IH2 in H as (w & E1 & F1 & M1). exists w. split; [done|]. split; [done|]. by apply M_alt_r.
  - intros H. by apply (run_star_sound r (S (String.length (snd p)))).
  - intros H. apply in_map_iff in H as ([q1 c1] & <- & H1). apply IH in H1 as (w & E1 & F1 & M1).
    simpl in *. exists w. split; [done|]. split; [done|]. destruct p as [pre s]. simpl in *. subst s.
    destruct q1 as [pre1 s1]. rewrite between_app. by constructor.
  - destruct p as [[|x pre] s]; simpl; [|done]. intros [<-|[]]. exists "". repeat split; constructor.
  - destruct p as [pre [|x s]]; simpl; [|done]. intros [<-|[]]. exists "". repeat split; constructor.
  - destruct (xorb _ _) eqn:E; [|done]. intros [<-|[]]. exists "". repeat split. by constructor.
Qed.

(** Every match is found. *)
Lemma run_complete r pre w post c1 c2 : Matches r pre w post c1 c2 ->
  forall c, exists c', In ((rev_onto w pre, post), c') (run r (pre, w +:+ post) c).
Proof.
  induction 1 as [|neg rs pre b w post c Hc [_ Hr]|r1 r2 pre w1 w2 post c1 c2 c3 H1 IH1 H2 IH2| | |
    |r pre w1 w2 post c1 c2 c3 Hw H1 IH1 H2 IH2|n r pre w post c1 c2 H IH| | |];
    intros c0; simpl.
  - exists c0. by left.
  - rewrite Hc. exists c0. left. f_equal.
    change (String b (w +:+ post)) with (String b w +:+ post). rewrite forward_spec, Hr. simpl. f_equal.
    pose proof (str_take_drop (rune_width (String b w +:+ post)) (String b w +:+ post)) as Hd.
    rewrite Hr in Hd. by apply app_str_inv_head in Hd.
  - destruct (IH1 c0) as [c4 H4]. destruct (IH2 c4) as [c5 H5]. exists c5.
    apply in_flat_map. exists ((rev_onto w1 pre, w2 +:+ post), c4).
    rewrite app_str_assoc, <- rev_onto_rev_onto. done.
  - destruct (IHMatches c0) as [c4 ?]. exists c4. apply in_app_iff. by left.
  - destruct (IHMatches c0) as [c4 ?]. exists c4. apply in_app_iff. by right.
  - exists c0. apply in_app_iff. right. by left.
  - (* a repetition: more fuel finds no less *)
    destruct (IH1 c0) as [c4 H4]. destruct (IH2 c4) as [c5 H5]. exists c5.
    apply in_app_iff. left. apply in_flat_map. exists ((rev_onto w1 pre, w2 +:+ post), c4).
    rewrite app_str_assoc. split; [exact H4|]. cbn [fst snd].
    assert (Hlt : String.length (w2 +:+ post) < String.length (w1 +:+ w2 +:+ post)).
    { rewrite (length_app_str w1). destruct w1; [done|]. simpl. lia. }
    rewrite (proj2 (Nat.ltb_lt _ _) Hlt). rewrite <- rev_onto_rev_onto.
    cbn [run snd] in H5.
    assert (Hmono : forall f1 f2 p c qc, String.length (snd p) < f1 -> f1 <= f2 ->
      In qc (run_star (run r) f1 p c) -> In qc (run_star (run r) f2 p c)).
    { clear. induction f1 as [|f1 IH]; intros [|f2] p c qc H1 H2; [lia..|]. simpl.
      rewrite !in_app_iff. intros [H|H]; [left|by right].
      apply in_flat_map in H as (x & Hx & H). apply in_flat_map. exists x. split; [done|].
      destruct (_ <? _) eqn:E; [|done]. apply Nat.ltb_lt in E. apply IH; [lia..|done]. }
    eapply Hmono; [| |exact H5]; simpl; lia.
  - destruct (IH c0) as [c3 H3]. eexists. apply in_map_iff. eexists. split; [|exact H3]. done.
  - exists c0. by left.
  - exists c0. by left.
  - rewrite H. exists c0. by left.
Qed.

(** The positions of a search are the rune boundaries; the start is one of them. *)
Lemma starts_first fuel p : In p (starts fuel p).
Proof. destruct fuel; by left. Qed.

Lemma rev_onto_nonempty w acc : acc <> "" -> rev_onto w acc <> "".
Proof. revert acc; induction w as [|c w IH]; intros acc H; [done|]. by apply IH. Qed.

Lemma starts_tail fuel p q : In q (starts fuel p) -> q = p \/ fst q <> "".
Proof.
  revert p; induction fuel as [|fuel IH]; intros [pre s] H.
  { destruct H as [<-|[]]. by left. }
  cbn [starts snd] in H. destruct H as [<-|H]; [by left|]. destruct s as [|c s]; [done|].
  right. rewrite forward_spec in H.
  assert (Hne : rev_onto (str_take (rune_width (String c s)) (String c s)) pre <> "").
  { pose proof (rune_width_pos (String c s)). destruct (rune_width (String c s)); [lia|]. simpl.
    by apply rev_onto_nonempty. }
  apply IH in H as [->|H]; [exact Hne|exact H].
Qed.

Lemma flat_map_nil {A B} (f : A -> list B) l : (forall x, In x l -> f x = []) -> flat_map f l = [].
Proof.
  induction l as [|x l IH]; intros H; [done|]. simpl. rewrite (H x) by (by left). apply IH.
  intros y Hy. apply H. by right.
Qed.

(** An expression that begins with [^] is tried at the start only. *)
Lemma matches_from_anchored r n s :
  matches_from (mkRegexp (RSeq RBegin r) n) s = map (pair (start s)) (run r (start s) []).
Proof.
  unfold matches_from.
  assert (H : exists l, starts (String.length s) (start s) = start s :: l /\
    forall q, In q l -> fst q <> "").
  { destruct s as [|c s]; simpl; [by exists []|]. eexists. split; [done|].
    intros q Hq. change (starts (String.length s)
      (forward (rune_width (String c s)) (start (String c s)))) with
      (starts (String.length s) (forward (rune_width (String c s)) ("", String c s))) in Hq.
    rewrite forward_spec in Hq.
    assert (Hne : rev_onto (str_take (rune_width (String c s)) (String c s)) "" <> "").
    { pose proof (rune_width_pos (String c s)). destruct (rune_width (String c s)); [lia|]. simpl.
      by apply rev_onto_nonempty. }
    apply starts_tail in Hq as [->|Hq]; [exact Hne|exact Hq]. }
  destruct H as (l & -> & Hl). cbn [flat_map prog]. rewrite (flat_map_nil _ l).
  - simpl. by rewrite !app_nil_r.
  - intros [pre q] Hq. apply Hl in Hq. simpl in *. by destruct pre.
Qed.

(** Some match begins at the start. *)
Definition matches_prefix (r : re) (s : string) : Prop :=
  exists w post c, s = w +:+ post /\ Matches r "" w post [] c.

Theorem MatchString_anchored r n s :
  MatchString (mkRegexp (RSeq RBegin r) n) s = true <-> matches_prefix r s.
Proof.
  unfold MatchString. rewrite matches_from_anchored. split.
  - destruct (run r (start s) []) as [|[q c] l] eqn:E; [done|]. intros _.
    assert (Hin : In (q, c) (run r (start s) [])) by (rewrite E; by left).
    apply run_sound in Hin as (w & E1 & _ & M). exists w, (snd q), c. done.
  - intros (w & post & c & -> & M). destruct (run_complete _ _ _ _ _ _ M []) as [c1 Hin].
    change (run r ("", w +:+ post) []) with (run r (start (w +:+ post)) []) in Hin.
    by destruct (run r (start (w +:+ post)) []).
Qed.

(** What the groups of an anchored expression contain: the texts of some match. *)
Theorem FindStringSubmatch_anchored r n s :
  (FindStringSubmatch (mkRegexp (RSeq RBegin r) n) s = [] <-> ~ matches_prefix r s) /\
  (forall m l, FindStringSubmatch (mkRegexp (RSeq RBegin r) n) s = m :: l ->
     exists post c, s = m +:+ post /\ Matches r "" m post [] c /\
       l = map (fun i => group_text i c) (seq 1 n)).
Proof.
  pose proof (MatchString_anchored r n s) as HM. unfold FindStringSubmatch, MatchString in *.
  rewrite matches_from_anchored in HM |- *.
  destruct (run r (start s) []) as [|[q c] l0] eqn:E.
  - split; [|done]. rewrite <- HM. done.
  - split; [rewrite <- HM; done|]. simpl. intros m l [= <- <-].
    assert (Hin : In (q, c) (run r (start s) [])) by (rewrite E; by left).
    apply run_sound in Hin as (w & E1 & F1 & M). destruct q as [pre post]. simpl in *. subst.
    unfold start. rewrite between_app. eauto.
Qed.

(** ** Classes and literals *)

(** The text after a match begins with an ASCII character, or there is none: no rune reaches into it. *)
Definition ascii_head (s : string) : Prop :=
  match s with "" => True | String c _ => (byte_Z c < 128)%Z end.

Lemma byte_Z_N c : byte_Z c = Z.of_N (N_of_ascii c).
Proof. done. Qed.

(** Evaluates the length of a rune whose bytes are known. *)
Ltac rune_cases :=
  repeat match goal with
         | H : context [if ?b then _ else _] |- _ => let E := fresh "E" in destruct b eqn:E
         | |- context [if ?b then _ else _] => let E := fresh "E" in destruct b eqn:E
         end; unfold cont_byte, in_range in *; rewrite ?andb_true_iff, ?Z.leb_le in *.

Lemma rune_len_bound s : rune_len s <= 4.
Proof. unfold rune_len. repeat case_match; lia. Qed.

(** The tail of a rune of several bytes, and its first byte, are not ASCII. *)
Lemma rune_len_bytes a s n : rune_len (String a s) = S (S n) ->
  (128 <= byte_Z a)%Z /\ str_forall (fun c => negb (byte_Z c <? 128)%Z) (str_take (S n) s) = true.
Proof.
  assert (Hc : forall c, cont_byte c = true -> (byte_Z c <? 128)%Z = false).
  { intros c H. apply Z.ltb_ge. unfold cont_byte, in_range in H. apply andb_true_iff in H as [H _].
    by apply Z.leb_le in H. }
  unfold rune_len. destruct (byte_Z a <? 128)%Z eqn:Ea; [done|]. apply Z.ltb_ge in Ea. intros H.
  split; [done|].
  destruct s as [|b s]; [done|]. destruct (in_range 194 223 a).
  { destruct (cont_byte b) eqn:Eb; [|done]. injection H as <-. simpl. by rewrite (Hc b Eb). }
  destruct s as [|c s]; [done|].
  assert (H3 : forall ok3, ok3 = (if (byte_Z a =? 224)%Z then in_range 160 191 b
      else if (byte_Z a =? 237)%Z then in_range 128 159 b else in_range 225 239 a && cont_byte b) ->
      ok3 = true -> (byte_Z b <? 128)%Z = false).
  { intros ok3 -> H3. apply Z.ltb_ge. unfold cont_byte, in_range in H3.
    repeat case_match; rewrite ?andb_true_iff, ?Z.leb_le in H3; lia. }
  destruct (_ && cont_byte c) eqn:E3.
  { apply andb_true_iff in E3 as [E3 Ec]. injection H as <-. simpl.
    by rewrite (H3 _ eq_refl E3), (Hc c Ec). }
  destruct s as [|d s]; [done|]. destruct (_ && cont_byte c && cont_byte d) eqn:E4; [|done].
  apply andb_true_iff in E4 as [E4 Ed]. apply andb_true_iff in E4 as [E4 Ec]. injection H as <-. simpl.
  assert (Hb : (byte_Z b <? 128)%Z = false).
  { apply Z.ltb_ge. unfold cont_byte, in_range in E4.
    repeat case_match; rewrite ?andb_true_iff, ?Z.leb_le in E4; lia. }
  by rewrite Hb, (Hc c Ec), (Hc d Ed).
Qed.

Lemma str_take_app_le n a b : n <= String.length a -> str_take n (a +:+ b) = str_take n a.
Proof. revert n; induction a as [|c a IH]; intros [|n] H; simpl in *; try done; [lia|]. rewrite IH; [done|lia]. Qed.

Lemma str_take_app_gt n a c b : String.length a < n ->
  exists t, str_take n (a +:+ String c b) = a +:+ String c t.
Proof.
  revert n; induction a as [|x a IH]; intros [|n] H; simpl in *; try lia; [eauto|].
  destruct (IH n) as [t Ht]; [lia|]. exists t. simpl. by rewrite Ht.
Qed.

Lemma str_take_short n s : String.length s <= n -> str_take n s = s.
Proof. apply str_take_full. Qed.

Lemma str_forall_take f n s : str_forall f s = true -> str_forall f (str_take n s) = true.
Proof.
  revert n; induction s as [|c s IH]; intros [|n]; simpl; try done.
  rewrite !andb_true_iff. intros [? ?]. auto.
Qed.

Lemma str_forall_app' f a b : str_forall f (a +:+ b) = str_forall f a && str_forall f b.
Proof. induction a as [|c a IH]; [done|]. simpl. rewrite <- andb_assoc. f_equal. apply IH. Qed.

Lemma rune_len_length s : rune_len s <= String.length s.
Proof.
  destruct s as [|a [|b [|c [|d s]]]]; try (pose proof (rune_len_bound (String a (String b (String c (String d s))))); simpl in *; lia);
    unfold rune_len; repeat case_match; simpl; lia.
Qed.

(** No rune of a text reaches into what follows, when that begins with ASCII. *)
Lemma rune_width_app a x post : ascii_head post ->
  rune_width (String a x +:+ post) <= S (String.length x).
Proof.
  intros Hp. unfold rune_width. destruct (rune_len (String a x +:+ post)) as [|[|n]] eqn:E; [lia..|].
  destruct (Nat.le_gt_cases (S (S n)) (S (String.length x))) as [|Hgt]; [lia|]. exfalso.
  destruct post as [|c post].
  - rewrite app_str_nil_r in E. pose proof (rune_len_length (String a x)). simpl in *. lia.
  - simpl in E. apply rune_len_bytes in E as [_ E].
    destruct (str_take_app_gt (S n) x c post) as [t Ht]; [lia|]. rewrite Ht, str_forall_app' in E.
    simpl in E, Hp. apply andb_true_iff in E as [_ E]. apply andb_true_iff in E as [E _].
    apply negb_true_iff, Z.ltb_ge in E. lia.
Qed.

Lemma class_has_ascii neg rs c : (byte_Z c < 128)%Z -> class_has neg rs c = xorb neg (in_ranges rs c).
Proof.
  intros H. unfold class_has. rewrite byte_Z_N in H. rewrite (proj2 (N.ltb_lt _ _)); [done|lia].
Qed.
Lemma class_has_high neg rs c : (128 <= byte_Z c)%Z -> class_has neg rs c = neg.
Proof.
  intros H. unfold class_has. rewrite byte_Z_N in H. rewrite (proj2 (N.ltb_ge _ _)); [done|lia].
Qed.

(** What a class matches consists of bytes of the class. *)
Lemma Matches_class_inv neg rs pre w post c c' : Matches (RClass neg rs) pre w post c c' ->
  c' = c /\ w <> "" /\ str_forall (class_has neg rs) w = true.
Proof.
  inversion 1 as [|? ? ? b t ? ? Hb [_ Hr]| | | | | | | | |]; subst. split; [done|]. split; [done|].
  simpl. rewrite Hb. simpl. unfold rune_width in Hr.
  destruct (rune_len (String b t +:+ post)) as [|[|n]] eqn:E.
  - simpl in Hr. injection Hr as <-. done.
  - simpl in Hr. injection Hr as <-. done.
  - assert (Hr' : String b (str_take (S n) (t +:+ post)) = String b t) by exact Hr.
    injection Hr' as Hr'. simpl in E. apply rune_len_bytes in E as [Ha E].
    rewrite (class_has_high _ _ _ Ha) in Hb. subst neg. cbn [str_take] in E, Hr'. rewrite Hr' in E.
    clear -E. induction t as [|x t IH]; [done|]. simpl in E |- *. apply andb_true_iff in E as [Ex Et].
    apply negb_true_iff, Z.ltb_ge in Ex. by rewrite class_has_high, IH.
Qed.

Lemma Matches_star_class_inv neg rs pre w post c c' : Matches (RStar (RClass neg rs)) pre w post c c' ->
  c' = c /\ str_forall (class_has neg rs) w = true.
Proof.
  intros H. remember (RStar (RClass neg rs)) as r eqn:Er. revert Er.
  induction H as [| | | | | |r pre w1 w2 post c1 c2 c3 Hw H1 _ H2 IH| | | |]; intros [=]; subst; [done|].
  destruct (IH eq_refl) as [-> Hw2]. apply Matches_class_inv in H1 as (-> & _ & Hw1).
  by rewrite str_forall_app', Hw1, Hw2.
Qed.

(** Any text of bytes of the class is matched, if what follows cannot be part of its last rune. *)
Lemma Matches_star_class neg rs pre w post c : str_forall (class_has neg rs) w = true ->
  ascii_head post -> Matches (RStar (RClass neg rs)) pre w post c c.
Proof.
  intros Hw Hp. remember (String.length w) as n eqn:Hn. revert pre w Hw Hn.
  induction n as [n IH] using (well_founded_induction lt_wf). intros pre [|a x] Hw Hn; [constructor|].
  pose proof (rune_width_app a x post Hp) as Hle. pose proof (rune_width_pos (String a x +:+ post)) as H1.
  remember (rune_width (String a x +:+ post)) as k eqn:Hk.
  pose proof (str_take_drop k (String a x)) as Hsplit.
  assert (Htake : str_take k (String a x +:+ post) = str_take k (String a x)).
  { apply str_take_app_le. simpl. lia. }
  destruct k as [|k]; [lia|].
  assert (Hhead : str_take (S k) (String a x) = String a (str_take k x)) by done.
  set (w1 := str_take (S k) (String a x)) in *. set (w2 := str_drop (S k) (String a x)) in *.
  rewrite <- Hsplit, str_forall_app' in Hw. apply andb_true_iff in Hw as [Hw1 Hw2].
  assert (Hlen : String.length w2 < n).
  { rewrite Hn, <- Hsplit, length_app_str, Hhead. simpl. lia. }
  rewrite <- Hsplit. eapply M_star_cons; [by rewrite Hhead| |by apply (IH (String.length w2))].
  assert (Hrune : str_take (rune_width (w1 +:+ w2 +:+ post)) (w1 +:+ w2 +:+ post) = w1).
  { rewrite <- app_str_assoc, Hsplit, <- Hk. exact Htake. }
  clearbody w1 w2. subst w1. constructor; [by simpl in Hw1; apply andb_true_iff in Hw1 as [? _]|].
  by split.
Qed.

Lemma Matches_plus_class_inv neg rs pre w post c c' : Matches (RPlus (RClass neg rs)) pre w post c c' ->
  c' = c /\ w <> "" /\ str_forall (class_has neg rs) w = true.
Proof.
  inversion 1; subst.
  match goal with H : Matches (RClass _ _) _ _ _ _ _ |- _ => apply Matches_class_inv in H as (-> & Hne & Hw) end.
  match goal with H : Matches (RStar _) _ _ _ _ _ |- _ => apply Matches_star_class_inv in H as (-> & Hw') end.
  split; [done|]. rewrite str_forall_app', Hw, Hw'. split; [|done]. by destruct w1.
Qed.

Lemma Matches_plus_class neg rs pre w post c : w <> "" -> str_forall (class_has neg rs) w = true ->
  ascii_head post -> Matches (RPlus (RClass neg rs)) pre w post c c.
Proof.
  intros Hne Hw Hp. apply (Matches_star_class neg rs pre w post c) in Hw as H; [|done].
  inversion H; subst; [done|].
  match goal with H1 : Matches (RClass _ _) _ _ _ _ _ |- _ =>
    pose proof (Matches_class_inv _ _ _ _ _ _ _ H1) as (-> & _ & _) end.
  eapply M_seq; eauto.
Qed.

(** A literal text before an expression. *)
Fixpoint RLit (s : string) (r : re) : re :=
  match s with "" => r | String c s' => RSeq (RChar c) (RLit s' r) end.

Definition is_ascii (c : ascii) : bool := (byte_Z c <? 128)%Z.

Lemma class_has_char x c : is_ascii x = true -> class_has false [chr_range x] c = true <-> c = x.
Proof.
  intros Hx. unfold is_ascii in Hx. apply Z.ltb_lt in Hx. rewrite byte_Z_N in Hx.
  destruct (Z.lt_ge_cases (byte_Z c) 128) as [Hc|Hc].
  - rewrite class_has_ascii by done. simpl. rewrite orb_false_r, andb_true_iff, !N.leb_le. split.
    + intros [? ?]. rewrite <- (ascii_N_embedding c), <- (ascii_N_embedding x). f_equal. lia.
    + intros ->. lia.
  - rewrite class_has_high by done. rewrite byte_Z_N in Hc. split; [done|]. intros ->. lia.
Qed.

Lemma rune_width_ascii a s : is_ascii a = true -> rune_width (String a s) = 1.
Proof. unfold is_ascii, rune_width, rune_len. intros ->. done. Qed.

Lemma Matches_char x pre w post c c' : is_ascii x = true ->
  Matches (RChar x) pre w post c c' <-> w = str1 x /\ c' = c.
Proof.
  intros Hx. split.
  - intros H. inversion H as [|? ? ? b t ? ? Hb [_ Hr]| | | | | | | | |]; subst.
    apply (class_has_char x b Hx) in Hb as ->. simpl in Hr. rewrite rune_width_ascii in Hr by done.
    simpl in Hr. injection Hr as <-. done.
  - intros [-> ->]. constructor; [by apply class_has_char|]. split; [done|]. simpl.
    by rewrite rune_width_ascii.
Qed.

Lemma Matches_lit s r pre w post c c' : str_forall is_ascii s = true ->
  Matches (RLit s r) pre w post c c' <->
  exists w', w = s +:+ w' /\ Matches r (rev_onto s pre) w' post c c'.
Proof.
  revert pre w; induction s as [|x s IH]; intros pre w Hs; simpl.
  { split; [eauto|]. by intros (? & -> & ?). }
  simpl in Hs. apply andb_true_iff in Hs as [Hx Hs]. split.
  - inversion 1; subst.
    match goal with H1 : Matches (RChar _) _ _ _ _ _ |- _ => apply Matches_char in H1 as [-> ->]; [|done] end.
    match goal with H1 : Matches (RLit _ _) _ _ _ _ _ |- _ => apply IH in H1 as (w' & -> & Hm); [|done] end.
    exists w'. done.
  - intros (w' & -> & Hm). apply (M_seq _ _ _ (str1 x) (s +:+ w') _ _ c).
    + by apply Matches_char.
    + apply IH; [done|]. eauto.
Qed.

Lemma Matches_end pre w post c c' : Matches REnd pre w post c c' <-> w = "" /\ post = "" /\ c' = c.
Proof. split; [by inversion 1|]. intros (-> & -> & ->). constructor. Qed.
Lemma Matches_empty pre w post c c' : Matches REmpty pre w post c c' <-> w = "" /\ c' = c.
Proof. split; [by inversion 1|]. intros (-> & ->). constructor. Qed.
Lemma Matches_seq r1 r2 pre w post c c' : Matches (RSeq r1 r2) pre w post c c' <->
  exists w1 w2 c1, w = w1 +:+ w2 /\ Matches r1 pre w1 (w2 +:+ post) c c1 /\
    Matches r2 (rev_onto w1 pre) w2 post c1 c'.
Proof.
  split; [inversion 1; subst; eauto 6|]. intros (w1 & w2 & c1 & -> & ? & ?). by eapply M_seq.
Qed.
Lemma Matches_group n r pre w post c c' : Matches (RGroup n r) pre w post c c' <->
  exists c1, c' = (n, w) :: c1 /\ Matches r pre w post c c1.
Proof. split; [inversion 1; subst; eauto|]. intros (c1 & -> & ?). by constructor. Qed.
Lemma Matches_alt r1 r2 pre w post c c' : Matches (RAlt r1 r2) pre w post c c' <->
  Matches r1 pre w post c c' \/ Matches r2 pre w post c c'.
Proof. split; [inversion 1; auto|]. intros [?|?]; by constructor. Qed.

(** The end of an expression: a literal and the end of the text. *)
Lemma Matches_tail s pre w post c c' : str_forall is_ascii s = true ->
  Matches (RLit s (RSeq REnd REmpty)) pre w post c c' <-> w = s /\ post = "" /\ c' = c.
Proof.
  intros Hs. rewrite Matches_lit by done. setoid_rewrite Matches_seq. setoid_rewrite Matches_end.
  setoid_rewrite Matches_empty. split.
  - intros (w' & -> & w1 & w2 & c1 & -> & (-> & H & ->) & -> & ->). simpl in *.
    by rewrite app_str_nil_r.
  - intros (-> & -> & ->). exists "". rewrite app_str_nil_r. split; [done|].
    exists "", "", c. done.
Qed.

(** ** Examples *)

Definition re_example : Regexp := MustCompile "^/(.+/)*([^/]+)/git-upload-pack$".
Example re_submatch : FindStringSubmatch re_example "/a/b/c.git/git-upload-pack" =
  ["/a/b/c.git/git-upload-pack"; "a/b/"; "c.git"].
Proof. by vm_compute. Qed.
Example re_no_match : FindStringSubmatch re_example "/git-upload-pack" = [].
Proof. by vm_compute. Qed.
Example re_classes : map (MatchString (MustCompile "^/([\w-\/]+)/v[0-9]{2}(\.json|:x)?$"))
  ["/a-b/c/v12"; "/a/v1"; "/a/v12.json"; "/a.b/v12"] = [true; false; true; false].
Proof. by vm_compute. Qed.
