(* ===== verification/PathMatch.v ===== *)
(** * Shell patterns: [path.Match] of the standard library

    The patterns of [NO_PROXY]. The algorithm is Go's: a pattern is a sequence of chunks, each with or
    without a star before it; a chunk after a star is matched at the first place where it fits. *)
From stdpp Require Import base strings list option.
From Stdlib Require Import ZArith NArith Lia Ascii.
From S2P Require Import Prelude GoStrings GoCodec.

(** [utf8.DecodeRuneInString] of a non-empty text: the rune and the rest; an invalid byte counts as
    U+FFFD. *)
Definition DecodeRune (s : string) : N * string :=
  let b n := match String.get n s with Some c => N_of_ascii c | None => 0%N end in
  let low n := (b n mod 64)%N in
  let b0 := b 0 in let l1 := low 1 in let l2 := low 2 in let l3 := low 3 in
  match rune_len s with
  | 1 => (b0, str_drop 1 s)
  | 2 => (b0 mod 32 * 64 + l1, str_drop 2%nat s)%N
  | 3 => (b0 mod 16 * 4096 + l1 * 64 + l2, str_drop 3%nat s)%N
  | 4 => (b0 mod 8 * 262144 + l1 * 4096 + l2 * 64 + l3, str_drop 4%nat s)%N
  | _ => (65533%N, str_drop 1 s)
  end.

Inductive Tok : Set :=
| TStar
| TAny
| TLit (c : ascii)
| TClass (negated : bool) (ranges : list (N * N)).

(** [getEsc]: a possibly escaped character of a class; the text must go on after it. *)
Definition getEsc (s : string) : option (N * string) :=
  match s with
  | "" => None
  | String c s1 =>
      if Ascii.eqb c "-" || Ascii.eqb c "]" then None
      else
        let s := if Ascii.eqb c backslash then s1 else s in
        match s with
        | "" => None
        | _ => match rune_len s with
               | O => None
               | _ => let '(r, rest) := DecodeRune s in
                      match rest with "" => None | _ => Some (r, rest) end
               end
        end
  end.

(** The ranges of a class up to its bracket. Every range consumes a byte: the length is enough fuel. *)
Fixpoint scan_ranges (fuel : nat) (s : string) (acc : list (N * N)) :
    option (list (N * N) * string) :=
  match fuel with
  | O => None
  | S fuel =>
      match s, acc with
      | String "]" rest, _ :: _ => Some (rev acc, rest)
      | _, _ =>
          match getEsc s with
          | None => None
          | Some (lo, s1) =>
              match s1 with
              | String "-" s2 =>
                  match getEsc s2 with
                  | None => None
                  | Some (hi, s3) => scan_ranges fuel s3 ((lo, hi) :: acc)
                  end
              | _ => scan_ranges fuel s1 ((lo, lo) :: acc)
              end
          end
      end
  end.

(** The tokens of a pattern, or [None] for a malformed one. *)
Fixpoint scan_pattern (fuel : nat) (s : string) : option (list Tok) :=
  match fuel with
  | O => None
  | S fuel =>
      match s with
      | "" => Some []
      | String c s1 =>
          if Ascii.eqb c "*" then cons TStar <$> scan_pattern fuel s1
          else if Ascii.eqb c "?" then cons TAny <$> scan_pattern fuel s1
          else if Ascii.eqb c backslash then
            match s1 with
            | "" => None
            | String d s2 => cons (TLit d) <$> scan_pattern fuel s2
            end
          else if Ascii.eqb c "[" then
            let '(negated, s2) := match s1 with String "^" s2 => (true, s2) | _ => (false, s1) end in
            match scan_ranges (S (String.length s2)) s2 [] with
            | None => None
            | Some (ranges, s3) => cons (TClass negated ranges) <$> scan_pattern fuel s3
            end
          else cons (TLit c) <$> scan_pattern fuel s1
      end
  end.

(** The chunks: whether a star comes before, and the tokens up to the next star. *)
Fixpoint chunks (l : list Tok) (star : bool) (chunk : list Tok) : list (bool * list Tok) :=
  match l with
  | [] => match star, chunk with false, [] => [] | _, _ => [(star, chunk)] end
  | TStar :: l' =>
      match chunk with
      | [] => chunks l' true []
      | _ => (star, chunk) :: chunks l' true []
      end
  | t :: l' => chunks l' star (chunk ++ [t])
  end.

(** [matchChunk]: the rest of the name. *)
Fixpoint matchChunk (l : list Tok) (s : string) : option string :=
  match l with
  | [] => Some s
  | t :: l' =>
      match s with
      | "" => None
      | String x s1 =>
          match t with
          | TLit c => if Ascii.eqb c x then matchChunk l' s1 else None
          | TAny => if Ascii.eqb x "/" then None else matchChunk l' (snd (DecodeRune s))
          | TClass negated ranges =>
              let '(r, s2) := DecodeRune s in
              let inside := existsb (fun '(lo, hi) => (lo <=? r) && (r <=? hi))%N ranges in
              if Bool.eqb inside negated then None else matchChunk l' s2
          | TStar => None
          end
      end
  end.

(** The places after a star, one byte further each time, but not beyond a slash. *)
Fixpoint skip_to (chunk : list Tok) (final : bool) (name : string) : option string :=
  match name with
  | "" => None
  | String x name' =>
      if Ascii.eqb x "/" then None
      else match matchChunk chunk name' with
           | Some t => if final && negb (String.eqb t "") then skip_to chunk final name' else Some t
           | None => skip_to chunk final name'
           end
  end.

Fixpoint match_chunks (l : list (bool * list Tok)) (name : string) : bool :=
  match l with
  | [] => String.eqb name ""
  | (star, chunk) :: l' =>
      match star, chunk with
      | true, [] => negb (occurs "/" name)
      | _, _ =>
          let final := match l' with [] => true | _ => false end in
          match matchChunk chunk name with
          | Some t =>
              if String.eqb t "" || negb final then match_chunks l' t
              else if star then
                match skip_to chunk final name with Some t => match_chunks l' t | None => false end
              else false
          | None =>
              if star then
                match skip_to chunk final name with Some t => match_chunks l' t | None => false end
              else false
          end
      end
  end.

(** [path.Match(pattern, name)]: whether the name matches; [ErrBadPattern] for a malformed pattern
    (Go reports it only where it is found, but never matches one). *)
Definition ErrBadPattern : error := ESentinel "syntax error in pattern".
Definition path_Match (pattern name : string) : result bool :=
  match scan_pattern (S (String.length pattern)) pattern with
  | None => Err ErrBadPattern
  | Some l => Ok (match_chunks (chunks l false []) name)
  end.

Example match_suffix : path_Match "*.example.com" "a.b.example.com" = Ok true.
Proof. reflexivity. Qed.
Example match_no_suffix : path_Match "*.example.com" "example.com" = Ok false.
Proof. reflexivity. Qed.
Example match_class : path_Match "10.0.[0-9].?" "10.0.3.7" = Ok true.
Proof. reflexivity. Qed.
Example match_class_negated : path_Match "host[^0-9x]*" "hosty12" = Ok true.
Proof. reflexivity. Qed.
Example match_bad : path_Match "[]a]" "a" = Err ErrBadPattern.
Proof. reflexivity. Qed.
Example match_back : path_Match "*a*b" "xaaxbab" = Ok true.
Proof. reflexivity. Qed.
Example match_slash : path_Match "a*" "ab/c" = Ok false.
Proof. reflexivity. Qed.

(** A pattern without special characters matches just itself. *)
Definition literal_char (c : ascii) : bool :=
  negb (Ascii.eqb c "*" || Ascii.eqb c "?" || Ascii.eqb c "[" || Ascii.eqb c backslash).

Lemma scan_literal p n : str_forall literal_char p = true -> String.length p < n ->
  scan_pattern n p = Some (map TLit (String.list_ascii_of_string p)).
Proof.
  revert n; induction p as [|c p IH]; intros [|n]; simpl; try (intros; lia); [done|].
  intros H Hn. apply andb_true_iff in H as [Hc H]. unfold literal_char in Hc.
  apply negb_true_iff in Hc. split_bools.
  destruct (Ascii.eqb c "*"), (Ascii.eqb c "?"), (Ascii.eqb c "["), (Ascii.eqb c backslash);
    try done. rewrite IH by (done || lia). done.
Qed.

Lemma matchChunk_literal p s : matchChunk (map TLit (String.list_ascii_of_string p)) s = strip_prefix p s.
Proof.
  revert s; induction p as [|c p IH]; intros s; [done|]. destruct s as [|x s]; [done|]. simpl.
  destruct (Ascii.eqb_spec c x) as [->|Hne]; [by rewrite decide_True|by rewrite decide_False].
Qed.

Lemma chunks_literal l star chunk :
  chunks (map TLit l) star chunk =
  match star, chunk ++ map TLit l with false, [] => [] | _, c => [(star, c)] end.
Proof.
  revert chunk; induction l as [|c l IH]; intros chunk; simpl.
  - rewrite app_nil_r. by destruct star, chunk.
  - rewrite IH. by rewrite <- app_assoc.
Qed.

Lemma skip_to_final chunk name t : skip_to chunk true name = Some t <->
  t = "" /\ exists pre x rest, name = pre +:+ String x rest /\ occurs "/" pre = false /\ x <> "/"%char /\
    matchChunk chunk rest = Some "".
Proof.
  split.
  - revert t; induction name as [|x name IH]; intros t; simpl; [done|].
    destruct (Ascii.eqb_spec x "/") as [|Hx]; [done|].
    assert (Hrec : skip_to chunk true name = Some t -> t = "" /\ exists pre x0 rest,
      String x name = pre +:+ String x0 rest /\ occurs "/" pre = false /\ x0 <> "/"%char /\
      matchChunk chunk rest = Some "").
    { intros (-> & pre & x0 & rest & -> & Hp & Hx0 & Hm)%IH. split; [done|].
      exists (String x pre), x0, rest. simpl. rewrite bool_decide_eq_false_2 by done. done. }
    destruct (matchChunk chunk name) as [t'|] eqn:E; [|done].
    destruct (String.eqb t' "") eqn:Et; simpl; [|done].
    apply String.eqb_eq in Et as ->. intros [= <-]. split; [done|]. by exists "", x, name.
  - intros (-> & pre & x & rest & -> & Hp & Hx & Hm).
    induction pre as [|y pre IH]; simpl.
    + apply Ascii.eqb_neq in Hx. by rewrite Hx, Hm.
    + simpl in Hp. apply orb_false_iff in Hp as [Hy Hp]. apply bool_decide_eq_false in Hy.
      apply Ascii.eqb_neq in Hy. rewrite Hy. rewrite (IH Hp).
      destruct (matchChunk chunk (pre +:+ String x rest)) as [t'|]; [|done].
      destruct (String.eqb t' "") eqn:Et; [apply String.eqb_eq in Et; by subst|done].
Qed.

Lemma str_snoc (s : string) : s <> "" -> exists p x, s = p +:+ str1 x.
Proof.
  induction s as [|c s IH]; [done|]. intros _. destruct s as [|d s].
  - by exists "", c.
  - destruct IH as (p & x & ->); [done|]. by exists (String c p), x.
Qed.

(** A literal pattern matches just itself. *)
Lemma path_Match_literal p name : str_forall literal_char p = true ->
  path_Match p name = Ok (String.eqb name p).
Proof.
  intros H. unfold path_Match. rewrite scan_literal by (done || lia). f_equal.
  rewrite chunks_literal. destruct p as [|c p]; [done|].
  change ([] ++ map TLit (String.list_ascii_of_string (String c p)))
    with (map TLit (String.list_ascii_of_string (String c p))).
  assert (Hunf : match_chunks [(false, map TLit (String.list_ascii_of_string (String c p)))] name =
    match matchChunk (map TLit (String.list_ascii_of_string (String c p))) name with
    | Some t => String.eqb t ""
    | None => false
    end).
  { simpl. destruct name as [|x name]; [done|]. destruct (Ascii.eqb c x); [|done].
    destruct (matchChunk _ name) as [t|]; [|done]. by destruct (String.eqb t ""). }
  etrans; [exact Hunf|]. rewrite matchChunk_literal. apply eq_true_iff_eq. rewrite String.eqb_eq.
  destruct (strip_prefix (String c p) name) as [t|] eqn:E.
  - apply strip_prefix_Some in E as ->. rewrite String.eqb_eq. split.
    + intros ->. apply app_str_nil_r.
    + intros Heq. apply (f_equal String.length) in Heq. rewrite length_app_str in Heq.
      destruct t; [done|]. simpl in Heq. lia.
  - split; [done|]. intros ->. pose proof (strip_prefix_app (String c p) "") as E2.
    rewrite app_str_nil_r in E2. congruence.
Qed.

Lemma match_final_star chunk name : chunk <> [] -> match_chunks [(true, chunk)] name =
  match matchChunk chunk name with
  | Some t => if String.eqb t "" then true
              else match skip_to chunk true name with Some t => match_chunks [] t | None => false end
  | None => match skip_to chunk true name with Some t => match_chunks [] t | None => false end
  end.
Proof.
  destruct chunk as [|c l]; [done|]. intros _. set (chunk := c :: l).
  change (match_chunks [(true, chunk)] name) with
    (match matchChunk chunk name with
     | Some t => if String.eqb t "" || negb true then match_chunks [] t
                 else match skip_to chunk true name with Some t => match_chunks [] t | None => false end
     | None => match skip_to chunk true name with Some t => match_chunks [] t | None => false end
     end).
  destruct (matchChunk chunk name) as [t|]; [|done].
  destruct (String.eqb t "") eqn:E; [|done]. simpl. by rewrite E.
Qed.

(** A star before a literal matches the names that end with the literal and have no slash
    before it. *)
Lemma path_Match_suffix p name : p <> "" -> str_forall literal_char p = true ->
  path_Match (String "*" p) name = Ok true <-> exists pre, name = pre +:+ p /\ occurs "/" pre = false.
Proof.
  intros Hp H. unfold path_Match.
  change (scan_pattern (S (String.length (String "*" p))) (String "*" p))
    with (cons TStar <$> scan_pattern (S (String.length p)) p).
  rewrite scan_literal by (done || lia). simpl.
  rewrite chunks_literal. destruct p as [|c p]; [done|]. set (q := String c p).
  change ([] ++ map TLit (String.list_ascii_of_string q)) with (map TLit (String.list_ascii_of_string q)).
  set (chunk := map TLit (String.list_ascii_of_string q)).
  assert (Hm : forall s, matchChunk chunk s = strip_prefix q s) by (intros; apply matchChunk_literal).
  assert (Hend : forall s, matchChunk chunk s = Some "" <-> s = q).
  { intros s. by rewrite Hm, strip_prefix_Some, app_str_nil_r. }
  pose proof (match_final_star chunk name ltac:(done)) as Hunf.
  change (Ok (match_chunks [(true, chunk)] name) = Ok true <-> exists pre, name = pre +:+ q /\
    occurs "/" pre = false).
  rewrite Hunf.
  assert (Hskip : (match skip_to chunk true name with Some t => match_chunks [] t | None => false end)
    = true <-> exists pre x, name = pre +:+ String x q /\ occurs "/" pre = false /\ x <> "/"%char).
  { destruct (skip_to chunk true name) as [t|] eqn:E.
    - apply skip_to_final in E as (-> & pre & x & rest & -> & Hpre & Hx & Hr). apply Hend in Hr as ->.
      split; [|done]. intros _. by exists pre, x.
    - split; [done|]. intros (pre & x & -> & Hpre & Hx).
      assert (E' : skip_to chunk true (pre +:+ String x q) = Some "").
      { apply skip_to_final. split; [done|]. exists pre, x, q. split_and!; try done. by apply Hend. }
      congruence. }
  assert (Hres : (exists pre, name = pre +:+ q /\ occurs "/" pre = false) <->
    name = q \/ exists pre x, name = pre +:+ String x q /\ occurs "/" pre = false /\ x <> "/"%char).
  { split.
    - intros (pre & -> & Ho). destruct (decide (pre = "")) as [->|Hne]; [by left|right].
      destruct (str_snoc pre Hne) as (p' & x & ->). rewrite occurs_app in Ho.
      apply orb_false_iff in Ho as [Ho Hx]. simpl in Hx. rewrite orb_false_r in Hx.
      apply bool_decide_eq_false in Hx. exists p', x. by rewrite app_str_assoc.
    - intros [->|(pre & x & -> & Ho & Hx)]; [by exists ""|]. exists (pre +:+ str1 x).
      rewrite app_str_assoc. split; [done|]. rewrite occurs_app, Ho. simpl.
      by rewrite bool_decide_eq_false_2. }
  rewrite Hres. destruct (matchChunk chunk name) as [t|] eqn:E.
  - destruct (String.eqb t "") eqn:Et.
    + apply String.eqb_eq in Et as ->. apply Hend in E. split; [by left|done].
    + rewrite <- Hskip. apply String.eqb_neq in Et. split; [intros [= H1]; by right|].
      intros [->|H1]; [|by rewrite H1]. destruct Et. assert (E2 := proj2 (Hend q) eq_refl). congruence.
  - rewrite <- Hskip. split; [intros [= H1]; by right|]. intros [->|H1]; [|by rewrite H1].
    assert (E2 := proj2 (Hend q) eq_refl). congruence.
Qed.
