(* ===== verification/Json.v ===== *)
(** * JSON: Go's package [encoding/json]

    Values keep the text of numbers and of string literals as they were written, so that
    [json.RawMessage] fields survive decoding and encoding the way they do in Go. The parser is the
    decoder's grammar; the printer is the compact encoder. *)
From stdpp Require Import base gmap strings list option.
From Stdlib Require Import ZArith Lia Ascii Sorted.
From S2P Require Import Prelude GoStrings GoCodec.

(** [JNum] holds the literal; [JStr] and the keys hold the text between the quotes. *)
Inductive json : Type :=
| JNull
| JBool (b : bool)
| JNum (lit : string)
| JStr (raw : string)
| JArr (l : list json)
| JObj (m : list (string * json)).

(** ** Parsing *)

Definition is_ws (c : ascii) : bool :=
  bool_decide (c = chr 32) || bool_decide (c = chr 9) || bool_decide (c = nl) || bool_decide (c = cr).
Fixpoint skip_ws (s : string) : string :=
  match s with String c s' => if is_ws c then skip_ws s' else s | "" => "" end.

Definition is_digit : ascii -> bool := in_range 48 57.
Definition is_hex (c : ascii) : bool := if hex_val c then true else false.

(** The characters that may follow a backslash, [u] apart. *)
Definition is_escape (c : ascii) : bool :=
  existsb (Ascii.eqb c) [dquote; backslash; "/"; "b"; "f"; "n"; "r"; "t"]%char.

(** The text of a string literal up to its closing quote, and the rest after the quote. *)
Fixpoint scan_string (s : string) : option (string * string) :=
  match s with
  | "" => None
  | String c s1 =>
      if decide (c = dquote) then Some ("", s1)
      else if decide (c = backslash) then
        match s1 with
        | String e s2 =>
            if is_escape e then
              match scan_string s2 with
              | Some (raw, r) => Some (String c (String e raw), r)
              | None => None
              end
            else if decide (e = "u"%char) then
              match s2 with
              | String h1 (String h2 (String h3 (String h4 s6))) =>
                  if is_hex h1 && is_hex h2 && is_hex h3 && is_hex h4 then
                    match scan_string s6 with
                    | Some (raw, r) =>
                        Some (String c (String e (String h1 (String h2 (String h3
                          (String h4 raw))))), r)
                    | None => None
                    end
                  else None
              | _ => None
              end
            else None
        | "" => None
        end
      else if (byte_Z c <? 32)%Z then None
      else match scan_string s1 with
           | Some (raw, r) => Some (String c raw, r)
           | None => None
           end
  end.

Fixpoint span_digits (s : string) : string * string :=
  match s with
  | String c s' => if is_digit c then let '(d, r) := span_digits s' in (String c d, r) else ("", s)
  | "" => ("", "")
  end.

(** A sign, if the text starts with it. *)
Definition take_char (p : ascii -> bool) (s : string) : string * string :=
  match s with String c s' => if p c then (str1 c, s') else ("", s) | "" => ("", "") end.

(** An optional part: a marker followed by an optional sign and digits. *)
Definition number_part (marker sign : ascii -> bool) (s : string) : option (string * string) :=
  match take_char marker s with
  | ("", _) => Some ("", s)
  | (m, s1) =>
      let '(sg, s2) := take_char sign s1 in
      match span_digits s2 with
      | ("", _) => None
      | (d, r) => Some (m +:+ sg +:+ d, r)
      end
  end.

Definition no_char (c : ascii) : bool := false.
Definition is_dot (c : ascii) : bool := Ascii.eqb c ".".
Definition is_exp (c : ascii) : bool := Ascii.eqb c "e" || Ascii.eqb c "E".
Definition is_sign (c : ascii) : bool := Ascii.eqb c "+" || Ascii.eqb c "-".

(** The integer part: no leading zero. *)
Definition scan_int (s : string) : option (string * string) :=
  match s with
  | String c s' =>
      if Ascii.eqb c "0" then Some (str1 c, s')
      else match span_digits s with ("", _) => None | dr => Some dr end
  | "" => None
  end.

Definition scan_number (s : string) : option (string * string) :=
  let '(sg, s1) := take_char (fun c => Ascii.eqb c "-") s in
  match scan_int s1 with
  | None => None
  | Some (i, s2) =>
      match number_part is_dot no_char s2 with
      | None => None
      | Some (f, s3) =>
          match number_part is_exp is_sign s3 with
          | None => None
          | Some (e, s4) => Some (sg +:+ i +:+ f +:+ e, s4)
          end
      end
  end.

(** One value, and the rest of the text. Every call consumes a byte of the text or is made on a
    shorter list, so twice the length is enough fuel. *)
Fixpoint parse_value (n : nat) (s : string) : option (json * string) :=
  match n with
  | O => None
  | S n =>
      match skip_ws s with
      | "" => None
      | String c r as s =>
          if Ascii.eqb c "{" then
            match skip_ws r with
            | String d r' =>
                if Ascii.eqb d "}" then Some (JObj [], r')
                else match parse_members n (skip_ws r) with
                     | Some (m, r') => Some (JObj m, r')
                     | None => None
                     end
            | "" => None
            end
          else if Ascii.eqb c "[" then
            match skip_ws r with
            | String d r' =>
                if Ascii.eqb d "]" then Some (JArr [], r')
                else match parse_elements n (skip_ws r) with
                     | Some (l, r') => Some (JArr l, r')
                     | None => None
                     end
            | "" => None
            end
          else if Ascii.eqb c dquote then
            match scan_string r with Some (raw, r') => Some (JStr raw, r') | None => None end
          else match strip_prefix "null" s, strip_prefix "true" s, strip_prefix "false" s with
          | Some r', _, _ => Some (JNull, r')
          | _, Some r', _ => Some (JBool true, r')
          | _, _, Some r' => Some (JBool false, r')
          | _, _, _ =>
              match scan_number s with Some (lit, r') => Some (JNum lit, r') | None => None end
          end
      end
  end
with parse_elements (n : nat) (s : string) : option (list json * string) :=
  match n with
  | O => None
  | S n =>
      match parse_value n s with
      | None => None
      | Some (v, r) =>
          match skip_ws r with
          | String c r' =>
              if Ascii.eqb c "]" then Some ([v], r')
              else if Ascii.eqb c "," then
                match parse_elements n r' with
                | Some (l, r'') => Some (v :: l, r'')
                | None => None
                end
              else None
          | "" => None
          end
      end
  end
with parse_members (n : nat) (s : string) : option (list (string * json) * string) :=
  match n with
  | O => None
  | S n =>
      match skip_ws s with
      | String q s1 =>
          if negb (Ascii.eqb q dquote) then None
          else match scan_string s1 with
          | None => None
          | Some (k, s2) =>
              match skip_ws s2 with
              | String c s3 =>
                  if negb (Ascii.eqb c ":") then None
                  else match parse_value n s3 with
                  | None => None
                  | Some (v, r) =>
                      match skip_ws r with
                      | String c r' =>
                          if Ascii.eqb c "}" then Some ([(k, v)], r')
                          else if Ascii.eqb c "," then
                            match parse_members n r' with
                            | Some (m, r'') => Some ((k, v) :: m, r'')
                            | None => None
                            end
                          else None
                      | "" => None
                      end
                  end
              | "" => None
              end
          end
      | "" => None
      end
  end.

Definition parse_fuel (s : string) : nat := S (2 * String.length s).

Definition json_syntax_error : error := EText "invalid JSON".

(** [json.Unmarshal]'s reading of its input: one value and nothing after it but white space. *)
Definition json_parse (s : string) : result json :=
  match parse_value (parse_fuel s) s with
  | Some (v, r) => if String.eqb (skip_ws r) "" then Ok v else Err json_syntax_error
  | None => Err json_syntax_error
  end.

(** [Decoder.Decode] reads the first value of the stream; an empty stream is [io.EOF]. *)
Definition EOF : error := ESentinel "EOF".
Definition json_decode_first (s : string) : result json :=
  match skip_ws s with
  | "" => Err EOF
  | _ => match parse_value (parse_fuel s) s with
         | Some (v, _) => Ok v
         | None => Err json_syntax_error
         end
  end.

(** ** Printing *)

Fixpoint json_print (j : json) : string :=
  match j with
  | JNull => "null"
  | JBool b => if b then "true" else "false"
  | JNum lit => lit
  | JStr raw => String dquote (raw +:+ str1 dquote)
  | JArr l =>
      "[" +:+ (fix go l := match l with
                           | [] => "]"
                           | [v] => json_print v +:+ "]"
                           | v :: l' => json_print v +:+ "," +:+ go l'
                           end) l
  | JObj m =>
      "{" +:+ (fix go m := match m with
                           | [] => "}"
                           | (k, v) :: m' =>
                               String dquote (k +:+ String dquote (":" +:+ json_print v)) +:+
                               match m' with [] => "}" | _ => "," +:+ go m' end
                           end) m
  end.

(** ** String literals *)

Definition hex4 (h1 h2 h3 h4 : ascii) : option N :=
  match hex_val h1, hex_val h2, hex_val h3, hex_val h4 with
  | Some a, Some b, Some c, Some d => Some (a * 4096 + b * 256 + c * 16 + d)%N
  | _, _, _, _ => None
  end.

(** The value of the escape [\uXXXX] the text starts with, and the rest. *)
Definition u_escape (s : string) : option (N * string) :=
  match s with
  | String b (String u (String h1 (String h2 (String h3 (String h4 r))))) =>
      if Ascii.eqb b backslash && Ascii.eqb u "u" then
        match hex4 h1 h2 h3 h4 with Some v => Some (v, r) | None => None end
      else None
  | _ => None
  end.

Definition simple_escape (e : ascii) : ascii :=
  if Ascii.eqb e "b" then chr 8 else if Ascii.eqb e "f" then chr 12
  else if Ascii.eqb e "n" then nl else if Ascii.eqb e "r" then cr
  else if Ascii.eqb e "t" then chr 9 else e.

(** The string a literal stands for: surrogate pairs are joined, a lone surrogate and invalid UTF-8
    become U+FFFD. *)
Fixpoint unescape (fuel : nat) (s : string) : string :=
  match fuel with
  | O => ""
  | S fuel =>
      match s with
      | "" => ""
      | String c s1 =>
          match u_escape s with
          | Some (v, r) =>
              if ((55296 <=? v) && (v <=? 57343))%N then
                match u_escape r with
                | Some (w, r') =>
                    if ((v <=? 56319) && (56320 <=? w) && (w <=? 57343))%N then
                      EncodeRune (65536 + (v - 55296) * 1024 + (w - 56320)) +:+ unescape fuel r'
                    else RuneErrorBytes +:+ unescape fuel r
                | None => RuneErrorBytes +:+ unescape fuel r
                end
              else EncodeRune v +:+ unescape fuel r
          | None =>
              if Ascii.eqb c backslash then
                match s1 with
                | String e s2 => str1 (simple_escape e) +:+ unescape fuel s2
                | "" => ""
                end
              else match rune_len s with
              | O => RuneErrorBytes +:+ unescape fuel s1
              | n => str_take n s +:+ unescape fuel (str_drop n s)
              end
          end
      end
  end.
Definition json_unescape (raw : string) : string := unescape (S (String.length raw)) raw.

Definition u00 (c : ascii) : string :=
  String backslash ("u00" +:+ EncodeToString (str1 c)).

(** How the encoder writes an ASCII character; [html] is its default escaping of markup. *)
Definition escape_ascii (html : bool) (c : ascii) : string :=
  if Ascii.eqb c dquote || Ascii.eqb c backslash then String backslash (str1 c)
  else if Ascii.eqb c (chr 8) then String backslash "b"
  else if Ascii.eqb c (chr 12) then String backslash "f"
  else if Ascii.eqb c nl then String backslash "n"
  else if Ascii.eqb c cr then String backslash "r"
  else if Ascii.eqb c (chr 9) then String backslash "t"
  else if (byte_Z c <? 32)%Z then u00 c
  else if html && (Ascii.eqb c "<" || Ascii.eqb c ">" || Ascii.eqb c "&") then u00 c
  else str1 c.

(** U+2028 and U+2029 are always escaped. *)
Definition line_separator (s : string) : option string :=
  if HasPrefix s (str_of_bytes [226; 128; 168]%N) then Some (String backslash "u2028")
  else if HasPrefix s (str_of_bytes [226; 128; 169]%N) then Some (String backslash "u2029")
  else None.

(** The literal of a string, without its quotes. *)
Fixpoint escape (fuel : nat) (html : bool) (s : string) : string :=
  match fuel with
  | O => ""
  | S fuel =>
      match s with
      | "" => ""
      | String c s1 =>
          if (byte_Z c <? 128)%Z then escape_ascii html c +:+ escape fuel html s1
          else match line_separator s with
          | Some e => e +:+ escape fuel html (str_drop 3 s)
          | None =>
              match rune_len s with
              | O => String backslash ("ufffd" +:+ escape fuel html s1)
              | n => str_take n s +:+ escape fuel html (str_drop n s)
              end
          end
      end
  end.
Definition json_escape (html : bool) (s : string) : string := escape (S (String.length s)) html s.
Definition jstring (html : bool) (s : string) : json := JStr (json_escape html s).

(** The encoder's escaping of markup inside a literal it copies ([json.RawMessage]). *)
Fixpoint html_raw (s : string) : string :=
  match s with
  | "" => ""
  | String c s1 =>
      if Ascii.eqb c "<" || Ascii.eqb c ">" || Ascii.eqb c "&" then u00 c +:+ html_raw s1
      else match s1 with
      | String b (String d s3) =>
          match line_separator (String c (String b (str1 d))) with
          | Some e => e +:+ html_raw s3
          | None => String c (html_raw s1)
          end
      | _ => String c (html_raw s1)
      end
  end.

(** A copied value: white space is gone, markup is escaped. *)
Fixpoint json_compact (j : json) : json :=
  match j with
  | JStr raw => JStr (html_raw raw)
  | JArr l => JArr (map json_compact l)
  | JObj m => JObj (map (fun kv => (html_raw (fst kv), json_compact (snd kv))) m)
  | _ => j
  end.

(** ** Objects *)

(** A Go map decoded from an object: keys are unescaped, the last entry of a key wins. *)
Fixpoint object_map (m : list (string * json)) (acc : gmap string json) : gmap string json :=
  match m with
  | [] => acc
  | (k, v) :: m' => object_map m' (<[json_unescape k := v]> acc)
  end.

Definition insert_sorted {A} (kv : string * A) : list (string * A) -> list (string * A) :=
  fix go l := match l with
    | [] => [kv]
    | kv' :: l' => if String.leb (fst kv) (fst kv') then kv :: l else kv' :: go l'
    end.
(** The entries of a map in the order the encoder writes them: sorted by key. *)
Definition sorted_entries {A} (m : gmap string A) : list (string * A) :=
  foldr insert_sorted [] (map_to_list m).

(** The encoding of a map: keys are escaped again. *)
Definition jmap (m : gmap string json) : json :=
  JObj (map (fun kv => (json_escape true (fst kv), snd kv)) (sorted_entries m)).

(** [json.Unmarshal] into [map[string]json.RawMessage]: an object, or null for the nil map. *)
Definition type_mismatch : error := EText "json: cannot unmarshal value into Go value".
Definition unmarshal_object (j : json) : result (gmap string json) :=
  match j with
  | JObj m => Ok (object_map m ∅)
  | JNull => Ok ∅
  | _ => Err type_mismatch
  end.

(** Struct fields are matched by name, without regard to letter case. *)
Definition field_is (name key : string) : bool :=
  String.eqb (ToLower (json_unescape key)) (ToLower name).

(** ** Lemmas *)

Lemma insert_sorted_perm {A} (kv : string * A) l : insert_sorted kv l ≡ₚ kv :: l.
Proof.
  induction l as [|kv' l IH]; simpl; [done|]. destruct (String.leb _ _); [done|].
  rewrite IH. apply Permutation_swap.
Qed.

Lemma sorted_entries_perm {A} (m : gmap string A) : sorted_entries m ≡ₚ map_to_list m.
Proof.
  unfold sorted_entries. induction (map_to_list m) as [|kv l IH]; simpl; [done|].
  by rewrite insert_sorted_perm, IH.
Qed.

Lemma string_leb_total a b : String.leb a b = true \/ String.leb b a = true.
Proof. apply String.leb_total. Qed.

Lemma insert_sorted_sorted {A} (kv : string * A) l :
  Sorted (fun x y => String.leb (fst x) (fst y) = true) l ->
  Sorted (fun x y => String.leb (fst x) (fst y) = true) (insert_sorted kv l).
Proof.
  induction 1 as [|kv' l Hs IH Hh]; simpl; [by repeat constructor|].
  destruct (String.leb (fst kv) (fst kv')) eqn:E; [by repeat constructor|].
  constructor; [done|]. destruct (string_leb_total (fst kv) (fst kv')) as [?|Hle]; [congruence|].
  destruct l as [|kv'' l]; simpl; [by constructor|].
  destruct (String.leb (fst kv) (fst kv'')); constructor; [done|].
  by apply HdRel_inv in Hh.
Qed.

(** The encoder's output is sorted by key. *)
Lemma sorted_entries_sorted {A} (m : gmap string A) :
  Sorted (fun x y => String.leb (fst x) (fst y) = true) (sorted_entries m).
Proof.
  unfold sorted_entries. induction (map_to_list m); simpl; [constructor|].
  by apply insert_sorted_sorted.
Qed.

Example unescape_pair : json_unescape "a\u00e9\ud83d\ude00\n" =
  str_of_bytes [97; 195; 169; 240; 159; 152; 128; 10]%N.
Proof. vm_compute. reflexivity. Qed.
Example parse_example : json_parse (str_of_bytes
  [123; 34; 97; 34; 58; 32; 91; 49; 46; 53; 101; 51; 44; 110; 117; 108; 108; 93; 125]%N) =
  Ok (JObj [("a", JArr [JNum "1.5e3"; JNull])]).
Proof. vm_compute. reflexivity. Qed.

(** ** Parsing undoes printing *)

Fixpoint json_ind' (P : json -> Prop) (Hn : P JNull) (Hb : forall b, P (JBool b))
    (Hnum : forall l, P (JNum l)) (Hs : forall s, P (JStr s))
    (Ha : forall l, Forall P l -> P (JArr l))
    (Ho : forall m, Forall (fun kv => P (snd kv)) m -> P (JObj m)) (j : json) : P j :=
  match j with
  | JNull => Hn
  | JBool b => Hb b
  | JNum l => Hnum l
  | JStr s => Hs s
  | JArr l => Ha l ((fix go l : Forall P l :=
      match l with
      | [] => @List.Forall_nil _ P
      | v :: l' => @List.Forall_cons _ P v l' (json_ind' P Hn Hb Hnum Hs Ha Ho v) (go l')
      end) l)
  | JObj m => Ho m ((fix go m : Forall (fun kv => P (snd kv)) m :=
      match m with
      | [] => @List.Forall_nil _ _
      | kv :: m' => @List.Forall_cons _ _ kv m' (json_ind' P Hn Hb Hnum Hs Ha Ho (snd kv)) (go m')
      end) m)
  end.

Definition valid_raw (raw : string) : bool :=
  match scan_string (raw +:+ str1 dquote) with
  | Some (raw', r) => String.eqb raw' raw && String.eqb r ""
  | None => false
  end.
Definition valid_num (lit : string) : bool :=
  match scan_number lit with Some (lit', r) => String.eqb lit' lit && String.eqb r "" | None => false end.

(** Values whose literals are JSON literals: all that the parser returns. *)
Fixpoint json_wf (j : json) : bool :=
  match j with
  | JNum lit => valid_num lit
  | JStr raw => valid_raw raw
  | JArr l => forallb json_wf l
  | JObj m => forallb (fun kv => valid_raw (fst kv) && json_wf (snd kv)) m
  | _ => true
  end.

Definition print_elements : list json -> string :=
  fix go l := match l with
    | [] => "]"
    | [v] => json_print v +:+ "]"
    | v :: l' => json_print v +:+ "," +:+ go l'
    end.
Definition print_members : list (string * json) -> string :=
  fix go m := match m with
    | [] => "}"
    | (k, v) :: m' =>
        String dquote (k +:+ String dquote (":" +:+ json_print v)) +:+
        match m' with [] => "}" | _ => "," +:+ go m' end
    end.

Lemma scan_string_app s raw r t :
  scan_string s = Some (raw, r) -> scan_string (s +:+ t) = Some (raw, r +:+ t).
Proof.
  remember (String.length s) as n eqn:Hn. assert (Hle : String.length s <= n) by lia. clear Hn.
  revert s raw r Hle; induction n as [|n IH]; intros [|c s1] raw r Hle; simpl in Hle |- *;
    try done; [lia|].
  case_decide as Hq; [intros; by simplify_eq|].
  case_decide as Hb.
  - destruct s1 as [|e s2]; [done|]. simpl in Hle |- *. destruct (is_escape e).
    + destruct (scan_string s2) as [[raw' r']|] eqn:E; [|done]. intros; simplify_eq.
      erewrite IH; [reflexivity| |exact E]; lia.
    + case_decide; [|done]. destruct s2 as [|h1 [|h2 [|h3 [|h4 s6]]]]; try done.
      simpl in Hle |- *. destruct (_ && _); [|done].
      destruct (scan_string s6) as [[raw' r']|] eqn:E; [|done]. intros; simplify_eq.
      erewrite IH; [reflexivity| |exact E]; lia.
  - destruct (_ <? _)%Z; [done|].
    destruct (scan_string s1) as [[raw' r']|] eqn:E; [|done]. intros; simplify_eq.
    erewrite IH; [reflexivity| |exact E]; lia.
Qed.

Lemma scan_string_valid raw r :
  valid_raw raw = true -> scan_string (raw +:+ String dquote r) = Some (raw, r).
Proof.
  unfold valid_raw. destruct (scan_string _) as [[raw' r']|] eqn:E; [|done].
  intros H. apply andb_true_iff in H as [->%String.eqb_eq ->%String.eqb_eq].
  apply (scan_string_app _ _ _ r) in E. by rewrite app_str_assoc in E.
Qed.

(** The text does not continue a number. *)
Definition stops (r : string) : bool :=
  match r with
  | "" => true
  | String c _ => negb (is_digit c || is_dot c || is_exp c)
  end.

Lemma span_digits_app s d r t : span_digits s = (d, r) ->
  (r <> "" \/ stops t = true) -> span_digits (s +:+ t) = (d, r +:+ t).
Proof.
  revert d r; induction s as [|c s IH]; intros d r; simpl.
  - intros H; simplify_eq. intros [?|Ht]; [done|]. destruct t as [|c t]; [done|].
    simpl in Ht |- *. destruct (is_digit c); [done|done].
  - destruct (is_digit c); [|intros; by simplify_eq].
    destruct (span_digits s) as [d' r'] eqn:E. intros H Hr; simplify_eq.
    by rewrite (IH _ _ eq_refl Hr).
Qed.

Lemma take_char_app p s t : s <> "" ->
  take_char p (s +:+ t) = let '(a, b) := take_char p s in (a, b +:+ t).
Proof. destruct s as [|c s]; [done|]. simpl. intros _. by destruct (p c). Qed.

Lemma number_part_app marker sign s a r t :
  (forall c, marker c = true -> is_dot c = true \/ is_exp c = true) ->
  number_part marker sign s = Some (a, r) -> stops t = true ->
  number_part marker sign (s +:+ t) = Some (a, r +:+ t).
Proof.
  intros Hm H Ht. unfold number_part in *. destruct s as [|c s].
  - simpl in H. simplify_eq. simpl. destruct t as [|c t]; [done|]. simpl in Ht |- *.
    destruct (marker c) eqn:E; [|done]. apply negb_true_iff in Ht. split_bools.
    destruct (Hm _ E); congruence.
  - simpl in H |- *. destruct (marker c); [|by simplify_eq].
    destruct s as [|c2 s]; [done|].
    rewrite (take_char_app sign (String c2 s) t) by done.
    destruct (take_char sign (String c2 s)) as [sg s2].
    destruct (span_digits s2) as [d r'] eqn:E.
    rewrite (span_digits_app _ _ _ t E) by auto.
    cbn [str1] in *. destruct d; [done|]. by injection H as <- <-.
Qed.

Lemma scan_number_app s lit r t :
  scan_number s = Some (lit, r) -> stops t = true -> scan_number (s +:+ t) = Some (lit, r +:+ t).
Proof.
  intros H Ht. unfold scan_number in *. destruct s as [|c s]; [done|].
  rewrite take_char_app by done. destruct (take_char _ (String c s)) as [sg s1].
  destruct (scan_int s1) as [[i s2]|] eqn:Ei; [|done].
  assert (scan_int (s1 +:+ t) = Some (i, s2 +:+ t)) as ->.
  { destruct s1 as [|c1 s1]; [done|].
    change (String c1 s1 +:+ t) with (String c1 (s1 +:+ t)).
    unfold scan_int in *. destruct (Ascii.eqb c1 "0"); [by simplify_eq|].
    destruct (span_digits (String c1 s1)) as [d r'] eqn:E.
    pose proof (span_digits_app _ _ _ t E (or_intror Ht)) as E'.
    change (String c1 s1 +:+ t) with (String c1 (s1 +:+ t)) in E'. rewrite E'.
    destruct d; [done|]. by simplify_eq. }
  destruct (number_part is_dot no_char s2) as [[f s3]|] eqn:Ef; [|done].
  rewrite (number_part_app _ _ _ _ _ t (fun c => @or_introl _ _) Ef Ht).
  destruct (number_part is_exp is_sign s3) as [[e s4]|] eqn:Ee; [|done].
  rewrite (number_part_app _ _ _ _ _ t (fun c => @or_intror _ _) Ee Ht). by simplify_eq.
Qed.

(** A number starts with a digit or a minus sign, which start nothing else. *)
Lemma valid_num_head lit : valid_num lit = true ->
  exists c s, lit = String c s /\ (is_digit c || Ascii.eqb c "-") = true.
Proof.
  unfold valid_num, scan_number. destruct lit as [|c s]; [done|]. intros H. exists c, s.
  split; [done|]. simpl in H. destruct (Ascii.eqb c "-"); [apply orb_true_r|].
  unfold scan_int in H. destruct (Ascii.eqb c "0") eqn:E0.
  - apply Ascii.eqb_eq in E0 as ->. done.
  - simpl in H. destruct (is_digit c); done.
Qed.

Lemma number_start c : (is_digit c || Ascii.eqb c "-") = true ->
  is_ws c = false /\ Ascii.eqb c "{" = false /\ Ascii.eqb c "[" = false /\
  Ascii.eqb c dquote = false /\ c <> "n"%char /\ c <> "t"%char /\ c <> "f"%char /\
  Ascii.eqb c "]" = false /\ Ascii.eqb c "}" = false.
Proof.
  intros H.
  pose (f c := implb (is_digit c || Ascii.eqb c "-")
    (negb (is_ws c || Ascii.eqb c "{" || Ascii.eqb c "[" || Ascii.eqb c dquote ||
           Ascii.eqb c "n" || Ascii.eqb c "t" || Ascii.eqb c "f" || Ascii.eqb c "]" ||
           Ascii.eqb c "}"))).
  assert (Hf : f c = true) by (apply forall_bytes; vm_compute; reflexivity).
  unfold f in Hf. rewrite H in Hf. simpl in Hf. apply negb_true_iff in Hf. split_bools.
  repeat split; try done; intros ->; done.
Qed.

(** A printed value starts with a character that is neither white space nor a closing bracket. *)
Lemma print_head j : json_wf j = true ->
  exists c s, json_print j = String c s /\ is_ws c = false /\ Ascii.eqb c "]" = false.
Proof.
  destruct j as [|[]|lit|raw|l|m]; intros H; try (eexists _, _; split; [reflexivity|done]).
  simpl in H. destruct (valid_num_head lit H) as (c & s & -> & Hc).
  destruct (number_start c Hc) as (? & _ & _ & _ & _ & _ & _ & ? & _). by exists c, s.
Qed.

Lemma skip_ws_head c s : is_ws c = false -> skip_ws (String c s) = String c s.
Proof. simpl. by intros ->. Qed.

(** [parse_value] reads back a printed value in front of any text that does not continue it. *)
Definition reads_back (j : json) : Prop := json_wf j = true ->
  forall n r, 2 * String.length (json_print j) < n -> stops r = true ->
  parse_value n (json_print j +:+ r) = Some (j, r).

Lemma parse_elements_print l : l <> [] -> Forall reads_back l -> forallb json_wf l = true ->
  forall n r, 2 * String.length (print_elements l) < n ->
  parse_elements n (print_elements l +:+ r) = Some (l, r).
Proof.
  intros Hne Hl. induction Hl as [|v l Hv Hl IH]; [done|]. intros Hwf n r Hn.
  simpl in Hwf. apply andb_true_iff in Hwf as [Hwv Hwl]. destruct n as [|n]; [lia|].
  destruct l as [|v' l'].
  - cbn [print_elements] in *. rewrite length_app_str in Hn. simpl in Hn.
    rewrite app_str_assoc. cbn [parse_elements].
    rewrite (Hv Hwv n ("]" +:+ r)) by (lia || done). done.
  - remember (v' :: l') as l eqn:El.
    assert (E : print_elements (v :: l) = json_print v +:+ "," +:+ print_elements l) by (by subst l).
    rewrite E in *. rewrite !length_app_str in Hn. simpl in Hn.
    rewrite !app_str_assoc. cbn [parse_elements].
    rewrite (Hv Hwv n ("," +:+ print_elements l +:+ r)) by (lia || done).
    change (skip_ws ("," +:+ print_elements l +:+ r)) with (String "," (print_elements l +:+ r)).
    cbn [Ascii.eqb]. simpl. rewrite IH; [done| |done|lia]. by subst l.
Qed.

Lemma print_members_cons k v m :
  print_members ((k, v) :: m) = String dquote (k +:+ String dquote (":" +:+ json_print v)) +:+
    match m with [] => "}" | _ => "," +:+ print_members m end.
Proof. done. Qed.

Lemma parse_members_print m : m <> [] -> Forall (fun kv => reads_back (snd kv)) m ->
  forallb (fun kv => valid_raw (fst kv) && json_wf (snd kv)) m = true ->
  forall n r, 2 * String.length (print_members m) < n ->
  parse_members n (print_members m +:+ r) = Some (m, r).
Proof.
  intros Hne Hl. induction Hl as [|[k v] m Hv Hm IH]; [done|]. intros Hwf n r Hn.
  simpl in Hwf. apply andb_true_iff in Hwf as [[Hwk Hwv]%andb_true_iff Hwm].
  destruct n as [|n]; [lia|]. simpl in Hv.
  assert (Hrest : exists t, (m = [] /\ print_members ((k, v) :: m) +:+ r =
        String dquote (k +:+ String dquote (String ":" (json_print v +:+ String "}" t))) /\ t = r) \/
      (m <> [] /\ print_members ((k, v) :: m) +:+ r =
        String dquote (k +:+ String dquote (String ":" (json_print v +:+ String "," t))) /\
        t = print_members m +:+ r)).
  { destruct m as [|kv m].
    - exists r. left. split; [done|]. split; [|done]. cbn [print_members].
      simpl. rewrite ?app_str_assoc. simpl. by rewrite ?app_str_assoc.
    - exists (print_members (kv :: m) +:+ r). right. split; [done|]. split; [|done].
      change (print_members ((k, v) :: kv :: m)) with
        (String dquote (k +:+ String dquote (":" +:+ json_print v)) +:+ ("," +:+ print_members (kv :: m))).
      simpl. rewrite ?app_str_assoc. simpl. by rewrite ?app_str_assoc. }
  assert (Hlen : String.length (json_print v) + 4 <= String.length (print_members ((k, v) :: m)) /\
    (m <> [] -> String.length (print_members m) + 4 <= String.length (print_members ((k, v) :: m)))).
  { rewrite (print_members_cons k v m). generalize (print_members m), (json_print v). intros pm pv.
    destruct m; simpl; repeat (rewrite ?length_app_str; simpl); split; intros; try done; lia. }
  destruct Hrest as [t [(-> & E & ->)|(Hne' & E & ->)]]; rewrite E; cbn [parse_members];
    (rewrite skip_ws_head by done); cbn [Ascii.eqb negb]; simpl negb; cbn iota;
    rewrite scan_string_valid by done; (rewrite skip_ws_head by done); simpl negb; cbn iota;
    rewrite Hv by (done || lia); (rewrite skip_ws_head by done); simpl Ascii.eqb; cbn iota.
  - done.
  - pose proof (proj2 Hlen Hne'). rewrite IH by (done || lia). done.
Qed.

Lemma json_reads_back j : reads_back j.
Proof.
  induction j as [|b|lit|raw|l IH|m IH] using json_ind'; intros Hwf [|n] r Hn Hr; try lia.
  - done.
  - by destruct b.
  - simpl in Hwf. destruct (valid_num_head lit Hwf) as (c & s & -> & Hc).
    destruct (number_start c Hc) as (Hws & H1 & H2 & H3 & H4 & H5 & H6 & _).
    cbn [json_print]. change (String c s +:+ r) with (String c (s +:+ r)).
    cbn [parse_value]. rewrite skip_ws_head by done. rewrite H1, H2, H3.
    assert (E : strip_prefix "null" (String c (s +:+ r)) = None /\
      strip_prefix "true" (String c (s +:+ r)) = None /\
      strip_prefix "false" (String c (s +:+ r)) = None).
    { cbn [strip_prefix]. by rewrite !decide_False. }
    destruct E as (-> & -> & ->).
    unfold valid_num in Hwf. destruct (scan_number (String c s)) as [[lit' r']|] eqn:E; [|done].
    apply andb_true_iff in Hwf as [->%String.eqb_eq ->%String.eqb_eq].
    apply (scan_number_app _ _ _ r) in E; [|done].
    change (String c s +:+ r) with (String c (s +:+ r)) in E. by rewrite E.
  - simpl in Hwf. cbn [json_print]. change (String dquote (raw +:+ str1 dquote) +:+ r)
      with (String dquote ((raw +:+ str1 dquote) +:+ r)).
    rewrite app_str_assoc. cbn [parse_value]. rewrite skip_ws_head by done. simpl Ascii.eqb.
    cbn iota. change (str1 dquote +:+ r) with (String dquote r).
    by rewrite scan_string_valid.
  - change (json_print (JArr l)) with (String "[" (print_elements l)) in *. cbn [String.length] in Hn.
    change (String "[" (print_elements l) +:+ r) with (String "[" (print_elements l +:+ r)).
    cbn [parse_value]. rewrite skip_ws_head by done. simpl Ascii.eqb. cbn iota.
    destruct l as [|v l]; [done|].
    assert (Hh : exists c s, print_elements (v :: l) = String c s /\ is_ws c = false /\
                   Ascii.eqb c "]" = false).
    { simpl in Hwf. apply andb_true_iff in Hwf as [Hwv _].
      destruct (print_head v Hwv) as (c & s & E & Hc & Hb).
      destruct l; cbn [print_elements]; rewrite E; eexists _, _; (split; [reflexivity|done]). }
    destruct Hh as (c & s & E & Hc & Hb).
    pose proof (parse_elements_print (v :: l) ltac:(done) IH Hwf n r ltac:(lia)) as Hp.
    rewrite E in *. change (String c s +:+ r) with (String c (s +:+ r)) in *.
    rewrite (skip_ws_head c) by done. rewrite Hb, Hp. done.
  - change (json_print (JObj m)) with (String "{" (print_members m)) in *. cbn [String.length] in Hn.
    change (String "{" (print_members m) +:+ r) with (String "{" (print_members m +:+ r)).
    cbn [parse_value]. rewrite skip_ws_head by done. simpl Ascii.eqb. cbn iota.
    destruct m as [|[k v] m]; [done|].
    pose proof (parse_members_print ((k, v) :: m) ltac:(done) IH Hwf n r ltac:(lia)) as Hp.
    assert (E : exists s, print_members ((k, v) :: m) = String dquote s) by (by eexists).
    destruct E as [s E]. rewrite E in *.
    change (String dquote s +:+ r) with (String dquote (s +:+ r)) in *.
    rewrite (skip_ws_head dquote) by done. simpl Ascii.eqb. cbn iota. by rewrite Hp.
Qed.

(** Decoding an encoded JSON value gives the value back, for every value whose literals are
    well formed, also when it is read as the first value of a longer text. *)
Theorem json_roundtrip : forall j r,
  json_wf j = true -> stops r = true ->
  json_parse (json_print j) = Ok j /\ json_decode_first (json_print j +:+ r) = Ok j.
Proof.
  intros j r Hwf Hr. split.
  - unfold json_parse, parse_fuel. rewrite <- (app_str_nil_r (json_print j)) at 2.
    rewrite (json_reads_back j Hwf) by (done || lia). done.
  - unfold json_decode_first, parse_fuel.
    destruct (print_head j Hwf) as (c & s & E & Hc & _).
    pose proof (json_reads_back j Hwf (S (2 * String.length (json_print j +:+ r))) r) as Hp.
    rewrite length_app_str in Hp. rewrite length_app_str, Hp by (done || lia).
    rewrite E. change (String c s +:+ r) with (String c (s +:+ r)). by rewrite skip_ws_head.
Qed.

Lemma json_roundtrip_witness :
  json_parse (json_print (JObj [("auth", JArr [JNum "-1.5e3"; JStr "x"; JNull])])) =
  Ok (JObj [("auth", JArr [JNum "-1.5e3"; JStr "x"; JNull])]).
Proof. apply (json_roundtrip (JObj [("auth", JArr [JNum "-1.5e3"; JStr "x"; JNull])]) ""); reflexivity. Defined.
