(* ===== verification/JsonDecode.v ===== *)
(** * JSON into Go values: [json.Unmarshal]

    Decoding a parsed value into structs, pointers, slices, maps, strings and integers, as the reflection
    of [encoding/json] does it: null leaves a value alone, fields are matched without regard to case, an
    element of a slice starts from the one already there. Texts of errors are not those of Go. *)
From stdpp Require Import base gmap strings list option fin_maps.
From Stdlib Require Import ZArith Lia Ascii.
From S2P Require Import Prelude GoStrings GoCodec Json.

(** The fields of an object, one after the other. *)
Fixpoint decode_fields {A} (f : string -> json -> A -> result A) (m : list (string * json)) (a : A) :
    result A :=
  match m with
  | [] => Ok a
  | (k, v) :: m' => a ← f k v a; decode_fields f m' a
  end.

(** A value into a struct, a pointer to one, a slice and a map. *)
Definition decode_struct {A} (f : string -> json -> A -> result A) (v : json) (a : A) : result A :=
  match v with JObj m => decode_fields f m a | JNull => Ok a | _ => Err type_mismatch end.
Definition decode_pointer {A} (zero : A) (f : json -> A -> result A) (v : json) (p : option A) :
    result (option A) :=
  match v with JNull => Ok None | _ => Some <$> f v (default zero p) end.
Fixpoint decode_elements {A} (zero : A) (f : json -> A -> result A) (l : list json) (old : list A) :
    result (list A) :=
  match l with
  | [] => Ok []
  | v :: l' => h ← f v (hd zero old); t ← decode_elements zero f l' (tl old); Ok (h :: t)
  end.
Definition decode_slice {A} (zero : A) (f : json -> A -> result A) (v : json) (old : list A) :
    result (list A) :=
  match v with JArr l => decode_elements zero f l old | JNull => Ok [] | _ => Err type_mismatch end.
Fixpoint decode_entries {A} (zero : A) (f : json -> A -> result A) (m : list (string * json))
    (old : gmap string A) : result (gmap string A) :=
  match m with
  | [] => Ok old
  | (k, v) :: m' => a ← f v zero; decode_entries zero f m' (<[json_unescape k := a]> old)
  end.
Definition decode_map {A} (zero : A) (f : json -> A -> result A) (v : json) (old : gmap string A) :
    result (gmap string A) :=
  match v with JObj m => decode_entries zero f m old | JNull => Ok ∅ | _ => Err type_mismatch end.

(** A JSON string or null into a string field. *)
Definition decode_text (old : string) (v : json) : result string :=
  match v with JStr raw => Ok (json_unescape raw) | JNull => Ok old | _ => Err type_mismatch end.

Definition decode_string (v : json) (old : string) : result string := decode_text old v.
Definition decode_uint64 (v : json) (old : Z) : result Z :=
  match v with
  | JNum lit => match ParseUint lit 10 64 with Ok z => Ok z | Err _ => Err type_mismatch end
  | JNull => Ok old
  | _ => Err type_mismatch
  end.

(** A literal into a signed or unsigned field of some width, and a boolean. *)
Definition decode_signed (bits : Z) (v : json) (old : Z) : result Z :=
  match v with
  | JNum lit => match ParseInt lit 10 bits with Ok z => Ok z | Err _ => Err type_mismatch end
  | JNull => Ok old
  | _ => Err type_mismatch
  end.
Definition decode_unsigned (bits : Z) (v : json) (old : Z) : result Z :=
  match v with
  | JNum lit => match ParseUint lit 10 bits with Ok z => Ok z | Err _ => Err type_mismatch end
  | JNull => Ok old
  | _ => Err type_mismatch
  end.
Definition decode_bool (v : json) (old : bool) : result bool :=
  match v with JBool b => Ok b | JNull => Ok old | _ => Err type_mismatch end.

(** A slice or map that may be nil: null makes it so. *)
Definition decode_nilable {A} (empty : A) (f : json -> A -> result A) (v : json) (old : option A) :
    result (option A) :=
  match v with JNull => Ok None | _ => Some <$> f v (default empty old) end.

(** An integer literal into an [int] field. *)
Definition decode_int (old : Z) (v : json) : result Z :=
  match v with
  | JNum lit => match ParseInt lit 10 64 with Ok z => Ok z | Err _ => Err type_mismatch end
  | JNull => Ok old
  | _ => Err type_mismatch
  end.

(** [json.NewDecoder(f).Decode(&v)]: the first value of the input. *)
Definition json_Decode {A} (f : json -> A -> result A) (zero : A) (data : string) : result A :=
  j ← json_decode_first data; f j zero.

(** For examples: single quotes for double ones. *)
Fixpoint double_quotes (s : string) : string :=
  match s with
  | "" => ""
  | String c s' => String (if Ascii.eqb c "'" then chr 34 else c) (double_quotes s')
  end.

(** A target of type [any] keeps the value; null is nil. *)
Definition decode_any (v : json) (_ : json) : result json := Ok v.

(** With [DisallowUnknownFields]. *)
Definition unknown_field : error := EText "json: unknown field".
