(* ===== verification/JsonString.v ===== *)
(** * Strings and integers through JSON

    A Go string written by [json.Marshal] and read by [json.Unmarshal] comes back, except that every byte
    that is not part of a UTF-8 encoding has become U+FFFD; an integer of 64 bits comes back unchanged. The
    messages of the fetchctl socket rely on both. *)
From stdpp Require Import base strings list option.
From Stdlib Require Import ZArith Lia Ascii.
From S2P Require Import Prelude GoStrings GoCodec Json.

(** ** Valid UTF-8 *)

(** [strings.ToValidUTF8] byte by byte: an invalid byte becomes U+FFFD. *)
Fixpoint to_valid (fuel : nat) (s : string) : string :=
  match fuel with
  | O => ""
  | S fuel =>
      match s with
      | "" => ""
      | String _ s1 =>
          match rune_len s with
          | O => RuneErrorBytes +:+ to_valid fuel s1
          | n => str_take n s +:+ to_valid fuel (str_drop n s)
          end
      end
  end.
Definition ToValidUTF8 (s : string) : string := to_valid (S (String.length s)) s.

(** [utf8.ValidString] *)
Fixpoint valid_runes (fuel : nat) (s : string) : bool :=
  match fuel with
  | O => true
  | S fuel =>
      match s with
      | "" => true
      | String _ _ =>
          match rune_len s with O => false | n => valid_runes fuel (str_drop n s) end
      end
  end.
Definition utf8_ValidString (s : string) : bool := valid_runes (S (String.length s)) s.

Lemma to_valid_same fuel s : valid_runes fuel s = true -> String.length s < fuel -> to_valid fuel s = s.
Proof.
  revert s; induction fuel as [|fuel IH]; intros [|c s1]; try done; [simpl; lia|].
  cbn [to_valid valid_runes String.length]. destruct (rune_len (String c s1)) as [|n] eqn:E; [done|]. intros Hv Hl.
  rewrite IH; [|done|cbn [str_drop]].
  - apply (str_take_drop (S n) (String c s1)).
  - pose proof (str_take_drop n s1) as H. apply (f_equal String.length) in H.
    rewrite length_app_str in H. lia.
Qed.

Lemma ToValidUTF8_same s : utf8_ValidString s = true -> ToValidUTF8 s = s.
Proof. intros. apply to_valid_same; [done|lia]. Qed.

(** ** One rune *)

Definition high (c : ascii) : bool := (128 <=? byte_Z c)%Z.

(** The encoding of a rune: what follows it does not matter, and all its bytes are high unless it is one. *)
Lemma rune_len_local s n t : rune_len s = S n -> rune_len (str_take (S n) s +:+ t) = S n /\
  String.length (str_take (S n) s) = S n.
Proof.
  destruct s as [|a s1]; [done|]. cbn [rune_len].
  destruct (byte_Z a <? 128)%Z eqn:Ea; [intros [= <-]; simpl; by rewrite Ea|].
  destruct s1 as [|b s2]; [done|].
  destruct (in_range 194 223 a) eqn:E2.
  { destruct (cont_byte b) eqn:Eb; [|done]. intros [= <-]. simpl. by rewrite Ea, E2, Eb. }
  destruct s2 as [|c s3]; [done|]. cbv zeta.
  destruct ((if (byte_Z a =? 224)%Z then _ else _) && cont_byte c) eqn:E3.
  { intros [= <-]. simpl. by rewrite Ea, E2, E3. }
  destruct s3 as [|d s4]; [done|].
  destruct ((if (byte_Z a =? 240)%Z then _ else _) && cont_byte c && cont_byte d) eqn:E4; [|done].
  intros [= <-]. simpl. by rewrite Ea, E2, E3, E4.
Qed.

Lemma in_range_high lo hi c : (128 <= lo)%Z -> in_range lo hi c = true -> high c = true.
Proof. unfold in_range, high. intros ? H%andb_true_iff. destruct H as [H _]. lia. Qed.

Lemma length_str_drop s n : rune_len s = S n -> String.length (str_drop (S n) s) + S n = String.length s.
Proof.
  intros H. destruct (rune_len_local s n "" H) as [_ Hl].
  rewrite <- (str_take_drop (S n) s) at 2. rewrite length_app_str. lia.
Qed.

Lemma rune_bytes_high a s n : high a = true -> rune_len (String a s) = S n ->
  str_forall high (str_take (S n) (String a s)) = true.
Proof.
  intros Ha. cbn [rune_len]. replace (byte_Z a <? 128)%Z with false by (unfold high in Ha; lia).
  assert (Hc : forall x, cont_byte x = true -> high x = true) by (intros x; by apply in_range_high).
  destruct s as [|b s2]; [done|].
  destruct (in_range 194 223 a).
  { destruct (cont_byte b) eqn:Eb; [|done]. intros [= <-]. simpl. by rewrite Ha, (Hc b). }
  destruct s2 as [|c s3]; [done|]. cbv zeta.
  assert (Hb : forall f : bool, forall lo1 hi1 lo2 hi2 x (g h : bool), (if f then in_range lo1 hi1 x else if g then in_range lo2 hi2 x else h && cont_byte x) = true ->
    (128 <= lo1)%Z -> (128 <= lo2)%Z -> high x = true).
  { intros [] ???? x [] h Hx ??; try (by eapply in_range_high, Hx). apply andb_true_iff in Hx as [_ Hx]. auto. }
  destruct ((if (byte_Z a =? 224)%Z then _ else _) && cont_byte c) eqn:E3.
  { intros [= <-]. apply andb_true_iff in E3 as [E3 Ec]. simpl. rewrite Ha, (Hc c) by done.
    by rewrite (Hb _ _ _ _ _ _ _ _ E3). }
  destruct s3 as [|d s4]; [done|].
  destruct ((if (byte_Z a =? 240)%Z then _ else _) && cont_byte c && cont_byte d) eqn:E4; [|done].
  intros [= <-]. apply andb_true_iff in E4 as [[E4 Ec]%andb_true_iff Ed]. simpl.
  rewrite Ha, (Hc c), (Hc d) by done. by rewrite (Hb _ _ _ _ _ _ _ _ E4).
Qed.

(** ** Escapes *)

(** How a character below 128 is written: a short escape, four hexadecimal digits, or itself. *)
Inductive ascii_view (c : ascii) : string -> Prop :=
| view_short e : is_escape e = true -> simple_escape e = c -> ascii_view c (String backslash (str1 e))
| view_u00 : ascii_view c (u00 c)
| view_plain : c <> dquote -> c <> backslash -> (byte_Z c <? 32)%Z = false -> ascii_view c (str1 c).

Lemma escape_ascii_view html c : ascii_view c (escape_ascii html c).
Proof.
  unfold escape_ascii.
  destruct (Ascii.eqb_spec c dquote) as [->|Hq]; [by apply view_short|].
  destruct (Ascii.eqb_spec c backslash) as [->|Hb]; [by apply view_short|]. cbn [orb].
  destruct (Ascii.eqb_spec c (chr 8)) as [->|_]; [by apply (view_short _ "b")|].
  destruct (Ascii.eqb_spec c (chr 12)) as [->|_]; [by apply (view_short _ "f")|].
  destruct (Ascii.eqb_spec c nl) as [->|_]; [by apply (view_short _ "n")|].
  destruct (Ascii.eqb_spec c cr) as [->|_]; [by apply (view_short _ "r")|].
  destruct (Ascii.eqb_spec c (chr 9)) as [->|_]; [by apply (view_short _ "t")|].
  destruct (byte_Z c <? 32)%Z eqn:E; [apply view_u00|].
  destruct (html && _); [apply view_u00|by apply view_plain].
Qed.

Lemma u_escape_plain c r : c <> backslash -> u_escape (String c r) = None.
Proof.
  intros Hc. destruct r as [|u [|h1 [|h2 [|h3 [|h4 r]]]]]; try done. simpl.
  destruct (Ascii.eqb_spec c backslash); done.
Qed.

Lemma u_escape_short e r : is_escape e = true -> u_escape (String backslash (String e r)) = None.
Proof.
  intros He. destruct r as [|h1 [|h2 [|h3 [|h4 r]]]]; try done. unfold u_escape.
  destruct (Ascii.eqb_spec e "u") as [->|]; [done|]. by rewrite andb_false_r.
Qed.

Lemma u_escape_u00 c r : (byte_Z c <? 128)%Z = true ->
  exists v, u_escape (u00 c +:+ r) = Some (v, r) /\ EncodeRune v = str1 c /\ (v <? 128)%N = true.
Proof.
  intros Hc. exists (N_of_ascii c). unfold u00, u_escape. simpl. unfold hex4.
  rewrite hex_digit_val_hi, hex_digit_val_lo. split; [|unfold byte_Z in Hc; unfold EncodeRune].
  - simpl. do 2 f_equal. match goal with |- (?a * 4096 + _ + _ + _)%N = _ => change a with 0%N end.
    pose proof (N.div_mod' (N_of_ascii c) 16). lia.
  - assert (Hv : (N_of_ascii c <? 128)%N = true) by (apply N.ltb_lt; apply Z.ltb_lt in Hc; lia).
    rewrite Hv. unfold str_of_bytes, chr. simpl. by rewrite ascii_N_embedding.
Qed.

Lemma unescape_ascii html c r fuel : (byte_Z c <? 128)%Z = true ->
  unescape (S fuel) (escape_ascii html c +:+ r) = str1 c +:+ unescape fuel r.
Proof.
  intros Hc. destruct (escape_ascii_view html c) as [e He <-| |Hq Hb _].
  - change (String backslash (str1 e) +:+ r) with (String backslash (String e r)).
    cbn [unescape]. by rewrite u_escape_short.
  - destruct (u_escape_u00 c r Hc) as (v & E & Hv & Hlt).
    change (u00 c +:+ r) with (String backslash (("u00" +:+ EncodeToString (str1 c)) +:+ r)) in *.
    cbn [unescape]. rewrite E, Hv. apply N.ltb_lt in Hlt.
    by rewrite (proj2 (N.leb_gt 55296 v)) by lia.
  - cbn [unescape String.append str1]. rewrite u_escape_plain by done.
    destruct (Ascii.eqb_spec c backslash); [done|]. cbn [rune_len]. by rewrite Hc.
Qed.

(** The bytes of a longer rune stand for themselves. *)
Lemma unescape_rune s n r fuel : rune_len s = S n -> str_forall high (str_take (S n) s) = true ->
  unescape (S fuel) (str_take (S n) s +:+ r) = str_take (S n) s +:+ unescape fuel r.
Proof.
  intros Hs Hh. destruct (rune_len_local s n r Hs) as [Hn Hl].
  destruct (str_take (S n) s) as [|c p] eqn:E; [done|]. cbn [str_forall] in Hh.
  apply andb_true_iff in Hh as [Hc _]. assert (Hb : c <> backslash) by (by intros ->).
  change (String c p +:+ r) with (String c (p +:+ r)) in *. cbn [unescape].
  rewrite u_escape_plain, Hn by done. destruct (Ascii.eqb_spec c backslash); [done|].
  change (String c (p +:+ r)) with (String c p +:+ r). by rewrite str_take_app, str_drop_app.
Qed.

Lemma line_separator_spec s e : line_separator s = Some e -> exists v t,
  s = EncodeRune v +:+ t /\ rune_len s = 3 /\ str_take 3 s = EncodeRune v /\
  (forall r, u_escape (e +:+ r) = Some (v, r)) /\ (v < 55296)%N /\ (exists x y, e = String backslash (String x y)).
Proof.
  unfold line_separator. destruct (HasPrefix s _) eqn:E1; [|destruct (HasPrefix s (str_of_bytes [226; 128; 169]%N)) eqn:E2; [|done]].
  - intros [= <-]. apply HasPrefix_true in E1 as [t ->]. exists 8232%N, t. repeat split; eauto.
  - intros [= <-]. apply HasPrefix_true in E2 as [t ->]. exists 8233%N, t. repeat split; eauto.
Qed.

(** Decoding what the encoder wrote. *)
Lemma unescape_escape html n s m : String.length s < n -> String.length (escape n html s) < m ->
  unescape m (escape n html s) = to_valid n s.
Proof.
  revert s m; induction n as [|n IH]; intros s m Hs Hm; [lia|].
  destruct m as [|m]; [lia|]. destruct s as [|c s1]; [done|]. cbn [String.length] in Hs.
  cbn [escape to_valid] in *. destruct (byte_Z c <? 128)%Z eqn:Ec.
  { rewrite length_app_str in Hm. rewrite unescape_ascii by done.
    assert (Hn : rune_len (String c s1) = 1) by (cbn [rune_len]; by rewrite Ec). rewrite Hn. simpl.
    f_equal. apply IH; [lia|]. destruct (escape_ascii_view html c); simpl in Hm; lia. }
  destruct (line_separator (String c s1)) as [e|] eqn:El.
  { destruct (line_separator_spec _ _ El) as (v & t & E & Hn & Ht & Hu & Hv & x & y & ->).
    rewrite Hn, Ht. change (String backslash (String x y) +:+ ?r) with (String backslash (String x y +:+ r)).
    cbn [unescape]. change (String backslash (String x y +:+ ?r)) with (String backslash (String x y) +:+ r).
    rewrite Hu. rewrite (proj2 (N.leb_gt 55296 v)) by lia. cbn [andb]. cbn iota. f_equal.
    apply IH; [apply length_str_drop in Hn; cbn [String.length] in Hn; lia|].
    rewrite length_app_str in Hm. cbn [String.length] in Hm. lia. }
  destruct (rune_len (String c s1)) as [|k] eqn:En.
  - cbn [String.append String.length] in Hm |- *. cbn [unescape].
    match goal with |- context [u_escape ?t] =>
      change (u_escape t) with (Some (65533%N, escape n html s1)) end. cbn iota beta zeta.
    change ((55296 <=? 65533)%N && (65533 <=? 57343)%N) with false. cbn iota.
    change (EncodeRune 65533) with RuneErrorBytes. f_equal. apply IH; lia.
  - assert (Hh : high c = true) by (unfold high; lia).
    pose proof (rune_bytes_high _ _ _ Hh En) as Hb. rewrite unescape_rune by done. f_equal.
    destruct (rune_len_local _ _ "" En) as [_ Hl]. rewrite length_app_str, Hl in Hm.
    apply length_str_drop in En. cbn [String.length] in En. apply IH; lia.
Qed.

(** ** Reading a literal back *)

(** A piece of a literal: the scanner copies it. *)
Definition raw_piece (p : string) : Prop := forall s raw r,
  scan_string s = Some (raw, r) -> scan_string (p +:+ s) = Some (p +:+ raw, r).

Lemma raw_piece_app p q : raw_piece p -> raw_piece q -> raw_piece (p +:+ q).
Proof. intros Hp Hq s raw r H. rewrite !app_str_assoc. by apply Hp, Hq. Qed.

Lemma raw_piece_char c : c <> dquote -> c <> backslash -> (byte_Z c <? 32)%Z = false -> raw_piece (str1 c).
Proof. intros Hq Hb Hc s raw r H. simpl. by rewrite decide_False, decide_False, Hc, H. Qed.

Lemma raw_piece_high p : str_forall high p = true -> raw_piece p.
Proof.
  induction p as [|c p IH]; [by intros _ s raw r|]. simpl. intros [Hc Hp]%andb_true_iff.
  apply (raw_piece_app (str1 c)); [|by apply IH].
  apply raw_piece_char; [by intros ->|by intros ->|unfold high in Hc; lia].
Qed.

Lemma raw_piece_short e : is_escape e = true -> raw_piece (String backslash (str1 e)).
Proof. intros He s raw r H. simpl. by rewrite He, H. Qed.

Lemma raw_piece_u h1 h2 h3 h4 : is_hex h1 && is_hex h2 && is_hex h3 && is_hex h4 = true ->
  raw_piece (String backslash (String "u" (String h1 (String h2 (String h3 (str1 h4)))))).
Proof. intros Hh s raw r H. cbn [String.append str1 scan_string]. simpl decide. by rewrite Hh, H. Qed.

Lemma raw_piece_ascii html c : raw_piece (escape_ascii html c).
Proof.
  destruct (escape_ascii_view html c) as [e He _| |Hq Hb Hc].
  - by apply raw_piece_short.
  - apply raw_piece_u. unfold is_hex. rewrite hex_digit_val_hi, hex_digit_val_lo. done.
  - by apply raw_piece_char.
Qed.

Lemma raw_piece_line s e : line_separator s = Some e -> raw_piece e.
Proof.
  unfold line_separator. destruct (HasPrefix _ _); [|destruct (HasPrefix _ _); [|done]];
    intros [= <-]; by apply raw_piece_u.
Qed.

Lemma raw_piece_escape html n s : raw_piece (escape n html s).
Proof.
  revert s; induction n as [|n IH]; intros s; [by intros t raw r|].
  destruct s as [|c s]; [by intros t raw r|]. cbn [escape].
  destruct (byte_Z c <? 128)%Z eqn:Ec; [apply raw_piece_app; [apply raw_piece_ascii|apply IH]|].
  destruct (line_separator _) as [e|] eqn:El; [apply raw_piece_app; [by eapply raw_piece_line|apply IH]|].
  destruct (rune_len _) as [|k] eqn:En.
  - apply (raw_piece_app (String backslash "ufffd")); [by apply raw_piece_u|apply IH].
  - apply raw_piece_app; [|apply IH]. apply raw_piece_high, rune_bytes_high; [unfold high; lia|done].
Qed.

(** What the encoder writes between the quotes is a literal. *)
Lemma json_escape_valid html s : valid_raw (json_escape html s) = true.
Proof.
  unfold valid_raw. pose proof (raw_piece_escape html (S (String.length s)) s (str1 dquote) "" "" eq_refl) as H.
  rewrite app_str_nil_r in H. unfold json_escape. rewrite H. by rewrite String.eqb_refl.
Qed.

Lemma json_unescape_escape html s : json_unescape (json_escape html s) = ToValidUTF8 s.
Proof. unfold json_unescape, json_escape, ToValidUTF8. apply unescape_escape; lia. Qed.

(** A Go string written by the JSON encoder is a well-formed literal that is read back as the string, but for
    bytes outside UTF-8; with and without the escaping of markup. *)
Theorem json_string_roundtrip : forall html s, utf8_ValidString s = true ->
  json_wf (jstring html s) = true /\
  json_parse (json_print (jstring html s)) = Ok (jstring html s) /\
  json_unescape (json_escape html s) = s.
Proof.
  intros html s Hs. split; [apply json_escape_valid|]. split; [|by rewrite json_unescape_escape, ToValidUTF8_same].
  unfold json_parse, parse_fuel. rewrite <- (app_str_nil_r (json_print _)) at 2.
  rewrite json_reads_back; [done|apply json_escape_valid|lia|done].
Qed.

Lemma json_string_roundtrip_witness :
  utf8_ValidString "a<b> & café" = true /\
  json_unescape (json_escape true "a<b> & café") = "a<b> & café".
Proof. split; [by vm_compute|]. by apply json_string_roundtrip; vm_compute. Defined.

(** ** Integers *)

Definition digit (n : N) : ascii := chr (48 + n mod 10).

Lemma digit_facts n : digit_val (digit n) = Some (Z.of_N (n mod 10)) /\ is_digit (digit n) = true.
Proof.
  assert (H : (n mod 10 < 10)%N) by (by apply N.mod_lt). unfold digit. revert H. generalize (n mod 10)%N.
  intros m Hm. destruct (decide (m = 0 \/ m = 1 \/ m = 2 \/ m = 3 \/ m = 4 \/ m = 5 \/ m = 6 \/ m = 7 \/ m = 8 \/ m = 9)%N)
    as [Hd|]; [|lia]. by decompose [or] Hd; subst.
Qed.

Lemma digit_zero n : digit n = "0"%char -> (n mod 10 = 0)%N.
Proof. intros H. pose proof (proj1 (digit_facts n)) as E. rewrite H in E. injection E as E'. apply (N2Z.inj _ 0). by rewrite <- E'. Qed.

Lemma log2_step fuel n : (10 <= n)%N -> (n < 2 ^ N.of_nat (S fuel))%N -> (n / 10 < 2 ^ N.of_nat fuel)%N.
Proof.
  intros Hn Hl. rewrite Nat2N.inj_succ, N.pow_succ_r' in Hl.
  apply N.Div0.div_lt_upper_bound. revert Hl. generalize (2 ^ N.of_nat fuel)%N. lia.
Qed.

(** The digits of a number, in front of some text: what they read as. *)
Lemma parse_digits_dec fuel n acc : (n < 2 ^ N.of_nat fuel)%N -> 0 < fuel ->
  parse_digits 10 (digits_of_pos_nat fuel n acc) 0 = parse_digits 10 acc (Z.of_N n).
Proof.
  revert n acc; induction fuel as [|fuel IH]; intros n acc Hl Hf; [lia|]. cbn [digits_of_pos_nat].
  change (chr (48 + n mod 10)) with (digit n).
  assert (Hstep : forall a, (0 <= a)%Z -> parse_digits 10 (String (digit n) acc) a =
    parse_digits 10 acc (a * 10 + Z.of_N (n mod 10))%Z).
  { intros a Ha. cbn [parse_digits]. rewrite (proj1 (digit_facts n)).
    pose proof (N.mod_lt n 10 ltac:(done)). by rewrite (proj2 (Z.ltb_lt _ _)) by lia. }
  destruct (N.ltb_spec n 10) as [Hn|Hn].
  - rewrite Hstep, N.mod_small by lia. f_equal.
  - pose proof (log2_step fuel n Hn Hl) as Hl'. rewrite IH; [|done|].
    + rewrite Hstep by apply N2Z.is_nonneg. f_equal.
      pose proof (N.div_mod' n 10) as H. revert H. generalize (n / 10)%N, (n mod 10)%N. lia.
    + destruct fuel; [simpl in Hl; lia|lia].
Qed.

Lemma digits_shape fuel n acc : (n < 2 ^ N.of_nat fuel)%N -> 0 < fuel ->
  exists c s, digits_of_pos_nat fuel n acc = String c (s +:+ acc) /\ is_digit c = true /\
    str_forall is_digit s = true /\ (c = "0"%char -> n = 0%N /\ s = "").
Proof.
  revert n acc; induction fuel as [|fuel IH]; intros n acc Hl Hf; [lia|]. cbn [digits_of_pos_nat].
  change (chr (48 + n mod 10)) with (digit n). destruct (N.ltb_spec n 10) as [Hn|Hn].
  - exists (digit n), "". split; [done|]. split; [apply digit_facts|]. split; [done|].
    intros H%digit_zero. rewrite N.mod_small in H by done. done.
  - pose proof (log2_step fuel n Hn Hl) as Hl'.
    destruct (IH (n / 10)%N (String (digit n) acc) Hl') as (c & s & -> & Hc & Hs & H0).
    { destruct fuel; [simpl in Hl; lia|lia]. }
    exists c, (s +:+ str1 (digit n)). rewrite app_str_assoc. split; [done|]. split; [done|]. split.
    + rewrite str_forall_app, Hs. simpl. by rewrite (proj2 (digit_facts n)).
    + intros [E _]%H0. exfalso. pose proof (N.div_mod' n 10). pose proof (N.mod_lt n 10 ltac:(done)). lia.
Qed.

Lemma dec_fuel n : (n < 2 ^ N.of_nat (S (N.to_nat (N.log2 n))))%N.
Proof.
  rewrite Nat2N.inj_succ, N2Nat.id. destruct (decide (n = 0%N)) as [->|Hn]; [done|].
  apply N.log2_spec. lia.
Qed.

Lemma N_to_dec_shape n : exists c s, N_to_dec n = String c s /\ is_digit c = true /\
  str_forall is_digit s = true /\ (c = "0"%char -> s = "").
Proof.
  destruct (digits_shape _ n "" (dec_fuel n) ltac:(lia)) as (c & s & H & Hc & Hs & H0).
  exists c, s. unfold N_to_dec. rewrite H, app_str_nil_r. split; [done|]. split; [done|]. split; [done|]. by intros [_ ->]%H0.
Qed.

Lemma ParseUint_dec n : (Z.of_N n < 2 ^ 64)%Z -> ParseUint (N_to_dec n) 10 64 = Ok (Z.of_N n).
Proof.
  intros Hn. unfold ParseUint.
  assert (E : parse_digits 10 (N_to_dec n) 0 = Some (Z.of_N n)).
  { unfold N_to_dec. rewrite parse_digits_dec by (apply dec_fuel || lia). done. }
  destruct (N_to_dec_shape n) as (c & s & Hs & _). rewrite Hs in *. rewrite E.
  by rewrite (proj2 (Z.ltb_lt _ _)).
Qed.

(** [strconv.Itoa] and back. *)
Lemma ParseInt_Itoa z : (- 2 ^ 63 <= z < 2 ^ 63)%Z -> ParseInt (Itoa z) 10 64 = Ok z.
Proof.
  intros Hz. unfold ParseInt, Itoa. destruct (Z.ltb_spec z 0) as [Hn|Hn].
  - simpl. rewrite ParseUint_dec by lia. rewrite Z2N.id by lia.
    rewrite (proj2 (Z.ltb_ge _ _)) by lia. f_equal. lia.
  - destruct (N_to_dec_shape (Z.to_N z)) as (c & s & Hs & Hc & _).
    pose proof (ParseUint_dec (Z.to_N z) ltac:(lia)) as E. rewrite Hs in *.
    rewrite decide_False by (by intros ->). rewrite decide_False by (by intros ->).
    rewrite E, Z2N.id by lia. cbn [negb andb]. by rewrite (proj2 (Z.leb_gt _ _)) by lia.
Qed.

Lemma span_digits_all s : str_forall is_digit s = true -> span_digits s = (s, "").
Proof. induction s as [|c s IH]; simpl; [done|]. intros [Hc Hs]%andb_true_iff. by rewrite Hc, IH. Qed.

Lemma scan_int_dec n : scan_int (N_to_dec n) = Some (N_to_dec n, "").
Proof.
  destruct (N_to_dec_shape n) as (c & s & -> & Hc & Hs & H0). unfold scan_int.
  destruct (Ascii.eqb_spec c "0") as [->|]; [by rewrite H0|].
  by rewrite span_digits_all by (simpl; by rewrite Hc, Hs).
Qed.

Lemma valid_num_Itoa z : valid_num (Itoa z) = true.
Proof.
  unfold valid_num, scan_number, Itoa. destruct (z <? 0)%Z.
  - simpl. rewrite scan_int_dec. simpl. by rewrite app_str_nil_r, String.eqb_refl.
  - destruct (N_to_dec_shape (Z.to_N z)) as (c & s & Hs & Hc & _).
    pose proof (scan_int_dec (Z.to_N z)) as E. rewrite Hs in *. cbn [take_char].
    destruct (Ascii.eqb_spec c "-") as [->|]; [done|]. rewrite E. simpl.
    by rewrite app_str_nil_r, Ascii.eqb_refl, String.eqb_refl.
Qed.

(** ** Putting valid text together *)

(** A sequence of UTF-8 encodings. *)
Inductive utf8 : string -> Prop :=
| utf8_nil : utf8 ""
| utf8_rune s n : rune_len s = S n -> utf8 (str_drop (S n) s) -> utf8 s.

Lemma utf8_valid n s : valid_runes n s = true -> String.length s < n -> utf8 s.
Proof.
  revert s; induction n as [|n IH]; intros s Hv Hl; [lia|]. cbn [valid_runes] in Hv.
  destruct s as [|c s]; [apply utf8_nil|]. destruct (rune_len (String c s)) as [|k] eqn:E; [done|].
  apply (utf8_rune _ k); [done|]. apply IH; [done|]. apply length_str_drop in E. lia.
Qed.

Lemma valid_utf8 n s : utf8 s -> valid_runes n s = true.
Proof.
  intros H. revert n. induction H as [|s k Hk _ IH]; intros [|n]; try done. cbn [valid_runes].
  destruct s; [done|]. rewrite Hk. apply IH.
Qed.

Lemma utf8_ValidString_iff s : utf8_ValidString s = true <-> utf8 s.
Proof. split; [intros H; by eapply utf8_valid; [|apply le_n]|apply valid_utf8]. Qed.

Lemma utf8_take s n : rune_len s = S n -> utf8 (str_take (S n) s).
Proof.
  intros H. destruct (rune_len_local s n "" H) as [Hn Hl]. rewrite app_str_nil_r in Hn.
  apply (utf8_rune _ n); [done|]. rewrite <- (app_str_nil_r (str_take _ _)), str_drop_app by done. apply utf8_nil.
Qed.

Lemma utf8_app a b : utf8 a -> utf8 b -> utf8 (a +:+ b).
Proof.
  induction 1 as [|s n Hn _ IH]; intros Hb; [done|]. specialize (IH Hb).
  destruct (rune_len_local s n (str_drop (S n) s +:+ b) Hn) as [Hr Hl].
  rewrite <- app_str_assoc, str_take_drop in Hr. apply (utf8_rune _ n); [done|].
  rewrite <- (str_take_drop (S n) s) at 1. by rewrite app_str_assoc, str_drop_app.
Qed.

Definition is_ascii (c : ascii) : bool := (byte_Z c <? 128)%Z.

Lemma utf8_ascii s : str_forall is_ascii s = true -> utf8 s.
Proof.
  induction s as [|c s IH]; [intros; apply utf8_nil|]. cbn [str_forall]. intros [Hc Hs]%andb_true_iff.
  apply (utf8_rune _ 0); [cbn [rune_len]; by unfold is_ascii in Hc; rewrite Hc|]. by apply IH.
Qed.

Lemma utf8_cons c s : is_ascii c = true -> utf8 s -> utf8 (String c s).
Proof. intros Hc Hs. apply (utf8_app (str1 c)); [|done]. apply utf8_ascii. simpl. by rewrite Hc. Qed.

Lemma utf8_ascii_view c p : is_ascii c = true -> ascii_view c p -> utf8 p.
Proof.
  intros Hc [e He _| |_ _ _]; apply utf8_ascii; [|by vm_compute in c; destruct c as [[] [] [] [] [] [] [] []]|].
  - simpl. rewrite andb_true_r. unfold is_escape in He. apply existsb_exists in He as (x & Hx & ->%Ascii.eqb_eq).
    simpl in Hx. by decompose [or] Hx; subst.
  - simpl. by rewrite Hc.
Qed.

(** What the encoder writes is valid whatever the string was. *)
Lemma utf8_escape html n s : utf8 (escape n html s).
Proof.
  revert s; induction n as [|n IH]; intros s; [apply utf8_nil|].
  destruct s as [|c s]; [apply utf8_nil|]. cbn [escape].
  destruct (byte_Z c <? 128)%Z eqn:Ec; [apply utf8_app; [|done]; by eapply utf8_ascii_view, escape_ascii_view|].
  destruct (line_separator _) as [e|] eqn:El.
  - apply utf8_app; [|done]. revert El. unfold line_separator.
    destruct (HasPrefix _ _); [|destruct (HasPrefix _ _); [|done]]; intros [= <-]; by apply utf8_ascii.
  - destruct (rune_len _) as [|k] eqn:En; [by apply utf8_cons, (utf8_app "ufffd"), IH; [|apply utf8_ascii]|].
    apply utf8_app; [|done]. by apply utf8_take.
Qed.

Lemma utf8_json_escape html s : utf8 (json_escape html s).
Proof. apply utf8_escape. Qed.

Lemma N_to_dec_ascii z : str_forall is_ascii (Itoa z) = true.
Proof.
  assert (H : forall s, str_forall is_digit s = true -> str_forall is_ascii s = true).
  { induction s as [|c s IH]; [done|]. simpl. intros [Hc Hs]%andb_true_iff. rewrite IH by done.
    rewrite andb_true_r. unfold is_digit, in_range in Hc. unfold is_ascii. lia. }
  unfold Itoa. destruct (z <? 0)%Z; simpl.
  - destruct (N_to_dec_shape (Z.to_N (- z))) as (c & s & -> & Hc & Hs & _). apply H. simpl. by rewrite Hc.
  - destruct (N_to_dec_shape (Z.to_N z)) as (c & s & -> & Hc & Hs & _). apply H. simpl. by rewrite Hc.
Qed.

(** ** Byte slices, which the encoder writes in base64 *)

Lemma b64_digit_char n : (n < 64)%N -> let c := b64_digit n in
  c <> dquote /\ c <> backslash /\ (byte_Z c <? 32)%Z = false /\ is_ascii c = true.
Proof.
  intros Hn.
  assert (H : forallb (fun i => let c := b64_digit (N.of_nat i) in negb (Ascii.eqb c dquote) &&
    negb (Ascii.eqb c backslash) && negb (byte_Z c <? 32)%Z && is_ascii c) (seq 0 64) = true) by by vm_compute.
  rewrite forallb_forall in H. specialize (H (N.to_nat n) ltac:(apply in_seq; lia)). rewrite N2Nat.id in H.
  apply andb_true_iff in H as [[[H1 H2]%andb_true_iff H3]%andb_true_iff H4].
  apply negb_true_iff, Ascii.eqb_neq in H1, H2. by apply negb_true_iff in H3.
Qed.

Lemma raw_piece_b64 s : raw_piece (b64_encode s) /\ utf8 (b64_encode s).
Proof.
  assert (Hd : forall n t, (n < 64)%N -> raw_piece t /\ utf8 t ->
    raw_piece (String (b64_digit n) t) /\ utf8 (String (b64_digit n) t)).
  { intros n t Hn [Ht Hu]. destruct (b64_digit_char n Hn) as (H1 & H2 & H3 & H4). split.
    - apply (raw_piece_app (str1 (b64_digit n))); [|done]. by apply raw_piece_char.
    - by apply utf8_cons. }
  assert (Hp : forall p, p = "" \/ p = "=" \/ p = "==" -> raw_piece p /\ utf8 p).
  { intros p Hp. split; [|apply utf8_ascii]; destruct Hp as [-> |[-> | ->]]; try done.
    - by intros t raw r.
    - by apply raw_piece_char.
    - by apply (raw_piece_app "=" "="); apply raw_piece_char. }
  induction s as [|a|a b|a b c s IH] using str_ind3; cbn [b64_encode str1];
    repeat (apply Hd; [solve_bits|]); (done || apply Hp; tauto).
Qed.

(** A literal made of pieces. *)
Lemma valid_raw_piece p : raw_piece p -> valid_raw p = true.
Proof.
  intros H. unfold valid_raw. specialize (H (str1 dquote) "" "" eq_refl). rewrite app_str_nil_r in H.
  rewrite H. by rewrite String.eqb_refl.
Qed.

(** Characters that stand for themselves in a literal. *)
Definition unescaped (c : ascii) : bool := is_ascii c && negb (Ascii.eqb c backslash).

Lemma unescape_same n t : str_forall unescaped t = true -> String.length t < n -> unescape n t = t.
Proof.
  revert t; induction n as [|n IH]; intros t Ht Hl; [lia|]. destruct t as [|c t]; [done|].
  cbn [str_forall] in Ht. apply andb_true_iff in Ht as [[Hc Hb%negb_true_iff%Ascii.eqb_neq]%andb_true_iff Ht].
  cbn [unescape]. rewrite u_escape_plain by done. destruct (Ascii.eqb_spec c backslash); [done|].
  unfold is_ascii in Hc. cbn [rune_len]. rewrite Hc. simpl. f_equal. apply IH; [done|]. simpl in Hl. lia.
Qed.

Lemma unescape_b64 s : json_unescape (b64_encode s) = b64_encode s.
Proof.
  apply unescape_same; [|lia].
  assert (Hd : forall n t, (n < 64)%N -> str_forall unescaped t = true ->
    str_forall unescaped (String (b64_digit n) t) = true).
  { intros n t Hn Ht. destruct (b64_digit_char n Hn) as (_ & H2 & _ & H4). simpl. rewrite Ht, andb_true_r.
    unfold unescaped. rewrite H4. by apply negb_true_iff, Ascii.eqb_neq. }
  induction s as [|a|a b|a b c s IH] using str_ind3; cbn [b64_encode str1]; [done|..];
    repeat (apply Hd; [solve_bits|]); done.
Qed.
