(* ===== verification/Net.v ===== *)
(** * Addresses and networks: Go's package [net]

    [net.ParseCIDR], [net.CIDRMask] and [IPNet.Contains] on byte sequences, for the access control
    rules, with the arithmetic meaning of a network test. *)
From stdpp Require Import base gmap strings list option.
From Stdlib Require Import ZArith Lia Ascii.
From S2P Require Import Prelude GoStrings GoCodec.

(** An IP address or mask: its bytes, 4 or 16 of them. *)
Definition IP : Type := list Z.
Record net_IPNet := mkIPNet { net_IP : IP; net_Mask : IP }.

#[export] Instance net_IPNet_eq_dec : EqDecision net_IPNet.
Proof. solve_decision. Defined.

Definition v4InV6Prefix : IP := [0; 0; 0; 0; 0; 0; 0; 0; 0; 0; 255; 255]%Z.

(** [ip.To4()] *)
Definition To4 (ip : IP) : option IP :=
  if decide (length ip = 4) then Some ip
  else if decide (length ip = 16 /\ take 12 ip = v4InV6Prefix) then Some (drop 12 ip)
  else None.

(** [net.CIDRMask(ones, bits)]: [bits / 8] bytes, the first [ones] bits set. *)
Fixpoint cidr_bytes (len : nat) (n : Z) : IP :=
  match len with
  | O => []
  | S len' => (if 8 <=? n then 255 else 255 - Z.shiftr 255 n)%Z :: cidr_bytes len' (Z.max 0 (n - 8))
  end.
Definition CIDRMask (ones bits : Z) : IP := cidr_bytes (Z.to_nat (bits / 8)) ones.

Definition IP_Mask (ip mask : IP) : IP :=
  let mask := if decide (length mask = 16 /\ length ip = 4 /\ take 12 mask = repeat 255%Z 12)
              then drop 12 mask else mask in
  let ip := if decide (length mask = 4 /\ length ip = 16 /\ take 12 ip = v4InV6Prefix)
            then drop 12 ip else ip in
  if decide (length ip = length mask) then zip_with Z.land ip mask else [].

(** [networkNumberAndMask] *)
Definition networkNumberAndMask (n : net_IPNet) : IP * IP :=
  let ip := default (net_IP n) (To4 (net_IP n)) in
  if decide (length ip <> 4 /\ length ip <> 16) then ([], [])
  else
    let m := net_Mask n in
    if decide (length m = 4) then if decide (length ip = 4) then (ip, m) else ([], [])
    else if decide (length m = 16) then (ip, if decide (length ip = 4) then drop 12 m else m)
    else ([], []).

(** [n.Contains(ip)] *)
Definition Contains_IP (n : net_IPNet) (ip : IP) : bool :=
  let '(nn, m) := networkNumberAndMask n in
  let ip := default ip (To4 ip) in
  if decide (length ip = length nn) then
    bool_decide (zip_with Z.land nn m = zip_with Z.land ip m)
  else false.

(** ** Parsing *)

(** One decimal field of an IPv4 address: no leading zero, at most 255. *)
Definition parse_octet (s : string) : option Z :=
  match s with
  | "" => None
  | String c s' =>
      if (Ascii.eqb c "0" && negb (String.eqb s' "")) ||
         negb (str_forall (in_range 48 57) s && (String.length s <=? 3)) then None
      else match parse_digits 10 s 0 with
           | Some v => if (v <=? 255)%Z then Some v else None
           | None => None
           end
  end.

Definition parse_ipv4 (s : string) : option IP :=
  let fs := Split s "."%char in
  if decide (length fs = 4) then mapM parse_octet fs else None.

(** A group of one to four hexadecimal digits, as two bytes. *)
Definition parse_group (s : string) : option IP :=
  if (1 <=? String.length s) && (String.length s <=? 4) &&
     str_forall (fun c => if hex_val c then true else false) s
  then match parse_digits 16 s 0 with
       | Some v => Some [v / 256; v mod 256]%Z
       | None => None
       end
  else None.

(** Colon-separated groups; the last one may be an IPv4 address when [v4] is set. *)
Fixpoint parse_groups (fs : list string) : option IP :=
  match fs with
  | [] => Some []
  | [f] => if occurs "."%char f then parse_ipv4 f else parse_group f
  | f :: fs' => match parse_group f, parse_groups fs' with
                | Some a, Some b => Some (a ++ b)
                | _, _ => None
                end
  end.

Definition groups_of (s : string) : option IP :=
  if String.eqb s "" then Some [] else parse_groups (Split s ":"%char).

(** [netip.ParseAddr] for IPv6 without a zone: at most one "::", which stands for at least one
    group. *)
Definition parse_ipv6 (s : string) : option IP :=
  match Cut s "::" with
  | None => match parse_groups (Split s ":"%char) with
            | Some ip => if decide (length ip = 16) then Some ip else None
            | None => None
            end
  | Some (a, b) =>
      if occurs "."%char a then None
      else match groups_of a, groups_of b with
      | Some x, Some y =>
          let n := length x + length y in
          if decide (n <= 14) then Some (x ++ repeat 0%Z (16 - n) ++ y) else None
      | _, _ => None
      end
  end.

(** The first of '.', ':' and '%' in the text decides the kind of address. *)
Fixpoint addr_kind (s : string) : option ascii :=
  match s with
  | "" => None
  | String c s' =>
      if decide (c = "."%char \/ c = ":"%char \/ c = "%"%char) then Some c else addr_kind s'
  end.

Definition ParseAddr (s : string) : option IP :=
  match addr_kind s with
  | Some "."%char => parse_ipv4 s
  | Some ":"%char => if occurs "%"%char s then None else parse_ipv6 s
  | _ => None
  end.

(** [net.ParseCIDR]: the network; its address is masked. *)
Definition ParseCIDR (s : string) : result net_IPNet :=
  let err := Err (EText ("invalid CIDR address: " +:+ s)) in
  match Cut s "/" with
  | None => err
  | Some (addr, mask) =>
      match ParseAddr addr with
      | None => err
      | Some ip =>
          let bits := (8 * Z.of_nat (length ip))%Z in
          if String.eqb mask "" || negb (str_forall (in_range 48 57) mask) then err
          else match parse_digits 10 mask 0 with
          | None => err
          | Some n =>
              if (n <=? bits)%Z then
                let m := CIDRMask n bits in
                let ip16 := if decide (length ip = 4) then v4InV6Prefix ++ ip else ip in
                Ok (mkIPNet (IP_Mask ip16 m) m)
              else err
          end
      end
  end.

(** ** The meaning of a network test *)

(** Value of a byte sequence, most significant byte first. *)
Definition bytes_val (l : list Z) : Z := fold_left (fun a b => a * 256 + b)%Z l 0%Z.

Definition ip_wf (l : IP) : Prop := Forall (fun b => 0 <= b < 256)%Z l.

Lemma fold_bytes l a :
  fold_left (fun a b => a * 256 + b)%Z l a = (a * 2 ^ (8 * Z.of_nat (length l)) + bytes_val l)%Z.
Proof.
  revert a; induction l as [|b l IH]; intros a.
  - unfold bytes_val; simpl. lia.
  - change (bytes_val (b :: l)) with (fold_left (fun a b => a * 256 + b)%Z l (0 * 256 + b)%Z).
    simpl fold_left. rewrite IH, (IH (0 * 256 + b)%Z). simpl length.
    replace (8 * Z.of_nat (S (length l)))%Z with (8 + 8 * Z.of_nat (length l))%Z by lia.
    rewrite Z.pow_add_r by lia. change (2 ^ 8)%Z with 256%Z. ring.
Qed.

Lemma bytes_val_cons b l :
  bytes_val (b :: l) = (b * 2 ^ (8 * Z.of_nat (length l)) + bytes_val l)%Z.
Proof. unfold bytes_val at 1. simpl. by rewrite fold_bytes. Qed.

Lemma bytes_val_bound l : ip_wf l -> (0 <= bytes_val l < 2 ^ (8 * Z.of_nat (length l)))%Z.
Proof.
  induction 1 as [|b l Hb Hl IH]; [unfold bytes_val; simpl; lia|].
  rewrite bytes_val_cons. simpl length.
  replace (8 * Z.of_nat (S (length l)))%Z with (8 + 8 * Z.of_nat (length l))%Z by lia.
  rewrite Z.pow_add_r by lia. change (2 ^ 8)%Z with 256%Z. nia.
Qed.

(** Masking the low bits of a byte keeps exactly its quotient. *)
Lemma land_byte_mask n x : (0 <= n <= 8)%Z -> (0 <= x < 256)%Z ->
  Z.land x (255 - Z.shiftr 255 n) = (x / 2 ^ (8 - n) * 2 ^ (8 - n))%Z.
Proof.
  intros Hn Hx.
  pose (f n x := (Z.land x (255 - Z.shiftr 255 n) =? x / 2 ^ (8 - n) * 2 ^ (8 - n))%Z).
  assert (H : forallb (fun n => forallb (fun x => f (Z.of_nat n) (Z.of_nat x)) (seq 0 256))
                (seq 0 9) = true) by (vm_compute; reflexivity).
  rewrite forallb_forall in H. specialize (H (Z.to_nat n)).
  rewrite forallb_forall in H. specialize (H ltac:(apply in_seq; lia) (Z.to_nat x)).
  rewrite !Z2Nat.id in H by lia. apply Z.eqb_eq, H. apply in_seq. lia.
Qed.

Lemma byte_mask_eq n x y : (0 <= n <= 8)%Z -> (0 <= x < 256)%Z -> (0 <= y < 256)%Z ->
  Z.land x (255 - Z.shiftr 255 n) = Z.land y (255 - Z.shiftr 255 n) <->
  (x / 2 ^ (8 - n) = y / 2 ^ (8 - n))%Z.
Proof.
  intros Hn Hx Hy. rewrite !land_byte_mask by done.
  assert (0 < 2 ^ (8 - n))%Z by (apply Z.pow_pos_nonneg; lia). nia.
Qed.

Lemma land_255 x : (0 <= x < 256)%Z -> Z.land x 255 = x.
Proof.
  intros Hx. pose proof (land_byte_mask 8 x ltac:(lia) Hx) as E.
  change (255 - Z.shiftr 255 8)%Z with 255%Z in E. rewrite E. change (2 ^ (8 - 8))%Z with 1%Z.
  rewrite Z.div_1_r. lia.
Qed.

(** Two addresses agree under a prefix mask exactly when their first [n] bits agree. *)
Lemma cidr_prefix a b n : ip_wf a -> ip_wf b -> length a = length b ->
  (0 <= n <= 8 * Z.of_nat (length a))%Z ->
  zip_with Z.land a (cidr_bytes (length a) n) = zip_with Z.land b (cidr_bytes (length a) n) <->
  (bytes_val a / 2 ^ (8 * Z.of_nat (length a) - n) =
   bytes_val b / 2 ^ (8 * Z.of_nat (length a) - n))%Z.
Proof.
  intros Ha. revert b n. induction Ha as [|x a Hx Ha IH]; intros b n Hb Hlen Hn.
  - destruct b; [|done]. done.
  - destruct Hb as [|y b Hy Hb]; [done|]. simpl in Hlen. simplify_eq.
    pose proof (bytes_val_bound a Ha) as Ba. pose proof (bytes_val_bound b Hb) as Bb.
    rewrite <- Hlen in Bb.
    simpl cidr_bytes. simpl zip_with. rewrite !bytes_val_cons, <- Hlen. simpl length.
    set (L := (8 * Z.of_nat (length a))%Z) in *.
    assert (HL : (8 * Z.of_nat (S (length a)) = L + 8)%Z) by (unfold L; lia).
    simpl length in Hn. rewrite HL in *. assert (0 <= L)%Z by (unfold L; lia).
    destruct (8 <=? n)%Z eqn:En.
    + rewrite !land_255 by done.
      replace (Z.max 0 (n - 8)) with (n - 8)%Z by lia.
      replace (L + 8 - n)%Z with (L - (n - 8))%Z by lia.
      assert (Hsplit : (2 ^ L = 2 ^ (n - 8) * 2 ^ (L - (n - 8)))%Z).
      { rewrite <- Z.pow_add_r by lia. f_equal. lia. }
      assert (0 < 2 ^ (L - (n - 8)))%Z by (apply Z.pow_pos_nonneg; lia).
      assert (0 < 2 ^ (n - 8))%Z by (apply Z.pow_pos_nonneg; lia).
      rewrite Hsplit in *. rewrite !Z.mul_assoc, !Z.div_add_l by lia.
      assert (Hq : forall v, (0 <= v < 2 ^ (n - 8) * 2 ^ (L - (n - 8)) ->
                0 <= v / 2 ^ (L - (n - 8)) < 2 ^ (n - 8))%Z).
      { intros v Hv. split; [apply Z.div_pos; lia|]. apply Z.div_lt_upper_bound; lia. }
      pose proof (Hq _ Ba) as Qa. pose proof (Hq _ Bb) as Qb.
      specialize (IH b (n - 8)%Z Hb Hlen ltac:(lia)). fold L in IH.
      split.
      * intros E. injection E as -> Ez. apply IH in Ez. by rewrite Ez.
      * intros E. assert (x = y) by nia. subst y. f_equal. apply IH. nia.
    + replace (Z.max 0 (n - 8)) with 0%Z by lia.
      assert (Hz : forall v, zip_with Z.land v (cidr_bytes (length a) 0) =
                             repeat 0%Z (Nat.min (length v) (length a))).
      { intros v. generalize (length a). intros m. revert m; induction v as [|w v IHv];
          intros [|m]; simpl; try done. rewrite Z.land_0_r. f_equal. apply IHv. }
      rewrite !Hz, <- Hlen.
      assert (Hdiv : forall w v, (0 <= v < 2 ^ L)%Z ->
                ((w * 2 ^ L + v) / 2 ^ (L + 8 - n) = w / 2 ^ (8 - n))%Z).
      { intros w v Hv. replace (L + 8 - n)%Z with (L + (8 - n))%Z by lia.
        rewrite Z.pow_add_r by lia.
        assert (0 < 2 ^ L)%Z by (apply Z.pow_pos_nonneg; lia).
        assert (0 < 2 ^ (8 - n))%Z by (apply Z.pow_pos_nonneg; lia).
        rewrite <- Z.div_div by lia. rewrite Z.div_add_l by lia.
        rewrite (Z.div_small v) by lia. by rewrite Z.add_0_r. }
      rewrite !Hdiv by lia. rewrite <- byte_mask_eq by (lia || done).
      split; [intros E; by injection E|intros ->; done].
Qed.

Lemma length_cidr_bytes len n : length (cidr_bytes len n) = len.
Proof. revert n; induction len; intros n; simpl; [done|]. by rewrite IHlen. Qed.
