(* ===== verification/Url.v ===== *)
(** * URLs: Go's package [net/url]

    [url.Parse], [URL.String] and [URL.Query] for the URLs inspectors look at. The fields [Scheme],
    [Host], [Path] and [RawQuery] of a parsed URL are the record [URL] of [Platform.v]. *)
From stdpp Require Import base gmap strings list option.
From Stdlib Require Import ZArith Lia Ascii.
From S2P Require Import Prelude GoStrings GoCodec Platform HttpUtil Net.

(** ** Escapes *)

Inductive encoding := encodePath | encodeHost | encodeZone | encodeUserPassword
  | encodeQueryComponent | encodeFragment.

#[export] Instance encoding_eq_dec : EqDecision encoding.
Proof. solve_decision. Defined.

(** The reserved characters are treated by mode; the rest of the specials are escaped. *)
Definition shouldEscape (c : ascii) (mode : encoding) : bool :=
  if is_alnum c then false
  else if (bool_decide (mode = encodeHost) || bool_decide (mode = encodeZone)) &&
          (mem_char c "!$&'()*+,;=:[]<>" || Ascii.eqb c dquote) then false
  else if mem_char c "-_.~" then false
  else if mem_char c "$&+,/:;=?@" then
    match mode with
    | encodePath => Ascii.eqb c "?"
    | encodeUserPassword => mem_char c "@/?:"
    | encodeQueryComponent => true
    | encodeFragment => false
    | encodeHost | encodeZone => true
    end
  else if bool_decide (mode = encodeFragment) && mem_char c "!()*" then false
  else true.

Definition percent_val (a b : ascii) : option ascii :=
  h ← hex_val a; l ← hex_val b; Some (chr (h * 16 + l)).

Definition EscapeError : error := EText "invalid URL escape".
Definition InvalidHostError : error := EText "invalid character in host name".

(** What an escape may stand for: in a host only bytes outside ASCII and the percent sign itself, in a
    zone nothing that had to be escaped in a host. *)
Definition escape_allowed (mode : encoding) (v : ascii) : bool :=
  match mode with
  | encodeHost => (128 <=? N_of_ascii v)%N || Ascii.eqb v "%"
  | encodeZone => Ascii.eqb v "%" || Ascii.eqb v " " || negb (shouldEscape v encodeHost)
  | _ => true
  end.

Fixpoint url_unescape (s : string) (mode : encoding) : result string :=
  match s with
  | "" => Ok ""
  | String "%" (String a (String b s')) =>
      match percent_val a b with
      | None => Err EscapeError
      | Some v => if escape_allowed mode v then String v <$> url_unescape s' mode else Err EscapeError
      end
  | String "%" _ => Err EscapeError
  | String c s' =>
      if bool_decide (mode = encodeQueryComponent) && Ascii.eqb c "+" then
        String " " <$> url_unescape s' mode
      else if (bool_decide (mode = encodeHost) || bool_decide (mode = encodeZone)) &&
              (N_of_ascii c <? 128)%N && shouldEscape c mode then Err InvalidHostError
      else String c <$> url_unescape s' mode
  end.

Fixpoint url_escape (s : string) (mode : encoding) : string :=
  match s with
  | "" => ""
  | String c s' =>
      (if Ascii.eqb c " " && bool_decide (mode = encodeQueryComponent) then "+"
       else if shouldEscape c mode then percent c else str1 c) +:+ url_escape s' mode
  end.

(** ** Parsing *)

Record ParsedURL := mkParsedURL {
  p_url :> URL;
  Opaque_ : string;
  User_ : option (string * option string);
  RawPath : string;
  OmitHost : bool;
  ForceQuery : bool;
  Fragment : string;
  RawFragment : string;
}.

(** The scheme and the rest; no scheme if a character is not allowed in one. *)
Fixpoint scheme_scan (first : bool) (acc s rest : string) : result (string * string) :=
  match s with
  | "" => Ok ("", rest)
  | String c s' =>
      if in_range 65 90 c || in_range 97 122 c then scheme_scan false (String c acc) s' rest
      else if is_digits (str1 c) || mem_char c "+-." then
        if first then Ok ("", rest) else scheme_scan false (String c acc) s' rest
      else if Ascii.eqb c ":" then
        if first then Err (EText "missing protocol scheme") else Ok (srev acc, s')
      else Ok ("", rest)
  end.
Definition getScheme (s : string) : result (string * string) := scheme_scan true "" s s.

Definition validOptionalPort (p : string) : bool :=
  match p with "" => true | String ":" p' => is_digits p' | _ => false end.

(** A literal address in brackets, possibly with a zone; [openBracketIdx] is 0. *)
Definition parse_bracket_host (host : string) : result string :=
  match cut_last "]" host with
  | None => Err (EText "missing ']' in host")
  | Some (hostname, colonPort) =>
      if negb (validOptionalPort colonPort) then Err (EText "invalid port after host")
      else
        colonPort ← url_unescape colonPort encodeHost;
        hostname ← match Cut hostname "%25" with
                   | Some (addr, zone) =>
                       addr ← url_unescape addr encodeHost;
                       zone ← url_unescape ("%25" +:+ zone) encodeZone;
                       Ok (addr +:+ zone)
                   | None => url_unescape hostname encodeHost
                   end;
        match ParseAddr (match Cut hostname "%" with Some (a, _) => a | None => hostname end) with
        | None => Err (EText "invalid host")
        | Some ip =>
            if (List.length ip =? 4) || (Contains hostname "%" && HasSuffix hostname "%")
            then Err (EText "invalid IP-literal")
            else Ok ("[" +:+ hostname +:+ "]" +:+ colonPort)
        end
  end.

Definition parseHost (host : string) : result string :=
  match cut_last "[" host with
  | Some ("", host') => parse_bracket_host host'
  | Some _ => Err (EText "invalid IP-literal")
  | None =>
      match cut_last ":" host with
      | Some (_, port) =>
          if negb (is_digits port) then Err (EText "invalid port after host")
          else url_unescape host encodeHost
      | None => url_unescape host encodeHost
      end
  end.

Definition userinfo_char (c : ascii) : bool := is_alnum c || mem_char c "-._:~!$&'()*+,;=%@".

Definition parseAuthority (authority : string) : result (option (string * option string) * string) :=
  match cut_last "@" authority with
  | None => host ← parseHost authority; Ok (None, host)
  | Some (userinfo, host) =>
      host ← parseHost host;
      if negb (str_forall userinfo_char userinfo) then Err (EText "net/url: invalid userinfo")
      else
        match Cut userinfo ":" with
        | None => u ← url_unescape userinfo encodeUserPassword; Ok (Some (u, None), host)
        | Some (u, p) =>
            u ← url_unescape u encodeUserPassword; p ← url_unescape p encodeUserPassword;
            Ok (Some (u, Some p), host)
        end
  end.

Definition is_ctl (c : ascii) : bool := in_range 0 31 c || in_range 127 127 c.
Definition count_char (c : ascii) (s : string) : nat := pred (List.length (Split s c)).

(** Path and raw path; the latter only when it is not the default encoding. *)
Definition setPath (p : string) : result (string * string) :=
  path ← url_unescape p encodePath;
  Ok (path, if String.eqb p (url_escape path encodePath) then "" else p).

Definition parse_hier (scheme rest query : string) (force : bool) : result ParsedURL :=
  let '(authority, path, omit) :=
    if (negb (String.eqb scheme "") || negb (HasPrefix rest "///")) && HasPrefix rest "//" then
      let rest := TrimPrefix rest "//" in
      match Cut rest "/" with
      | Some (a, p) => (Some a, "/" +:+ p, false)
      | None => (Some rest, "", false)
      end
    else (None, rest, negb (String.eqb scheme "") && HasPrefix rest "/") in
  '(user, host) ← match authority with
                  | Some a => parseAuthority a
                  | None => Ok (None, "")
                  end;
  '(path, raw) ← setPath path;
  Ok (mkParsedURL (mkURL scheme host path query) "" user raw omit force "" "").

Definition parse_url (s : string) : result ParsedURL :=
  if negb (str_forall (fun c => negb (is_ctl c)) s) then
    Err (EText "net/url: invalid control character in URL")
  else if String.eqb s "*" then
    Ok (mkParsedURL (mkURL "" "" "*" "") "" None "" false false "" "")
  else
    '(scheme, rest) ← getScheme s;
    let scheme := ToLower scheme in
    let '(rest, query, force) :=
      if HasSuffix rest "?" && (count_char "?" rest =? 1) then (TrimSuffix rest "?", "", true)
      else match Cut rest "?" with Some (r, q) => (r, q, false) | None => (rest, "", false) end in
    if negb (HasPrefix rest "/") then
      if negb (String.eqb scheme "") then
        Ok (mkParsedURL (mkURL scheme "" "" query) rest None "" false force "" "")
      else if Contains (match Cut rest "/" with Some (a, _) => a | None => rest end) ":" then
        Err (EText "first path segment in URL cannot contain colon")
      else parse_hier scheme rest query force
    else parse_hier scheme rest query force.

Definition setFragment (f : string) (u : ParsedURL) : result ParsedURL :=
  frag ← url_unescape f encodeFragment;
  Ok (mkParsedURL u (Opaque_ u) (User_ u) (RawPath u) (OmitHost u) (ForceQuery u) frag
        (if String.eqb f (url_escape frag encodeFragment) then "" else f)).

(** [url.Parse] *)
Definition Parse (rawURL : string) : result ParsedURL :=
  let '(u, frag) := match Cut rawURL "#" with Some p => p | None => (rawURL, "") end in
  match parse_url u with
  | Err e => Err (EWrap ("parse " +:+ Quote u +:+ ": ") e "")
  | Ok url =>
      if String.eqb frag "" then Ok url
      else match setFragment frag url with
           | Err e => Err (EWrap ("parse " +:+ Quote rawURL +:+ ": ") e "")
           | r => r
           end
  end.

(** ** Printing *)

Definition validEncoded (s : string) (mode : encoding) : bool :=
  str_forall (fun c => mem_char c "!$&'()*+,;=:@[]%" || negb (shouldEscape c mode)) s.

(** The raw form if it is valid for the value, else the default encoding. *)
Definition escaped (raw value : string) (mode : encoding) : string :=
  if negb (String.eqb raw "") && validEncoded raw mode &&
     bool_decide (url_unescape raw mode = Ok value) then raw
  else url_escape value mode.

Definition EscapedPath (u : ParsedURL) : string :=
  let valid := negb (String.eqb (RawPath u) "") && validEncoded (RawPath u) encodePath &&
               bool_decide (url_unescape (RawPath u) encodePath = Ok (Path u)) in
  if valid then RawPath u
  else if String.eqb (Path u) "*" then "*" else url_escape (Path u) encodePath.

Definition userinfo_string (ui : string * option string) : string :=
  url_escape (fst ui) encodeUserPassword +:+
  match snd ui with Some p => ":" +:+ url_escape p encodeUserPassword | None => "" end.

(** [URL.String] *)
Definition ParsedURL_String (u : ParsedURL) : string :=
  let scheme := if String.eqb (Scheme u) "" then "" else Scheme u +:+ ":" in
  let no_user := match User_ u with None => true | Some _ => false end in
  let no_host := String.eqb (Host u) "" in
  let body :=
    if negb (String.eqb (Opaque_ u) "") then Opaque_ u
    else
      let authority :=
        if negb (String.eqb (Scheme u) "") || negb no_host || negb no_user then
          if OmitHost u && no_host && no_user then ""
          else
            (if negb no_host || negb (String.eqb (Path u) "") || negb no_user then "//" else "") +:+
            match User_ u with Some ui => userinfo_string ui +:+ "@" | None => "" end +:+
            url_escape (Host u) encodeHost
        else "" in
      let path := EscapedPath u in
      let slash := if negb (String.eqb path "") && negb (HasPrefix path "/") && negb no_host
                   then "/" else "" in
      let dot :=
        if String.eqb (scheme +:+ authority +:+ slash) "" &&
           Contains (match Cut path "/" with Some (a, _) => a | None => path end) ":"
        then "./" else "" in
      authority +:+ slash +:+ dot +:+ path in
  scheme +:+ body +:+
  (if ForceQuery u || negb (String.eqb (RawQuery u) "") then "?" +:+ RawQuery u else "") +:+
  (if String.eqb (Fragment u) "" then "" else "#" +:+ escaped (RawFragment u) (Fragment u) encodeFragment).

(** ** Joining *)

(** [url.JoinPath] for one element; a path that cannot be decoded leaves the base as it was. *)
Definition ParsedURL_JoinPath (u : ParsedURL) (elem : string) : ParsedURL :=
  let first := EscapedPath u in
  let p := if HasPrefix first "/" then filepath_Join [first; elem]
           else str_drop 1 (filepath_Join ["/" +:+ first; elem]) in
  let p := if HasSuffix elem "/" && negb (HasSuffix p "/") then p +:+ "/" else p in
  match setPath p with
  | Err _ => u
  | Ok (path, raw) =>
      mkParsedURL (mkURL (Scheme u) (Host u) path (RawQuery u)) (Opaque_ u) (User_ u) raw (OmitHost u)
        (ForceQuery u) (Fragment u) (RawFragment u)
  end.
Definition url_JoinPath (base elem : string) : result string :=
  u ← Parse base; Ok (ParsedURL_String (ParsedURL_JoinPath u elem)).

(** ** Query parameters *)

(** [u.Query()]: the pairs in order; malformed pairs are left out, and all of them when there are too
    many. *)
Definition query_pair (kv : string) : list (string * string) :=
  if Contains kv ";" || String.eqb kv "" then []
  else
    let '(k, v) := match Cut kv "=" with Some p => p | None => (kv, "") end in
    match url_unescape k encodeQueryComponent, url_unescape v encodeQueryComponent with
    | Ok k, Ok v => [(k, v)]
    | _, _ => []
    end.

Definition max_query_params : nat := Z.to_nat 10000.

Definition URL_Query (u : URL) : list (string * string) :=
  let kvs := Split (RawQuery u) "&" in
  if max_query_params <? List.length kvs then [] else flat_map query_pair kvs.

(** [Values.Get]: the first value, or nothing. *)
Fixpoint Query_Get (l : list (string * string)) (k : string) : string :=
  match l with [] => "" | (k', v) :: l' => if String.eqb k' k then v else Query_Get l' k end.

Example url_parse_example : match Parse "https://u:p@Host:443/a%20b/c?x=1&y=%2F+#f" with
  | Ok u => ((Scheme u, Host u, Path u), URL_Query u, User_ u, Fragment u, ParsedURL_String u)
  | Err _ => (("", "", ""), [], None, "", "") end
  = (("https", "Host:443", "/a b/c"), [("x", "1"); ("y", "/ ")], Some ("u", Some "p"), "f",
     "https://u:p@Host:443/a%20b/c?x=1&y=%2F+#f").
Proof. by vm_compute. Qed.

Example url_parse_errors : map (fun s => is_ok (Parse s))
  ["http://[::1]:80/"; "http://[10.0.0.1]/"; "http://a b/"; "ht%tp:x"; "http://h:x/"; "mailto:a@b"; "/p?q?"]
  = [true; false; false; false; false; true; true].
Proof. by vm_compute. Qed.
