(* ===== verification/Digests.v ===== *)
(** * Artifact digests and opinions

    [metadata/digests/digests.go] and [metadata/opinions/opinions.go]: digests as fixed-width byte
    arrays with their hexadecimal and JSON forms, and the opinions an inspector can give. *)
From stdpp Require Import base gmap strings list option.
From Stdlib Require Import ZArith Lia Ascii.
From S2P Require Import Prelude GoStrings GoCodec.

(** ** Digests *)

(** A digest is a byte array: [Sha1Digest] of 20 bytes, [Sha256Digest] of 32. *)
Definition Sha1Digest : Type := string.
Definition Sha256Digest : Type := string.
Definition sha1_wf (d : Sha1Digest) : Prop := String.length d = 20.
Definition sha256_wf (d : Sha256Digest) : Prop := String.length d = 32.

Fixpoint nul_bytes (n : nat) : string :=
  match n with O => "" | S n' => String (chr 0) (nul_bytes n') end.
Definition zero_sha1 : Sha1Digest := nul_bytes 20.
Definition zero_sha256 : Sha256Digest := nul_bytes 32.

Definition NewSha1Digest (digest : string) : result Sha1Digest :=
  match DecodeString digest with
  | Err e => Err e
  | Ok h =>
      if decide (String.length h <> 20) then
        Err (EText ("SHA1 digest length (" +:+ Itoa (Z.of_nat (String.length h)) +:+ ") is invalid"))
      else Ok h
  end.

Definition NewSha256Digest (digest : string) : result Sha256Digest :=
  match DecodeString digest with
  | Err e => Err e
  | Ok h =>
      if decide (String.length h <> 32) then
        Err (EText ("SHA256 digest length (" +:+ Itoa (Z.of_nat (String.length h)) +:+ ") is invalid"))
      else Ok h
  end.

Definition Sha1_String (h : Sha1Digest) : string := EncodeToString h.
Definition Sha256_String (h : Sha256Digest) : string := EncodeToString h.

Definition Sha1_MarshalJSON (h : Sha1Digest) : string := Quote (Sha1_String h).
Definition Sha256_MarshalJSON (h : Sha256Digest) : string := Quote (Sha256_String h).

(** [UnmarshalJSON] writes through its receiver [h], which keeps its value on an error. *)
Definition Sha1_UnmarshalJSON (h : Sha1Digest) (data : string) : Sha1Digest * option error :=
  match Unquote data with
  | Err e => (h, Some e)
  | Ok d =>
      if decide (String.length d <> 40) then (h, Some (EText "invalid SHA1 digest"))
      else match DecodeString d with
           | Err e => (h, Some e)
           | Ok v => (v, None)
           end
  end.

Definition Sha256_UnmarshalJSON (h : Sha256Digest) (data : string) : Sha256Digest * option error :=
  match Unquote data with
  | Err e => (h, Some e)
  | Ok d =>
      if decide (String.length d <> 64) then (h, Some (EText "invalid SHA256 digest"))
      else match DecodeString d with
           | Err e => (h, Some e)
           | Ok v => (v, None)
           end
  end.

(** ** Opinions *)

(** [OpinionKind] is an [int]: the four constants, and any other value. *)
Inductive OpinionKind : Set :=
| Unknown
| Rejected
| Approved
| Pending
| OtherOpinion (n : Z).

#[export] Instance OpinionKind_eq_dec : EqDecision OpinionKind.
Proof. solve_decision. Defined.

Definition OpinionKind_String (t : OpinionKind) : string :=
  match t with
  | Unknown => "Unknown"
  | Rejected => "Rejected"
  | Approved => "Approved"
  | Pending => "Pending"
  | OtherOpinion n => "invalid opinion " +:+ Itoa n
  end.

Definition quoted (s : string) : string := String dquote (s +:+ str1 dquote).

Definition OpinionKind_MarshalJSON (t : OpinionKind) : result string :=
  match t with
  | Unknown => Ok (quoted "Unknown")
  | Rejected => Ok (quoted "Rejected")
  | Approved => Ok (quoted "Approved")
  | Pending => Ok (quoted "Pending")
  | OtherOpinion _ => Err (EText "invalid opinion kind")
  end.

Definition OpinionKind_UnmarshalJSON (t : OpinionKind) (data : string) :
    OpinionKind * option error :=
  if String.eqb data (quoted "Unknown") then (Unknown, None)
  else if String.eqb data (quoted "Rejected") then (Rejected, None)
  else if String.eqb data (quoted "Approved") then (Approved, None)
  else if String.eqb data (quoted "Pending") then (Pending, None)
  else (t, Some (EText "invalid opinion kind")).

(** ** Lemmas *)

Lemma NewSha256Digest_String d : sha256_wf d -> NewSha256Digest (Sha256_String d) = Ok d.
Proof.
  intros Hd. unfold NewSha256Digest, Sha256_String. autorewrite with codec.
  rewrite decide_False by (rewrite Hd; lia). done.
Qed.

Lemma NewSha256Digest_wf s d : NewSha256Digest s = Ok d -> sha256_wf d.
Proof.
  unfold NewSha256Digest. intros H. inv_result H. unfold sha256_wf. lia.
Qed.

Lemma Sha256_String_inj d d' : Sha256_String d = Sha256_String d' -> d = d'.
Proof.
  unfold Sha256_String. intros H. apply (f_equal DecodeString) in H.
  rewrite !DecodeString_EncodeToString in H. by simplify_eq.
Qed.

Lemma Sha1_Unmarshal_wf h data : sha1_wf h -> sha1_wf (fst (Sha1_UnmarshalJSON h data)).
Proof.
  intros Hh. unfold Sha1_UnmarshalJSON. destruct (Unquote data) as [d|]; [|done].
  case_decide as Hd; [done|]. destruct (DecodeString d) as [v|] eqn:E; [|done].
  apply DecodeString_length in E. unfold sha1_wf. simpl. lia.
Qed.

Lemma Sha256_Unmarshal_wf h data : sha256_wf h -> sha256_wf (fst (Sha256_UnmarshalJSON h data)).
Proof.
  intros Hh. unfold Sha256_UnmarshalJSON. destruct (Unquote data) as [d|]; [|done].
  case_decide as Hd; [done|]. destruct (DecodeString d) as [v|] eqn:E; [|done].
  apply DecodeString_length in E. unfold sha256_wf. simpl. lia.
Qed.

(** ** Properties *)

(** A text is accepted as a SHA-256 digest exactly when it is, up to letter case, the
    64-digit hexadecimal form [String] gives of the 32-byte digest that is returned. *)
Theorem NewSha256Digest_spec : forall s d,
  NewSha256Digest s = Ok d <-> sha256_wf d /\ ToLower s = Sha256_String d.
Proof.
  intros s d. unfold Sha256_String. rewrite <- DecodeString_Ok. unfold NewSha256Digest, sha256_wf.
  destruct (DecodeString s) as [h|]; [|naive_solver].
  case_decide; naive_solver.
Qed.

(** Digests survive JSON: unmarshalling what [MarshalJSON] wrote gives the digest back without
    an error whatever the receiver held, for SHA-1 and SHA-256. *)
Theorem digest_json_roundtrip : forall h1 d1 h2 d2,
  sha1_wf d1 -> sha256_wf d2 ->
  Sha1_UnmarshalJSON h1 (Sha1_MarshalJSON d1) = (d1, None) /\
  Sha256_UnmarshalJSON h2 (Sha256_MarshalJSON d2) = (d2, None).
Proof.
  intros h1 d1 h2 d2 H1 H2.
  unfold Sha1_UnmarshalJSON, Sha1_MarshalJSON, Sha1_String, Sha256_UnmarshalJSON,
    Sha256_MarshalJSON, Sha256_String.
  autorewrite with codec. unfold sha1_wf, sha256_wf in *.
  rewrite !decide_False by lia. done.
Qed.

Lemma digest_json_roundtrip_witness :
  Sha1_UnmarshalJSON zero_sha1 (Sha1_MarshalJSON (nul_bytes 20)) = (nul_bytes 20, None) /\
  Sha256_UnmarshalJSON zero_sha256 (Sha256_MarshalJSON (nul_bytes 32)) = (nul_bytes 32, None).
Proof.
  apply (digest_json_roundtrip zero_sha1 (nul_bytes 20) zero_sha256 (nul_bytes 32)); reflexivity.
Defined.

(** The JSON form of an opinion is read back as the same opinion exactly for the four valid
    opinions; an invalid one is refused by [MarshalJSON], and text that is not the form of a valid
    opinion is refused by [UnmarshalJSON], which then leaves its receiver unchanged. *)
Theorem opinion_json_roundtrip : forall t t' data,
  (OpinionKind_MarshalJSON t = Ok data <->
     OpinionKind_UnmarshalJSON t' data = (t, None)) /\
  ((forall n, t <> OtherOpinion n) <-> is_ok (OpinionKind_MarshalJSON t) = true) /\
  (snd (OpinionKind_UnmarshalJSON t' data) <> None ->
     fst (OpinionKind_UnmarshalJSON t' data) = t').
Proof.
  intros t t' data. split; [|split].
  - unfold OpinionKind_UnmarshalJSON. split.
    + destruct t; simpl; intros; simplify_eq; reflexivity.
    + repeat case_match; intros; simplify_eq; simpl; f_equal; symmetry; by apply String.eqb_eq.
  - destruct t; simpl; naive_solver.
  - unfold OpinionKind_UnmarshalJSON. by repeat case_match.
Qed.
