(* ===== verification/Artifact.v ===== *)
(** * Artifacts and inspections

    [metadata/metadata.go], [metadata/artifact.go], [inspectors/common/common.go] and
    [inspectors/mimetypes/mimetypes.go]: the record kept for each downloaded file, the opinions
    inspectors record in it, and how the opinions add up to approval or rejection. *)
From stdpp Require Import base gmap strings list option fin_maps.
From Stdlib Require Import ZArith Lia Ascii.
From S2P Require Import Prelude GoStrings GoCodec Platform Digests.

(** ** Annotations and inspections *)

(** The values inspectors keep in annotations ([any] in the source). *)
Inductive AnyVal : Type :=
| ANil
| AStr (s : string)
| ABool (b : bool)
| AInt (z : Z)
| AStrs (l : list string)
| AList (l : list AnyVal)
| AMap (m : list (string * AnyVal)).

(** [Annotation] is a map; a nil map reads and prints like an empty one. *)
Notation Annotation := (gmap string AnyVal).

Definition Annotation_Add (ann : Annotation) (key : string) (val : AnyVal) : Annotation :=
  <[key := val]> ann.
(** The entries of the second map win. *)
Definition Annotation_Append (ann more : Annotation) : Annotation := more ∪ ann.

Record Inspection := mkInspection {
  Opinion : OpinionKind;
  Reason : string;
  Annotations : Annotation;
}.

(** [in.Annotate(a)]: a shallow copy of the entries of [a]. *)
Definition Inspection_Annotate (i : Inspection) (a : Annotation) : Inspection :=
  mkInspection (Opinion i) (Reason i) (a ∪ Annotations i).

(** Inspections are kept by pointer; every entry has a pointer of its own, made when the opinion is
    set, so a map to values with updates at the key is the same. *)
Notation InspectionMap := (gmap string Inspection).

(** [a.SetX(ins, ...).Annotate(ann)]: annotates the entry just set. *)
Definition annotate (id : string) (ann : Annotation) (m : InspectionMap) : InspectionMap :=
  alter (fun i => Inspection_Annotate i ann) id m.

Definition ErrRejectedRequest : error := ESentinel "request rejected by inspectors".
Definition ErrRejectedArtifact : error := ESentinel "artifact rejected by inspectors".

(** ** Metadata *)

Record ArtifactMetadata := mkArtifactMetadata {
  am_Type : string;
  am_Name : string;
  am_Version : string;
  am_Vendor : string;
  am_Description : string;
  am_Author : string;
  am_AuthorEmail : string;
  am_Architecture : string;
  am_License : string;
  am_Copyright : string;
  am_SourcePackage : string;
  am_StoreRevision : string;
  am_AptSuite : string;
  am_ContentID : string;
}.

#[export] Instance ArtifactMetadata_eq_dec : EqDecision ArtifactMetadata.
Proof. solve_decision. Defined.

Definition NoMetadata : ArtifactMetadata :=
  mkArtifactMetadata "" "" "" "" "" "" "" "" "" "" "" "" "" "".

Record Metadata := mkMetadata {
  Type_ : string;
  Sha1 : Sha1Digest;
  Sha256 : Sha256Digest;
  Size : Z;
  Name : string;
  Version : string;
  Vendor : string;
  Description : string;
  Author : string;
  AuthorEmail : string;
  Architecture : string;
  License : string;
  Copyright : string;
  SourcePackage : string;
  StoreRevision : string;
  AptSuite : string;
  ContentID : string;
}.

#[export] Instance Metadata_eq_dec : EqDecision Metadata.
Proof. solve_decision. Defined.

Definition empty_Metadata : Metadata :=
  mkMetadata "" zero_sha1 zero_sha256 0 "" "" "" "" "" "" "" "" "" "" "" "" "".

Record Download := mkDownload {
  StartTime : Time;
  EndTime : Time;
  dl_Method : string;
  dl_URL : string;
  Address : string;
  UserAgent : string;
  RequestHeader : Header;
  dl_StatusCode : Z;
  dl_Status : string;
  ContentType : string;
  ResponseHeader : Header;
  dl_Sha256 : Sha256Digest;
}.

#[export] Instance Download_eq_dec : EqDecision Download.
Proof. solve_decision. Defined.

Definition empty_Download : Download :=
  mkDownload zero_time zero_time "" "" "" "" ∅ 0 "" "" ∅ zero_sha256.

Record SessionMetadata := mkSessionMetadata {
  Generator : string;
  Comment_ : string;
  sm_SessionID : string;
  sm_StartTime : Time;
  sm_EndTime : Time;
  sm_Inspectors : list string;
  SpoolPath : string;
  Policy : string;
  sm_Err : option error;
}.

Record SessionInfo := mkSessionInfo {
  si_SessionID : string;
  si_StartTime : Time; (** printed with [Time.String] *)
  si_Policy : string;
  Age : Z;
  si_Timeout : Z;
}.

(** ** Artifacts *)

Definition MetadataVersionMajor : Z := 0.
Definition MetadataVersionMinor : Z := 3.

Section Artifact.
Context `{ML : MimeLib}.

(** The session-aware logger is left out. *)
Record Artifact := mkArtifact {
  MetadataVersion : string;
  RequestInspection : InspectionMap;
  ResponseInspection : InspectionMap;
  Result : OpinionKind;
  Meta : Metadata;
  Downloads : list Download;
  CurrentDownload : Download;
  AssetDir : string;
  Tempfile : string;
  SessionID : string;
  SessionCacheDir : string;
  MimeType : option MIME;
  Request : option HttpRequest;
}.

Definition NewArtifact : Artifact := {|
  MetadataVersion := Itoa MetadataVersionMajor +:+ "." +:+ Itoa MetadataVersionMinor;
  RequestInspection := ∅;
  ResponseInspection := ∅;
  Result := Unknown;
  Meta := empty_Metadata;
  Downloads := [];
  CurrentDownload := empty_Download;
  AssetDir := "";
  Tempfile := "";
  SessionID := "";
  SessionCacheDir := "";
  MimeType := None;
  Request := None;
|}.

(** Field updates. *)
Definition set_RequestInspection (v : _) (a : Artifact) : Artifact :=
  mkArtifact (MetadataVersion a) v (ResponseInspection a) (Result a) (Meta a) (Downloads a)
    (CurrentDownload a) (AssetDir a) (Tempfile a) (SessionID a) (SessionCacheDir a)
    (MimeType a) (Request a) .
Definition set_ResponseInspection (v : _) (a : Artifact) : Artifact :=
  mkArtifact (MetadataVersion a) (RequestInspection a) v (Result a) (Meta a) (Downloads a)
    (CurrentDownload a) (AssetDir a) (Tempfile a) (SessionID a) (SessionCacheDir a)
    (MimeType a) (Request a) .
Definition set_Result (v : _) (a : Artifact) : Artifact :=
  mkArtifact (MetadataVersion a) (RequestInspection a) (ResponseInspection a) v (Meta a)
    (Downloads a) (CurrentDownload a) (AssetDir a) (Tempfile a) (SessionID a)
    (SessionCacheDir a) (MimeType a) (Request a) .
Definition set_Meta (v : _) (a : Artifact) : Artifact :=
  mkArtifact (MetadataVersion a) (RequestInspection a) (ResponseInspection a) (Result a) v
    (Downloads a) (CurrentDownload a) (AssetDir a) (Tempfile a) (SessionID a)
    (SessionCacheDir a) (MimeType a) (Request a) .
Definition set_Downloads (v : _) (a : Artifact) : Artifact :=
  mkArtifact (MetadataVersion a) (RequestInspection a) (ResponseInspection a) (Result a)
    (Meta a) v (CurrentDownload a) (AssetDir a) (Tempfile a) (SessionID a) (SessionCacheDir a)
    (MimeType a) (Request a) .
Definition set_CurrentDownload (v : _) (a : Artifact) : Artifact :=
  mkArtifact (MetadataVersion a) (RequestInspection a) (ResponseInspection a) (Result a)
    (Meta a) (Downloads a) v (AssetDir a) (Tempfile a) (SessionID a) (SessionCacheDir a)
    (MimeType a) (Request a) .
Definition set_AssetDir (v : _) (a : Artifact) : Artifact :=
  mkArtifact (MetadataVersion a) (RequestInspection a) (ResponseInspection a) (Result a)
    (Meta a) (Downloads a) (CurrentDownload a) v (Tempfile a) (SessionID a) (SessionCacheDir a)
    (MimeType a) (Request a) .
Definition set_Tempfile (v : _) (a : Artifact) : Artifact :=
  mkArtifact (MetadataVersion a) (RequestInspection a) (ResponseInspection a) (Result a)
    (Meta a) (Downloads a) (CurrentDownload a) (AssetDir a) v (SessionID a) (SessionCacheDir a)
    (MimeType a) (Request a) .
Definition set_SessionID (v : _) (a : Artifact) : Artifact :=
  mkArtifact (MetadataVersion a) (RequestInspection a) (ResponseInspection a) (Result a)
    (Meta a) (Downloads a) (CurrentDownload a) (AssetDir a) (Tempfile a) v (SessionCacheDir a)
    (MimeType a) (Request a) .
Definition set_SessionCacheDir (v : _) (a : Artifact) : Artifact :=
  mkArtifact (MetadataVersion a) (RequestInspection a) (ResponseInspection a) (Result a)
    (Meta a) (Downloads a) (CurrentDownload a) (AssetDir a) (Tempfile a) (SessionID a) v
    (MimeType a) (Request a) .
Definition set_MimeType (v : _) (a : Artifact) : Artifact :=
  mkArtifact (MetadataVersion a) (RequestInspection a) (ResponseInspection a) (Result a)
    (Meta a) (Downloads a) (CurrentDownload a) (AssetDir a) (Tempfile a) (SessionID a)
    (SessionCacheDir a) v (Request a) .
Definition set_Request (v : _) (a : Artifact) : Artifact :=
  mkArtifact (MetadataVersion a) (RequestInspection a) (ResponseInspection a) (Result a)
    (Meta a) (Downloads a) (CurrentDownload a) (AssetDir a) (Tempfile a) (SessionID a)
    (SessionCacheDir a) (MimeType a) v.

(** *** Accessors *)

Definition Artifact_RequestHeader (a : Artifact) (key : string) : option (list string) :=
  RequestHeader (CurrentDownload a) !! key.

Definition RequestHeaderContains (a : Artifact) (h s : string) : bool :=
  match Artifact_RequestHeader a h with
  | Some value => slices_Contains value s
  | None => false
  end.

Definition Artifact_ContentType (a : Artifact) : string := ContentType (CurrentDownload a).
Definition DownloadURL (a : Artifact) : string := dl_URL (CurrentDownload a).
Definition HTTPRequest (a : Artifact) : option HttpRequest := Request a.

(** [a.Request] must not be nil. *)
Definition SetRequestBody (r : option Body) (a : Artifact) : Artifact :=
  match Request a with
  | Some q => set_Request (Some (mkHttpRequest (Method q) (ReqURL q) (ReqHeader q) r
                (ContentLength q) (TransferEncoding q) (RemoteAddr q) (LocalAddr q))) a
  | None => a
  end.

Definition MimetypeIs (a : Artifact) (t : string) : bool :=
  String.eqb (Type_ (Meta a)) t ||
  match MimeType a with Some m => MIME_Is m t | None => false end.

Definition Artifact_Size (a : Artifact) : Z := Size (Meta a).
Definition Artifact_Sha256 (a : Artifact) : Sha256Digest := Sha256 (Meta a).
Definition CacheDir (a : Artifact) : string := SessionCacheDir a.

(** *** Setting opinions *)

Definition setArtifactMetadata (m : ArtifactMetadata) (a : Artifact) : Artifact :=
  let o := Meta a in
  set_Meta (mkMetadata
    (if String.eqb (am_Type m) "" then Type_ o else am_Type m) (Sha1 o) (Sha256 o) (Size o)
    (am_Name m) (am_Version m) (am_Vendor m) (am_Description m) (am_Author m) (am_AuthorEmail m)
    (am_Architecture m) (am_License m) (am_Copyright m) (am_SourcePackage m) (am_StoreRevision m)
    (am_AptSuite m) (am_ContentID m)) a.

Definition addInspection (insp : InspectionMap) (id : string) (op : OpinionKind) (reason : string) :
    InspectionMap := <[id := mkInspection op reason ∅]> insp.

Definition SetRequestPending (id reason : string) (a : Artifact) : Artifact :=
  set_RequestInspection (addInspection (RequestInspection a) id Pending reason) a.
Definition SetRequestRejected (id reason : string) (a : Artifact) : Artifact :=
  set_RequestInspection (addInspection (RequestInspection a) id Rejected reason) a.
Definition SetRequestUnknown (id reason : string) (a : Artifact) : Artifact :=
  set_RequestInspection (addInspection (RequestInspection a) id Unknown reason) a.

(** Annotations of the request and response opinion of an inspector. *)
Definition AnnotateRequest (id : string) (ann : Annotation) (a : Artifact) : Artifact :=
  set_RequestInspection (annotate id ann (RequestInspection a)) a.
Definition AnnotateResponse (id : string) (ann : Annotation) (a : Artifact) : Artifact :=
  set_ResponseInspection (annotate id ann (ResponseInspection a)) a.

(** Whether some opinion satisfies [p]; the loops over an inspection map stop at the first. *)
Definition any_opinion (op : OpinionKind) (m : InspectionMap) : bool :=
  existsb (fun kv => bool_decide (Opinion kv.2 = op)) (map_to_list m).

Definition SetResponseApproved (id reason : string) (m : ArtifactMetadata) (a : Artifact) :
    Artifact :=
  let a := if decide (m <> NoMetadata) then setArtifactMetadata m a else a in
  set_ResponseInspection (addInspection (ResponseInspection a) id Approved reason) a.

Definition SetResponseRejected (id reason : string) (m : ArtifactMetadata) (a : Artifact) :
    Artifact :=
  let approved := any_opinion Approved (ResponseInspection a) in
  let a := if negb approved && bool_decide (m <> NoMetadata) then setArtifactMetadata m a else a in
  set_ResponseInspection (addInspection (ResponseInspection a) id Rejected reason) a.

Definition SetResponseUnknown (id reason : string) (m : ArtifactMetadata) (a : Artifact) :
    Artifact :=
  let approved := any_opinion Approved (ResponseInspection a) in
  let a := if negb approved && bool_decide (m <> NoMetadata) then setArtifactMetadata m a else a in
  set_ResponseInspection (addInspection (ResponseInspection a) id Unknown reason) a.

(** *** Reading opinions *)

(** The loop of [RequestPending] and [ResponseApproved] over the opinions in some order: false at
    the first rejection, otherwise whether [op] was seen. *)
Fixpoint no_rejection_and (op : OpinionKind) (res : bool) (l : list (string * Inspection)) : bool :=
  match l with
  | [] => res
  | (_, i) :: l' =>
      if decide (Opinion i = Rejected) then false
      else no_rejection_and op (if decide (Opinion i = op) then true else res) l'
  end.

Definition RequestRejected (a : Artifact) : bool := any_opinion Rejected (RequestInspection a).
Definition RequestPending (a : Artifact) : bool :=
  no_rejection_and Pending false (map_to_list (RequestInspection a)).
Definition ResponseRejected (a : Artifact) : bool := any_opinion Rejected (ResponseInspection a).
Definition ResponseApproved (a : Artifact) : bool :=
  no_rejection_and Approved false (map_to_list (ResponseInspection a)).

Definition InspectorRequestOpinionPending (id : string) (a : Artifact) : bool :=
  match RequestInspection a !! id with
  | Some i => bool_decide (Opinion i = Pending)
  | None => false
  end.

(** The type assertion [ann.(T)]. *)
Definition as_any (v : AnyVal) : option AnyVal := match v with ANil => None | _ => Some v end.
Definition as_string (v : AnyVal) : option string := match v with AStr s => Some s | _ => None end.
Definition as_bool (v : AnyVal) : option bool := match v with ABool b => Some b | _ => None end.

(** The annotation, if the inspector has an opinion with it and it has the right type; the default
    value the source returns with [false] is [None] here. *)
Definition inspectionAnnotation {T} (cast : AnyVal -> option T) (m : InspectionMap)
    (id key : string) : option T :=
  match m !! id with
  | None => None
  | Some i => match Annotations i !! key with
              | None => None
              | Some v => cast v
              end
  end.

Definition RequestAnnotation (a : Artifact) := inspectionAnnotation as_any (RequestInspection a).
Definition RequestStringAnnotation (a : Artifact) :=
  inspectionAnnotation as_string (RequestInspection a).
Definition RequestBoolAnnotation (a : Artifact) :=
  inspectionAnnotation as_bool (RequestInspection a).
Definition ResponseAnnotation (a : Artifact) := inspectionAnnotation as_any (ResponseInspection a).
Definition ResponseStringAnnotation (a : Artifact) :=
  inspectionAnnotation as_string (ResponseInspection a).
Definition ResponseBoolAnnotation (a : Artifact) :=
  inspectionAnnotation as_bool (ResponseInspection a).

Definition Artifact_Approved (a : Artifact) : bool :=
  if negb (RequestPending a) then false else ResponseApproved a.
Definition Artifact_Rejected (a : Artifact) : bool := negb (Artifact_Approved a).

(** ** Lemmas *)

(** Some inspector holds opinion [op]. *)
Definition has_opinion (op : OpinionKind) (m : InspectionMap) : Prop :=
  exists id i, m !! id = Some i /\ Opinion i = op.

Lemma any_opinion_spec op m : any_opinion op m = true <-> has_opinion op m.
Proof.
  unfold any_opinion, has_opinion. rewrite existsb_exists. split.
  - intros ([id i] & Hin & Hop). apply bool_decide_eq_true in Hop.
    apply list_elem_of_In, elem_of_map_to_list in Hin. eauto.
  - intros (id & i & Hl & Hop). exists (id, i). split.
    + by apply list_elem_of_In, elem_of_map_to_list.
    + by apply bool_decide_eq_true.
Qed.

Lemma no_rejection_and_spec op res l : op <> Rejected ->
  no_rejection_and op res l = true <->
  Forall (fun kv => Opinion kv.2 <> Rejected) l /\
  (res = true \/ Exists (fun kv => Opinion kv.2 = op) l).
Proof.
  intros Hop. revert res; induction l as [|[id i] l IH]; intros res; simpl.
  - rewrite Exists_nil. naive_solver.
  - rewrite Forall_cons, Exists_cons. simpl. repeat case_decide; subst.
    + naive_solver.
    + rewrite IH. naive_solver.
    + rewrite IH. naive_solver.
Qed.

(** The verdict of the loop, in terms of the map. *)
Lemma no_rejection_and_map op l m : op <> Rejected -> l ≡ₚ map_to_list m ->
  no_rejection_and op false l = true <-> has_opinion op m /\ ~ has_opinion Rejected m.
Proof.
  intros Hop Hl. rewrite no_rejection_and_spec by done. unfold has_opinion.
  rewrite Forall_forall, Exists_exists. setoid_rewrite Hl. split.
  - intros [Hf [H|([id i] & Hin & Hi)]]; [done|].
    apply elem_of_map_to_list in Hin. split; [eauto|].
    intros (id' & i' & Hl' & Hr). apply (Hf (id', i')); [|done].
    by apply elem_of_map_to_list.
  - intros [(id & i & Hl' & Hi) Hn]. split.
    + intros [id' i'] Hin Hr. apply elem_of_map_to_list in Hin. eauto 6.
    + right. exists (id, i). split; [|done]. by apply elem_of_map_to_list.
Qed.

Lemma RequestPending_spec a :
  RequestPending a = true <->
  has_opinion Pending (RequestInspection a) /\ ~ has_opinion Rejected (RequestInspection a).
Proof. by apply no_rejection_and_map. Qed.

Lemma ResponseApproved_spec a :
  ResponseApproved a = true <->
  has_opinion Approved (ResponseInspection a) /\ ~ has_opinion Rejected (ResponseInspection a).
Proof. by apply no_rejection_and_map. Qed.

Lemma addInspection_lookup m id op reason :
  addInspection m id op reason !! id = Some (mkInspection op reason ∅).
Proof. apply lookup_insert_eq. Qed.

Lemma has_opinion_set op id op' reason m :
  op = op' -> has_opinion op (addInspection m id op' reason).
Proof. intros <-. exists id, (mkInspection op reason ∅). by rewrite addInspection_lookup. Qed.

Lemma annotate_lookup m id id' ann :
  Opinion <$> annotate id ann m !! id' = Opinion <$> m !! id'.
Proof.
  unfold annotate. destruct (decide (id = id')) as [->|].
  - rewrite lookup_alter_eq. by destruct (m !! id').
  - by rewrite lookup_alter_ne.
Qed.

(** Annotations never change an opinion. *)
Lemma has_opinion_annotate op id ann m :
  has_opinion op (annotate id ann m) <-> has_opinion op m.
Proof.
  unfold has_opinion. split; intros (id' & i & Hl & Hi).
  - pose proof (annotate_lookup m id id' ann) as E. rewrite Hl in E. simpl in E.
    symmetry in E. apply fmap_Some in E as (j & Hj & E). exists id', j. split; congruence.
  - pose proof (annotate_lookup m id id' ann) as E. rewrite Hl in E. simpl in E.
    apply fmap_Some in E as (j & Hj & E). exists id', j. split; congruence.
Qed.

Lemma Approved_iff a :
  Artifact_Approved a = true <-> RequestPending a = true /\ ResponseApproved a = true.
Proof. unfold Artifact_Approved. destruct (RequestPending a); naive_solver. Qed.

Lemma Rejected_iff a : Artifact_Rejected a = false <-> Artifact_Approved a = true.
Proof. unfold Artifact_Rejected. by rewrite negb_false_iff. Qed.

Lemma setArtifactMetadata_keeps m a :
  Sha1 (Meta (setArtifactMetadata m a)) = Sha1 (Meta a) /\
  Sha256 (Meta (setArtifactMetadata m a)) = Sha256 (Meta a) /\
  Size (Meta (setArtifactMetadata m a)) = Size (Meta a).
Proof. done. Qed.

(** ** Properties *)

(** C22: An artifact is approved exactly when some inspector found the request valid and none
    rejected it, and some inspector approved the response and none rejected it; [Rejected] is the
    opposite. The verdicts do not depend on the order in which Go happens to enumerate the
    inspection maps. *)
Theorem approved_spec : forall a lreq lresp,
  lreq ≡ₚ map_to_list (RequestInspection a) -> lresp ≡ₚ map_to_list (ResponseInspection a) ->
  (Artifact_Approved a = true <->
     has_opinion Pending (RequestInspection a) /\ ~ has_opinion Rejected (RequestInspection a) /\
     has_opinion Approved (ResponseInspection a) /\ ~ has_opinion Rejected (ResponseInspection a)) /\
  Artifact_Rejected a = negb (Artifact_Approved a) /\
  no_rejection_and Pending false lreq = RequestPending a /\
  no_rejection_and Approved false lresp = ResponseApproved a.
Proof.
  intros a lreq lresp Hreq Hresp. split; [|split; [done|split]].
  - rewrite Approved_iff, RequestPending_spec, ResponseApproved_spec. tauto.
  - apply eq_true_iff_eq. rewrite RequestPending_spec. by apply no_rejection_and_map.
  - apply eq_true_iff_eq. rewrite ResponseApproved_spec. by apply no_rejection_and_map.
Qed.

(** Recording opinions: a rejection of the request or of the response makes the artifact
    rejected whatever was recorded before by others; an approval approves it when the request is
    pending and no other inspector rejected the response; an inspector that sets its opinion again
    replaces the former one, and annotations never change a verdict. *)
Theorem opinions_verdict : forall a id reason m ann,
  Artifact_Rejected (SetResponseRejected id reason m a) = true /\
  Artifact_Rejected (SetRequestRejected id reason a) = true /\
  (RequestPending a = true ->
   (forall id' i, ResponseInspection a !! id' = Some i -> id' <> id -> Opinion i <> Rejected) ->
   Artifact_Approved (SetResponseApproved id reason m a) = true) /\
  Artifact_Approved (AnnotateResponse id ann (AnnotateRequest id ann a)) = Artifact_Approved a.
Proof.
  intros a id reason m ann. split; [|split; [|split]].
  - apply not_false_iff_true. rewrite Rejected_iff, Approved_iff, ResponseApproved_spec.
    intros (_ & _ & Hn). apply Hn. unfold SetResponseRejected. simpl.
    by apply has_opinion_set.
  - apply not_false_iff_true. rewrite Rejected_iff, Approved_iff, RequestPending_spec.
    intros ((_ & Hn) & _). apply Hn. by apply has_opinion_set.
  - intros Hp Hr. rewrite Approved_iff, ResponseApproved_spec. split.
    { unfold SetResponseApproved. by case_decide. }
    unfold SetResponseApproved. simpl. split; [by apply has_opinion_set|].
    intros (id' & i & Hl & Hi). case_decide; simpl in Hl; unfold addInspection in Hl;
      rewrite lookup_insert in Hl; case_decide; simplify_eq/=; naive_solver.
  - apply eq_true_iff_eq. rewrite !Approved_iff, !RequestPending_spec, !ResponseApproved_spec.
    simpl. by rewrite !has_opinion_annotate.
Qed.

(** The metadata of an approval has priority: once some inspector has approved the response, no
    rejection and no unknown opinion changes the artifact metadata; before that they record
    what they found unless it is empty. The digests and the size of the file never change, and the
    type is kept when an inspector leaves it empty. *)
Theorem metadata_priority : forall a id reason m,
  (has_opinion Approved (ResponseInspection a) ->
     Meta (SetResponseRejected id reason m a) = Meta a /\
     Meta (SetResponseUnknown id reason m a) = Meta a) /\
  (~ has_opinion Approved (ResponseInspection a) -> m <> NoMetadata ->
     Name (Meta (SetResponseRejected id reason m a)) = am_Name m /\
     Name (Meta (SetResponseUnknown id reason m a)) = am_Name m) /\
  (forall f, f = SetResponseApproved id reason m \/ f = SetResponseRejected id reason m \/
             f = SetResponseUnknown id reason m ->
     Sha256 (Meta (f a)) = Sha256 (Meta a) /\ Sha1 (Meta (f a)) = Sha1 (Meta a) /\
     Size (Meta (f a)) = Size (Meta a) /\
     (am_Type m = "" -> Type_ (Meta (f a)) = Type_ (Meta a))) /\
  Meta (SetResponseApproved id reason m a) =
    (if decide (m = NoMetadata) then Meta a else Meta (setArtifactMetadata m a)).
Proof.
  intros a id reason m. unfold SetResponseRejected, SetResponseUnknown, SetResponseApproved.
  split; [|split; [|split]].
  - intros Ha. apply any_opinion_spec in Ha. rewrite Ha. done.
  - intros Ha Hm. rewrite <- any_opinion_spec in Ha. apply not_true_is_false in Ha.
    rewrite Ha, bool_decide_eq_true_2 by done. done.
  - intros f [->|[->| ->]]; simpl;
      match goal with |- context [if ?b then _ else a] => destruct b end; simpl;
      repeat split; try done; intros ->; done.
  - by repeat case_decide.
Qed.

(** An annotation is read back under the inspector and key it was recorded with: by the generic
    accessor, and by the typed one exactly when the value has the type; a lookup under
    an inspector without an opinion or a key that was not recorded finds nothing, and annotating
    one inspector's opinion leaves the annotations of the others alone. *)
Theorem annotation_roundtrip : forall a id key s reason id' key',
  let a' := AnnotateRequest id {[ key := AStr s ]} (SetRequestPending id reason a) in
  RequestAnnotation a' id key = Some (AStr s) /\
  RequestStringAnnotation a' id key = Some s /\
  RequestBoolAnnotation a' id key = None /\
  (key' <> key -> RequestAnnotation a' id key' = None) /\
  (id' <> id -> RequestAnnotation a' id' key' = RequestAnnotation a id' key') /\
  RequestAnnotation NewArtifact id' key' = None.
Proof.
  intros a id key s reason id' key' a'.
  assert (Hl : RequestInspection a' !! id =
               Some (Inspection_Annotate (mkInspection Pending reason ∅) {[ key := AStr s ]})).
  { unfold a'. simpl. unfold annotate. by rewrite lookup_alter_eq, addInspection_lookup. }
  unfold RequestAnnotation, RequestStringAnnotation, RequestBoolAnnotation, inspectionAnnotation.
  rewrite Hl. simpl. rewrite !map_union_empty, !lookup_singleton_eq. repeat split.
  - intros Hk. by rewrite lookup_singleton_ne.
  - intros Hi. unfold a'. simpl. unfold annotate, addInspection.
    by rewrite lookup_alter_ne, lookup_insert_ne.
Qed.

End Artifact.

(** ** Witnesses *)

Definition approved_artifact : @Artifact text_mime :=
  SetResponseApproved "deb" "valid" NoMetadata (SetRequestPending "deb" "valid URL" NewArtifact).

Lemma approved_spec_witness :
  Artifact_Approved approved_artifact = true /\
  has_opinion Approved (ResponseInspection approved_artifact).
Proof.
  destruct (approved_spec approved_artifact _ _ (Permutation_refl _) (Permutation_refl _))
    as [H _].
  assert (E : Artifact_Approved approved_artifact = true) by reflexivity.
  split; [exact E|]. apply H, E.
Defined.

Lemma opinions_verdict_witness :
  Artifact_Approved (SetResponseApproved "git" "ok" NoMetadata approved_artifact) = true.
Proof.
  destruct (opinions_verdict approved_artifact "git" "ok" NoMetadata ∅) as (_ & _ & H & _).
  apply H; [reflexivity|]. clear H.
  intros id' i Hl _ Hi. assert (has_opinion Rejected (ResponseInspection approved_artifact)).
  { by exists id', i. }
  apply any_opinion_spec in H. by vm_compute in H.
Defined.

Lemma metadata_priority_witness :
  Meta (SetResponseRejected "git" "no"
    (mkArtifactMetadata "" "x" "" "" "" "" "" "" "" "" "" "" "" "") approved_artifact) =
  Meta approved_artifact.
Proof.
  destruct (metadata_priority approved_artifact "git" "no"
    (mkArtifactMetadata "" "x" "" "" "" "" "" "" "" "" "" "" "" "")) as [H _].
  apply H.
  apply any_opinion_spec. reflexivity.
Defined.
