(* ===== verification/Report.v ===== *)
(** * Reports: the JSON form of artifacts and sessions

    The struct tags of [metadata/metadata.go], [metadata/artifact.go] and
    [inspectors/common/common.go], the printers of [utils/json_utils.go] and Go's JSON form of
    times and indented text. *)
From stdpp Require Import base gmap strings list option fin_maps.
From Stdlib Require Import ZArith Lia Ascii.
From S2P Require Import Prelude GoStrings GoCodec Platform Json Digests Artifact.

(** ** Times *)

(** Year, month and day of a number of days since 1970-01-01, in the proleptic Gregorian calendar:
    counted in eras of 400 years that start on March 1. *)
Definition civil_from_days (days : Z) : Z * Z * Z :=
  (let z := days + 719468 in
   let era := z / 146097 in
   let doe := z - era * 146097 in
   let yoe := (doe - doe / 1460 + doe / 36524 - doe / 146096) / 365 in
   let doy := doe - (365 * yoe + yoe / 4 - yoe / 100) in
   let mp := (5 * doy + 2) / 153 in
   let d := doy - (153 * mp + 2) / 5 + 1 in
   let m := if mp <? 10 then mp + 3 else mp - 9 in
   let y := yoe + era * 400 in
   ((if m <=? 2 then y + 1 else y), m, d))%Z.

(** Decimal digits, padded with zeros to a width. *)
Fixpoint pad_left (n : nat) (s : string) : string :=
  match n with O => s | S n' => if String.length s <=? n' then String "0" (pad_left n' s) else s end.
Definition pad (n : nat) (z : Z) : string := pad_left n (Itoa z).

(** Fractional seconds without trailing zeros. *)
Fixpoint trim_zeros (s : string) : string :=
  match s with
  | "" => ""
  | String c s' => if Ascii.eqb c "0" then trim_zeros s' else s
  end.
Definition fraction (ns : Z) : string :=
  if (ns =? 0)%Z then "" else "." +:+ srev (trim_zeros (srev (pad 9 ns))).

(** [time.RFC3339Nano] in UTC. *)
Definition rfc3339nano (t : Time) : string :=
  let secs := (t / Second)%Z in
  let '(y, m, d) := civil_from_days (secs / 86400) in
  let s := (secs mod 86400)%Z in
  pad 4 y +:+ "-" +:+ pad 2 m +:+ "-" +:+ pad 2 d +:+ "T" +:+
  pad 2 (s / 3600) +:+ ":" +:+ pad 2 (s / 60 mod 60) +:+ ":" +:+ pad 2 (s mod 60) +:+
  fraction (t mod Second) +:+ "Z".

(** [Time.String] in UTC, without the reading of the monotonic clock Go appends. *)
Definition Time_String (t : Time) : string :=
  let secs := (t / Second)%Z in
  let '(y, m, d) := civil_from_days (secs / 86400) in
  let s := (secs mod 86400)%Z in
  pad 4 y +:+ "-" +:+ pad 2 m +:+ "-" +:+ pad 2 d +:+ " " +:+
  pad 2 (s / 3600) +:+ ":" +:+ pad 2 (s / 60 mod 60) +:+ ":" +:+ pad 2 (s mod 60) +:+
  fraction (t mod Second) +:+ " +0000 UTC".

(** ** Printing *)

Fixpoint repeat_str (n : nat) (s : string) : string :=
  match n with O => "" | S n' => s +:+ repeat_str n' s end.

(** [json.Indent] with an empty prefix. *)
Fixpoint print_indent (indent : string) (depth : nat) (j : json) : string :=
  let newline d := str1 nl +:+ repeat_str d indent in
  match j with
  | JArr (v :: l) =>
      "[" +:+ newline (S depth) +:+ print_indent indent (S depth) v +:+
      (fix go l := match l with
                   | [] => ""
                   | v :: l' => "," +:+ newline (S depth) +:+ print_indent indent (S depth) v +:+ go l'
                   end) l +:+ newline depth +:+ "]"
  | JObj (kv :: m) =>
      let member kv := String dquote (fst kv +:+ String dquote (": " +:+
                         print_indent indent (S depth) (snd kv))) in
      "{" +:+ newline (S depth) +:+ member kv +:+
      (fix go m := match m with
                   | [] => ""
                   | kv :: m' => "," +:+ newline (S depth) +:+
                       String dquote (fst kv +:+ String dquote (": " +:+
                         print_indent indent (S depth) (snd kv))) +:+ go m'
                   end) m +:+ newline depth +:+ "}"
  | _ => json_print j
  end.

(** [json.MarshalIndent(v, "", indent)], and [JSONMarshalIndentNoHTMLEscape], which also ends the
    text with a line feed and does not indent with an empty indent. *)
Definition MarshalIndent (indent : string) (j : json) : string := print_indent indent 0 j.
Definition JSONMarshalIndentNoHTMLEscape (indent : string) (j : json) : string :=
  (if String.eqb indent "" then json_print j else print_indent indent 0 j) +:+ str1 nl.
Definition JSONMarshalNoHTMLEscape (j : json) : string := JSONMarshalIndentNoHTMLEscape "" j.

(** ** Records *)

Definition member (html : bool) (k s : string) : list (string * json) := [(k, jstring html s)].
Definition member_omitempty (html : bool) (k s : string) : list (string * json) :=
  if String.eqb s "" then [] else member html k s.

(** The entries of a map, encoded with a chosen escaping of markup. *)
Definition jentries (html : bool) (m : gmap string json) : json :=
  JObj (map (fun kv => (json_escape html (fst kv), snd kv)) (sorted_entries m)).

Fixpoint any_json (html : bool) (v : AnyVal) : json :=
  match v with
  | ANil => JNull
  | AStr s => jstring html s
  | ABool b => JBool b
  | AInt z => JNum (Itoa z)
  | AStrs l => JArr (map (jstring html) l)
  | AList l => JArr (map (any_json html) l)
  | AMap m => jentries html (list_to_map (map (fun kv => (fst kv, any_json html (snd kv))) m))
  end.

Definition jopinion (o : OpinionKind) : result json :=
  match OpinionKind_MarshalJSON o with
  | Ok _ => Ok (JStr (OpinionKind_String o))
  | Err e => Err e
  end.

Definition jinspection (html : bool) (i : Inspection) : result json :=
  o ← jopinion (Opinion i);
  Ok (JObj ([("opinion", o)] ++ member html "reason" (Reason i) ++
    (if decide (Annotations i = ∅) then []
     else [("annotations", jentries html (any_json html <$> Annotations i))]))).

(** A map of results is a result of a map; the error is one of the entries'. *)
Definition collect {A} (m : gmap string (result A)) : result (gmap string A) :=
  map_fold (fun k r acc => m' ← acc; a ← r; Ok (<[k := a]> m')) (Ok ∅) m.

Definition jinspections (html : bool) (m : InspectionMap) : result json :=
  jentries html <$> collect (jinspection html <$> m).

Definition jheader (html : bool) (h : Header) : json :=
  jentries html ((fun vs => JArr (map (jstring html) vs)) <$> h).

Definition jmetadata (html : bool) (m : Metadata) : json :=
  JObj (member html "type" (Type_ m) ++
    [("sha1", JStr (Sha1_String (Sha1 m))); ("sha256", JStr (Sha256_String (Sha256 m)));
     ("size", JNum (Itoa (Size m)))] ++
    member html "name" (Name m) ++ member html "version" (Version m) ++
    member html "vendor" (Vendor m) ++ member html "description" (Description m) ++
    member html "author" (Author m) ++ member_omitempty html "author-email" (AuthorEmail m) ++
    member_omitempty html "architecture" (Architecture m) ++ member html "license" (License m) ++
    member_omitempty html "copyright" (Copyright m) ++
    member_omitempty html "source-package" (SourcePackage m) ++
    member_omitempty html "store-revision" (StoreRevision m) ++
    member_omitempty html "apt-suite" (AptSuite m) ++
    member_omitempty html "content-id" (ContentID m)).

Definition jdownload (html : bool) (d : Download) : json :=
  JObj ([("start-time", JStr (rfc3339nano (StartTime d)));
         ("end-time", JStr (rfc3339nano (EndTime d)))] ++
    member html "method" (dl_Method d) ++ member html "url" (dl_URL d) ++
    member html "address" (Address d) ++ member html "user-agent" (UserAgent d) ++
    [("request-header", jheader html (RequestHeader d));
     ("status-code", JNum (Itoa (dl_StatusCode d)))] ++
    member html "status" (dl_Status d) ++ member html "content-type" (ContentType d) ++
    [("response-header", jheader html (ResponseHeader d))]).

Definition session_members (html : bool) (s : SessionMetadata) : list (string * json) :=
  member html "generator" (Generator s) ++ member_omitempty html "comment" (Comment_ s) ++
  member html "session-id" (sm_SessionID s) ++
  [("start-time", JStr (rfc3339nano (sm_StartTime s)));
   ("end-time", JStr (rfc3339nano (sm_EndTime s)));
   ("inspectors", JArr (map (jstring html) (sm_Inspectors s)))] ++
  member html "spool-path" (SpoolPath s) ++ member html "policy" (Policy s).

Definition jsession (html : bool) (s : SessionMetadata) : json := JObj (session_members html s).

Definition jsession_info (html : bool) (s : SessionInfo) : json :=
  JObj (member html "session-id" (si_SessionID s) ++
        member html "start-time" (Time_String (si_StartTime s)) ++
        member html "policy" (si_Policy s) ++
        [("age", JNum (Itoa (Age s))); ("timeout", JNum (Itoa (si_Timeout s)))]).

Section Report.
Context `{ML : MimeLib}.

Definition jartifact (html : bool) (a : Artifact) : result json :=
  req ← jinspections html (RequestInspection a);
  resp ← jinspections html (ResponseInspection a);
  o ← jopinion (Result a);
  Ok (JObj (member html "artifact-metadata-version" (MetadataVersion a) ++
    [("request-inspection", req); ("response-inspection", resp); ("result", o);
     ("metadata", jmetadata html (Meta a));
     ("downloads", JArr (map (jdownload html) (Downloads a)))])).

(** A list of artifacts, in some order. *)
Definition jartifacts (html : bool) (l : list Artifact) : result json :=
  JArr <$> foldr (fun a acc => j ← jartifact html a; l' ← acc; Ok (j :: l')) (Ok []) l.
End Report.

Example rfc3339_epoch : rfc3339nano 0%Z = "1970-01-01T00:00:00Z".
Proof. vm_compute. reflexivity. Qed.
Example rfc3339_leap : rfc3339nano 1709210096120000000%Z = "2024-02-29T12:34:56.12Z".
Proof. vm_compute. reflexivity. Qed.
Example rfc3339_zero : rfc3339nano zero_time = "0001-01-01T00:00:00Z".
Proof. vm_compute. reflexivity. Qed.
