(* ===== verification/Indent.v ===== *)
(** * Indented JSON read back

    The reader skips the white space that [json.Indent] puts between the parts of a value: what [MarshalIndent]
    writes is read as the value, whatever white space it indents with. *)
From stdpp Require Import base strings list option.
From Stdlib Require Import Lia Ascii.
From S2P Require Import Prelude GoStrings GoCodec Platform Json Digests Artifact Report.

Lemma skip_ws_app w s : str_forall is_ws w = true -> skip_ws (w +:+ s) = skip_ws s.
Proof. induction w as [|c w IH]; [done|]. simpl. intros [-> Hw]%andb_true_iff. by apply IH. Qed.

Lemma forall_app_str p a b : str_forall p a = true -> str_forall p b = true -> str_forall p (a +:+ b) = true.
Proof. intros Ha Hb. induction a as [|c a IH]; [done|]. simpl in *. apply andb_true_iff in Ha as [-> Ha]. by apply IH. Qed.

Lemma repeat_ws n w : str_forall is_ws w = true -> str_forall is_ws (repeat_str n w) = true.
Proof. intros Hw. induction n as [|n IH]; [done|]. by apply forall_app_str. Qed.

Lemma parse_value_ws n w s : str_forall is_ws w = true -> parse_value n (w +:+ s) = parse_value n s.
Proof. intros Hw. destruct n as [|n]; [done|]. cbn [parse_value]. by rewrite skip_ws_app. Qed.
Lemma parse_elements_ws n w s : str_forall is_ws w = true -> parse_elements n (w +:+ s) = parse_elements n s.
Proof. intros Hw. destruct n as [|n]; [done|]. cbn [parse_elements]. by rewrite parse_value_ws. Qed.
Lemma parse_members_ws n w s : str_forall is_ws w = true -> parse_members n (w +:+ s) = parse_members n s.
Proof. intros Hw. destruct n as [|n]; [done|]. cbn [parse_members]. by rewrite skip_ws_app. Qed.

Section Indent.
Variable indent : string.
Hypothesis indent_ws : str_forall is_ws indent = true.

Definition newline (d : nat) : string := str1 nl +:+ repeat_str d indent.
Lemma newline_ws d : str_forall is_ws (newline d) = true.
Proof using indent_ws. by apply forall_app_str; [|apply repeat_ws]. Qed.

(** The elements after the first, and the members after the first. *)
Definition indent_elements (d : nat) : list json -> string :=
  fix go l := match l with
    | [] => ""
    | v :: l' => "," +:+ newline (S d) +:+ print_indent indent (S d) v +:+ go l'
    end.
Definition indent_member (d : nat) (kv : string * json) : string :=
  String dquote (fst kv +:+ String dquote (": " +:+ print_indent indent (S d) (snd kv))).
Definition indent_members (d : nat) : list (string * json) -> string :=
  fix go m := match m with
    | [] => ""
    | kv :: m' => "," +:+ newline (S d) +:+ indent_member d kv +:+ go m'
    end.

Lemma indent_array d v l : print_indent indent d (JArr (v :: l)) =
  "[" +:+ newline (S d) +:+ print_indent indent (S d) v +:+ indent_elements d l +:+ newline d +:+ "]".
Proof. done. Qed.
Lemma indent_object d kv m : print_indent indent d (JObj (kv :: m)) =
  "{" +:+ newline (S d) +:+ indent_member d kv +:+ indent_members d m +:+ newline d +:+ "}".
Proof. done. Qed.

Definition indents_back (j : json) : Prop := json_wf j = true -> forall d n r,
  2 * String.length (print_indent indent d j) < n -> stops r = true ->
  parse_value n (print_indent indent d j +:+ r) = Some (j, r).

(** What follows a value does not continue it. *)
Lemma close_stops d c r : stops (newline d +:+ c +:+ r) = true.
Proof. done. Qed.

Lemma elements_stop d l c r : stops (indent_elements d l +:+ newline d +:+ c +:+ r) = true.
Proof. by destruct l. Qed.
Lemma members_stop d m c r : stops (indent_members d m +:+ newline d +:+ c +:+ r) = true.
Proof. by destruct m. Qed.

Lemma skip_close d c r : is_ws c = false -> skip_ws (newline d +:+ String c r) = String c r.
Proof using indent_ws. intros Hc. rewrite skip_ws_app by apply newline_ws. by apply skip_ws_head. Qed.

Lemma indent_elements_back d l v : indents_back v -> Forall indents_back l -> forallb json_wf (v :: l) = true ->
  forall n r, 2 * String.length (print_indent indent (S d) v +:+ indent_elements d l) + 2 < n ->
  parse_elements n (print_indent indent (S d) v +:+ indent_elements d l +:+ newline d +:+ "]" +:+ r) = Some (v :: l, r).
Proof using indent_ws.
  intros Hv Hl. revert v Hv. induction Hl as [|v' l Hv' Hl IH]; intros v Hv Hwf n r Hn;
    cbn [forallb] in Hwf; apply andb_true_iff in Hwf as [Hwv Hwl]; rewrite length_app_str in Hn;
    (destruct n as [|n]; [lia|]); cbn [parse_elements];
    rewrite Hv by (apply elements_stop || done || lia).
  - cbn [indent_elements String.append]. by rewrite skip_close.
  - change (indent_elements d (v' :: l)) with ("," +:+ newline (S d) +:+ print_indent indent (S d) v' +:+ indent_elements d l) in *.
    rewrite !length_app_str in Hn. cbn [String.length] in Hn.
    rewrite !app_str_assoc. change ("," +:+ ?x) with (String "," x). rewrite (skip_ws_head ",") by done.
    change (Ascii.eqb "," "]") with false. change (Ascii.eqb "," ",") with true. cbn iota.
    rewrite parse_elements_ws by apply newline_ws.
    rewrite IH; [done|done|done|]. rewrite length_app_str. lia.
Qed.

Lemma indent_members_back d m kv : Forall (fun kv => indents_back (snd kv)) (kv :: m) ->
  forallb (fun kv => valid_raw (fst kv) && json_wf (snd kv)) (kv :: m) = true ->
  forall n r, 2 * String.length (indent_member d kv +:+ indent_members d m) + 2 < n ->
  parse_members n (indent_member d kv +:+ indent_members d m +:+ newline d +:+ "}" +:+ r) = Some (kv :: m, r).
Proof using indent_ws.
  revert kv. induction m as [|kv' m IH]; intros [k v] Hm Hwf n r Hn; apply Forall_cons_1 in Hm as [Hv Hm];
    cbn [forallb fst snd] in *; apply andb_true_iff in Hwf as [Hwv Hwm]; apply andb_true_iff in Hwv as [Hwk Hwv];
    rewrite length_app_str in Hn; unfold indent_member at 1 in Hn; cbn [fst snd String.length] in Hn;
    rewrite length_app_str in Hn; cbn [String.length] in Hn; rewrite length_app_str in Hn; cbn [String.length] in Hn;
    (destruct n as [|n]; [lia|]); unfold indent_member at 1; cbn [fst snd];
    change (String dquote ?x +:+ ?y) with (String dquote (x +:+ y)); rewrite app_str_assoc;
    change (String dquote ?x +:+ ?y) with (String dquote (x +:+ y)); rewrite app_str_assoc;
    cbn [parse_members]; rewrite (skip_ws_head dquote) by done; change (Ascii.eqb dquote dquote) with true; cbn [negb]; cbn iota;
    rewrite scan_string_valid by done;
    change (": " +:+ ?x) with (String ":" (" " +:+ x)); rewrite (skip_ws_head ":") by done;
    change (Ascii.eqb ":" ":") with true; cbn [negb]; cbn iota; rewrite parse_value_ws by done;
    rewrite Hv by (apply members_stop || done || lia).
  - cbn [indent_members String.append]. by rewrite skip_close.
  - change (indent_members d (kv' :: m)) with ("," +:+ newline (S d) +:+ indent_member d kv' +:+ indent_members d m) in *.
    rewrite !length_app_str in Hn. cbn [String.length] in Hn.
    rewrite !app_str_assoc. change ("," +:+ ?x) with (String "," x). rewrite (skip_ws_head ",") by done.
    change (Ascii.eqb "," "}") with false. change (Ascii.eqb "," ",") with true. cbn iota.
    rewrite parse_members_ws by apply newline_ws.
    rewrite IH; [done|done|done|]. rewrite length_app_str. lia.
Qed.

Lemma indent_head d v : json_wf v = true ->
  exists c s, print_indent indent d v = String c s /\ is_ws c = false /\ Ascii.eqb c "]" = false.
Proof.
  intros Hwf. destruct v as [|b|lit|raw|[|v l]|[|kv m]]; try (by apply print_head in Hwf);
    by eexists _, _; split; [reflexivity|].
Qed.

Lemma indent_reads_back j : indents_back j.
Proof using indent_ws.
  induction j as [|b|lit|raw|l IH|m IH] using json_ind'; intros Hwf d n r Hn Hr;
    try (by apply json_reads_back).
  - destruct l as [|v l]; [by apply (json_reads_back (JArr []))|]. rewrite indent_array in *.
    destruct n as [|n]; [lia|]. change ("[" +:+ ?x) with (String "[" x) in *. cbn [String.length] in Hn.
    rewrite !length_app_str in Hn. cbn [String.length] in Hn.
    change (String "[" ?x +:+ ?y) with (String "[" (x +:+ y)). cbn [parse_value]. rewrite (skip_ws_head "[") by done.
    change (Ascii.eqb "[" "{") with false. change (Ascii.eqb "[" "[") with true. cbn iota.
    rewrite !app_str_assoc, skip_ws_app by apply newline_ws.
    apply Forall_cons_1 in IH as [Hv Hl].
    pose proof (indent_elements_back d l v Hv Hl Hwf n r) as Hp. rewrite length_app_str in Hp.
    specialize (Hp ltac:(lia)). destruct (indent_head (S d) v) as (c & s & E & Hc & Hb);
      [by cbn [json_wf forallb] in Hwf; apply andb_true_iff in Hwf as [? _]|].
    rewrite E in *. change (String c s +:+ ?x) with (String c (s +:+ x)) in *.
    rewrite (skip_ws_head c) by done. by rewrite Hb, Hp.
  - destruct m as [|kv m]; [by apply (json_reads_back (JObj []))|]. rewrite indent_object in *.
    destruct n as [|n]; [lia|]. change ("{" +:+ ?x) with (String "{" x) in *. cbn [String.length] in Hn.
    rewrite !length_app_str in Hn. cbn [String.length] in Hn.
    change (String "{" ?x +:+ ?y) with (String "{" (x +:+ y)). cbn [parse_value]. rewrite (skip_ws_head "{") by done.
    change (Ascii.eqb "{" "{") with true. cbn iota.
    rewrite !app_str_assoc, skip_ws_app by apply newline_ws.
    pose proof (indent_members_back d m kv IH Hwf n r) as Hp. rewrite length_app_str in Hp.
    specialize (Hp ltac:(lia)). set (body := indent_member d kv +:+ _) in *.
    assert (E : exists s, body = String dquote s) by (eexists; reflexivity). destruct E as [s E]. rewrite E in *.
    rewrite (skip_ws_head dquote) by done. change (Ascii.eqb dquote "}") with false. cbn iota. by rewrite Hp.
Qed.
End Indent.

(** Reading what [MarshalIndent] wrote. *)
Lemma MarshalIndent_back indent j : str_forall is_ws indent = true -> json_wf j = true ->
  json_parse (MarshalIndent indent j) = Ok j /\ json_decode_first (MarshalIndent indent j) = Ok j.
Proof.
  intros Hi Hwf. unfold MarshalIndent.
  pose proof (indent_reads_back indent Hi j Hwf 0 (parse_fuel (print_indent indent 0 j)) "") as H.
  rewrite app_str_nil_r in H. specialize (H ltac:(unfold parse_fuel; lia) eq_refl).
  destruct (indent_head indent 0 j Hwf) as (c & s & E & Hc & _).
  unfold json_parse, json_decode_first. rewrite H. split; [done|]. rewrite E. by rewrite skip_ws_head.
Qed.
