(* ===== verification/TimeText.v ===== *)
(** * Times in reports and back

    The JSON form of a time is read by [encoding/json] as [time.Time.UnmarshalJSON] does. A time whose year has
    four digits comes back to the nanosecond: the calendar of [Report] is inverted by the usual count of days. *)
From stdpp Require Import base strings list option.
From Stdlib Require Import ZArith Lia Ascii.
From S2P Require Import Prelude GoStrings GoCodec Platform Json JsonString Digests Artifact Report.

(** ** The calendar *)

Definition leap_year (y : Z) : bool := ((y mod 4 =? 0) && negb (y mod 100 =? 0) || (y mod 400 =? 0))%Z.
Definition daysIn (m y : Z) : Z :=
  (if m =? 2 then if leap_year y then 29 else 28
   else if (m =? 4) || (m =? 6) || (m =? 9) || (m =? 11) then 30 else 31)%Z.

(** The days from 1970-01-01 to a date, in eras of 400 years that start on March 1. *)
Definition year_start (yoe : Z) : Z := (365 * yoe + yoe / 4 - yoe / 100 + yoe / 400)%Z.
Definition days_from_civil (y m d : Z) : Z :=
  (let y := if m <=? 2 then y - 1 else y in
   let era := y / 400 in
   let yoe := y - era * 400 in
   let mp := if m <=? 2 then m + 9 else m - 3 in
   let doy := (153 * mp + 2) / 5 + d - 1 in
   era * 146097 + (year_start yoe + doy) - 719468)%Z.

(** The year of the era, as [civil_from_days] computes it. *)
Definition era_days (doe : Z) : Z := (doe - doe / 1460 + doe / 36524 - doe / 146096)%Z.

Lemma era_days_step x : (0 <= x < 146096)%Z -> (era_days x <= era_days (x + 1))%Z.
Proof.
  intros Hx. unfold era_days.
  assert (H1 : (x / 1460 <= (x + 1) / 1460 <= x / 1460 + 1)%Z) by (Z.to_euclidean_division_equations; lia).
  assert (H2 : (x / 36524 <= (x + 1) / 36524)%Z) by (Z.to_euclidean_division_equations; lia).
  assert (H3 : (x / 146096 = 0)%Z) by (apply Z.div_small; lia).
  destruct (Z.eq_dec x 146095) as [->|Hne]; [by vm_compute|].
  assert (H4 : ((x + 1) / 146096 = 0)%Z) by (apply Z.div_small; lia). lia.
Qed.

Lemma era_days_mono x y : (0 <= x <= y)%Z -> (y <= 146096)%Z -> (era_days x <= era_days y)%Z.
Proof.
  intros [Hx Hxy]. revert y Hxy. apply (Zlt_lower_bound_ind (fun y => (y <= 146096)%Z -> _)).
  intros y IH Hxy Hy. destruct (Z.eq_dec x y) as [->|Hne]; [lia|].
  pose proof (IH (y - 1)%Z ltac:(lia) ltac:(lia)) as H1. pose proof (era_days_step (y - 1) ltac:(lia)) as H2.
  replace (y - 1 + 1)%Z with y in H2 by lia. lia.
Qed.

Lemma year_starts k : (0 <= k < 400)%Z ->
  (era_days (year_start k) / 365 = k /\ era_days (year_start (k + 1) - 1) / 365 = k /\
   year_start (k + 1) - year_start k = 365 + (if leap_year (k + 1) then 1 else 0))%Z.
Proof.
  intros Hk.
  assert (H : forallb (fun n => let k := Z.of_nat n in
    ((era_days (year_start k) / 365 =? k) && (era_days (year_start (k + 1) - 1) / 365 =? k) &&
     (year_start (k + 1) - year_start k =? 365 + (if leap_year (k + 1) then 1 else 0)))%Z) (seq 0 400) = true)
    by (vm_compute; reflexivity).
  rewrite forallb_forall in H. specialize (H (Z.to_nat k)). cbv zeta in H. rewrite Z2Nat.id in H by lia.
  assert (Hin : In (Z.to_nat k) (seq 0 400)) by (apply in_seq; lia). apply H in Hin.
  rewrite !andb_true_iff, !Z.eqb_eq in Hin. tauto.
Qed.

Lemma year_bracket (n : nat) doe : (0 <= doe < year_start (Z.of_nat n))%Z ->
  exists k, (0 <= k < Z.of_nat n)%Z /\ (year_start k <= doe < year_start (k + 1))%Z.
Proof.
  induction n as [|n IH]; intros H.
  { assert (E : year_start (Z.of_nat 0) = 0%Z) by reflexivity. rewrite E in H. exfalso. lia. }
  destruct (Z.lt_ge_cases doe (year_start (Z.of_nat n))) as [Hlt|Hge].
  - destruct (IH ltac:(lia)) as (k & Hk & Hb). exists k. split; [lia|done].
  - exists (Z.of_nat n). split; [lia|]. replace (Z.of_nat n + 1)%Z with (Z.of_nat (S n)) by lia. by destruct H.
Qed.

(** The year of the era and the day of the year are in range. *)
Lemma era_year doe : (0 <= doe < 146097)%Z ->
  let yoe := (era_days doe / 365)%Z in
  (0 <= yoe < 400 /\ 0 <= doe - year_start yoe < 365 + (if leap_year (yoe + 1) then 1 else 0))%Z.
Proof.
  intros Hd. destruct (year_bracket 400 doe) as (k & Hk & Hb); [by change (year_start (Z.of_nat 400)) with 146097%Z|].
  destruct (year_starts k Hk) as (H1 & H2 & H3).
  assert (H0 : (0 <= year_start k)%Z) by (unfold year_start; Z.to_euclidean_division_equations; lia).
  assert (Hend : (year_start (k + 1) <= 146097)%Z).
  { destruct (Z.eq_dec k 399) as [->|Hne]; [by vm_compute|].
    unfold year_start. Z.to_euclidean_division_equations; lia. }
  assert (E : (era_days doe / 365 = k)%Z).
  { apply Z.le_antisymm; [rewrite <- H2|rewrite <- H1]; (apply Z.div_le_mono; [lia|]); apply era_days_mono; lia. }
  cbv zeta. rewrite E. lia.
Qed.

(** Month and day of a day of the year that starts on March 1. *)
Lemma month_day doy : (0 <= doy < 366)%Z ->
  let mp := ((5 * doy + 2) / 153)%Z in
  let d := (doy - (153 * mp + 2) / 5 + 1)%Z in
  (0 <= mp <= 11 /\ 1 <= d /\
   (forall y, doy < 365 + (if leap_year y then 1 else 0) -> d <= daysIn (if mp <? 10 then mp + 3 else mp - 9) y))%Z.
Proof.
  intros Hd mp d.
  assert (H : forallb (fun n => let doy := Z.of_nat n in
    let mp := ((5 * doy + 2) / 153)%Z in let d := (doy - (153 * mp + 2) / 5 + 1)%Z in
    let m := (if mp <? 10 then mp + 3 else mp - 9)%Z in
    ((0 <=? mp) && (mp <=? 11) && (1 <=? d) && (d <=? daysIn m 2000) &&
     ((doy =? 365) || (d <=? daysIn m 2001)))%Z) (seq 0 366) = true) by (vm_compute; reflexivity).
  rewrite forallb_forall in H. specialize (H (Z.to_nat doy)). cbv zeta in H. rewrite Z2Nat.id in H by lia.
  assert (Hin : In (Z.to_nat doy) (seq 0 366)) by (apply in_seq; lia). apply H in Hin. fold mp in Hin. fold d in Hin.
  rewrite !andb_true_iff, orb_true_iff, !Z.leb_le, Z.eqb_eq in Hin. destruct Hin as ((((H1 & H2) & H3) & H4) & H5).
  split; [lia|]. split; [lia|]. intros y Hy. unfold daysIn in *. change (leap_year 2000) with true in H4.
  change (leap_year 2001) with false in H5. destruct (leap_year y); [done|]. destruct H5; [lia|done].
Qed.

Lemma month_shift mp : (0 <= mp <= 11 ->
  (if (if mp <? 10 then mp + 3 else mp - 9) <=? 2 then (if mp <? 10 then mp + 3 else mp - 9) + 9
   else (if mp <? 10 then mp + 3 else mp - 9) - 3) = mp)%Z.
Proof. intros H. destruct (Z.ltb_spec mp 10); match goal with |- context [(?a <=? 2)%Z] => destruct (Z.leb_spec a 2) end; lia. Qed.

(** Counting the days of the date of a day gives the day, and the date exists. *)
Lemma civil_roundtrip z : let '(y, m, d) := civil_from_days z in
  (days_from_civil y m d = z /\ 1 <= m <= 12 /\ 1 <= d <= daysIn m y)%Z.
Proof.
  unfold civil_from_days. set (z1 := (z + 719468)%Z). set (era := (z1 / 146097)%Z).
  set (doe := (z1 - era * 146097)%Z).
  assert (Hdoe : (0 <= doe < 146097)%Z) by (unfold doe, era; Z.to_euclidean_division_equations; lia).
  change (doe - doe / 1460 + doe / 36524 - doe / 146096)%Z with (era_days doe).
  pose proof (era_year doe Hdoe) as [Hy Hd]. set (yoe := (era_days doe / 365)%Z) in *.
  assert (Hys : (365 * yoe + yoe / 4 - yoe / 100)%Z = year_start yoe)
    by (unfold year_start; rewrite (Z.div_small yoe 400) by lia; lia).
  rewrite Hys. set (doy := (doe - year_start yoe)%Z) in *.
  assert (Hdoy : (0 <= doy < 366)%Z) by (destruct (leap_year (yoe + 1)); lia).
  pose proof (month_day doy Hdoy) as (Hmp & H1 & Hdm). set (mp := ((5 * doy + 2) / 153)%Z) in *.
  set (m := (if mp <? 10 then mp + 3 else mp - 9)%Z) in *.
  assert (Hm : (1 <= m <= 12)%Z) by (unfold m; destruct (Z.ltb_spec mp 10); lia).
  assert (Hleap : forall e, leap_year (yoe + 1 + e * 400) = leap_year (yoe + 1)).
  { intros e. unfold leap_year. rewrite Z.mod_add by lia.
    replace (yoe + 1 + e * 400)%Z with (yoe + 1 + (e * 100) * 4)%Z at 1 by lia. rewrite Z.mod_add by lia.
    replace (yoe + 1 + e * 400)%Z with (yoe + 1 + (e * 4) * 100)%Z by lia. by rewrite Z.mod_add by lia. }
  split; [|split; [done|]].
  - unfold days_from_civil.
    assert (E : ((if m <=? 2 then (if m <=? 2 then yoe + era * 400 + 1 else yoe + era * 400) - 1
      else (if m <=? 2 then yoe + era * 400 + 1 else yoe + era * 400)) = yoe + era * 400)%Z)
      by (destruct (m <=? 2)%Z; lia). rewrite E.
    assert (Eera : ((yoe + era * 400) / 400 = era)%Z) by (rewrite Z.div_add by lia; rewrite Z.div_small by lia; lia).
    rewrite Eera. replace (yoe + era * 400 - era * 400)%Z with yoe by lia.
    assert (Emp : (if m <=? 2 then m + 9 else m - 3)%Z = mp)
      by (by apply month_shift). rewrite Emp.
    unfold doy, doe, z1. lia.
  - split; [lia|]. apply Hdm. destruct (Z.leb_spec m 2) as [Hm2|Hm2].
    + replace (yoe + era * 400 + 1)%Z with (yoe + 1 + era * 400)%Z by lia. rewrite Hleap. lia.
    + (** from March on only the length of February could differ *)
      apply (Z.lt_le_trans _ 365); [|match goal with |- context [if ?b then _ else _] => destruct b end; lia].
      unfold m in Hm2. destruct (Z.ltb_spec mp 10) as [Hlt|Hge]; [|lia].
      unfold mp in Hlt. clear -Hlt Hdoy. Z.to_euclidean_division_equations; lia.
Qed.

(** ** Reading a time *)

(** The first [n] bytes as a number in a range, and the rest. *)
Definition take_uint (n : nat) (lo hi : Z) (s : string) : option (Z * string) :=
  if String.length s <? n then None
  else v ← parse_digits 10 (str_take n s) 0;
       if ((lo <=? v) && (v <=? hi))%Z then Some (v, str_drop n s) else None.

Definition expect (c : ascii) (s : string) : option string :=
  match s with String c' s' => if Ascii.eqb c' c then Some s' else None | "" => None end.

(** A fraction of a second: its digits after the ninth are dropped. *)
Definition nanoseconds (digits : string) : option Z :=
  let ds := str_take 9 digits in
  v ← parse_digits 10 ds 0; Some (v * 10 ^ Z.of_nat (9 - String.length ds))%Z.

Definition take_fraction (s : string) : option (Z * string) :=
  match s with
  | String p (String d _ as r) =>
      if Ascii.eqb p "." && is_digit d then
        let '(digits, rest) := span_digits r in ns ← nanoseconds digits; Some (ns, rest)
      else Some (0%Z, s)
  | _ => Some (0%Z, s)
  end.

(** The offset of the zone in seconds. *)
Definition zone_offset (s : string) : option Z :=
  if String.eqb s "Z" then Some 0%Z
  else if negb (String.length s =? 6) then None
  else match s with
       | String sg r =>
           '(hr, r) ← take_uint 2 0 23 r;
           r ← expect ":" r;
           '(mm, _) ← take_uint 2 0 59 r;
           let off := ((hr * 60 + mm) * 60)%Z in
           if Ascii.eqb sg "-" then Some (- off)%Z else if Ascii.eqb sg "+" then Some off else None
       | "" => None
       end.

(** [parseRFC3339]: the time in UTC. *)
Definition parse_rfc3339 (s : string) : option Time :=
  if String.length s <? 19 then None else
  '(year, s) ← take_uint 4 0 9999 s; s ← expect "-" s;
  '(month, s) ← take_uint 2 1 12 s; s ← expect "-" s;
  '(day, s) ← take_uint 2 1 (daysIn month year) s; s ← expect "T" s;
  '(hour, s) ← take_uint 2 0 23 s; s ← expect ":" s;
  '(minute, s) ← take_uint 2 0 59 s; s ← expect ":" s;
  '(sec, s) ← take_uint 2 0 59 s;
  '(nsec, s) ← take_fraction s;
  off ← zone_offset s;
  Some ((days_from_civil year month day * 86400 + hour * 3600 + minute * 60 + sec - off) * Second + nsec)%Z.

(** [time.Parse] with the layout of RFC 3339, which reads what the first parser does not: an hour of one digit, a
    comma before the fraction, offsets of 24 hours and 60 minutes. [getnum] takes one or two digits. *)
Definition getnum (fixed : bool) (s : string) : option (Z * string) :=
  match s with
  | String a r =>
      if negb (is_digit a) then None
      else match r with
           | String b r' =>
               if is_digit b then v ← parse_digits 10 (String a (str1 b)) 0; Some (v, r')
               else if fixed then None else v ← parse_digits 10 (str1 a) 0; Some (v, r)
           | "" => if fixed then None else v ← parse_digits 10 (str1 a) 0; Some (v, r)
           end
  | "" => None
  end.
Definition within (lo hi : Z) (v : Z * string) : option (Z * string) :=
  if ((lo <=? fst v) && (fst v <=? hi))%Z then Some v else None.
Definition layout_fraction (s : string) : option (Z * string) :=
  match s with
  | String p (String d _ as r) =>
      if (Ascii.eqb p "." || Ascii.eqb p ",") && is_digit d then
        let '(digits, rest) := span_digits r in ns ← nanoseconds digits; Some (ns, rest)
      else Some (0%Z, s)
  | _ => Some (0%Z, s)
  end.
Definition layout_zone (s : string) : option (Z * string) :=
  match s with
  | String sg r =>
      if Ascii.eqb sg "Z" then Some (0%Z, r)
      else '(hr, r) ← getnum true r ≫= within 0 24; r ← expect ":" r; '(mm, r) ← getnum true r ≫= within 0 60;
           let off := ((hr * 60 + mm) * 60)%Z in
           if Ascii.eqb sg "-" then Some ((- off)%Z, r) else if Ascii.eqb sg "+" then Some (off, r) else None
  | "" => None
  end.
Definition parse_layout (s : string) : option Time :=
  '(year, s) ← take_uint 4 0 9999 s; s ← expect "-" s;
  '(month, s) ← getnum true s ≫= within 1 12; s ← expect "-" s;
  '(day, s) ← getnum true s; s ← expect "T" s;
  '(hour, s) ← getnum false s ≫= within 0 23; s ← expect ":" s;
  '(minute, s) ← getnum true s ≫= within 0 59; s ← expect ":" s;
  '(sec, s) ← getnum true s ≫= within 0 59;
  '(nsec, s) ← layout_fraction s;
  '(off, s) ← layout_zone s;
  if negb (String.eqb s "") || negb ((1 <=? day) && (day <=? daysIn month year))%Z then None
  else Some ((days_from_civil year month day * 86400 + hour * 3600 + minute * 60 + sec - off) * Second + nsec)%Z.

(** [Time.UnmarshalJSON], on the text between the quotes as it was written: null leaves the time alone. *)
Definition decode_time (v : json) (t : Time) : result Time :=
  match v with
  | JNull => Ok t
  | JStr raw =>
      match parse_rfc3339 raw with
      | Some t => Ok t
      | None => option_or_err (parse_layout raw) (EText "parsing time")
      end
  | _ => Err (EText "Time.UnmarshalJSON: input is not a JSON string")
  end.

Example one_digit_hour : decode_time (JStr "2024-02-29T1:02:03,5+24:60") 0%Z = decode_time (JStr "2024-02-28T00:02:03.5Z") 0%Z.
Proof. vm_compute. reflexivity. Qed.
Example no_such_day : is_ok (decode_time (JStr "2023-02-29T01:02:03Z") 0%Z) = false.
Proof. vm_compute. reflexivity. Qed.

(** ** Padded numbers *)

Lemma parse_digits_app a b acc : parse_digits 10 (a +:+ b) acc = parse_digits 10 a acc ≫= parse_digits 10 b.
Proof.
  revert acc. induction a as [|c a IH]; intros acc; [done|]. cbn [String.append parse_digits].
  destruct (digit_val c) as [d|]; [|done]. destruct (d <? 10)%Z; [apply IH|done].
Qed.

Lemma digits_length fuel n m acc : (n < 2 ^ N.of_nat fuel)%N -> 0 < fuel -> (n < 10 ^ N.of_nat (S m))%N ->
  String.length (digits_of_pos_nat fuel n acc) <= S m + String.length acc.
Proof.
  revert n m acc. induction fuel as [|fuel IH]; intros n m acc Hl Hf Hn; [lia|]. cbn [digits_of_pos_nat].
  destruct (N.ltb_spec n 10) as [H10|H10]; [simpl; lia|]. pose proof (log2_step fuel n H10 Hl) as Hl'.
  destruct m as [|m]; [change (10 ^ N.of_nat 1)%N with 10%N in Hn; lia|].
  rewrite (IH (n / 10)%N m); [simpl; lia|done|destruct fuel; [simpl in Hl; lia|lia]|].
  rewrite Nat2N.inj_succ, N.pow_succ_r' in Hn. by apply N.Div0.div_lt_upper_bound.
Qed.

Lemma Itoa_digits z m : (0 <= z < 10 ^ Z.of_nat (S m))%Z ->
  String.length (Itoa z) <= S m /\ str_forall is_digit (Itoa z) = true /\ parse_digits 10 (Itoa z) 0 = Some z.
Proof.
  intros Hz. unfold Itoa. rewrite (proj2 (Z.ltb_ge z 0)) by lia. split_and!.
  - unfold N_to_dec. pose proof (digits_length _ (Z.to_N z) m "" (dec_fuel _) ltac:(lia)) as H. simpl in H |- *.
    rewrite Nat.add_0_r in H. apply H. apply N2Z.inj_lt. rewrite N2Z.inj_pow, Z2N.id, nat_N_Z by lia. by destruct Hz.
  - destruct (N_to_dec_shape (Z.to_N z)) as (c & s & -> & Hc & Hs & _). simpl. by rewrite Hc.
  - unfold N_to_dec. rewrite parse_digits_dec by (apply dec_fuel || lia). simpl. by rewrite Z2N.id by lia.
Qed.

Lemma pad_left_spec n s v : String.length s <= n -> str_forall is_digit s = true -> parse_digits 10 s 0 = Some v ->
  String.length (pad_left n s) = n /\ str_forall is_digit (pad_left n s) = true /\ parse_digits 10 (pad_left n s) 0 = Some v.
Proof.
  intros Hl Hd Hv. induction n as [|n IH]; cbn [pad_left]; [split_and!; try done; lia|].
  destruct (Nat.leb_spec (String.length s) n) as [Hle|Hgt]; [|split_and!; try done; lia].
  destruct (IH Hle) as (H1 & H2 & H3). split_and!; [by simpl; rewrite H1|done|done].
Qed.

Lemma pad_spec n z : (0 <= z < 10 ^ Z.of_nat (S n))%Z ->
  String.length (pad (S n) z) = S n /\ str_forall is_digit (pad (S n) z) = true /\
  parse_digits 10 (pad (S n) z) 0 = Some z.
Proof. intros Hz. destruct (Itoa_digits z n Hz) as (H1 & H2 & H3). by apply pad_left_spec. Qed.

Lemma take_pad n z lo hi r : (0 <= z < 10 ^ Z.of_nat (S n))%Z -> (lo <= z <= hi)%Z ->
  take_uint (S n) lo hi (pad (S n) z +:+ r) = Some (z, r).
Proof.
  intros Hz Hr. destruct (pad_spec n z Hz) as (H1 & _ & H3). unfold take_uint. rewrite length_app_str, H1.
  rewrite (proj2 (Nat.ltb_ge _ _)) by lia. rewrite str_take_app, str_drop_app, H3 by done. cbn [mbind option_bind].
  by rewrite (proj2 (Z.leb_le lo z)), (proj2 (Z.leb_le z hi)) by lia.
Qed.

(** ** Fractions *)

Fixpoint zeros (k : nat) : string := match k with O => "" | S k' => String "0" (zeros k') end.

Lemma zeros_snoc k : zeros k +:+ "0" = zeros (S k).
Proof. induction k as [|k IH]; [done|]. cbn [zeros String.append]. by rewrite IH. Qed.
Lemma srev_zeros k : srev (zeros k) = zeros k.
Proof. induction k as [|k IH]; [done|]. cbn [zeros]. rewrite srev_cons, IH. apply zeros_snoc. Qed.
Lemma trim_zeros_spec s : exists k, s = zeros k +:+ trim_zeros s.
Proof.
  induction s as [|c s [k IH]]; [by exists 0|]. cbn [trim_zeros]. destruct (Ascii.eqb_spec c "0") as [->|].
  - exists (S k). cbn [zeros String.append]. by rewrite <- IH.
  - by exists 0.
Qed.
Lemma trim_back s : exists k, srev (trim_zeros (srev s)) +:+ zeros k = s.
Proof.
  destruct (trim_zeros_spec (srev s)) as [k Hk]. exists k. apply (f_equal srev) in Hk.
  rewrite srev_involutive, srev_app, srev_zeros in Hk. by symmetry.
Qed.

Lemma parse_zeros k acc : parse_digits 10 (zeros k) acc = Some (acc * 10 ^ Z.of_nat k)%Z.
Proof.
  revert acc. induction k as [|k IH]; intros acc; [simpl; f_equal; lia|]. cbn [zeros parse_digits].
  change (digit_val "0") with (Some 0%Z). cbn iota. change (0 <? 10)%Z with true. cbn iota. rewrite IH. f_equal.
  rewrite Nat2Z.inj_succ, Z.pow_succ_r by lia. lia.
Qed.

Lemma length_zeros k : String.length (zeros k) = k.
Proof. induction k as [|k IH]; [done|]. cbn [zeros String.length]. by rewrite IH. Qed.

Lemma str_take_all n s : String.length s <= n -> str_take n s = s.
Proof. revert n. induction s as [|c s IH]; intros [|n] H; simpl in *; try done; [lia|]. rewrite IH; [done|lia]. Qed.

Lemma str_forall_split p a b : str_forall p (a +:+ b) = str_forall p a && str_forall p b.
Proof. induction a as [|c a IH]; [done|]. simpl. by rewrite IH, andb_assoc. Qed.

Lemma take_fraction_back ns : (0 <= ns < Second)%Z -> take_fraction (fraction ns +:+ "Z") = Some (ns, "Z").
Proof.
  intros Hns. unfold fraction. destruct (Z.eqb_spec ns 0) as [->|Hne]; [done|].
  destruct (pad_spec 8 ns Hns) as (Hlen & Hdig & Hval). destruct (trim_back (pad 9 ns)) as [k Hk].
  set (ds := srev (trim_zeros (srev (pad 9 ns)))) in *. rewrite <- Hk in Hlen, Hdig, Hval.
  rewrite length_app_str, length_zeros in Hlen. rewrite str_forall_split in Hdig.
  apply andb_true_iff in Hdig as [Hdig _]. rewrite parse_digits_app in Hval.
  destruct (parse_digits 10 ds 0) as [v|] eqn:Ev; [|done]. cbn [mbind option_bind] in Hval.
  rewrite parse_zeros in Hval. injection Hval as Hval.
  destruct ds as [|d ds'] eqn:Eds; [injection Ev as <-; lia|].
  change (("." +:+ String d ds') +:+ "Z") with (String "." (String d (ds' +:+ "Z"))). cbn [take_fraction].
  assert (Hd : is_digit d = true) by (simpl in Hdig; by apply andb_true_iff in Hdig as [? _]). rewrite Hd.
  change (Ascii.eqb "." "." && true) with true. cbn iota.
  change (String d (ds' +:+ "Z")) with (String d ds' +:+ "Z").
  rewrite (span_digits_app _ _ _ "Z" (span_digits_all _ Hdig)) by (right; done). cbn [String.append].
  unfold nanoseconds. rewrite str_take_all by lia. rewrite Ev. cbn [mbind option_bind].
  replace (9 - String.length (String d ds')) with k by lia. by rewrite Hval.
Qed.

(** ** The round trip *)

Lemma expect_sep c s : expect c (String c "" +:+ s) = Some s.
Proof. cbn [expect String.append]. by rewrite Ascii.eqb_refl. Qed.

Definition year_of (t : Time) : Z := (civil_from_days (t / Second / 86400)).1.1.

(** A time whose year has four digits is read back from its text, to the nanosecond. *)
Lemma time_read_back : forall t, (0 <= year_of t <= 9999)%Z -> parse_rfc3339 (rfc3339nano t) = Some t.
Proof.
  intros t Hy. unfold rfc3339nano. unfold year_of in Hy. set (secs := (t / Second)%Z) in *.
  pose proof (civil_roundtrip (secs / 86400)) as Hc. destruct (civil_from_days (secs / 86400)) as [[y m] d].
  simpl in Hy. destruct Hc as (Hdays & Hm & Hd). set (x := (secs mod 86400)%Z).
  assert (Hx : (0 <= x < 86400)%Z) by (apply Z.mod_pos_bound; lia).
  assert (Hd31 : (d <= 31)%Z) by (revert Hd; unfold daysIn; repeat case_match; lia).
  assert (Hns : (0 <= t mod Second < Second)%Z) by (apply Z.mod_pos_bound; done).
  unfold parse_rfc3339.
  rewrite (proj2 (Nat.ltb_ge _ 19)).
  2: { rewrite !length_app_str. rewrite (proj1 (pad_spec 3 y ltac:(lia))), (proj1 (pad_spec 1 m ltac:(lia))),
         (proj1 (pad_spec 1 d ltac:(lia))), (proj1 (pad_spec 1 (x / 3600) ltac:(Z.to_euclidean_division_equations; lia))),
         (proj1 (pad_spec 1 (x / 60 mod 60) ltac:(Z.to_euclidean_division_equations; lia))),
         (proj1 (pad_spec 1 (x mod 60) ltac:(Z.to_euclidean_division_equations; lia))). simpl. lia. }
  assert (Hh : (0 <= x / 3600 <= 23)%Z) by (Z.to_euclidean_division_equations; lia).
  assert (Hmi : (0 <= x / 60 mod 60 <= 59)%Z) by (Z.to_euclidean_division_equations; lia).
  assert (Hs : (0 <= x mod 60 <= 59)%Z) by (Z.to_euclidean_division_equations; lia).
  rewrite (take_pad 3 y) by lia. cbn [mbind option_bind]. rewrite expect_sep. cbn [mbind option_bind].
  rewrite (take_pad 1 m) by lia. cbn [mbind option_bind]. rewrite expect_sep. cbn [mbind option_bind].
  rewrite (take_pad 1 d) by lia. cbn [mbind option_bind]. rewrite expect_sep. cbn [mbind option_bind].
  rewrite (take_pad 1 (x / 3600)) by lia. cbn [mbind option_bind]. rewrite expect_sep. cbn [mbind option_bind].
  rewrite (take_pad 1 (x / 60 mod 60)) by lia. cbn [mbind option_bind]. rewrite expect_sep. cbn [mbind option_bind].
  rewrite (take_pad 1 (x mod 60)) by lia. cbn [mbind option_bind].
  rewrite take_fraction_back by done. cbn [mbind option_bind].
  change (zone_offset "Z") with (Some 0%Z). cbn [mbind option_bind]. f_equal. rewrite Hdays.
  assert (Ex : (x / 3600 * 3600 + x / 60 mod 60 * 60 + x mod 60 = x)%Z) by (Z.to_euclidean_division_equations; lia).
  assert (Esecs : (secs / 86400 * 86400 + x = secs)%Z) by (unfold x; pose proof (Z.div_mod secs 86400); lia).
  assert (Et : (secs * Second + t mod Second = t)%Z) by (unfold secs; pose proof (Z.div_mod t Second ltac:(done)); lia).
  rewrite <- Et at 2. f_equal. f_equal. lia.
Qed.
