(* ===== verification/Paths.v ===== *)
(** * Joining paths

    [filepath.Join] of a directory that was itself joined: cleaning a path does not change what is appended to it. *)
From stdpp Require Import base strings list option.
From Stdlib Require Import Lia Ascii.
From S2P Require Import Prelude GoStrings.

Lemma Split_app a b : Split (a +:+ String slash b) slash = Split a slash ++ Split b slash.
Proof.
  induction a as [|c a IH]; [done|]. cbn [String.append Split]. rewrite IH. case_decide; [done|].
  pose proof (Split_not_nil a slash) as Hn. by destruct (Split a slash).
Qed.

Lemma Split_piece w : occurs slash w = false -> Split w slash = [w].
Proof.
  induction w as [|c w IH]; [done|]. cbn [occurs Split]. intros H. case_decide; [by rewrite bool_decide_eq_true_2 in H|].
  rewrite bool_decide_eq_false_2 in H by done. by rewrite IH.
Qed.

Lemma Split_Join l : l <> [] -> Forall (fun w => occurs slash w = false) l -> Split (Join l "/") slash = l.
Proof.
  intros Hne Hl. induction Hl as [|w l Hw Hl IH]; [done|]. destruct l as [|w' l]; [by apply Split_piece|].
  change (Join (w :: w' :: l) "/") with (w +:+ String slash (Join (w' :: l) "/")).
  by rewrite Split_app, Split_piece, IH by done.
Qed.

(** The stacks that cleaning builds: plain elements, above parent directories in a relative path. *)
Inductive clean_stack (rooted : bool) : list string -> Prop :=
| cs_nil : clean_stack rooted []
| cs_up st : rooted = false -> clean_stack rooted st -> Forall (eq "..") st -> clean_stack rooted (".." :: st)
| cs_plain e st : e <> "" -> e <> "." -> e <> ".." -> occurs slash e = false -> clean_stack rooted st ->
    clean_stack rooted (e :: st).

Lemma clean_plain rooted st e : e <> "" -> e <> "." -> e <> ".." -> clean_step rooted st e = e :: st.
Proof.
  intros H1 H2 H3. unfold clean_step. destruct e as [|c1 e]; [done|].
  destruct (ascii_dec c1 ".") as [->|Hc1].
  - destruct e as [|c2 e]; [done|]. destruct (ascii_dec c2 ".") as [->|Hc2]; [by destruct e|].
    destruct c2 as [[] [] [] [] [] [] [] []]; done.
  - destruct c1 as [[] [] [] [] [] [] [] []]; done.
Qed.

Lemma clean_up rooted st : Forall (eq "..") st -> rooted = false -> clean_step rooted st ".." = ".." :: st.
Proof. intros [|e l <- Hl] ->; done. Qed.

Lemma clean_step_stack rooted st e : occurs slash e = false -> clean_stack rooted st ->
  clean_stack rooted (clean_step rooted st e).
Proof.
  intros He Hst. destruct (decide (e = "")) as [->|H1]; [done|]. destruct (decide (e = ".")) as [->|H2]; [done|].
  destruct (decide (e = "..")) as [->|H3]; [|rewrite clean_plain by done; by apply cs_plain].
  destruct Hst as [|st Hr Hst Hall|e' st H1' H2' H3' H4' Hst].
  - simpl. destruct rooted; [apply cs_nil|]. by apply cs_up; [|apply cs_nil|].
  - rewrite clean_up by (by constructor || done). apply cs_up; [done|by apply cs_up|by constructor].
  - assert (E : clean_step rooted (e' :: st) ".." = st); [|by rewrite E]. simpl.
    destruct e' as [|c1 e']; [done|].
    destruct (ascii_dec c1 ".") as [->|Hc1]; [|destruct c1 as [[] [] [] [] [] [] [] []]; done].
    destruct e' as [|c2 e']; [done|].
    destruct (ascii_dec c2 ".") as [->|Hc2]; [by destruct e'|destruct c2 as [[] [] [] [] [] [] [] []]; done].
Qed.

Lemma clean_fold_stack rooted l st : Forall (fun w => occurs slash w = false) l -> clean_stack rooted st ->
  clean_stack rooted (fold_left (clean_step rooted) l st).
Proof. intros Hl. revert st. induction Hl as [|w l Hw Hl IH]; intros st Hst; [done|]. by apply IH, clean_step_stack. Qed.

(** Cleaning the elements it kept gives them back. *)
Lemma clean_again rooted st : clean_stack rooted st -> fold_left (clean_step rooted) (rev st) [] = st.
Proof.
  induction 1 as [|st Hr Hst IH Hall|e st H1 H2 H3 H4 Hst IH]; [done| |]; cbn [rev]; rewrite fold_left_app, IH.
  - by apply clean_up.
  - by apply clean_plain.
Qed.

Lemma clean_stack_pieces rooted st : clean_stack rooted st -> Forall (fun w => occurs slash w = false /\ w <> "") st.
Proof. induction 1; constructor; done. Qed.

(** ** What cleaning keeps *)

Definition rooted (p : string) : bool := match p with String c _ => bool_decide (c = slash) | "" => false end.
Definition kept (r : bool) (p : string) : list string := fold_left (clean_step r) (Split p slash) [].
Definition render (r : bool) (st : list string) : string :=
  if r then "/" +:+ Join (rev st) "/" else match rev st with [] => "." | _ => Join (rev st) "/" end.

Lemma Clean_render p : p <> "" -> Clean p = render (rooted p) (kept (rooted p) p).
Proof. destruct p as [|c p]; [done|]. intros _. reflexivity. Qed.

Lemma split_pieces p : Forall (fun w => occurs slash w = false) (Split p slash).
Proof. apply Forall_forall. intros w Hw. by apply (Split_no_sep p). Qed.

Lemma kept_stack r p : clean_stack r (kept r p).
Proof. apply clean_fold_stack; [apply split_pieces|constructor]. Qed.

Lemma kept_app r p q : kept r (p +:+ String slash q) = fold_left (clean_step r) (Split q slash) (kept r p).
Proof. unfold kept. by rewrite Split_app, fold_left_app. Qed.

Lemma rooted_app p q : p <> "" -> rooted (p +:+ q) = rooted p.
Proof. by destruct p. Qed.

(** The text of a stack is cleaned to the same stack. *)
Lemma render_kept r st : clean_stack r st -> render r st <> "" /\ rooted (render r st) = r /\ kept r (render r st) = st.
Proof.
  intros Hst. pose proof (clean_stack_pieces r st Hst) as Hp. apply Forall_rev in Hp.
  assert (Hk : rev st <> [] -> kept r (Join (rev st) "/") = st).
  { intros Hne. unfold kept. rewrite Split_Join; [by apply clean_again|done|].
    eapply List.Forall_impl; [|exact Hp]. by intros x [? _]. }
  unfold render. destruct r.
  - split; [done|]. split; [done|]. destruct (rev st) as [|e l] eqn:E; [|by apply Hk].
    apply (f_equal (@rev string)) in E. rewrite rev_involutive in E. by subst st.
  - destruct (rev st) as [|e l] eqn:E.
    + apply (f_equal (@rev string)) in E. rewrite rev_involutive in E. by subst st.
    + assert (He : e <> "" /\ occurs slash e = false) by (apply Forall_cons_1 in Hp as [[? ?] _]; done).
      destruct He as [He Ho]. destruct e as [|c e]; [done|]. cbn [occurs] in Ho. apply orb_false_iff in Ho as [Ho _].
      split; [by destruct l|]. split; [by destruct l|by apply Hk].
Qed.

Lemma Clean_kept p : p <> "" -> Clean p <> "" /\ rooted (Clean p) = rooted p /\ kept (rooted p) (Clean p) = kept (rooted p) p.
Proof. intros Hp. rewrite Clean_render by done. apply render_kept, kept_stack. Qed.

Lemma Clean_Clean p : p <> "" -> Clean (Clean p) = Clean p.
Proof.
  intros Hp. destruct (Clean_kept p Hp) as (H1 & H2 & H3). rewrite (Clean_render (Clean p)) by done.
  by rewrite H2, H3, <- Clean_render.
Qed.

Lemma Clean_append p q : p <> "" -> Clean (Clean p +:+ String slash q) = Clean (p +:+ String slash q).
Proof.
  intros Hp. destruct (Clean_kept p Hp) as (H1 & H2 & H3).
  rewrite (Clean_render (Clean p +:+ _)) by (by destruct (Clean p)).
  rewrite (Clean_render (p +:+ _)) by (by destruct p).
  rewrite !rooted_app, H2, !kept_app, H3; done.
Qed.

Lemma Join_app l l' : l <> [] -> l' <> [] -> Join (l ++ l') "/" = Join l "/" +:+ String slash (Join l' "/").
Proof.
  intros Hl Hl'. induction l as [|x l IH]; [done|]. destruct l as [|y l]; [by destruct l'|].
  change (Join ((x :: y :: l) ++ l') "/") with (x +:+ "/" +:+ Join ((y :: l) ++ l') "/").
  change (Join (x :: y :: l) "/") with (x +:+ "/" +:+ Join (y :: l) "/"). by rewrite IH, !app_str_assoc.
Qed.

(** Joining to a path that was itself joined. *)
Lemma filepath_Join_nested l l' : filepath_Join (filepath_Join l :: l') = filepath_Join (l ++ l').
Proof.
  unfold filepath_Join. rewrite List.filter_app. destruct (List.filter _ l) as [|x m] eqn:E; [done|].
  set (p := Join (x :: m) "/"). assert (Hp : p <> "").
  { assert (Hx : In x (x :: m)) by (by left). rewrite <- E in Hx. apply List.filter_In in Hx as [_ Hx].
    unfold p. destruct x as [|c x]; [done|]. by destruct m. }
  destruct (Clean_kept p Hp) as (Hc & _). cbn [List.filter].
  rewrite (proj2 (String.eqb_neq _ "")) by done. cbn [negb]. cbn iota.
  destruct (List.filter _ l') as [|y m'] eqn:E'.
  - rewrite app_nil_r. by apply Clean_Clean.
  - cbn [app]. change (x :: m ++ y :: m') with ((x :: m) ++ y :: m'). rewrite Join_app by done. fold p.
    change (Join (Clean p :: y :: m') "/") with (Clean p +:+ String slash (Join (y :: m') "/")).
    by apply Clean_append.
Qed.
