(* ===== verification/Config.v ===== *)
(** * Service configuration

    [service/config/config.go], [glob/glob.go] and the configuration records of the inspectors:
    the access control rules and the inspectors configuration, how they are loaded, overridden and
    updated at run time. YAML decoding is a library: its typed result is a parameter. *)
From stdpp Require Import base gmap strings list option fin_maps.
From Stdlib Require Import ZArith Lia Ascii.
From S2P Require Import Prelude GoStrings GoCodec Platform Net.

(** ** Access control *)

Inductive ACLPolicy : Set := Allow | Deny | OtherPolicy (n : Z).

#[export] Instance ACLPolicy_eq_dec : EqDecision ACLPolicy.
Proof. solve_decision. Defined.

Definition aclConfigFile : string := "acl.yaml".
Definition inspectorsConfigFile : string := "inspectors.yaml".

Definition ACLPolicy_MarshalYAML (t : ACLPolicy) : result string :=
  match t with
  | Allow => Ok "allow"
  | Deny => Ok "deny"
  | OtherPolicy _ => Err (EText "invalid ACL policy")
  end.

(** [unmarshal] is the scalar the YAML decoder found, or its error; the receiver [t] keeps its value
    on an error. *)
Definition ACLPolicy_UnmarshalYAML (t : ACLPolicy) (unmarshal : result string) :
    ACLPolicy * option error :=
  match unmarshal with
  | Err e => (t, Some e)
  | Ok s =>
      if String.eqb s "allow" || String.eqb s (String dquote ("allow" +:+ str1 dquote))
      then (Allow, None)
      else if String.eqb s "deny" || String.eqb s (String dquote ("deny" +:+ str1 dquote))
      then (Deny, None)
      else (t, Some (EText "invalid ACL policy"))
  end.

Definition ACLPolicy_String (t : ACLPolicy) : string :=
  match t with Allow => "allow" | Deny => "deny" | OtherPolicy _ => "" end.

(** A bare address is a network of one host. *)
Definition IPNet_UnmarshalYAML (t : net_IPNet) (unmarshal : result string) :
    net_IPNet * option error :=
  match unmarshal with
  | Err e => (t, Some e)
  | Ok s =>
      let s := if Contains s "." && negb (Contains s "/") then s +:+ "/32"
               else if Contains s ":" && negb (Contains s "/") then s +:+ "/128"
               else s in
      match ParseCIDR s with
      | Err e => (t, Some e)
      | Ok ipnet => (ipnet, None)
      end
  end.

Record Rule := mkRule { Dst : list net_IPNet; Access : ACLPolicy }.
Record HTTPProxyConfig := mkHTTPProxyConfig { acl_Policy : ACLPolicy; Rules : list Rule }.
Record ACLConfig := mkACLConfig { HTTPProxy : HTTPProxyConfig }.

#[export] Instance Rule_eq_dec : EqDecision Rule.
Proof. solve_decision. Defined.
#[export] Instance HTTPProxyConfig_eq_dec : EqDecision HTTPProxyConfig.
Proof. solve_decision. Defined.

(** ** Inspectors configuration *)

Section Config.
Context `{GL : GlobLib}.

(** A [glob.Glob] holds a pointer to a compiled pattern, nil when nothing was decoded into it. *)
Definition Glob : Type := option Pattern.

(** [MustCompile], when it does not panic. *)
Definition Glob_MustCompile (pattern : string) : option Glob :=
  match glob_Compile pattern with Ok g => Some (Some g) | Err _ => None end.

(** [UnmarshalYAML] and [UnmarshalJSON]: both compile the decoded string. *)
Definition Glob_Unmarshal (t : Glob) (unmarshal : result string) : Glob * option error :=
  match unmarshal with
  | Err e => (t, Some e)
  | Ok s => match glob_Compile s with
            | Err e => (t, Some e)
            | Ok g => (Some g, None)
            end
  end.

(** [None] is the panic of a call through a nil pointer. *)
Definition Glob_Match (t : Glob) (s : string) : option bool :=
  match t with Some p => Some (glob_Match p s) | None => None end.

Record AptInspectorConfigRepository := mkAptRepository {
  apt_URLs : list Glob;
  Suites : list Glob;
  Components : list Glob;
  PublicKey : string;
  BaseURLAlias : string;
}.
Record AptInspectorConfig := mkAptInspectorConfig {
  Repositories : gmap string AptInspectorConfigRepository }.
Record GitInspectorConfig := mkGitInspectorConfig { git_URLs : list Glob }.
Record CraftsInspectorConfig := mkCraftsInspectorConfig { crafts_URLs : list Glob }.
Record ChiselInspectorConfig := mkChiselInspectorConfig { chisel_URLs : list Glob }.
Record StoreInspectorConfig := mkStoreInspectorConfig { store_URLs : list Glob }.
Record BldBinInspectorConfig := mkBldBinInspectorConfig { bldbin_URLs : list Glob }.
Record AssertionFilter := mkAssertionFilter { af_Name : string; af_Value : list string }.
Record SnapInspectorConfig := mkSnapInspectorConfig {
  SnapDeclarationFilter : list AssertionFilter }.

Record InspectorsConfig := mkInspectorsConfig {
  Apt : AptInspectorConfig;
  Git : GitInspectorConfig;
  Crafts : CraftsInspectorConfig;
  Chisel : ChiselInspectorConfig;
  Snap : SnapInspectorConfig;
  Store : StoreInspectorConfig;
  BldBin : BldBinInspectorConfig;
}.

Record OverrideInspectorsConfig := mkOverride {
  o_Apt : option AptInspectorConfig;
  o_Git : option GitInspectorConfig;
  o_Crafts : option CraftsInspectorConfig;
  o_Chisel : option ChiselInspectorConfig;
  o_Snap : option SnapInspectorConfig;
  o_Store : option StoreInspectorConfig;
  o_BldBin : option BldBinInspectorConfig;
}.
Definition empty_override : OverrideInspectorsConfig :=
  mkOverride None None None None None None None.
Definition empty_inspectors_config : InspectorsConfig :=
  mkInspectorsConfig (mkAptInspectorConfig ∅) (mkGitInspectorConfig []) (mkCraftsInspectorConfig [])
    (mkChiselInspectorConfig []) (mkSnapInspectorConfig []) (mkStoreInspectorConfig [])
    (mkBldBinInspectorConfig []).

(** The package-level variables; every access holds the lock of its variable. *)
Record ConfigState := mkConfigState {
  globalACLConfig : ACLConfig;
  globalInspectorsConfig : InspectorsConfig;
}.

Definition GetHTTPProxyConfig (cs : ConfigState) : HTTPProxyConfig :=
  let p := HTTPProxy (globalACLConfig cs) in mkHTTPProxyConfig (acl_Policy p) (Rules p).

Definition SetHTTPProxyConfig (cfg : HTTPProxyConfig) (cs : ConfigState) : ConfigState :=
  mkConfigState (mkACLConfig (mkHTTPProxyConfig (acl_Policy cfg) (Rules cfg)))
    (globalInspectorsConfig cs).

Definition copy_repository (v : AptInspectorConfigRepository) : AptInspectorConfigRepository :=
  mkAptRepository (apt_URLs v) (Suites v) (Components v) (PublicKey v) (BaseURLAlias v).
Definition copy_filter (v : AssertionFilter) : AssertionFilter :=
  mkAssertionFilter (af_Name v) (af_Value v).

(** A copy: the caller may change it without changing the global configuration. *)
Definition GetInspectorsConfig (cs : ConfigState) : InspectorsConfig :=
  let g := globalInspectorsConfig cs in
  mkInspectorsConfig
    (mkAptInspectorConfig (copy_repository <$> Repositories (Apt g)))
    (mkGitInspectorConfig (git_URLs (Git g)))
    (mkCraftsInspectorConfig (crafts_URLs (Crafts g)))
    (mkChiselInspectorConfig (chisel_URLs (Chisel g)))
    (mkSnapInspectorConfig (copy_filter <$> SnapDeclarationFilter (Snap g)))
    (mkStoreInspectorConfig (store_URLs (Store g)))
    (mkBldBinInspectorConfig (bldbin_URLs (BldBin g))).

Definition SetInspectorsConfig (cfg : InspectorsConfig) (cs : ConfigState) : ConfigState :=
  mkConfigState (globalACLConfig cs) cfg.

(** Configurations are replaced on a per-inspector basis. *)
Definition Combine (i : InspectorsConfig) (c : OverrideInspectorsConfig) : InspectorsConfig :=
  mkInspectorsConfig
    (match o_Apt c with
     | Some a => mkAptInspectorConfig (copy_repository <$> Repositories a)
     | None => Apt i
     end)
    (match o_Git c with Some g => mkGitInspectorConfig (git_URLs g) | None => Git i end)
    (match o_Crafts c with Some g => mkCraftsInspectorConfig (crafts_URLs g) | None => Crafts i end)
    (match o_Chisel c with Some g => mkChiselInspectorConfig (chisel_URLs g) | None => Chisel i end)
    (match o_Snap c with
     | Some g => mkSnapInspectorConfig (SnapDeclarationFilter g)
     | None => Snap i
     end)
    (match o_Store c with Some g => mkStoreInspectorConfig (store_URLs g) | None => Store i end)
    (match o_BldBin c with Some g => mkBldBinInspectorConfig (bldbin_URLs g) | None => BldBin i end).

(** ** Loading and updating *)

(** [gopkg.in/yaml.v3] applied to each configuration type. *)
Class YamlLib := {
  yaml_acl : string -> result ACLConfig;
  yaml_inspectors : string -> result InspectorsConfig;
  yaml_override : string -> result OverrideInspectorsConfig;
}.
Context `{OS : Os} `{Y : YamlLib}.

Definition decodeHTTPProxyRules (r : string) : result ACLConfig := yaml_acl r.
Definition decodeInspectorsConfig (r : string) : result InspectorsConfig := yaml_inspectors r.
Definition decodeOverrideInspectorsConfig (r : string) : result OverrideInspectorsConfig :=
  yaml_override r.

(** Checks that the file exists, reads it and decodes it. *)
Definition load_file {A} (decode : string -> result A) (fs : FS) (cfgfile : string) : result A :=
  match os_Stat fs cfgfile with
  | Err e => Err e
  | Ok _ =>
      match os_ReadFile fs cfgfile with
      | Err e => Err e
      | Ok data => decode data
      end
  end.

Definition LoadHTTPProxyRules (fs : FS) (cfgdir : string) (cs : ConfigState) :
    ConfigState * option error :=
  match load_file decodeHTTPProxyRules fs (filepath_Join [cfgdir; aclConfigFile]) with
  | Err e => (cs, Some e)
  | Ok cfg => (SetHTTPProxyConfig (HTTPProxy cfg) cs, None)
  end.

Definition LoadInspectorsConfig (fs : FS) (cfgdir : string) (cs : ConfigState) :
    ConfigState * option error :=
  match load_file decodeInspectorsConfig fs (filepath_Join [cfgdir; inspectorsConfigFile]) with
  | Err e => (cs, Some e)
  | Ok cfg => (SetInspectorsConfig cfg cs, None)
  end.

Definition LoadOverrideInspectorsConfig (fs : FS) (cfgdir : string) (cs : ConfigState) :
    ConfigState * option error :=
  match load_file decodeOverrideInspectorsConfig fs
          (filepath_Join [cfgdir; inspectorsConfigFile]) with
  | Err e => (cs, Some e)
  | Ok override => (SetInspectorsConfig (Combine (GetInspectorsConfig cs) override) cs, None)
  end.

(** Writes a new file and renames it over the old one. A failure to write the new file is not
    reported. *)
Definition updateConfigFile (fs : FS) (cfgdir filename payload : string) : FS * option error :=
  match os_MkdirAll fs cfgdir with
  | (fs, Some e) => (fs, Some e)
  | (fs, None) =>
      let cfgfile := filepath_Join [cfgdir; filename] in
      let tmpfile := cfgfile +:+ ".new" in
      match os_WriteFile fs tmpfile payload with
      | (fs, Some _) => (fs, None)
      | (fs, None) => os_Rename fs tmpfile cfgfile
      end
  end.

Definition UpdateConfig (optype : string) (dryRun : bool) (payload cfgdir : string)
    (cs : ConfigState) (fs : FS) : ConfigState * FS * option error :=
  if String.eqb optype "acl" then
    match decodeHTTPProxyRules payload with
    | Err e => (cs, fs, Some e)
    | Ok cfg =>
        if negb dryRun then
          let cs := SetHTTPProxyConfig (HTTPProxy cfg) cs in
          let '(fs, e) := updateConfigFile fs cfgdir aclConfigFile payload in (cs, fs, e)
        else (cs, fs, None)
    end
  else if String.eqb optype "inspectors" then
    match decodeInspectorsConfig payload with
    | Err e => (cs, fs, Some e)
    | Ok cfg =>
        if negb dryRun then
          let cs := SetInspectorsConfig cfg cs in
          let '(fs, e) := updateConfigFile fs cfgdir inspectorsConfigFile payload in (cs, fs, e)
        else (cs, fs, None)
    end
  else (cs, fs, None).

(** ** Lemmas *)

Lemma copy_repository_id v : copy_repository v = v.
Proof. by destruct v. Qed.
Lemma copy_filter_id v : copy_filter v = v.
Proof. by destruct v. Qed.

Lemma GetInspectorsConfig_eq cs : GetInspectorsConfig cs = globalInspectorsConfig cs.
Proof.
  unfold GetInspectorsConfig. destruct (globalInspectorsConfig cs) as [[r] [] [] [] [l] [] []].
  cbn. f_equal.
  - f_equal. rewrite <- (map_fmap_id r) at 2. apply map_fmap_ext. intros. apply copy_repository_id.
  - f_equal. rewrite <- (list_fmap_id l) at 2. apply list_fmap_ext. intros. apply copy_filter_id.
Qed.

Lemma Combine_fields i c :
  Combine i c = mkInspectorsConfig
    (default (Apt i) (o_Apt c)) (default (Git i) (o_Git c)) (default (Crafts i) (o_Crafts c))
    (default (Chisel i) (o_Chisel c)) (default (Snap i) (o_Snap c))
    (default (Store i) (o_Store c)) (default (BldBin i) (o_BldBin c)).
Proof.
  unfold Combine. destruct c as [oa og oc och os ost ob]. cbn.
  f_equal; first [destruct oa as [[r]|]; cbn; [|done]; f_equal;
                    rewrite <- (map_fmap_id r) at 2; apply map_fmap_ext;
                    intros; apply copy_repository_id
                 | by repeat case_match; destruct_or?; repeat match goal with
                     x : GitInspectorConfig |- _ => destruct x
                   | x : CraftsInspectorConfig |- _ => destruct x
                   | x : ChiselInspectorConfig |- _ => destruct x
                   | x : SnapInspectorConfig |- _ => destruct x
                   | x : StoreInspectorConfig |- _ => destruct x
                   | x : BldBinInspectorConfig |- _ => destruct x end].
Qed.

(** The file written in place of the configuration file. *)
Lemma updateConfigFile_ok `{OL : !OsLaws} fs fs1 fs2 cfgdir filename payload fs' :
  os_MkdirAll fs cfgdir = (fs1, None) ->
  os_WriteFile fs1 (filepath_Join [cfgdir; filename] +:+ ".new") payload = (fs2, None) ->
  updateConfigFile fs cfgdir filename payload = (fs', None) ->
  os_ReadFile fs' (filepath_Join [cfgdir; filename]) = Ok payload.
Proof.
  unfold updateConfigFile. intros H1 H2. rewrite H1, H2. intros H.
  eapply os_Rename_read; [exact H|]. eapply os_WriteFile_read; exact H2.
Qed.

(** The payload decodes as a configuration of its type; other types are not checked. *)
Definition payload_error (optype payload : string) : option error :=
  if String.eqb optype "acl" then
    match yaml_acl payload with Err e => Some e | Ok _ => None end
  else if String.eqb optype "inspectors" then
    match yaml_inspectors payload with Err e => Some e | Ok _ => None end
  else None.

(** The configuration in memory after a valid update. *)
Definition updated (optype payload : string) (cs : ConfigState) : ConfigState :=
  if String.eqb optype "acl" then
    match yaml_acl payload with Ok cfg => SetHTTPProxyConfig (HTTPProxy cfg) cs | Err _ => cs end
  else if String.eqb optype "inspectors" then
    match yaml_inspectors payload with Ok cfg => SetInspectorsConfig cfg cs | Err _ => cs end
  else cs.

Definition config_filename (optype : string) : string :=
  if String.eqb optype "acl" then aclConfigFile else inspectorsConfigFile.

(** ** Properties *)

(** C36: A configuration update with an invalid payload is refused and changes neither the
    configuration in memory nor any file; a dry run of a valid one reports success and changes
    nothing either; otherwise the configuration in memory of that type is replaced, and when
    the directory can be made and the new file written, a successful update leaves the payload in
    the configuration file. *)
Theorem UpdateConfig_spec `{OL : !OsLaws} : forall optype dryRun payload cfgdir cs fs cs' fs' e,
  UpdateConfig optype dryRun payload cfgdir cs fs = (cs', fs', e) ->
  (payload_error optype payload <> None ->
     cs' = cs /\ fs' = fs /\ e = payload_error optype payload) /\
  (payload_error optype payload = None -> dryRun = true -> cs' = cs /\ fs' = fs /\ e = None) /\
  (payload_error optype payload = None -> dryRun = false -> cs' = updated optype payload cs) /\
  (forall fs1 fs2, payload_error optype payload = None -> dryRun = false ->
     In optype ["acl"; "inspectors"] -> e = None ->
     os_MkdirAll fs cfgdir = (fs1, None) ->
     os_WriteFile fs1 (filepath_Join [cfgdir; config_filename optype] +:+ ".new") payload
       = (fs2, None) ->
     os_ReadFile fs' (filepath_Join [cfgdir; config_filename optype]) = Ok payload).
Proof.
  intros optype dryRun payload cfgdir cs fs cs' fs' e.
  unfold UpdateConfig, payload_error, updated, config_filename, decodeHTTPProxyRules,
    decodeInspectorsConfig.
  destruct (String.eqb optype "acl") eqn:Ea; [|destruct (String.eqb optype "inspectors") eqn:Ei].
  - destruct (yaml_acl payload); destruct dryRun; simpl; try solve [naive_solver].
    destruct (updateConfigFile _ _ _ _) as [fs3 e3] eqn:Eu. intros H; simplify_eq.
    repeat split; try done. intros fs1 fs2 _ _ _ -> Hm Hw. by eapply updateConfigFile_ok.
  - destruct (yaml_inspectors payload); destruct dryRun; simpl; try solve [naive_solver].
    destruct (updateConfigFile _ _ _ _) as [fs3 e3] eqn:Eu. intros H; simplify_eq.
    repeat split; try done. intros fs1 fs2 _ _ _ -> Hm Hw. by eapply updateConfigFile_ok.
  - apply String.eqb_neq in Ea, Ei. simpl. intros H; simplify_eq.
    repeat split; try done. intros ? ? _ _ [<-|[<-|[]]]; done.
Qed.

(** Overriding the inspectors configuration replaces exactly the sections the override has and
    keeps the others; an empty override changes nothing, applying an override twice is applying it
    once, and a session's copy of the global configuration is equal to it. *)
Theorem Combine_spec : forall cs i c,
  Combine i c = mkInspectorsConfig
    (default (Apt i) (o_Apt c)) (default (Git i) (o_Git c)) (default (Crafts i) (o_Crafts c))
    (default (Chisel i) (o_Chisel c)) (default (Snap i) (o_Snap c))
    (default (Store i) (o_Store c)) (default (BldBin i) (o_BldBin c)) /\
  Combine i empty_override = i /\
  Combine (Combine i c) c = Combine i c /\
  GetInspectorsConfig (SetInspectorsConfig i cs) = i /\
  GetHTTPProxyConfig (SetInspectorsConfig i cs) = GetHTTPProxyConfig cs.
Proof.
  intros cs i c. split; [apply Combine_fields|]. split; [|split; [|split]].
  - rewrite Combine_fields. by destruct i.
  - rewrite !Combine_fields. destruct c as [[] [] [] [] [] [] []]; done.
  - by rewrite GetInspectorsConfig_eq.
  - done.
Qed.

(** Loading a configuration file changes the configuration in memory only if the file exists, can
    be read and decodes; a missing file is reported as such, which is what the service tells from
    a broken one. *)
Theorem Load_atomic : forall fs cfgdir cs cs' e,
  (LoadHTTPProxyRules fs cfgdir cs = (cs', Some e) \/
   LoadInspectorsConfig fs cfgdir cs = (cs', Some e) \/
   LoadOverrideInspectorsConfig fs cfgdir cs = (cs', Some e) -> cs' = cs) /\
  (os_Stat fs (filepath_Join [cfgdir; aclConfigFile]) = Err ErrNotExist ->
   LoadHTTPProxyRules fs cfgdir cs = (cs, Some ErrNotExist)) /\
  (forall data acl, os_Stat fs (filepath_Join [cfgdir; aclConfigFile]) = Ok false ->
   os_ReadFile fs (filepath_Join [cfgdir; aclConfigFile]) = Ok data -> yaml_acl data = Ok acl ->
   exists cs1, LoadHTTPProxyRules fs cfgdir cs = (cs1, None) /\
     acl_Policy (GetHTTPProxyConfig cs1) = acl_Policy (HTTPProxy acl) /\
     Rules (GetHTTPProxyConfig cs1) = Rules (HTTPProxy acl) /\
     globalInspectorsConfig cs1 = globalInspectorsConfig cs).
Proof.
  intros fs cfgdir cs cs' e. split; [|split].
  - unfold LoadHTTPProxyRules, LoadInspectorsConfig, LoadOverrideInspectorsConfig.
    repeat case_match; naive_solver.
  - intros H. unfold LoadHTTPProxyRules, load_file. by rewrite H.
  - intros data acl H1 H2 H3. unfold LoadHTTPProxyRules, load_file, decodeHTTPProxyRules.
    rewrite H1, H2, H3. by eexists.
Qed.
End Config.

(** ** Witnesses and the lost write error *)

(** A decoder that knows one document. *)
Definition sample_acl : ACLConfig := mkACLConfig (mkHTTPProxyConfig Deny []).
Definition sample_yaml : @YamlLib literal_glob := {|
  yaml_acl := fun s => if String.eqb s "policy: deny" then Ok sample_acl else Err (EText "bad");
  yaml_inspectors := fun s =>
    if String.eqb s "git: {}" then Ok (@empty_inspectors_config literal_glob) else Err (EText "bad");
  yaml_override := fun s => Ok (@empty_override literal_glob);
|}.
Definition sample_state : @ConfigState literal_glob :=
  @mkConfigState literal_glob (mkACLConfig (mkHTTPProxyConfig Allow [])) empty_inspectors_config.

Lemma UpdateConfig_spec_witness :
  exists cs' fs', @UpdateConfig literal_glob mem_os sample_yaml "acl" false "policy: deny" "/etc/fetch"
    sample_state ∅ = (cs', fs', None) /\
  cs' = @updated literal_glob sample_yaml "acl" "policy: deny" sample_state /\
  os_ReadFile fs' "/etc/fetch/acl.yaml" = Ok "policy: deny".
Proof.
  destruct (@UpdateConfig literal_glob mem_os sample_yaml "acl" false "policy: deny" "/etc/fetch"
    sample_state ∅) as [[cs' fs'] e] eqn:E.
  assert (He : e = None).
  { apply (f_equal snd) in E. vm_compute in E. by symmetry. }
  subst e. exists cs', fs'. split; [done|].
  destruct (@UpdateConfig_spec literal_glob mem_os sample_yaml mem_os_laws _ _ _ _ _ _ _ _ _ E)
    as (_ & _ & H1 & H2).
  split; [by apply H1|].
  exact (H2 _ _ eq_refl eq_refl (or_introl eq_refl) eq_refl eq_refl eq_refl).
Defined.

(** A failure to write the new configuration file is lost: the update reports success, although
    the file still holds the old configuration. *)
Theorem UpdateConfig_write_error_lost :
  exists fs cs' fs',
    @UpdateConfig literal_glob mem_os sample_yaml "acl" false "policy: deny" "/etc/fetch"
      sample_state fs = (cs', fs', None) /\
    snd (os_WriteFile fs "/etc/fetch/acl.yaml.new" "policy: deny") <> None /\
    os_ReadFile fs' "/etc/fetch/acl.yaml" = Ok "policy: allow" /\
    acl_Policy (GetHTTPProxyConfig cs') = Deny.
Proof.
  exists {[ "/etc/fetch/acl.yaml.new" := None; "/etc/fetch/acl.yaml" := Some "policy: allow" ]}.
  eexists _, _. split; [vm_compute; reflexivity|]. by repeat split.
Qed.
