(* ===== verification/Acl.v ===== *)
(** * Access control

    [proxy/acl/acl.go]: whether the proxy may talk to an address. *)
From stdpp Require Import base gmap strings list option.
From Stdlib Require Import ZArith Lia Ascii.
From S2P Require Import Prelude GoStrings GoCodec Platform Net Config.

(** The rule applies to the address. *)
Fixpoint any_dst (dst : list net_IPNet) (ip : IP) : bool :=
  match dst with
  | [] => false
  | n :: dst' => if Contains_IP n ip then true else any_dst dst' ip
  end.

(** The loop over the rules: the access of the first rule with a matching destination. *)
Fixpoint first_access (rules : list Rule) (ip : IP) : option bool :=
  match rules with
  | [] => None
  | r :: rules' =>
      let allowed := bool_decide (Access r = Allow) in
      if any_dst (Dst r) ip then Some allowed else first_access rules' ip
  end.

(** [Allowed] under the proxy configuration in force; a nil address is never allowed. *)
Definition Allowed (cfg : HTTPProxyConfig) (ip : IP) : bool :=
  match ip with
  | [] => false
  | _ => match first_access (Rules cfg) ip with
         | Some allowed => allowed
         | None => bool_decide (acl_Policy cfg = Allow)
         end
  end.

(** ** Lemmas *)

Definition rule_matches (ip : IP) (r : Rule) : Prop :=
  exists n, In n (Dst r) /\ Contains_IP n ip = true.

Lemma any_dst_spec dst ip :
  any_dst dst ip = true <-> exists n, In n dst /\ Contains_IP n ip = true.
Proof.
  induction dst as [|n dst IH]; simpl; [naive_solver|].
  destruct (Contains_IP n ip) eqn:E; [split; eauto|].
  rewrite IH. split; intros (m & Hm & Hc); [eauto|].
  destruct Hm as [->|Hm]; [congruence|eauto].
Qed.

Lemma first_access_Some rules ip b :
  first_access rules ip = Some b <->
  exists pre r post, rules = pre ++ r :: post /\ Forall (fun r' => ~ rule_matches ip r') pre /\
    rule_matches ip r /\ b = bool_decide (Access r = Allow).
Proof.
  induction rules as [|r rules IH]; simpl.
  - split; [done|]. intros (pre & r & post & H & _). by destruct pre.
  - destruct (any_dst (Dst r) ip) eqn:E.
    + apply any_dst_spec in E. split.
      * intros; simplify_eq. exists [], r, rules. eauto.
      * intros (pre & r' & post & H & Hf & Hm & ->). destruct pre; simpl in H; injection H as -> ->; [done|].
        apply Forall_cons_iff in Hf as [Hf _]. exfalso. by apply Hf.
    + assert (Hn : ~ rule_matches ip r).
      { intros Hm. apply any_dst_spec in Hm. congruence. }
      rewrite IH. split.
      * intros (pre & r' & post & -> & Hf & Hm & ->). exists (r :: pre), r', post.
        repeat split; [by constructor|done].
      * intros (pre & r' & post & H & Hf & Hm & ->). destruct pre; simpl in H; injection H as -> ->; [done|].
        apply Forall_cons_iff in Hf as [_ Hf]. eauto 10.
Qed.

Lemma first_access_None rules ip :
  first_access rules ip = None <-> Forall (fun r => ~ rule_matches ip r) rules.
Proof.
  induction rules as [|r rules IH]; simpl; [done|].
  rewrite Forall_cons_iff, <- IH. unfold rule_matches at 1. rewrite <- any_dst_spec.
  destruct (any_dst (Dst r) ip); naive_solver.
Qed.

Lemma land_mask_idem a m : length a = length m ->
  zip_with Z.land (zip_with Z.land a m) m = zip_with Z.land a m.
Proof.
  revert m; induction a as [|x a IH]; intros [|y m]; simpl; intros; simplify_eq; [done|].
  f_equal; [|by apply IH]. by rewrite <- Z.land_assoc, Z.land_diag.
Qed.

Lemma To4_mapped a : length a = 4 -> To4 (v4InV6Prefix ++ a) = Some a.
Proof.
  intros Ha. by destruct a as [|a1 [|a2 [|a3 [|a4 [|]]]]].
Qed.

(** The network of the text [a.b.c.d/n]. *)
Definition v4_network (ip : IP) (n : Z) : net_IPNet :=
  mkIPNet (IP_Mask (v4InV6Prefix ++ ip) (CIDRMask n 32)) (CIDRMask n 32).

Lemma IP_Mask_v4 ip n : length ip = 4 ->
  IP_Mask (v4InV6Prefix ++ ip) (CIDRMask n 32) = zip_with Z.land ip (CIDRMask n 32).
Proof.
  intros Hl. assert (Hm : length (CIDRMask n 32) = 4) by apply length_cidr_bytes.
  unfold IP_Mask. revert Hm. generalize (CIDRMask n 32). intros m Hm.
  destruct m as [|m1 [|m2 [|m3 [|m4 [|]]]]]; try done.
  by destruct ip as [|a1 [|a2 [|a3 [|a4 [|]]]]].
Qed.

Lemma v4_network_contains ip n a : length ip = 4 -> length a = 4 ->
  Contains_IP (v4_network ip n) a =
  bool_decide (zip_with Z.land ip (CIDRMask n 32) = zip_with Z.land a (CIDRMask n 32)).
Proof.
  intros Hi Ha. unfold Contains_IP, v4_network, networkNumberAndMask. cbn [net_IP net_Mask].
  rewrite IP_Mask_v4 by done.
  assert (Hm : length (CIDRMask n 32) = 4) by apply length_cidr_bytes.
  assert (Hz : length (zip_with Z.land ip (CIDRMask n 32)) = 4).
  { rewrite length_zip_with. lia. }
  assert (H4 : forall l, length l = 4 -> To4 l = Some l).
  { intros l Hl. unfold To4. by rewrite decide_True. }
  rewrite (H4 _ Hz), (H4 _ Ha).
  assert (Hd : forall x y : IP, default x (Some y) = y) by done. rewrite !Hd.
  pose proof (land_mask_idem ip (CIDRMask n 32) ltac:(lia)) as Hi2.
  repeat case_decide; try lia; apply bool_decide_ext; by rewrite Hi2.
Qed.

(** ** Properties *)

(** The access decision is first match: an address is allowed exactly when it is not nil and the
    first rule with a network that contains it allows, or no rule has such a network and the policy
    allows. *)
Theorem Allowed_first_match : forall cfg ip,
  Allowed cfg ip = true <->
  ip <> [] /\
  ((exists pre r post, Rules cfg = pre ++ r :: post /\
      Forall (fun r' => ~ rule_matches ip r') pre /\ rule_matches ip r /\ Access r = Allow) \/
   (Forall (fun r => ~ rule_matches ip r) (Rules cfg) /\ acl_Policy cfg = Allow)).
Proof.
  intros cfg ip. unfold Allowed. destruct ip as [|b ip']; [naive_solver|].
  rewrite <- first_access_None. destruct (first_access (Rules cfg) (b :: ip')) as [al|] eqn:E.
  - pose proof E as E'. apply first_access_Some in E' as (pre & r & post & HR & Hf & Hm & ->).
    split.
    + intros H%bool_decide_eq_true. split; [done|]. left. eauto 10.
    + intros [_ [(pre' & r' & post' & HR' & Hf' & Hm' & Ha)|[? _]]]; [|done].
      assert (Some (bool_decide (Access r = Allow)) = Some (bool_decide (Access r' = Allow))) as Hs.
      { rewrite <- E. apply first_access_Some. eauto 10. }
      injection Hs as ->. by apply bool_decide_eq_true.
  - split.
    + intros H%bool_decide_eq_true. split; [done|]. by right.
    + intros [_ [(pre' & r' & post' & HR' & Hf' & Hm' & Ha)|[_ ?]]]; [|by apply bool_decide_eq_true].
      assert (None = Some (bool_decide (Access r' = Allow))) as Hs.
      { rewrite <- E. apply first_access_Some. eauto 10. }
      done.
Qed.

(** An IPv4 rule [a.b.c.d/n] matches exactly the addresses whose first [n] bits are those of
    [a.b.c.d], whether Go holds the address in 4 or in 16 bytes. *)
Theorem Contains_prefix : forall ip n a,
  ip_wf ip -> ip_wf a -> length ip = 4 -> length a = 4 -> (0 <= n <= 32)%Z ->
  (Contains_IP (v4_network ip n) a = true <->
     bytes_val ip / 2 ^ (32 - n) = bytes_val a / 2 ^ (32 - n))%Z /\
  Contains_IP (v4_network ip n) (v4InV6Prefix ++ a) = Contains_IP (v4_network ip n) a.
Proof.
  intros ip n a Hip Ha Li La Hn. split.
  - rewrite v4_network_contains by done. rewrite bool_decide_eq_true.
    unfold CIDRMask. change (Z.to_nat (32 / 8)) with 4. rewrite <- Li.
    rewrite cidr_prefix by (done || lia). by rewrite Li.
  - unfold Contains_IP. rewrite To4_mapped by done.
    unfold To4. by rewrite (decide_True _ _ La).
Qed.

Lemma Contains_prefix_witness :
  Contains_IP (v4_network [10; 0; 0; 1]%Z 8) [10; 200; 3; 4]%Z = true.
Proof.
  apply (Contains_prefix [10; 0; 0; 1]%Z 8 [10; 200; 3; 4]%Z);
    first [reflexivity | lia | repeat constructor; lia].
Defined.

(** The YAML text of a destination and the network it stands for. *)
Example parse_v4 : IPNet_UnmarshalYAML (mkIPNet [] []) (Ok "10.0.0.1/8") =
  (v4_network [10; 0; 0; 1]%Z 8, None).
Proof. vm_compute. reflexivity. Qed.
Example parse_host : IPNet_UnmarshalYAML (mkIPNet [] []) (Ok "192.168.0.7") =
  (v4_network [192; 168; 0; 7]%Z 32, None).
Proof. vm_compute. reflexivity. Qed.
Example parse_v6 : exists n, IPNet_UnmarshalYAML (mkIPNet [] []) (Ok "fe80::1") = (n, None) /\
  Contains_IP n [254; 128; 0; 0; 0; 0; 0; 0; 0; 0; 0; 0; 0; 0; 0; 1]%Z = true.
Proof. eexists. split; [vm_compute; reflexivity|]. vm_compute. reflexivity. Qed.
