(* ===== verification/Secrets.v ===== *)
(** * Session secrets

    [secrets/secrets.go]: the credentials a session injects into the requests it forwards, their
    validation, and the rewriting of Keystone v3 authentication requests. *)
From stdpp Require Import base gmap strings list option fin_maps.
From Stdlib Require Import ZArith Lia Ascii.
From S2P Require Import Prelude GoStrings GoCodec Platform Json Net Config.

(** The text [json.Marshal] gives the [float64] a number literal decodes to: numbers inside a
    Keystone domain, which Go reads as [any], are printed anew. *)
Class FloatText := { float64_text : string -> string }.

Section Secrets.
Context `{GL : GlobLib} `{FT : FloatText}.

Record Secret := mkSecret {
  sec_Type : string;
  sec_URL : Glob;
  BasicCreds : string;
  MacaroonCreds : string;
  KeystoneV3Creds : string;
}.

Definition BasicAuthType : string := "basic-auth".
Definition MacaroonType : string := "macaroon".
Definition KeystoneV3Type : string := "keystone-v3".

Definition getSecretTypes : list string := [BasicAuthType; MacaroonType; KeystoneV3Type].

Definition ErrMissingSecretType : error := ESentinel "Invalid secret: missing type".
Definition ErrInvalidSecretType : error := ESentinel "Invalid secret: invalid type".
Definition ErrMissingSecretURL : error := ESentinel "Invalid secret: missing url".
Definition ErrMissingBasicCreds : error :=
  ESentinel "Invalid secret: missing credentials for 'basic-auth'".
Definition ErrMissingMacaroonCreds : error :=
  ESentinel "Invalid secret: missing credentials for 'macaroon'".
Definition ErrMissingKeystoneV3Creds : error :=
  ESentinel "Invalid secret: missing credentials for 'keystone-v3'".
Definition ErrKeystoneV3BodyTooLarge : error :=
  ESentinel "keystone-v3 request body exceeds maximum size".

Definition maxKeystoneV3BodySize : Z := 2 ^ 20.

(** ** Validation *)

Definition validateCredentials (s : Secret) : option error :=
  if String.eqb (sec_Type s) BasicAuthType then
    if String.eqb (BasicCreds s) "" then Some ErrMissingBasicCreds else None
  else if String.eqb (sec_Type s) MacaroonType then
    if String.eqb (MacaroonCreds s) "" then Some ErrMissingMacaroonCreds else None
  else if String.eqb (sec_Type s) KeystoneV3Type then
    if String.eqb (KeystoneV3Creds s) "" then Some ErrMissingKeystoneV3Creds else None
  else None.

Fixpoint ValidateSecrets (sec : list Secret) : option error :=
  match sec with
  | [] => None
  | s :: sec' =>
      if String.eqb (sec_Type s) "" then Some ErrMissingSecretType
      else if negb (slices_Contains getSecretTypes (sec_Type s)) then Some ErrInvalidSecretType
      else match sec_URL s with
      | None => Some ErrMissingSecretURL
      | Some _ =>
          match validateCredentials s with
          | Some err => Some err
          | None => ValidateSecrets sec'
          end
      end
  end.

(** ** Keystone v3 authentication requests *)

(** The fields of [Identity] the service uses: the methods, the user of the password object if both
    are present (with its domain, [None] for the nil map), and whether there is an
    application credential object. *)
Record User := mkUser { Domain : option (gmap string json) }.
Record Identity := mkIdentity {
  Methods : list string;
  Password : option (option User);
  ApplicationCredential : bool;
}.

(** A value decoded into [any] and encoded again. *)
Fixpoint any_value (j : json) : json :=
  match j with
  | JNum lit => JNum (float64_text lit)
  | JStr raw => jstring true (json_unescape raw)
  | JArr l => JArr (map any_value l)
  | JObj m => jmap (object_map (map (fun kv => (fst kv, any_value (snd kv))) m) ∅)
  | _ => j
  end.

(** Elements of [[]string]; null keeps the element already there. *)
Fixpoint decode_strings (old : list string) (l : list json) : result (list string) :=
  match l with
  | [] => Ok []
  | v :: l' =>
      h ← match v with
          | JStr raw => Ok (json_unescape raw)
          | JNull => Ok (hd "" old)
          | _ => Err type_mismatch
          end;
      t ← decode_strings (tl old) l';
      Ok (h :: t)
  end.

Definition is_text (v : json) : bool := match v with JStr _ | JNull => true | _ => false end.

Fixpoint decode_user (u : User) (m : list (string * json)) : result User :=
  match m with
  | [] => Ok u
  | (k, v) :: m' =>
      if field_is "name" k || field_is "password" k then
        if is_text v then decode_user u m' else Err type_mismatch
      else if field_is "domain" k then
        match v with
        | JNull => decode_user (mkUser None) m'
        | JObj d =>
            decode_user (mkUser (Some (object_map (map (fun kv => (fst kv, any_value (snd kv))) d)
                                        (default ∅ (Domain u))))) m'
        | _ => Err type_mismatch
        end
      else decode_user u m'
  end.

Fixpoint decode_password (p : option User) (m : list (string * json)) : result (option User) :=
  match m with
  | [] => Ok p
  | (k, v) :: m' =>
      if field_is "user" k then
        match v with
        | JNull => decode_password None m'
        | JObj u => u' ← decode_user (default (mkUser None) p) u; decode_password (Some u') m'
        | _ => Err type_mismatch
        end
      else decode_password p m'
  end.

Fixpoint decode_identity (i : Identity) (m : list (string * json)) : result Identity :=
  match m with
  | [] => Ok i
  | (k, v) :: m' =>
      if field_is "methods" k then
        match v with
        | JNull => decode_identity (mkIdentity [] (Password i) (ApplicationCredential i)) m'
        | JArr l => ms ← decode_strings (Methods i) l;
                    decode_identity (mkIdentity ms (Password i) (ApplicationCredential i)) m'
        | _ => Err type_mismatch
        end
      else if field_is "password" k then
        match v with
        | JNull => decode_identity (mkIdentity (Methods i) None (ApplicationCredential i)) m'
        | JObj p => p' ← decode_password (default None (Password i)) p;
                    decode_identity (mkIdentity (Methods i) (Some p') (ApplicationCredential i)) m'
        | _ => Err type_mismatch
        end
      else if field_is "application_credential" k then
        match v with
        | JNull => decode_identity (mkIdentity (Methods i) (Password i) false) m'
        | JObj c =>
            if forallb (fun kv => is_text (snd kv) || negb (field_is "id" (fst kv) ||
                                                            field_is "secret" (fst kv))) c
            then decode_identity (mkIdentity (Methods i) (Password i) true) m'
            else Err type_mismatch
        | _ => Err type_mismatch
        end
      else decode_identity i m'
  end.

Definition unmarshal_identity (j : json) : result Identity :=
  match j with
  | JObj m => decode_identity (mkIdentity [] None false) m
  | JNull => Ok (mkIdentity [] None false)
  | _ => Err type_mismatch
  end.

(** [fmt.Errorf("...: %w", err)] *)
Definition wrap {A} (prefix : string) (r : result A) : result A :=
  match r with Ok a => Ok a | Err e => Err (EWrap prefix e "") end.

Definition getKeystoneV3IdentityDomain (auth : gmap string json) :
    result (option (gmap string json)) :=
  match auth !! "identity" with
  | None => Err (EText "cannot find identity in keystone-v3 auth request")
  | Some identityData =>
      identity ← wrap "cannot unmarshal identity data: " (unmarshal_identity identityData);
      match Password identity with
      | None => Err (EText "cannot find password in keystone-v3 auth request")
      | Some None => Err (EText "cannot find user in keystone-v3 auth request")
      | Some (Some u) => Ok (Domain u)
      end
  end.

Definition text_map (l : list (string * json)) : json := jmap (list_to_map l).

(** The identity that replaces the one of the request. *)
Definition application_credential_identity (id secret : string) : json :=
  text_map [("methods", JArr [jstring true "application_credential"]);
            ("application_credential",
              text_map [("id", jstring true id); ("secret", jstring true secret)])].

Definition password_identity (id secret : string) (domain : option (gmap string json)) : json :=
  text_map [("methods", JArr [jstring true "password"]);
            ("password", text_map [("user", text_map
              [("name", jstring true id); ("password", jstring true secret);
               ("domain", match domain with Some d => jmap d | None => JNull end)])])].

Definition newKeystoneV3Identity (auth : gmap string json) (id secret : string) : result json :=
  match auth !! "identity" with
  | None => Err (EText "cannot find identity in keystone-v3 auth request")
  | Some identityData =>
      identity ← wrap "cannot unmarshal identity data: " (unmarshal_identity identityData);
      match Methods identity with
      | [m] =>
          if String.eqb m "application_credential" then
            if negb (ApplicationCredential identity) then
              Err (EText ("keystone-v3 identity method is application_credential " +:+
                          "but application_credential object is missing"))
            else Ok (application_credential_identity id secret)
          else if String.eqb m "password" then
            match Password identity with
            | Some (Some _) =>
                domain ← wrap "cannot read keystone-v3 identity domain: "
                           (getKeystoneV3IdentityDomain auth);
                Ok (password_identity id secret domain)
            | _ => Err (EText ("keystone-v3 identity method is 'password' " +:+
                               "but password.user object is missing"))
            end
          else Err (EText ("unsupported keystone-v3 auth method: " +:+ Quote m))
      | ms => Err (EText ("unsupported keystone-v3 auth methods [" +:+ Join ms " " +:+
                          "]: exactly one method is supported"))
      end
  end.

(** The new body: only [auth.identity] is replaced. *)
Definition rewriteKeystoneV3 (id secret : string) (raw : string) : result string :=
  body ← wrap "cannot decode keystone-v3 request body: "
           (j ← json_parse raw; unmarshal_object j);
  match body !! "auth" with
  | None => Err (EText "no auth field in keystone-v3 request body")
  | Some authData =>
      auth ← wrap "cannot unmarshal auth data: " (unmarshal_object authData);
      newIdentity ← wrap "cannot build keystone-v3 identity: "
                      (newKeystoneV3Identity auth id secret);
      let auth := <["identity" := newIdentity]> (json_compact <$> auth) in
      let body := <["auth" := jmap auth]> (json_compact <$> body) in
      Ok (json_print (jmap body))
  end.

(** What [io.ReadAll(io.LimitReader(body, max+1))] returns: at most one byte more than the limit, and
    the reader's error only if it comes before that. *)
Definition read_limited (b : Body) : result string :=
  let limit := (maxKeystoneV3BodySize + 1)%Z in
  if (Z.of_nat (String.length (body_data b)) <? limit)%Z then
    match body_err b with Some e => Err e | None => Ok (body_data b) end
  else Ok (str_take (Z.to_nat limit) (body_data b)).

(** [None] when there is no body to inject into. *)
Definition injectKeystoneV3Secret (s : Secret) (req : HttpRequest) : result (option string) :=
  match ReqBody req with
  | None => Ok None
  | Some b =>
      raw ← wrap "cannot read keystone-v3 request body: " (read_limited b);
      let len := Z.of_nat (String.length raw) in
      if (maxKeystoneV3BodySize <? len)%Z then
        Err (EWrap "" ErrKeystoneV3BodyTooLarge (": got at least " +:+ Itoa len +:+ " bytes"))
      else
        match Cut (KeystoneV3Creds s) ":" with
        | None => Err (EText "invalid keystone-v3 credentials format")
        | Some (id, secret) => Some <$> rewriteKeystoneV3 id secret raw
        end
  end.

(** ** Injection *)

Definition set_header (k v : string) (req : HttpRequest) : HttpRequest :=
  mkHttpRequest (Method req) (ReqURL req) (Header_Set (ReqHeader req) k v) (ReqBody req)
    (ContentLength req) (TransferEncoding req) (RemoteAddr req) (LocalAddr req).

(** The new body, with a length that matches it. *)
Definition set_body (newBody : string) (req : HttpRequest) : HttpRequest :=
  let n := Z.of_nat (String.length newBody) in
  mkHttpRequest (Method req) (ReqURL req) (Header_Set (ReqHeader req) "Content-Length" (Itoa n))
    (Some (mkBody newBody None)) n [] (RemoteAddr req) (LocalAddr req).

Definition injectSecret (s : Secret) (req : HttpRequest) : result HttpRequest :=
  if String.eqb (sec_Type s) BasicAuthType then
    let cred := b64_encode (BasicCreds s) in
    Ok (set_header "Authorization" ("Basic " +:+ cred) req)
  else if String.eqb (sec_Type s) MacaroonType then
    Ok (set_header "Authorization" ("macaroon " +:+ MacaroonCreds s) req)
  else if String.eqb (sec_Type s) KeystoneV3Type then
    match injectKeystoneV3Secret s req with
    | Err e => Err e
    | Ok None => Ok req
    | Ok (Some newBody) => Ok (set_body newBody req)
    end
  else Ok req.

(** The secret whose URL pattern matches first is injected, and no other. The request is returned
    with whether a secret applied; [nil_pattern] is the panic of a secret without a pattern. *)
Definition nil_pattern : error := ESentinel "invalid memory address or nil pointer dereference".

Fixpoint InjectSecrets (secrets : list Secret) (url : string) (req : HttpRequest) :
    result (bool * HttpRequest) :=
  match secrets with
  | [] => Ok (false, req)
  | s :: secrets' =>
      match Glob_Match (sec_URL s) url with
      | None => Err nil_pattern
      | Some true => req' ← injectSecret s req; Ok (true, req')
      | Some false => InjectSecrets secrets' url req
      end
  end.

(** ** Lemmas *)

(** What a valid secret is: a known type, a URL pattern, and credentials of its type. *)
Definition secret_valid (s : Secret) : Prop :=
  is_Some (sec_URL s) /\
  ((sec_Type s = BasicAuthType /\ BasicCreds s <> "") \/
   (sec_Type s = MacaroonType /\ MacaroonCreds s <> "") \/
   (sec_Type s = KeystoneV3Type /\ KeystoneV3Creds s <> "")).

Lemma slices_Contains_spec l x : slices_Contains l x = true <-> In x l.
Proof.
  unfold slices_Contains. rewrite existsb_exists. split.
  - intros (y & Hy & E). apply String.eqb_eq in E. by subst.
  - intros H. exists x. by rewrite String.eqb_refl.
Qed.

Lemma ValidateSecrets_cons s sec : ValidateSecrets (s :: sec) = None <->
  secret_valid s /\ ValidateSecrets sec = None.
Proof.
  cbn [ValidateSecrets]. unfold secret_valid.
  destruct (String.eqb (sec_Type s) "") eqn:E0.
  { apply String.eqb_eq in E0. rewrite E0. split; [done|]. intros [[_ H] _]. naive_solver. }
  destruct (slices_Contains getSecretTypes (sec_Type s)) eqn:Et; simpl.
  2:{ split; [done|]. intros [[_ H] _]. apply not_true_iff_false in Et. exfalso. apply Et.
      apply slices_Contains_spec. simpl. naive_solver. }
  apply slices_Contains_spec in Et. unfold validateCredentials.
  destruct (sec_URL s) as [p|]; [|split; [done|]; by intros [[[? ?] _] _]].
  destruct Et as [<-|[<-|[<-|[]]]]; simpl;
    repeat match goal with |- context [String.eqb ?a ""] =>
      let E := fresh "E" in destruct (String.eqb a "") eqn:E;
      [apply String.eqb_eq in E|apply String.eqb_neq in E] end;
    (split; [intros H|intros [[_ H] Hv]]; simplify_eq; try done);
    first [by repeat split; eauto | naive_solver].
Qed.

Lemma ValidateSecrets_Forall sec : ValidateSecrets sec = None <-> Forall secret_valid sec.
Proof.
  induction sec as [|s sec IH]; [done|].
  rewrite ValidateSecrets_cons, IH, Forall_cons_iff. done.
Qed.

Lemma injectSecret_no_panic s req : injectSecret s req <> Err nil_pattern.
Proof.
  unfold injectSecret, injectKeystoneV3Secret, rewriteKeystoneV3, wrap. intros H.
  repeat (case_match; simplify_eq/=); try done.
Qed.

(** ** Properties *)

(** Secrets are accepted exactly when every one of them has a known type, a URL pattern and
    non-empty credentials of that type; otherwise the error is that of the first invalid secret. *)
Theorem ValidateSecrets_spec : forall sec,
  (ValidateSecrets sec = None <-> Forall secret_valid sec) /\
  (forall pre s post, sec = pre ++ s :: post -> Forall secret_valid pre -> ~ secret_valid s ->
     ValidateSecrets sec = ValidateSecrets [s] /\ ValidateSecrets [s] <> None).
Proof.
  intros sec. split; [apply ValidateSecrets_Forall|].
  intros pre s post -> Hpre Hs. assert (Hn : ValidateSecrets [s] <> None).
  { intros H. apply ValidateSecrets_cons in H as [H _]. done. }
  split; [|done]. induction Hpre as [|s' pre Hs' Hpre IH]; simpl app.
  - revert Hn. simpl. repeat case_match; done.
  - assert (H : ValidateSecrets [s'] = None) by (apply ValidateSecrets_Forall; by constructor).
    rewrite <- IH. revert H. simpl. repeat case_match; done.
Qed.

(** At most one secret is injected, the first whose pattern matches the URL: without a match the
    request is left alone, and secrets that passed validation never hit a nil pattern. A
    basic-auth secret sets the one header to the base64 form of its credentials, from which they
    can be read back, and leaves every other header and the body alone. *)
Theorem InjectSecrets_first_match : forall secrets url req,
  (Forall (fun s => Glob_Match (sec_URL s) url = Some false) secrets ->
     InjectSecrets secrets url req = Ok (false, req)) /\
  (forall pre s post, secrets = pre ++ s :: post ->
     Forall (fun s' => Glob_Match (sec_URL s') url = Some false) pre ->
     Glob_Match (sec_URL s) url = Some true ->
     InjectSecrets secrets url req = (req' ← injectSecret s req; Ok (true, req')) /\
     (sec_Type s = BasicAuthType -> exists req' v,
        injectSecret s req = Ok req' /\ Header_Get (ReqHeader req') "Authorization" = "Basic " +:+ v /\
        b64_decode v = Ok (BasicCreds s) /\ ReqBody req' = ReqBody req /\
        forall k, k <> "Authorization" -> ReqHeader req' !! k = ReqHeader req !! k)) /\
  (ValidateSecrets secrets = None -> InjectSecrets secrets url req <> Err nil_pattern).
Proof.
  intros secrets url req. split; [|split].
  - induction 1 as [|s l Hs Hl IH]; [done|]. simpl. by rewrite Hs.
  - intros pre s post -> Hpre Hs. split.
    + induction Hpre as [|s' l Hs' Hl IH]; simpl; [by rewrite Hs|]. by rewrite Hs'.
    + intros Ht. unfold injectSecret. rewrite Ht, String.eqb_refl.
      eexists _, _. split; [done|]. simpl. split_and!.
      * unfold Header_Get, Header_Set. by rewrite lookup_insert_eq.
      * apply b64_roundtrip.
      * done.
      * intros k Hk. unfold Header_Set. by rewrite lookup_insert_ne.
  - intros Hv. apply ValidateSecrets_Forall in Hv. induction Hv as [|s l [[p Hp] _] Hl IH]; [done|].
    simpl. unfold Glob_Match. rewrite Hp. destruct (glob_Match p url); [|done].
    pose proof (injectSecret_no_panic s req). destruct (injectSecret s req); simpl; congruence.
Qed.

(** A rewritten Keystone request has the secret's identity and nothing else changed: the method of
    the original request is kept and its credentials are replaced, every other member of [auth]
    and of the body is copied. *)
Theorem rewriteKeystoneV3_spec : forall id secret raw out,
  rewriteKeystoneV3 id secret raw = Ok out ->
  exists j body authj auth identity m body' auth',
    json_parse raw = Ok j /\ unmarshal_object j = Ok body /\ body !! "auth" = Some authj /\
    unmarshal_object authj = Ok auth /\
    (auth !! "identity" ≫= fun ij => match unmarshal_identity ij with
                                    | Ok i => Some (Methods i) | Err _ => None end) = Some [m] /\
    out = json_print (jmap body') /\ body' !! "auth" = Some (jmap auth') /\
    auth' !! "identity" = Some identity /\
    ((m = "application_credential" /\ identity = application_credential_identity id secret) \/
     (m = "password" /\ exists d, identity = password_identity id secret d)) /\
    (forall k, k <> "identity" -> auth' !! k = json_compact <$> auth !! k) /\
    (forall k, k <> "auth" -> body' !! k = json_compact <$> body !! k).
Proof.
  intros id secret raw out H. unfold rewriteKeystoneV3, wrap in H.
  destruct (json_parse raw) as [j|] eqn:Ej; [|done]. simpl in H.
  destruct (unmarshal_object j) as [body|] eqn:Eb; [|done]. simpl in H.
  destruct (body !! "auth") as [authj|] eqn:Ea; [|done].
  destruct (unmarshal_object authj) as [auth|] eqn:Eau; [|done]. simpl in H.
  destruct (newKeystoneV3Identity auth id secret) as [identity|] eqn:Ei; [|done].
  simpl in H. simplify_eq.
  assert (Hm : exists m, (auth !! "identity" ≫= fun ij => match unmarshal_identity ij with
        | Ok i => Some (Methods i) | Err _ => None end) = Some [m] /\
      ((m = "application_credential" /\ identity = application_credential_identity id secret) \/
       (m = "password" /\ exists d, identity = password_identity id secret d))).
  { unfold newKeystoneV3Identity, wrap in Ei. destruct (auth !! "identity") as [ij|]; [|done].
    simpl. destruct (unmarshal_identity ij) as [i|]; [|done]. simpl in Ei.
    destruct (Methods i) as [|m [|]]; try done. exists m. split; [done|].
    destruct (String.eqb m "application_credential") eqn:E1.
    { apply String.eqb_eq in E1. left. destruct (ApplicationCredential i); simpl in Ei; naive_solver. }
    destruct (String.eqb m "password") eqn:E2; [|done]. apply String.eqb_eq in E2. right.
    split; [done|]. destruct (Password i) as [[u|]|]; try done.
    destruct (getKeystoneV3IdentityDomain auth); simpl in Ei; naive_solver. }
  destruct Hm as (m & Hm & Hid).
  exists j, body, authj, auth, identity, m, (<["auth" := jmap (<["identity" := identity]>
    (json_compact <$> auth))]> (json_compact <$> body)), (<["identity" := identity]>
    (json_compact <$> auth)).
  split_and!; try done.
  - by rewrite lookup_insert_eq.
  - by rewrite lookup_insert_eq.
  - intros k Hk. by rewrite lookup_insert_ne, lookup_fmap.
  - intros k Hk. by rewrite lookup_insert_ne, lookup_fmap.
Qed.

(** What a Keystone secret does with the request body: without a body the request is left alone; a
    body over the limit, however long, is refused with the error the proxy answers with 413; a body
    that cannot be read is refused; and a forwarded body is the rewritten one with matching
    lengths. *)
Theorem injectKeystone_body : forall s req b,
  sec_Type s = KeystoneV3Type ->
  (ReqBody req = None -> injectSecret s req = Ok req) /\
  (ReqBody req = Some b -> (maxKeystoneV3BodySize < Z.of_nat (String.length (body_data b)))%Z ->
     exists e, injectSecret s req = Err e /\ errors_is e ErrKeystoneV3BodyTooLarge = true) /\
  (ReqBody req = Some b -> (Z.of_nat (String.length (body_data b)) <= maxKeystoneV3BodySize)%Z ->
     body_err b <> None -> is_ok (injectSecret s req) = false) /\
  (forall req', ReqBody req = Some b -> injectSecret s req = Ok req' ->
     exists id secret out, Cut (KeystoneV3Creds s) ":" = Some (id, secret) /\
       rewriteKeystoneV3 id secret (body_data b) = Ok out /\ body_err b = None /\
       ReqBody req' = Some (mkBody out None) /\ ContentLength req' = Z.of_nat (String.length out) /\
       Header_Get (ReqHeader req') "Content-Length" = Itoa (ContentLength req') /\
       TransferEncoding req' = []).
Proof.
  intros s req b Ht. unfold injectSecret. rewrite Ht. simpl String.eqb. cbn iota.
  unfold injectKeystoneV3Secret, read_limited.
  assert (Htake : forall n t, n <= String.length t -> String.length (str_take n t) = n).
  { induction n as [|n IH]; intros [|c t]; simpl; try lia. intros. rewrite IH; lia. }
  split_and!.
  - by intros ->.
  - intros -> Hlen. rewrite (proj2 (Z.ltb_ge _ _)) by lia. cbn [wrap mbind result_bind].
    rewrite Htake by lia. rewrite Z2Nat.id by (unfold maxKeystoneV3BodySize; lia).
    rewrite (proj2 (Z.ltb_lt _ _)) by lia. eexists. split; [reflexivity|]. done.
  - intros -> Hlen He. rewrite (proj2 (Z.ltb_lt _ _)) by lia.
    destruct (body_err b); [done|done].
  - intros req' -> H. destruct (Z.of_nat (String.length (body_data b)) <? maxKeystoneV3BodySize + 1)%Z eqn:El.
    + apply Z.ltb_lt in El. destruct (body_err b) eqn:Eb; [done|]. cbn [wrap mbind result_bind] in H.
      rewrite (proj2 (Z.ltb_ge _ _)) in H by lia.
      destruct (Cut (KeystoneV3Creds s) ":") as [[id secret]|]; [|done].
      destruct (rewriteKeystoneV3 id secret (body_data b)) as [out|] eqn:Er; [|done].
      simpl in H. simplify_eq. exists id, secret, out. split_and!; try done.
      simpl. unfold Header_Get, Header_Set. by rewrite lookup_insert_eq.
    + apply Z.ltb_ge in El. cbn [wrap mbind result_bind] in H. rewrite Htake in H by lia.
      rewrite Z2Nat.id in H by (unfold maxKeystoneV3BodySize; lia).
      rewrite (proj2 (Z.ltb_lt _ _)) in H by lia. done.
Qed.
End Secrets.

(** ** Witnesses *)

Section Witnesses.
#[local] Existing Instance literal_glob.
#[local] Instance same_text : FloatText := {| float64_text := fun s => s |}.

(** A request for a token with an application credential. *)
Definition sample_keystone : json :=
  JObj [("auth", JObj [
    ("identity", JObj [("methods", JArr [JStr "application_credential"]);
                       ("application_credential", JObj [("id", JStr "dummy"); ("secret", JStr "x")])]);
    ("scope", JObj [("project", JObj [("name", JStr "demo")])])])].

Definition sample_rewritten : result string :=
  rewriteKeystoneV3 "user" "pw" (json_print sample_keystone).

Lemma rewriteKeystoneV3_spec_witness :
  exists out body', sample_rewritten = Ok out /\ out = json_print (jmap body') /\
    is_Some (body' !! "auth").
Proof.
  destruct sample_rewritten as [out|e] eqn:E; [|exfalso; vm_compute in E; discriminate].
  destruct (rewriteKeystoneV3_spec "user" "pw" (json_print sample_keystone) out E)
    as (j & body & authj & auth & identity & m & body' & auth' & _ & _ & _ & _ & _ & Ho & Ha & _).
  exists out, body'. split; [done|]. split; [done|]. by eexists.
Defined.

Definition sample_secret : Secret := mkSecret KeystoneV3Type (Some "https://keystone") "" "" "user:pw".
Definition keystone_request (b : option Body) : HttpRequest :=
  mkHttpRequest "POST" (mkURL "https" "keystone" "" "") ∅ b 0 [] "" None.

Lemma injectKeystone_body_witness :
  injectSecret sample_secret (keystone_request None) = Ok (keystone_request None) /\
  is_ok (injectSecret sample_secret (keystone_request (Some (mkBody "{" (Some EOF))))) = false.
Proof.
  split.
  - apply (proj1 (injectKeystone_body sample_secret (keystone_request None) (mkBody "" None) eq_refl)).
    reflexivity.
  - apply (proj1 (proj2 (proj2 (injectKeystone_body sample_secret
      (keystone_request (Some (mkBody "{" (Some EOF)))) (mkBody "{" (Some EOF)) eq_refl))));
      [reflexivity|vm_compute; discriminate|discriminate].
Defined.

(** The rewritten request in full. *)
Example keystone_rewritten : sample_rewritten = Ok (json_print (JObj [("auth", JObj [
    ("identity", JObj [("application_credential", JObj [("id", JStr "user"); ("secret", JStr "pw")]);
                       ("methods", JArr [JStr "application_credential"])]);
    ("scope", JObj [("project", JObj [("name", JStr "demo")])])])])).
Proof. vm_compute. reflexivity. Qed.
End Witnesses.
