(* ===== verification/SecLog.v ===== *)
(** * Security log

    [seclog/seclog.go]: the events the service reports, as records of level, description and
    attributes in the order they are written. The file of the log and its lines are in [Logging]. *)
From stdpp Require Import base strings list.
From Stdlib Require Import ZArith Ascii.
From S2P Require Import Prelude GoStrings.

Inductive Level : Set := LevelInfo | LevelWarn | LevelCritical.

#[export] Instance Level_eq_dec : EqDecision Level.
Proof. solve_decision. Defined.

Record EventData := mkEventData {
  ev_User : string;
  ev_Identity : string;
  ev_HostIP : string;
  ev_ClientIP : string;
  ev_Agent : string;
  ev_Reason : string;
  ev_RequestURL : string;
}.

Record SecEvent := mkSecEvent {
  se_Level : Level;
  se_Description : string;
  se_Attrs : list (string * string);
}.

#[export] Instance SecEvent_eq_dec : EqDecision SecEvent.
Proof. solve_decision. Defined.

Definition AuthnLoginSuccess (ev : EventData) : SecEvent :=
  mkSecEvent LevelInfo ("User " +:+ ev_User ev +:+ " authentication successful")
    [("event", "authn_login_success:" +:+ ev_User ev);
     ("host_ip", ev_HostIP ev);
     ("client_ip", ev_ClientIP ev);
     ("user_agent", ev_Agent ev);
     ("identity", ev_Identity ev)].

Definition AuthnLoginFail (ev : EventData) : SecEvent :=
  mkSecEvent LevelWarn ("User " +:+ ev_User ev +:+ " authentication failed")
    [("event", "authn_login_fail:" +:+ ev_User ev);
     ("host_ip", ev_HostIP ev);
     ("client_ip", ev_ClientIP ev);
     ("user_agent", ev_Agent ev);
     ("request_url", ev_RequestURL ev);
     ("reason", ev_Reason ev)].

Definition AuthnTokenCreated (ev : EventData) : SecEvent :=
  mkSecEvent LevelInfo ("Access token issued for session " +:+ ev_User ev)
    [("event", "authn_token_created:" +:+ ev_User ev);
     ("host_ip", ev_HostIP ev);
     ("client_ip", ev_ClientIP ev);
     ("user_agent", ev_Agent ev);
     ("identity", ev_Identity ev);
     ("token_type", "FETCH_SERVICE_SESSION")].

Definition AuthnTokenRevoked (ev : EventData) : SecEvent :=
  mkSecEvent LevelInfo ("Access token revoked for session " +:+ ev_User ev)
    [("event", "authn_token_revoked:" +:+ ev_User ev);
     ("host_ip", ev_HostIP ev);
     ("client_ip", ev_ClientIP ev);
     ("user_agent", ev_Agent ev);
     ("identity", ev_Identity ev);
     ("reason", ev_Reason ev)].

Definition AuthnTokenReuse (ev : EventData) : SecEvent :=
  mkSecEvent LevelCritical ("Attempt to use a revoked token for session " +:+ ev_User ev)
    [("event", "authn_token_reuse:" +:+ ev_User ev);
     ("host_ip", ev_HostIP ev);
     ("client_ip", ev_ClientIP ev);
     ("user_agent", ev_Agent ev);
     ("identity", ev_Identity ev);
     ("request_url", ev_RequestURL ev)].

Definition AuthnTokenDelete (ev : EventData) : SecEvent :=
  mkSecEvent LevelInfo ("Access token deleted for session " +:+ ev_User ev)
    [("event", "authn_token_delete:" +:+ ev_User ev);
     ("host_ip", ev_HostIP ev);
     ("client_ip", ev_ClientIP ev);
     ("user_agent", ev_Agent ev);
     ("identity", ev_Identity ev);
     ("reason", ev_Reason ev)].

Definition AuthzAdmin (ev : EventData) (admEvent : string) : SecEvent :=
  mkSecEvent LevelWarn ("Administrative command " +:+ admEvent)
    [("event", "authz_admin:" +:+ ev_User ev +:+ ", " +:+ admEvent);
     ("host_ip", ev_HostIP ev);
     ("client_ip", ev_ClientIP ev);
     ("user_agent", ev_Agent ev);
     ("identity", ev_Identity ev)].

(** [RuntimeEnv] of [utils/misc_utils.go], from the value of [APP_ENV]. *)
Definition RuntimeEnv (env : string) : string := if String.eqb env "" then "unknown" else env.

Definition SysStart (version app_env policyMode : string) : SecEvent :=
  mkSecEvent LevelInfo "Fetch Service started successfully"
    [("event", "sys_start");
     ("version", version);
     ("runtime_env", RuntimeEnv app_env);
     ("policy_mode", policyMode)].

Definition SysShutdown (ev : EventData) (app_env : string) : SecEvent :=
  mkSecEvent LevelInfo "Fetch Service shutting down"
    [("event", "sys_shutdown");
     ("reason", ev_Reason ev);
     ("runtime_env", RuntimeEnv app_env)].

Definition SysCrash (crashEvent crashDesc stackTrace go_version app_env : string) : SecEvent :=
  mkSecEvent LevelCritical crashDesc
    [("event", "sys_crash:" +:+ crashEvent);
     ("stack_trace", stackTrace);
     ("go_version", go_version);
     ("runtime_env", RuntimeEnv app_env)].
