(* ===== verification/Logging.v ===== *)
(** * Logs

    [logger/logger.go] and the log file of [seclog/seclog.go]: levels and prefixes of messages, the loggers of
    sessions, opening, reopening and closing the files, and the lines of the security log. Files are a parameter
    ([LogOs]); the clock's text is an argument, and so is the text of an operand of a format. *)
From stdpp Require Import base strings list option gmap.
From Stdlib Require Import ZArith Lia Ascii.
From S2P Require Import Prelude GoStrings GoCodec Json JsonString SecLog.

(** Files that are appended to: [os.OpenFile] with [O_APPEND|O_CREATE|O_WRONLY], and the methods of a file. *)
Class LogOs := {
  LogFiles : Type;
  Handle : Type;
  log_Open : LogFiles -> string -> LogFiles * result Handle;
  log_Write : LogFiles -> Handle -> string -> LogFiles * result Z;
  log_Close : LogFiles -> Handle -> LogFiles * option error;
  os_Stdout : Handle;
}.

Inductive LogLevel : Set := ErrorLevel | WarningLevel | InfoLevel | DebugLevel.
Definition level_num (lv : LogLevel) : nat :=
  match lv with ErrorLevel => 0 | WarningLevel => 1 | InfoLevel => 2 | DebugLevel => 3 end.

Definition ErrorPrefix : string := "ERROR: ".
Definition WarningPrefix : string := "WARN : ".
Definition InfoPrefix : string := "INFO : ".
Definition DebugPrefix : string := "DEBUG: ".

(** ** Formats *)

(** An operand under a verb; [%s], [%v] and [%d] show its text. *)
Definition show_operand (verb : ascii) (text : string) : string :=
  if existsb (Ascii.eqb verb) ["s"; "v"; "d"]%char then text
  else if Ascii.eqb verb "q" then Quote text
  else "%!" +:+ String verb ("(string=" +:+ text +:+ ")").

(** [fmt.Sprintf] without flags and widths: the text, and the operands that are left. *)
Fixpoint format_text (f : string) (args : list string) : string * list string :=
  match f with
  | "" => ("", args)
  | String c f1 =>
      if Ascii.eqb c "%" then
        match f1 with
        | "" => ("%!(NOVERB)", args)
        | String v f2 =>
            if Ascii.eqb v "%" then let '(t, r) := format_text f2 args in (String "%" t, r)
            else match args with
            | [] => let '(t, r) := format_text f2 [] in ("%!" +:+ String v ("(MISSING)" +:+ t), r)
            | a :: args => let '(t, r) := format_text f2 args in (show_operand v a +:+ t, r)
            end
        end
      else let '(t, r) := format_text f1 args in (String c t, r)
  end.
Definition Sprintf (f : string) (args : list string) : string :=
  let '(t, rest) := format_text f args in
  match rest with
  | [] => t
  | _ => t +:+ "%!(EXTRA " +:+ Join (map (fun a => "string=" +:+ a) rest) ", " +:+ ")"
  end.

(** ** The log writer *)

Section Logging.
Context `{LO : LogOs}.

Record LogWriter := mkLogWriter { lw_Path : string; lw_file : option Handle }.

Definition LogWriter_Write (w : LogWriter) (p : string) (fs : LogFiles) : LogFiles * result Z :=
  match lw_file w with
  | None => (fs, Err (EText "cannot write to nil log file"))
  | Some h => log_Write fs h p
  end.

(** Opens the file anew and closes the old one. What goes to the standard error comes third. *)
Definition LogWriter_Reopen (w : LogWriter) (fs : LogFiles) : LogWriter * LogFiles * list string * option error :=
  if String.eqb (lw_Path w) "" then (w, fs, [], None)
  else
    match log_Open fs (lw_Path w) with
    | (fs, Err e) => (w, fs, [], Some e)
    | (fs, Ok h) =>
        let '(fs, msgs) := match lw_file w with
                           | None => (fs, [])
                           | Some old =>
                               match log_Close fs old with
                               | (fs, Some e) => (fs, ["cannot close existing logfile: " +:+ error_string e])
                               | (fs, None) => (fs, [])
                               end
                           end in
        (mkLogWriter (lw_Path w) (Some h), fs, msgs, None)
    end.

(** The flag says that the log's output is discarded from now on. *)
Definition LogWriter_Close (w : LogWriter) (fs : LogFiles) : LogFiles * bool * option error :=
  if String.eqb (lw_Path w) "" then (fs, true, None)
  else match lw_file w with
  | None => (fs, false, None)
  | Some h => let '(fs, e) := log_Close fs h in (fs, false, e)
  end.

(** ** The logger *)

(** Where package [log] writes: the standard error until [Init] sets it. *)
Inductive LogOutput : Set := ToStderr | ToWriter | Discarded.

Record LogState := mkLogState {
  lg_level : LogLevel;
  lg_writer : option LogWriter;
  lg_output : LogOutput;
  lg_files : LogFiles;
  lg_stderr : list string;
}.

Definition add_stderr (l : list string) (st : LogState) : LogState :=
  mkLogState (lg_level st) (lg_writer st) (lg_output st) (lg_files st) (lg_stderr st ++ l).
Definition set_files (fs : LogFiles) (st : LogState) : LogState :=
  mkLogState (lg_level st) (lg_writer st) (lg_output st) fs (lg_stderr st).
Definition set_writer (w : LogWriter) (st : LogState) : LogState :=
  mkLogState (lg_level st) (Some w) (lg_output st) (lg_files st) (lg_stderr st).
Definition set_output (o : LogOutput) (st : LogState) : LogState :=
  mkLogState (lg_level st) (lg_writer st) o (lg_files st) (lg_stderr st).

Definition SetLevel (lv : LogLevel) (st : LogState) : LogState :=
  mkLogState lv (lg_writer st) (lg_output st) (lg_files st) (lg_stderr st).
Definition atLeastLogLevel (lv : LogLevel) (st : LogState) : bool := level_num lv <=? level_num (lg_level st).

(** A line of package [log]: the clock's text, the message, and a line break if it has none. *)
Definition log_line (stamp text : string) : string :=
  stamp +:+ text +:+ (if HasSuffix text (str1 nl) then "" else str1 nl).

Definition emit (line : string) (st : LogState) : LogState :=
  match lg_output st, lg_writer st with
  | ToStderr, _ => add_stderr [line] st
  | ToWriter, Some w => set_files (LogWriter_Write w line (lg_files st)).1 st
  | _, _ => st
  end.

Definition log_Print (stamp prefix text : string) (st : LogState) : LogState :=
  emit (log_line stamp (prefix +:+ text)) st.

Definition Info (stamp text : string) (st : LogState) : LogState :=
  if atLeastLogLevel InfoLevel st then log_Print stamp InfoPrefix text st else st.
Definition Infof (stamp f : string) (args : list string) (st : LogState) : LogState :=
  if atLeastLogLevel InfoLevel st then log_Print stamp InfoPrefix (Sprintf f args) st else st.
Definition Warning (stamp text : string) (st : LogState) : LogState :=
  if atLeastLogLevel WarningLevel st then log_Print stamp WarningPrefix text st else st.
Definition Warningf (stamp f : string) (args : list string) (st : LogState) : LogState :=
  if atLeastLogLevel WarningLevel st then log_Print stamp WarningPrefix (Sprintf f args) st else st.
Definition Error (stamp text : string) (st : LogState) : LogState := log_Print stamp ErrorPrefix text st.
Definition Errorf (stamp f : string) (args : list string) (st : LogState) : LogState :=
  log_Print stamp ErrorPrefix (Sprintf f args) st.
Definition Debug (stamp text : string) (st : LogState) : LogState :=
  if atLeastLogLevel DebugLevel st then log_Print stamp DebugPrefix text st else st.
Definition Debugf (stamp f : string) (args : list string) (st : LogState) : LogState :=
  if atLeastLogLevel DebugLevel st then log_Print stamp DebugPrefix (Sprintf f args) st else st.

(** [Fatalf] writes and ends the program with status 1. *)
Definition Fatalf (stamp f : string) (args : list string) (st : LogState) : LogState * Z :=
  (log_Print stamp ErrorPrefix (Sprintf f args) st, 1%Z).

(** The logger of a session puts its ID before the text or, with a format, before the format. *)
Definition sessionFormat (sid : string) : string := Sprintf "[%s] " [sid].
Definition SessionLogger_Info (prefix stamp text : string) : LogState -> LogState := Info stamp (prefix +:+ text).
Definition SessionLogger_Infof (prefix stamp f : string) (args : list string) : LogState -> LogState :=
  Infof stamp (prefix +:+ f) args.
Definition SessionLogger_Warning (prefix stamp text : string) : LogState -> LogState := Warning stamp (prefix +:+ text).
Definition SessionLogger_Warningf (prefix stamp f : string) (args : list string) : LogState -> LogState :=
  Warningf stamp (prefix +:+ f) args.
Definition SessionLogger_Error (prefix stamp text : string) : LogState -> LogState := Error stamp (prefix +:+ text).
Definition SessionLogger_Errorf (prefix stamp f : string) (args : list string) : LogState -> LogState :=
  Errorf stamp (prefix +:+ f) args.
Definition SessionLogger_Debug (prefix stamp text : string) : LogState -> LogState := Debug stamp (prefix +:+ text).
Definition SessionLogger_Debugf (prefix stamp f : string) (args : list string) : LogState -> LogState :=
  Debugf stamp (prefix +:+ f) args.

Definition logger_Init (lv : LogLevel) (path : string) (st : LogState) : LogState * option error :=
  let st := SetLevel lv st in
  if String.eqb path "" then (set_output ToWriter (set_writer (mkLogWriter "" (Some os_Stdout)) st), None)
  else
    let '(w, fs, msgs, e) := LogWriter_Reopen (mkLogWriter path None) (lg_files st) in
    let st := set_writer w (add_stderr msgs (set_files fs st)) in
    match e with
    | Some e => (add_stderr ["cannot open log file: " +:+ error_string e] st, Some e)
    | None => (set_output ToWriter st, None)
    end.

Definition logger_Close (st : LogState) : LogState :=
  match lg_writer st with
  | None => st
  | Some w =>
      let '(fs, discard, e) := LogWriter_Close w (lg_files st) in
      let st := set_files fs st in
      let st := if discard then set_output Discarded st else st in
      match e with
      | Some e => add_stderr ["cannot close logfile: " +:+ error_string e] st
      | None => st
      end
  end.

Definition logger_Reopen (stamp : string) (st : LogState) : LogState :=
  match lg_writer st with
  | None => st
  | Some w =>
      let st := if String.eqb (lw_Path w) "" then st
                else Warningf stamp "reopening log file %s" [lw_Path w] st in
      let '(w, fs, msgs, e) := LogWriter_Reopen w (lg_files st) in
      let st := set_writer w (add_stderr msgs (set_files fs st)) in
      match e with
      | Some e => add_stderr ["cannot reopen logfile: " +:+ error_string e] st
      | None => st
      end
  end.

(** ** The security log *)

(** The writer, and the host's name once the log is set up; before that events are discarded. *)
Record SecState := mkSecState { sec_writer : option LogWriter; sec_hostname : option string }.
Definition no_seclog : SecState := mkSecState None None.

(** What goes to the standard error comes third. *)
Definition seclog_Init (logfile : string) (hostname : result string) (s : SecState) (fs : LogFiles) :
    SecState * LogFiles * list string * option error :=
  let '(w, fs, msgs, e) := LogWriter_Reopen (mkLogWriter logfile None) fs in
  let s := mkSecState (Some w) (sec_hostname s) in
  match e with
  | Some e => (s, fs, msgs, Some e)
  | None =>
      match hostname with
      | Err e => (s, fs, msgs, Some (EWrap "cannot obtain host name: " e ""))
      | Ok h => (mkSecState (Some w) (Some h), fs, msgs, None)
      end
  end.

Definition seclog_Close (s : SecState) (fs : LogFiles) : LogFiles * bool * option error :=
  match sec_writer s with
  | None => (fs, false, None)
  | Some w =>
      let '(fs, discard, e) := LogWriter_Close w fs in
      (fs, discard, (fun e => EWrap "cannot close security log file: " e "") <$> e)
  end.

(** The warning of the reopening goes to the log, which has its own state. *)
Definition seclog_Reopen (stamp : string) (s : SecState) (st : LogState) : SecState * LogState * option error :=
  match sec_writer s with
  | None => (s, st, None)
  | Some w =>
      let st := Warningf stamp "reopening security log file %s" [lw_Path w] st in
      let '(w, fs, msgs, e) := LogWriter_Reopen w (lg_files st) in
      (mkSecState (Some w) (sec_hostname s), add_stderr msgs (set_files fs st),
       (fun e => EWrap "cannot reopen security log file: " e "") <$> e)
  end.

Definition level_text (lv : Level) : string :=
  match lv with LevelInfo => "INFO" | LevelWarn => "WARN" | LevelCritical => "CRITICAL" end.

(** The members of a line, with the renamed keys of [Init]. *)
Definition event_members (stamp hostname version : string) (ev : SecEvent) : list (string * string) :=
  [("datetime", stamp); ("level", level_text (se_Level ev)); ("description", se_Description ev);
   ("hostname", hostname); ("type", "security"); ("appid", "fetch-service:" +:+ version)] ++ se_Attrs ev.

Definition jtexts (l : list (string * string)) : json :=
  JObj (map (fun kv => (json_escape false (fst kv), jstring false (snd kv))) l).

(** The JSON handler of [log/slog] escapes strings as [encoding/json] does without the escaping of markup. *)
Definition event_line (stamp hostname version : string) (ev : SecEvent) : string :=
  json_print (jtexts (event_members stamp hostname version ev)) +:+ str1 nl.

(** An event is written, or discarded if the log is not set up; errors of the file are ignored. *)
Definition log_event (stamp version : string) (ev : SecEvent) (s : SecState) (fs : LogFiles) : LogFiles :=
  match sec_hostname s, sec_writer s with
  | Some h, Some w => (LogWriter_Write w (event_line stamp h version ev) fs).1
  | _, _ => fs
  end.
End Logging.

(** ** Lines cannot be forged *)

Definition visible (c : ascii) : bool := negb (byte_Z c <? 32)%Z.

Lemma visible_high p : str_forall high p = true -> str_forall visible p = true.
Proof.
  induction p as [|c p IH]; [done|]. cbn [str_forall]. intros [Hc Hp]%andb_true_iff. rewrite IH by done.
  unfold high in Hc. unfold visible. rewrite andb_true_r. apply negb_true_iff. lia.
Qed.

Lemma visible_view c p : ascii_view c p -> str_forall visible p = true.
Proof.
  intros [e He _| |_ _ Hc].
  - cbn [str_forall str1]. rewrite andb_true_r. unfold is_escape in He.
    apply existsb_exists in He as (x & Hx & ->%Ascii.eqb_eq). simpl in Hx. by decompose [or] Hx; subst.
  - unfold u00. cbn [str_forall String.append str1 EncodeToString]. rewrite andb_true_r.
    by destruct c as [[] [] [] [] [] [] [] []].
  - cbn [str_forall str1]. unfold visible. by rewrite Hc.
Qed.

(** The literal of a string has no control characters. *)
Lemma visible_escape html n s : str_forall visible (escape n html s) = true.
Proof.
  revert s; induction n as [|n IH]; intros s; [done|]. destruct s as [|c s]; [done|]. cbn [escape].
  destruct (byte_Z c <? 128)%Z eqn:Ec.
  { rewrite str_forall_app, IH, andb_true_r. by eapply visible_view, escape_ascii_view. }
  destruct (line_separator _) as [e|] eqn:El.
  { rewrite str_forall_app, IH, andb_true_r. revert El. unfold line_separator.
    destruct (HasPrefix _ _); [|destruct (HasPrefix _ _); [|done]]; by intros [= <-]. }
  destruct (rune_len _) as [|k] eqn:En.
  { change (String backslash ("ufffd" +:+ escape n html s)) with (String backslash "ufffd" +:+ escape n html s).
    by rewrite str_forall_app, IH. }
  rewrite str_forall_app, IH, andb_true_r. apply visible_high, rune_bytes_high; [unfold high; lia|done].
Qed.

Lemma visible_members l : str_forall visible (print_members
  (map (fun kv => (json_escape false (fst kv), jstring false (snd kv))) l)) = true.
Proof.
  assert (He : forall s, str_forall visible (json_escape false s) = true) by (intros s; apply visible_escape).
  induction l as [|[k v] l IH]; [done|]. cbn [map fst snd]. destruct l as [|kv l].
  - cbn [map print_members jstring json_print]. cbn [String.append str_forall].
    rewrite !str_forall_app. cbn [str_forall]. rewrite He. cbn [String.append str_forall].
    rewrite str_forall_app, He. done.
  - cbn [map] in *. rewrite print_members_cons by done. cbn [jstring json_print String.append str_forall].
    rewrite !str_forall_app. cbn [str_forall]. rewrite He. cbn [String.append str_forall].
    rewrite !str_forall_app, He, IH. done.
Qed.

Definition read_member (kv : string * json) : option (string * string) :=
  match snd kv with JStr raw => Some (json_unescape (fst kv), json_unescape raw) | _ => None end.
(** A line as a reader of the log decodes it: its members in order, nothing else before or after them. *)
Definition read_event (line : string) : result (list (string * string)) :=
  j ← json_parse line;
  match j with
  | JObj m => Ok (omap read_member m)
  | _ => Err json_syntax_error
  end.
Definition valid_member (kv : string * string) : string * string := (ToValidUTF8 (fst kv), ToValidUTF8 (snd kv)).

Lemma read_members l :
  omap read_member (map (fun kv => (json_escape false (fst kv), jstring false (snd kv))) l) = map valid_member l.
Proof.
  induction l as [|[k v] l IH]; [done|]. cbn [map fst snd jstring]. unfold valid_member at 1. cbn [fst snd].
  rewrite <- (json_unescape_escape false k), <- (json_unescape_escape false v), <- IH. done.
Qed.

Lemma jtexts_wf l : json_wf (jtexts l) = true.
Proof.
  unfold jtexts. cbn [json_wf]. induction l as [|[k v] l IH]; [done|]. cbn [map forallb fst snd jstring json_wf].
  by rewrite !json_escape_valid, IH.
Qed.


(** ** Levels and formats *)

Lemma format_plain p f args : occurs "%" p = false ->
  format_text (p +:+ f) args = (p +:+ (format_text f args).1, (format_text f args).2).
Proof.
  induction p as [|c p IH]; intros H; [cbn [String.append]; by destruct (format_text f args)|].
  cbn [occurs] in H. apply orb_false_iff in H as [Hc Hp]. apply bool_decide_eq_false in Hc.
  cbn [String.append format_text]. destruct (Ascii.eqb_spec c "%"); [done|]. by rewrite IH.
Qed.

Lemma Sprintf_plain p f args : occurs "%" p = false -> Sprintf (p +:+ f) args = p +:+ Sprintf f args.
Proof.
  intros H. unfold Sprintf. rewrite format_plain by done. destruct (format_text f args) as [t r]. simpl.
  destruct r; [done|]. by rewrite app_str_assoc.
Qed.

Lemma sessionFormat_eq sid : sessionFormat sid = "[" +:+ sid +:+ "] ".
Proof. done. Qed.

(** What a call of the logger writes. *)
Definition message_level (lv : LogLevel) : string :=
  match lv with
  | ErrorLevel => ErrorPrefix | WarningLevel => WarningPrefix | InfoLevel => InfoPrefix | DebugLevel => DebugPrefix
  end.
Definition logf `{LO : LogOs} (lv : LogLevel) : string -> string -> list string -> LogState -> LogState :=
  match lv with ErrorLevel => Errorf | WarningLevel => Warningf | InfoLevel => Infof | DebugLevel => Debugf end.
Definition session_logf `{LO : LogOs} (lv : LogLevel) :
    string -> string -> string -> list string -> LogState -> LogState :=
  match lv with
  | ErrorLevel => SessionLogger_Errorf | WarningLevel => SessionLogger_Warningf
  | InfoLevel => SessionLogger_Infof | DebugLevel => SessionLogger_Debugf
  end.

(** A message is written exactly if its level is at most the configured one, and then as one line with its prefix;
    errors always are. The logger of a session adds the session's ID in brackets, provided that it has no percent
    sign. *)
Theorem log_levels : forall `{LO : LogOs} lv stamp f args sid (st : LogState),
  logf lv stamp f args st =
    (if level_num lv <=? level_num (lg_level st) then
       emit (log_line stamp (message_level lv +:+ Sprintf f args)) st else st) /\
  (occurs "%" sid = false ->
   session_logf lv (sessionFormat sid) stamp f args st =
     (if level_num lv <=? level_num (lg_level st) then
        emit (log_line stamp (message_level lv +:+ "[" +:+ sid +:+ "] " +:+ Sprintf f args)) st else st)).
Proof.
  intros LO lv stamp f args sid st. split; [by destruct lv|]. intros Hs.
  assert (H : Sprintf (sessionFormat sid +:+ f) args = "[" +:+ sid +:+ "] " +:+ Sprintf f args).
  { rewrite sessionFormat_eq, Sprintf_plain; [by rewrite !app_str_assoc|]. by rewrite !occurs_app, Hs. }
  destruct lv; unfold session_logf, SessionLogger_Errorf, SessionLogger_Warningf, SessionLogger_Infof,
    SessionLogger_Debugf, Errorf, Warningf, Infof, Debugf; by rewrite H.
Qed.

(** With a percent sign in its ID, a session's messages show other operands in the wrong places. *)
Lemma session_id_as_format :
  Sprintf (sessionFormat "50%s" +:+ "artifact %s: %s") ["a"; "rejected"] =
  "[50a] artifact rejected: %!s(MISSING)".
Proof. reflexivity. Qed.

(** ** Reopening *)

Section Reopen.
Context `{LO : LogOs}.

(** Reopening the log: without a path nothing happens; if the file cannot be opened the old one stays in use and is
    not closed; else the new file is used from then on and the old one is closed, once. *)
Theorem reopen_spec : forall (w w' : LogWriter) fs fs' msgs e,
  LogWriter_Reopen w fs = (w', fs', msgs, e) ->
  lw_Path w' = lw_Path w /\
  (lw_Path w = "" -> w' = w /\ fs' = fs /\ e = None) /\
  (e <> None -> w' = w /\ fs' = (log_Open fs (lw_Path w)).1) /\
  (lw_Path w <> "" -> e = None -> exists h, (log_Open fs (lw_Path w)).2 = Ok h /\ lw_file w' = Some h /\
     fs' = match lw_file w with
           | Some old => (log_Close (log_Open fs (lw_Path w)).1 old).1
           | None => (log_Open fs (lw_Path w)).1
           end).
Proof.
  intros w w' fs fs' msgs e H. unfold LogWriter_Reopen in H.
  destruct (String.eqb_spec (lw_Path w) "") as [Hp|Hp]; [by simplify_eq; split_and!|].
  destruct (log_Open fs (lw_Path w)) as [fs1 [h|e1]]; simpl; [|by simplify_eq; split_and!].
  destruct (lw_file w) as [old|]; [|simplify_eq; split_and!; naive_solver].
  destruct (log_Close fs1 old) as [fs2 [e2|]]; simplify_eq; split_and!; naive_solver.
Qed.
End Reopen.

(** ** A file system for logs *)

(** Names of files, their contents by number, and the handles that are open. *)
Record LogDisk := mkLogDisk {
  ld_names : gmap string nat;
  ld_files : gmap nat string;
  ld_open : gmap nat nat;
}.
Definition disk_open (d : LogDisk) (p : string) : LogDisk * result nat :=
  let h := fresh (dom (ld_open d)) in
  match ld_names d !! p with
  | Some i => (mkLogDisk (ld_names d) (ld_files d) (<[h := i]> (ld_open d)), Ok h)
  | None =>
      let i := fresh (dom (ld_files d)) in
      (mkLogDisk (<[p := i]> (ld_names d)) (<[i := ""]> (ld_files d)) (<[h := i]> (ld_open d)), Ok h)
  end.
Definition disk_write (d : LogDisk) (h : nat) (t : string) : LogDisk * result Z :=
  match ld_open d !! h with
  | Some i => (mkLogDisk (ld_names d) (alter (fun s => s +:+ t) i (ld_files d)) (ld_open d),
               Ok (Z.of_nat (String.length t)))
  | None => (d, Err (EText "file already closed"))
  end.
Definition disk_close (d : LogDisk) (h : nat) : LogDisk * option error :=
  match ld_open d !! h with
  | Some _ => (mkLogDisk (ld_names d) (ld_files d) (delete h (ld_open d)), None)
  | None => (d, Some (EText "file already closed"))
  end.
Definition disk_rename (d : LogDisk) (p q : string) : LogDisk :=
  match ld_names d !! p with
  | Some i => mkLogDisk (<[q := i]> (delete p (ld_names d))) (ld_files d) (ld_open d)
  | None => d
  end.
Definition disk_read (d : LogDisk) (p : string) : option string := ld_names d !! p ≫= fun i => ld_files d !! i.
Definition disk_log : LogOs :=
  {| LogFiles := LogDisk; Handle := nat; log_Open := disk_open; log_Write := disk_write; log_Close := disk_close;
     os_Stdout := 0 |}.

Section Rotation.
#[local] Existing Instance disk_log.
Definition empty_disk : LogFiles := mkLogDisk ∅ ∅ ∅.
Definition demo_reopen : LogWriter * LogFiles * list string * option error :=
  LogWriter_Reopen (mkLogWriter "/log" None) empty_disk.

Lemma reopen_spec_witness : demo_reopen.2 = None /\ lw_Path demo_reopen.1.1.1 = "/log".
Proof.
  assert (He : demo_reopen = (demo_reopen.1.1.1, demo_reopen.1.1.2, demo_reopen.1.2, demo_reopen.2)).
  { by repeat rewrite <- surjective_pairing. }
  split; [by vm_compute|]. exact (proj1 (reopen_spec _ _ _ _ _ _ He)).
Defined.

(** A rotation: a line, the file is renamed, another line, the log is reopened, a third line. *)
Definition rotated : LogDisk :=
  let st := (logger_Init InfoLevel "/log" (mkLogState InfoLevel None ToStderr empty_disk [])).1 in
  let st := Info "t1 " "one" st in
  let st := set_files (disk_rename (lg_files st) "/log" "/log.1") st in
  let st := Info "t2 " "two" st in
  let st := logger_Reopen "t3 " st in
  lg_files (Debug "t5 " "four" (Info "t4 " "three" st)).

Lemma rotation_loses_nothing :
  disk_read rotated "/log.1" = Some ("t1 INFO : one" +:+ str1 nl +:+ "t2 INFO : two" +:+ str1 nl +:+
    "t3 WARN : reopening log file /log" +:+ str1 nl) /\
  disk_read rotated "/log" = Some ("t4 INFO : three" +:+ str1 nl) /\ size (ld_open rotated) = 1.
Proof. split_and!; by vm_compute. Qed.
End Rotation.
