(* ===== verification/Inspectors.v ===== *)
(** * Running the inspectors

    [inspectors/inspectors.go], the inspector interface of [inspectors/common/common.go] and the
    opening of artifact files of [inspectors/files/artifact_file.go]: which inspectors exist, in
    which order they run on a request and on a downloaded file, which of them a strict session
    allows to run, and what an error does.

    An inspector is seen through its interface. Its own fields, the session cache directory it
    shares with others and whatever commands it runs are a state [IS] it reads and updates. *)
From stdpp Require Import base gmap strings list option fin_maps.
From Stdlib Require Import ZArith Lia Ascii.
From S2P Require Import Prelude GoStrings GoCodec Platform Digests Artifact Net Config.

Section Inspectors.
Context `{ML : MimeLib} `{GL : GlobLib} `{OS : Os} {IS : Type}.

(** ** The interface *)

Record Inspector := mkInspector {
  ID : string;
  InspectRequest : IS -> Artifact -> IS * Artifact * option error;
  (** The reader stands at the start of the file: its content. *)
  InspectArtifact : IS -> string -> Artifact -> IS * Artifact * option error;
}.

(** What does not belong to an inspection: inspectors get at an artifact through the
    [RequestArtifact] and [ResponseArtifact] interfaces. Of the request they may replace
    the body, with its length and encoding. *)
Definition head_of (q : HttpRequest) : string * URL * Header :=
  (Method q, ReqURL q, Header_Del (ReqHeader q) "Content-Encoding").
Definition request_head (a : Artifact) : option (string * URL * Header) := head_of <$> Request a.

Record artifact_frame (a a' : Artifact) : Prop := {
  fr_version : MetadataVersion a' = MetadataVersion a;
  fr_result : Result a' = Result a;
  fr_sha1 : Sha1 (Meta a') = Sha1 (Meta a);
  fr_sha256 : Sha256 (Meta a') = Sha256 (Meta a);
  fr_size : Size (Meta a') = Size (Meta a);
  fr_downloads : Downloads a' = Downloads a;
  fr_current : CurrentDownload a' = CurrentDownload a;
  fr_assetdir : AssetDir a' = AssetDir a;
  fr_tempfile : Tempfile a' = Tempfile a;
  fr_session : SessionID a' = SessionID a;
  fr_cachedir : SessionCacheDir a' = SessionCacheDir a;
  fr_request : request_head a' = request_head a;
}.

Record request_frame (id : string) (a a' : Artifact) : Prop := {
  rq_frame : artifact_frame a a';
  rq_meta : Meta a' = Meta a;
  rq_response : ResponseInspection a' = ResponseInspection a;
  rq_own : forall id', id' <> id -> RequestInspection a' !! id' = RequestInspection a !! id';
}.

Record response_frame (id : string) (a a' : Artifact) : Prop := {
  rs_frame : artifact_frame a a';
  rs_request : RequestInspection a' = RequestInspection a;
  rs_own : forall id', id' <> id -> ResponseInspection a' !! id' = ResponseInspection a !! id';
}.

(** What the runner relies on: an inspector changes nothing but its own opinion, and in response
    inspection also the descriptive metadata. *)
Class InspectorLaws (ins : Inspector) : Prop := {
  law_request : forall st a st' a' e,
    InspectRequest ins st a = (st', a', e) -> request_frame (ID ins) a a';
  law_response : forall st data a st' a' e,
    InspectArtifact ins st data a = (st', a', e) -> response_frame (ID ins) a a';
}.

(** ** The default inspector *)

Definition DefaultInspector_InspectRequest (st : IS) (a : Artifact) :
    IS * Artifact * option error :=
  if negb (RequestRejected a) && negb (RequestPending a) then
    (st, SetRequestUnknown "default" "the request was not recognized by any format inspector" a,
     None)
  else (st, a, None).

Definition DefaultInspector_InspectArtifact (st : IS) (data : string) (a : Artifact) :
    IS * Artifact * option error :=
  if negb (ResponseRejected a) && negb (ResponseApproved a) then
    (st, SetResponseUnknown "default"
           "the artifact file content was not recognized by any format inspector" NoMetadata a,
     None)
  else (st, a, None).

Definition DefaultInspector : Inspector :=
  mkInspector "default" DefaultInspector_InspectRequest DefaultInspector_InspectArtifact.

(** ** The registry *)

(** The constructors of the format inspectors, by the names the source gives them. *)
Record Constructors := mkConstructors {
  NewSnapInspector : SnapInspectorConfig -> Inspector;
  NewSnapAssertionInspector : Inspector;
  NewSnapInfoInspector : Inspector;
  NewSnapRefreshInspector : Inspector;
  NewSnapSectionsInspector : Inspector;
  NewSnapAuthSessionsInspector : Inspector;
  NewSnapAuthNonceInspector : Inspector;
  NewSnapAuthRequestIDInspector : Inspector;
  NewSnapNamesInspector : Inspector;
  NewStoreInfoAPIInspector : StoreInspectorConfig -> BldBinInspectorConfig -> Inspector;
  NewStoreResolveAPIInspector : StoreInspectorConfig -> Inspector;
  NewStoreTransformsAPIInspector : StoreInspectorConfig -> Inspector;
  NewStoreAppMediaInspector : StoreInspectorConfig -> Inspector;
  NewBldBinInspector : BldBinInspectorConfig -> Inspector;
  NewSimpleIndexInspector : Inspector;
  NewWheelInspector : Inspector;
  NewSdistInspector : Inspector;
  NewMetadataInspector : Inspector;
  NewAptReleaseInspector : AptInspectorConfig -> Inspector;
  NewAptPackagesInspector : AptInspectorConfig -> Inspector;
  NewAptTranslationInspector : AptInspectorConfig -> Inspector;
  NewAptCommandsInspector : AptInspectorConfig -> Inspector;
  NewDebInspector : AptInspectorConfig -> Inspector;
  NewChiselReleaseInspector : ChiselInspectorConfig -> AptInspectorConfig -> Inspector;
  NewSmartQueryInspector : GitInspectorConfig -> Inspector;
  NewUploadPackInspector : GitInspectorConfig -> Inspector;
  NewGoModuleGitInspector : Inspector;
  NewRockcraftInspector : CraftsInspectorConfig -> Inspector;
  NewCharmcraftInspector : CraftsInspectorConfig -> Inspector;
  NewSnapcraftInspector : CraftsInspectorConfig -> Inspector;
  NewSourcecraftInspector : CraftsInspectorConfig -> Inspector;
  NewBincraftInspector : CraftsInspectorConfig -> Inspector;
  NewIndexInspector : Inspector;
  NewCrateInspector : Inspector;
  NewJarInspector : Inspector;
  NewPomInspector : Inspector;
  NewSimpleStreamsIndexInspector : Inspector;
  NewSimpleStreamsDownloadInspector : Inspector;
  NewRootfsInspector : Inspector;
  NewInstanceTypesInspector : Inspector;
}.

Record Inspectors := mkInspectors {
  insmap : gmap string Inspector;
  ids : list string;
  permissive : bool;
}.

(** The list of [New]: BldBin after the store API, the Go and craft inspectors after git, the
    default inspector last. *)
Definition insList (C : Constructors) (cfg : InspectorsConfig) : list Inspector := [
  NewSnapInspector C (Snap cfg);
  NewSnapAssertionInspector C;
  NewSnapInfoInspector C;
  NewSnapRefreshInspector C;
  NewSnapSectionsInspector C;
  NewSnapAuthSessionsInspector C;
  NewSnapAuthNonceInspector C;
  NewSnapAuthRequestIDInspector C;
  NewSnapNamesInspector C;
  NewStoreInfoAPIInspector C (Store cfg) (BldBin cfg);
  NewStoreResolveAPIInspector C (Store cfg);
  NewStoreTransformsAPIInspector C (Store cfg);
  NewStoreAppMediaInspector C (Store cfg);
  NewBldBinInspector C (BldBin cfg);
  NewSimpleIndexInspector C;
  NewWheelInspector C;
  NewSdistInspector C;
  NewMetadataInspector C;
  NewAptReleaseInspector C (Apt cfg);
  NewAptPackagesInspector C (Apt cfg);
  NewAptTranslationInspector C (Apt cfg);
  NewAptCommandsInspector C (Apt cfg);
  NewDebInspector C (Apt cfg);
  NewChiselReleaseInspector C (Chisel cfg) (Apt cfg);
  NewSmartQueryInspector C (Git cfg);
  NewUploadPackInspector C (Git cfg);
  NewGoModuleGitInspector C;
  NewRockcraftInspector C (Crafts cfg);
  NewCharmcraftInspector C (Crafts cfg);
  NewSnapcraftInspector C (Crafts cfg);
  NewSourcecraftInspector C (Crafts cfg);
  NewBincraftInspector C (Crafts cfg);
  NewIndexInspector C;
  NewCrateInspector C;
  NewJarInspector C;
  NewPomInspector C;
  NewSimpleStreamsIndexInspector C;
  NewSimpleStreamsDownloadInspector C;
  NewRootfsInspector C;
  NewInstanceTypesInspector C;
  DefaultInspector
].

(** Registers inspectors in order; a later one with the same ID replaces the former. *)
Fixpoint register_map (l : list Inspector) (m : gmap string Inspector) : gmap string Inspector :=
  match l with [] => m | ins :: l' => register_map l' (<[ID ins := ins]> m) end.
Definition register (perm : bool) (l : list Inspector) : Inspectors :=
  mkInspectors (register_map l ∅) (map ID l) perm.

Definition Inspectors_New (C : Constructors) (perm : bool) (cfg : InspectorsConfig) : Inspectors :=
  register perm (insList C cfg).

Definition GetInspector (insps : Inspectors) (id : string) : result Inspector :=
  match insmap insps !! id with
  | None => Err (EText ("inspector '" +:+ id +:+ "' not registered"))
  | Some ins => Ok ins
  end.

Definition Inspectors_List (insps : Inspectors) : list string := ids insps.

(** ** Running *)

(** The runtime panic of a call on a nil inspector. *)
Definition nil_dereference : error :=
  ESentinel "invalid memory address or nil pointer dereference".

Definition error_annotation (e : error) : Annotation :=
  {[ "error-message" := AStr (error_string e) ]}.

(** The loop of [RunRequestInspectors]. *)
Fixpoint run_request (m : gmap string Inspector) (l : list string) (st : IS) (a : Artifact) :
    IS * Artifact * option error :=
  match l with
  | [] => (st, a, None)
  | id :: l' =>
      match m !! id with
      | None => (st, a, Some nil_dereference)
      | Some ins =>
          match InspectRequest ins st a with
          | (st, a, Some err) =>
              (st, AnnotateRequest (ID ins) (error_annotation err)
                     (SetRequestRejected (ID ins) "error inspecting request" a), Some err)
          | (st, a, None) => run_request m l' st a
          end
      end
  end.

Definition RunRequestInspectors (insps : Inspectors) (st : IS) (a : Artifact) :
    IS * Artifact * option error := run_request (insmap insps) (ids insps) st a.

Definition OpenArtifactFile (fs : FS) (filename : string) : result string := os_ReadFile fs filename.

(** If not permissive, only inspectors with a pending opinion and the default inspector run. *)
Definition may_run (perm : bool) (a : Artifact) (id : string) : bool :=
  if negb perm && negb (String.eqb id "default") then
    match RequestInspection a !! id with
    | None => false
    | Some reqin => bool_decide (Opinion reqin = Pending)
    end
  else true.

(** The loop of [RunArtifactInspectors]. *)
Fixpoint run_artifact (m : gmap string Inspector) (perm : bool) (data : string) (l : list string)
    (st : IS) (a : Artifact) : IS * Artifact * option error :=
  match l with
  | [] => (st, a, None)
  | id :: l' =>
      if negb (may_run perm a id) then run_artifact m perm data l' st a
      else match m !! id with
      | None => (st, a, Some nil_dereference)
      | Some ins =>
          match InspectArtifact ins st data a with
          | (st, a, Some err) =>
              (st, AnnotateResponse (ID ins) (error_annotation err)
                     (SetResponseRejected (ID ins) "error inspecting artifact" NoMetadata a),
               Some err)
          | (st, a, None) => run_artifact m perm data l' st a
          end
      end
  end.

Definition data_file (dir : string) (a : Artifact) : string :=
  filepath_Join [dir; Sha256_String (Sha256 (Meta a)) +:+ ".data"].

Definition set_detected_type (mtype : MIME) (a : Artifact) : Artifact :=
  let o := Meta a in
  set_MimeType (Some mtype) (set_Meta (mkMetadata (MIME_String mtype) (Sha1 o) (Sha256 o) (Size o)
    (Name o) (Version o) (Vendor o) (Description o) (Author o) (AuthorEmail o) (Architecture o)
    (License o) (Copyright o) (SourcePackage o) (StoreRevision o) (AptSuite o) (ContentID o)) a).

(** Opens the file, detects its type and runs the inspectors. Seeking a regular file to its start
    does not fail. *)
Definition RunArtifactInspectors (insps : Inspectors) (dir : string) (fs : FS) (st : IS)
    (a : Artifact) : IS * Artifact * option error :=
  match OpenArtifactFile fs (data_file dir a) with
  | Err err => (st, a, Some err)
  | Ok data =>
      match DetectReader data with
      | Err err => (st, a, Some err)
      | Ok mtype =>
          run_artifact (insmap insps) (permissive insps) data (ids insps) st
            (set_detected_type mtype a)
      end
  end.

(** ** Lemmas *)

Lemma artifact_frame_refl a : artifact_frame a a.
Proof. by split. Qed.

Lemma artifact_frame_trans a b c : artifact_frame a b -> artifact_frame b c -> artifact_frame a c.
Proof. intros [] []. split; congruence. Qed.

#[export] Instance artifact_frame_preorder : PreOrder artifact_frame.
Proof. split; [exact artifact_frame_refl|exact artifact_frame_trans]. Qed.

Lemma AnnotateRequest_other id id' ann a : id' <> id ->
  RequestInspection (AnnotateRequest id ann a) !! id' = RequestInspection a !! id'.
Proof. intros. simpl. unfold annotate. by rewrite lookup_alter_ne. Qed.

Lemma AnnotateResponse_other id id' ann a : id' <> id ->
  ResponseInspection (AnnotateResponse id ann a) !! id' = ResponseInspection a !! id'.
Proof. intros. simpl. unfold annotate. by rewrite lookup_alter_ne. Qed.

Lemma SetResponse_other id id' reason m a : id' <> id ->
  ResponseInspection (SetResponseRejected id reason m a) !! id' = ResponseInspection a !! id' /\
  ResponseInspection (SetResponseUnknown id reason m a) !! id' = ResponseInspection a !! id' /\
  ResponseInspection (SetResponseApproved id reason m a) !! id' = ResponseInspection a !! id'.
Proof.
  intros. unfold SetResponseRejected, SetResponseUnknown, SetResponseApproved. simpl.
  unfold addInspection. rewrite !lookup_insert_ne by done.
  by destruct (decide (m <> NoMetadata)), (any_opinion Approved (ResponseInspection a)),
    (bool_decide (m <> NoMetadata)).
Qed.

Lemma SetResponse_frame id reason m a :
  response_frame id a (SetResponseRejected id reason m a) /\
  response_frame id a (SetResponseUnknown id reason m a) /\
  response_frame id a (SetResponseApproved id reason m a).
Proof.
  pose proof (fun id' => SetResponse_other id id' reason m a) as H.
  unfold SetResponseRejected, SetResponseUnknown, SetResponseApproved in *.
  destruct (decide (m <> NoMetadata)), (any_opinion Approved (ResponseInspection a)),
    (bool_decide (m <> NoMetadata)); simpl in *;
    (split; [|split]); split; try done; try (by split); intros id' Hid; apply (H id' Hid).
Qed.

#[export] Instance DefaultInspector_laws : InspectorLaws DefaultInspector.
Proof.
  split; simpl.
  - unfold DefaultInspector_InspectRequest. intros st a st' a' e H.
    destruct (_ && _); simplify_eq; (split; [by split|done|done|]); [|done].
    intros id' Hid. simpl. unfold addInspection. by rewrite lookup_insert_ne.
  - unfold DefaultInspector_InspectArtifact. intros st data a st' a' e H.
    destruct (_ && _); simplify_eq; [|by split].
    apply (SetResponse_frame "default").
Qed.

(** Well-formed registries: every listed ID has an inspector of that ID, and inspectors respect
    their interface. *)
Record insps_wf (insps : Inspectors) : Prop := {
  wf_ids : forall id, In id (ids insps) ->
    exists ins, insmap insps !! id = Some ins /\ ID ins = id;
  wf_laws : forall id ins, insmap insps !! id = Some ins -> InspectorLaws ins /\ ID ins = id;
}.

Lemma register_lookup l m id ins :
  register_map l m !! id = Some ins ->
  (In ins l /\ ID ins = id) \/ m !! id = Some ins.
Proof.
  revert m; induction l as [|i l IH]; intros m; simpl; [by right|].
  intros H. apply IH in H as [[H Hid]|H]; [by left; auto|].
  rewrite lookup_insert in H. case_decide; simplify_eq; auto.
Qed.

Lemma register_listed l m id : In id (map ID l) \/ is_Some (m !! id) ->
  is_Some (register_map l m !! id).
Proof.
  revert m; induction l as [|i l IH]; intros m; simpl; [by intros [[]|]|].
  intros H. apply IH. destruct (decide (ID i = id)) as [->|Hne].
  - right. rewrite lookup_insert_eq. eauto.
  - rewrite lookup_insert_ne by done. destruct H as [[H|H]|H]; [done|by left|by right].
Qed.

Lemma register_wf perm l : Forall InspectorLaws l -> insps_wf (register perm l).
Proof.
  intros Hl. split; simpl.
  - intros id Hid. destruct (register_listed l ∅ id (or_introl Hid)) as [ins Hins].
    exists ins. split; [done|]. apply register_lookup in Hins as [[_ H]|H]; [done|].
    by rewrite lookup_empty in H.
  - intros id ins H. apply register_lookup in H as [[Hin H]|H].
    + rewrite List.Forall_forall in Hl. auto.
    + by rewrite lookup_empty in H.
Qed.

(** Lists of distinct inspectors are found under their IDs. *)
Lemma register_distinct perm l ins : NoDup (map ID l) -> In ins l ->
  insmap (register perm l) !! ID ins = Some ins.
Proof.
  intros Hnd Hin. destruct (register_listed l ∅ (ID ins)) as [ins' H].
  { left. by apply in_map. }
  simpl. rewrite H. apply register_lookup in H as [[Hin' H]|H]; [|by rewrite lookup_empty in H].
  f_equal. clear - Hnd Hin Hin' H. induction l as [|i l IH]; [done|].
  simpl in Hnd. apply NoDup_cons in Hnd as [Hni Hnd].
  assert (Hx : forall x y, In x l -> ID x = ID y -> ID y ∈ map ID l).
  { intros x y Hx <-. apply list_elem_of_In. by apply in_map. }
  destruct Hin as [->|Hin], Hin' as [->|Hin']; auto; exfalso; eauto.
Qed.

Lemma run_request_frame m l st a st' a' e :
  (forall id ins, m !! id = Some ins -> InspectorLaws ins /\ ID ins = id) ->
  run_request m l st a = (st', a', e) ->
  artifact_frame a a' /\ Meta a' = Meta a /\ ResponseInspection a' = ResponseInspection a.
Proof.
  intros Hm. revert st a; induction l as [|id l IH]; intros st a; simpl.
  { intros; simplify_eq. by split. }
  destruct (m !! id) as [ins|] eqn:Ei; [|intros; simplify_eq; by split].
  destruct (Hm _ _ Ei) as [Hl Hid].
  destruct (InspectRequest ins st a) as [[st1 a1] [err|]] eqn:Er;
    destruct (law_request _ _ _ _ _ Er) as [Hf Hmeta Hresp _].
  - intros; simplify_eq. split_and!; try done. by destruct Hf; split.
  - intros H. apply IH in H as (H1 & H2 & H3). split_and!; [by etrans|congruence|congruence].
Qed.

Lemma set_detected_type_frame t a : artifact_frame a (set_detected_type t a).
Proof. by split. Qed.

Lemma run_artifact_frame m perm data l st a st' a' e :
  (forall id ins, m !! id = Some ins -> InspectorLaws ins /\ ID ins = id) ->
  run_artifact m perm data l st a = (st', a', e) ->
  artifact_frame a a' /\ RequestInspection a' = RequestInspection a /\
  (perm = false -> forall id, id <> "default" ->
     Opinion <$> RequestInspection a !! id <> Some Pending ->
     ResponseInspection a' !! id = ResponseInspection a !! id).
Proof.
  intros Hm. revert st a; induction l as [|id l IH]; intros st a; simpl.
  { intros; simplify_eq. by split. }
  destruct (may_run perm a id) eqn:Er; simpl; [|apply IH].
  destruct (m !! id) as [ins|] eqn:Ei; [|intros; simplify_eq; by split].
  destruct (Hm _ _ Ei) as [Hl Hid].
  assert (Hrun : perm = false -> forall id', id' <> "default" ->
     Opinion <$> RequestInspection a !! id' <> Some Pending -> id' <> ID ins).
  { intros -> id' Hd Hp ->. rewrite Hid in *. unfold may_run in Er.
    apply String.eqb_neq in Hd. rewrite Hd in Er. simpl in Er.
    destruct (RequestInspection a !! id); [|done]. apply bool_decide_eq_true in Er.
    simpl in Hp. congruence. }
  destruct (InspectArtifact ins st data a) as [[st1 a1] [err|]] eqn:Ea;
    destruct (law_response _ _ _ _ _ _ Ea) as [Hf Hreq Hown].
  - intros; simplify_eq. destruct (SetResponse_frame (ID ins) "error inspecting artifact"
        NoMetadata a1) as [[Hfr Hq _] _]. split_and!.
    + etrans; [exact Hf|]. by destruct Hfr; split.
    + rewrite <- Hreq. exact Hq.
    + intros Hp id' Hd Hn. specialize (Hrun Hp id' Hd Hn).
      rewrite AnnotateResponse_other by done.
      destruct (SetResponse_other (ID ins) id' "error inspecting artifact" NoMetadata a1 Hrun)
        as [-> _]. by apply Hown.
  - intros H. apply IH in H as (H1 & H2 & H3). split_and!; [by etrans|congruence|].
    intros Hp id' Hd Hn. rewrite H3 by (done || congruence). apply Hown. by apply Hrun.
Qed.

(** One step of the loop: the inspector is not called, or it has no error, or its error ends the run. *)
Lemma run_artifact_step m perm data id ins l st a st' a' e : m !! id = Some ins ->
  run_artifact m perm data (id :: l) st a = (st', a', e) ->
  run_artifact m perm data l st a = (st', a', e) \/
  (exists st1 a1, InspectArtifact ins st data a = (st1, a1, None) /\ run_artifact m perm data l st1 a1 = (st', a', e)) \/
  (exists err a1, InspectArtifact ins st data a = (st', a1, Some err) /\ e = Some err).
Proof.
  intros Hi. simpl. destruct (negb _); [by left|]. rewrite Hi. right.
  destruct (InspectArtifact ins st data a) as [[st1 a1] [err|]]; [right|left]; [|by eauto].
  simplify_eq. eauto.
Qed.

Lemma run_artifact_app m perm data l1 l2 st a st' a' e :
  run_artifact m perm data (l1 ++ l2) st a = (st', a', e) ->
  (exists e', e = Some e' /\ run_artifact m perm data l1 st a = (st', a', e)) \/
  (exists st1 a1, run_artifact m perm data l1 st a = (st1, a1, None) /\
     run_artifact m perm data l2 st1 a1 = (st', a', e)).
Proof.
  revert st a; induction l1 as [|id l IH]; intros st a; simpl; [by right; eauto|].
  destruct (negb _); [apply IH|].
  destruct (m !! id) as [ins|]; [|intros; simplify_eq; left; eauto].
  destruct (InspectArtifact ins st data a) as [[st1 a1] [err|]]; [intros; simplify_eq; left; eauto|].
  apply IH.
Qed.

(** Inspectors that do not run have no new opinion. *)
Lemma run_artifact_other m perm data l st a st' a' e :
  (forall id ins, m !! id = Some ins -> InspectorLaws ins /\ ID ins = id) ->
  run_artifact m perm data l st a = (st', a', e) ->
  forall id, ~ In id l -> ResponseInspection a' !! id = ResponseInspection a !! id.
Proof.
  intros Hm. revert st a; induction l as [|id l IH]; intros st a; simpl.
  { intros; by simplify_eq. }
  destruct (negb _); [intros H id' Hn; apply (IH _ _ H); tauto|].
  destruct (m !! id) as [ins|] eqn:Ei; [|intros; by simplify_eq].
  destruct (Hm _ _ Ei) as [Hl <-].
  destruct (InspectArtifact ins st data a) as [[st1 a1] [err|]] eqn:Ea;
    destruct (law_response _ _ _ _ _ _ Ea) as [_ _ Hown]; intros H id' Hn;
    assert (Hne : id' <> ID ins) by (intros ->; apply Hn; by left).
  - simplify_eq. rewrite AnnotateResponse_other by done.
    destruct (SetResponse_other (ID ins) id' "error inspecting artifact" NoMetadata a1 Hne) as [-> _]. by apply Hown.
  - rewrite (IH _ _ H) by tauto. by apply Hown.
Qed.

Lemma run_request_error m l st a st' a' e :
  run_request m l st a = (st', a', Some e) ->
  e = nil_dereference \/ RequestRejected a' = true.
Proof.
  revert st a; induction l as [|id l IH]; intros st a; simpl; [done|].
  destruct (m !! id) as [ins|]; [|intros; simplify_eq; by left].
  destruct (InspectRequest ins st a) as [[st1 a1] [err|]]; [|apply IH].
  intros; simplify_eq. right. apply any_opinion_spec. simpl. rewrite has_opinion_annotate.
  by apply has_opinion_set.
Qed.

Lemma run_artifact_error m perm data l st a st' a' e :
  run_artifact m perm data l st a = (st', a', Some e) ->
  e = nil_dereference \/ ResponseRejected a' = true.
Proof.
  revert st a; induction l as [|id l IH]; intros st a; simpl; [done|].
  destruct (negb (may_run perm a id)); [apply IH|].
  destruct (m !! id) as [ins|]; [|intros; simplify_eq; by left].
  destruct (InspectArtifact ins st data a) as [[st1 a1] [err|]]; [|apply IH].
  intros; simplify_eq. right. apply any_opinion_spec. simpl. rewrite has_opinion_annotate.
  unfold SetResponseRejected. simpl. by apply has_opinion_set.
Qed.

(** A registered ID never leads to a nil inspector, unless an inspector itself reports that. *)
Lemma run_request_app m l1 l2 st a st' a' e :
  run_request m (l1 ++ l2) st a = (st', a', e) ->
  (exists e', e = Some e' /\ run_request m l1 st a = (st', a', e)) \/
  (exists st1 a1, run_request m l1 st a = (st1, a1, None) /\
     run_request m l2 st1 a1 = (st', a', e)).
Proof.
  revert st a; induction l1 as [|id l IH]; intros st a; simpl; [by right; eauto|].
  destruct (m !! id) as [ins|]; [|intros; simplify_eq; left; eauto].
  destruct (InspectRequest ins st a) as [[st1 a1] [err|]]; [intros; simplify_eq; left; eauto|].
  apply IH.
Qed.

Lemma insps_wf_New C perm cfg :
  Forall InspectorLaws (insList C cfg) -> insps_wf (Inspectors_New C perm cfg).
Proof. apply register_wf. Qed.

(** ** Properties *)

(** C9: Only inspectors that found the request valid are heard: when a strict session inspects a
    downloaded file, the response opinion of an inspector other than the default one is
    changed only if that inspector's request opinion is pending; request opinions, digests, size
    and download data are left as they were. *)
Theorem strict_only_pending : forall insps dir fs st a st' a' e,
  insps_wf insps -> permissive insps = false ->
  RunArtifactInspectors insps dir fs st a = (st', a', e) ->
  artifact_frame a a' /\ RequestInspection a' = RequestInspection a /\
  (forall id, ResponseInspection a' !! id <> ResponseInspection a !! id ->
     id = "default" \/ Opinion <$> RequestInspection a !! id = Some Pending).
Proof.
  intros insps dir fs st a st' a' e [_ Hl] Hp. unfold RunArtifactInspectors.
  destruct (OpenArtifactFile fs _); [|intros; simplify_eq; by split].
  destruct (DetectReader a0) as [t|]; [|intros; simplify_eq; by split].
  intros H. apply run_artifact_frame in H as (H1 & H2 & H3); [|exact Hl].
  split_and!.
  - etrans; [apply (set_detected_type_frame t)|exact H1].
  - exact H2.
  - intros id Hd. destruct (decide (id = "default")) as [|Hn]; [by left|right].
    destruct (decide (Opinion <$> RequestInspection a !! id = Some Pending)) as [|Hq]; [done|].
    exfalso. apply Hd. by apply (H3 Hp id Hn).
Qed.


(** Every inspected request has a verdict: if all inspectors run without error on the request,
    then it is rejected, or pending, or the default inspector recorded that no inspector
    recognised it. *)
Theorem request_has_verdict : forall C perm cfg st a st' a',
  NoDup (ids (Inspectors_New C perm cfg)) ->
  RunRequestInspectors (Inspectors_New C perm cfg) st a = (st', a', None) ->
  RequestRejected a' = true \/ RequestPending a' = true \/
  Opinion <$> RequestInspection a' !! "default" = Some Unknown.
Proof.
  intros C perm cfg st a st' a' Hnd H.
  assert (Hdef : insmap (Inspectors_New C perm cfg) !! "default" = Some DefaultInspector).
  { apply (register_distinct perm (insList C cfg) DefaultInspector); [exact Hnd|].
    unfold insList. simpl. tauto. }
  unfold RunRequestInspectors in H.
  change (ids (Inspectors_New C perm cfg))
    with (removelast (ids (Inspectors_New C perm cfg)) ++ ["default"]) in H.
  revert Hdef H. generalize (insmap (Inspectors_New C perm cfg)),
    (removelast (ids (Inspectors_New C perm cfg))). intros m l Hdef H.
  apply run_request_app in H as [(e & ? & _)|(st1 & a1 & _ & H)]; [done|].
  simpl run_request in H. rewrite Hdef in H. simpl in H.
  unfold DefaultInspector_InspectRequest in H.
  destruct (RequestRejected a1) eqn:E1; simpl in H; [simplify_eq; by left|].
  destruct (RequestPending a1) eqn:E2; simpl in H; [simplify_eq; by right; left|].
  simplify_eq. right; right. simpl. by rewrite addInspection_lookup.
Qed.

(** The registry lists the inspectors in the order of the constructor list with the default
    inspector last, each is found under its ID when IDs are distinct, an ID that is not
    listed is reported as not registered, and inspectors that depend on opinions of others come
    after them (bldbin after the store API, the Go and craft inspectors after git). *)
Theorem registry_spec : forall C perm cfg id,
  NoDup (ids (Inspectors_New C perm cfg)) ->
  Inspectors_List (Inspectors_New C perm cfg) = map ID (insList C cfg) /\
  last (insList C cfg) = Some DefaultInspector /\
  Forall (fun ins => GetInspector (Inspectors_New C perm cfg) (ID ins) = Ok ins) (insList C cfg) /\
  (~ In id (Inspectors_List (Inspectors_New C perm cfg)) ->
     is_ok (GetInspector (Inspectors_New C perm cfg) id) = false) /\
  (exists l1 l2 l3 l4, insList C cfg =
     l1 ++ NewStoreInfoAPIInspector C (Store cfg) (BldBin cfg) ::
     l2 ++ NewBldBinInspector C (BldBin cfg) ::
     l3 ++ NewUploadPackInspector C (Git cfg) ::
     l4 /\ Forall (fun ins => In ins l4) [NewGoModuleGitInspector C;
       NewRockcraftInspector C (Crafts cfg); NewCharmcraftInspector C (Crafts cfg);
       NewSnapcraftInspector C (Crafts cfg); NewSourcecraftInspector C (Crafts cfg);
       NewBincraftInspector C (Crafts cfg)]).
Proof.
  intros C perm cfg id Hnd. split_and!.
  - done.
  - done.
  - rewrite List.Forall_forall. intros ins Hin. unfold GetInspector.
    unfold Inspectors_New. by rewrite register_distinct.
  - intros Hid. unfold GetInspector. destruct (insmap _ !! id) as [ins|] eqn:E; [|done].
    destruct Hid. apply register_lookup in E as [[Hin <-]|E].
    + by apply (in_map ID).
    + by rewrite lookup_empty in E.
  - exists (take 9 (insList C cfg)), (take 3 (drop 10 (insList C cfg))),
      (take 11 (drop 14 (insList C cfg))), (drop 26 (insList C cfg)).
    split; [done|].
    repeat first [apply List.Forall_nil | apply List.Forall_cons]; cbn; auto 20.
Qed.

End Inspectors.

(** ** Witnesses *)

Section Witnesses.
#[local] Existing Instance text_mime.
#[local] Existing Instance literal_glob.

(** Every inspector of a list respects its interface. *)
Ltac all_laws := repeat (apply List.Forall_cons; [apply _|]); apply List.Forall_nil.

(** An inspector that finds every request and every file fine, and one that fails. *)
Definition accepting (id : string) : Inspector (IS := unit) :=
  mkInspector id (fun st a => (st, SetRequestPending id "ok" a, None))
    (fun st _ a => (st, SetResponseApproved id "ok" NoMetadata a, None)).
Definition failing (id : string) : Inspector (IS := unit) :=
  mkInspector id (fun st a => (st, a, Some (EText "boom"))) (fun st _ a => (st, a, Some (EText "boom"))).

#[export] Instance accepting_laws id : InspectorLaws (accepting id).
Proof.
  split; simpl; intros; simplify_eq.
  - split; [by split|done|done|]. intros id' Hid. simpl. unfold addInspection.
    by rewrite lookup_insert_ne.
  - apply (SetResponse_frame id).
Qed.

#[export] Instance failing_laws id : InspectorLaws (failing id).
Proof. split; simpl; intros; simplify_eq; by repeat split. Qed.

Definition two_inspectors (perm : bool) : Inspectors (IS := unit) :=
  register perm [accepting "git"; DefaultInspector].

Lemma two_inspectors_wf perm : insps_wf (two_inspectors perm).
Proof. apply register_wf. all_laws. Qed.

Definition git_file : MemFS :=
  {[ filepath_Join ["assets"; Sha256_String zero_sha256 +:+ ".data"] := Some "data" ]}.

Definition git_run : unit * Artifact * option error :=
  RunArtifactInspectors (OS := mem_os) (two_inspectors false) "assets" git_file tt
    (SetRequestPending "git" "ok" NewArtifact).

Lemma strict_only_pending_witness :
  git_run.2 = None /\ Artifact_Approved git_run.1.2 = true /\
  artifact_frame (SetRequestPending "git" "ok" NewArtifact) git_run.1.2.
Proof.
  assert (He : git_run.2 = None) by (vm_compute; reflexivity).
  split; [exact He|]. split; [vm_compute; reflexivity|].
  exact (proj1 (strict_only_pending (OS := mem_os) (two_inspectors false) "assets" git_file tt
    (SetRequestPending "git" "ok" NewArtifact) git_run.1.1 git_run.1.2 None
    (two_inspectors_wf false) eq_refl (triple_eta git_run None He))).
Defined.

Definition failing_registry : Inspectors (IS := unit) :=
  register false [failing "git"; DefaultInspector].

Lemma failing_registry_wf : insps_wf failing_registry.
Proof. apply register_wf. all_laws. Qed.

Definition failing_run : unit * Artifact * option error :=
  RunRequestInspectors failing_registry tt NewArtifact.


(** Constructors whose inspectors have the IDs of the source. *)
Definition sample_constructors : Constructors (IS := unit) := mkConstructors
  (fun _ => accepting "snap") (accepting "snap.assertion") (accepting "snap.info")
  (accepting "snap.refresh") (accepting "snap.sections") (accepting "snap.auth-sessions")
  (accepting "snap.auth-nonce") (accepting "snap.auth-request-id") (accepting "snap.names")
  (fun _ _ => accepting "store.info-api") (fun _ => accepting "store.resolve-api")
  (fun _ => accepting "store.transforms-api") (fun _ => accepting "store.appmedia")
  (fun _ => accepting "bldbin") (accepting "pip.simple-index") (accepting "pip.wheel")
  (accepting "pip.sdist") (accepting "pip.metadata") (fun _ => accepting "apt.release")
  (fun _ => accepting "apt.packages") (fun _ => accepting "apt.translation")
  (fun _ => accepting "apt.commands") (fun _ => accepting "deb") (fun _ _ => accepting "chisel")
  (fun _ => accepting "git.smart-query") (fun _ => accepting "git.upload-pack")
  (accepting "go.module.git") (fun _ => accepting "craft.rockcraft")
  (fun _ => accepting "craft.charmcraft") (fun _ => accepting "craft.snapcraft")
  (fun _ => accepting "craft.sourcecraft") (fun _ => accepting "craft.bincraft")
  (accepting "cargo.index") (accepting "cargo.crate") (accepting "maven.jar") (accepting "maven.pom")
  (accepting "lxd.index") (accepting "lxd.download") (accepting "lxd.rootfs")
  (accepting "lxd.instance-types").

Definition sample_inspectors (perm : bool) : Inspectors (IS := unit) :=
  Inspectors_New sample_constructors perm empty_inspectors_config.

Lemma sample_laws cfg : Forall InspectorLaws (insList sample_constructors cfg).
Proof. all_laws. Qed.

Lemma sample_inspectors_wf perm : insps_wf (sample_inspectors perm).
Proof. apply insps_wf_New, sample_laws. Qed.

Lemma sample_distinct perm : NoDup (ids (sample_inspectors perm)).
Proof. apply (bool_decide_unpack _). vm_compute. exact I. Qed.

Definition sample_run : unit * Artifact * option error :=
  RunRequestInspectors (sample_inspectors false) tt NewArtifact.

Lemma request_has_verdict_witness :
  sample_run.2 = None /\
  (RequestRejected sample_run.1.2 = true \/ RequestPending sample_run.1.2 = true \/
   Opinion <$> RequestInspection sample_run.1.2 !! "default" = Some Unknown).
Proof.
  assert (He : sample_run.2 = None) by (vm_compute; reflexivity).
  split; [exact He|].
  exact (request_has_verdict sample_constructors false empty_inspectors_config tt NewArtifact
    sample_run.1.1 sample_run.1.2 (sample_distinct false) (triple_eta sample_run None He)).
Defined.

Lemma registry_spec_witness :
  last (insList sample_constructors empty_inspectors_config) = Some DefaultInspector.
Proof.
  apply (registry_spec sample_constructors false empty_inspectors_config "git").
  apply sample_distinct.
Defined.
End Witnesses.
