(* ===== verification/InspectorLib.v ===== *)
(** * What the format inspectors share

    The state an inspector reads and updates as a part of the state of all inspectors, lists of allowed
    URL patterns, and the lemmas that show an inspector keeps to its interface ([InspectorLaws]). *)
From stdpp Require Import base gmap strings list option fin_maps.
From Stdlib Require Import ZArith Lia Ascii.
From S2P Require Import Prelude GoStrings GoCodec Platform HttpUtil Digests Artifact Net Config Inspectors Url.

(** ** Parts of the state *)

(** [A] is a part of [S] that can be read and replaced on its own. *)
Class Part (S A : Type) := { part : S -> A; set_part : A -> S -> S }.
Class PartLaws (S A : Type) `{Part S A} := {
  part_set (a : A) (s : S) : part (set_part a s) = a;
  set_part_part (s : S) : set_part (part s) s = s;
  set_part_set (a b : A) (s : S) : set_part a (set_part b s) = set_part a s;
}.

(** [A] is not in the part [B]. *)
Class PartOther (S A B : Type) `{Part S A} `{Part S B} := {
  part_other (b : B) (s : S) : part (A := A) (set_part b s) = part s;
}.

#[export] Instance part_whole A : Part A A := {| part := id; set_part := fun a _ => a |}.
#[export] Instance part_fst A B : Part (A * B) A :=
  {| part := fst; set_part := fun a s => (a, snd s) |}.
#[export] Instance part_snd A B : Part (A * B) B :=
  {| part := snd; set_part := fun b s => (fst s, b) |}.
#[export] Instance part_whole_laws A : PartLaws A A.
Proof. by split. Qed.
#[export] Instance part_fst_laws A B : PartLaws (A * B) A.
Proof. split; [done|by intros []|done]. Qed.
#[export] Instance part_snd_laws A B : PartLaws (A * B) B.
Proof. split; [done|by intros []|done]. Qed.

(** ** Outcomes that may panic *)

(** [None] is the runtime panic of a nil pattern. *)
Definition panics {IS : Type} {A : Type} (st : IS) (a : A) : IS * A * option error :=
  (st, a, Some nil_dereference).

Section Globs.
Context `{GL : GlobLib}.

(** Whether one of the patterns matches; the loop stops at the first. *)
Fixpoint match_globs (l : list Glob) (s : string) : option bool :=
  match l with
  | [] => Some false
  | g :: l' => match Glob_Match g s with
               | None => None
               | Some true => Some true
               | Some false => match_globs l' s
               end
  end.

(** Patterns that were decoded. *)
Definition globs_ok (l : list Glob) : Prop := Forall (fun g : Glob => g <> None) l.

Lemma match_globs_spec l s : globs_ok l ->
  exists b, match_globs l s = Some b /\
    (b = true <-> exists p, In (Some p : Glob) l /\ glob_Match p s = true).
Proof.
  induction 1 as [|[p|] l Hg _ (b & Hb & IH)]; [|simpl|done].
  - exists false. split; [done|]. split; [done|]. by intros (? & [] & _).
  - destruct (glob_Match p s) eqn:E.
    + exists true. split; [done|]. split; [|done]. intros _. exists p. auto.
    + exists b. split; [done|]. rewrite IH. split.
      * intros (q & ? & ?). exists q. auto.
      * intros (q & [[= <-]|Hq] & Hm); [congruence|]. exists q. auto.
Qed.

(** The check of a request URL against the configured patterns, which the configuration packages of
    the Git, craft, store and bld inspectors have in common: [Some None] when one matches. *)
Definition checkRequestURL (urls : list Glob) (u : URL) : option (option error) :=
  let reqURL := NormalizedOrigin u +:+ Path u in
  ok ← match_globs urls reqURL;
  Some (if (ok : bool) then None else Some (EText ("invalid url " +:+ reqURL))).

(** Some pattern matches the URL, in its normalised form. *)
Definition url_allowed (l : list Glob) (u : URL) : Prop :=
  exists p, In (Some p : Glob) l /\ glob_Match p (NormalizedOrigin u +:+ Path u) = true.

Lemma checkRequestURL_spec urls u : globs_ok urls ->
  exists e, checkRequestURL urls u = Some e /\ (e = None <-> url_allowed urls u).
Proof.
  intros Hg. unfold checkRequestURL.
  destruct (match_globs_spec urls (NormalizedOrigin u +:+ Path u) Hg) as (b & -> & Hb).
  simpl. eexists. split; [done|]. unfold url_allowed. rewrite <- Hb. by destruct b.
Qed.
End Globs.

(** ** Iteration over maps *)

(** The order in which [range] visits a map, which Go leaves open. *)
Class MapOrder := { map_range : forall {A}, gmap string A -> list (string * A) }.
Class MapOrderLaws `{MapOrder} : Prop := {
  map_range_perm {A} (m : gmap string A) : map_range m ≡ₚ map_to_list m
}.
Definition list_order : MapOrder := {| map_range := fun A => map_to_list |}.
Lemma list_order_laws : @MapOrderLaws list_order.
Proof. by split. Qed.

Lemma map_range_elem `{MapOrderLaws} {A} (m : gmap string A) k v :
  In (k, v) (map_range m) <-> m !! k = Some v.
Proof. rewrite <- list_elem_of_In, map_range_perm. apply elem_of_map_to_list. Qed.

(** The recorded form of a map of strings; the report sorts the keys. *)
Definition any_map (m : gmap string string) : AnyVal :=
  AMap (map (fun kv => (fst kv, AStr (snd kv))) (map_to_list m)).

(** Annotations that are strings. *)
Definition str_notes (l : list (string * string)) : Annotation :=
  list_to_map (map (fun kv => (fst kv, AStr (snd kv))) l).

Lemma lookup_str_notes kv l k :
  str_notes (kv :: l) !! k = if String.eqb (fst kv) k then Some (AStr (snd kv)) else str_notes l !! k.
Proof.
  unfold str_notes. simpl. destruct (String.eqb_spec (fst kv) k) as [->|Hne].
  - by rewrite lookup_insert_eq.
  - by rewrite lookup_insert_ne.
Qed.

(** ** Keeping to the interface *)

Create HintDb frames.

Section Frames.
Context `{ML : MimeLib}.

Lemma request_frame_refl id a : request_frame id a a.
Proof. by split. Qed.
Lemma request_frame_trans id a b c :
  request_frame id a b -> request_frame id b c -> request_frame id a c.
Proof.
  intros [F1 M1 R1 O1] [F2 M2 R2 O2]. split; [by etrans|congruence|congruence|].
  intros id' H. by rewrite O2, O1.
Qed.
Lemma response_frame_refl id a : response_frame id a a.
Proof. by split. Qed.
Lemma response_frame_trans id a b c :
  response_frame id a b -> response_frame id b c -> response_frame id a c.
Proof.
  intros [F1 M1 O1] [F2 M2 O2]. split; [by etrans|congruence|].
  intros id' H. by rewrite O2, O1.
Qed.

Lemma SetRequest_frame id reason a b :
  request_frame id a b ->
  request_frame id a (SetRequestPending id reason b) /\
  request_frame id a (SetRequestRejected id reason b) /\
  request_frame id a (SetRequestUnknown id reason b).
Proof.
  intros H. repeat split; try apply H; intros id' Hid; simpl; unfold addInspection;
    rewrite lookup_insert_ne by done; by apply H.
Qed.
Lemma SetRequestPending_frame id reason a b :
  request_frame id a b -> request_frame id a (SetRequestPending id reason b).
Proof. apply SetRequest_frame. Qed.
Lemma SetRequestRejected_frame id reason a b :
  request_frame id a b -> request_frame id a (SetRequestRejected id reason b).
Proof. intros H. by apply (SetRequest_frame id reason) in H as (_ & ? & _). Qed.
Lemma SetRequestUnknown_frame id reason a b :
  request_frame id a b -> request_frame id a (SetRequestUnknown id reason b).
Proof. intros H. by apply (SetRequest_frame id reason) in H as (_ & _ & ?). Qed.
Lemma AnnotateRequest_frame id ann a b :
  request_frame id a b -> request_frame id a (AnnotateRequest id ann b).
Proof.
  intros H. eapply request_frame_trans; [exact H|]. split; try done.
  intros. by apply AnnotateRequest_other.
Qed.
Lemma SetRequestBody_frame id r a b :
  request_frame id a b -> request_frame id a (SetRequestBody r b).
Proof.
  intros H. eapply request_frame_trans; [exact H|]. unfold SetRequestBody.
  destruct (Request b) as [q|] eqn:Eq; [|by split]. split; try done. split; try done.
  unfold request_head. by rewrite Eq.
Qed.
Lemma set_Request_frame id q q' a b : Request b = Some q -> head_of q' = head_of q ->
  request_frame id a b -> request_frame id a (set_Request (Some q') b).
Proof.
  intros Hq Hh H. eapply request_frame_trans; [exact H|]. split; try done. split; try done.
  unfold request_head. rewrite Hq. simpl. by rewrite Hh.
Qed.

Lemma SetResponseApproved_frame id reason m a b :
  response_frame id a b -> response_frame id a (SetResponseApproved id reason m b).
Proof. intros H. eapply response_frame_trans; [exact H|]. apply SetResponse_frame. Qed.
Lemma SetResponseRejected_frame id reason m a b :
  response_frame id a b -> response_frame id a (SetResponseRejected id reason m b).
Proof. intros H. eapply response_frame_trans; [exact H|]. apply SetResponse_frame. Qed.
Lemma SetResponseUnknown_frame id reason m a b :
  response_frame id a b -> response_frame id a (SetResponseUnknown id reason m b).
Proof. intros H. eapply response_frame_trans; [exact H|]. apply SetResponse_frame. Qed.
Lemma AnnotateResponse_frame id ann a b :
  response_frame id a b -> response_frame id a (AnnotateResponse id ann b).
Proof.
  intros H. eapply response_frame_trans; [exact H|]. split; try done.
  intros. by apply AnnotateResponse_other.
Qed.
End Frames.

#[export] Hint Resolve request_frame_refl SetRequestPending_frame SetRequestRejected_frame
  SetRequestUnknown_frame AnnotateRequest_frame SetRequestBody_frame
  response_frame_refl SetResponseApproved_frame SetResponseRejected_frame
  SetResponseUnknown_frame AnnotateResponse_frame : frames.

(** The laws of an inspector whose operations are built from the setters above. *)
Ltac solve_frame :=
  intros; repeat (first [progress simplify_eq/= | case_match]); eauto 10 with frames.

(** ** Reading the opinion an inspector has just set *)

Section Opinions.
Context `{ML : MimeLib}.

Lemma AnnotateRequest_lookup id ann a i : RequestInspection a !! id = Some i ->
  RequestInspection (AnnotateRequest id ann a) !! id = Some (Inspection_Annotate i ann).
Proof. intros Hi. simpl. unfold annotate. by rewrite lookup_alter_eq, Hi. Qed.
Lemma SetRequest_lookup id reason a :
  RequestInspection (SetRequestPending id reason a) !! id = Some (mkInspection Pending reason ∅) /\
  RequestInspection (SetRequestRejected id reason a) !! id = Some (mkInspection Rejected reason ∅) /\
  RequestInspection (SetRequestUnknown id reason a) !! id = Some (mkInspection Unknown reason ∅).
Proof. simpl. unfold addInspection. by rewrite !lookup_insert_eq. Qed.
Lemma SetResponse_lookup id reason md a :
  ResponseInspection (SetResponseApproved id reason md a) !! id = Some (mkInspection Approved reason ∅) /\
  ResponseInspection (SetResponseRejected id reason md a) !! id = Some (mkInspection Rejected reason ∅) /\
  ResponseInspection (SetResponseUnknown id reason md a) !! id = Some (mkInspection Unknown reason ∅).
Proof. simpl. unfold addInspection. by rewrite !lookup_insert_eq. Qed.
Lemma AnnotateResponse_lookup id ann a i : ResponseInspection a !! id = Some i ->
  ResponseInspection (AnnotateResponse id ann a) !! id = Some (Inspection_Annotate i ann).
Proof. intros Hi. simpl. unfold annotate. by rewrite lookup_alter_eq, Hi. Qed.

(** The opinions of an inspector on the request and on the response. *)
Definition request_opinion (id : string) (a : Artifact) : option OpinionKind :=
  Opinion <$> RequestInspection a !! id.
Definition response_opinion (id : string) (a : Artifact) : option OpinionKind :=
  Opinion <$> ResponseInspection a !! id.

Lemma request_opinion_pending id reason a : request_opinion id (SetRequestPending id reason a) = Some Pending.
Proof. unfold request_opinion. by rewrite (proj1 (SetRequest_lookup _ _ _)). Qed.
Lemma request_opinion_annotate id id' ann a : request_opinion id (AnnotateRequest id' ann a) = request_opinion id a.
Proof.
  unfold request_opinion. destruct (decide (id = id')) as [->|?]; [|by rewrite AnnotateRequest_other].
  simpl. unfold annotate. rewrite lookup_alter_eq. by destruct (RequestInspection a !! id').
Qed.
Lemma response_opinion_approved id reason md a :
  response_opinion id (SetResponseApproved id reason md a) = Some Approved.
Proof. unfold response_opinion. by rewrite (proj1 (SetResponse_lookup _ _ _ _)). Qed.
Lemma response_opinion_rejected id reason md a :
  response_opinion id (SetResponseRejected id reason md a) = Some Rejected.
Proof. unfold response_opinion. by rewrite (proj1 (proj2 (SetResponse_lookup _ _ _ _))). Qed.
Lemma response_opinion_unknown id reason md a :
  response_opinion id (SetResponseUnknown id reason md a) = Some Unknown.
Proof. unfold response_opinion. by rewrite (proj2 (proj2 (SetResponse_lookup _ _ _ _))). Qed.
Lemma response_opinion_annotate id id' ann a :
  response_opinion id (AnnotateResponse id' ann a) = response_opinion id a.
Proof.
  unfold response_opinion. destruct (decide (id = id')) as [->|?]; [|by rewrite AnnotateResponse_other].
  simpl. unfold annotate. rewrite lookup_alter_eq. by destruct (ResponseInspection a !! id').
Qed.
Lemma response_opinion_other id id' reason md a : id <> id' ->
  response_opinion id (SetResponseApproved id' reason md a) = response_opinion id a.
Proof. intros H. unfold response_opinion. by rewrite (proj2 (proj2 (SetResponse_other _ _ _ _ _ H))). Qed.

(** The metadata of an approval with a type. *)
Lemma approved_metadata id reason md a : am_Type md <> "" ->
  Meta (SetResponseApproved id reason md a) = Meta (setArtifactMetadata md a).
Proof. intros H. unfold SetResponseApproved. by rewrite decide_True by (intros ->; by apply H). Qed.

Lemma rejected_by id a : response_opinion id a = Some Rejected -> ResponseRejected a = true.
Proof.
  unfold response_opinion. intros H. apply any_opinion_spec. exists id.
  destruct (ResponseInspection a !! id) as [i|]; [|done]. exists i. by simplify_eq/=.
Qed.

(** An annotation just made can be read back. *)
Lemma ResponseStringAnnotation_annotate id ann a i key : ResponseInspection a !! id = Some i ->
  ResponseStringAnnotation (AnnotateResponse id ann a) id key
  = match (ann ∪ Annotations i) !! key with Some v => as_string v | None => None end.
Proof.
  intros Hi. unfold ResponseStringAnnotation, inspectionAnnotation. by rewrite (AnnotateResponse_lookup _ _ _ _ Hi).
Qed.
End Opinions.

#[export] Hint Rewrite @request_opinion_pending @request_opinion_annotate @response_opinion_approved
  @response_opinion_rejected @response_opinion_unknown @response_opinion_annotate : opinions.

(** ** Inspection of requests by their URL *)

Section UrlRequest.
Context `{ML : MimeLib} {IS : Type}.

(** What many request inspections have in common: the request is marked if the URL has the information
    [info] looks for, and otherwise not recognised; [None] is a nil pattern. *)
Definition url_request {A} (info : ParsedURL -> option (result A)) (mark : A -> Artifact -> Artifact) (st : IS)
    (a : Artifact) : IS * Artifact * option error :=
  match Parse (DownloadURL a) with
  | Err err => (st, a, Some (EText ("cannot parse URL: " +:+ error_string err)))
  | Ok u =>
      match info u with
      | None => panics st a
      | Some (Err _) => (st, a, None)
      | Some (Ok i) => (st, mark i a, None)
      end
  end.

Lemma url_request_frame {A} id (info : ParsedURL -> option (result A)) mark st a st' a' e :
  (forall i b, request_frame id b (mark i b)) ->
  url_request info mark st a = (st', a', e) -> request_frame id a a'.
Proof. intros Hm H. unfold url_request, panics in H. repeat case_match; simplify_eq; auto with frames. Qed.

Lemma url_request_spec {A} (info : ParsedURL -> option (result A)) mark st a (u : ParsedURL) r :
  Parse (DownloadURL a) = Ok u -> info u = Some r ->
  url_request info mark st a = (st, match r with Ok i => mark i a | Err _ => a end, None).
Proof. intros Hu Hr. unfold url_request. rewrite Hu, Hr. by destruct r. Qed.
End UrlRequest.
