(* ===== verification/Archives.v ===== *)
(** * Archives and compression

    The readers of compressed data and archives that the inspectors use, as parameters. A stream is a
    [Body]: the bytes it yields and the error after them, if any. *)
From stdpp Require Import base strings list option.
From S2P Require Import Prelude GoStrings GoCodec Platform Digests Artifact.

(** [compress/gzip]: the decompressed stream, or the error of the header. *)
Class Gzip := { gzip_NewReader : Body -> result Body }.

(** [github.com/xi2/xz]. *)
Class Xz := { xz_NewReader : Body -> result Body }.

(** An entry of a tar archive: the name, whether it is a directory, the content. *)
Record tar_entry := mkTarEntry { te_Name : string; te_Dir : bool; te_Body : Body }.

(** [archive/tar]: the entries [Next] finds, and the error after them; [None] is [io.EOF]. *)
Class Tar := { tar_read : Body -> list tar_entry * option error }.

(** A file of a zip archive: the name, whether it is a directory, the recorded size, what opening it gives. *)
Record zip_file := mkZipFile { zf_Name : string; zf_Dir : bool; zf_Size : Z; zf_Open : result Body }.

(** [archive/zip]: the files, or the error of the directory. *)
Class Zip := { zip_read : string -> result (list zip_file) }.

(** [crypto/sha1] and [crypto/sha256]. *)
Class Hashes := { sha1_Sum : string -> Sha1Digest; sha256_Sum : string -> Sha256Digest }.

(** A complete stream. *)
Definition bytes (s : string) : Body := mkBody s None.

(** ** For witnesses: archives that are not compressed and list entries as given *)

Definition plain_gzip : Gzip := {| gzip_NewReader := Ok |}.
Definition plain_xz : Xz := {| xz_NewReader := Ok |}.
Definition fixed_zip (l : list zip_file) : Zip := {| zip_read := fun _ => Ok l |}.
Definition fixed_tar (l : list tar_entry) : Tar := {| tar_read := fun _ => (l, None) |}.

(** The first entry with that name. *)
Fixpoint find_entry (name : string) (l : list tar_entry) : option tar_entry :=
  match l with
  | [] => None
  | e :: l' => if String.eqb (te_Name e) name then Some e else find_entry name l'
  end.
