(* ===== verification/OpenPgp.v ===== *)
(** * Keys and signatures

    [utils/openpgp.go] over the packets of [github.com/ProtonMail/go-crypto], which are parameters: keys
    from armored text, signatures and body of clear-signed text, and the check of signatures. *)
From stdpp Require Import base strings list option.
From Stdlib Require Import ZArith Lia Ascii.
From S2P Require Import Prelude GoStrings GoCodec Platform.

(** The packets of a message by kind. [key_verify] hashes the body and checks the signature;
    [rsa_key] is the RSA key with the fixed time stamp that snapd uses, if the key is one. *)
Inductive Packet (PK SG : Type) : Type :=
| PubKeyPacket (k : PK)
| PrivKeyPacket
| SigPacket (s : SG)
| OtherPacket.
Arguments PubKeyPacket {PK SG}.
Arguments PrivKeyPacket {PK SG}.
Arguments SigPacket {PK SG}.
Arguments OtherPacket {PK SG}.

Class OpenPGP := {
  PublicKey : Type;
  Signature : Type;
  armor_Decode : string -> result (list (Packet PublicKey Signature) * option error);
  clearsign_Decode : string -> option (list (Packet PublicKey Signature) * option error * string);
  packet_Read : string -> result (Packet PublicKey Signature * string);
  key_verify : PublicKey -> Signature -> string -> option error;
  KeyId : PublicKey -> Z;
  rsa_key : PublicKey -> option PublicKey;
}.

Section OpenPgp.
Context `{PG : OpenPGP}.

Definition public_keys (l : list (Packet PublicKey Signature)) : list PublicKey :=
  omap (fun p => match p with PubKeyPacket k => Some k | _ => None end) l.
Definition private_keys (l : list (Packet PublicKey Signature)) : nat :=
  List.length (List.filter (fun p => match p with PrivKeyPacket => true | _ => false end) l).
Definition signatures (l : list (Packet PublicKey Signature)) : list Signature :=
  omap (fun p => match p with SigPacket s => Some s | _ => None end) l.

(** The public keys and the number of private keys. *)
Definition DecodeKeys (armoredData : string) : result (list PublicKey * nat) :=
  match armor_Decode armoredData with
  | Err err => Err (EWrap "cannot decode armored data: " err "")
  | Ok (_, Some err) => Err err
  | Ok (packets, None) => Ok (public_keys packets, private_keys packets)
  end.

Definition DecodePubKey (armoredData : string) (allowMultiple : bool) : result (list PublicKey) :=
  '(pubKeys, privKeys) ← DecodeKeys armoredData;
  if 0 <? privKeys then Err (EText "armored data contains private key")
  else if (1 <? List.length pubKeys) && negb allowMultiple then
    Err (EText "armored data contains more than one public key")
  else match pubKeys with [] => Err (EText "armored data contains no public key") | _ => Ok pubKeys end.

(** The signatures and the body, with line ends CR LF. *)
Definition DecodeClearSigned (clearData : string) : result (list Signature * string) :=
  match clearsign_Decode clearData with
  | None => Err (EText "cannot decode clearsign text")
  | Some (_, Some err, _) => Err (EWrap "cannot parse armored data: " err "")
  | Some (packets, None, body) =>
      match signatures packets with
      | [] => Err (EText "clearsigned data contains no signatures")
      | sigs => Ok (sigs, body)
      end
  end.

Definition VerifySignature (pubKey : PublicKey) (sig : Signature) (body : string) : option error :=
  key_verify pubKey sig body.

(** The keys are tried in order for each signature; the last error is kept. *)
Fixpoint verify_keys (keys : list PublicKey) (sig : Signature) (body : string) (last : option error) :
    option (option error) :=
  match keys with
  | [] => Some last
  | k :: keys' =>
      match VerifySignature k sig body with
      | None => None
      | Some err => verify_keys keys' sig body (Some err)
      end
  end.
Fixpoint verify_sigs (keys : list PublicKey) (sigs : list Signature) (body : string) (last : option error) :
    option (option error) :=
  match sigs with
  | [] => Some last
  | s :: sigs' =>
      match verify_keys keys s body last with
      | None => None
      | Some last => verify_sigs keys sigs' body last
      end
  end.
Definition VerifyAnySignature (pubKeys : list PublicKey) (sigs : list Signature) (body : string) : option error :=
  match verify_sigs pubKeys sigs body None with
  | None => None
  | Some err =>
      if (List.length sigs =? 1) && (List.length pubKeys =? 1) then err
      else Some (EText "cannot verify any signatures")
  end.

(** ** Lemmas *)

Lemma DecodePubKey_single data keys : DecodePubKey data false = Ok keys -> exists k, keys = [k].
Proof.
  unfold DecodePubKey. destruct (DecodeKeys data) as [[[|k [|k' l]] n]|]; simpl; [..|done];
    repeat case_match; intros; simplify_eq; eauto.
Qed.

Lemma verify_keys_spec keys sig body last :
  verify_keys keys sig body last = None <-> exists k, In k keys /\ VerifySignature k sig body = None.
Proof.
  revert last. induction keys as [|k keys IH]; intros last; simpl; [naive_solver|].
  destruct (VerifySignature k sig body) eqn:E; [rewrite IH|]; naive_solver congruence.
Qed.

Lemma verify_sigs_spec keys sigs body last :
  verify_sigs keys sigs body last = None <->
  exists k s, In k keys /\ In s sigs /\ VerifySignature k s body = None.
Proof.
  revert last. induction sigs as [|s sigs IH]; intros last; simpl; [naive_solver|].
  pose proof (verify_keys_spec keys s body last) as Hk.
  destruct (verify_keys keys s body last); [rewrite IH|]; naive_solver.
Qed.

(** A single key and a single signature report the error of the check itself. *)
Lemma verify_one k s body last : verify_sigs [k] [s] body last =
  match VerifySignature k s body with None => None | Some e => Some (Some e) end.
Proof. simpl. by destruct (VerifySignature k s body). Qed.

(** The check succeeds exactly if one of the keys made one of the signatures. *)
Theorem VerifyAnySignature_spec : forall keys sigs body,
  VerifyAnySignature keys sigs body = None <->
  exists k s, In k keys /\ In s sigs /\ VerifySignature k s body = None.
Proof.
  intros keys sigs body. unfold VerifyAnySignature. rewrite <- (verify_sigs_spec keys sigs body None).
  destruct keys as [|k [|k' keys]], sigs as [|s [|s' sigs]]; try rewrite verify_one;
    simpl length; simpl Nat.eqb; simpl andb; cbn iota;
    repeat case_match; naive_solver.
Qed.
End OpenPgp.

(** ** For witnesses: signatures that say whether they are valid *)

Definition toy_pgp : OpenPGP := {|
  PublicKey := string;
  Signature := string;
  armor_Decode := fun s => match s with "" => Err (EText "armor") | _ => Ok ([PubKeyPacket s], None) end;
  clearsign_Decode := fun s =>
    match Cut s "|" with Some (sig, body) => Some ([SigPacket sig], None, body) | None => None end;
  packet_Read := fun s => match s with String "S" sig => Ok (SigPacket sig, "") | _ => Ok (PubKeyPacket s, "") end;
  key_verify := fun k sig body => if String.eqb sig "good" then None else Some (EText "bad signature");
  KeyId := fun k => Z.of_nat (String.length k);
  rsa_key := Some;
|}.

Lemma VerifyAnySignature_spec_witness : @VerifyAnySignature toy_pgp ["k"; "l"] ["bad"; "good"] "body" = None.
Proof. apply (@VerifyAnySignature_spec toy_pgp). exists "k", "good". by repeat split; simpl; auto. Defined.
