(* ===== verification/Git.v ===== *)
(** * The Git inspectors

    [inspectors/git]: packet lines of the Git protocol ([protocol.go]), pack files ([utils.go]), the
    allowed URLs ([config/config.go]), and the inspectors of smart queries ([git_smart_query.go]) and
    of upload-pack requests and responses ([git_upload_pack.go]). The commands run on a checkout are
    parameters. *)
From stdpp Require Import base gmap strings list option fin_maps.
From Stdlib Require Import ZArith Lia Ascii.
From S2P Require Import Prelude GoStrings GoCodec Platform HttpUtil Digests Artifact Net Config.
From S2P Require Import Inspectors InspectorLib Archives Regexp Url.

(** ** Readers *)

Definition zeros (n : nat) : string := fold_right (fun _ s => String (chr 0) s) "" (seq 0 n).

(** One call of [Read] with a buffer of [n] bytes on a file or on bytes in memory, and the rest; [None]
    is [io.EOF]. A short read leaves the rest of the buffer zero. [zero_eof] tells whether a read of
    no bytes at the end reports the end ([bytes.Reader]) or not ([os.File]). *)
Definition read_buf (zero_eof : bool) (n : nat) (s : string) : option (string * string) :=
  match n, s with
  | 0, "" => if zero_eof then None else Some ("", "")
  | S _, "" => None
  | _, _ => Some (str_take n s +:+ zeros (n - String.length s), str_drop n s)
  end.

(** ** Packet lines *)

Definition decode_error : error := EText "decode error".

Definition trim_last (c : ascii) (s : string) : string := TrimSuffix s (str1 c).

(** The messages read, the error, and what is left of the input. Every round reads at least a byte. *)
Fixpoint decode_lines (zero_eof : bool) (fuel : nat) (msgs : list string) (s : string) :
    list string * option error * string :=
  match fuel with
  | 0 => (msgs, Some decode_error, s)
  | S fuel' =>
      match read_buf zero_eof 4 s with
      | None => (msgs, Some decode_error, s)
      | Some (buf, s) =>
          match ParseUint buf 16 32 with
          | Err e => (msgs, Some e, s)
          | Ok size =>
              if (size =? 0)%Z || (size =? 2)%Z then (msgs, None, s)
              else if (size =? 3)%Z || (size =? 4)%Z then (msgs, Some decode_error, s)
              else
                let size := if (size =? 1)%Z then 4%Z else size in
                match read_buf zero_eof (Z.to_nat (size - 4)) s with
                | None => (msgs, Some (EWrap ("cannot read " +:+ Itoa size +:+ " bytes from input: ")
                                         (ESentinel "EOF") ""), s)
                | Some (line, s) =>
                    let line := trim_last cr (trim_last nl line) in
                    let msgs := msgs ++ [line] in
                    if String.eqb line "packfile" || String.eqb line (String (chr 1) "packfile") ||
                       String.eqb line "NAK"
                    then (msgs, None, s)
                    else decode_lines zero_eof fuel' msgs s
                end
          end
      end
  end.

Definition decodeGitProtocol (zero_eof : bool) (s : string) : list string * option error * string :=
  decode_lines zero_eof (S (String.length s)) [] s.

(** ** Pack files *)

(** The data of sideband 1, up to a packet without data. *)
Fixpoint read_pack (fuel : nat) (w s : string) : string * option error :=
  match fuel with
  | 0 => (w, Some decode_error)
  | S fuel' =>
      match read_buf false 4 s with
      | None => (w, Some (ESentinel "EOF"))
      | Some (buf, s) =>
          match ParseInt buf 16 32 with
          | Err e => (w, Some e)
          | Ok size =>
              if (size <? 5)%Z then (w, None)
              else
                match read_buf false 1 s with
                | None => (w, Some (ESentinel "EOF"))
                | Some (band, s) =>
                    match read_buf false (Z.to_nat (size - 5)) s with
                    | None => (w, Some (ESentinel "EOF"))
                    | Some (data, s) =>
                        read_pack fuel' (if String.eqb band (str1 (chr 1)) then w +:+ data else w) s
                    end
                end
          end
      end
  end.

Definition readPack (s : string) : string * option error := read_pack (S (String.length s)) "" s.

(** ** Allowed URLs *)

Definition reSmartQuery : Regexp := MustCompile "^/.*/info/refs$".
Definition reUploadPack : Regexp := MustCompile "^/(.+/)*([^/]+)/git-upload-pack$".

Section Git.
Context `{ML : MimeLib} `{GL : GlobLib} `{OS : Os}.

(** [None] is the panic of a nil pattern. *)
Definition git_checkRequestURL (cfg : GitInspectorConfig) (u : URL) : option (option error) :=
  checkRequestURL (git_URLs cfg) u.

Definition NewSmartQueryURLInfo (u : URL) (cfg : GitInspectorConfig) : option (result string) :=
  e ← git_checkRequestURL cfg u;
  match e with
  | Some e => Some (Err e)
  | None =>
      if negb (MatchString reSmartQuery (Path u)) then
        Some (Err (EText "not a valid git smart query path"))
      else
        let val := Query_Get (URL_Query u) "service" in
        if negb (String.eqb val "git-upload-pack") then
          Some (Err (EText ("invalid service query " +:+ Quote val)))
        else Some (Ok val)
  end.

(** The name of the project in the path, without the suffix ".git". *)
Definition project_of (rx : Regexp) (path : string) : option string :=
  let m := FindStringSubmatch rx path in
  if negb (List.length m =? 3) && negb (List.length m =? 2) then None
  else Some (TrimSuffix (List.last m "") ".git").

Definition NewUploadPackURLInfo (u : URL) (cfg : GitInspectorConfig) : option (result string) :=
  e ← git_checkRequestURL cfg u;
  match e with
  | Some e => Some (Err e)
  | None => Some (option_or_err (project_of reUploadPack (Path u))
                    (EText "not a valid git upload-pack path"))
  end.

(** ** Smart queries *)

(** The protocol a client asks for. *)
Definition getGitProtocol (a : Artifact) : string :=
  match Artifact_RequestHeader a "Git-Protocol" with Some [proto] => proto | _ => "" end.

(** The host without its port. *)
Definition server_of (u : URL) : string :=
  match Cut (Host u) ":" with Some (h, _) => h | None => Host u end.

Definition smart_query_id : string := "git.smart-query".

Section SmartQuery.
Context {IS : Type} (cfg : GitInspectorConfig).

Definition SmartQuery_InspectRequest (st : IS) (a : Artifact) : IS * Artifact * option error :=
  let proto := getGitProtocol a in
  if negb (String.eqb proto "version=2") then (st, a, None)
  else
    match Parse (DownloadURL a) with
    | Err err => (st, a, Some (EText ("cannot parse URL: " +:+ error_string err)))
    | Ok u =>
        match NewSmartQueryURLInfo u cfg with
        | None => panics st a
        | Some (Err _) => (st, a, None)
        | Some (Ok service) =>
            (st, AnnotateRequest smart_query_id
                   (<["server" := AStr (server_of u)]> (<["protocol" := AStr proto]>
                     (<["service" := AStr service]> ∅)))
                   (SetRequestPending smart_query_id "valid URL for git smart request" a), None)
        end
    end.

(** The messages after the service announcement, if any; the artifact is rejected on an error. *)
Definition SmartQuery_decodeProtocol (data : string) (a : Artifact) (md : ArtifactMetadata) :
    Artifact * list string * option error :=
  match decodeGitProtocol false data with
  | (msgs, Some err, _) =>
      (AnnotateResponse smart_query_id {[ "error-msg" := AStr (error_string err) ]}
         (SetResponseRejected smart_query_id "cannot decode git protocol" md a), msgs, Some err)
  | (msgs, None, rest) =>
      if bool_decide (msgs = ["# service=git-upload-pack"]) then
        match decodeGitProtocol false rest with
        | (msgs, Some err, _) =>
            (AnnotateResponse smart_query_id {[ "error-msg" := AStr (error_string err) ]}
               (SetResponseRejected smart_query_id "cannot decode pack advertisement" md a), msgs, Some err)
        | (msgs, None, _) => (a, msgs, None)
        end
      else (a, msgs, None)
  end.

Definition SmartQuery_InspectArtifact (st : IS) (data : string) (a : Artifact) :
    IS * Artifact * option error :=
  if negb (MimetypeIs a "application/octet-stream") && negb (MimetypeIs a "text/plain") then
    (st, a, None)
  else if negb (String.eqb (Artifact_ContentType a) "application/x-git-upload-pack-advertisement") then
    (st, a, None)
  else
    let vendor := default "" (RequestStringAnnotation a smart_query_id "server") in
    let md := mkArtifactMetadata "application/x.git.upload-pack-advertisement"
      "git upload-pack advertisement" "" vendor "response to git smart server query"
      "" "" "" "" "" "" "" "" "" in
    match SmartQuery_decodeProtocol data a md with
    | (a, _, Some _) => (st, a, None)
    | (a, msgs, None) =>
        let version := if bool_decide (head msgs = Some "version 2") then "2" else "not specified" in
        (st, AnnotateResponse smart_query_id
               (<["version" := AStr version]> (<["server-response" := AStrs (map TrimSpace msgs)]> ∅))
               (SetResponseApproved smart_query_id "upload pack advertisement received" md a), None)
    end.

Definition SmartQueryInspector : Inspector (IS := IS) :=
  mkInspector smart_query_id SmartQuery_InspectRequest SmartQuery_InspectArtifact.

#[export] Instance SmartQuery_laws : InspectorLaws SmartQueryInspector.
Proof.
  split; simpl.
  - unfold SmartQuery_InspectRequest, panics. solve_frame.
  - unfold SmartQuery_InspectArtifact, SmartQuery_decodeProtocol. solve_frame.
Qed.
End SmartQuery.

(** ** Upload-pack requests *)

Definition upload_pack_id : string := "git.upload-pack".

(** Heads and tags seen in the answers of a repository. *)
Record GitRepos := mkGitRepos {
  heads : gmap string (gmap string string);
  tags : gmap string (gmap string string);
}.

(** The commands run on a checkout: they change the file system and may fail. [git_start] is the
    error of starting the unpacker, [git_unpack] its run in a directory with the pack as input. *)
Class GitTools := {
  os_MkdirTemp : FS -> string -> string -> FS * result string;
  git_init : FS -> string -> FS * option error;
  git_start : FS -> string -> string -> option error;
  git_unpack : FS -> string -> string -> string -> FS * option error;
  git_checkout : FS -> string -> string -> FS * option error;
}.

Section UploadPack.
Context `{GZ : Gzip} `{GT : !GitTools}.
Context {IS : Type} `{PR : !Part IS GitRepos} `{PF : !Part IS FS} (cfg : GitInspectorConfig).

Definition init_repo (repo : string) (r : GitRepos) : GitRepos :=
  mkGitRepos (match heads r !! repo with Some _ => heads r | None => <[repo := ∅]> (heads r) end)
    (match tags r !! repo with Some _ => tags r | None => <[repo := ∅]> (tags r) end).

Definition initRepoState (repo : string) (st : IS) : IS := set_part (init_repo repo (part st)) st.

(** The request with its body replaced. *)
Definition set_ReqBody (b : option Body) (len : Z) (h : Header) (q : HttpRequest) : HttpRequest :=
  mkHttpRequest (Method q) (ReqURL q) h b len (TransferEncoding q) (RemoteAddr q) (LocalAddr q).

(** A body that was read to its end. *)
Definition drained : option Body := Some (mkBody "" None).

(** The request after reading its body, and the decoded messages with the text of the body. The body
    of a request that reaches the proxy is not nil. *)
Definition newUploadPackRequestHandler (q : HttpRequest) :
    HttpRequest * option (result (list string * string)) :=
  match ReqBody q with
  | None => (q, None)
  | Some body =>
      let isGzipped := String.eqb (Header_Get (ReqHeader q) "Content-Encoding") "gzip" in
      match (if isGzipped then gzip_NewReader body else Ok body) with
      | Err err => (q, Some (Err (EWrap "cannot create upload pack gzip decoder: " err "")))
      | Ok body =>
          let h := if isGzipped then Header_Del (ReqHeader q) "Content-Encoding" else ReqHeader q in
          match body_err body with
          | Some err =>
              (set_ReqBody drained (ContentLength q) h q,
               Some (Err (EWrap "cannot read upload pack request body: " err "")))
          | None =>
              let buf := body_data body in
              let q := set_ReqBody drained (Z.of_nat (String.length buf)) h q in
              match decodeGitProtocol true buf with
              | (_, Some err, _) => (q, Some (Err (EWrap "cannot decode upload pack request: " err "")))
              | (msgs, None, _) => (q, Some (Ok (map TrimSpace msgs, buf)))
              end
          end
      end
  end.

(** The value of the last message with that prefix. *)
Definition last_with_prefix (p : string) (msgs : list string) : string :=
  fold_left (fun acc m => match strip_prefix p m with Some v => v | None => acc end) msgs "".

Definition add_unique (l : list string) (x : string) : list string :=
  if slices_Contains l x then l else l ++ [x].

(** What a fetch command asks for: whether it is shallow, the wanted objects without repetition, and
    the wanted references. *)
Record FetchWants := mkFetchWants { isShallow : bool; wants : list string; wantRefs : list string }.

Definition fetch_arg (w : FetchWants) (msg : string) : FetchWants :=
  if HasPrefix msg "deepen " then
    mkFetchWants (String.eqb msg "deepen 1") (wants w) (wantRefs w)
  else match strip_prefix "want " msg with
  | Some ref => mkFetchWants (isShallow w) (add_unique (wants w) ref) (wantRefs w)
  | None =>
      match strip_prefix "want-ref " msg with
      | Some ref => mkFetchWants (isShallow w) (wants w) (wantRefs w ++ [ref])
      | None => w
      end
  end.

Definition fetch_wants (msgs : list string) : FetchWants :=
  fold_left fetch_arg msgs (mkFetchWants false [] []).

Definition add_strs (k : string) (l : list string) (notes : Annotation) : Annotation :=
  match l with [] => notes | _ => <[k := AStrs l]> notes end.

Definition inspectRequestCommand (a : Artifact) (clientMsgs : list string) (notes : Annotation) :
    Artifact :=
  let command := last_with_prefix "command=" clientMsgs in
  let notes := <["command" := AStr command]> (<["client-request" := AStrs clientMsgs]> notes) in
  if String.eqb command "ls-refs" then
    AnnotateRequest upload_pack_id notes
      (SetRequestPending upload_pack_id "valid URL for git upload-pack" a)
  else if String.eqb command "fetch" then
    let w := fetch_wants clientMsgs in
    let notes := <["is-shallow" := ABool (isShallow w)]> notes in
    let notes := <["num-wants" := AInt (Z.of_nat (List.length (wants w) + List.length (wantRefs w)))]> notes in
    let notes := add_strs "want-refs" (wantRefs w) (add_strs "wants" (wants w) notes) in
    if negb (isShallow w) then
      AnnotateRequest upload_pack_id notes
        (SetRequestRejected upload_pack_id "fetch is only allowed with depth 1" a)
    else if 1 <? List.length (wants w) then
      AnnotateRequest upload_pack_id notes
        (SetRequestRejected upload_pack_id "fetch is only allowed on a single ref" a)
    else
      AnnotateRequest upload_pack_id notes
        (SetRequestPending upload_pack_id "valid URL for git upload-pack" a)
  else
    AnnotateRequest upload_pack_id notes
      (SetRequestRejected upload_pack_id "only ls-refs and fetch commands are allowed" a).

Definition repo_of (u : URL) : string :=
  TrimSuffix (Scheme u +:+ "://" +:+ Host u +:+ Path u) "/git-upload-pack".

Definition UploadPack_InspectRequest (st : IS) (a : Artifact) : IS * Artifact * option error :=
  match Parse (DownloadURL a) with
  | Err err => (st, a, Some (EText ("cannot parse URL: " +:+ error_string err)))
  | Ok u =>
      let repo := repo_of u in
      let st := initRepoState repo st in
      if negb (RequestHeaderContains a "Content-Type" "application/x-git-upload-pack-request") then
        (st, a, None)
      else if negb (RequestHeaderContains a "Accept" "application/x-git-upload-pack-result") then
        (st, a, None)
      else
        match NewUploadPackURLInfo u cfg with
        | None => panics st a
        | Some info =>
            let project := match info with Ok p => p | Err _ => "" end in
            let proto := getGitProtocol a in
            let notes := <["server" := AStr (server_of u)]> (<["repository" := AStr repo]>
                           (<["protocol" := AStr proto]> (<["project" := AStr project]> ∅))) in
            if negb (String.eqb proto "version=2") then
              (st, AnnotateRequest upload_pack_id {[ "proto" := AStr proto ]}
                     (SetRequestUnknown upload_pack_id "unsupported git protocol version" a), None)
            else
              match HTTPRequest a with
              | None => panics st a
              | Some q =>
                  match newUploadPackRequestHandler q with
                  | (q, None) => panics st (set_Request (Some q) a)
                  | (q, Some (Err err)) =>
                      (st, set_Request (Some q) a,
                       Some (EWrap "cannot handle upload-pack request: " err ""))
                  | (q, Some (Ok (clientMsgs, body))) =>
                      (st, inspectRequestCommand
                             (SetRequestBody (Some (mkBody body None)) (set_Request (Some q) a))
                             clientMsgs notes, None)
                  end
              end
        end
  end.

(** ** Upload-pack responses *)

(** Runs the unpacker on the pack in [data]; the temporary files stay. *)
Definition UnpackObjects (data dir : string) (fs : FS) : FS * option error :=
  match git_init fs dir with
  | (fs, Some err) => (fs, Some err)
  | (fs, None) =>
      match decodeGitProtocol false data with
      | (_, Some err, _) => (fs, Some err)
      | (_, None, rest) =>
          let path := "/usr/lib/git-core/git-unpack-objects" in
          let snap := "/snap/fetch-service/current/usr/lib/git-core/git-unpack-objects" in
          match (match os_Stat fs path with
                 | Ok _ => Ok path
                 | Err _ => match os_Stat fs snap with Ok _ => Ok snap | Err err => Err err end
                 end) with
          | Err err => (fs, Some err)
          | Ok path =>
              match git_start fs path dir with
              | Some err => (fs, Some (EText ("git-unpack-objects execution error: " +:+ error_string err)))
              | None =>
                  let '(pack, perr) := readPack rest in
                  let '(fs, werr) := git_unpack fs path dir pack in
                  match perr with
                  | Some err => (fs, Some (EText ("error reading git pack: " +:+ error_string err)))
                  | None => (fs, werr)
                  end
              end
          end
      end
  end.

Definition unpackAndCheckout (data ref cacheDir : string) (fs : FS) : FS * result string :=
  match os_MkdirAll fs cacheDir with
  | (fs, Some err) => (fs, Err err)
  | (fs, None) =>
      match os_MkdirTemp fs cacheDir "git-" with
      | (fs, Err err) => (fs, Err err)
      | (fs, Ok dir) =>
          match UnpackObjects data dir fs with
          | (fs, Some err) => (fs, Err err)
          | (fs, None) =>
              match git_checkout fs dir ref with
              | (fs, Some err) => (fs, Err err)
              | (fs, None) => (fs, Ok dir)
              end
          end
      end
  end.

(** An answer line "id name": a tag or a head of the repository. The repository is initialised. *)
Definition store_ref (repo : string) (r : GitRepos) (ref : string) : GitRepos :=
  match Split ref " " with
  | id :: name :: _ =>
      match strip_prefix "refs/tags/" name with
      | Some tag => mkGitRepos (heads r) (alter (fun m => <[tag := id]> m) repo (tags r))
      | None =>
          match strip_prefix "refs/heads/" name with
          | Some head => mkGitRepos (alter (fun m => <[head := id]> m) repo (heads r)) (tags r)
          | None => r
          end
      end
  | _ => r
  end.

Definition git_metadata (type name description vendor : string) : ArtifactMetadata :=
  mkArtifactMetadata type name "" vendor description "" "" "" "" "" "" "" "" "".

Definition error_msg (err : error) : Annotation := {[ "error-msg" := AStr (error_string err) ]}.

Definition inspectLsRefsResponse (data repo vendor : string) (st : IS) (a : Artifact) :
    IS * Artifact :=
  if negb (MimetypeIs a "text/plain") then (st, a)
  else
    let md := git_metadata "application/x.git.upload-pack-result.ls-ref" "git ls-refs response"
                "Response to the git 'ls-refs' command" vendor in
    match decodeGitProtocol false data with
    | (_, Some err, _) =>
        (st, AnnotateResponse upload_pack_id (error_msg err)
               (SetResponseRejected upload_pack_id "cannot decode git protocol" md a))
    | (msgs, None, _) =>
        let refs := map TrimSpace msgs in
        (set_part (fold_left (store_ref repo) refs (part st)) st,
         AnnotateResponse upload_pack_id {[ "server-response" := AStrs refs ]}
           (SetResponseApproved upload_pack_id "git ls-refs response decoded" md a))
    end.

(** The notes, and the reason to reject, if any. *)
Definition fetchResponseIsShallow (msgs : list string) (notes : Annotation) :
    Annotation * option string :=
  let shallow := existsb (fun m => HasPrefix m "shallow ") msgs in
  let unshallow := existsb (fun m => negb (HasPrefix m "shallow ") && HasPrefix m "unshallow ") msgs in
  let notes := <["server-response" := AStrs (map TrimSpace msgs)]> notes in
  (notes, if negb shallow then Some "fetch is only allowed with depth 1"
          else if unshallow then Some "unshallow is not supported" else None).

(** The reference to check out, or the reason to reject. *)
Definition getRefFromWants (a : Artifact) : string + string :=
  match RequestAnnotation a upload_pack_id "wants", RequestAnnotation a upload_pack_id "want-refs" with
  | None, None => inr "cannot read request want/want-ref annotation"
  | None, Some _ => inr "want-refs handling not implemented yet"
  | Some w, wr =>
      match w with
      | AStrs (ref :: _) =>
          match wr with
          | None | Some (AStrs (_ :: _)) => inl ref
          | Some _ => inr "cannot read want-ref annotation"
          end
      | _ => inr "cannot read want annotation"
      end
  end.

Definition inspectFetchResponse (data repo vendor : string) (st : IS) (a : Artifact) :
    IS * Artifact :=
  if negb (MimetypeIs a "application/octet-stream") && negb (MimetypeIs a "text/plain") then (st, a)
  else
    let md := git_metadata "application/x.git.upload-pack-result.fetch" "git fetch response"
                "Response to the git 'fetch' command" vendor in
    let reject st reason notes :=
      (st, AnnotateResponse upload_pack_id notes (SetResponseRejected upload_pack_id reason md a)) in
    let numWants := RequestAnnotation a upload_pack_id "num-wants" in
    if negb (match numWants with Some (AInt n) => (n =? 1)%Z | _ => false end) then
      reject st "fetch is allowed only on a single ref" {[ "num-wants" := default ANil numWants ]}
    else
      let r : GitRepos := part st in
      let notes : Annotation :=
        <["heads" := any_map (default ∅ (heads r !! repo))]>
          {[ "tags" := any_map (default ∅ (tags r !! repo)) ]} in
      match decodeGitProtocol false data with
      | (_, Some err, _) => reject st "cannot decode git protocol" (error_msg err)
      | (msgs, None, _) =>
          let '(notes, bad) := fetchResponseIsShallow msgs notes in
          match bad with
          | Some reason => reject st reason notes
          | None =>
              match getRefFromWants a with
              | inr reason => reject st reason notes
              | inl "" => (st, a)
              | inl ref =>
                  match unpackAndCheckout data ref (CacheDir a) (part st) with
                  | (fs, Err err) => reject (set_part fs st) "cannot unpack git objects" (error_msg err)
                  | (fs, Ok path) =>
                      (set_part fs st,
                       AnnotateResponse upload_pack_id (<["git-checkout-path" := AStr path]> notes)
                         (SetResponseUnknown upload_pack_id
                            "git fetch response is valid but content is unknown" md a))
                  end
              end
          end
      end.

Definition inspectResponseCommand (data repo vendor : string) (st : IS) (a : Artifact) :
    IS * Artifact :=
  let md := git_metadata "application/x.git.upload-pack-result" "" "" "" in
  match RequestAnnotation a upload_pack_id "command" with
  | None =>
      (st, SetResponseRejected upload_pack_id "command not set during request inspection" md a)
  | Some command =>
      let is_cmd (s : string) := match as_string command with Some c => String.eqb c s | None => false end in
      if is_cmd "ls-refs" then inspectLsRefsResponse data repo vendor st a
      else if is_cmd "fetch" then inspectFetchResponse data repo vendor st a
      else (st, AnnotateResponse upload_pack_id ∅
                  (SetResponseRejected upload_pack_id "only ls-refs and fetch commands are supported" md a))
  end.

Definition UploadPack_InspectArtifact (st : IS) (data : string) (a : Artifact) :
    IS * Artifact * option error :=
  if negb (String.eqb (Artifact_ContentType a) "application/x-git-upload-pack-result") then (st, a, None)
  else
    match RequestStringAnnotation a upload_pack_id "repository" with
    | None =>
        (st, SetResponseRejected upload_pack_id "repository not set during request inspection"
               (git_metadata "application/x.git.upload-pack-result" "" "" "") a, None)
    | Some repo =>
        let st := initRepoState repo st in
        let vendor := default "" (RequestStringAnnotation a upload_pack_id "server") in
        let '(st, a) := inspectResponseCommand data repo vendor st a in (st, a, None)
    end.

Definition UploadPackInspector : Inspector (IS := IS) :=
  mkInspector upload_pack_id UploadPack_InspectRequest UploadPack_InspectArtifact.

(** *** Lemmas *)

Lemma inspectRequestCommand_frame a b msgs notes :
  request_frame upload_pack_id a b ->
  request_frame upload_pack_id a (inspectRequestCommand b msgs notes).
Proof. unfold inspectRequestCommand. intros. repeat case_match; auto with frames. Qed.

Lemma inspectFetchResponse_frame data repo vendor st a st' a' :
  inspectFetchResponse data repo vendor st a = (st', a') -> response_frame upload_pack_id a a'.
Proof.
  unfold inspectFetchResponse. destruct (_ && _); [intros; simplify_eq; auto with frames|].
  intros H. repeat (case_match; simplify_eq; auto with frames).
Qed.

Lemma inspectResponseCommand_frame data repo vendor st a st' a' :
  inspectResponseCommand data repo vendor st a = (st', a') -> response_frame upload_pack_id a a'.
Proof.
  unfold inspectResponseCommand, inspectLsRefsResponse.
  intros H. repeat (case_match; simplify_eq; auto with frames); by eapply inspectFetchResponse_frame.
Qed.

(** Reading the body of a request keeps its method, URL and header, but for the encoding of the body. *)
Lemma newUploadPackRequestHandler_head q q' r : newUploadPackRequestHandler q = (q', r) -> head_of q' = head_of q.
Proof.
  unfold newUploadPackRequestHandler. destruct (ReqBody q) as [body|]; [|by intros [= <- _]].
  destruct (if String.eqb _ _ then _ else _) as [b|e]; [|by intros [= <- _]].
  assert (H : forall b n, head_of (set_ReqBody b n (if String.eqb (Header_Get (ReqHeader q) "Content-Encoding") "gzip"
    then Header_Del (ReqHeader q) "Content-Encoding" else ReqHeader q) q) = head_of q).
  { intros b0 n. unfold head_of, set_ReqBody. simpl. destruct (String.eqb _ _); [|done].
    unfold Header_Del. by rewrite delete_delete_eq. }
  destruct (body_err b); [by intros [= <- _]|].
  destruct (decodeGitProtocol true (body_data b)) as [[msgs [e|]] rest]; intros [= <- _]; apply H.
Qed.

#[export] Instance UploadPack_laws : InspectorLaws UploadPackInspector.
Proof.
  split; simpl.
  - unfold UploadPack_InspectRequest, panics, HTTPRequest. intros st a st' a' e H.
    repeat (case_match; simplify_eq; auto with frames);
      match goal with E : newUploadPackRequestHandler _ = _ |- _ => apply newUploadPackRequestHandler_head in E end;
      eauto using set_Request_frame, request_frame_refl, inspectRequestCommand_frame, SetRequestBody_frame.
  - unfold UploadPack_InspectArtifact. intros st data a st' a' e H.
    repeat (case_match; simplify_eq; auto with frames). by eapply inspectResponseCommand_frame.
Qed.
End UploadPack.
End Git.
