(* ===== verification/GitProps.v ===== *)
(** * What the Git inspectors promise

    Packet lines and pack files are decoded to what a Git peer encoded; the allowed upload-pack URLs
    name their project; only listings and shallow fetches of one object are let through, and a fetch
    that is not refused was a shallow one. *)
From stdpp Require Import base gmap strings list option fin_maps.
From Stdlib Require Import ZArith Lia Ascii.
From S2P Require Import Prelude GoStrings GoCodec Platform HttpUtil Digests Artifact Net Config.
From S2P Require Import Inspectors InspectorLib Archives Regexp Url Git.

(** ** Reading packets *)

Lemma read_buf_app z a b : a <> "" -> read_buf z (String.length a) (a +:+ b) = Some (a, b).
Proof.
  intros Ha. unfold read_buf. rewrite str_take_length_app.
  replace (String.length a - String.length (a +:+ b)) with 0 by (rewrite length_app_str; lia).
  assert (Hd : str_drop (String.length a) (a +:+ b) = b).
  { pose proof (str_take_drop (String.length a) (a +:+ b)) as H. rewrite str_take_length_app in H.
    by apply app_str_inv_head in H. }
  rewrite Hd. unfold zeros. simpl. rewrite app_str_nil_r. by destruct a.
Qed.

(** Four hexadecimal digits. *)
Definition hex4 (n : Z) : string :=
  EncodeToString (String (chr (Z.to_N (n / 256))) (str1 (chr (Z.to_N (n mod 256))))).

Lemma digit_val_hex c :
  digit_val (hex_digit (N_of_ascii c / 16)) = Some (byte_Z c / 16)%Z /\
  digit_val (hex_digit (N_of_ascii c mod 16)) = Some (byte_Z c mod 16)%Z.
Proof. by_all_bytes c. Qed.

Lemma parse_digits_hex s acc :
  parse_digits 16 (EncodeToString s) acc =
  Some (fold_left (fun v c => v * 256 + c)%Z (map byte_Z (String.list_ascii_of_string s)) acc).
Proof.
  revert acc; induction s as [|c s IH]; intros acc; [done|]. cbn [EncodeToString parse_digits].
  destruct (digit_val_hex c) as [-> ->].
  assert (Hc : (0 <= byte_Z c < 256)%Z) by (by_all_bytes c).
  rewrite (proj2 (Z.ltb_lt (byte_Z c / 16) 16)), (proj2 (Z.ltb_lt (byte_Z c mod 16) 16));
    [|apply Z.mod_pos_bound; lia|apply Z.div_lt_upper_bound; lia].
  rewrite IH. simpl. f_equal. f_equal. pose proof (Z.div_mod (byte_Z c) 16). lia.
Qed.

Lemma byte_Z_chr n : (0 <= n < 256)%Z -> byte_Z (chr (Z.to_N n)) = n.
Proof. intros H. unfold byte_Z, chr. rewrite N_ascii_embedding by lia. lia. Qed.

Lemma hex4_value n : (0 <= n < 65536)%Z ->
  parse_digits 16 (hex4 n) 0 = Some n /\ String.length (hex4 n) = 4.
Proof.
  intros H. unfold hex4. rewrite parse_digits_hex, length_EncodeToString. split; [|done]. simpl.
  rewrite !byte_Z_chr; [|apply Z.mod_pos_bound; lia|split; [apply Z.div_pos; lia|apply Z.div_lt_upper_bound; lia]].
  f_equal. pose proof (Z.div_mod n 256). lia.
Qed.

Lemma ParseUint_hex4 n bits : (0 <= n < 65536)%Z -> (16 <= bits)%Z ->
  ParseUint (hex4 n) 16 bits = Ok n.
Proof.
  intros H Hb. destruct (hex4_value n H) as [Hv Hl]. unfold ParseUint. rewrite Hv.
  assert (2 ^ 16 <= 2 ^ bits)%Z by (apply Z.pow_le_mono_r; lia).
  rewrite (proj2 (Z.ltb_lt n (2 ^ bits))) by lia. by destruct (hex4 n).
Qed.

Lemma ParseInt_hex4 n : (0 <= n < 65536)%Z -> ParseInt (hex4 n) 16 32 = Ok n.
Proof.
  intros H. pose proof (ParseUint_hex4 n 64 H ltac:(lia)) as Hv. unfold ParseInt.
  assert (Hh : exists c s, hex4 n = String c s /\ c <> "-"%char /\ c <> "+"%char).
  { eexists _, _. split; [reflexivity|]. set (c := chr _). clearbody c. by_all_bytes c. }
  destruct Hh as (c & s & Hh & Hm & Hp). rewrite Hh in Hv |- *. rewrite !decide_False by done.
  rewrite Hv. cbn [negb andb]. rewrite (proj2 (Z.leb_gt (2 ^ (32 - 1)) n)) by lia. done.
Qed.

(** ** Packet lines *)

(** A packet: the length of the whole in four digits, and its content. *)
Definition packet (s : string) : string := hex4 (4 + Z.of_nat (String.length s)) +:+ s.
Definition flush : string := "0000".

Fixpoint concat_str (l : list string) : string :=
  match l with [] => "" | s :: l' => s +:+ concat_str l' end.

(** A message that is not one of the markers the decoder stops at, and its line end. *)
Record line_ok (m eol : string) : Prop := {
  line_length : (0 < Z.of_nat (String.length (m +:+ eol)) < 65532)%Z;
  line_eol : eol = "" \/ eol = str1 nl \/ eol = str1 cr +:+ str1 nl;
  line_no_nl : HasSuffix m (str1 nl) = false;
  line_no_cr : HasSuffix m (str1 cr) = false;
  line_marker : m <> "packfile" /\ m <> String (chr 1) "packfile" /\ m <> "NAK";
}.

Lemma TrimSuffix_no s p : HasSuffix s p = false -> TrimSuffix s p = s.
Proof. unfold HasSuffix, TrimSuffix, CutSuffix. by destruct (strip_suffix p s). Qed.

Lemma TrimSuffix_app a p : TrimSuffix (a +:+ p) p = a.
Proof.
  unfold TrimSuffix, CutSuffix. destruct (strip_suffix p (a +:+ p)) as [r|] eqn:E.
  - apply strip_suffix_Some in E. simpl.
    assert (Hi : forall x y : string, srev x = srev y -> x = y).
    { intros x y H. by rewrite <- (srev_involutive x), H, srev_involutive. }
    apply Hi. apply (f_equal srev) in E. rewrite !srev_app in E. by apply app_str_inv_head in E.
  - pose proof (proj2 (strip_suffix_Some p (a +:+ p) a) eq_refl). congruence.
Qed.

Lemma trim_line m eol : line_ok m eol -> trim_last cr (trim_last nl (m +:+ eol)) = m.
Proof.
  intros [_ He Hn Hc _]. unfold trim_last. destruct He as [->|[->| ->]].
  - by rewrite app_str_nil_r, (TrimSuffix_no m (str1 nl)), TrimSuffix_no.
  - by rewrite TrimSuffix_app, TrimSuffix_no.
  - by rewrite <- app_str_assoc, !TrimSuffix_app.
Qed.

Lemma decode_packet z fuel msgs m eol s : line_ok m eol ->
  decode_lines z (S fuel) msgs (packet (m +:+ eol) +:+ s) = decode_lines z fuel (msgs ++ [m]) s.
Proof.
  intros Hok. pose proof (line_length _ _ Hok) as Hl.
  set (l := m +:+ eol) in *. set (n := (4 + Z.of_nat (String.length l))%Z).
  assert (Hn : (4 < n < 65536)%Z) by (unfold n; lia).
  destruct (hex4_value n ltac:(lia)) as [_ H4]. unfold packet. rewrite app_str_assoc.
  cbn [decode_lines]. fold n. rewrite <- H4 at 1. rewrite read_buf_app by (by destruct (hex4 n)).
  rewrite ParseUint_hex4 by lia.
  rewrite (proj2 (Z.eqb_neq n 0)), (proj2 (Z.eqb_neq n 2)), (proj2 (Z.eqb_neq n 3)),
    (proj2 (Z.eqb_neq n 4)), (proj2 (Z.eqb_neq n 1)) by lia. cbn [orb].
  replace (Z.to_nat (n - 4)) with (String.length l) by (unfold n; lia).
  rewrite read_buf_app by (intros E; rewrite E in Hl; simpl in Hl; lia).
  unfold l. rewrite !(trim_line m eol) by done.
  destruct (line_marker _ _ Hok) as (H1 & H2 & H3). apply String.eqb_neq in H1, H2, H3.
  by rewrite H1, H2, H3.
Qed.

Definition encode_lines (l : list (string * string)) : string :=
  concat_str (map (fun p => packet (fst p +:+ snd p)) l).

Lemma decode_encoded z l : forall fuel msgs rest, Forall (fun p => line_ok (fst p) (snd p)) l ->
  List.length l < fuel ->
  decode_lines z fuel msgs (encode_lines l +:+ flush +:+ rest) = (msgs ++ map fst l, None, rest).
Proof.
  induction l as [|[m eol] l IH]; intros [|fuel] msgs rest Hl Hf; simpl in Hf; try lia.
  - change (encode_lines [] +:+ flush +:+ rest) with (flush +:+ rest). cbn [decode_lines].
    assert (Hr : read_buf z 4 (flush +:+ rest) = Some (flush, rest)) by exact (read_buf_app z flush rest ltac:(done)).
    rewrite Hr. simpl. by rewrite app_nil_r.
  - apply Forall_cons_iff in Hl as [Hm Hl]. change (encode_lines ((m, eol) :: l))
      with (packet (m +:+ eol) +:+ encode_lines l). rewrite app_str_assoc.
    rewrite decode_packet by done. rewrite IH by (done || lia). cbn [map fst].
    by rewrite <- app_assoc.
Qed.

Lemma length_encode_lines l : Forall (fun p => line_ok (fst p) (snd p)) l ->
  List.length l <= String.length (encode_lines l).
Proof.
  induction 1 as [|[m eol] l Hm _ IH]; [done|].
  change (encode_lines ((m, eol) :: l)) with (packet (m +:+ eol) +:+ encode_lines l).
  pose proof (line_length _ _ Hm) as Hl. cbn [fst snd] in Hl. unfold packet.
  rewrite !(length_app_str _ (encode_lines l)), (length_app_str (hex4 _)). cbn [List.length]. lia.
Qed.

(** The decoder also stops after the line that announces a pack file. *)
Lemma decode_packfile z l : forall fuel msgs eol rest, Forall (fun p => line_ok (fst p) (snd p)) l ->
  eol = "" \/ eol = str1 nl -> List.length l < fuel ->
  decode_lines z fuel msgs (encode_lines l +:+ packet ("packfile" +:+ eol) +:+ rest)
    = (msgs ++ map fst l ++ ["packfile"], None, rest).
Proof.
  induction l as [|[m eol'] l IH]; intros [|fuel] msgs eol rest Hl He Hf; simpl in Hf; try lia.
  - assert (Hp : exists line, packet ("packfile" +:+ eol) = hex4 (4 + Z.of_nat (String.length line)) +:+ line /\
      line <> "" /\ (Z.of_nat (String.length line) < 100)%Z /\ trim_last cr (trim_last nl line) = "packfile").
    { exists ("packfile" +:+ eol). split; [done|]. by destruct He as [->| ->]. }
    destruct Hp as (line & -> & Hne & Hlen & Htrim).
    change (encode_lines []) with "". change ("" +:+ (?a : string)) with a. simpl (String.append "" _).
    set (n := (4 + Z.of_nat (String.length line))%Z). assert (Hn : (4 < n < 65536)%Z).
    { unfold n. destruct line; [done|]. simpl in *. lia. }
    destruct (hex4_value n ltac:(lia)) as [_ H4]. rewrite app_str_assoc. cbn [decode_lines].
    rewrite <- H4 at 1. rewrite read_buf_app by (by destruct (hex4 n)). rewrite ParseUint_hex4 by lia.
    rewrite (proj2 (Z.eqb_neq n 0)), (proj2 (Z.eqb_neq n 2)), (proj2 (Z.eqb_neq n 3)),
      (proj2 (Z.eqb_neq n 4)), (proj2 (Z.eqb_neq n 1)) by lia. cbn [orb].
    replace (Z.to_nat (n - 4)) with (String.length line) by (unfold n; lia).
    rewrite read_buf_app by done. by rewrite Htrim.
  - apply Forall_cons_iff in Hl as [Hm Hl]. change (encode_lines ((m, eol') :: l))
      with (packet (m +:+ eol') +:+ encode_lines l). rewrite app_str_assoc.
    rewrite decode_packet by done. rewrite IH by (done || lia). cbn [map fst].
    by rewrite <- app_assoc.
Qed.

(** C29: Packet lines survive encoding and decoding: the messages before a flush packet come out without
    their line ends, whatever reader is used, and what follows the flush packet is left to be read. *)
Theorem decodeGitProtocol_encode : forall zero_eof l rest,
  Forall (fun p => line_ok (fst p) (snd p)) l ->
  decodeGitProtocol zero_eof (encode_lines l +:+ flush +:+ rest) = (map fst l, None, rest).
Proof.
  intros z l rest Hl. unfold decodeGitProtocol. rewrite decode_encoded; [done|done|].
  pose proof (length_encode_lines l Hl). rewrite length_app_str. lia.
Qed.

(** ** Pack files *)

(** A packet of a sideband. *)
Definition band_packet (p : ascii * string) : string :=
  hex4 (5 + Z.of_nat (String.length (snd p))) +:+ String (fst p) (snd p).

Lemma read_band fuel w p s : (Z.of_nat (String.length (snd p)) <= 65530)%Z ->
  read_pack (S fuel) w (band_packet p +:+ s)
    = read_pack fuel (if decide (fst p = chr 1) then w +:+ snd p else w) s.
Proof.
  destruct p as [b d]. cbn [fst snd]. intros Hd. unfold band_packet. cbn [fst snd].
  set (n := (5 + Z.of_nat (String.length d))%Z).
  destruct (hex4_value n ltac:(unfold n; lia)) as [_ H4]. rewrite app_str_assoc. cbn [read_pack].
  rewrite <- H4 at 1. rewrite read_buf_app by (by destruct (hex4 n)).
  rewrite ParseInt_hex4 by (unfold n; lia). rewrite (proj2 (Z.ltb_ge n 5)) by (unfold n; lia).
  change (String b d +:+ s) with (str1 b +:+ (d +:+ s)).
  assert (Hb : read_buf false 1 (str1 b +:+ (d +:+ s)) = Some (str1 b, d +:+ s)).
  { apply (read_buf_app false (str1 b)). done. }
  rewrite Hb. replace (Z.to_nat (n - 5)) with (String.length d) by (unfold n; lia).
  assert (Hdata : read_buf false (String.length d) (d +:+ s) = Some (d, s)).
  { destruct (decide (d = "")) as [->|Hne]; [by destruct s|]. by apply read_buf_app. }
  rewrite Hdata. destruct (decide (b = chr 1)) as [->|Hne]; [done|].
  rewrite (proj2 (String.eqb_neq _ _)); [done|]. by intros [=].
Qed.

Definition sideband_data (l : list (ascii * string)) : string :=
  concat_str (map snd (filter (fun p => fst p = chr 1) l)).

Lemma read_pack_bands l : forall fuel w rest,
  Forall (fun p => Z.of_nat (String.length (snd p)) <= 65530)%Z l -> List.length l < fuel ->
  read_pack fuel w (concat_str (map band_packet l) +:+ flush +:+ rest) = (w +:+ sideband_data l, None).
Proof.
  induction l as [|p l IH]; intros [|fuel] w rest Hl Hf; simpl in Hf; try lia.
  - cbn [map concat_str]. cbn [read_pack].
    assert (Hr : read_buf false 4 (flush +:+ rest) = Some (flush, rest)) by exact (read_buf_app false flush rest ltac:(done)).
    change ("" +:+ flush +:+ rest) with (flush +:+ rest). rewrite Hr. simpl. by rewrite app_str_nil_r.
  - apply Forall_cons_iff in Hl as [Hp Hl]. cbn [map concat_str]. rewrite app_str_assoc.
    rewrite read_band by done. rewrite IH by (done || lia). unfold sideband_data.
    rewrite filter_cons. destruct (decide (fst p = chr 1)); [|done]. cbn [map concat_str].
    by rewrite app_str_assoc.
Qed.

Lemma readPack_bands l rest : Forall (fun p => Z.of_nat (String.length (snd p)) <= 65530)%Z l ->
  readPack (concat_str (map band_packet l) +:+ flush +:+ rest) = (sideband_data l, None).
Proof.
  intros Hl. unfold readPack. rewrite read_pack_bands; [done|done|].
  assert (List.length l <= String.length (concat_str (map band_packet l))).
  { clear. induction l as [|p l IH]; [done|]. cbn [map concat_str]. rewrite length_app_str.
    unfold band_packet at 1. rewrite length_app_str. simpl in *. lia. }
  rewrite length_app_str. lia.
Qed.

Section Unpack.
Context `{OS : Os} `{GT : !GitTools}.

(** The unpacker gets exactly the pack: whatever a server sends before the pack file and on the other
    sidebands, its input is the concatenation of the data of sideband 1. *)
Theorem UnpackObjects_input : forall l eol bands rest dir fs fs1 path,
  Forall (fun p => line_ok (fst p) (snd p)) l -> eol = "" \/ eol = str1 nl ->
  Forall (fun p => Z.of_nat (String.length (snd p)) <= 65530)%Z bands ->
  git_init fs dir = (fs1, None) ->
  path = "/usr/lib/git-core/git-unpack-objects" -> is_ok (os_Stat fs1 path) = true ->
  git_start fs1 path dir = None ->
  UnpackObjects (encode_lines l +:+ packet ("packfile" +:+ eol) +:+
    concat_str (map band_packet bands) +:+ flush +:+ rest) dir fs
  = git_unpack fs1 path dir (sideband_data bands).
Proof.
  intros l eol bands rest dir fs fs1 path Hl He Hb Hi -> Hs Hst. unfold UnpackObjects. rewrite Hi.
  unfold decodeGitProtocol. rewrite decode_packfile; [|done|done|].
  2: { pose proof (length_encode_lines l Hl). rewrite length_app_str. lia. }
  apply is_ok_true in Hs as [b ->]. rewrite Hst, readPack_bands by done. by destruct (git_unpack _ _ _ _).
Qed.
End Unpack.

(** ** Allowed URLs *)

Definition no_newline (s : string) : bool := str_forall (class_has true [(10, 10)%N]) s.
Definition no_slash (s : string) : bool := negb (occurs slash s).

(** The directories of a repository path: nothing, or a text that ends with a slash. *)
Definition dirs_ok (dirs : string) : Prop :=
  dirs = "" \/ exists d, dirs = d +:+ "/" /\ d <> "" /\ no_newline d = true.

Definition dirs_re : re := RStar (RGroup 1 (RSeq (RPlus RDot) (RSeq (RChar slash) REmpty))).
Definition name_re : re := RGroup 2 (RSeq (RPlus (RClass true [chr_range slash])) REmpty).

Lemma reUploadPack_eq : reUploadPack = mkRegexp (RSeq RBegin (RLit "/" (RSeq dirs_re (RSeq name_re
    (RLit "/git-upload-pack" (RSeq REnd REmpty)))))) 2.
Proof. by vm_compute. Qed.

Lemma no_slash_class s : str_forall (class_has true [chr_range slash]) s = no_slash s.
Proof.
  unfold no_slash. induction s as [|c s IH]; [done|]. simpl. rewrite IH.
  assert (Hc : class_has true [chr_range slash] c = negb (bool_decide (c = slash))).
  { clear. by_all_bytes c. }
  by rewrite Hc, negb_orb.
Qed.

Lemma dirs_inv pre w post c c' : Matches dirs_re pre w post c c' -> dirs_ok w.
Proof.
  unfold dirs_re. intros H. remember (RStar _) as r eqn:Er. revert Er.
  induction H as [| | | | | |r pre w1 w2 post c1 c2 c3 Hw H1 _ H2 IH| | | |]; intros [=]; subst; [by left|].
  apply Matches_group in H1 as (c4 & -> & H1). apply Matches_seq in H1 as (d & e & c5 & -> & H3 & H4).
  apply Matches_plus_class_inv in H3 as (-> & Hd & Hn).
  apply (Matches_lit "/" REmpty) in H4 as (? & -> & H4); [|done]. apply Matches_empty in H4 as [-> ->].
  right. destruct (IH eq_refl) as [->|(d2 & -> & Hd2 & Hn2)].
  - exists d. by rewrite !app_str_nil_r.
  - exists (d +:+ "/" +:+ d2). rewrite !app_str_assoc. split; [done|]. split; [by destruct d|].
    unfold no_newline in *. by rewrite str_forall_app', Hn.
Qed.

Lemma dirs_match pre w post c : dirs_ok w -> exists c', Matches dirs_re pre w post c c'.
Proof.
  intros [->|(d & -> & Hd & Hn)]; [exists c; constructor|]. exists ((1, d +:+ "/") :: c).
  assert (H : Matches dirs_re pre ((d +:+ "/") +:+ "") post c ((1, d +:+ "/") :: c)).
  { eapply M_star_cons; [by destruct d| |constructor].
    apply Matches_group. exists c. split; [done|]. apply (M_seq _ _ _ d "/" _ _ c).
    - by apply Matches_plus_class.
    - apply (Matches_lit "/" REmpty); [done|]. exists "". split; [done|]. constructor. }
  by rewrite app_str_nil_r in H.
Qed.

Lemma name_match pre w post c c' : ascii_head post ->
  Matches name_re pre w post c c' <-> c' = (2, w) :: c /\ w <> "" /\ no_slash w = true.
Proof.
  intros Hp. unfold name_re. rewrite Matches_group, <- no_slash_class. split.
  - intros (c1 & -> & H). apply Matches_seq in H as (w1 & w2 & c2 & -> & H1 & H2).
    apply Matches_empty in H2 as [-> ->]. apply Matches_plus_class_inv in H1 as (-> & ? & ?).
    by rewrite app_str_nil_r.
  - intros (-> & Hw & Hn). exists c. split; [done|].
    assert (H : Matches (RSeq (RPlus (RClass true [chr_range slash])) REmpty) pre (w +:+ "") post c c).
    { apply (M_seq _ _ _ w "" _ _ c); [|constructor]. by apply Matches_plus_class. }
    by rewrite app_str_nil_r in H.
Qed.

(** The path of an upload-pack request to a repository [name] in the directories [dirs]. *)
Definition upload_pack_path (dirs name : string) : string :=
  "/" +:+ dirs +:+ name +:+ "/git-upload-pack".

Lemma upload_pack_matches p c : (exists post, Matches (RLit "/" (RSeq dirs_re (RSeq name_re
    (RLit "/git-upload-pack" (RSeq REnd REmpty))))) "" p post [] c) ->
  exists dirs name c0, p = upload_pack_path dirs name /\ dirs_ok dirs /\ name <> "" /\
    no_slash name = true /\ c = (2, name) :: c0.
Proof.
  intros (post & H). apply Matches_lit in H as (w1 & -> & H); [|done].
  apply Matches_seq in H as (dirs & w2 & c1 & -> & H1 & H).
  apply Matches_seq in H as (name & w3 & c2 & -> & H2 & H).
  apply Matches_tail in H as (-> & -> & ->); [|done].
  apply name_match in H2 as (-> & Hn & Hs); [|done]. apply dirs_inv in H1.
  exists dirs, name, c1. done.
Qed.

Lemma last_segment a a' n n' : no_slash n = true -> no_slash n' = true ->
  a +:+ "/" +:+ n = a' +:+ "/" +:+ n' -> n = n'.
Proof.
  intros Hn Hn' H. apply (f_equal srev) in H. rewrite !srev_app in H. simpl in H.
  rewrite !app_str_assoc in H.
  assert (Ho : forall s, no_slash s = true -> occurs slash (srev s) = false).
  { intros s Hs. unfold no_slash in Hs. apply negb_true_iff in Hs. rewrite <- Hs. clear.
    assert (Happ : forall c x y, occurs c (x +:+ y) = occurs c x || occurs c y).
    { intros c x y. induction x as [|z x IH]; [done|]. simpl. by rewrite IH, orb_assoc. }
    induction s as [|c s IH]; [done|]. rewrite srev_cons, Happ, IH. simpl.
    by rewrite orb_false_r, orb_comm. }
  pose proof (proj2 (Cut1_spec (srev n +:+ "/" +:+ srev a) slash (srev n) (srev a))
    (conj eq_refl (Ho n Hn))) as H1.
  pose proof (proj2 (Cut1_spec (srev n' +:+ "/" +:+ srev a') slash (srev n') (srev a'))
    (conj eq_refl (Ho n' Hn'))) as H2.
  change (srev (String "/" "")) with "/" in H. rewrite H in H1. rewrite H1 in H2.
  injection H2 as H2 _. by rewrite <- (srev_involutive n), H2, srev_involutive.
Qed.

(** The name an upload-pack expression finds is the last segment of the repository path. *)
Lemma project_of_spec path proj : project_of reUploadPack path = Some proj <->
  exists dirs name, path = upload_pack_path dirs name /\ dirs_ok dirs /\ name <> "" /\
    no_slash name = true /\ proj = TrimSuffix name ".git".
Proof.
  unfold project_of. rewrite reUploadPack_eq.
  destruct (FindStringSubmatch_anchored (RLit "/" (RSeq dirs_re (RSeq name_re
    (RLit "/git-upload-pack" (RSeq REnd REmpty))))) 2 path) as [Hnil Hcons].
  destruct (FindStringSubmatch _ path) as [|m l] eqn:E.
  - split; [done|]. intros (dirs & name & -> & Hd & Hn & Hs & _). exfalso. apply Hnil; [done|].
    exists (upload_pack_path dirs name), "". unfold upload_pack_path.
    destruct (dirs_match "/" dirs (name +:+ "/git-upload-pack" +:+ "") [] Hd) as [c Hc].
    exists ((2, name) :: c). split; [by rewrite app_str_nil_r|].
    apply Matches_lit; [done|]. eexists. split; [reflexivity|].
    apply (M_seq _ _ _ dirs (name +:+ "/git-upload-pack") _ _ c); [by rewrite app_str_assoc|].
    apply (M_seq _ _ _ name "/git-upload-pack" _ _ ((2, name) :: c)); [by apply name_match|].
    by apply Matches_tail.
  - destruct (Hcons m l eq_refl) as (post & c & -> & Hm & ->).
    destruct (upload_pack_matches m c) as (dirs & name & c0 & -> & Hd & Hn & Hs & ->); [eauto|].
    assert (post = "") as ->.
    { apply Matches_lit in Hm as (w1 & Hw & Hm); [|done].
      apply Matches_seq in Hm as (? & ? & ? & -> & _ & Hm).
      apply Matches_seq in Hm as (? & ? & ? & -> & _ & Hm). by apply Matches_tail in Hm as (_ & -> & _). }
    rewrite app_str_nil_r. change (map _ (seq 1 2)) with [group_text 1 c0; name]. simpl. split.
    + intros [= <-]. exists dirs, name. done.
    + intros (dirs' & name' & Hp & Hd' & Hn' & Hs' & ->). do 2 f_equal. unfold upload_pack_path in Hp.
      assert (Hx : forall x d n, dirs_ok d -> exists a, x +:+ "/" +:+ d +:+ n = a +:+ "/" +:+ n).
      { intros x d n [->|(y & -> & _)]; [by exists x|]. exists (x +:+ "/" +:+ y).
        by rewrite !app_str_assoc. }
      assert (Hp' : "/" +:+ dirs +:+ name = "/" +:+ dirs' +:+ name').
      { apply (f_equal srev) in Hp. rewrite <- !app_str_assoc in Hp. rewrite !(srev_app _ "/git-upload-pack") in Hp.
        apply app_str_inv_head in Hp. apply (f_equal srev) in Hp. rewrite !srev_involutive in Hp.
        by rewrite !app_str_assoc in Hp. }
      destruct (Hx "" dirs name Hd) as [a Ha]. destruct (Hx "" dirs' name' Hd') as [a' Ha'].
      eapply last_segment; [done|done|]. rewrite <- Ha, <- Ha'. exact Hp'.
Qed.

Section Urls.
Context `{GL : GlobLib}.

(** An upload-pack URL is accepted exactly if a configured pattern matches it and its path ends in a
    repository name and "/git-upload-pack"; the project is that name without ".git". *)
Theorem NewUploadPackURLInfo_spec : forall cfg u project, globs_ok (git_URLs cfg) ->
  NewUploadPackURLInfo u cfg = Some (Ok project) <->
  url_allowed (git_URLs cfg) u /\
  exists dirs name, Path u = upload_pack_path dirs name /\ dirs_ok dirs /\ name <> "" /\
    no_slash name = true /\ project = TrimSuffix name ".git".
Proof.
  intros cfg u project Hg. unfold NewUploadPackURLInfo, git_checkRequestURL.
  destruct (checkRequestURL_spec (git_URLs cfg) u Hg) as (e & -> & He). simpl.
  rewrite <- He, <- project_of_spec. destruct e as [e|]; [naive_solver|].
  destruct (project_of reUploadPack (Path u)); simpl; naive_solver.
Qed.

(** A smart query is accepted exactly if a configured pattern matches its URL, its path is below the
    root and ends in "/info/refs", and it asks for the upload-pack service. *)
Theorem NewSmartQueryURLInfo_spec : forall cfg u service, globs_ok (git_URLs cfg) ->
  NewSmartQueryURLInfo u cfg = Some (Ok service) <->
  url_allowed (git_URLs cfg) u /\
  (exists d, Path u = "/" +:+ d +:+ "/info/refs" /\ no_newline d = true) /\
  Query_Get (URL_Query u) "service" = "git-upload-pack" /\ service = "git-upload-pack".
Proof.
  intros cfg u service Hg. unfold NewSmartQueryURLInfo, git_checkRequestURL.
  destruct (checkRequestURL_spec (git_URLs cfg) u Hg) as (e & -> & He). simpl.
  rewrite <- He. destruct e as [e|]; [naive_solver|].
  assert (Hm : MatchString reSmartQuery (Path u) = true <->
    exists d, Path u = "/" +:+ d +:+ "/info/refs" /\ no_newline d = true).
  { replace reSmartQuery with (mkRegexp (RSeq RBegin (RLit "/" (RSeq (RStar RDot)
      (RLit "/info/refs" (RSeq REnd REmpty))))) 0) by (by vm_compute).
    rewrite MatchString_anchored. unfold matches_prefix. split.
    - intros (w & post & c & -> & H). apply Matches_lit in H as (w1 & -> & H); [|done].
      apply Matches_seq in H as (d & w2 & c1 & -> & H1 & H).
      apply Matches_tail in H as (-> & -> & ->); [|done]. apply Matches_star_class_inv in H1 as [-> Hd].
      exists d. by rewrite app_str_nil_r.
    - intros (d & -> & Hd). exists ("/" +:+ d +:+ "/info/refs"), "", []. rewrite app_str_nil_r.
      split; [done|]. apply Matches_lit; [done|]. eexists. split; [reflexivity|].
      apply (M_seq _ _ _ d "/info/refs" _ _ []); [by apply Matches_star_class|]. by apply Matches_tail. }
  rewrite <- Hm. destruct (MatchString reSmartQuery (Path u)); simpl; [|naive_solver].
  destruct (String.eqb_spec (Query_Get (URL_Query u) "service") "git-upload-pack") as [->|Hne]; simpl;
    naive_solver.
Qed.
End Urls.

(** ** Upload-pack requests *)

(** The last "deepen" message asks for depth 1. *)
Definition asks_shallow (msgs : list string) : Prop :=
  last (filter (fun m => HasPrefix m "deepen " = true) msgs) = Some "deepen 1".

(** No two different objects are wanted. *)
Definition wants_one (msgs : list string) : Prop :=
  forall r1 r2, In ("want " +:+ r1) msgs -> In ("want " +:+ r2) msgs -> r1 = r2.

Lemma fetch_arg_shallow msgs : forall w,
  isShallow (fold_left fetch_arg msgs w) =
  match last (filter (fun m => HasPrefix m "deepen " = true) msgs) with
  | Some m => String.eqb m "deepen 1"
  | None => isShallow w
  end.
Proof.
  induction msgs as [|m msgs IH] using rev_ind; intros w; [done|].
  rewrite fold_left_app, filter_app. simpl. rewrite filter_cons, filter_nil.
  unfold fetch_arg at 1. destruct (HasPrefix m "deepen ") eqn:E.
  - rewrite decide_True by done. by rewrite last_snoc.
  - rewrite decide_False by done. rewrite app_nil_r, <- IH.
    by destruct (strip_prefix "want " m), (strip_prefix "want-ref " m).
Qed.

Lemma add_unique_In l x y : In y (add_unique l x) <-> y = x \/ In y l.
Proof.
  unfold add_unique, slices_Contains. destruct (existsb (String.eqb x) l) eqn:E.
  - apply existsb_exists in E as (z & Hz & Hx). apply String.eqb_eq in Hx as ->. naive_solver.
  - rewrite in_app_iff. simpl. naive_solver.
Qed.

Lemma add_unique_NoDup l x : NoDup l -> NoDup (add_unique l x).
Proof.
  unfold add_unique, slices_Contains. intros Hl. destruct (existsb (String.eqb x) l) eqn:E; [done|].
  apply NoDup_app. split; [done|]. split; [|apply NoDup_singleton].
  intros y Hy ->%list_elem_of_singleton. apply list_elem_of_In in Hy.
  pose proof (proj1 (existsb_false_iff _ _) E _ Hy) as Hx. by rewrite String.eqb_refl in Hx.
Qed.

Lemma fetch_arg_wants msgs : forall w, NoDup (wants w) ->
  NoDup (wants (fold_left fetch_arg msgs w)) /\
  (forall r, In r (wants (fold_left fetch_arg msgs w)) <-> In r (wants w) \/ In ("want " +:+ r) msgs).
Proof.
  induction msgs as [|m msgs IH]; intros w Hw; [simpl; split; [done|]; tauto|]. simpl.
  assert (Hs : NoDup (wants (fetch_arg w m)) /\
    forall r, In r (wants (fetch_arg w m)) <-> In r (wants w) \/ m = "want " +:+ r).
  { unfold fetch_arg. destruct (HasPrefix m "deepen ") eqn:E.
    - apply HasPrefix_true in E as [r0 ->]. split; [done|]. intros r. simpl. naive_solver.
    - destruct (strip_prefix "want " m) as [ref|] eqn:E2.
      + apply strip_prefix_Some in E2 as ->. cbn [wants]. split; [by apply add_unique_NoDup|].
        intros r. rewrite add_unique_In. split; [intros [->|?]; auto|].
        intros [?|H]; [auto|]. apply app_str_inv_head in H. auto.
      + assert (Hno : forall r, m <> "want " +:+ r).
        { intros r ->. rewrite strip_prefix_app in E2. done. }
        destruct (strip_prefix "want-ref " m); (split; [done|]); intros r; simpl; naive_solver. }
  destruct Hs as [Hn Hr]. destruct (IH _ Hn) as [H1 H2]. split; [done|].
  intros r. rewrite H2, Hr. naive_solver.
Qed.

Lemma length_le_1 {A} (l : list A) : NoDup l ->
  List.length l <= 1 <-> forall x y, In x l -> In y l -> x = y.
Proof.
  intros Hl. split.
  - destruct l as [|a [|b l]]; simpl; intros H x y; [tauto| |lia]. naive_solver.
  - destruct l as [|a [|b l]]; simpl; intros H; [lia..|]. exfalso.
    apply NoDup_cons in Hl as [Ha _]. apply Ha. rewrite (H a b) by auto. by left.
Qed.

Lemma fetch_wants_spec msgs :
  (isShallow (fetch_wants msgs) = true <-> asks_shallow msgs) /\
  (List.length (wants (fetch_wants msgs)) <= 1 <-> wants_one msgs).
Proof.
  unfold fetch_wants, asks_shallow, wants_one. rewrite fetch_arg_shallow. split.
  - destruct (last _) as [m|]; simpl; [|naive_solver]. rewrite String.eqb_eq. naive_solver.
  - destruct (fetch_arg_wants msgs (mkFetchWants false [] []) (NoDup_nil_2)) as [Hn Hr].
    rewrite length_le_1 by done. setoid_rewrite Hr. simpl. naive_solver.
Qed.

Lemma add_strs_lookup k l notes k' : k' <> k -> add_strs k l notes !! k' = notes !! k'.
Proof. intros H. unfold add_strs. destruct l; [done|]. by rewrite lookup_insert_ne. Qed.

Section Requests.
Context `{ML : MimeLib} `{GL : GlobLib} `{OS : Os} `{GZ : Gzip} `{GT : !GitTools}.
Context {IS : Type} `{PR : !Part IS GitRepos} `{PF : !Part IS FS}.

(** What the protocol allows: listings, and shallow fetches of at most one object. *)
Definition command_allowed (msgs : list string) : Prop :=
  last_with_prefix "command=" msgs = "ls-refs" \/
  last_with_prefix "command=" msgs = "fetch" /\ asks_shallow msgs /\ wants_one msgs.

Lemma inspectRequestCommand_verdict a msgs notes :
  exists i, RequestInspection (inspectRequestCommand a msgs notes) !! upload_pack_id = Some i /\
    (Opinion i = Pending <-> command_allowed msgs) /\ (Opinion i = Pending \/ Opinion i = Rejected) /\
    Annotations i !! "command" = Some (AStr (last_with_prefix "command=" msgs)) /\
    Request (inspectRequestCommand a msgs notes) = Request a.
Proof.
  unfold inspectRequestCommand, command_allowed. set (command := last_with_prefix "command=" msgs).
  destruct (fetch_wants_spec msgs) as [Hs Hw].
  assert (Hann : forall op reason (ann : Annotation), ann !! "command" = Some (AStr command) ->
    Annotations (Inspection_Annotate (mkInspection op reason ∅) ann) !! "command" = Some (AStr command)).
  { intros op reason ann H. simpl. by apply lookup_union_Some_l. }
  destruct (String.eqb_spec command "ls-refs") as [E1|N1].
  { eexists. split; [by apply AnnotateRequest_lookup, SetRequest_lookup|]. split; [naive_solver|].
    split; [by left|]. split; [|done]. apply Hann. apply lookup_insert_eq. }
  destruct (String.eqb_spec command "fetch") as [E2|N2].
  2: { eexists. split; [by apply AnnotateRequest_lookup, (SetRequest_lookup upload_pack_id)|].
       split; [naive_solver|]. split; [by right|]. split; [|done]. apply Hann. apply lookup_insert_eq. }
  assert (Hc : forall n b, add_strs "want-refs" (wantRefs (fetch_wants msgs))
    (add_strs "wants" (wants (fetch_wants msgs)) (<["num-wants" := n]> (<["is-shallow" := b]>
       (<["command" := AStr command]> (<["client-request" := AStrs msgs]> notes)))))
      !! "command" = Some (AStr command)).
  { intros n b. rewrite !add_strs_lookup, !lookup_insert_ne by done. apply lookup_insert_eq. }
  destruct (isShallow (fetch_wants msgs)) eqn:Es; simpl negb; cbn iota.
  2: { eexists. split; [by apply AnnotateRequest_lookup, (SetRequest_lookup upload_pack_id)|].
       split; [naive_solver|]. split; [by right|]. split; [|done]. apply Hann, Hc. }
  destruct (Nat.ltb_spec 1 (List.length (wants (fetch_wants msgs)))) as [Hl|Hl].
  { eexists. split; [by apply AnnotateRequest_lookup, (SetRequest_lookup upload_pack_id)|].
    split; [|split; [by right|]; split; [|done]; apply Hann, Hc].
    split; [done|]. intros [?|(_ & _ & H)]; [congruence|]. apply Hw in H. lia. }
  eexists. split; [by apply AnnotateRequest_lookup, SetRequest_lookup|].
  split; [|split; [by left|]; split; [|done]; apply Hann, Hc].
  split; [|done]. intros _. right. split; [done|]. split; [by apply Hs|]. by apply Hw.
Qed.

Lemma NewUploadPackURLInfo_total cfg u : globs_ok (git_URLs cfg) ->
  exists info, NewUploadPackURLInfo u cfg = Some info.
Proof.
  intros Hg. unfold NewUploadPackURLInfo, git_checkRequestURL. destruct (checkRequestURL_spec (git_URLs cfg) u Hg) as (e & -> & _).
  simpl. destruct e; eauto.
Qed.

(** C38: An upload-pack request is found valid exactly if it lists references or fetches, with depth 1, at
    most one object; any other command is rejected. The request goes on with the body it had,
    decompressed, and nothing but the opinion of this inspector changes. *)
Theorem upload_pack_request : forall cfg (st : IS) a u q q' msgs body,
  globs_ok (git_URLs cfg) -> Parse (DownloadURL a) = Ok u ->
  RequestHeaderContains a "Content-Type" "application/x-git-upload-pack-request" = true ->
  RequestHeaderContains a "Accept" "application/x-git-upload-pack-result" = true ->
  getGitProtocol a = "version=2" -> HTTPRequest a = Some q ->
  newUploadPackRequestHandler q = (q', Some (Ok (msgs, body))) ->
  exists st' a' i, UploadPack_InspectRequest cfg st a = (st', a', None) /\
    request_frame upload_pack_id a a' /\
    RequestInspection a' !! upload_pack_id = Some i /\
    (Opinion i = Pending <-> command_allowed msgs) /\ (Opinion i = Pending \/ Opinion i = Rejected) /\
    (exists q2, Request a' = Some q2 /\ ReqBody q2 = Some (mkBody body None) /\
       ContentLength q2 = Z.of_nat (String.length body) /\ ReqURL q2 = ReqURL q).
Proof.
  intros cfg st a u q q' msgs body Hg Hu H1 H2 Hp Hq Hh. unfold UploadPack_InspectRequest.
  destruct (NewUploadPackURLInfo_total cfg u Hg) as [info Hi].
  rewrite Hu, H1, H2, Hi, Hp, Hq, Hh. change (String.eqb "version=2" "version=2") with true.
  cbn [negb]. set (a1 := SetRequestBody (Some (mkBody body None)) (set_Request (Some q') a)).
  match goal with |- context [inspectRequestCommand a1 msgs ?n] =>
    destruct (inspectRequestCommand_verdict a1 msgs n) as (i & Hai & Hop & Hv & _ & Hr) end.
  assert (Hreq : ContentLength q' = Z.of_nat (String.length body) /\ ReqURL q' = ReqURL q).
  { revert Hh. unfold newUploadPackRequestHandler. repeat case_match; intros; simplify_eq; done. }
  eexists _, _, i. split; [reflexivity|].
  split.
  { apply newUploadPackRequestHandler_head in Hh.
    apply inspectRequestCommand_frame, SetRequestBody_frame, (set_Request_frame _ q); auto with frames. }
  split; [exact Hai|]. split; [done|]. split; [done|]. eexists. split; [exact Hr|]. done.
Qed.

(** ** Upload-pack responses *)

(** What a fetch that was not refused looked like. *)
Record good_fetch (data : string) (st : IS) (a : Artifact) (ann : Annotation) : Prop := {
  gf_wants : RequestAnnotation a upload_pack_id "num-wants" = Some (AInt 1);
  gf_answer : exists msgs rest, decodeGitProtocol false data = (msgs, None, rest) /\
    Exists (fun m => HasPrefix m "shallow " = true) msgs /\
    Forall (fun m => HasPrefix m "unshallow " = false) msgs;
  gf_checkout : exists ref l fs dir, RequestAnnotation a upload_pack_id "wants" = Some (AStrs (ref :: l)) /\
    ref <> "" /\ unpackAndCheckout data ref (CacheDir a) (part st) = (fs, Ok dir) /\
    ann !! "git-checkout-path" = Some (AStr dir);
}.

Lemma fetchResponseIsShallow_ok msgs notes :
  snd (fetchResponseIsShallow msgs notes) = None ->
  Exists (fun m => HasPrefix m "shallow " = true) msgs /\
  Forall (fun m => HasPrefix m "unshallow " = false) msgs.
Proof.
  unfold fetchResponseIsShallow. simpl. intros H.
  destruct (existsb (fun m => HasPrefix m "shallow ") msgs) eqn:E1; [|done]. simpl in H.
  destruct (existsb _ msgs) eqn:E2 in H; [done|]. split.
  - apply Exists_exists. apply existsb_exists in E1 as (m & Hm & ?). exists m. by rewrite list_elem_of_In.
  - apply Forall_forall. intros m Hm. apply list_elem_of_In in Hm.
    pose proof (proj1 (existsb_false_iff _ _) E2 m Hm) as Hx. simpl in Hx.
    destruct (HasPrefix m "unshallow ") eqn:E3; [|done]. rewrite andb_true_r in Hx.
    apply negb_false_iff, HasPrefix_true in Hx as [r ->]. apply HasPrefix_true in E3 as [r' E3]. done.
Qed.

Lemma getRefFromWants_ref a ref : getRefFromWants a = inl ref ->
  exists l, RequestAnnotation a upload_pack_id "wants" = Some (AStrs (ref :: l)).
Proof. unfold getRefFromWants. intros H. repeat (case_match; simplify_eq); eauto. Qed.

(** The opinion a fetch response can get. *)
Definition fetch_opinion (data : string) (a : Artifact) (i : Inspection) : Prop :=
  (Opinion i = Rejected /\ Annotations i !! "git-checkout-path" = None) \/
  (Opinion i = Unknown /\ exists st, good_fetch data st a (Annotations i)).

Lemma rejected_fetch_opinion data a id reason md b (ann : Annotation) :
  ann !! "git-checkout-path" = None ->
  exists i, ResponseInspection (AnnotateResponse id ann (SetResponseRejected id reason md b)) !! id = Some i /\
    fetch_opinion data a i.
Proof.
  intros Hann. eexists. split.
  - apply AnnotateResponse_lookup, SetResponse_lookup.
  - left. split; [done|]. simpl. apply lookup_union_None_2; [done|apply lookup_empty].
Qed.

Lemma inspectFetchResponse_opinion data repo vendor (st : IS) a st' a' :
  inspectFetchResponse data repo vendor st a = (st', a') ->
  a' = a \/ exists i, ResponseInspection a' !! upload_pack_id = Some i /\ fetch_opinion data a i.
Proof.
  intros E. unfold inspectFetchResponse in E.
  destruct (_ && _) in E; [simplify_eq; by left|].
  set (md := git_metadata _ _ _ _) in E.
  pose proof (fun reason ann H => rejected_fetch_opinion data a upload_pack_id reason md a ann H) as Hrej.
  destruct (RequestAnnotation a upload_pack_id "num-wants") as [[]|] eqn:En; simpl in E;
    try (simplify_eq; right; by apply Hrej).
  destruct (Z.eqb_spec z 1) as [->|]; simpl in E; [|simplify_eq; right; by apply Hrej].
  destruct (decodeGitProtocol false data) as [[msgs [err|]] rest] eqn:Ed;
    [simplify_eq; right; by apply Hrej|].
  match type of E with match ?x with _ => _ end = _ => destruct x as [reason|] eqn:Es end;
    [simplify_eq; right; by apply Hrej|].
  assert (Hs : snd (fetchResponseIsShallow msgs ∅) = None) by exact Es.
  apply fetchResponseIsShallow_ok in Hs as [Hs Hu].
  destruct (getRefFromWants a) as [ref|reason] eqn:Er; [|simplify_eq; right; by apply Hrej].
  destruct (decide (ref = "")) as [->|Hne]; [simplify_eq; by left|].
  destruct (unpackAndCheckout data ref (CacheDir a) (part st)) as [fs [path|err]] eqn:Eu;
    (destruct ref; [done|]); simplify_eq; [|right; by apply Hrej].
  right. eexists. split; [apply AnnotateResponse_lookup, SetResponse_lookup|].
  right. split; [done|]. exists st. apply getRefFromWants_ref in Er as [l Hl].
  split; [done|eauto|]. exists (String a0 ref), l, fs, path.
  split; [done|]. split; [done|]. split; [done|]. simpl. apply lookup_union_Some_l, lookup_insert_eq.
Qed.

Lemma upload_pack_fetch_cases (st : IS) data a st' a' e :
  Artifact_ContentType a = "application/x-git-upload-pack-result" ->
  RequestAnnotation a upload_pack_id "command" = Some (AStr "fetch") ->
  UploadPack_InspectArtifact st data a = (st', a', e) ->
  e = None /\ response_frame upload_pack_id a a' /\
  (a' = a \/ exists i, ResponseInspection a' !! upload_pack_id = Some i /\ fetch_opinion data a i).
Proof.
  intros Hct Hcmd H. assert (Hf : response_frame upload_pack_id a a').
  { pose proof (UploadPack_laws (IS := IS) (mkGitInspectorConfig [])) as [_ L]. by apply (L st data a st' a' e). }
  unfold UploadPack_InspectArtifact in H. rewrite Hct in H. change (negb (String.eqb _ _)) with false in H.
  cbn iota in H. destruct (RequestStringAnnotation a upload_pack_id "repository") as [repo|].
  2: { simplify_eq. split; [done|]. split; [done|]. right. eexists. split; [apply SetResponse_lookup|].
       left. split; [done|]. apply lookup_empty. }
  unfold inspectResponseCommand in H. rewrite Hcmd in H. simpl as_string in H. cbn iota zeta in H.
  change (String.eqb "fetch" "ls-refs") with false in H. change (String.eqb "fetch" "fetch") with true in H.
  cbn iota in H. set (st1 := initRepoState repo st) in H.
  destruct (inspectFetchResponse _ repo _ st1 a) as [st2 a2] eqn:E. injection H as <- <- <-.
  split; [done|]. split; [done|]. by apply inspectFetchResponse_opinion in E.
Qed.

End Requests.

(** ** Witnesses *)

(** A pack is unpacked by storing it. *)
Definition demo_git : GitTools (OS := mem_os) := @Build_GitTools mem_os
  (fun (fs : MemFS) dir pat => (<[dir +:+ "/" +:+ pat +:+ "1" := None]> fs, Ok (dir +:+ "/" +:+ pat +:+ "1")))
  (fun fs dir => (fs, None))
  (fun fs path dir => None)
  (fun (fs : MemFS) path dir pack => (<[dir +:+ "/pack" := Some pack]> fs, None))
  (fun fs dir ref => (fs, None)).
Definition demo_gzip : Gzip := {| gzip_NewReader := fun b => Ok b |}.

Definition demo_answer : list (string * string) := [("shallow-info", str1 nl); ("shallow 1234", str1 nl)].
Definition demo_bands : list (ascii * string) := [(chr 2, "progress"); (chr 1, "PACK"); (chr 1, "data")].
Definition git_core : string := "/usr/lib/git-core/git-unpack-objects".
Definition git_fs : MemFS := {[ git_core := Some "" ]}.

Lemma demo_answer_ok : Forall (fun p => line_ok (fst p) (snd p)) demo_answer.
Proof.
  unfold demo_answer. repeat (apply Forall_cons; split; [split; try done; auto|]); [..|apply Forall_nil; done].
Qed.

Lemma decodeGitProtocol_encode_witness :
  decodeGitProtocol true (encode_lines demo_answer +:+ flush +:+ "rest")
    = (["shallow-info"; "shallow 1234"], None, "rest").
Proof. exact (decodeGitProtocol_encode true demo_answer "rest" demo_answer_ok). Defined.

Lemma UnpackObjects_input_witness :
  UnpackObjects (GT := demo_git) (encode_lines demo_answer +:+ packet ("packfile" +:+ str1 nl) +:+
    concat_str (map band_packet demo_bands) +:+ flush +:+ "") "/d" git_fs
  = (<["/d/pack" := Some "PACKdata"]> git_fs, None).
Proof.
  refine (UnpackObjects_input (GT := demo_git) demo_answer (str1 nl) demo_bands "" "/d" git_fs git_fs
    git_core demo_answer_ok (or_intror eq_refl) _ eq_refl eq_refl _ eq_refl).
  - repeat (apply Forall_cons; split; [by vm_compute|]). by apply Forall_nil.
  - by vm_compute.
Defined.

Definition demo_git_cfg : GitInspectorConfig (GL := literal_glob) :=
  @mkGitInspectorConfig literal_glob [Some "https://example.com:443/o/r.git/git-upload-pack"].
Lemma demo_git_cfg_ok : globs_ok (GL := literal_glob) (git_URLs demo_git_cfg).
Proof. apply Forall_cons. split; [done|]. by apply Forall_nil. Qed.

Lemma NewUploadPackURLInfo_spec_witness :
  NewUploadPackURLInfo (GL := literal_glob) (mkURL "https" "example.com" "/o/r.git/git-upload-pack" "") demo_git_cfg
    = Some (Ok "r").
Proof.
  apply (NewUploadPackURLInfo_spec (GL := literal_glob) demo_git_cfg _ "r" demo_git_cfg_ok). split.
  - exists "https://example.com:443/o/r.git/git-upload-pack". split; [by left|by vm_compute].
  - exists "o/", "r.git". split; [done|]. split; [|done]. right. by exists "o".
Defined.

(** A fetch of one object with depth 1. *)
Definition demo_fetch : list (string * string) :=
  [("command=fetch", str1 nl); ("deepen 1", str1 nl); ("want 1234", str1 nl)].
Definition demo_fetch_headers : Header :=
  <["Content-Type" := ["application/x-git-upload-pack-request"]]>
    (<["Accept" := ["application/x-git-upload-pack-result"]]> {[ "Git-Protocol" := ["version=2"] ]}).
Definition demo_fetch_url : string := "https://example.com/o/r.git/git-upload-pack".
Definition demo_fetch_request (lines : list (string * string)) : HttpRequest :=
  mkHttpRequest "POST" (mkURL "https" "example.com" "/o/r.git/git-upload-pack" "") demo_fetch_headers
    (Some (mkBody (encode_lines lines +:+ flush) None)) 0 [] "" None.

Section Demo.
#[local] Existing Instance text_mime.
#[local] Existing Instance literal_glob.
#[local] Existing Instance mem_os.
#[local] Existing Instance demo_git.
#[local] Existing Instance demo_gzip.

Definition demo_git_state : GitRepos * @FS mem_os := (mkGitRepos ∅ ∅, git_fs).

Definition demo_fetch_artifact (lines : list (string * string)) : Artifact :=
  set_Request (Some (demo_fetch_request lines))
    (set_CurrentDownload (mkDownload zero_time zero_time "POST" demo_fetch_url "" "" demo_fetch_headers
       0 "" "application/x-git-upload-pack-result" ∅ zero_sha256) (set_SessionCacheDir "/cache" NewArtifact)).

Definition demo_fetch_run (lines : list (string * string)) : GitRepos * @FS mem_os * Artifact * option error :=
  UploadPack_InspectRequest (IS := GitRepos * @FS mem_os) demo_git_cfg demo_git_state (demo_fetch_artifact lines).

Lemma upload_pack_request_witness :
  exists i, RequestInspection (demo_fetch_run demo_fetch).1.2 !! upload_pack_id = Some i /\ Opinion i = Pending.
Proof.
  destruct (upload_pack_request (IS := GitRepos * @FS mem_os) demo_git_cfg demo_git_state (demo_fetch_artifact demo_fetch)
    (default (mkParsedURL (mkURL "" "" "" "") "" None "" false false "" "")
       (match Parse demo_fetch_url with Ok u => Some u | Err _ => None end))
    (demo_fetch_request demo_fetch) (newUploadPackRequestHandler (demo_fetch_request demo_fetch)).1
    ["command=fetch"; "deepen 1"; "want 1234"] (encode_lines demo_fetch +:+ flush))
    as (st' & a' & i & E & _ & Hi & Hop & _); [exact demo_git_cfg_ok|by vm_compute..|].
  exists i. unfold demo_fetch_run. rewrite E. split; [exact Hi|]. apply Hop. right.
  split; [done|]. split; [by vm_compute|]. intros r1 r2 H1 H2. simpl in H1, H2.
  destruct H1 as [?|[?|[H1|[]]]]; [done|done|]. destruct H2 as [?|[?|[H2|[]]]]; [done|done|].
  rewrite H1 in H2. by apply (app_str_inv_head "want ") in H2.
Defined.

(** Wanted references are not counted by the request inspection, only wanted objects are. *)
Definition demo_two_refs : list (string * string) :=
  [("command=fetch", str1 nl); ("deepen 1", str1 nl); ("want-ref refs/heads/a", str1 nl);
   ("want-ref refs/heads/b", str1 nl)].
Example two_want_refs_pending :
  option_map Opinion (RequestInspection (demo_fetch_run demo_two_refs).1.2 !! upload_pack_id) = Some Pending /\
  RequestAnnotation (demo_fetch_run demo_two_refs).1.2 upload_pack_id "num-wants" = Some (AInt 2).
Proof. by vm_compute. Qed.

(** The answer to the fetch, after its request was inspected. *)
Definition demo_pack : string := encode_lines demo_answer +:+ packet ("packfile" +:+ str1 nl) +:+
  concat_str (map band_packet demo_bands) +:+ flush.
Definition demo_answered : Artifact := set_MimeType (Some tt) (demo_fetch_run demo_fetch).1.2.
Definition demo_answer_run : GitRepos * @FS mem_os * Artifact * option error :=
  UploadPack_InspectArtifact (IS := GitRepos * @FS mem_os) (demo_fetch_run demo_fetch).1.1 demo_pack demo_answered.

End Demo.
