(* ===== verification/Craft.v ===== *)
(** * The craft inspectors

    [inspectors/craft]: repositories of rocks, charms, snaps, sources and bins. They recognise a project
    in the checkout that the upload-pack inspector left in the session's cache directory. Decoding the
    YAML file of a project is a parameter. *)
From stdpp Require Import base gmap strings list option fin_maps.
From Stdlib Require Import ZArith Lia Ascii.
From S2P Require Import Prelude GoStrings GoCodec Platform HttpUtil Digests Artifact Net Config.
From S2P Require Import Inspectors InspectorLib Archives Regexp Url Git GitProps.

(** The fields of the project files the inspectors use. *)
Record craftYaml := mkCraftYaml {
  cy_Name : string;
  cy_Version : string;
  cy_Summary : string;
  cy_License : string;
}.

(** [yaml.v3] decoding a file into the struct with all fields, and into that of charms, which has the
    name and the summary only. *)
Class CraftYamlLib := {
  decode_craft : string -> result craftYaml;
  decode_charm : string -> result craftYaml;
}.

(** ** Configuration *)

Definition reSourcecraft : Regexp := MustCompile "^/(.+/)*([^/]+)/git-upload-pack$".

Section Craft.
Context `{ML : MimeLib} `{GL : GlobLib} `{OS : Os} `{CY : CraftYamlLib}.
Context {IS : Type} `{PF : !Part IS FS}.

Definition NewCraftURLInfo (u : URL) (cfg : CraftsInspectorConfig) : option (result string) :=
  e ← checkRequestURL (crafts_URLs cfg) u;
  match e with
  | Some e => Some (Err e)
  | None => Some (option_or_err (project_of reSourcecraft (Path u))
                    (EText "not a valid *craft upload-pack path"))
  end.

(** ** Requests *)

Definition checkGitRequestHeaders (a : Artifact) : bool :=
  RequestHeaderContains a "Content-Type" "application/x-git-upload-pack-request" &&
  RequestHeaderContains a "Accept" "application/x-git-upload-pack-result".

Definition inspectCraftRequest (id : string) (cfg : CraftsInspectorConfig) (st : IS) (a : Artifact) :
    IS * Artifact * option error :=
  match Parse (DownloadURL a) with
  | Err err => (st, a, Some (EText ("cannot parse URL: " +:+ error_string err)))
  | Ok u =>
      if negb (checkGitRequestHeaders a) then (st, a, None)
      else
        match NewCraftURLInfo u cfg with
        | None => panics st a
        | Some (Err _) => (st, a, None)
        | Some (Ok _) =>
            if bool_decide (RequestStringAnnotation a upload_pack_id "command" = Some "fetch") then
              (st, SetRequestPending id "valid URL for crafts download" a, None)
            else (st, a, None)
        end
  end.

(** ** Responses *)

Definition getSingleFetchedRef (a : Artifact) : string :=
  match RequestAnnotation a upload_pack_id "wants" with Some (AStrs [ref]) => ref | _ => "" end.

Definition craft_metadata (type id name version summary license : string) : ArtifactMetadata :=
  mkArtifactMetadata type name version "" summary "" "" "" license "" "" "" "" id.

Definition find_file (file : string) (fs : FS) (dir : string) : option string :=
  let path := filepath_Join [dir; file] in
  match os_Stat fs path with Ok _ => Some path | Err _ => None end.

Fixpoint first_file (candidates : list string) (fs : FS) (dir : string) : option string :=
  match candidates with
  | [] => None
  | c :: candidates' =>
      match find_file c fs dir with Some p => Some p | None => first_file candidates' fs dir end
  end.

Definition getSnapcraftYamlPath : FS -> string -> option string :=
  first_file ["snap/snapcraft.yaml"; "snapcraft.yaml"; "build-aux/snap/snapcraft.yaml"].

(** ** The inspectors *)

(** What the five inspectors differ in: the path of the project file in a checkout, if it is there, and
    how it is decoded. *)
Record CraftFormat := mkCraftFormat {
  cf_ID : string;
  cf_Type : string;
  cf_File : string;
  cf_What : string;
  cf_Find : FS -> string -> option string;
  cf_Decode : string -> result craftYaml;
}.

(** A directory with the name of the project file opens but cannot be decoded. *)
Definition inspectCraftArtifact (f : CraftFormat) (st : IS) (data : string) (a : Artifact) :
    IS * Artifact * option error :=
  if negb (String.eqb (Artifact_ContentType a) "application/x-git-upload-pack-result") then (st, a, None)
  else
    match ResponseStringAnnotation a upload_pack_id "git-checkout-path" with
    | None => (st, SetResponseUnknown (cf_ID f) "no git checkout found" NoMetadata a, None)
    | Some checkoutPath =>
        let fs : FS := part st in
        match cf_Find f fs checkoutPath with
        | None => (st, a, None)
        | Some path =>
            let md := craft_metadata (cf_Type f) (getSingleFetchedRef a) in
            let reject verb what :=
              (st, SetResponseRejected (cf_ID f) ("cannot " +:+ verb +:+ " " +:+ cf_File f +:+ what)
                     (md "" "" "" "") a, None) in
            match os_ReadFile fs path with
            | Err _ => match os_Stat fs path with
                       | Ok true => reject "decode" ""
                       | _ => reject "open" " file"
                       end
            | Ok text =>
                match cf_Decode f text with
                | Err _ => reject "decode" ""
                | Ok y =>
                    (st, SetResponseApproved (cf_ID f) (cf_What f +:+ " repository found")
                           (md (cy_Name y) (cy_Version y) (cy_Summary y) (cy_License y)) a, None)
                end
            end
        end
    end.

Definition rockcraft : CraftFormat := mkCraftFormat "craft.rockcraft"
  "application/x.canonical.rockcraft" "rockcraft.yaml" "rockcraft" (find_file "rockcraft.yaml") decode_craft.
(** Charms have no version and no license in the file; their metadata leave both empty. *)
Definition charmcraft : CraftFormat := mkCraftFormat "craft.charmcraft"
  "application/x.canonical.charmcraft" "charmcraft.yaml" "charmcraft" (find_file "charmcraft.yaml")
  (fun s => y ← decode_charm s; Ok (mkCraftYaml (cy_Name y) "" (cy_Summary y) "")).
Definition snapcraft : CraftFormat := mkCraftFormat "craft.snapcraft"
  "application/x.canonical.snapcraft" "snapcraft.yaml" "snapcraft" getSnapcraftYamlPath decode_craft.
Definition sourcecraft : CraftFormat := mkCraftFormat "craft.sourcecraft"
  "application/x.canonical.sourcecraft" "sourcecraft.yaml" "sourcecraft" (find_file "sourcecraft.yaml")
  decode_craft.
Definition bincraft : CraftFormat := mkCraftFormat "craft.bincraft"
  "application/x.canonical.bincraft" "bincraft.yaml" "bincraft" (find_file "bincraft.yaml") decode_craft.

Definition craft_formats : list CraftFormat := [rockcraft; charmcraft; snapcraft; sourcecraft; bincraft].

Definition CraftInspector (f : CraftFormat) (cfg : CraftsInspectorConfig) : Inspector (IS := IS) :=
  mkInspector (cf_ID f) (inspectCraftRequest (cf_ID f) cfg) (inspectCraftArtifact f).

Definition RockcraftInspector (cfg : CraftsInspectorConfig) : Inspector (IS := IS) := CraftInspector rockcraft cfg.
Definition CharmcraftInspector (cfg : CraftsInspectorConfig) : Inspector (IS := IS) := CraftInspector charmcraft cfg.
Definition SnapcraftInspector (cfg : CraftsInspectorConfig) : Inspector (IS := IS) := CraftInspector snapcraft cfg.
Definition SourcecraftInspector (cfg : CraftsInspectorConfig) : Inspector (IS := IS) := CraftInspector sourcecraft cfg.
Definition BincraftInspector (cfg : CraftsInspectorConfig) : Inspector (IS := IS) := CraftInspector bincraft cfg.

#[export] Instance Craft_laws f cfg : InspectorLaws (CraftInspector f cfg).
Proof.
  split; simpl.
  - unfold inspectCraftRequest, panics. solve_frame.
  - unfold inspectCraftArtifact. intros st data a st' a' e H.
    repeat (case_match; simplify_eq; auto with frames).
Qed.

(** ** Properties *)

Lemma NewCraftURLInfo_total u cfg : globs_ok (crafts_URLs cfg) -> exists info, NewCraftURLInfo u cfg = Some info.
Proof.
  intros Hg. unfold NewCraftURLInfo. destruct (checkRequestURL_spec _ u Hg) as (e & -> & _).
  simpl. destruct e; eauto.
Qed.

(** A craft inspector finds a request valid exactly if it has the headers of an upload-pack request, its
    URL is one of those configured for crafts and names a repository, and the upload-pack inspector has
    decoded a fetch command in it. *)
Theorem craft_request : forall f cfg (st : IS) a u, In f craft_formats -> globs_ok (crafts_URLs cfg) ->
  Parse (DownloadURL a) = Ok u -> RequestInspection a !! cf_ID f = None ->
  exists a', InspectRequest (CraftInspector f cfg) st a = (st, a', None) /\
    (option_map Opinion (RequestInspection a' !! cf_ID f) = Some Pending <->
     checkGitRequestHeaders a = true /\ url_allowed (crafts_URLs cfg) u /\
     (exists dirs name, Path u = upload_pack_path dirs name /\ dirs_ok dirs /\ name <> "" /\ no_slash name = true) /\
     RequestStringAnnotation a upload_pack_id "command" = Some "fetch").
Proof.
  intros f cfg st a u _ Hg Hu Hno. simpl. unfold inspectCraftRequest. rewrite Hu.
  destruct (checkGitRequestHeaders a); simpl negb; cbn iota.
  2: { exists a. rewrite Hno. naive_solver. }
  unfold NewCraftURLInfo. destruct (checkRequestURL_spec (crafts_URLs cfg) u Hg) as (e & -> & He).
  cbn [mbind option_bind]. destruct e as [e|].
  { exists a. rewrite Hno. split; [done|]. split; [done|]. intros (_ & Hx & _). by apply He in Hx. }
  pose proof (project_of_spec (Path u)) as Hp. change reUploadPack with reSourcecraft in Hp.
  destruct (project_of reSourcecraft (Path u)) as [p|]; simpl option_or_err.
  2: { exists a. rewrite Hno. split; [done|]. split; [done|].
       intros (_ & _ & (dirs & name & ?) & _). destruct (Hp (TrimSuffix name ".git")) as [_ Hx].
       discriminate Hx. exists dirs, name. naive_solver. }
  destruct (Hp p) as [Hp1 _]. destruct (Hp1 eq_refl) as (dirs & name & H1 & H2 & H3 & H4 & _).
  case_bool_decide as Hc.
  - eexists. split; [done|]. rewrite (proj1 (SetRequest_lookup _ _ _)). naive_solver.
  - exists a. rewrite Hno. naive_solver.
Qed.

(** ** Approved projects were checked out *)

Context `{GZ : Gzip} `{GT : !GitTools} `{PR : !Part IS GitRepos}.

Lemma inspectCraftArtifact_approved f st data a st' a' e i :
  cf_Type f <> "" -> ResponseInspection a !! cf_ID f = None ->
  inspectCraftArtifact f st data a = (st', a', e) ->
  ResponseInspection a' !! cf_ID f = Some i -> Opinion i = Approved ->
  exists dir path text y, ResponseStringAnnotation a upload_pack_id "git-checkout-path" = Some dir /\
    cf_Find f (part st) dir = Some path /\ os_ReadFile (part st) path = Ok text /\
    cf_Decode f text = Ok y /\ Type_ (Meta a') = cf_Type f /\ Name (Meta a') = cy_Name y /\
    ContentID (Meta a') = getSingleFetchedRef a.
Proof.
  intros Ht Hno H Hi Hop. unfold inspectCraftArtifact in H.
  destruct (negb _); [simplify_eq; congruence|].
  destruct (ResponseStringAnnotation a upload_pack_id "git-checkout-path") as [dir|]; cbn zeta in H.
  2: { simplify_eq. rewrite (proj2 (proj2 (SetResponse_lookup _ _ _ _))) in Hi. by simplify_eq. }
  destruct (cf_Find f (part st) dir) as [path|] eqn:Ef; [|simplify_eq; congruence].
  assert (Hrej : forall reason md, ResponseInspection (SetResponseRejected (cf_ID f) reason md a) !! cf_ID f
    <> Some i).
  { intros reason md. rewrite (proj1 (proj2 (SetResponse_lookup _ _ _ _))). intros [= <-]. done. }
  destruct (os_ReadFile (part st) path) as [text|err] eqn:Er.
  2: { repeat (case_match; simplify_eq; try (by apply Hrej in Hi)). }
  destruct (cf_Decode f text) as [y|] eqn:Ed; [|simplify_eq; by apply Hrej in Hi].
  simplify_eq. exists dir, path, text, y. do 4 (split; [done|]).
  unfold SetResponseApproved. rewrite decide_True by (intros [=]; congruence).
  simpl. destruct (String.eqb_spec (cf_Type f) ""); done.
Qed.

(** C40: A craft inspector approves an answer only after the upload-pack inspector accepted it as a shallow
    fetch of one object: the project file was read in the directory where that object was checked out,
    it was decoded, and the artifact gets its name and, when one object was wanted, the ID of that
    object. *)
Theorem craft_approves_checkout : forall f (st st1 st2 : IS) data a a1 a2 e1 e2 i,
  In f craft_formats ->
  Artifact_ContentType a = "application/x-git-upload-pack-result" ->
  RequestAnnotation a upload_pack_id "command" = Some (AStr "fetch") ->
  ResponseInspection a = ∅ ->
  UploadPack_InspectArtifact st data a = (st1, a1, e1) ->
  inspectCraftArtifact f st1 data a1 = (st2, a2, e2) ->
  ResponseInspection a2 !! cf_ID f = Some i -> Opinion i = Approved ->
  exists st0 ann dir path text y, good_fetch data st0 a ann /\
    ann !! "git-checkout-path" = Some (AStr dir) /\
    cf_Find f (part st1) dir = Some path /\ os_ReadFile (part st1) path = Ok text /\ cf_Decode f text = Ok y /\
    Name (Meta a2) = cy_Name y /\
    (forall ref, RequestAnnotation a upload_pack_id "wants" = Some (AStrs [ref]) -> ContentID (Meta a2) = ref).
Proof.
  intros f st st1 st2 data a a1 a2 e1 e2 i Hf Hct Hcmd Hres H1 H2 Hi Hop.
  assert (Hid : cf_Type f <> "" /\ cf_ID f <> upload_pack_id).
  { simpl in Hf. destruct Hf as [<-|[<-|[<-|[<-|[<-|[]]]]]]; done. }
  destruct Hid as [Ht Hid].
  destruct (upload_pack_fetch_cases st data a st1 a1 e1 Hct Hcmd H1) as (_ & [_ Hreq Hown] & Hup).
  assert (Hno : ResponseInspection a1 !! cf_ID f = None) by (by rewrite Hown, Hres).
  destruct (inspectCraftArtifact_approved f st1 data a1 st2 a2 e2 i Ht Hno H2 Hi Hop)
    as (dir & path & text & y & Hdir & Hfind & Hread & Hdec & _ & Hname & Hcid).
  unfold ResponseStringAnnotation, inspectionAnnotation in Hdir.
  destruct Hup as [->|(iu & Hiu & Hup)]; [by rewrite Hres in Hdir|]. rewrite Hiu in Hdir.
  destruct (Annotations iu !! "git-checkout-path") as [v|] eqn:Ev; [|done].
  destruct v; simplify_eq/=.
  destruct Hup as [[_ Hnone]|[_ [st0 Hgood]]]; [congruence|].
  exists st0, (Annotations iu), dir, path, text, y. do 6 (split; [done|]).
  intros ref Hw. rewrite Hcid. unfold getSingleFetchedRef, RequestAnnotation in *. by rewrite Hreq, Hw.
Qed.
End Craft.

(** ** Witnesses *)

Section CraftDemo.
#[local] Existing Instance text_mime.
#[local] Existing Instance literal_glob.
#[local] Existing Instance mem_os.
#[local] Existing Instance demo_gzip.

(** A checkout leaves the file of a rock. *)
#[local] Instance demo_craft_git : GitTools (OS := mem_os) := @Build_GitTools mem_os
  (fun (fs : MemFS) dir pat => (<[dir +:+ "/" +:+ pat +:+ "1" := None]> fs, Ok (dir +:+ "/" +:+ pat +:+ "1")))
  (fun fs dir => (fs, None))
  (fun fs path dir => None)
  (fun (fs : MemFS) path dir pack => (<[dir +:+ "/pack" := Some pack]> fs, None))
  (fun (fs : MemFS) dir ref => (<[dir +:+ "/rockcraft.yaml" := Some "name: hello"]> fs, None)).
#[local] Instance demo_craft_yaml : CraftYamlLib := {|
  decode_craft := fun s => option_or_err (name ← strip_prefix "name: " s; Some (mkCraftYaml name "1" "" ""))
                             (EText "yaml");
  decode_charm := fun s => Err (EText "yaml") |}.

Definition demo_crafts_cfg : CraftsInspectorConfig :=
  mkCraftsInspectorConfig [Some "https://example.com:443/o/r.git/git-upload-pack"].
Definition demo_craft_url : ParsedURL :=
  match Parse demo_fetch_url with Ok u => u
  | Err _ => mkParsedURL (mkURL "" "" "" "") "" None "" false false "" "" end.

Notation CraftState := (GitRepos * @FS mem_os)%type.

Lemma craft_request_witness :
  option_map Opinion (RequestInspection
    (InspectRequest (CraftInspector (IS := CraftState) rockcraft demo_crafts_cfg) demo_git_state
       (demo_fetch_run demo_fetch).1.2).1.2 !! cf_ID rockcraft) = Some Pending.
Proof.
  destruct (craft_request (IS := CraftState) rockcraft demo_crafts_cfg demo_git_state
    (demo_fetch_run demo_fetch).1.2 demo_craft_url) as (a' & E & H).
  - by left.
  - apply Forall_cons. split; [done|]. by apply Forall_nil.
  - by vm_compute.
  - by vm_compute.
  - rewrite E. apply H. clear E H. split; [by vm_compute|]. split; [|split; [|by vm_compute]].
    + exists "https://example.com:443/o/r.git/git-upload-pack". split; [by left|by vm_compute].
    + exists "o/", "r.git". split; [by vm_compute|]. split; [|done]. right. by exists "o".
Defined.

Definition demo_craft_run1 : CraftState * Artifact * option error :=
  UploadPack_InspectArtifact (IS := CraftState) (demo_fetch_run demo_fetch).1.1 demo_pack demo_answered.
Definition demo_craft_run2 : CraftState * Artifact * option error :=
  inspectCraftArtifact (IS := CraftState) rockcraft demo_craft_run1.1.1 demo_pack demo_craft_run1.1.2.

Lemma craft_approves_checkout_witness :
  option_map Opinion (ResponseInspection demo_craft_run2.1.2 !! cf_ID rockcraft) = Some Approved /\
  ContentID (Meta demo_craft_run2.1.2) = "1234".
Proof.
  assert (Ho : option_map Opinion (ResponseInspection demo_craft_run2.1.2 !! cf_ID rockcraft) = Some Approved)
    by (by vm_compute).
  split; [exact Ho|].
  assert (H1 : Artifact_ContentType demo_answered = "application/x-git-upload-pack-result") by (by vm_compute).
  assert (H2 : RequestAnnotation demo_answered upload_pack_id "command" = Some (AStr "fetch")) by (by vm_compute).
  assert (H3 : ResponseInspection demo_answered = ∅) by (by vm_compute).
  assert (Hw : RequestAnnotation demo_answered upload_pack_id "wants" = Some (AStrs ["1234"])) by (by vm_compute).
  assert (He1 : demo_craft_run1.2 = None) by (by vm_compute).
  assert (He2 : demo_craft_run2.2 = None) by (by vm_compute).
  pose proof (triple_eta _ None He1) as Hr1. pose proof (triple_eta _ None He2) as Hr2. clear He1 He2.
  revert Ho Hr2. generalize demo_craft_run2.1.1 demo_craft_run2.1.2. intros st2 a2 Ho Hr2.
  unfold demo_craft_run2 in Hr2. unfold demo_craft_run1 at 1 in Hr1.
  revert Hr1 Hr2. generalize demo_craft_run1.1.1 demo_craft_run1.1.2. intros st1 a1 Hr1 Hr2.
  destruct (ResponseInspection a2 !! cf_ID rockcraft) as [i|] eqn:Ei; [|discriminate Ho].
  injection Ho as Ho.
  destruct (craft_approves_checkout (IS := CraftState) rockcraft _ _ _ _ _ _ _ _ _ i
    (or_introl eq_refl) H1 H2 H3 Hr1 Hr2 Ei Ho) as (_ & _ & _ & _ & _ & _ & _ & _ & _ & _ & _ & _ & Hc).
  exact (Hc _ Hw).
Defined.
End CraftDemo.
