(* ===== verification/BldBin.v ===== *)
(** * The inspector of bld binary packages

    [inspectors/bldbin]: the allowed URLs ([config/config.go]) and the inspector of packages, xz-compressed
    tar archives with a [metadata.yaml]. Decoding that file is a parameter. *)
From stdpp Require Import base gmap strings list option fin_maps.
From Stdlib Require Import ZArith Lia Ascii.
From S2P Require Import Prelude GoStrings GoCodec Platform HttpUtil Digests Artifact Net Config.
From S2P Require Import Inspectors InspectorLib Archives Regexp Url.

Record BldBinMetadata := mkBldBinMetadata {
  bin_Name : string;
  bin_Version : string;
  bin_Base : string;
  bin_Architecture : string;
  bin_Summary : string;
  bin_Description : string;
  bin_License : string;
  bin_Title : string;
  bin_Contact : string;
}.

(** [ReadMetadata]: [yaml.v3] decoding the file into the struct. *)
Class BldBinYaml := { ReadMetadata : Body -> result BldBinMetadata }.

Section BldBin.
Context `{ML : MimeLib} `{GL : GlobLib} `{XZ : Xz} `{TR : Tar} `{BY : BldBinYaml} {IS : Type}.

Definition NewBldBinURLInfo (u : URL) (cfg : BldBinInspectorConfig) : option (result unit) :=
  e ← checkRequestURL (bldbin_URLs cfg) u;
  Some (match e with Some e => Err e | None => Ok tt end).

Definition bldbin_id : string := "bld.bin".
Definition info_api_id : string := "store.info-api".

Definition BldBin_InspectRequest (cfg : BldBinInspectorConfig) (st : IS) (a : Artifact) :
    IS * Artifact * option error :=
  match Parse (DownloadURL a) with
  | Err err => (st, a, Some (EText ("cannot parse URL: " +:+ error_string err)))
  | Ok u =>
      match NewBldBinURLInfo u cfg with
      | None => panics st a
      | Some (Err _) => (st, a, None)
      | Some (Ok _) => (st, SetRequestPending bldbin_id "valid URL for bin package download" a, None)
      end
  end.

(** Whether the metadata have all that makes a bin package. *)
Definition bin_complete (m : BldBinMetadata) : bool :=
  negb (String.eqb (bin_Name m) "" || String.eqb (bin_Version m) "" || String.eqb (bin_Base m) "" ||
        String.eqb (bin_Architecture m) "").

Definition bin_metadata (m : BldBinMetadata) (revision packageID : string) : ArtifactMetadata :=
  mkArtifactMetadata "application/x.canonical.bld-bin-package" (bin_Name m) (bin_Version m) (bin_Contact m)
    (bin_Summary m) "" "" (bin_Architecture m) (bin_License m) "" "" revision "" packageID.

(** The loop over the entries ends at the metadata; a broken archive before is not recognised. *)
Definition BldBin_InspectArtifact (st : IS) (data : string) (a : Artifact) : IS * Artifact * option error :=
  match xz_NewReader (bytes data) with
  | Err _ => (st, a, None)
  | Ok xr =>
      let packageID := default "" (RequestStringAnnotation a info_api_id "package-id") in
      let revision := default "" (ResponseStringAnnotation a info_api_id "revision") in
      match find_entry "./metadata.yaml" (fst (tar_read xr)) with
      | None => (st, a, None)
      | Some h =>
          match ReadMetadata (te_Body h) with
          | Err err => (st, a, Some err)
          | Ok binmd =>
              if bin_complete binmd then
                (st, SetResponseApproved bldbin_id "bin package metadata parsed"
                       (bin_metadata binmd revision packageID) a, None)
              else (st, a, None)
          end
      end
  end.

Definition BldBinInspector (cfg : BldBinInspectorConfig) : Inspector (IS := IS) :=
  mkInspector bldbin_id (BldBin_InspectRequest cfg) BldBin_InspectArtifact.

#[export] Instance BldBin_laws cfg : InspectorLaws (BldBinInspector cfg).
Proof.
  split; simpl.
  - unfold BldBin_InspectRequest, panics. solve_frame.
  - unfold BldBin_InspectArtifact. solve_frame.
Qed.
End BldBin.
