(* ===== verification/Store.v ===== *)
(** * The inspectors of the Canonical Store

    [inspectors/store]: the allowed URLs ([config/config.go]) and the inspectors of the store's answers about
    packages ([info_api.go]), revisions ([resolve_api.go]), transforms ([transforms_api.go]) and of images
    ([appmedia.go]). The first keeps what it learned about the files of each package, and checks the bin
    packages that are downloaded against it. *)
From stdpp Require Import base gmap strings list option fin_maps.
From Stdlib Require Import ZArith Lia Ascii.
From S2P Require Import Prelude GoStrings GoCodec Platform HttpUtil Json JsonDecode Digests Artifact Net Config.
From S2P Require Import Inspectors InspectorLib Archives Regexp Url BldBin.

(** ** Messages *)

(** *** Package information *)

Record RevisionDownload := mkRevisionDownload {
  rd_Sha3_384 : string;
  rd_Size : Z;
  rd_URL : string;
}.
Definition zero_RevisionDownload : RevisionDownload := mkRevisionDownload "" 0%Z "".
Definition decode_RevisionDownload : json -> RevisionDownload -> result RevisionDownload := decode_struct (fun k v s =>
  if field_is "sha3-384" k then
    x ← decode_string v (rd_Sha3_384 s); Ok (mkRevisionDownload x (rd_Size s) (rd_URL s))
  else if field_is "size" k then
    x ← decode_signed 64 v (rd_Size s); Ok (mkRevisionDownload (rd_Sha3_384 s) x (rd_URL s))
  else if field_is "url" k then
    x ← decode_string v (rd_URL s); Ok (mkRevisionDownload (rd_Sha3_384 s) (rd_Size s) x)
  else Ok s).

Record apiInfoChannelMapRevision := mkapiInfoChannelMapRevision {
  cr_Download : RevisionDownload;
  cr_Revision : Z;
}.
Definition zero_apiInfoChannelMapRevision : apiInfoChannelMapRevision := mkapiInfoChannelMapRevision zero_RevisionDownload 0%Z.
Definition decode_apiInfoChannelMapRevision : json -> apiInfoChannelMapRevision -> result apiInfoChannelMapRevision := decode_struct (fun k v s =>
  if field_is "download" k then
    x ← decode_RevisionDownload v (cr_Download s); Ok (mkapiInfoChannelMapRevision x (cr_Revision s))
  else if field_is "revision" k then
    x ← decode_signed 64 v (cr_Revision s); Ok (mkapiInfoChannelMapRevision (cr_Download s) x)
  else Ok s).

Record apiInfoChannelMapChannel := mkapiInfoChannelMapChannel {
  cc_Name : string;
}.
Definition zero_apiInfoChannelMapChannel : apiInfoChannelMapChannel := mkapiInfoChannelMapChannel "".
Definition decode_apiInfoChannelMapChannel : json -> apiInfoChannelMapChannel -> result apiInfoChannelMapChannel := decode_struct (fun k v s =>
  if field_is "name" k then
    x ← decode_string v (cc_Name s); Ok (mkapiInfoChannelMapChannel x)
  else Ok s).

Record apiInfoChannelMap := mkapiInfoChannelMap {
  cm_Channel : apiInfoChannelMapChannel;
  cm_Revision : apiInfoChannelMapRevision;
}.
Definition zero_apiInfoChannelMap : apiInfoChannelMap := mkapiInfoChannelMap zero_apiInfoChannelMapChannel zero_apiInfoChannelMapRevision.
Definition decode_apiInfoChannelMap : json -> apiInfoChannelMap -> result apiInfoChannelMap := decode_struct (fun k v s =>
  if field_is "channel" k then
    x ← decode_apiInfoChannelMapChannel v (cm_Channel s); Ok (mkapiInfoChannelMap x (cm_Revision s))
  else if field_is "revision" k then
    x ← decode_apiInfoChannelMapRevision v (cm_Revision s); Ok (mkapiInfoChannelMap (cm_Channel s) x)
  else Ok s).

Record apiInfoMetadataPublisher := mkapiInfoMetadataPublisher {
  mp_DisplayName : string;
  mp_ID : string;
  mp_Username : string;
}.
Definition zero_apiInfoMetadataPublisher : apiInfoMetadataPublisher := mkapiInfoMetadataPublisher "" "" "".
Definition decode_apiInfoMetadataPublisher : json -> apiInfoMetadataPublisher -> result apiInfoMetadataPublisher := decode_struct (fun k v s =>
  if field_is "display-name" k then
    x ← decode_string v (mp_DisplayName s); Ok (mkapiInfoMetadataPublisher x (mp_ID s) (mp_Username s))
  else if field_is "id" k then
    x ← decode_string v (mp_ID s); Ok (mkapiInfoMetadataPublisher (mp_DisplayName s) x (mp_Username s))
  else if field_is "username" k then
    x ← decode_string v (mp_Username s); Ok (mkapiInfoMetadataPublisher (mp_DisplayName s) (mp_ID s) x)
  else Ok s).

Record apiInfoMetadata := mkapiInfoMetadata {
  im_Contact : string;
  im_Description : string;
  im_License : string;
  im_Summary : string;
  im_Publisher : apiInfoMetadataPublisher;
}.
Definition zero_apiInfoMetadata : apiInfoMetadata := mkapiInfoMetadata "" "" "" "" zero_apiInfoMetadataPublisher.
Definition decode_apiInfoMetadata : json -> apiInfoMetadata -> result apiInfoMetadata := decode_struct (fun k v s =>
  if field_is "contact" k then
    x ← decode_string v (im_Contact s); Ok (mkapiInfoMetadata x (im_Description s) (im_License s) (im_Summary s) (im_Publisher s))
  else if field_is "description" k then
    x ← decode_string v (im_Description s); Ok (mkapiInfoMetadata (im_Contact s) x (im_License s) (im_Summary s) (im_Publisher s))
  else if field_is "license" k then
    x ← decode_string v (im_License s); Ok (mkapiInfoMetadata (im_Contact s) (im_Description s) x (im_Summary s) (im_Publisher s))
  else if field_is "summary" k then
    x ← decode_string v (im_Summary s); Ok (mkapiInfoMetadata (im_Contact s) (im_Description s) (im_License s) x (im_Publisher s))
  else if field_is "publisher" k then
    x ← decode_apiInfoMetadataPublisher v (im_Publisher s); Ok (mkapiInfoMetadata (im_Contact s) (im_Description s) (im_License s) (im_Summary s) x)
  else Ok s).

Record apiInfo := mkapiInfo {
  ai_ChannelMap : list apiInfoChannelMap;
  ai_DefaultTrack : string;
  ai_Metadata : apiInfoMetadata;
  ai_Name : string;
  ai_PackageID : string;
}.
Definition zero_apiInfo : apiInfo := mkapiInfo [] "" zero_apiInfoMetadata "" "".
Definition decode_apiInfo : json -> apiInfo -> result apiInfo := decode_struct (fun k v s =>
  if field_is "channel-map" k then
    x ← decode_slice zero_apiInfoChannelMap decode_apiInfoChannelMap v (ai_ChannelMap s); Ok (mkapiInfo x (ai_DefaultTrack s) (ai_Metadata s) (ai_Name s) (ai_PackageID s))
  else if field_is "default-track" k then
    x ← decode_string v (ai_DefaultTrack s); Ok (mkapiInfo (ai_ChannelMap s) x (ai_Metadata s) (ai_Name s) (ai_PackageID s))
  else if field_is "metadata" k then
    x ← decode_apiInfoMetadata v (ai_Metadata s); Ok (mkapiInfo (ai_ChannelMap s) (ai_DefaultTrack s) x (ai_Name s) (ai_PackageID s))
  else if field_is "name" k then
    x ← decode_string v (ai_Name s); Ok (mkapiInfo (ai_ChannelMap s) (ai_DefaultTrack s) (ai_Metadata s) x (ai_PackageID s))
  else if field_is "package-id" k then
    x ← decode_string v (ai_PackageID s); Ok (mkapiInfo (ai_ChannelMap s) (ai_DefaultTrack s) (ai_Metadata s) (ai_Name s) x)
  else Ok s).

(** *** Revisions *)

Record storeResolveAPIResult := mkstoreResolveAPIResult {
  rr_ID : string;
  rr_InstanceKey : string;
  rr_Name : string;
  rr_Namespace : string;
  rr_Status : string;
}.
Definition zero_storeResolveAPIResult : storeResolveAPIResult := mkstoreResolveAPIResult "" "" "" "" "".
Definition decode_storeResolveAPIResult : json -> storeResolveAPIResult -> result storeResolveAPIResult := decode_struct (fun k v s =>
  if field_is "id" k then
    x ← decode_string v (rr_ID s); Ok (mkstoreResolveAPIResult x (rr_InstanceKey s) (rr_Name s) (rr_Namespace s) (rr_Status s))
  else if field_is "instance-key" k then
    x ← decode_string v (rr_InstanceKey s); Ok (mkstoreResolveAPIResult (rr_ID s) x (rr_Name s) (rr_Namespace s) (rr_Status s))
  else if field_is "name" k then
    x ← decode_string v (rr_Name s); Ok (mkstoreResolveAPIResult (rr_ID s) (rr_InstanceKey s) x (rr_Namespace s) (rr_Status s))
  else if field_is "namespace" k then
    x ← decode_string v (rr_Namespace s); Ok (mkstoreResolveAPIResult (rr_ID s) (rr_InstanceKey s) (rr_Name s) x (rr_Status s))
  else if field_is "status" k then
    x ← decode_string v (rr_Status s); Ok (mkstoreResolveAPIResult (rr_ID s) (rr_InstanceKey s) (rr_Name s) (rr_Namespace s) x)
  else Ok s).

Record storeResolveAPIData := mkstoreResolveAPIData {
  ra_CraftResults : list storeResolveAPIResult;
  ra_PackageResults : list storeResolveAPIResult;
}.
Definition zero_storeResolveAPIData : storeResolveAPIData := mkstoreResolveAPIData [] [].
Definition decode_storeResolveAPIData : json -> storeResolveAPIData -> result storeResolveAPIData := decode_struct (fun k v s =>
  if field_is "craft-results" k then
    x ← decode_slice zero_storeResolveAPIResult decode_storeResolveAPIResult v (ra_CraftResults s); Ok (mkstoreResolveAPIData x (ra_PackageResults s))
  else if field_is "package-results" k then
    x ← decode_slice zero_storeResolveAPIResult decode_storeResolveAPIResult v (ra_PackageResults s); Ok (mkstoreResolveAPIData (ra_CraftResults s) x)
  else Ok s).

(** *** Transforms *)

Record platformInfo := mkplatformInfo {
  pl_Name : string;
  pl_Channel : string;
  pl_Architecture : string;
}.
Definition zero_platformInfo : platformInfo := mkplatformInfo "" "" "".
Definition decode_platformInfo : json -> platformInfo -> result platformInfo := decode_struct (fun k v s =>
  if field_is "name" k then
    x ← decode_string v (pl_Name s); Ok (mkplatformInfo x (pl_Channel s) (pl_Architecture s))
  else if field_is "channel" k then
    x ← decode_string v (pl_Channel s); Ok (mkplatformInfo (pl_Name s) x (pl_Architecture s))
  else if field_is "architecture" k then
    x ← decode_string v (pl_Architecture s); Ok (mkplatformInfo (pl_Name s) (pl_Channel s) x)
  else Ok s).

Record revisionInfo := mkrevisionInfo {
  ri_Platform : platformInfo;
  ri_Revision : Z;
}.
Definition zero_revisionInfo : revisionInfo := mkrevisionInfo zero_platformInfo 0%Z.
Definition decode_revisionInfo : json -> revisionInfo -> result revisionInfo := decode_struct (fun k v s =>
  if field_is "platform" k then
    x ← decode_platformInfo v (ri_Platform s); Ok (mkrevisionInfo x (ri_Revision s))
  else if field_is "revision" k then
    x ← decode_signed 64 v (ri_Revision s); Ok (mkrevisionInfo (ri_Platform s) x)
  else Ok s).

Record commitInfo := mkcommitInfo {
  ci_RemoteURL : string;
  ci_CommitHash : string;
}.
Definition zero_commitInfo : commitInfo := mkcommitInfo "" "".
Definition decode_commitInfo : json -> commitInfo -> result commitInfo := decode_struct (fun k v s =>
  if field_is "remote-url" k then
    x ← decode_string v (ci_RemoteURL s); Ok (mkcommitInfo x (ci_CommitHash s))
  else if field_is "commit-hash" k then
    x ← decode_string v (ci_CommitHash s); Ok (mkcommitInfo (ci_RemoteURL s) x)
  else Ok s).

Record channelInfo := mkchannelInfo {
  ch_Name : string;
  ch_Track : string;
  ch_Risk : string;
  ch_Branch : string;
}.
Definition zero_channelInfo : channelInfo := mkchannelInfo "" "" "" "".
Definition decode_channelInfo : json -> channelInfo -> result channelInfo := decode_struct (fun k v s =>
  if field_is "name" k then
    x ← decode_string v (ch_Name s); Ok (mkchannelInfo x (ch_Track s) (ch_Risk s) (ch_Branch s))
  else if field_is "track" k then
    x ← decode_string v (ch_Track s); Ok (mkchannelInfo (ch_Name s) x (ch_Risk s) (ch_Branch s))
  else if field_is "risk" k then
    x ← decode_string v (ch_Risk s); Ok (mkchannelInfo (ch_Name s) (ch_Track s) x (ch_Branch s))
  else if field_is "branch" k then
    x ← decode_string v (ch_Branch s); Ok (mkchannelInfo (ch_Name s) (ch_Track s) (ch_Risk s) x)
  else Ok s).

Record transformPackage := mktransformPackage {
  tp_ID : string;
  tp_Type : string;
  tp_Name : string;
}.
Definition zero_transformPackage : transformPackage := mktransformPackage "" "" "".
Definition decode_transformPackage : json -> transformPackage -> result transformPackage := decode_struct (fun k v s =>
  if field_is "id" k then
    x ← decode_string v (tp_ID s); Ok (mktransformPackage x (tp_Type s) (tp_Name s))
  else if field_is "type" k then
    x ← decode_string v (tp_Type s); Ok (mktransformPackage (tp_ID s) x (tp_Name s))
  else if field_is "name" k then
    x ← decode_string v (tp_Name s); Ok (mktransformPackage (tp_ID s) (tp_Type s) x)
  else Ok s).

Record transformFrom := mktransformFrom {
  tf_Channel : channelInfo;
}.
Definition zero_transformFrom : transformFrom := mktransformFrom zero_channelInfo.
Definition decode_transformFrom : json -> transformFrom -> result transformFrom := decode_struct (fun k v s =>
  if field_is "channel" k then
    x ← decode_channelInfo v (tf_Channel s); Ok (mktransformFrom x)
  else Ok s).

Record transformTo := mktransformTo {
  tt_Channel : channelInfo;
  tt_Commit : commitInfo;
  tt_Revisions : list revisionInfo;
}.
Definition zero_transformTo : transformTo := mktransformTo zero_channelInfo zero_commitInfo [].
Definition decode_transformTo : json -> transformTo -> result transformTo := decode_struct (fun k v s =>
  if field_is "channel" k then
    x ← decode_channelInfo v (tt_Channel s); Ok (mktransformTo x (tt_Commit s) (tt_Revisions s))
  else if field_is "commit" k then
    x ← decode_commitInfo v (tt_Commit s); Ok (mktransformTo (tt_Channel s) x (tt_Revisions s))
  else if field_is "revisions" k then
    x ← decode_slice zero_revisionInfo decode_revisionInfo v (tt_Revisions s); Ok (mktransformTo (tt_Channel s) (tt_Commit s) x)
  else Ok s).

Record transform := mktransform {
  tr_Package : transformPackage;
  tr_From : transformFrom;
  tr_To : transformTo;
}.
Definition zero_transform : transform := mktransform zero_transformPackage zero_transformFrom zero_transformTo.
Definition decode_transform : json -> transform -> result transform := decode_struct (fun k v s =>
  if field_is "package" k then
    x ← decode_transformPackage v (tr_Package s); Ok (mktransform x (tr_From s) (tr_To s))
  else if field_is "from" k then
    x ← decode_transformFrom v (tr_From s); Ok (mktransform (tr_Package s) x (tr_To s))
  else if field_is "to" k then
    x ← decode_transformTo v (tr_To s); Ok (mktransform (tr_Package s) (tr_From s) x)
  else Ok s).

Record workspaceTransforms := mkworkspaceTransforms {
  wt_WorkspaceID : string;
  wt_Transforms : option (list transform);
}.
Definition zero_workspaceTransforms : workspaceTransforms := mkworkspaceTransforms "" None.
Definition decode_workspaceTransforms : json -> workspaceTransforms -> result workspaceTransforms := decode_struct (fun k v s =>
  if field_is "workspace-id" k then
    x ← decode_string v (wt_WorkspaceID s); Ok (mkworkspaceTransforms x (wt_Transforms s))
  else if field_is "transforms" k then
    x ← decode_nilable [] (decode_slice zero_transform decode_transform) v (wt_Transforms s); Ok (mkworkspaceTransforms (wt_WorkspaceID s) x)
  else Ok s).

(** ** What is remembered *)

Record storeInfoAPIRevisionInfo := mkRevInfo {
  si_Sha3_384 : string;
  si_Size : Z;
  si_Revision : string;
  si_Channel : string;
}.

Record storeInfoAPIInfo := mkStoreInfo {
  st_Type : string;
  st_ID : string;
  st_Publisher : string;
  RevInfo : gmap string storeInfoAPIRevisionInfo;
}.

(** The field [ids] of the inspector. *)
Notation StoreIds := (gmap string storeInfoAPIInfo).

(** The SHA3-384 digest, 48 bytes. *)
Class Sha3 := { sha3_384 : string -> string }.

(** [image/png.DecodeConfig]: width and height. *)
Class Png := { png_DecodeConfig : string -> result (Z * Z) }.

Definition reStoreInfoAPI : Regexp := MustCompile "^/v2/([a-z]+)/info/([a-zA-Z0-9-]+)$".
Definition reStoreResolveAPI : Regexp := MustCompile "^/v2/revisions/resolve$".
Definition reStoreTransformsAPI : Regexp := MustCompile "^/v1/craft/workspaces/([a-zA-Z0-9-]+)/transforms$".
Definition reStoreAppMedia : Regexp :=
  MustCompile "^/site_media/appmedia/([0-9]+)/([0-9]+)/([a-zA-Z0-9.-]+)$".

Section Store.
Context `{ML : MimeLib} `{GL : GlobLib} `{MO : MapOrder} `{XZ : Xz} `{TR : Tar} `{BY : BldBinYaml} `{S3 : Sha3}.
Context {IS : Type} `{PS : !Part IS StoreIds}.

(** ** URLs *)

(** The groups of the path if the URL is allowed. *)
Definition store_url (rx : Regexp) (groups : nat) (what : string) (u : URL) (cfg : StoreInspectorConfig) :
    option (result (list string)) :=
  e ← checkRequestURL (store_URLs cfg) u;
  match e with
  | Some e => Some (Err e)
  | None =>
      let m := FindStringSubmatch rx (Path u) in
      Some (if List.length m =? groups then Ok m else Err (EText what))
  end.

(** The type and the name of the package. *)
Definition NewStoreInfoAPIURLInfo (u : URL) (cfg : StoreInspectorConfig) : option (result (string * string)) :=
  r ← store_url reStoreInfoAPI 3 "not a valid store info API path" u cfg;
  Some (match r with Ok m => Ok (nth 1 m "", nth 2 m "") | Err e => Err e end).

Definition NewStoreResolveAPIURLInfo (u : URL) (cfg : StoreInspectorConfig) : option (result unit) :=
  e ← checkRequestURL (store_URLs cfg) u;
  Some (match e with
        | Some e => Err e
        | None => if MatchString reStoreResolveAPI (Path u) then Ok tt
                  else Err (EText "not a valid store resolve_revisions API path")
        end).

Definition NewStoreTransformsAPIURLInfo (u : URL) (cfg : StoreInspectorConfig) : option (result string) :=
  r ← store_url reStoreTransformsAPI 2 "not a valid store transforms API path" u cfg;
  Some (match r with Ok m => Ok (nth 1 m "") | Err e => Err e end).

Definition NewStoreAppMediaURLInfo (u : URL) (cfg : StoreInspectorConfig) : option (result string) :=
  r ← store_url reStoreAppMedia 4 "not a valid store appmedia API path" u cfg;
  Some (match r with Ok m => Ok (nth 3 m "") | Err e => Err e end).

(** ** Package information *)

(** The annotations of a request for information, or none for the download of a bin package. *)
Definition info_api_url (cfg : StoreInspectorConfig) (bcfg : BldBinInspectorConfig) (u : URL) :
    option (result (option (string * string))) :=
  r ← NewStoreInfoAPIURLInfo u cfg;
  match r with
  | Ok i => Some (Ok (Some i))
  | Err _ =>
      r ← NewBldBinURLInfo u bcfg;
      Some (match r with Ok _ => Ok None | Err e => Err e end)
  end.

Definition InfoAPI_InspectRequest (cfg : StoreInspectorConfig) (bcfg : BldBinInspectorConfig) :
    IS -> Artifact -> IS * Artifact * option error :=
  url_request (fun u => info_api_url cfg bcfg u) (fun i a =>
    match i with
    | Some (ptype, pname) =>
        AnnotateRequest info_api_id (<["type" := AStr ptype]> {[ "package" := AStr pname ]})
          (SetRequestPending info_api_id "valid URL for store info API endpoint" a)
    | None => SetRequestPending info_api_id "valid URL for bld bin download" a
    end).

Definition setInfo (pkgid : string) (ainfo : storeInfoAPIInfo) (ids : StoreIds) : StoreIds := <[pkgid := ainfo]> ids.

(** The first package that lists the digest, in the order of the iteration, with the revision and the channel. *)
Fixpoint find_info (l : list (string * storeInfoAPIInfo)) (digest : string) :
    option storeInfoAPIInfo * string * string :=
  match l with
  | [] => (None, "0", "")
  | (_, info) :: l' =>
      match RevInfo info !! digest with
      | Some rinfo => (Some info, si_Revision rinfo, si_Channel rinfo)
      | None => find_info l' digest
      end
  end.
Definition findInfo (ids : StoreIds) (digest : string) : option storeInfoAPIInfo * string * string :=
  find_info (map_range ids) digest.

(** The answer has what the code looks at. *)
Definition info_recognized (info : apiInfo) : bool :=
  match ai_ChannelMap info with
  | [] => false
  | c :: _ => negb (String.eqb (rd_URL (cr_Download (cm_Revision c))) "")
  end &&
  negb (String.eqb (mp_Username (im_Publisher (ai_Metadata info))) "") &&
  negb (String.eqb (ai_Name info) "" || String.eqb (ai_PackageID info) "").

(** The entry of a channel; the size is converted to 64 bits without sign. *)
Definition rev_info (c : apiInfoChannelMap) : storeInfoAPIRevisionInfo :=
  mkRevInfo (rd_Sha3_384 (cr_Download (cm_Revision c)))
    (rd_Size (cr_Download (cm_Revision c)) mod 2 ^ 64)%Z
    (Itoa (cr_Revision (cm_Revision c))) (cc_Name (cm_Channel c)).

Definition rev_infos (l : list apiInfoChannelMap) : gmap string storeInfoAPIRevisionInfo :=
  fold_left (fun m c => <[rd_Sha3_384 (cr_Download (cm_Revision c)) := rev_info c]> m) l ∅.

Definition store_metadata (type description : string) : ArtifactMetadata :=
  mkArtifactMetadata type "Store protocol response" "" "" description "" "" "" "" "" "" "" "" "".

(** The SHA3-384 digest of a file, in hexadecimal. *)
Definition sha3_384Digest (data : string) : string := EncodeToString (sha3_384 data).

Definition validateBldBin (st : IS) (data : string) (a : Artifact) : IS * Artifact * option error :=
  match xz_NewReader (bytes data) with
  | Err _ => (st, a, None)
  | Ok xr =>
      let '(entries, end_) := tar_read xr in
      match find_entry "./metadata.yaml" entries with
      | None =>
          (* after at least one entry, an error tells that the archive is broken *)
          match entries, end_ with
          | _ :: _, Some err => (st, a, Some err)
          | _, _ => (st, a, None)
          end
      | Some h =>
          match ReadMetadata (te_Body h) with
          | Err err => (st, a, Some err)
          | Ok binmd =>
              if negb (bin_complete binmd) then (st, a, None)
              else
                let digest := sha3_384Digest data in
                let '(ainfo, rev, channel) := findInfo (part st) digest in
                let md := bin_metadata binmd "" "" in
                match ainfo with
                | Some ainfo =>
                    if String.eqb (st_Type ainfo) "bins" then
                      (st, AnnotateResponse info_api_id
                             (<["package-id" := AStr (st_ID ainfo)]> (<["revision" := AStr rev]>
                               (<["digest" := AStr digest]> {[ "channel" := AStr channel ]})))
                             (SetResponseUnknown info_api_id "file digest matches store info API bin request" md a),
                       None)
                    else
                      (st, AnnotateResponse info_api_id
                             (<["package-id" := AStr (st_ID ainfo)]> (<["type" := AStr (st_Type ainfo)]>
                               (<["digest" := AStr digest]> {[ "channel" := AStr channel ]})))
                             (SetResponseRejected info_api_id
                                "file digest matches a request for a different package type" md a),
                       None)
                | None =>
                    (st, SetResponseRejected info_api_id
                           "file digest does not match any store info API request" md a, None)
                end
          end
      end
  end.

Definition InfoAPI_InspectArtifact (st : IS) (data : string) (a : Artifact) : IS * Artifact * option error :=
  if MimetypeIs a "application/x-xz" then validateBldBin st data a
  else if negb (MimetypeIs a "application/json") then (st, a, None)
  else
    match json_Decode decode_apiInfo zero_apiInfo data with
    | Err _ => (st, a, None)
    | Ok info =>
        if negb (info_recognized info) then (st, a, None)
        else
          match RequestStringAnnotation a info_api_id "type" with
          | None => (st, a, None)
          | Some pkgType =>
              let publisher := mp_DisplayName (im_Publisher (ai_Metadata info)) in
              (set_part (setInfo (ai_PackageID info)
                  (mkStoreInfo pkgType (ai_PackageID info) publisher (rev_infos (ai_ChannelMap info))) (part st)) st,
               AnnotateResponse info_api_id
                 (<["name" := AStr (ai_Name info)]> (<["type" := AStr pkgType]>
                   (<["package-id" := AStr (ai_PackageID info)]> {[ "publisher" := AStr publisher ]})))
                 (SetResponseApproved info_api_id "valid store info API response"
                    (store_metadata "application/x.canonical.store.info-api" "Store response for info request") a),
               None)
          end
    end.

Definition StoreInfoAPIInspector (cfg : StoreInspectorConfig) (bcfg : BldBinInspectorConfig) :
    Inspector (IS := IS) :=
  mkInspector info_api_id (InfoAPI_InspectRequest cfg bcfg) InfoAPI_InspectArtifact.

(** ** Revisions *)

Definition resolve_api_id : string := "store.resolve-api".

Definition ResolveAPI_InspectRequest (cfg : StoreInspectorConfig) : IS -> Artifact -> IS * Artifact * option error :=
  url_request (fun u => NewStoreResolveAPIURLInfo u cfg)
    (fun _ => SetRequestPending resolve_api_id "valid URL for store resolve API endpoint").

Definition validNamespaces : list string := ["bin"; "charm"; "rock"; "snap"].

Definition ResolveAPI_InspectArtifact (st : IS) (data : string) (a : Artifact) : IS * Artifact * option error :=
  if negb (MimetypeIs a "application/json") then (st, a, None)
  else
    match json_Decode decode_storeResolveAPIData zero_storeResolveAPIData data with
    | Err _ => (st, a, None)
    | Ok d =>
        match ra_CraftResults d ++ ra_PackageResults d with
        | [] => (st, a, None)
        | result :: _ =>
            if String.eqb (rr_Namespace result) "" then (st, a, None)
            else if negb (String.eqb (rr_Status result) "ok") && negb (String.eqb (rr_Status result) "error") then
              (st, a, None)
            else
              let md := store_metadata "application/x.canonical.store.resolve-api"
                          "Store response for resolve_revisions request" in
              let notes : Annotation :=
                <["resolved-craft-list" := AStrs (map rr_Name (ra_CraftResults d))]>
                  (<["resolved-package-list" := AStrs (map rr_Name (ra_PackageResults d))]>
                    {[ "instance-key" := AStr (rr_InstanceKey result) ]}) in
              if negb (slices_Contains validNamespaces (rr_Namespace result)) then
                (st, AnnotateResponse resolve_api_id (<["namespace" := AStr (rr_Namespace result)]> notes)
                       (SetResponseRejected resolve_api_id "invalid namespace" md a), None)
              else
                (st, AnnotateResponse resolve_api_id notes
                       (SetResponseApproved resolve_api_id "valid store resolve_revisions API response" md a), None)
        end
    end.

Definition StoreResolveAPIInspector (cfg : StoreInspectorConfig) : Inspector (IS := IS) :=
  mkInspector resolve_api_id (ResolveAPI_InspectRequest cfg) ResolveAPI_InspectArtifact.

(** ** Transforms *)

Definition transforms_api_id : string := "store.transforms-api".

Definition TransformsAPI_InspectRequest (cfg : StoreInspectorConfig) :
    IS -> Artifact -> IS * Artifact * option error :=
  url_request (fun u => NewStoreTransformsAPIURLInfo u cfg)
    (fun _ => SetRequestPending transforms_api_id "valid URL for store transforms API endpoint").

Definition transforms_metadata : ArtifactMetadata :=
  store_metadata "application/x.canonical.store.transforms-api" "Store response for workspace transforms request".

(** The first transform of another package than a bin, or the texts of all. *)
Fixpoint list_transforms (l : list transform) (texts : list string) : transform + list string :=
  match l with
  | [] => inr texts
  | t :: l' =>
      if negb (String.eqb (tp_Type (tr_Package t)) "bin") then inl t
      else list_transforms l' (texts ++ [tp_Name (tr_Package t) +:+ " from " +:+
             ch_Name (tf_Channel (tr_From t)) +:+ " to " +:+ ch_Name (tt_Channel (tr_To t))])
  end.

Definition TransformsAPI_InspectArtifact (st : IS) (data : string) (a : Artifact) : IS * Artifact * option error :=
  if negb (MimetypeIs a "application/json") then (st, a, None)
  else
    match json_Decode decode_workspaceTransforms zero_workspaceTransforms data with
    | Err _ => (st, a, None)
    | Ok d =>
        match wt_Transforms d with
        | None => (st, a, None)
        | Some ts =>
            if String.eqb (wt_WorkspaceID d) "" then (st, a, None)
            else
              match list_transforms ts [] with
              | inl t =>
                  (st, AnnotateResponse transforms_api_id
                         (<["workspace-id" := AStr (wt_WorkspaceID d)]>
                           (<["package-name" := AStr (tp_Name (tr_Package t))]>
                             {[ "package-type" := AStr (tp_Type (tr_Package t)) ]}))
                         (SetResponseRejected transforms_api_id "invalid package type" transforms_metadata a), None)
              | inr texts =>
                  (st, AnnotateResponse transforms_api_id
                         (<["workspace-id" := AStr (wt_WorkspaceID d)]> {[ "transforms" := AStrs texts ]})
                         (SetResponseApproved transforms_api_id "valid store transforms API response"
                            transforms_metadata a), None)
              end
        end
    end.

Definition StoreTransformsAPIInspector (cfg : StoreInspectorConfig) : Inspector (IS := IS) :=
  mkInspector transforms_api_id (TransformsAPI_InspectRequest cfg) TransformsAPI_InspectArtifact.

(** ** Images *)

Definition appmedia_id : string := "store.appmedia".

Definition AppMedia_InspectRequest (cfg : StoreInspectorConfig) : IS -> Artifact -> IS * Artifact * option error :=
  url_request (fun u => NewStoreAppMediaURLInfo u cfg)
    (fun _ => SetRequestPending appmedia_id "valid URL for store app media").

Context `{PN : Png}.

Definition inspectArtifactPNG (st : IS) (data : string) (a : Artifact) : IS * Artifact * option error :=
  match png_DecodeConfig data with
  | Err _ => (st, a, None)
  | Ok (width, height) =>
      let notes : Annotation := <["height" := AInt height]> {[ "width" := AInt width ]} in
      let md := mkArtifactMetadata "application/x.canonical.store.appmedia-png" "Image file" "" ""
                  "Store media file in PNG format" "" "" "" "" "" "" "" "" "" in
      (st, AnnotateResponse appmedia_id notes
             (if InspectorRequestOpinionPending appmedia_id a
              then SetResponseApproved appmedia_id "store media file in PNG format" md a
              else SetResponseUnknown appmedia_id "unknown PNG image" md a), None)
  end.

Definition AppMedia_InspectArtifact (st : IS) (data : string) (a : Artifact) : IS * Artifact * option error :=
  if MimetypeIs a "image/png" then inspectArtifactPNG st data a else (st, a, None).

Definition StoreAppMediaInspector (cfg : StoreInspectorConfig) : Inspector (IS := IS) :=
  mkInspector appmedia_id (AppMedia_InspectRequest cfg) AppMedia_InspectArtifact.

(** ** Lemmas *)

#[export] Instance InfoAPI_laws cfg bcfg : InspectorLaws (StoreInfoAPIInspector cfg bcfg).
Proof.
  split; simpl.
  - intros st a st' a' e. apply url_request_frame. intros [[]|] b; auto with frames.
  - unfold InfoAPI_InspectArtifact, validateBldBin. solve_frame.
Qed.

#[export] Instance ResolveAPI_laws cfg : InspectorLaws (StoreResolveAPIInspector cfg).
Proof.
  split; simpl.
  - intros st a st' a' e. apply url_request_frame. auto with frames.
  - unfold ResolveAPI_InspectArtifact. solve_frame.
Qed.

#[export] Instance TransformsAPI_laws cfg : InspectorLaws (StoreTransformsAPIInspector cfg).
Proof.
  split; simpl.
  - intros st a st' a' e. apply url_request_frame. auto with frames.
  - unfold TransformsAPI_InspectArtifact. solve_frame.
Qed.

#[export] Instance AppMedia_laws cfg : InspectorLaws (StoreAppMediaInspector cfg).
Proof.
  split; simpl.
  - intros st a st' a' e. apply url_request_frame. auto with frames.
  - unfold AppMedia_InspectArtifact, inspectArtifactPNG. solve_frame.
Qed.
End Store.

(** ** Properties *)

Section StoreProps.
Context `{ML : MimeLib} `{GL : GlobLib} `{MO : MapOrder} {MOL : MapOrderLaws} `{XZ : Xz} `{TR : Tar} `{BY : BldBinYaml} `{S3 : Sha3}.
Context {IS : Type} `{PS : !Part IS StoreIds} {PL : PartLaws IS StoreIds}.

(** Some package lists the file. *)
Definition listed (ids : StoreIds) (digest : string) (info : storeInfoAPIInfo) (r : storeInfoAPIRevisionInfo) : Prop :=
  exists pkgid, ids !! pkgid = Some info /\ RevInfo info !! digest = Some r.

Lemma find_info_spec l digest :
  match find_info l digest with
  | (Some info, rev, channel) =>
      exists pkgid r, In (pkgid, info) l /\ RevInfo info !! digest = Some r /\ rev = si_Revision r /\ channel = si_Channel r
  | (None, _, _) => forall pkgid info, In (pkgid, info) l -> RevInfo info !! digest = None
  end.
Proof.
  induction l as [|[k info] l IH]; simpl; [done|].
  destruct (RevInfo info !! digest) as [r|] eqn:E.
  - exists k, r. auto.
  - destruct (find_info l digest) as [[[i|] rev] channel].
    + destruct IH as (pkgid & r & ? & ?). exists pkgid, r. auto.
    + intros pkgid i [[= <- <-]|Hin]; eauto.
Qed.

Lemma findInfo_spec ids digest :
  match findInfo ids digest with
  | (Some info, rev, channel) => exists r, listed ids digest info r /\ rev = si_Revision r /\ channel = si_Channel r
  | (None, _, _) => forall info r, ~ listed ids digest info r
  end.
Proof.
  unfold findInfo. pose proof (find_info_spec (map_range ids) digest) as Hfi.
  destruct (find_info (map_range ids) digest) as [[[i|] rev] channel].
  - destruct Hfi as (pkgid & r & Hin & ? & ?). exists r. split; [|done]. exists pkgid. by rewrite <- map_range_elem.
  - intros info r (pkgid & Hl & Hr). apply map_range_elem in Hl. by rewrite (Hfi pkgid info Hl) in Hr.
Qed.

Lemma lookup_rev_infos l digest (acc : gmap string storeInfoAPIRevisionInfo) :
  fold_left (fun m c => <[rd_Sha3_384 (cr_Download (cm_Revision c)) := rev_info c]> m) l acc !! digest <> None <->
  acc !! digest <> None \/ In digest (map (fun c => rd_Sha3_384 (cr_Download (cm_Revision c))) l).
Proof.
  revert acc. induction l as [|c l IH]; intros acc; simpl; [tauto|]. rewrite IH.
  destruct (decide (rd_Sha3_384 (cr_Download (cm_Revision c)) = digest)) as [->|Hne].
  - rewrite lookup_insert_eq. naive_solver.
  - rewrite lookup_insert_ne by done. naive_solver.
Qed.

(** C18: A bin package that both inspectors saw and nobody rejected is listed, with its SHA3-384 digest, in a
    store answer about a package of type bins, and gets the revision the store gave; its content ID is
    that of the annotation of the request. *)
Theorem bin_package_listed : forall (st st1 st2 : IS) data a a1 a2,
  MimetypeIs a "application/x-xz" = true -> ResponseInspection a = ∅ ->
  InfoAPI_InspectArtifact st data a = (st1, a1, None) ->
  BldBin_InspectArtifact st1 data a1 = (st2, a2, None) ->
  response_opinion bldbin_id a2 = Some Approved -> ResponseRejected a2 = false ->
  exists info r, listed (part st) (sha3_384Digest data) info r /\ st_Type info = "bins" /\
    StoreRevision (Meta a2) = si_Revision r /\
    ContentID (Meta a2) = default "" (RequestStringAnnotation a info_api_id "package-id").
Proof.
  intros st st1 st2 data a a1 a2 Hm Hno H1 H2 Hop Hrej.
  assert (Hnone : response_opinion bldbin_id a = None) by (unfold response_opinion; by rewrite Hno).
  unfold InfoAPI_InspectArtifact in H1. rewrite Hm in H1. unfold validateBldBin in H1.
  unfold BldBin_InspectArtifact in H2.
  destruct (xz_NewReader (bytes data)) as [xr|]; [|simplify_eq; congruence].
  destruct (tar_read xr) as [entries end_]. simpl fst in H2.
  destruct (find_entry "./metadata.yaml" entries) as [h|].
  2: { repeat case_match; simplify_eq; congruence. }
  destruct (ReadMetadata (te_Body h)) as [m|]; [|simplify_eq].
  destruct (bin_complete m); simpl negb in H1; cbn iota in H1; [|simplify_eq; congruence].
  pose proof (findInfo_spec (part st) (sha3_384Digest data)) as Hf.
  destruct (findInfo (part st) (sha3_384Digest data)) as [[ainfo rev] channel].
  assert (Hbad : response_opinion info_api_id a1 <> Some Rejected).
  { intros Hb. assert (response_opinion info_api_id a2 = Some Rejected) as Hr%rejected_by; [|congruence].
    simplify_eq. by rewrite response_opinion_other. }
  destruct ainfo as [info|]; [|simplify_eq; by autorewrite with opinions in Hbad].
  destruct Hf as (r & Hl & -> & ->). exists info, r.
  destruct (String.eqb_spec (st_Type info) "bins") as [Hb|Hb]; [|simplify_eq; by autorewrite with opinions in Hbad].
  assert (Hreq : RequestInspection a1 = RequestInspection a).
  { simplify_eq. eapply (rs_request info_api_id). auto with frames. }
  simplify_eq. split; [done|]. split; [done|]. rewrite approved_metadata by done.
  unfold RequestStringAnnotation. rewrite Hreq. split; [|done].
  erewrite ResponseStringAnnotation_annotate by apply SetResponse_lookup. simpl.
  by rewrite lookup_union, !lookup_insert_ne, lookup_insert_eq, lookup_empty by done.
Qed.

(** What an answer about a package adds. *)
Definition store_info (ptype : string) (info : apiInfo) : storeInfoAPIInfo :=
  mkStoreInfo ptype (ai_PackageID info) (mp_DisplayName (im_Publisher (ai_Metadata info)))
    (rev_infos (ai_ChannelMap info)).

(** A recognised answer about a package, to a request with a package type, is approved, and the inspector
    then lists exactly the digests of its channels for that package, in place of those it knew; other
    packages stay. Anything else in JSON changes nothing. *)
Theorem info_api_learns : forall (st : IS) data a st' a' e,
  MimetypeIs a "application/x-xz" = false -> InfoAPI_InspectArtifact st data a = (st', a', e) ->
  e = None /\
  (st' = st /\ a' = a \/
   exists info ptype, json_Decode decode_apiInfo zero_apiInfo data = Ok info /\ info_recognized info = true /\
     RequestStringAnnotation a info_api_id "type" = Some ptype /\
     response_opinion info_api_id a' = Some Approved /\
     part st' !! ai_PackageID info = Some (store_info ptype info) /\
     (forall pkg, pkg <> ai_PackageID info -> part st' !! pkg = part st !! pkg) /\
     (forall digest, RevInfo (store_info ptype info) !! digest <> None <->
        In digest (map (fun c => rd_Sha3_384 (cr_Download (cm_Revision c))) (ai_ChannelMap info)))).
Proof.
  intros st data a st' a' e Hm H. unfold InfoAPI_InspectArtifact in H. rewrite Hm in H.
  destruct (negb _); [by simplify_eq; auto|].
  destruct (json_Decode _ _ _) as [info|]; [|by simplify_eq; auto].
  destruct (info_recognized info) eqn:Er; simpl negb in H; cbn iota in H; [|by simplify_eq; auto].
  destruct (RequestStringAnnotation a info_api_id "type") as [ptype|]; [|by simplify_eq; auto].
  injection H as <- <- <-. split; [done|]. right. exists info, ptype.
  do 3 (split; [done|]). rewrite part_set. unfold setInfo. split; [by autorewrite with opinions|].
  split; [by rewrite lookup_insert_eq|]. split; [by intros; rewrite lookup_insert_ne|].
  intros digest. simpl. unfold rev_infos. rewrite lookup_rev_infos, lookup_empty. naive_solver.
Qed.

(** An answer about transforms is approved exactly if it names a workspace and all its transforms, which
    must not be null, are of bin packages. *)
Theorem transforms_approved : forall (st : IS) data a d,
  MimetypeIs a "application/json" = true -> response_opinion transforms_api_id a = None ->
  json_Decode decode_workspaceTransforms zero_workspaceTransforms data = Ok d ->
  exists a', TransformsAPI_InspectArtifact st data a = (st, a', None) /\
    (response_opinion transforms_api_id a' = Some Approved <->
     wt_WorkspaceID d <> "" /\
     exists ts, wt_Transforms d = Some ts /\ Forall (fun t => tp_Type (tr_Package t) = "bin") ts).
Proof.
  intros st data a d Hm Hno Hd. unfold TransformsAPI_InspectArtifact. rewrite Hm, Hd. cbn [negb].
  assert (Hl : forall ts texts, match list_transforms ts texts with
    | inl t => In t ts /\ tp_Type (tr_Package t) <> "bin"
    | inr _ => Forall (fun t => tp_Type (tr_Package t) = "bin") ts end).
  { induction ts as [|t ts IH]; intros texts; simpl; [done|].
    destruct (String.eqb_spec (tp_Type (tr_Package t)) "bin") as [Ht|Ht]; cbn [negb]; [|by auto].
    specialize (IH (texts ++ [tp_Name (tr_Package t) +:+ " from " +:+
             ch_Name (tf_Channel (tr_From t)) +:+ " to " +:+ ch_Name (tt_Channel (tr_To t))])).
    destruct (list_transforms ts _) as [t'|]; [naive_solver|by constructor]. }
  destruct (wt_Transforms d) as [ts|].
  2: { exists a. split; [done|]. rewrite Hno. naive_solver. }
  destruct (String.eqb_spec (wt_WorkspaceID d) "") as [Hw|Hw].
  { exists a. split; [done|]. rewrite Hno. naive_solver. }
  specialize (Hl ts []). destruct (list_transforms ts []) as [t|texts]; (eexists; split; [done|]);
    autorewrite with opinions; [|naive_solver].
  split; [done|]. intros (_ & ts' & [= <-] & Hall). destruct Hl as [Hin Ht].
  rewrite List.Forall_forall in Hall. by apply Hall in Hin.
Qed.
End StoreProps.

(** ** Witnesses *)

Section StoreDemo.
#[local] Existing Instance text_mime.
#[local] Existing Instance list_order.
#[local] Existing Instance list_order_laws.
#[local] Existing Instance plain_xz.
#[local] Instance demo_bin_tar : Tar := fixed_tar [mkTarEntry "./" true (bytes ""); mkTarEntry "./metadata.yaml" false (bytes "")].
#[local] Instance demo_bin_yaml : BldBinYaml := {| ReadMetadata := fun _ =>
  Ok (mkBldBinMetadata "hello" "1.0" "noble" "amd64" "" "" "" "" "") |}.
#[local] Instance demo_sha3 : Sha3 := {| sha3_384 := id |}.

Definition demo_info_json : string := double_quotes
  "{'channel-map': [{'channel': {'name': 'latest/stable'}, 'revision': {'download': {'sha3-384': '6162', 'size': 2, 'url': 'u'}, 'revision': 7}}], 'metadata': {'publisher': {'username': 'me', 'display-name': 'Me'}}, 'name': 'hello', 'package-id': 'id1'}".

Definition demo_typed (mime : string) (ids : list (string * string)) : Artifact :=
  set_Meta (mkMetadata mime zero_sha1 zero_sha256 0 "" "" "" "" "" "" "" "" "" "" "" "" "")
    (AnnotateRequest info_api_id (list_to_map (map (fun p => (fst p, AStr (snd p))) ids))
       (SetRequestPending info_api_id "" NewArtifact)).
Definition demo_info_run : StoreIds * Artifact * option error :=
  InfoAPI_InspectArtifact ∅ demo_info_json (demo_typed "application/json" [("type", "bins")]).

Lemma info_api_learns_witness : demo_info_run.2 = None /\
  exists r, listed demo_info_run.1.1 "6162" (default (mkStoreInfo "" "" "" ∅) (demo_info_run.1.1 !! "id1")) r /\
    si_Revision r = "7".
Proof.
  assert (Hm : MimetypeIs (demo_typed "application/json" [("type", "bins")]) "application/x-xz" = false) by (by vm_compute).
  destruct (info_api_learns ∅ demo_info_json _ demo_info_run.1.1 demo_info_run.1.2 None Hm) as [H _];
    [by apply triple_eta; vm_compute|].
  split; [by vm_compute|]. exists (mkRevInfo "6162" 2 "7" "latest/stable").
  split; [|done]. exists "id1". split; by vm_compute.
Defined.

Definition demo_bin_run : StoreIds * Artifact * option error :=
  InfoAPI_InspectArtifact demo_info_run.1.1 "ab" (demo_typed "application/x-xz" []).
Definition demo_bin_run2 : StoreIds * Artifact * option error :=
  BldBin_InspectArtifact demo_bin_run.1.1 "ab" demo_bin_run.1.2.

Lemma bin_package_listed_witness : ResponseApproved demo_bin_run2.1.2 = true /\
  exists info r, listed demo_info_run.1.1 "6162" info r /\ StoreRevision (Meta demo_bin_run2.1.2) = si_Revision r.
Proof.
  split; [by vm_compute|].
  destruct (bin_package_listed demo_info_run.1.1 demo_bin_run.1.1 demo_bin_run2.1.1 "ab"
    (demo_typed "application/x-xz" []) demo_bin_run.1.2 demo_bin_run2.1.2) as (info & r & H1 & _ & H2 & _);
    [by vm_compute|by vm_compute|by apply triple_eta; vm_compute|by apply triple_eta; vm_compute|by vm_compute|
     by vm_compute|].
  exists info, r. split; [exact H1|exact H2].
Defined.

Definition demo_transforms : string :=
  double_quotes "{'workspace-id': 'w', 'transforms': [{'package': {'type': 'bin', 'name': 'p'}}]}".
Definition demo_transforms_run : StoreIds * Artifact * option error :=
  TransformsAPI_InspectArtifact ∅ demo_transforms (demo_typed "application/json" []).

Lemma transforms_approved_witness : response_opinion transforms_api_id demo_transforms_run.1.2 = Some Approved.
Proof.
  destruct (transforms_approved (∅ : StoreIds) demo_transforms (demo_typed "application/json" [])
    (match json_Decode decode_workspaceTransforms zero_workspaceTransforms demo_transforms with
     | Ok d => d | Err _ => zero_workspaceTransforms end)) as (a' & E & H); [by vm_compute..|].
  unfold demo_transforms_run. rewrite E. apply H. split; [by vm_compute|].
  eexists. split; [by vm_compute|]. by repeat constructor.
Defined.
End StoreDemo.
