(* ===== verification/Lxd.v ===== *)
(** * The LXD inspectors

    [inspectors/lxd]: the recognised URLs ([urls.go]) and the inspectors of the simple streams index and
    download lists, of image archives and of instance types. The download lists say which images exist
    and their digests; an image is approved only with the digest listed. *)
From stdpp Require Import base gmap strings list option fin_maps.
From Stdlib Require Import ZArith Lia Ascii.
From S2P Require Import Prelude GoStrings GoCodec Platform HttpUtil Json JsonDecode Digests Artifact Net Config.
From S2P Require Import Inspectors InspectorLib Archives Regexp Url.

(** ** URLs *)

Definition validOrigins : list Regexp :=
  [MustCompile "^http://cloud-images.ubuntu.com$"; MustCompile "^https://cloud-images.ubuntu.com:443$"].
Definition validMetaOrigins : list Regexp := [MustCompile "^https://images.lxd.canonical.com:443$"].

Definition reSimpleStreamsIndex : Regexp := MustCompile "^/([\w-\/]+)/streams/v1/index\.json$".
Definition reSimpleStreamsDownload : Regexp :=
  MustCompile "^/([\w-\/]+)/streams/v1/([\w-\.\/:]+):download\.json$".
Definition reProductItem : Regexp :=
  MustCompile "^/buildd/(daily|releases)/([\w-]+)/(\w[\w+.-]*)/([\w+.-]+\.tar\.gz)$".
Definition reInstanceTypes : Regexp := MustCompile "^/meta/instance-types/[\w-]*\.yaml$".
Definition downloadImageRequestURL : Regexp := MustCompile "^/[\w-]+/[\w-]+/([\w-\/\.]+)$".

Definition check_origin (l : list Regexp) (u : URL) : option error :=
  let origin := Scheme u +:+ "://" +:+ Host u in
  if existsb (fun rx => MatchString rx origin) l then None else Some (EText ("invalid origin " +:+ origin)).
Definition checkValidOrigin : URL -> option error := check_origin validOrigins.
Definition checkValidMetaOrigin : URL -> option error := check_origin validMetaOrigins.

(** The groups of a path at a valid origin. *)
Definition lxd_url (rx : Regexp) (groups : nat) (u : URL) : result (list string) :=
  match checkValidOrigin u with
  | Some err => Err err
  | None =>
      let m := FindStringSubmatch rx (Path u) in
      if List.length m =? groups then Ok m else Err (EText ("invalid URL path: " +:+ Path u))
  end.

(** The stream. *)
Definition NewSimpleStreamsIndexURLInfo (u : URL) : result string :=
  m ← lxd_url reSimpleStreamsIndex 2 u; Ok (nth 1 m "").

(** The stream and the path of the item. *)
Definition NewSimpleStreamsDownloadURLInfo (u : URL) : result (string * string) :=
  m ← lxd_url reSimpleStreamsDownload 3 u; Ok (nth 1 m "", nth 2 m "").

Record ProductItemURLInfo := mkProductItemURLInfo {
  pu_ImageType : string;
  pu_Series : string;
  pu_Date : string;
  pu_Name : string;
}.

Definition NewProductItemURLInfo (u : URL) : result ProductItemURLInfo :=
  m ← lxd_url reProductItem 5 u;
  Ok (mkProductItemURLInfo (nth 1 m "") (nth 2 m "") (nth 3 m "") (nth 4 m "")).

Definition newInstanceTypesURLInfo (u : URL) : result unit :=
  match checkValidMetaOrigin u with
  | Some err => Err err
  | None => if MatchString reInstanceTypes (Path u) then Ok tt
            else Err (EText "not a valid URL for LXD instance types")
  end.

(** ** Files *)

(** *** The index *)

Record simpleStreamEntries := mksimpleStreamEntries {
  se_Datatype : string;
  se_Path : string;
  se_Updated : string;
  se_Products : list string;
  se_Format : string;
}.
Definition zero_simpleStreamEntries : simpleStreamEntries := mksimpleStreamEntries "" "" "" [] "".
Definition decode_simpleStreamEntries : json -> simpleStreamEntries -> result simpleStreamEntries := decode_struct (fun k v s =>
  if field_is "datatype" k then
    x ← decode_string v (se_Datatype s); Ok (mksimpleStreamEntries x (se_Path s) (se_Updated s) (se_Products s) (se_Format s))
  else if field_is "path" k then
    x ← decode_string v (se_Path s); Ok (mksimpleStreamEntries (se_Datatype s) x (se_Updated s) (se_Products s) (se_Format s))
  else if field_is "updated" k then
    x ← decode_string v (se_Updated s); Ok (mksimpleStreamEntries (se_Datatype s) (se_Path s) x (se_Products s) (se_Format s))
  else if field_is "products" k then
    x ← decode_slice "" decode_string v (se_Products s); Ok (mksimpleStreamEntries (se_Datatype s) (se_Path s) (se_Updated s) x (se_Format s))
  else if field_is "format" k then
    x ← decode_string v (se_Format s); Ok (mksimpleStreamEntries (se_Datatype s) (se_Path s) (se_Updated s) (se_Products s) x)
  else Ok s).

Record simpleStreamsIndex := mksimpleStreamsIndex {
  sx_Updated : string;
  sx_Format : string;
  sx_Index : gmap string simpleStreamEntries;
}.
Definition zero_simpleStreamsIndex : simpleStreamsIndex := mksimpleStreamsIndex "" "" ∅.
Definition decode_simpleStreamsIndex : json -> simpleStreamsIndex -> result simpleStreamsIndex := decode_struct (fun k v s =>
  if field_is "updated" k then
    x ← decode_string v (sx_Updated s); Ok (mksimpleStreamsIndex x (sx_Format s) (sx_Index s))
  else if field_is "format" k then
    x ← decode_string v (sx_Format s); Ok (mksimpleStreamsIndex (sx_Updated s) x (sx_Index s))
  else if field_is "index" k then
    x ← decode_map zero_simpleStreamEntries decode_simpleStreamEntries v (sx_Index s); Ok (mksimpleStreamsIndex (sx_Updated s) (sx_Format s) x)
  else Ok s).

(** *** Download lists *)

Record simpleStreamsProductItem := mksimpleStreamsProductItem {
  pi_FType : string;
  pi_Path : string;
  pi_Sha256 : string;
  pi_Size : Z;
}.
Definition zero_simpleStreamsProductItem : simpleStreamsProductItem := mksimpleStreamsProductItem "" "" "" 0%Z.
Definition decode_simpleStreamsProductItem : json -> simpleStreamsProductItem -> result simpleStreamsProductItem := decode_struct (fun k v s =>
  if field_is "ftype" k then
    x ← decode_string v (pi_FType s); Ok (mksimpleStreamsProductItem x (pi_Path s) (pi_Sha256 s) (pi_Size s))
  else if field_is "path" k then
    x ← decode_string v (pi_Path s); Ok (mksimpleStreamsProductItem (pi_FType s) x (pi_Sha256 s) (pi_Size s))
  else if field_is "sha256" k then
    x ← decode_string v (pi_Sha256 s); Ok (mksimpleStreamsProductItem (pi_FType s) (pi_Path s) x (pi_Size s))
  else if field_is "size" k then
    x ← decode_unsigned 32 v (pi_Size s); Ok (mksimpleStreamsProductItem (pi_FType s) (pi_Path s) (pi_Sha256 s) x)
  else Ok s).

Record simpleStreamsProductVersion := mksimpleStreamsProductVersion {
  pv_Label : string;
  pv_PubName : string;
  pv_Items : gmap string simpleStreamsProductItem;
}.
Definition zero_simpleStreamsProductVersion : simpleStreamsProductVersion := mksimpleStreamsProductVersion "" "" ∅.
Definition decode_simpleStreamsProductVersion : json -> simpleStreamsProductVersion -> result simpleStreamsProductVersion := decode_struct (fun k v s =>
  if field_is "label" k then
    x ← decode_string v (pv_Label s); Ok (mksimpleStreamsProductVersion x (pv_PubName s) (pv_Items s))
  else if field_is "pubname" k then
    x ← decode_string v (pv_PubName s); Ok (mksimpleStreamsProductVersion (pv_Label s) x (pv_Items s))
  else if field_is "items" k then
    x ← decode_map zero_simpleStreamsProductItem decode_simpleStreamsProductItem v (pv_Items s); Ok (mksimpleStreamsProductVersion (pv_Label s) (pv_PubName s) x)
  else Ok s).

Record simpleStreamProductEntries := mksimpleStreamProductEntries {
  pe_Aliases : string;
  pe_Arch : string;
  pe_Os : string;
  pe_Release : string;
  pe_ReleaseCodename : string;
  pe_ReleaseTitle : string;
  pe_SupportEol : string;
  pe_Supported : bool;
  pe_Version : string;
  pe_Versions : gmap string simpleStreamsProductVersion;
}.
Definition zero_simpleStreamProductEntries : simpleStreamProductEntries := mksimpleStreamProductEntries "" "" "" "" "" "" "" false "" ∅.
Definition decode_simpleStreamProductEntries : json -> simpleStreamProductEntries -> result simpleStreamProductEntries := decode_struct (fun k v s =>
  if field_is "aliases" k then
    x ← decode_string v (pe_Aliases s); Ok (mksimpleStreamProductEntries x (pe_Arch s) (pe_Os s) (pe_Release s) (pe_ReleaseCodename s) (pe_ReleaseTitle s) (pe_SupportEol s) (pe_Supported s) (pe_Version s) (pe_Versions s))
  else if field_is "arch" k then
    x ← decode_string v (pe_Arch s); Ok (mksimpleStreamProductEntries (pe_Aliases s) x (pe_Os s) (pe_Release s) (pe_ReleaseCodename s) (pe_ReleaseTitle s) (pe_SupportEol s) (pe_Supported s) (pe_Version s) (pe_Versions s))
  else if field_is "os" k then
    x ← decode_string v (pe_Os s); Ok (mksimpleStreamProductEntries (pe_Aliases s) (pe_Arch s) x (pe_Release s) (pe_ReleaseCodename s) (pe_ReleaseTitle s) (pe_SupportEol s) (pe_Supported s) (pe_Version s) (pe_Versions s))
  else if field_is "release" k then
    x ← decode_string v (pe_Release s); Ok (mksimpleStreamProductEntries (pe_Aliases s) (pe_Arch s) (pe_Os s) x (pe_ReleaseCodename s) (pe_ReleaseTitle s) (pe_SupportEol s) (pe_Supported s) (pe_Version s) (pe_Versions s))
  else if field_is "release_codename" k then
    x ← decode_string v (pe_ReleaseCodename s); Ok (mksimpleStreamProductEntries (pe_Aliases s) (pe_Arch s) (pe_Os s) (pe_Release s) x (pe_ReleaseTitle s) (pe_SupportEol s) (pe_Supported s) (pe_Version s) (pe_Versions s))
  else if field_is "release_title" k then
    x ← decode_string v (pe_ReleaseTitle s); Ok (mksimpleStreamProductEntries (pe_Aliases s) (pe_Arch s) (pe_Os s) (pe_Release s) (pe_ReleaseCodename s) x (pe_SupportEol s) (pe_Supported s) (pe_Version s) (pe_Versions s))
  else if field_is "support_eol" k then
    x ← decode_string v (pe_SupportEol s); Ok (mksimpleStreamProductEntries (pe_Aliases s) (pe_Arch s) (pe_Os s) (pe_Release s) (pe_ReleaseCodename s) (pe_ReleaseTitle s) x (pe_Supported s) (pe_Version s) (pe_Versions s))
  else if field_is "supported" k then
    x ← decode_bool v (pe_Supported s); Ok (mksimpleStreamProductEntries (pe_Aliases s) (pe_Arch s) (pe_Os s) (pe_Release s) (pe_ReleaseCodename s) (pe_ReleaseTitle s) (pe_SupportEol s) x (pe_Version s) (pe_Versions s))
  else if field_is "version" k then
    x ← decode_string v (pe_Version s); Ok (mksimpleStreamProductEntries (pe_Aliases s) (pe_Arch s) (pe_Os s) (pe_Release s) (pe_ReleaseCodename s) (pe_ReleaseTitle s) (pe_SupportEol s) (pe_Supported s) x (pe_Versions s))
  else if field_is "versions" k then
    x ← decode_map zero_simpleStreamsProductVersion decode_simpleStreamsProductVersion v (pe_Versions s); Ok (mksimpleStreamProductEntries (pe_Aliases s) (pe_Arch s) (pe_Os s) (pe_Release s) (pe_ReleaseCodename s) (pe_ReleaseTitle s) (pe_SupportEol s) (pe_Supported s) (pe_Version s) x)
  else Ok s).

Record simpleStreamsDownload := mksimpleStreamsDownload {
  sd_Updated : string;
  sd_Format : string;
  sd_Datatype : string;
  sd_ContentID : string;
  sd_License : string;
  sd_Creator : string;
  sd_Products : option (gmap string simpleStreamProductEntries);
}.
Definition zero_simpleStreamsDownload : simpleStreamsDownload := mksimpleStreamsDownload "" "" "" "" "" "" None.
Definition decode_simpleStreamsDownload : json -> simpleStreamsDownload -> result simpleStreamsDownload := decode_struct (fun k v s =>
  if field_is "updated" k then
    x ← decode_string v (sd_Updated s); Ok (mksimpleStreamsDownload x (sd_Format s) (sd_Datatype s) (sd_ContentID s) (sd_License s) (sd_Creator s) (sd_Products s))
  else if field_is "format" k then
    x ← decode_string v (sd_Format s); Ok (mksimpleStreamsDownload (sd_Updated s) x (sd_Datatype s) (sd_ContentID s) (sd_License s) (sd_Creator s) (sd_Products s))
  else if field_is "datatype" k then
    x ← decode_string v (sd_Datatype s); Ok (mksimpleStreamsDownload (sd_Updated s) (sd_Format s) x (sd_ContentID s) (sd_License s) (sd_Creator s) (sd_Products s))
  else if field_is "content_id" k then
    x ← decode_string v (sd_ContentID s); Ok (mksimpleStreamsDownload (sd_Updated s) (sd_Format s) (sd_Datatype s) x (sd_License s) (sd_Creator s) (sd_Products s))
  else if field_is "license" k then
    x ← decode_string v (sd_License s); Ok (mksimpleStreamsDownload (sd_Updated s) (sd_Format s) (sd_Datatype s) (sd_ContentID s) x (sd_Creator s) (sd_Products s))
  else if field_is "creator" k then
    x ← decode_string v (sd_Creator s); Ok (mksimpleStreamsDownload (sd_Updated s) (sd_Format s) (sd_Datatype s) (sd_ContentID s) (sd_License s) x (sd_Products s))
  else if field_is "products" k then
    x ← decode_nilable ∅ (decode_map zero_simpleStreamProductEntries decode_simpleStreamProductEntries) v (sd_Products s); Ok (mksimpleStreamsDownload (sd_Updated s) (sd_Format s) (sd_Datatype s) (sd_ContentID s) (sd_License s) (sd_Creator s) x)
  else Ok s).

(** *** The metadata of an image *)

Record RootfsMetadataProperties := mkRootfsMetadataProperties {
  rp_Architecture : string;
  rp_Description : string;
  rp_Os : string;
  rp_Series : string;
}.
Definition zero_RootfsMetadataProperties : RootfsMetadataProperties := mkRootfsMetadataProperties "" "" "" "".
Definition decode_RootfsMetadataProperties : json -> RootfsMetadataProperties -> result RootfsMetadataProperties := decode_struct (fun k v s =>
  if field_is "architecture" k then
    x ← decode_string v (rp_Architecture s); Ok (mkRootfsMetadataProperties x (rp_Description s) (rp_Os s) (rp_Series s))
  else if field_is "description" k then
    x ← decode_string v (rp_Description s); Ok (mkRootfsMetadataProperties (rp_Architecture s) x (rp_Os s) (rp_Series s))
  else if field_is "os" k then
    x ← decode_string v (rp_Os s); Ok (mkRootfsMetadataProperties (rp_Architecture s) (rp_Description s) x (rp_Series s))
  else if field_is "series" k then
    x ← decode_string v (rp_Series s); Ok (mkRootfsMetadataProperties (rp_Architecture s) (rp_Description s) (rp_Os s) x)
  else Ok s).

Record RootfsMetadata := mkRootfsMetadata {
  rm_Architecture : string;
  rm_CreationDate : Z;
  rm_Properties : RootfsMetadataProperties;
}.
Definition zero_RootfsMetadata : RootfsMetadata := mkRootfsMetadata "" 0%Z zero_RootfsMetadataProperties.
Definition decode_RootfsMetadata : json -> RootfsMetadata -> result RootfsMetadata := decode_struct (fun k v s =>
  if field_is "architecture" k then
    x ← decode_string v (rm_Architecture s); Ok (mkRootfsMetadata x (rm_CreationDate s) (rm_Properties s))
  else if field_is "creation_date" k then
    x ← decode_signed 64 v (rm_CreationDate s); Ok (mkRootfsMetadata (rm_Architecture s) x (rm_Properties s))
  else if field_is "properties" k then
    x ← decode_RootfsMetadataProperties v (rm_Properties s); Ok (mkRootfsMetadata (rm_Architecture s) (rm_CreationDate s) x)
  else Ok s).

(** *** Instance types *)

Record instanceInfo := mkinstanceInfo { in_CPU : string; in_Mem : string }.

(** [yaml.v3] decoding the three forms of the files. *)
Class LxdYaml := {
  decode_types : string -> result (gmap string (gmap string instanceInfo));
  decode_infos : string -> result (gmap string instanceInfo);
  decode_index : string -> result (gmap string string);
}.

(** The field [productItems]: the digests of the images by path; nil before the first list. *)
Notation ProductItems := (option (gmap string string)).

Definition indexFormat : string := "index:1.0".
Definition productFormat : string := "products:1.0".
Definition dataType : string := "image-downloads".

Section Lxd.
Context `{ML : MimeLib} `{MO : MapOrder} `{GZ : Gzip} `{TR : Tar} `{LY : LxdYaml}.
Context {IS : Type} `{PP : !Part IS ProductItems}.

(** ** The index of streams *)

Definition ss_index_id : string := "lxd.simple-streams.index".

Definition SimpleStreamsIndex_InspectRequest : IS -> Artifact -> IS * Artifact * option error :=
  url_request (fun u => Some (NewSimpleStreamsIndexURLInfo u)) (fun stream a =>
    AnnotateRequest ss_index_id {[ "stream" := AStr stream ]}
      (SetRequestPending ss_index_id "valid Simple Streams index URL" a)).

(** The paths of the lists, or the annotation of the first entry that is none. *)
Fixpoint index_paths (l : list (string * simpleStreamEntries)) (paths : list string) : Annotation + list string :=
  match l with
  | [] => inr paths
  | (_, v) :: l' =>
      if negb (String.eqb (se_Format v) productFormat) then inl {[ "index.format" := AStr (se_Format v) ]}
      else if negb (String.eqb (se_Datatype v) dataType) then inl {[ "index.datatype" := AStr (se_Datatype v) ]}
      else index_paths l' (paths ++ [se_Path v])
  end.

Definition lxd_metadata (type name version description architecture : string) : ArtifactMetadata :=
  mkArtifactMetadata type name version "" description "" "" architecture "" "" "" "" "" "".

Definition SimpleStreamsIndex_InspectArtifact (st : IS) (data : string) (a : Artifact) :
    IS * Artifact * option error :=
  if negb (MimetypeIs a "application/json") then (st, a, None)
  else
    match RequestStringAnnotation a ss_index_id "stream" with
    | None => (st, a, None)
    | Some stream =>
        match json_Decode decode_simpleStreamsIndex zero_simpleStreamsIndex data with
        | Err _ => (st, a, None)
        | Ok b =>
            if negb (String.eqb (sx_Format b) indexFormat) then (st, a, None)
            else
              let md := lxd_metadata "application/x.canonical.simplestreams-index" "Simple Streams Index" ""
                          ("Simple Streams Index for " +:+ stream) "" in
              match index_paths (map_range (sx_Index b)) [] with
              | inl notes =>
                  (st, AnnotateResponse ss_index_id notes (SetResponseRejected ss_index_id "invalid index file" md a), None)
              | inr paths =>
                  (st, AnnotateResponse ss_index_id {[ "download-paths" := AStrs paths ]}
                         (SetResponseApproved ss_index_id "valid Simple Streams index file" md a), None)
              end
        end
    end.

Definition SimpleStreamsIndexInspector : Inspector (IS := IS) :=
  mkInspector ss_index_id SimpleStreamsIndex_InspectRequest SimpleStreamsIndex_InspectArtifact.

(** ** Download lists and images *)

Definition ss_download_id : string := "lxd.simple-streams.download".
Definition productItemPath : string := "product-item-path".
Definition productItemSha256 : string := "product-item-sha256".
Definition productItems : string := "product-items".

(** The path of an image in its URL, also if it is not listed; empty if there is none or nothing is
    listed yet. The errors are only logged. *)
Definition matchItemFromURL (items : ProductItems) (downloadURL : string) : string :=
  match Parse downloadURL with
  | Err _ => ""
  | Ok u =>
      match items with
      | None => ""
      | Some _ => match FindStringSubmatch downloadImageRequestURL (Path u) with
                  | _ :: path :: _ => path
                  | _ => ""
                  end
      end
  end.

Definition SimpleStreamsDownload_InspectRequest (st : IS) (a : Artifact) : IS * Artifact * option error :=
  match Parse (DownloadURL a) with
  | Err err => (st, a, Some (EText ("cannot parse URL: " +:+ error_string err)))
  | Ok u =>
      match NewSimpleStreamsDownloadURLInfo u with
      | Ok (stream, path) =>
          (st, AnnotateRequest ss_download_id (<["stream" := AStr stream]> {[ productItemPath := AStr path ]})
                 (SetRequestPending ss_download_id "valid Simple Streams download request URL" a), None)
      | Err _ =>
          match NewProductItemURLInfo u with
          | Ok pinfo =>
              (st, AnnotateRequest ss_download_id {[ "product-name" := AStr (pu_Name pinfo) ]}
                     (SetRequestPending ss_download_id "valid Simple Streams product item URL" a), None)
          | Err _ => (st, a, None)
          end
      end
  end.

Definition getProductItemDigest (items : ProductItems) (itemPath : string) : option string :=
  default ∅ items !! itemPath.

Definition sha256_text (a : Artifact) : string := Sha256_String (Artifact_Sha256 a).

Definition inspectProductItem (st : IS) (a : Artifact) (itemPath : string) : IS * Artifact * option error :=
  match getProductItemDigest (part st) itemPath with
  | None =>
      (st, AnnotateResponse ss_download_id
             (<[productItemPath := AStr itemPath]> {[ productItemSha256 := AStr (sha256_text a) ]})
             (SetResponseRejected ss_download_id "sha256 missing for item" NoMetadata a), None)
  | Some digest =>
      if negb (String.eqb digest (sha256_text a)) then
        (st, AnnotateResponse ss_download_id
               (<["expected-sha256" := AStr digest]> {[ productItemSha256 := AStr (sha256_text a) ]})
               (SetResponseRejected ss_download_id "sha256 mismatch" NoMetadata a), None)
      else
        (st, AnnotateResponse ss_download_id
               (<[productItemPath := AStr itemPath]> {[ "sha256" := AStr (sha256_text a) ]})
               (SetResponseUnknown ss_download_id "simple streams product item matches digest" NoMetadata a), None)
  end.

Definition supportedVersions : list string := ["26.10"; "26.04"; "24.04"; "22.04"; "20.04"].

(** The items the loops visit, in order. *)
Definition all_items (products : gmap string simpleStreamProductEntries) : list simpleStreamsProductItem :=
  p ← map_range products;
  if slices_Contains supportedVersions (pe_Version (snd p)) then
    v ← map_range (pe_Versions (snd p)); map snd (map_range (pv_Items (snd v)))
  else [].

Definition usable_item (item : simpleStreamsProductItem) : bool :=
  HasSuffix (pi_Path item) ".tar.gz" &&
  (negb (String.eqb (pi_Path item) "") && negb (String.eqb (pi_Sha256 item) "")).

Definition item_digests (l : list simpleStreamsProductItem) : gmap string string :=
  fold_left (fun m item => if usable_item item then <[pi_Path item := pi_Sha256 item]> m else m) l ∅.

(** The images of a list; the inspector adds them to those it has. *)
Definition extractSupportedUbuntuImages (products : gmap string simpleStreamProductEntries) (st : IS) :
    IS * gmap string string :=
  let result := item_digests (all_items products) in
  (set_part (match (part st : ProductItems) with
             | None => Some result
             | Some items => Some (result ∪ items)
             end) st, result).

Definition SimpleStreamsDownload_InspectArtifact (st : IS) (data : string) (a : Artifact) :
    IS * Artifact * option error :=
  if MimetypeIs a "application/gzip" then
    let itemPath := matchItemFromURL (part st) (DownloadURL a) in
    if negb (String.eqb itemPath "") then inspectProductItem st a itemPath else (st, a, None)
  else if negb (MimetypeIs a "application/json") then (st, a, None)
  else
    match json_Decode decode_simpleStreamsDownload zero_simpleStreamsDownload data with
    | Err _ => (st, a, None)
    | Ok dl =>
        match sd_Products dl with
        | None => (st, a, None)
        | Some products =>
            if negb (String.eqb (sd_Format dl) productFormat) || String.eqb (sd_Datatype dl) "" ||
               String.eqb (sd_Updated dl) "" then (st, a, None)
            else
              match RequestStringAnnotation a ss_download_id "stream" with
              | None => (st, a, Some (EText "missing stream in request annotations"))
              | Some _ =>
                  let md := lxd_metadata "application/x.canonical.simplestreams-products" "Simple Streams Download" ""
                              ("Simple Streams Download for " +:+ sd_ContentID dl) "" in
                  let a := SetResponseApproved ss_download_id "valid Simple Streams Download file" md a in
                  let '(st, result) := extractSupportedUbuntuImages products st in
                  (st, AnnotateResponse ss_download_id {[ productItems := any_map result ]} a, None)
              end
        end
    end.

Definition SimpleStreamsDownloadInspector : Inspector (IS := IS) :=
  mkInspector ss_download_id SimpleStreamsDownload_InspectRequest SimpleStreamsDownload_InspectArtifact.

(** ** Images *)

Definition rootfs_id : string := "lxd.rootfs".

Definition Rootfs_InspectRequest : IS -> Artifact -> IS * Artifact * option error :=
  url_request (fun u => Some (NewProductItemURLInfo u)) (fun info a =>
    AnnotateRequest rootfs_id
      (<["image-type" := AStr (pu_ImageType info)]> (<["image-series" := AStr (pu_Series info)]>
        (<["image-datestamp" := AStr (pu_Date info)]> {[ "image-name" := AStr (pu_Name info) ]})))
      (SetRequestPending rootfs_id "valid URL for LXD product item" a)).

(** The loop over the entries: the metadata, decoded over what was there, and whether there was an entry
    of the root file system; it stops there once the architecture is known. [None] when the metadata
    cannot be decoded or the archive is broken. *)
Fixpoint scan_rootfs (l : list tar_entry) (end_ : option error) (rmd : RootfsMetadata) (hasRootfs : bool) :
    option (RootfsMetadata * bool) :=
  match l with
  | [] => match end_ with None => Some (rmd, hasRootfs) | Some _ => None end
  | h :: l' =>
      if String.eqb (te_Name h) "metadata.yaml" then
        match json_Decode decode_RootfsMetadata rmd (body_data (te_Body h)) with
        | Err _ => None
        | Ok rmd => scan_rootfs l' end_ rmd hasRootfs
        end
      else if HasPrefix (te_Name h) "rootfs/" then
        if negb (String.eqb (rm_Architecture rmd) "") then Some (rmd, true)
        else scan_rootfs l' end_ rmd true
      else scan_rootfs l' end_ rmd hasRootfs
  end.

Definition Rootfs_InspectArtifact (st : IS) (data : string) (a : Artifact) : IS * Artifact * option error :=
  if negb (MimetypeIs a "application/gzip") then (st, a, None)
  else
    match gzip_NewReader (bytes data) with
    | Err _ => (st, a, None)
    | Ok zf =>
        let '(entries, end_) := tar_read zf in
        match scan_rootfs entries end_ zero_RootfsMetadata false with
        | None => (st, a, None)
        | Some (rmd, hasRootfs) =>
            if String.eqb (rm_Architecture rmd) "" || String.eqb (rp_Os (rm_Properties rmd)) "" || negb hasRootfs
            then (st, a, None)
            else
              let md := lxd_metadata "application/x.canonical.lxd-rootfs" "LXD rootfs image"
                          (Itoa (rm_CreationDate rmd)) (rp_Description (rm_Properties rmd))
                          (rp_Architecture (rm_Properties rmd)) in
              let notes : Annotation :=
                <["architecture" := AStr (rm_Architecture rmd)]> (<["creation-date" := AInt (rm_CreationDate rmd)]>
                  (<["os" := AStr (rp_Os (rm_Properties rmd))]>
                    {[ "series" := AStr (rp_Series (rm_Properties rmd)) ]})) in
              (st, AnnotateResponse rootfs_id notes
                     (match ResponseStringAnnotation a ss_download_id productItemPath with
                      | Some _ => SetResponseApproved rootfs_id "valid LXD rootfs tarball" md a
                      | None => SetResponseRejected rootfs_id "artifact not verified against product items" md a
                      end), None)
        end
    end.

Definition RootfsInspector : Inspector (IS := IS) :=
  mkInspector rootfs_id Rootfs_InspectRequest Rootfs_InspectArtifact.

(** ** Instance types *)

Definition instance_types_id : string := "lxd.instance-types".

Definition InstanceTypes_InspectRequest : IS -> Artifact -> IS * Artifact * option error :=
  url_request (fun u => Some (newInstanceTypesURLInfo u))
    (fun _ => SetRequestPending instance_types_id "valid URL for LXD instance types").

Definition no_cpu (m : gmap string instanceInfo) : bool :=
  existsb (fun kv => String.eqb (in_CPU (snd kv)) "") (map_range m).

(** The kind of the file and the number of its entries; [None] when some entry is not of that kind. *)
Definition instance_file (data : string) : option (string * nat) :=
  match decode_types data with
  | Ok all =>
      if existsb (fun kv => no_cpu (snd kv)) (map_range all) then None else Some ("consolidated", size all)
  | Err _ =>
      match decode_infos data with
      | Ok infos => if no_cpu infos then None else Some ("single-provider", size infos)
      | Err _ =>
          match decode_index data with
          | Ok index =>
              if existsb (fun kv => negb (HasSuffix (TrimSpace (snd kv)) ".yaml")) (map_range index) then None
              else Some ("index", size index)
          | Err _ => Some ("", 0)
          end
      end
  end.

Definition InstanceTypes_InspectArtifact (st : IS) (data : string) (a : Artifact) : IS * Artifact * option error :=
  if negb (MimetypeIs a "text/plain") then (st, a, None)
  else if negb (InspectorRequestOpinionPending instance_types_id a) then (st, a, None)
  else
    match instance_file data with
    | None => (st, a, None)
    | Some (fileType, entries) =>
        if String.eqb fileType "" || (entries =? 0) then (st, a, None)
        else
          (st, AnnotateResponse instance_types_id
                 (<["file-type" := AStr fileType]> {[ "entries" := AInt (Z.of_nat entries) ]})
                 (SetResponseApproved instance_types_id "valid LXD instance types metadata"
                    (lxd_metadata "application/x.canonical.lxd-instance-types" "Instance types" ""
                       "LXD instance types metadata" "") a), None)
    end.

Definition InstanceTypesInspector : Inspector (IS := IS) :=
  mkInspector instance_types_id InstanceTypes_InspectRequest InstanceTypes_InspectArtifact.

(** ** Keeping to the interface *)

#[export] Instance SimpleStreamsIndex_laws : InspectorLaws SimpleStreamsIndexInspector.
Proof.
  split; simpl.
  - intros st a st' a' e. apply url_request_frame. auto with frames.
  - unfold SimpleStreamsIndex_InspectArtifact. solve_frame.
Qed.

#[export] Instance SimpleStreamsDownload_laws : InspectorLaws SimpleStreamsDownloadInspector.
Proof.
  split; simpl.
  - unfold SimpleStreamsDownload_InspectRequest. solve_frame.
  - unfold SimpleStreamsDownload_InspectArtifact, inspectProductItem, extractSupportedUbuntuImages. solve_frame.
Qed.

#[export] Instance Rootfs_laws : InspectorLaws RootfsInspector.
Proof.
  split; simpl.
  - intros st a st' a' e. apply url_request_frame. auto with frames.
  - unfold Rootfs_InspectArtifact. solve_frame.
Qed.

#[export] Instance InstanceTypes_laws : InspectorLaws InstanceTypesInspector.
Proof.
  split; simpl.
  - intros st a st' a' e. apply url_request_frame. auto with frames.
  - unfold InstanceTypes_InspectArtifact. solve_frame.
Qed.
End Lxd.

(** ** Properties *)

(** The dots of the origins match any character. *)
Example lookalike_origin : checkValidOrigin (mkURL "http" "cloud-images-ubuntu.com" "/" "") = None.
Proof. by vm_compute. Qed.
Example product_item_url :
  NewProductItemURLInfo (mkURL "http" "cloud-images.ubuntu.com"
    "/buildd/daily/noble/20250629.1/noble-server-cloudimg-amd64-lxd_combined.tar.gz" "")
  = Ok (mkProductItemURLInfo "daily" "noble" "20250629.1" "noble-server-cloudimg-amd64-lxd_combined.tar.gz").
Proof. by vm_compute. Qed.

Section LxdProps.
Context `{ML : MimeLib} `{MO : MapOrder} {MOL : MapOrderLaws} `{GZ : Gzip} `{TR : Tar} `{LY : LxdYaml}.
Context {IS : Type} `{PP : !Part IS ProductItems} {PL : PartLaws IS ProductItems}.

(** C25: A root file system that is approved, and that the download inspector did not reject, has the digest that
    a download list gave for the path in its URL. *)
Theorem rootfs_verified : forall (st st1 st2 : IS) data a a1 a2 e1 e2,
  MimetypeIs a "application/gzip" = true -> ResponseInspection a = ∅ ->
  SimpleStreamsDownload_InspectArtifact st data a = (st1, a1, e1) ->
  Rootfs_InspectArtifact st1 data a1 = (st2, a2, e2) ->
  response_opinion rootfs_id a2 = Some Approved -> ResponseRejected a2 = false ->
  exists items path, (part st : ProductItems) = Some items /\ path = matchItemFromURL (Some items) (DownloadURL a) /\
    items !! path = Some (Sha256_String (Sha256 (Meta a2))).
Proof.
  intros st st1 st2 data a a1 a2 e1 e2 Hm Hno H1 H2 Hop Hrej.
  pose proof (law_response (ins := RootfsInspector) _ _ _ _ _ _ H2) as [F2 _ O2].
  pose proof (law_response (ins := SimpleStreamsDownloadInspector) _ _ _ _ _ _ H1) as [F1 _ O1].
  assert (Hdl : response_opinion ss_download_id a1 <> Some Rejected).
  { intros Hr. assert (response_opinion ss_download_id a2 = Some Rejected) as Hx%rejected_by; [|congruence].
    unfold response_opinion in *. by rewrite O2. }
  assert (Hann : exists p, ResponseStringAnnotation a1 ss_download_id productItemPath = Some p).
  { destruct (ResponseStringAnnotation a1 ss_download_id productItemPath) as [p|] eqn:Hp; [eauto|].
    assert (Hn : response_opinion rootfs_id a1 = None).
    { unfold response_opinion. by rewrite O1, Hno. }
    unfold Rootfs_InspectArtifact in H2. rewrite Hp in H2.
    repeat case_match; simplify_eq; autorewrite with opinions in Hop; congruence. }
  rewrite (fr_sha256 _ _ F2), (fr_sha256 _ _ F1). clear F1 F2 O1 O2 H2 Hop Hrej.
  unfold SimpleStreamsDownload_InspectArtifact in H1. rewrite Hm in H1. cbn zeta in H1.
  destruct (String.eqb_spec (matchItemFromURL (part st) (DownloadURL a)) "") as [|Hp]; cbn [negb] in H1.
  { simplify_eq. destruct Hann as [p Hp]. unfold ResponseStringAnnotation, inspectionAnnotation in Hp.
    by rewrite Hno in Hp. }
  unfold inspectProductItem, getProductItemDigest in H1.
  destruct (part st : ProductItems) as [items|].
  2: { exfalso. apply Hp. unfold matchItemFromURL. by destruct (Parse _). }
  simpl default in H1.
  destruct (items !! _) as [digest|] eqn:Ed; [|simplify_eq; by autorewrite with opinions in Hdl].
  destruct (String.eqb_spec digest (sha256_text a)) as [->|]; cbn [negb] in H1;
    [|simplify_eq; by autorewrite with opinions in Hdl].
  exists items, (matchItemFromURL (Some items) (DownloadURL a)). done.
Qed.

Lemma item_digests_spec l path digest (acc : gmap string string) :
  fold_left (fun m item => if usable_item item then <[pi_Path item := pi_Sha256 item]> m else m) l acc !! path = Some digest ->
  acc !! path = Some digest \/
  exists item, In item l /\ usable_item item = true /\ pi_Path item = path /\ pi_Sha256 item = digest.
Proof.
  revert acc. induction l as [|item l IH]; intros acc Hl; simpl in Hl; [by left|].
  apply IH in Hl as [Hl|(i & ? & ?)]; [|right; exists i; split; [by right|done]].
  destruct (usable_item item) eqn:Hu; [|by left].
  destruct (decide (pi_Path item = path)) as [Hp|Hp].
  - rewrite Hp, lookup_insert_eq in Hl. simplify_eq. right. exists item. split; [by left|done].
  - rewrite lookup_insert_ne in Hl by done. by left.
Qed.

Lemma all_items_elem products item : In item (all_items products) <->
  exists k p kv v ki, products !! k = Some p /\ slices_Contains supportedVersions (pe_Version p) = true /\
    pe_Versions p !! kv = Some v /\ pv_Items v !! ki = Some item.
Proof.
  unfold all_items. rewrite <- list_elem_of_In, list_elem_of_bind. split.
  - intros ([k p] & Hin & Hp). apply list_elem_of_In, map_range_elem in Hp. cbn [snd] in Hin.
    destruct (slices_Contains supportedVersions (pe_Version p)) eqn:Hs; [|by apply elem_of_nil in Hin].
    apply list_elem_of_bind in Hin as ([kv v] & Hin & Hv). apply list_elem_of_In, map_range_elem in Hv.
    apply list_elem_of_In, in_map_iff in Hin as ([ki i] & <- & Hi). apply map_range_elem in Hi.
    by exists k, p, kv, v, ki.
  - intros (k & p & kv & v & ki & Hk & Hs & Hv & Hi). exists (k, p). split; [|by apply list_elem_of_In, map_range_elem].
    cbn [snd]. rewrite Hs. apply list_elem_of_bind. exists (kv, v). split; [|by apply list_elem_of_In, map_range_elem].
    apply list_elem_of_In, in_map_iff. exists (ki, item). split; [done|by apply map_range_elem].
Qed.

(** After a download list the known digests are those of archives it lists for a supported version, and
    for the other paths those known before. *)
Theorem download_list_digests : forall (st st' : IS) products result path digest,
  extractSupportedUbuntuImages products st = (st', result) ->
  getProductItemDigest (part st') path = Some digest ->
  (exists item k p kv v ki, products !! k = Some p /\ In (pe_Version p) supportedVersions /\
     pe_Versions p !! kv = Some v /\ pv_Items v !! ki = Some item /\
     pi_Path item = path /\ pi_Sha256 item = digest /\ HasSuffix path ".tar.gz" = true /\ digest <> "") \/
  result !! path = None /\ getProductItemDigest (part st) path = Some digest.
Proof.
  intros st st' products result path digest H Hd. unfold extractSupportedUbuntuImages in H.
  injection H as <- <-. rewrite part_set in Hd. unfold getProductItemDigest in *.
  set (result := item_digests (all_items products)) in *.
  assert (Hc : result !! path = Some digest \/ result !! path = None /\ default ∅ (part st : ProductItems) !! path = Some digest).
  { destruct (part st : ProductItems) as [items|]; simpl default in *; [|by left].
    apply lookup_union_Some_raw in Hd. naive_solver. }
  destruct Hc as [Hc|Hc]; [|by right]. left. apply item_digests_spec in Hc as [Hc|(item & Hin & Hu & Hp & Hs)].
  { by rewrite lookup_empty in Hc. }
  apply all_items_elem in Hin as (k & p & kv & v & ki & Hk & Hsup & Hv & Hi).
  exists item, k, p, kv, v, ki. do 1 (split; [done|]). split.
  { apply existsb_exists in Hsup as (x & Hx & <-%String.eqb_eq). done. }
  unfold usable_item in Hu. apply andb_prop in Hu as [Hz [_ Hn]%andb_prop]. subst.
  do 5 (split; [done|]). destruct (String.eqb_spec (pi_Sha256 item) ""); done.
Qed.
End LxdProps.

(** ** Witnesses *)

Section LxdDemo.
#[local] Existing Instance text_mime.
#[local] Existing Instance list_order.
#[local] Existing Instance list_order_laws.
#[local] Existing Instance plain_gzip.
#[local] Instance demo_image_tar : Tar := fixed_tar [
  mkTarEntry "metadata.yaml" false (bytes (double_quotes
    "{'architecture': 'x86_64', 'creation_date': 1751155200, 'properties': {'os': 'ubuntu', 'architecture': 'amd64'}}"));
  mkTarEntry "rootfs/" true (bytes "")].

Definition demo_image_path : string := "noble/1/img.tar.gz".
Definition demo_image : Artifact :=
  set_CurrentDownload (mkDownload zero_time zero_time "GET"
      ("http://cloud-images.ubuntu.com/buildd/daily/" +:+ demo_image_path) "" "" ∅ 0 "" "" ∅ zero_sha256)
    (set_Meta (mkMetadata "application/gzip" zero_sha1 zero_sha256 0 "" "" "" "" "" "" "" "" "" "" "" "" "") NewArtifact).
Definition demo_products : gmap string simpleStreamProductEntries :=
  {[ "p" := mksimpleStreamProductEntries "" "" "" "" "" "" "" true "24.04"
       {[ "1" := mksimpleStreamsProductVersion "" ""
            {[ "i" := mksimpleStreamsProductItem "" demo_image_path (Sha256_String zero_sha256) 0 ]} ]} ]}.
Definition demo_list_run : ProductItems * gmap string string :=
  extractSupportedUbuntuImages demo_products (None : ProductItems).

Lemma download_list_digests_witness :
  getProductItemDigest demo_list_run.1 demo_image_path = Some (Sha256_String zero_sha256) /\
  exists v, In v supportedVersions /\ HasSuffix demo_image_path ".tar.gz" = true.
Proof.
  assert (Hd : getProductItemDigest demo_list_run.1 demo_image_path = Some (Sha256_String zero_sha256)) by (by vm_compute).
  split; [exact Hd|].
  destruct (download_list_digests (None : ProductItems) demo_list_run.1 demo_products demo_list_run.2
    demo_image_path (Sha256_String zero_sha256)) as [(_ & _ & p & _ & _ & _ & _ & Hs & _ & _ & _ & _ & Hz & _)|[_ H]].
  - exact (surjective_pairing demo_list_run).
  - exact Hd.
  - exists (pe_Version p). split; [exact Hs|exact Hz].
  - by vm_compute in H.
Defined.

Definition demo_download_run : ProductItems * Artifact * option error :=
  SimpleStreamsDownload_InspectArtifact demo_list_run.1 "" demo_image.
Definition demo_rootfs_run : ProductItems * Artifact * option error :=
  Rootfs_InspectArtifact demo_download_run.1.1 "" demo_download_run.1.2.

Lemma rootfs_verified_witness : ResponseApproved demo_rootfs_run.1.2 = true /\
  exists (items : gmap string string) path, items !! path = Some (Sha256_String (Sha256 (Meta demo_rootfs_run.1.2))).
Proof.
  split; [by vm_compute|].
  destruct (rootfs_verified demo_list_run.1 demo_download_run.1.1 demo_rootfs_run.1.1 "" demo_image
    demo_download_run.1.2 demo_rootfs_run.1.2 None None) as (items & path & _ & _ & H);
    [by vm_compute|by vm_compute|by apply triple_eta; vm_compute|by apply triple_eta; vm_compute|by vm_compute|
     by vm_compute|].
  exists items, path. exact H.
Defined.
End LxdDemo.
