(* ===== verification/SnapApi.v ===== *)
(** * The snap store's messages

    [inspectors/snap]: the recognised URLs ([urls.go]) and the inspectors of the store's answers:
    [auth_nonce.go], [auth_requestid.go], [auth_sessions.go], [snap_info.go], [snap_names.go],
    [snap_sections.go] and [snap_refresh.go], which compares the results with the actions the client
    asked for. *)
From stdpp Require Import base gmap strings list option fin_maps.
From Stdlib Require Import ZArith Lia Ascii.
From S2P Require Import Prelude GoStrings GoCodec Platform HttpUtil Json JsonDecode Digests Artifact Net Config.
From S2P Require Import Inspectors InspectorLib Regexp Url.

(** ** URLs *)

Definition reSnapPackage : Regexp :=
  MustCompile "^https://api.snapcraft.io:443/api/v1/snaps/download/([A-Za-z0-9]+)_([0-9]+)\.snap".
Definition reSnapPackageAlt : Regexp :=
  MustCompile "^https://[^/]+\.snapcraftcontent\.com:443/[^?]+/([A-Za-z0-9]+)_([0-9]+)\.snap\?".
Definition reSnapInfo : Regexp := MustCompile "^https://api.snapcraft.io:443/v2/snaps/info/([^?/]+)".
Definition reSnapRefresh : Regexp := MustCompile "^https://api.snapcraft.io:443/v2/snaps/refresh$".

Definition reSnapRevisionAssertion : Regexp :=
  MustCompile "^https://api.snapcraft.io:443/v2/assertions/snap-revision/".
Definition reSnapDeclarationAssertion : Regexp :=
  MustCompile "^https://api.snapcraft.io:443/v2/assertions/snap-declaration/".
Definition reAccountAssertion : Regexp := MustCompile "^https://api.snapcraft.io:443/v2/assertions/account/".
Definition reAccountKeyAssertion : Regexp :=
  MustCompile "^https://api.snapcraft.io:443/v2/assertions/account-key/".
Definition reSerialAssertion : Regexp :=
  MustCompile "^https://api.snapcraft.io:443/api/v1/snaps/auth/devices/?$".

Definition reSnapSections : Regexp := MustCompile "^https://api.snapcraft.io:443/api/v1/snaps/sections$".
Definition reSnapNames : Regexp := MustCompile "^https://api.snapcraft.io:443/api/v1/snaps/names(?:\?.*)?$".
Definition reSnapAuthSessions : Regexp :=
  MustCompile "^https://api.snapcraft.io:443/api/v1/snaps/auth/sessions$".
Definition reSnapAuthNonce : Regexp := MustCompile "^https://api.snapcraft.io:443/api/v1/snaps/auth/nonces$".
Definition reSnapAuthRequestID : Regexp :=
  MustCompile "^https://api.snapcraft.io:443/api/v1/snaps/auth/request-id$".

(** The ID of the snap and the release. *)
Definition newSnapPackageURLInfo (u : ParsedURL) : result (string * string) :=
  let text := ParsedURL_String u in
  match FindStringSubmatch reSnapPackage text with
  | [_; id; release] => Ok (id, release)
  | _ =>
      match FindStringSubmatch reSnapPackageAlt text with
      | [_; id; release] => Ok (id, release)
      | _ => Err (EText (Path u +:+ ": not a valid snap package URL"))
      end
  end.

(** The name. *)
Definition newSnapInfoURLInfo (u : ParsedURL) : result string :=
  match FindStringSubmatch reSnapInfo (ParsedURL_String u) with
  | [_; name] => Ok name
  | _ => Err (EText (Path u +:+ ": not a valid snap info URL"))
  end.

Definition whole_url (rx : Regexp) (what : string) (u : ParsedURL) : result unit :=
  if MatchString rx (ParsedURL_String u) then Ok tt else Err (EText (Path u +:+ ": not a valid " +:+ what +:+ " URL")).

Definition newSnapRefreshURLInfo (u : ParsedURL) : result unit :=
  if MatchString reSnapRefresh (ParsedURL_String u) then Ok tt
  else Err (EText (ParsedURL_String u +:+ ": not a valid snap refresh URL")).
Definition newSnapRevisionAssertionURLInfo : ParsedURL -> result unit :=
  whole_url reSnapRevisionAssertion "snap-revision assertion".
Definition newSnapDeclarationAssertionURLInfo : ParsedURL -> result unit :=
  whole_url reSnapDeclarationAssertion "snap-declaration assertion".
Definition newAccountAssertionURLInfo : ParsedURL -> result unit := whole_url reAccountAssertion "account assertion".
Definition newAccountKeyAssertionURLInfo : ParsedURL -> result unit :=
  whole_url reAccountKeyAssertion "account-key assertion".
Definition newSnapSectionsURLInfo : ParsedURL -> result unit := whole_url reSnapSections "snap sections".
Definition newSnapAuthSessionsURLInfo : ParsedURL -> result unit := whole_url reSnapAuthSessions "auth sessions".
Definition newSnapAuthNonceURLInfo : ParsedURL -> result unit := whole_url reSnapAuthNonce "auth nonce".
Definition newSnapAuthRequestIDURLInfo : ParsedURL -> result unit :=
  whole_url reSnapAuthRequestID "device authentication request-id".
Definition newSnapNamesURLInfo : ParsedURL -> result unit := whole_url reSnapNames "snap names".
Definition newSerialAssertionURLInfo : ParsedURL -> result unit := whole_url reSerialAssertion "serial assertion".

(** ** Messages *)

Record snapAuthNonce := mksnapAuthNonce {
  an_Nonce : string;
}.
Definition zero_snapAuthNonce : snapAuthNonce := mksnapAuthNonce "".
Definition decode_snapAuthNonce : json -> snapAuthNonce -> result snapAuthNonce := decode_struct (fun k v s =>
  if field_is "nonce" k then
    x ← decode_string v (an_Nonce s); Ok (mksnapAuthNonce x)
  else Err unknown_field).

Record snapAuthRequestID := mksnapAuthRequestID {
  ar_RequestID : string;
}.
Definition zero_snapAuthRequestID : snapAuthRequestID := mksnapAuthRequestID "".
Definition decode_snapAuthRequestID : json -> snapAuthRequestID -> result snapAuthRequestID := decode_struct (fun k v s =>
  if field_is "request-id" k then
    x ← decode_string v (ar_RequestID s); Ok (mksnapAuthRequestID x)
  else Err unknown_field).

Record snapAuthSessions := mksnapAuthSessions {
  as_Macaroon : string;
}.
Definition zero_snapAuthSessions : snapAuthSessions := mksnapAuthSessions "".
Definition decode_snapAuthSessions : json -> snapAuthSessions -> result snapAuthSessions := decode_struct (fun k v s =>
  if field_is "macaroon" k then
    x ← decode_string v (as_Macaroon s); Ok (mksnapAuthSessions x)
  else Err unknown_field).

Record snapInfo := mksnapInfo {
  sn_Name : string;
  sn_Title : string;
  sn_Summary : string;
  sn_Publisher : gmap string string;
  sn_SnapID : string;
}.
Definition zero_snapInfo : snapInfo := mksnapInfo "" "" "" ∅ "".
Definition decode_snapInfo : json -> snapInfo -> result snapInfo := decode_struct (fun k v s =>
  if field_is "name" k then
    x ← decode_string v (sn_Name s); Ok (mksnapInfo x (sn_Title s) (sn_Summary s) (sn_Publisher s) (sn_SnapID s))
  else if field_is "title" k then
    x ← decode_string v (sn_Title s); Ok (mksnapInfo (sn_Name s) x (sn_Summary s) (sn_Publisher s) (sn_SnapID s))
  else if field_is "summary" k then
    x ← decode_string v (sn_Summary s); Ok (mksnapInfo (sn_Name s) (sn_Title s) x (sn_Publisher s) (sn_SnapID s))
  else if field_is "publisher" k then
    x ← decode_map "" decode_string v (sn_Publisher s); Ok (mksnapInfo (sn_Name s) (sn_Title s) (sn_Summary s) x (sn_SnapID s))
  else if field_is "snap-id" k then
    x ← decode_string v (sn_SnapID s); Ok (mksnapInfo (sn_Name s) (sn_Title s) (sn_Summary s) (sn_Publisher s) x)
  else Ok s).

Record snapInfoBody := mksnapInfoBody {
  sb_ChannelMap : list (gmap string json);
  sb_Name : string;
  sb_DefaultTrack : string;
  sb_Snap : snapInfo;
  sb_SnapID : string;
}.
Definition zero_snapInfoBody : snapInfoBody := mksnapInfoBody [] "" "" zero_snapInfo "".
Definition decode_snapInfoBody : json -> snapInfoBody -> result snapInfoBody := decode_struct (fun k v s =>
  if field_is "channel-map" k then
    x ← decode_slice ∅ (decode_map JNull decode_any) v (sb_ChannelMap s); Ok (mksnapInfoBody x (sb_Name s) (sb_DefaultTrack s) (sb_Snap s) (sb_SnapID s))
  else if field_is "name" k then
    x ← decode_string v (sb_Name s); Ok (mksnapInfoBody (sb_ChannelMap s) x (sb_DefaultTrack s) (sb_Snap s) (sb_SnapID s))
  else if field_is "default-track" k then
    x ← decode_string v (sb_DefaultTrack s); Ok (mksnapInfoBody (sb_ChannelMap s) (sb_Name s) x (sb_Snap s) (sb_SnapID s))
  else if field_is "snap" k then
    x ← decode_snapInfo v (sb_Snap s); Ok (mksnapInfoBody (sb_ChannelMap s) (sb_Name s) (sb_DefaultTrack s) x (sb_SnapID s))
  else if field_is "snap-id" k then
    x ← decode_string v (sb_SnapID s); Ok (mksnapInfoBody (sb_ChannelMap s) (sb_Name s) (sb_DefaultTrack s) (sb_Snap s) x)
  else Ok s).

Record aliasInfo := mkaliasInfo {
  al_Name : string;
  al_Target : string;
}.
Definition zero_aliasInfo : aliasInfo := mkaliasInfo "" "".
Definition decode_aliasInfo : json -> aliasInfo -> result aliasInfo := decode_struct (fun k v s =>
  if field_is "name" k then
    x ← decode_string v (al_Name s); Ok (mkaliasInfo x (al_Target s))
  else if field_is "target" k then
    x ← decode_string v (al_Target s); Ok (mkaliasInfo (al_Name s) x)
  else Ok s).

Record packageInfo := mkpackageInfo {
  pk_Aliases : list aliasInfo;
  pk_Apps : list string;
  pk_PackageName : string;
  pk_Summary : string;
  pk_Title : string;
  pk_Version : string;
}.
Definition zero_packageInfo : packageInfo := mkpackageInfo [] [] "" "" "" "".
Definition decode_packageInfo : json -> packageInfo -> result packageInfo := decode_struct (fun k v s =>
  if field_is "aliases" k then
    x ← decode_slice zero_aliasInfo decode_aliasInfo v (pk_Aliases s); Ok (mkpackageInfo x (pk_Apps s) (pk_PackageName s) (pk_Summary s) (pk_Title s) (pk_Version s))
  else if field_is "apps" k then
    x ← decode_slice "" decode_string v (pk_Apps s); Ok (mkpackageInfo (pk_Aliases s) x (pk_PackageName s) (pk_Summary s) (pk_Title s) (pk_Version s))
  else if field_is "package-name" k then
    x ← decode_string v (pk_PackageName s); Ok (mkpackageInfo (pk_Aliases s) (pk_Apps s) x (pk_Summary s) (pk_Title s) (pk_Version s))
  else if field_is "summary" k then
    x ← decode_string v (pk_Summary s); Ok (mkpackageInfo (pk_Aliases s) (pk_Apps s) (pk_PackageName s) x (pk_Title s) (pk_Version s))
  else if field_is "title" k then
    x ← decode_string v (pk_Title s); Ok (mkpackageInfo (pk_Aliases s) (pk_Apps s) (pk_PackageName s) (pk_Summary s) x (pk_Version s))
  else if field_is "version" k then
    x ← decode_string v (pk_Version s); Ok (mkpackageInfo (pk_Aliases s) (pk_Apps s) (pk_PackageName s) (pk_Summary s) (pk_Title s) x)
  else Ok s).

Record embeddedInfo := mkembeddedInfo {
  em_PackageList : list packageInfo;
}.
Definition zero_embeddedInfo : embeddedInfo := mkembeddedInfo [].
Definition decode_embeddedInfo : json -> embeddedInfo -> result embeddedInfo := decode_struct (fun k v s =>
  if field_is "clickindex:package" k then
    x ← decode_slice zero_packageInfo decode_packageInfo v (em_PackageList s); Ok (mkembeddedInfo x)
  else Ok s).

Record namesResult := mknamesResult {
  nr_Embedded : embeddedInfo;
}.
Definition zero_namesResult : namesResult := mknamesResult zero_embeddedInfo.
Definition decode_namesResult : json -> namesResult -> result namesResult := decode_struct (fun k v s =>
  if field_is "_embedded" k then
    x ← decode_embeddedInfo v (nr_Embedded s); Ok (mknamesResult x)
  else Ok s).

Record sectionName := mksectionName {
  sc_Name : string;
}.
Definition zero_sectionName : sectionName := mksectionName "".
Definition decode_sectionName : json -> sectionName -> result sectionName := decode_struct (fun k v s =>
  if field_is "name" k then
    x ← decode_string v (sc_Name s); Ok (mksectionName x)
  else Err unknown_field).

Record embedded := mkembedded {
  eb_IndexSections : list sectionName;
}.
Definition zero_embedded : embedded := mkembedded [].
Definition decode_embedded : json -> embedded -> result embedded := decode_struct (fun k v s =>
  if field_is "clickindex:sections" k then
    x ← decode_slice zero_sectionName decode_sectionName v (eb_IndexSections s); Ok (mkembedded x)
  else Err unknown_field).

Record storeSections := mkstoreSections {
  ss_Embedded : embedded;
}.
Definition zero_storeSections : storeSections := mkstoreSections zero_embedded.
Definition decode_storeSections : json -> storeSections -> result storeSections := decode_struct (fun k v s =>
  if field_is "_embedded" k then
    x ← decode_embedded v (ss_Embedded s); Ok (mkstoreSections x)
  else Err unknown_field).

Record snapData := mksnapData {
  dt_Architectures : list string;
  dt_Version : string;
  dt_Revision : Z;
}.
Definition zero_snapData : snapData := mksnapData [] "" 0%Z.
Definition decode_snapData : json -> snapData -> result snapData := decode_struct (fun k v s =>
  if field_is "architectures" k then
    x ← decode_slice "" decode_string v (dt_Architectures s); Ok (mksnapData x (dt_Version s) (dt_Revision s))
  else if field_is "version" k then
    x ← decode_string v (dt_Version s); Ok (mksnapData (dt_Architectures s) x (dt_Revision s))
  else if field_is "revision" k then
    x ← decode_signed 64 v (dt_Revision s); Ok (mksnapData (dt_Architectures s) (dt_Version s) x)
  else Ok s).

Record snapRefreshItem := mksnapRefreshItem {
  it_EffectiveChannel : string;
  it_InstanceKey : string;
  it_Name : string;
  it_ReleasedAt : string;
  it_Result : string;
  it_Snap : snapData;
  it_SnapID : string;
}.
Definition zero_snapRefreshItem : snapRefreshItem := mksnapRefreshItem "" "" "" "" "" zero_snapData "".
Definition decode_snapRefreshItem : json -> snapRefreshItem -> result snapRefreshItem := decode_struct (fun k v s =>
  if field_is "effective-channel" k then
    x ← decode_string v (it_EffectiveChannel s); Ok (mksnapRefreshItem x (it_InstanceKey s) (it_Name s) (it_ReleasedAt s) (it_Result s) (it_Snap s) (it_SnapID s))
  else if field_is "instance-key" k then
    x ← decode_string v (it_InstanceKey s); Ok (mksnapRefreshItem (it_EffectiveChannel s) x (it_Name s) (it_ReleasedAt s) (it_Result s) (it_Snap s) (it_SnapID s))
  else if field_is "name" k then
    x ← decode_string v (it_Name s); Ok (mksnapRefreshItem (it_EffectiveChannel s) (it_InstanceKey s) x (it_ReleasedAt s) (it_Result s) (it_Snap s) (it_SnapID s))
  else if field_is "released-at" k then
    x ← decode_string v (it_ReleasedAt s); Ok (mksnapRefreshItem (it_EffectiveChannel s) (it_InstanceKey s) (it_Name s) x (it_Result s) (it_Snap s) (it_SnapID s))
  else if field_is "result" k then
    x ← decode_string v (it_Result s); Ok (mksnapRefreshItem (it_EffectiveChannel s) (it_InstanceKey s) (it_Name s) (it_ReleasedAt s) x (it_Snap s) (it_SnapID s))
  else if field_is "snap" k then
    x ← decode_snapData v (it_Snap s); Ok (mksnapRefreshItem (it_EffectiveChannel s) (it_InstanceKey s) (it_Name s) (it_ReleasedAt s) (it_Result s) x (it_SnapID s))
  else if field_is "snap-id" k then
    x ← decode_string v (it_SnapID s); Ok (mksnapRefreshItem (it_EffectiveChannel s) (it_InstanceKey s) (it_Name s) (it_ReleasedAt s) (it_Result s) (it_Snap s) x)
  else Ok s).

Record snapRefreshBody := mksnapRefreshBody {
  rb_ErrorList : list json;
  rb_Results : list snapRefreshItem;
}.
Definition zero_snapRefreshBody : snapRefreshBody := mksnapRefreshBody [] [].
Definition decode_snapRefreshBody : json -> snapRefreshBody -> result snapRefreshBody := decode_struct (fun k v s =>
  if field_is "error-list" k then
    x ← decode_slice JNull decode_any v (rb_ErrorList s); Ok (mksnapRefreshBody x (rb_Results s))
  else if field_is "results" k then
    x ← decode_slice zero_snapRefreshItem decode_snapRefreshItem v (rb_Results s); Ok (mksnapRefreshBody (rb_ErrorList s) x)
  else Ok s).

Record snapRefreshAction := mksnapRefreshAction {
  ac_Action : string;
  ac_Channel : string;
  ac_InstanceKey : string;
  ac_Name : string;
  ac_SnapID : string;
}.
Definition zero_snapRefreshAction : snapRefreshAction := mksnapRefreshAction "" "" "" "" "".
Definition decode_snapRefreshAction : json -> snapRefreshAction -> result snapRefreshAction := decode_struct (fun k v s =>
  if field_is "action" k then
    x ← decode_string v (ac_Action s); Ok (mksnapRefreshAction x (ac_Channel s) (ac_InstanceKey s) (ac_Name s) (ac_SnapID s))
  else if field_is "channel" k then
    x ← decode_string v (ac_Channel s); Ok (mksnapRefreshAction (ac_Action s) x (ac_InstanceKey s) (ac_Name s) (ac_SnapID s))
  else if field_is "instance-key" k then
    x ← decode_string v (ac_InstanceKey s); Ok (mksnapRefreshAction (ac_Action s) (ac_Channel s) x (ac_Name s) (ac_SnapID s))
  else if field_is "name" k then
    x ← decode_string v (ac_Name s); Ok (mksnapRefreshAction (ac_Action s) (ac_Channel s) (ac_InstanceKey s) x (ac_SnapID s))
  else if field_is "snap-id" k then
    x ← decode_string v (ac_SnapID s); Ok (mksnapRefreshAction (ac_Action s) (ac_Channel s) (ac_InstanceKey s) (ac_Name s) x)
  else Ok s).

Record snapRefreshRequestBody := mksnapRefreshRequestBody {
  qb_Actions : list snapRefreshAction;
}.
Definition zero_snapRefreshRequestBody : snapRefreshRequestBody := mksnapRefreshRequestBody [].
Definition decode_snapRefreshRequestBody : json -> snapRefreshRequestBody -> result snapRefreshRequestBody := decode_struct (fun k v s =>
  if field_is "actions" k then
    x ← decode_slice zero_snapRefreshAction decode_snapRefreshAction v (qb_Actions s); Ok (mksnapRefreshRequestBody x)
  else Ok s).

(** ** The inspectors *)

Definition titled (type name description contentID : string) : ArtifactMetadata :=
  mkArtifactMetadata type name "" "" description "" "" "" "" "" "" "" "" contentID.

Section SnapApi.
Context `{ML : MimeLib} {IS : Type}.

(** *** Authentication *)

(** The three answers with one text that must not be empty. *)
Definition inspect_secret {A} (id reason : string) (md : ArtifactMetadata) (dec : json -> A -> result A)
    (zero : A) (get : A -> string) (st : IS) (data : string) (a : Artifact) : IS * Artifact * option error :=
  if negb (MimetypeIs a "application/json") then (st, a, None)
  else if negb (InspectorRequestOpinionPending id a) then (st, a, None)
  else
    match json_Decode dec zero data with
    | Err _ => (st, a, None)
    | Ok d => if String.eqb (get d) "" then (st, a, None) else (st, SetResponseApproved id reason md a, None)
    end.

Definition auth_nonce_id : string := "snap.auth-nonce".
Definition SnapAuthNonceInspector : Inspector (IS := IS) :=
  mkInspector auth_nonce_id
    (url_request (fun u => Some (newSnapAuthNonceURLInfo u))
       (fun _ => SetRequestPending auth_nonce_id "valid URL for snapd authentication nonce"))
    (inspect_secret auth_nonce_id "valid format for snapd authentication nonce"
       (titled "application/x.canonical.snapd-auth-nonce" "Authentication nonce" "Snapd authentication nonce" "")
       decode_snapAuthNonce zero_snapAuthNonce an_Nonce).

Definition auth_requestid_id : string := "snap.auth-request-id".
Definition SnapAuthRequestIDInspector : Inspector (IS := IS) :=
  mkInspector auth_requestid_id
    (url_request (fun u => Some (newSnapAuthRequestIDURLInfo u))
       (fun _ => SetRequestPending auth_requestid_id "valid URL for snapd device authentication request ID"))
    (inspect_secret auth_requestid_id "valid format for snapd device authentication request ID"
       (titled "application/x.canonical.snapd-auth-request-id" "Device authentication request ID"
          "Snapd device authentication request ID" "")
       decode_snapAuthRequestID zero_snapAuthRequestID ar_RequestID).

Definition auth_sessions_id : string := "snap.auth-sessions".
Definition SnapAuthSessionsInspector : Inspector (IS := IS) :=
  mkInspector auth_sessions_id
    (url_request (fun u => Some (newSnapAuthSessionsURLInfo u))
       (fun _ => SetRequestPending auth_sessions_id "valid URL for snapd session authentication"))
    (inspect_secret auth_sessions_id "valid format for snapd session authentication"
       (titled "application/x.canonical.snapd-auth-sessions" "Session authentication" "Snapd session authentication" "")
       decode_snapAuthSessions zero_snapAuthSessions as_Macaroon).

(** *** Information *)

Definition snap_info_id : string := "snap.info".

(** The version of the first channel is anything but an empty text, also if it is missing. *)
Definition has_version (l : list (gmap string json)) : bool :=
  match l with
  | [] => false
  | c :: _ => match c !! "version" with Some (JStr raw) => negb (String.eqb (json_unescape raw) "") | _ => true end
  end.

Definition SnapInfo_InspectArtifact (st : IS) (data : string) (a : Artifact) : IS * Artifact * option error :=
  if negb (MimetypeIs a "application/json") then (st, a, None)
  else
    match json_Decode decode_snapInfoBody zero_snapInfoBody data with
    | Err _ => (st, a, None)
    | Ok b =>
        if has_version (sb_ChannelMap b) && negb (String.eqb (sb_Name b) "") && negb (String.eqb (sb_SnapID b) "") then
          (st, AnnotateResponse snap_info_id
                 (<["name" := AStr (sb_Name b)]> (<["snap-id" := AStr (sb_SnapID b)]>
                   {[ "publisher" := AStr (default "" (sn_Publisher (sb_Snap b) !! "display-name")) ]}))
                 (SetResponseApproved snap_info_id "valid snap API info endpoint response"
                    (titled "application/x.canonical.snap-info" "Store protocol response"
                       "Snap store response for info request" "") a), None)
        else (st, a, None)
    end.

Definition SnapInfoInspector : Inspector (IS := IS) :=
  mkInspector snap_info_id
    (url_request (fun u => Some (newSnapInfoURLInfo u)) (fun name a =>
       AnnotateRequest snap_info_id {[ "name" := AStr name ]}
         (SetRequestPending snap_info_id "valid URL for snap info endpoint" a)))
    SnapInfo_InspectArtifact.

(** *** Lists *)

(** The two answers with a list that must not be empty. *)
Definition inspect_list {A B} (id reason : string) (md : ArtifactMetadata) (dec : json -> A -> result A)
    (zero : A) (get : A -> list B) (st : IS) (data : string) (a : Artifact) : IS * Artifact * option error :=
  if negb (MimetypeIs a "application/json") then (st, a, None)
  else if negb (InspectorRequestOpinionPending id a) then (st, a, None)
  else
    match json_Decode dec zero data with
    | Err _ => (st, a, None)
    | Ok d =>
        match get d with
        | [] => (st, a, None)
        | l => (st, AnnotateResponse id {[ "entries" := AInt (Z.of_nat (List.length l)) ]}
                      (SetResponseApproved id reason md a), None)
        end
    end.

Definition snap_names_id : string := "snap.names".
Definition SnapNamesInspector : Inspector (IS := IS) :=
  mkInspector snap_names_id
    (url_request (fun u => Some (newSnapNamesURLInfo u))
       (fun _ => SetRequestPending snap_names_id "valid URL for Snap package names list"))
    (inspect_list snap_names_id "valid Snap package names list"
       (titled "application/x.canonical.snap-names" "Snap names list" "List of Snap package names" "")
       decode_namesResult zero_namesResult (fun d => em_PackageList (nr_Embedded d))).

Definition snap_sections_id : string := "snap.sections".
Definition SnapSectionsInspector : Inspector (IS := IS) :=
  mkInspector snap_sections_id
    (url_request (fun u => Some (newSnapSectionsURLInfo u))
       (fun _ => SetRequestPending snap_sections_id "valid URL for Snap Store sections list"))
    (inspect_list snap_sections_id "valid Snap Store sections list"
       (titled "application/x.canonical.snap-sections" "Snap sections list" "List of Snap Store sections" "")
       decode_storeSections zero_storeSections (fun d => eb_IndexSections (ss_Embedded d))).
End SnapApi.
