(* ===== verification/SnapRefresh.v ===== *)
(** * Snap refresh requests and answers

    [inspectors/snap/snap_refresh.go]: the actions a client asks for are kept with the request, and the
    results the store gives are compared with them. *)
From stdpp Require Import base gmap strings list option fin_maps.
From Stdlib Require Import ZArith Lia Ascii.
From S2P Require Import Prelude GoStrings GoCodec Platform HttpUtil Json JsonDecode Digests Artifact Net Config.
From S2P Require Import Inspectors InspectorLib Regexp Url SnapApi.

Section SnapRefresh.
Context `{ML : MimeLib} {IS : Type}.

(** ** Requests *)

(** The actions as an annotation; empty fields are left out. *)
Definition text_field (key s : string) : list (string * AnyVal) :=
  if String.eqb s "" then [] else [(key, AStr s)].
Definition action_any (x : snapRefreshAction) : AnyVal :=
  AMap (text_field "action" (ac_Action x) ++ text_field "channel" (ac_Channel x) ++
        text_field "instance-key" (ac_InstanceKey x) ++ text_field "name" (ac_Name x) ++
        text_field "snap-id" (ac_SnapID x)).
Definition actions_any (l : list snapRefreshAction) : AnyVal := AList (map action_any l).

Fixpoint field_of (key : string) (m : list (string * AnyVal)) : string :=
  match m with
  | [] => ""
  | (k, v) :: m' => if String.eqb k key then default "" (as_string v) else field_of key m'
  end.
Definition any_action (v : AnyVal) : option snapRefreshAction :=
  match v with
  | AMap m => Some (mksnapRefreshAction (field_of "action" m) (field_of "channel" m) (field_of "instance-key" m)
                      (field_of "name" m) (field_of "snap-id" m))
  | _ => None
  end.
(** The type assertion on the annotation. *)
Definition any_actions (v : AnyVal) : option (list snapRefreshAction) :=
  match v with AList l => mapM any_action l | _ => None end.

(** Reads the body of the request, puts it back and corrects the length. *)
Definition restore_body (body : string) (q : HttpRequest) : HttpRequest :=
  mkHttpRequest (Method q) (ReqURL q) (ReqHeader q) (Some (mkBody body None))
    (if (0 <=? ContentLength q)%Z then Z.of_nat (String.length body) else ContentLength q)
    (TransferEncoding q) (RemoteAddr q) (LocalAddr q).

Definition getSnapRefreshActions (a : Artifact) : Artifact * list snapRefreshAction :=
  match HTTPRequest a with
  | None => (a, [])
  | Some q =>
      match ReqBody q with
      | None => (a, [])
      | Some body =>
          (set_Request (Some (restore_body (body_data body) q)) a,
           match body_err body with
           | Some _ => []
           | None =>
               match (j ← json_parse (body_data body); decode_snapRefreshRequestBody j zero_snapRefreshRequestBody) with
               | Err _ => []
               | Ok b => qb_Actions b
               end
           end)
      end
  end.

Definition snap_refresh_id : string := "snap.refresh".

Definition SnapRefresh_InspectRequest (st : IS) (a : Artifact) : IS * Artifact * option error :=
  match Parse (DownloadURL a) with
  | Err err => (st, a, Some (EText ("cannot parse URL: " +:+ error_string err)))
  | Ok u =>
      match newSnapRefreshURLInfo u with
      | Err _ => (st, a, None)
      | Ok _ =>
          let '(a, actions) := getSnapRefreshActions a in
          let a := SetRequestPending snap_refresh_id "valid URL for snap refresh endpoint" a in
          (st, match actions with
               | [] => a
               | _ => AnnotateRequest snap_refresh_id {[ "refresh-actions" := actions_any actions ]} a
               end, None)
      end
  end.

(** ** Answers *)

Definition snapRefreshActionsByInstanceKey (actions : list snapRefreshAction) : gmap string snapRefreshAction :=
  fold_left (fun m x => if String.eqb (ac_InstanceKey x) "" then m else <[ac_InstanceKey x := x]> m) actions ∅.

(** The channel the client tracks, or why the result does not fit the actions. *)
Definition check_result (actions : gmap string snapRefreshAction) (r : snapRefreshItem) : string + string :=
  if bool_decide (actions = ∅) then inl ""
  else
    match actions !! it_InstanceKey r with
    | None =>
        if negb (String.eqb (it_Result r) "download") then
          inr ("unexpected instance-key " +:+ Quote (it_InstanceKey r) +:+ " for " +:+ it_Result r +:+ " result")
        else inl ""
    | Some action =>
        if String.eqb (ac_Action action) "refresh" && negb (String.eqb (it_Result r) "refresh") then
          inr ("unexpected " +:+ it_Result r +:+ " result for refresh action " +:+ Quote (it_InstanceKey r))
        else if negb (String.eqb (ac_Action action) "") && negb (String.eqb (ac_Action action) "refresh") &&
                String.eqb (it_Result r) "refresh" then
          inr ("unexpected refresh result for " +:+ ac_Action action +:+ " action " +:+ Quote (it_InstanceKey r))
        else if negb (String.eqb (ac_SnapID action) "") && negb (String.eqb (it_SnapID r) "") &&
                negb (String.eqb (ac_SnapID action) (it_SnapID r)) then
          inr ("refresh result snap-id does not match request action with instance-key " +:+ Quote (it_InstanceKey r))
        else inl (ac_Channel action)
    end.

Definition result_any (channel : string) (r : snapRefreshItem) : AnyVal :=
  AMap [("tracking-channel", AStr channel); ("effective-channel", AStr (it_EffectiveChannel r));
        ("release-timestamp", AStr (it_ReleasedAt r)); ("result", AStr (it_Result r));
        ("snap-name", AStr (it_Name r)); ("snap-id", AStr (it_SnapID r));
        ("snap-revision", AInt (dt_Revision (it_Snap r))); ("snap-version", AStr (dt_Version (it_Snap r)));
        ("architectures", AStrs (dt_Architectures (it_Snap r)))].

(** The loop over the results, up to the first that does not fit. *)
Fixpoint check_results (actions : gmap string snapRefreshAction) (l : list snapRefreshItem) (acc : list AnyVal) :
    list AnyVal + string :=
  match l with
  | [] => inl acc
  | r :: l' =>
      match check_result actions r with
      | inr reason => inr reason
      | inl channel => check_results actions l' (acc ++ [result_any channel r])
      end
  end.

Definition requested_actions (a : Artifact) : list snapRefreshAction :=
  match RequestAnnotation a snap_refresh_id "refresh-actions" with
  | Some v => default [] (any_actions v)
  | None => []
  end.

Definition SnapRefresh_InspectArtifact (st : IS) (data : string) (a : Artifact) : IS * Artifact * option error :=
  if negb (MimetypeIs a "application/json") then (st, a, None)
  else
    match json_Decode decode_snapRefreshBody zero_snapRefreshBody data with
    | Err _ => (st, a, None)
    | Ok b =>
        match rb_Results b with
        | [] => (st, a, None)
        | first :: rest =>
            if String.eqb (it_EffectiveChannel first) "" || String.eqb (it_Name first) "" ||
               String.eqb (it_SnapID first) "" then (st, a, None)
            else
              let md := titled "application/x.canonical.snap-refresh" "Store protocol response"
                          "Snap store response for refresh request"
                          (match rest with
                           | [] => it_EffectiveChannel first +:+ ":" +:+ Itoa (dt_Revision (it_Snap first))
                           | _ => ""
                           end) in
              match check_results (snapRefreshActionsByInstanceKey (requested_actions a)) (first :: rest) [] with
              | inr reason => (st, SetResponseRejected snap_refresh_id reason md a, None)
              | inl results =>
                  (st, AnnotateResponse snap_refresh_id {[ "refresh-results" := AList results ]}
                         (SetResponseApproved snap_refresh_id "valid snap API refresh endpoint response" md a), None)
              end
        end
    end.

Definition SnapRefreshInspector : Inspector (IS := IS) :=
  mkInspector snap_refresh_id SnapRefresh_InspectRequest SnapRefresh_InspectArtifact.

(** ** Keeping to the interface *)

Lemma inspect_secret_frame {A} id reason md (dec : json -> A -> result A) zero get st data a (st' : IS) a' e :
  inspect_secret id reason md dec zero get st data a = (st', a', e) -> response_frame id a a'.
Proof. unfold inspect_secret. solve_frame. Qed.
Lemma inspect_list_frame {A B} id reason md (dec : json -> A -> result A) zero (get : A -> list B) st data a (st' : IS) a' e :
  inspect_list id reason md dec zero get st data a = (st', a', e) -> response_frame id a a'.
Proof. unfold inspect_list. solve_frame. Qed.

#[export] Instance SnapAuthNonce_laws : InspectorLaws (SnapAuthNonceInspector (IS := IS)).
Proof.
  split; simpl; intros *; [apply url_request_frame; auto with frames|apply inspect_secret_frame].
Qed.
#[export] Instance SnapAuthRequestID_laws : InspectorLaws (SnapAuthRequestIDInspector (IS := IS)).
Proof.
  split; simpl; intros *; [apply url_request_frame; auto with frames|apply inspect_secret_frame].
Qed.
#[export] Instance SnapAuthSessions_laws : InspectorLaws (SnapAuthSessionsInspector (IS := IS)).
Proof.
  split; simpl; intros *; [apply url_request_frame; auto with frames|apply inspect_secret_frame].
Qed.
#[export] Instance SnapNames_laws : InspectorLaws (SnapNamesInspector (IS := IS)).
Proof. split; simpl; intros *; [apply url_request_frame; auto with frames|apply inspect_list_frame]. Qed.
#[export] Instance SnapSections_laws : InspectorLaws (SnapSectionsInspector (IS := IS)).
Proof. split; simpl; intros *; [apply url_request_frame; auto with frames|apply inspect_list_frame]. Qed.
#[export] Instance SnapInfo_laws : InspectorLaws (SnapInfoInspector (IS := IS)).
Proof.
  split; simpl; intros *; [apply url_request_frame; auto with frames|].
  unfold SnapInfo_InspectArtifact. solve_frame.
Qed.
Lemma getSnapRefreshActions_frame a : request_frame snap_refresh_id a (getSnapRefreshActions a).1.
Proof.
  unfold getSnapRefreshActions, HTTPRequest. destruct (Request a) as [q|] eqn:Eq; [|apply request_frame_refl].
  destruct (ReqBody q); [|apply request_frame_refl]. by apply (set_Request_frame _ q), request_frame_refl.
Qed.
#[export] Instance SnapRefresh_laws : InspectorLaws SnapRefreshInspector.
Proof.
  split; simpl.
  - unfold SnapRefresh_InspectRequest. intros st a st' a' e. pose proof (getSnapRefreshActions_frame a) as H.
    destruct (getSnapRefreshActions a) as [a1 actions]. solve_frame.
  - unfold SnapRefresh_InspectArtifact. solve_frame.
Qed.

(** ** Properties *)

Lemma any_actions_any l : any_actions (actions_any l) = Some l.
Proof.
  unfold any_actions, actions_any. induction l as [|[a c i n s] l IH]; [done|].
  simpl. rewrite IH. clear IH. unfold text_field. simpl.
  destruct (String.eqb_spec a ""), (String.eqb_spec c ""), (String.eqb_spec i ""), (String.eqb_spec n ""),
    (String.eqb_spec s ""); subst; done.
Qed.

(** What the actions say about a result. *)
Definition fits (actions : gmap string snapRefreshAction) (r : snapRefreshItem) : Prop :=
  actions = ∅ \/
  match actions !! it_InstanceKey r with
  | None => it_Result r = "download"
  | Some x => (ac_Action x = "refresh" -> it_Result r = "refresh") /\
              (it_Result r = "refresh" -> ac_Action x = "" \/ ac_Action x = "refresh") /\
              (ac_SnapID x <> "" -> it_SnapID r <> "" -> ac_SnapID x = it_SnapID r)
  end.

Lemma check_result_fits actions r : (exists c, check_result actions r = inl c) <-> fits actions r.
Proof.
  unfold check_result, fits. case_bool_decide as He; [naive_solver|].
  destruct (actions !! it_InstanceKey r) as [x|].
  - destruct (String.eqb_spec (ac_Action x) "refresh"), (String.eqb_spec (it_Result r) "refresh"),
      (String.eqb_spec (ac_Action x) ""), (String.eqb_spec (ac_SnapID x) ""), (String.eqb_spec (it_SnapID r) ""),
      (String.eqb_spec (ac_SnapID x) (it_SnapID r)); simpl; naive_solver.
  - destruct (String.eqb_spec (it_Result r) "download"); simpl; naive_solver.
Qed.

Lemma check_results_fit actions l acc :
  (exists t, check_results actions l acc = inl t) <-> Forall (fits actions) l.
Proof.
  revert acc. induction l as [|r l IH]; intros acc; simpl.
  - split; [done|eauto].
  - rewrite Forall_cons, <- check_result_fits. destruct (check_result actions r); [rewrite IH|]; naive_solver.
Qed.

(** The actions of a refresh request reach the inspection of the answer: the answer is approved exactly if
    every result fits them, and rejected otherwise; the request goes on with the body it had. *)
Theorem refresh_checked : forall (st st1 : IS) a a1 u q body b data,
  Parse (DownloadURL a) = Ok u -> newSnapRefreshURLInfo u = Ok tt ->
  HTTPRequest a = Some q -> ReqBody q = Some (mkBody body None) ->
  (j ← json_parse body; decode_snapRefreshRequestBody j zero_snapRefreshRequestBody) = Ok b ->
  SnapRefresh_InspectRequest st a = (st1, a1, None) ->
  (exists q', Request a1 = Some q' /\ ReqBody q' = Some (mkBody body None)) /\
  forall a2 d first rest, RequestInspection a2 = RequestInspection a1 ->
    MimetypeIs a2 "application/json" = true ->
    json_Decode decode_snapRefreshBody zero_snapRefreshBody data = Ok d -> rb_Results d = first :: rest ->
    it_EffectiveChannel first <> "" -> it_Name first <> "" -> it_SnapID first <> "" ->
    exists a3, SnapRefresh_InspectArtifact st1 data a2 = (st1, a3, None) /\
      (response_opinion snap_refresh_id a3 = Some Approved <->
         Forall (fits (snapRefreshActionsByInstanceKey (qb_Actions b))) (first :: rest)) /\
      (response_opinion snap_refresh_id a3 = Some Approved \/ response_opinion snap_refresh_id a3 = Some Rejected).
Proof.
  intros st st1 a a1 u q body b data Hu Hi Hq Hb Hj H.
  unfold SnapRefresh_InspectRequest in H. rewrite Hu, Hi in H.
  unfold getSnapRefreshActions in H. rewrite Hq, Hb in H. cbn [body_err body_data] in H. rewrite Hj in H.
  injection H as <- <-.
  split; [by destruct (qb_Actions b); eexists|].
  intros a2 d first rest Hr Hm Hd Hl Hc Hn Hs. unfold SnapRefresh_InspectArtifact. rewrite Hm, Hd, Hl. cbn [negb].
  destruct (String.eqb_spec (it_EffectiveChannel first) ""), (String.eqb_spec (it_Name first) ""),
    (String.eqb_spec (it_SnapID first) ""); try done. cbn [orb].
  assert (Ha : requested_actions a2 = qb_Actions b).
  { unfold requested_actions, RequestAnnotation, inspectionAnnotation. rewrite Hr.
    destruct (qb_Actions b) as [|x l] eqn:Eb.
    - by rewrite (proj1 (SetRequest_lookup _ _ _)).
    - rewrite (AnnotateRequest_lookup _ _ _ _ (proj1 (SetRequest_lookup _ _ _))). cbn [Inspection_Annotate Annotations].
      rewrite lookup_union, lookup_singleton_eq, lookup_empty. cbn [union option_union option_union_with default].
      change (as_any (actions_any (x :: l))) with (Some (actions_any (x :: l))).
      exact (f_equal (default []) (any_actions_any (x :: l))). }
  rewrite Ha. pose proof (check_results_fit (snapRefreshActionsByInstanceKey (qb_Actions b)) (first :: rest) []) as Hf.
  destruct (check_results _ _ _); (eexists; split; [done|]); autorewrite with opinions; naive_solver.
Qed.
End SnapRefresh.

(** ** Witnesses *)

Section RefreshDemo.
#[local] Existing Instance text_mime.

Definition demo_refresh_body : string :=
  double_quotes "{'actions': [{'action': 'refresh', 'instance-key': 'k', 'channel': 'edge', 'snap-id': 'id1'}]}".
Definition demo_refresh_answer : string := double_quotes
  "{'results': [{'effective-channel': 'edge', 'instance-key': 'k', 'name': 'hello', 'result': 'refresh', 'snap-id': 'id1', 'snap': {'revision': 5}}]}".
Definition demo_refresh_url : string := "https://api.snapcraft.io:443/v2/snaps/refresh".
Definition demo_refresh_request : HttpRequest :=
  mkHttpRequest "POST" (mkURL "https" "api.snapcraft.io:443" "/v2/snaps/refresh" "") ∅
    (Some (mkBody demo_refresh_body None)) 10 [] "" None.
Definition demo_refresh : Artifact :=
  set_Meta (mkMetadata "application/json" zero_sha1 zero_sha256 0 "" "" "" "" "" "" "" "" "" "" "" "" "")
    (set_Request (Some demo_refresh_request)
      (set_CurrentDownload (mkDownload zero_time zero_time "POST" demo_refresh_url "" "" ∅ 0 "" "" ∅ zero_sha256)
         NewArtifact)).
Definition demo_refresh_run : unit * Artifact * option error := SnapRefresh_InspectRequest tt demo_refresh.
Definition ok_or {A} (d : A) (r : result A) : A := match r with Ok x => x | Err _ => d end.

Lemma refresh_checked_witness : exists a3,
  SnapRefresh_InspectArtifact tt demo_refresh_answer demo_refresh_run.1.2 = (tt, a3, None) /\
  response_opinion snap_refresh_id a3 = Some Approved.
Proof.
  destruct (refresh_checked tt tt demo_refresh demo_refresh_run.1.2
    (ok_or (mkParsedURL (mkURL "" "" "" "") "" None "" false false "" "") (Parse demo_refresh_url))
    demo_refresh_request demo_refresh_body
    (ok_or zero_snapRefreshRequestBody
       (j ← json_parse demo_refresh_body; decode_snapRefreshRequestBody j zero_snapRefreshRequestBody))
    demo_refresh_answer) as [_ H]; [by vm_compute..|].
  destruct (H demo_refresh_run.1.2
    (ok_or zero_snapRefreshBody (json_Decode decode_snapRefreshBody zero_snapRefreshBody demo_refresh_answer))
    (mksnapRefreshItem "edge" "k" "hello" "" "refresh" (mksnapData [] "" 5) "id1") [])
    as (a3 & E & Ha & _); [by vm_compute..|].
  exists a3. split; [exact E|]. apply Ha. clear E Ha H. constructor; [|done].
  right. vm_compute. repeat split; auto.
Defined.
End RefreshDemo.
