(* ===== verification/Assertion.v ===== *)
(** * Snap assertions

    [inspectors/snap/assertion.go], [inspectors/snap/utils.go] and the downloads of
    [inspectors/snap/snap.go]: the text form of assertions and the check of their signatures along a chain
    of account keys that ends at the root key of Canonical. HTTP and OpenPGP are parameters. *)
From stdpp Require Import base gmap strings list option fin_maps.
From Stdlib Require Import ZArith Lia Ascii.
From S2P Require Import Prelude GoStrings GoCodec Platform OpenPgp.

Definition nlnl : string := String nl (str1 nl).

(** The root account and key are part of the program. *)
Definition encodedCanonicalAccount : string := "type: account
authority-id: canonical
account-id: canonical
display-name: Canonical
timestamp: 2016-04-01T00:00:00.0Z
username: canonical
validation: certified
sign-key-sha3-384: -CvQKAwRQ5h3Ffn10FILJoEZUXOv6km9FwA80-Rcj-f-6jadQ89VRswHNiEB9Lxk

AcLDXAQAAQoABgUCV7UYzwAKCRDUpVvql9g3IK7uH/4udqNOurx5WYVknzXdwekp0ovHCQJ0iBPw
TSFxEVr9faZSzb7eqJ1WicHsShf97PYS3ClRYAiluFsjRA8Y03kkSVJHjC+sIwGFubsnkmgflt6D
WEmYIl0UBmeaEDS8uY4Xvp9NsLTzNEj2kvzy/52gKaTc1ZSl5RDL9ppMav+0V9iBYpiDPBWH2rJ+
aDSD8Rkyygm0UscfAKyDKH4lrvZ0WkYyi1YVNPrjQ/AtBySh6Q4iJ3LifzKa9woIyAuJET/4/FPY
oirqHAfuvNod36yNQIyNqEc20AvTvZNH0PSsg4rq3DLjIPzv5KbJO9lhsasNJK1OdL6x8Yqrdsbk
ldZp4qkzfjV7VOMQKaadfcZPRaVVeJWOBnBiaukzkhoNlQi1sdCdkBB/AJHZF8QXw6c7vPDcfnCV
1lW7ddQ2p8IsJbT6LzpJu3GW/P4xhNgCjtCJ1AJm9a9RqLwQYgdLZwwDa9iCRtqTbRXBlfy3apps
1VjbQ3h5iCd0hNfwDBnGVm1rhLKHCD1DUdNE43oN2ZlE7XGyh0HFV6vKlpqoW3eoXCIxWu+HBY96
+LSl/jQgCkb0nxYyzEYK4Reb31D0mYw1Nji5W+MIF5E09+DYZoOT0UvR05YMwMEOeSdI/hLWg/5P
k+GDK+/KopMmpd4D1+jjtF7ZvqDpmAV98jJGB2F88RyVb4gcjmFFyTi4Kv6vzz/oLpbm0qrizC0W
HLGDN/ymGA5sHzEgEx7U540vz/q9VX60FKqL2YZr/DcyY9GKX5kCG4sNqIIHbcJneZ4frM99oVDu
7Jv+DIx/Di6D1ULXol2XjxbbJLKHFtHksR97ceaFvcZwTogC61IYUBJCvvMoqdXAWMhEXCr0QfQ5
Xbi31XW2d4/lF/zWlAkRnGTzufIXFni7+nEuOK0SQEzO3/WaRedK1SGOOtTDjB8/3OJeW96AUYK5
oTIynkYkEyHWMNCXALg+WQW6L4/YO7aUjZ97zOWIugd7Xy63aT3r/EHafqaY2nacOhLfkeKZ830b
o/ezjoZQAxbh6ce7JnXRgE9ELxjdAhBTpGjmmmN2sYrJ7zP9bOgly0BnEPXGSQfFA+NNNw1FADx1
MUY8q9DBjmVtgqY+1KGTV5X8KvQCBMODZIf/XJPHdCRAHxMd8COypcwgL2vDIIXpOFbi1J/B0GF+
eklxk9wzBA8AecBMCwCzIRHDNpD1oa2we38bVFrOug6e/VId1k1jYFJjiLyLCDmV8IMYwEllHSXp
LQAdm3xZ7t4WnxYC8YSCk9mXf3CZg59SpmnV5Q5Z6A5Pl7Nc3sj7hcsMBZEsOMPzNC9dPsBnZvjs
WpPUffJzEdhHBFhvYMuD4Vqj6ejUv9l3oTrjQWVC
".
Definition encodedCanonicalRootAccountKey : string := "type: account-key
authority-id: canonical
revision: 2
public-key-sha3-384: -CvQKAwRQ5h3Ffn10FILJoEZUXOv6km9FwA80-Rcj-f-6jadQ89VRswHNiEB9Lxk
account-id: canonical
name: root
since: 2016-04-01T00:00:00.0Z
body-length: 1406
sign-key-sha3-384: -CvQKAwRQ5h3Ffn10FILJoEZUXOv6km9FwA80-Rcj-f-6jadQ89VRswHNiEB9Lxk

AcbDTQRWhcGAASAA4Zdo3CVpKmTecjd3VDBiFbZTKKhcG0UV3FXxyGIe2UsdnJIks4NkVYO+qYk0
zW26Svpa5OIOJGO2NcgN9bpCYWZOufO1xTmC7jW/fEtqJpX8Kcq20+X5AarqJ5RBVnGLrlz+ZT99
aHdRZ4YQ2XUZvhbelzWTdK5+2eMSXNrFjO6WwGh9NRekE/NIBNwvULAtJ5nv1KwZaSpZ+klJrstU
EHPhs+NGGm1Aru01FFl3cWUm5Ao8i9y+pFcPoaRatgtpYU8mg9gP594lvyJqjFofXvHPwztmySqf
FVAp4gLLfLvRxbXkOfPUz8guidqvg6r4DUD+kCBjKYoT44PjK6l51MzEL2IEy6jdnFTgjHbaYML8
/5NpuPu8XiSjCpOTeNR+XKzXC2tHRU7j09Xd44vKRhPk0Hc4XsPNBWqfrcbdWmwsFhjfxFDJajOq
hzWVoiRc5opB5socbRjLf+gYtncxe99oC2FDA2FcftlFoyztho0bAzeFer1IHJIMYWxKMESjvJUE
pnMMKpIMYY0QfWEo5hXR0TaT+NxW2Z9Jqclgyw13y5iY72ZparHS66J+C7dxCEOswlw1ypNic6MM
/OzpafIQ10yAT3HeRCJQQOOSSTaold+WpWsQweYCywPcu9S+wCo6CrPzJCCIxOAnXjLYv2ykTJje
pNJ2+GZ1WH2UeJdJ5sR8fpxxRupqHuEKNRZ+2CqLmFC5kHNszoGolLEvGcK4BJciO4KihnKtxrdX
dUJIOPBLktA8XiiHSOmLzs2CFjcvlDuPSpe64HIL5yCxO1/GRux4A1Kht1+DqTrL7DjyIW+vIPro
A1PQwkcAJyScNRxT4bPpUj8geAXWd3n212W+7QVHuQEFezvXC5GbMyR+Xj47FOFcFcSZID1hTZEu
uMD+AxaBHQKwPfBx1arVKE1OhkuKHeSFtZRP8K8l3qj5W0sIxxIW19W8aziu8ZeDMT+nIEJrJvhx
zGEdxwCrp3k2/93oDV7g+nb1ZGfIhtmcrKziijghzPLaYaiM9LggqwTARelk3xSzd8+uk3LPXuVl
fP8/xHApss6sCE3xk4+F3OGbL7HbGuCnoulf795XKLRTy+xU/78piOMNJJQu+G0lMZIO3cZrP6io
MYDa+jDZw4V4fBRWce/FA3Ot1eIDxCq5v+vfKw+HfUlWcjm6VUQIFZYbK+Lzj6mpXn81BugG3d+M
0WNFObXIrUbhnKcYkus3TSJ9M1oMEIMp0WfFGAVTd61u36fdi2e+/xbLN0kbYcFRZwd9CmtEeDZ0
eYx/pvKKaNz/DfUr0piVCRwxuxQ0kVppklHPO4sOTFZUId8KLHg28LbszvupSsHP/nHlW8l5/VK6
4+KxRV2XofsUnwARAQAB

AcLDXAQAAQoABgUCV83kkgAKCRDUpVvql9g3IA9hIADAkn4VXnJIFblhMSBe6hbTy7z6AfOhZxXR
Ds/mHsiWfFT6ifGi9SpZowhRX+ff57YvFCjlBqMYLKYE0NsFQYEUc5uBWiFZwC0ENydNhO23DV1B
elTSs6mr9duPm1eJAozFrQETOD1kz5BIamqBUeaTczjM+9l5i485Ffknbc+EaGOrtMEap0GqjByQ
u+ykZGvryVQ447avgjvFsMtA0quFi+SoW9PT/9D26e5rD7RIICYWG8mzFRn5Isqs/X4W1uAiKQe9
pqHMbdNr/FCWX5ws0/nMaOq+b0z4EIIXIfT0JmIlFDQsAgFVnKwYw+zs32cTw4XuzvMhgMDtCowD
YodhiO/5AOMsMMV0qBsYxbIPJIEz7b6gwTYEJoTVkqTit6o3UgWrAy+p4Y7t0ickYIHgwiuKRS9E
fu0Ue+32NFp0XFqZElfXLK/U2yjto+fJXu6uAELsXesfFGIOp/nbRbNavUt9jAJeO7ftQczgf39T
YfA0OKerP5gAOd4+aO3gATPUjfWPsJ9908XC7QqK2BwS1kh/fMrd95mxcmXdF1bBElszKwaToBVQ
1m52EYp06kkPyOu+fGKFAoIMafcV/2Ztz1WMo/Vp0iP/r0WAtBDw6sDJyWOfRjUEvP7BBdEzraHV
VblbSrKzhYeEGdMDi6kFC+KEzfPDPFJX1l3saPBkz9VDuESbktyObQp9VfkFKYBgBnw3msQJk+6k
G4t0o3/DZ7qz/kTJXMogG26Z/FsMhPERsaLTbWRJ3WRyXX8COaTladSf8bG0Oib19outnjuvpjQ0
qEV9eeGRBlx9mbidSYH95cj0zD2DKpeSZ83M5K1pFg+8RKToGElGTTk8vtdTfDVbmi3+QntfLq+z
ZMgs2+SmCWrV/MPC04Dl00CXywdKPyf6toomqRP7A5fS7W8P9fdPn+a8JCblcleGj9nvJXBQjue7
97rofCEszhKhoE9fMCIUcSoTU9YAm5Jr+qclSEbV1pzwTvZ8auMIXtzEZV5n4aK4WPDV+lYCadrL
DlvJSJRuXRvIMbmvU9b8NxgG8AS88BkX3L9vlOpkMculwG1/iooQvxuFaJDargt370wAQo0lCpG3
MxnsSusymwnYegvvvr7Xp/KBLZK1+8Djzm3fwAryp4qNo29ciVw3O9lFKmmuiIcxSY0bauXaK6kv
pTnYkmx7XGPF7Ahb7Ov0/0FE2Lx3JZXSEKeW+VrCcpYQOY++t67b+jf0AV4rZExcLFJzP6MPMimP
ZCd383NzlzkXK+vAdvTi40HPiM9FYOp6g8JTs5TTdx2/qs/SWFC8AkahIQmH0IpFBJep2JKl2kyr
FZMvASkHA9bR/UuXDvbMzsUmT/xnERZosQaZgFEO
".

(** ** The text *)

Record assertion := mkAssertion {
  as_Header : gmap string string;
  Body_ : string;
  Content : string;
  as_Signature : string;
}.

(** One entry per line; indented lines are ignored, and the first without a colon is the last. *)
Fixpoint parse_headers (lines : list string) (header : gmap string string) : gmap string string :=
  match lines with
  | [] => header
  | line :: lines' =>
      if HasPrefix line " " then parse_headers lines' header
      else match Cut line ":" with
           | None => header
           | Some (k, v) => parse_headers lines' (<[k := TrimSpace v]> header)
           end
  end.
Definition parseHeaders (head : string) : gmap string string := parse_headers (fst (Scanner_Lines head)) ∅.

Definition newAssertion (text : string) : result assertion :=
  match CutLast text nlnl with
  | None => Err (EText "assertion content/signature separator not found")
  | Some (content, signature) =>
      let '(head, body) := match Cut content nlnl with Some hb => hb | None => (content, "") end in
      Ok (mkAssertion (parseHeaders head) body content signature)
  end.

Definition header (k : string) (a : assertion) : string := default "" (as_Header a !! k).
Definition SnapID : assertion -> string := header "snap-id".
Definition PublisherID : assertion -> string := header "publisher-id".
Definition SnapName : assertion -> string := header "snap-name".
Definition SnapSize : assertion -> string := header "snap-size".
Definition SnapSha384 : assertion -> string := header "snap-sha3-384".
Definition SnapRevision : assertion -> string := header "snap-revision".
Definition DisplayName : assertion -> string := header "display-name".
Definition as_Type : assertion -> string := header "type".
Definition AuthorityID : assertion -> string := header "authority-id".
Definition SignKey : assertion -> string := header "sign-key-sha3-384".

Definition no_assertion : assertion := mkAssertion ∅ "" "" "".
Definition CanonicalAccount : assertion :=
  match newAssertion encodedCanonicalAccount with Ok a => a | Err _ => no_assertion end.
Definition CanonicalRootAccountKey : assertion :=
  match newAssertion encodedCanonicalRootAccountKey with Ok a => a | Err _ => no_assertion end.

(** ** Packets *)

(** [net/http] with the client of the inspectors: the status code, the status and the body of the answer to
    a GET request for an assertion; the state of the outside world changes. *)
Class HttpClient := {
  World : Type;
  client_Get : World -> string -> World * result (Z * string * Body);
}.

Section Assertion.
Context `{PG : OpenPGP} `{HC : HttpClient}.

Definition decodeV1 (b kind : string) : result (Packet PublicKey Signature) :=
  if String.eqb b "" then Err (EText ("cannot decode " +:+ kind +:+ ": no data"))
  else
    match b64_decode b with
    | Err err => Err (EText ("cannot decode " +:+ kind +:+ ": " +:+ error_string err))
    | Ok "" => Err (EText ("cannot decode " +:+ kind +:+ ": base64 without data"))
    | Ok (String v rd) =>
        if negb (Ascii.eqb v (chr 1)) then
          Err (EText ("unsupported " +:+ kind +:+ " format version: " +:+ Itoa (byte_Z v)))
        else
          match packet_Read rd with
          | Err err => Err (EText ("cannot decode " +:+ kind +:+ ": " +:+ error_string err))
          | Ok (pkt, rest) =>
              if negb (String.eqb rest "") then Err (EText (kind +:+ " has spurious trailing data")) else Ok pkt
          end
    end.

Definition decodeSignature (signature : string) : result Signature :=
  pkt ← decodeV1 signature "signature";
  match pkt with SigPacket sig => Ok sig | _ => Err (EText "expected signature, got instead") end.

Definition decodePublicKey (pubKey : string) : result PublicKey :=
  pkt ← decodeV1 pubKey "public key";
  match pkt with
  | PubKeyPacket k => option_or_err (rsa_key k) (EText "expected RSA public key, got instead")
  | _ => Err (EText "expected public key, got instead")
  end.

(** The program does not start if the key cannot be decoded. *)
Definition CanonicalPublicKey : result PublicKey := decodePublicKey (Body_ CanonicalRootAccountKey).

(** ** Downloads *)

Definition StatusOK : Z := 200.

Definition downloadAssertion (w : World) (url : string) : World * result assertion :=
  match client_Get w url with
  | (w, Err err) => (w, Err err)
  | (w, Ok (code, status, body)) =>
      (w, if negb (code =? StatusOK)%Z then Err (EText ("cannot download assertion: " +:+ status))
          else match body_err body with
               | Some err => Err err
               | None => newAssertion (body_data body)
               end)
  end.

Definition assertions_url : string := "https://api.snapcraft.io/v2/assertions/".
Definition downloadSnapRevisionAssertion (w : World) (snapSha3_384 : string) : World * result assertion :=
  downloadAssertion w (assertions_url +:+ "snap-revision/" +:+ snapSha3_384 +:+ "?max-format=0").
Definition downloadSnapDeclarationAssertion (w : World) (snapID : string) : World * result assertion :=
  downloadAssertion w (assertions_url +:+ "snap-declaration/16/" +:+ snapID +:+ "?max-format=5").
Definition downloadAccountAssertion (w : World) (publisherID : string) : World * result assertion :=
  downloadAssertion w (assertions_url +:+ "account/" +:+ publisherID +:+ "?max-format=5").
Definition downloadAccountKeyAssertion (w : World) (signKey : string) : World * result assertion :=
  downloadAssertion w (assertions_url +:+ "account-key/" +:+ signKey +:+ "?max-format=1").

(** ** The chain of keys *)

(** The keys found valid before, by name, and the outside world. *)
Record SnapStore := mkSnapStore { accountKeyCache : gmap string PublicKey; world : World }.

(** The check of a signature downloads the assertion of the key that made it and checks that one first, down
    to a key that is cached or the root key. [None] is a chain longer than the fuel. *)
Fixpoint VerifyChain (fuel : nat) (a : assertion) (st : SnapStore) : option (SnapStore * option error) :=
  match fuel with
  | 0 => None
  | S fuel' =>
      match decodeSignature (as_Signature a) with
      | Err err => Some (st, Some err)
      | Ok signature =>
          let signKey := SignKey a in
          if String.eqb signKey "" then
            Some (st, Some (EText ("cannot find sign-key-sha3-384 in " +:+ as_Type a +:+ " assertion")))
          else
            match accountKeyCache st !! signKey with
            | Some cachedKey => Some (st, VerifySignature cachedKey signature (Content a))
            | None =>
                if String.eqb signKey (SignKey CanonicalRootAccountKey) then
                  Some (st, match CanonicalPublicKey with
                            | Ok key => VerifySignature key signature (Content a)
                            | Err err => Some err
                            end)
                else
                  match downloadAccountKeyAssertion (world st) signKey with
                  | (w, Err err) =>
                      Some (mkSnapStore (accountKeyCache st) w,
                            Some (EWrap "cannot retrieve account-key assertion: " err ""))
                  | (w, Ok accountKeyAssertion) =>
                      match VerifyChain fuel' accountKeyAssertion (mkSnapStore (accountKeyCache st) w) with
                      | None => None
                      | Some (st, Some err) => Some (st, Some err)
                      | Some (st, None) =>
                          match decodePublicKey (Body_ accountKeyAssertion) with
                          | Err err => Some (st, Some (EWrap "cannot decode public key: " err ""))
                          | Ok key =>
                              Some (mkSnapStore (<[signKey := key]> (accountKeyCache st)) (world st),
                                    VerifySignature key signature (Content a))
                          end
                      end
                  end
            end
      end
  end.

(** ** Trust *)

(** The root key, and the keys in assertions that a certified key signed. *)
Inductive certified : PublicKey -> Prop :=
| certified_root k : CanonicalPublicKey = Ok k -> certified k
| certified_by k a sig k' : certified k -> decodeSignature (as_Signature a) = Ok sig ->
    VerifySignature k sig (Content a) = None -> decodePublicKey (Body_ a) = Ok k' -> certified k'.

(** A certified key made the signature. *)
Definition signed (a : assertion) : Prop :=
  exists k sig, certified k /\ decodeSignature (as_Signature a) = Ok sig /\ VerifySignature k sig (Content a) = None.

Definition cache_certified (st : SnapStore) : Prop := map_Forall (fun _ k => certified k) (accountKeyCache st).

Lemma VerifyChain_trust fuel a st st' e : cache_certified st -> VerifyChain fuel a st = Some (st', e) ->
  cache_certified st' /\ (e = None -> signed a).
Proof.
  revert a st st' e. induction fuel as [|fuel IH]; intros a st st' e Hc H; [done|]. simpl in H.
  destruct (decodeSignature (as_Signature a)) as [sig|] eqn:Es; [|by simplify_eq].
  destruct (String.eqb (SignKey a) ""); [by simplify_eq|].
  destruct (accountKeyCache st !! SignKey a) as [k|] eqn:Ek.
  { simplify_eq. split; [done|]. intros Hv. exists k, sig. split; [|done].
    exact (map_Forall_lookup_1 _ _ _ _ Hc Ek). }
  destruct (String.eqb _ _).
  { simplify_eq. split; [done|]. destruct CanonicalPublicKey as [k|] eqn:Er; [|done].
    intros Hv. exists k, sig. split; [by apply certified_root|done]. }
  destruct (downloadAccountKeyAssertion (world st) (SignKey a)) as [w [aka|err]]; [|by simplify_eq].
  destruct (VerifyChain fuel aka _) as [[st1 [err|]]|] eqn:Ev; [..|done];
    apply IH in Ev as (Hc1 & Hs); [by simplify_eq|done| |done].
  destruct (decodePublicKey (Body_ aka)) as [k|] eqn:Ek1; [|by simplify_eq].
  simplify_eq. destruct (Hs eq_refl) as (k0 & sig0 & Hk0 & Hd0 & Hv0).
  assert (Hk : certified k) by (by eapply certified_by).
  split; [by apply map_Forall_insert_2|]. intros Hv. by exists k, sig.
Qed.

(** More fuel does not change a result. *)
Lemma VerifyChain_more fuel fuel' a st r : fuel <= fuel' ->
  VerifyChain fuel a st = Some r -> VerifyChain fuel' a st = Some r.
Proof.
  revert fuel' a st r. induction fuel as [|fuel IH]; intros [|fuel'] a st r Hle H; [done|done|lia|].
  simpl in *. destruct (decodeSignature _); [|done]. destruct (String.eqb _ ""); [done|].
  destruct (_ !! _); [done|]. destruct (String.eqb _ _); [done|].
  destruct (downloadAccountKeyAssertion _ _) as [w [aka|]]; [|done].
  destruct (VerifyChain fuel aka _) as [r1|] eqn:E; [|done]. by rewrite (IH fuel' _ _ _ (le_S_n _ _ Hle) E).
Qed.

(** C17: The check ends if the chains of keys that the store serves do: [rank] bounds the length of the chain
    that starts at a key, and fuel beyond it gives the result that any larger amount gives. *)
Theorem VerifyChain_terminates : forall (rank : string -> nat) a st fuel,
  (forall w n w' b, n <> SignKey CanonicalRootAccountKey ->
     downloadAccountKeyAssertion w n = (w', Ok b) -> rank (SignKey b) < rank n) ->
  rank (SignKey a) < fuel ->
  exists r, forall fuel', fuel <= fuel' -> VerifyChain fuel' a st = Some r.
Proof.
  intros rank a st fuel Hrank Hf. assert (H : exists r, VerifyChain fuel a st = Some r).
  { revert a st Hf. induction fuel as [|fuel IH]; intros a st Hf; [lia|]. simpl.
    destruct (decodeSignature _); [|eauto]. destruct (String.eqb _ ""); [eauto|].
    destruct (_ !! _); [eauto|]. destruct (String.eqb_spec (SignKey a) (SignKey CanonicalRootAccountKey)); [eauto|].
    destruct (downloadAccountKeyAssertion _ _) as [w [aka|]] eqn:E; [|eauto].
    apply Hrank in E; [|done]. destruct (IH aka (mkSnapStore (accountKeyCache st) w)) as [[st1 [err|]] ->]; [lia|eauto|].
    destruct (decodePublicKey _); eauto. }
  destruct H as [r Hr]. exists r. intros fuel' Hle. by apply VerifyChain_more with fuel.
Qed.

(** A key that the store serves with its own signature makes the check go on for ever. *)
Lemma self_signed_diverges a st : (exists sig, decodeSignature (as_Signature a) = Ok sig) ->
  SignKey a <> "" -> SignKey a <> SignKey CanonicalRootAccountKey -> accountKeyCache st !! SignKey a = None ->
  (forall w, exists w', downloadAccountKeyAssertion w (SignKey a) = (w', Ok a)) ->
  forall fuel, VerifyChain fuel a st = None.
Proof.
  intros [sig Hs] Hn Hr Hc Hd fuel. revert st Hc. induction fuel as [|fuel IH]; intros st Hc; [done|]. simpl.
  rewrite Hs. destruct (String.eqb_spec (SignKey a) ""); [done|]. rewrite Hc.
  destruct (String.eqb_spec (SignKey a) (SignKey CanonicalRootAccountKey)); [done|].
  destruct (Hd (world st)) as [w' ->]. by rewrite IH.
Qed.
End Assertion.

Example root_key_name : SignKey CanonicalRootAccountKey
  = "-CvQKAwRQ5h3Ffn10FILJoEZUXOv6km9FwA80-Rcj-f-6jadQ89VRswHNiEB9Lxk".
Proof. by vm_compute. Qed.
Example root_account : (DisplayName CanonicalAccount, AuthorityID CanonicalAccount, String.length (Body_ CanonicalAccount))
  = ("Canonical", "canonical", 0).
Proof. by vm_compute. Qed.
