(* ===== verification/Snap.v ===== *)
(** * Snap packages and assertions

    [inspectors/snap/snap.go] and [inspectors/snap/snap_assertion.go]: the inspectors of snap packages, which
    are checked against assertions downloaded from the store, and of assertion files. Squash file systems and
    YAML are parameters, SHA3-384 is that of [Store]. *)
From stdpp Require Import base gmap strings list option fin_maps.
From Stdlib Require Import ZArith Lia Ascii.
From S2P Require Import Prelude GoStrings GoCodec Platform HttpUtil Digests Artifact Net Config.
From S2P Require Import Inspectors InspectorLib Archives OpenPgp Regexp Url Store SnapApi SnapRefresh Assertion.

(** ** Detectors *)

(** The first bytes of a file; what lies beyond a short one is zero. *)
Definition SquashFsDetector (raw : string) (limit : Z) : bool :=
  if (limit <? 4)%Z then false else String.eqb (str_take 4 raw) "hsqs".

Definition AssertionDetector (raw : string) (limit : Z) : bool :=
  if String.length raw <? 128 then false
  else
    let lines := Split (str_take 128 raw) nl in
    if List.length lines <? 3 then false
    else HasPrefix (hd "" lines) "type:" && existsb (fun l => HasPrefix l "authority-id:") lines.

Record snapYaml := mksnapYaml {
  sy_Name : string;
  sy_Version : string;
  sy_Summary : string;
  sy_License : string;
  sy_Architectures : list string;
  sy_Grade : string;
  sy_Base : string;
}.

(** [github.com/CalebQ42/squashfs] and [yaml.v3]: the images that open, the files in them, decoding. *)
Class SquashFs := { squashfs_Open : string -> string -> result (result Body) }.
Class SnapYamlLib := { decode_snapYaml : Body -> result snapYaml }.

(** ** Digests *)

(** [base64.RawURLEncoding]: the alphabet with "-" and "_", without padding. *)
Definition url_safe (c : ascii) : ascii :=
  if Ascii.eqb c "+" then "-"%char else if Ascii.eqb c "/" then "_"%char else c.
Fixpoint raw_url (s : string) : string :=
  match s with
  | "" => ""
  | String c s' => if Ascii.eqb c "=" then raw_url s' else String (url_safe c) (raw_url s')
  end.
Definition encodeDigest (digest : string) : result string :=
  if negb (String.length digest =? 48) then Err (EText "hash digest must have 48 bytes")
  else Ok (raw_url (b64_encode digest)).

Section Snap.
Context `{ML : MimeLib} `{GL : GlobLib} `{MO : MapOrder} `{PG : OpenPGP} `{HC : HttpClient} `{S3 : Sha3}
  `{SQ : SquashFs} `{SY : SnapYamlLib}.
Context {IS : Type} `{PS : !Part IS SnapStore} (fuel : nat).

(** A chain of keys that never ends: the goroutine's stack overflows. *)
Definition stack_overflow : error := ESentinel "stack overflow".

Definition as_VerifySignature (a : assertion) (st : IS) : IS * option error :=
  match VerifyChain fuel a (part st) with
  | None => (st, Some stack_overflow)
  | Some (s, e) => (set_part s st, e)
  end.

(** A download changes the world only. *)
Definition fetch_assertion (f : World -> World * result assertion) (st : IS) : IS * result assertion :=
  let s : SnapStore := part st in
  let '(w, r) := f (world s) in (set_part (mkSnapStore (accountKeyCache s) w) st, r).

(** ** Assertion files *)

Definition snap_assertion_id : string := "snap.assertion".

(** The reason a URL is valid: the first kind that it is. *)
Definition assertion_reason (u : ParsedURL) : result string :=
  match newSnapRevisionAssertionURLInfo u with
  | Ok _ => Ok "valid URL for snap-revision assertion download"
  | Err _ =>
      match newSnapDeclarationAssertionURLInfo u with
      | Ok _ => Ok "valid URL for snap-declaration assertion download"
      | Err _ =>
          match newAccountAssertionURLInfo u with
          | Ok _ => Ok "valid URL for account-key assertion download"
          | Err _ =>
              match newAccountKeyAssertionURLInfo u with
              | Ok _ => Ok "valid URL for account-key assertion download"
              | Err _ =>
                  match newSerialAssertionURLInfo u with
                  | Ok _ => Ok "valid URL for serial assertion download"
                  | Err e => Err e
                  end
              end
          end
      end
  end.

Definition SnapAssertion_InspectRequest : IS -> Artifact -> IS * Artifact * option error :=
  url_request (fun u => Some (assertion_reason u)) (fun reason => SetRequestPending snap_assertion_id reason).

Definition assertion_type (t : string) : string :=
  if String.eqb t "snap-revision" then "application/x.ubuntu.assertion.snap-revision"
  else if String.eqb t "snap-declaration" then "application/x.ubuntu.assertion.snap-declaration"
  else if String.eqb t "account" then "application/x.ubuntu.assertion.account"
  else if String.eqb t "account-key" then "application/x.ubuntu.assertion.account-key"
  else if String.eqb t "serial" then "application/x.ubuntu.assertion.serial"
  else "application/x.ubuntu.assertion".

Definition SnapAssertion_InspectArtifact (st : IS) (data : string) (a : Artifact) : IS * Artifact * option error :=
  if negb (String.eqb (Artifact_ContentType a) "application/x.ubuntu.assertion") then (st, a, None)
  else if negb (MimetypeIs a "application/x.ubuntu.assertion") then (st, a, None)
  else
    match newAssertion data with
    | Err err =>
        (st, AnnotateResponse snap_assertion_id {[ "error-msg" := AStr (error_string err) ]}
               (SetResponseRejected snap_assertion_id "error parsing assertion"
                  (titled "application/x.ubuntu.assertion" "" "" "") a), None)
    | Ok assert =>
        let md := mkArtifactMetadata (assertion_type (as_Type assert)) "assertion" (header "revision" assert)
                    (AuthorityID assert) (as_Type assert +:+ " assertion file") (AuthorityID assert)
                    "" "" "" "" "" "" "" "" in
        match as_VerifySignature assert st with
        | (st, Some err) =>
            (st, AnnotateResponse snap_assertion_id
                   (<["assertion-type" := AStr (as_Type assert)]> {[ "error-msg" := AStr (error_string err) ]})
                   (SetResponseRejected snap_assertion_id "assertion signature verification failed" md a), None)
        | (st, None) =>
            (st, AnnotateResponse snap_assertion_id (AStr <$> as_Header assert)
                   (SetResponseApproved snap_assertion_id "valid snap assertion" md a), None)
        end
    end.

Definition SnapAssertionInspector : Inspector (IS := IS) :=
  mkInspector snap_assertion_id SnapAssertion_InspectRequest SnapAssertion_InspectArtifact.

(** ** Packages *)

Definition snap_id : string := "snap".

Definition Snap_InspectRequest : IS -> Artifact -> IS * Artifact * option error :=
  url_request (fun u => Some (newSnapPackageURLInfo u)) (fun info a =>
    AnnotateRequest snap_id (<["snap-id" := AStr (fst info)]> {[ "release" := AStr (snd info) ]})
      (SetRequestPending snap_id "valid URL for snap package" a)).

(** The first attribute that is missing or has another value than those allowed. *)
Fixpoint check_filter (l : list AssertionFilter) (assert : assertion) : option error :=
  match l with
  | [] => None
  | v :: l' =>
      match as_Header assert !! af_Name v with
      | None => Some (EText ("attribute '" +:+ af_Name v +:+ "' not found in the snap-declaration assertion"))
      | Some declared =>
          if slices_Contains (af_Value v) declared then check_filter l' assert
          else Some (EText ("attribute '" +:+ af_Name v +:+ "' value '" +:+ declared +:+ "' is not allowed"))
      end
  end.
Definition checkSnapDeclarationFilter (cfg : SnapInspectorConfig) (assert : assertion) : option error :=
  check_filter (SnapDeclarationFilter cfg) assert.

(** The ID of the snap, or the annotation and the reason to reject. *)
Definition checkSnapRevisionAssertion (rev : assertion) (snapSha3_384 : string) (a : Artifact) (st : IS) :
    IS * (string + Annotation * string) :=
  let note : Annotation := {[ "snap-revision-assertion-header" := any_map (as_Header rev) ]} in
  if negb (String.eqb (SnapSize rev) (Itoa (Artifact_Size a))) then
    (st, inr (note, "snap size mismatch in snap-revision assertion"))
  else if negb (String.eqb (SnapSha384 rev) snapSha3_384) then
    (st, inr (note, "snap-revision assertion digest mismatch"))
  else if String.eqb (SnapID rev) "" then
    (st, inr (note, "cannot find snap ID in snap-revision assertion"))
  else
    match as_VerifySignature rev st with
    | (st, Some err) =>
        (st, inr (<["error-msg" := AStr (error_string err)]> note, "snap-revision assertion has invalid signature"))
    | (st, None) => (st, inl (SnapID rev))
    end.

Definition snap_metadata (version vendor description architecture license revision id name : string) :
    ArtifactMetadata :=
  mkArtifactMetadata "application/x.canonical.snap-package" name version vendor description "" "" architecture
    license "" "" revision "" id.

Definition decl_note (decl : assertion) : Annotation :=
  {[ "snap-declaration-assertion-header" := any_map (as_Header decl) ]}.

(** What follows once the three assertions are valid: the file [meta/snap.yaml] and the filter. *)
Definition inspect_snap_image (cfg : SnapInspectorConfig) (st : IS) (data : string) (a : Artifact)
    (rev decl account : assertion) : IS * Artifact * option error :=
  let vendor := DisplayName account in
  let md0 := snap_metadata "" vendor "" "" "" (SnapRevision rev) (SnapID rev) (SnapName decl) in
  match squashfs_Open data "meta/snap.yaml" with
  | Err err => (st, a, Some err)
  | Ok (Err _) => (st, SetResponseRejected snap_id "image has no meta/snap.yaml file" md0 a, None)
  | Ok (Ok sf) =>
      match decode_snapYaml sf with
      | Err _ => (st, SetResponseRejected snap_id "cannot decode meta/snap.yaml" md0 a, None)
      | Ok y =>
          let md := snap_metadata (sy_Version y) vendor (sy_Summary y) (Join (sy_Architectures y) ",")
                      (sy_License y) (SnapRevision rev) (SnapID rev) (SnapName decl) in
          match checkSnapDeclarationFilter cfg decl with
          | Some err =>
              (st, AnnotateResponse snap_id (<["error-msg" := AStr (error_string err)]> (decl_note decl))
                     (SetResponseRejected snap_id "failure on snap-declaration assertion attribute check" md a), None)
          | None =>
              (st, AnnotateResponse snap_id
                     (<["snap-revision-assertion-header" := any_map (as_Header rev)]>
                       (<["account-assertion-header" := any_map (as_Header account)]> (decl_note decl)))
                     (SetResponseApproved snap_id "valid snap file found" md a), None)
          end
      end
  end.

Definition Snap_InspectArtifact (cfg : SnapInspectorConfig) (st : IS) (data : string) (a : Artifact) :
    IS * Artifact * option error :=
  if negb (MimetypeIs a "application/x.squashfs") then (st, a, None)
  else
    match encodeDigest (sha3_384 data) with
    | Err err => (st, a, Some (EWrap "cannot encode digest: " err ""))
    | Ok snapSha3_384 =>
        match fetch_assertion (fun w => downloadSnapRevisionAssertion w snapSha3_384) st with
        | (st, Err _) => (st, a, None)
        | (st, Ok rev) =>
            match checkSnapRevisionAssertion rev snapSha3_384 a st with
            | (st, inr (note, reason)) =>
                (st, AnnotateResponse snap_id note
                       (SetResponseRejected snap_id reason
                          (titled "application/x.canonical.snap-package" "" "" "") a), None)
            | (st, inl snapID) =>
                match fetch_assertion (fun w => downloadSnapDeclarationAssertion w snapID) st with
                | (st, Err err) =>
                    (st, a, Some (EWrap "cannot retrieve snap-declaration assertion: " err ""))
                | (st, Ok decl) =>
                    let md := snap_metadata "" "" "" "" "" (SnapRevision rev) snapID (SnapName decl) in
                    if String.eqb (PublisherID decl) "" then
                      (st, AnnotateResponse snap_id (decl_note decl)
                             (SetResponseRejected snap_id "cannot find publisher ID in snap-declaration assertion" md a),
                       None)
                    else
                      match as_VerifySignature decl st with
                      | (st, Some err) =>
                          (st, AnnotateResponse snap_id (<["error-msg" := AStr (error_string err)]> (decl_note decl))
                                 (SetResponseRejected snap_id "snap-declaration assertion has invalid signature" md a),
                           None)
                      | (st, None) =>
                          match fetch_assertion (fun w => downloadAccountAssertion w (PublisherID decl)) st with
                          | (st, Err err) => (st, a, Some (EWrap "cannot retrieve account assertion: " err ""))
                          | (st, Ok account) =>
                              match as_VerifySignature account st with
                              | (st, Some err) =>
                                  (st, AnnotateResponse snap_id
                                         (<["error-msg" := AStr (error_string err)]>
                                           {[ "account-assertion-header" := any_map (as_Header account) ]})
                                         (SetResponseRejected snap_id "account assertion has invalid signature" md a),
                                   None)
                              | (st, None) => inspect_snap_image cfg st data a rev decl account
                              end
                          end
                      end
                end
            end
        end
    end.

Definition SnapInspector (cfg : SnapInspectorConfig) : Inspector (IS := IS) :=
  mkInspector snap_id Snap_InspectRequest (Snap_InspectArtifact cfg).

(** ** Keeping to the interface *)

#[export] Instance SnapAssertion_laws : InspectorLaws SnapAssertionInspector.
Proof.
  split; simpl; intros *; [apply url_request_frame; auto with frames|].
  unfold SnapAssertion_InspectArtifact. intros H. repeat (case_match; simplify_eq; auto with frames).
Qed.

#[export] Instance Snap_laws cfg : InspectorLaws (SnapInspector cfg).
Proof.
  split; simpl; intros *; [apply url_request_frame; auto with frames|].
  unfold Snap_InspectArtifact, inspect_snap_image. intros H. repeat (case_match; simplify_eq; auto with frames).
Qed.
End Snap.

(** ** Properties *)

Section SnapProps.
Context `{ML : MimeLib} `{GL : GlobLib} `{MO : MapOrder} `{PG : OpenPGP} `{HC : HttpClient} `{S3 : Sha3}
  `{SQ : SquashFs} `{SY : SnapYamlLib}.
Context {IS : Type} `{PS : !Part IS SnapStore} {PL : PartLaws IS SnapStore} (fuel : nat).

(** The keys the state remembers were checked. *)
Definition trusting (st : IS) : Prop := cache_certified (part st).

Lemma download_trusting f (st st' : IS) r : fetch_assertion f st = (st', r) -> trusting st -> trusting st'.
Proof.
  unfold fetch_assertion, trusting. destruct (f _) as [w r'] eqn:E. intros [= <- <-]. by rewrite part_set.
Qed.

Lemma as_VerifySignature_trust assert (st st' : IS) e : trusting st ->
  as_VerifySignature fuel assert st = (st', e) -> trusting st' /\ (e = None -> signed assert).
Proof.
  unfold as_VerifySignature, trusting. intros Ht H.
  destruct (VerifyChain fuel assert (part st)) as [[s e1]|] eqn:E; [|by simplify_eq].
  apply VerifyChain_trust in E as [? ?]; [|done]. simplify_eq. by rewrite part_set.
Qed.

Lemma check_filter_spec l assert : check_filter l assert = None <->
  Forall (fun v => exists d, as_Header assert !! af_Name v = Some d /\ In d (af_Value v)) l.
Proof.
  induction l as [|v l IH]; simpl; [done|]. rewrite Forall_cons, <- IH.
  destruct (as_Header assert !! af_Name v) as [d|]; [|naive_solver].
  assert (Hs : slices_Contains (af_Value v) d = true <-> In d (af_Value v)).
  { unfold slices_Contains. rewrite existsb_exists. split; [by intros (x & ? & ->%String.eqb_eq)|].
    intros. exists d. by rewrite String.eqb_refl. }
  destruct (slices_Contains (af_Value v) d); naive_solver.
Qed.

Lemma checkSnapRevisionAssertion_ok rev digest a (st st' : IS) r : trusting st ->
  checkSnapRevisionAssertion fuel rev digest a st = (st', r) -> trusting st' /\
  forall id, r = inl id -> signed rev /\ SnapSize rev = Itoa (Artifact_Size a) /\ SnapSha384 rev = digest /\
    SnapID rev = id.
Proof.
  intros Ht H. unfold checkSnapRevisionAssertion in H.
  destruct (String.eqb_spec (SnapSize rev) (Itoa (Artifact_Size a))); cbn [negb] in H; [|by simplify_eq].
  destruct (String.eqb_spec (SnapSha384 rev) digest); cbn [negb] in H; [|by simplify_eq].
  destruct (String.eqb (SnapID rev) ""); [by simplify_eq|].
  destruct (as_VerifySignature fuel rev st) as [st1 e1] eqn:E.
  apply as_VerifySignature_trust in E as [Ht1 Hs]; [|done].
  destruct e1; simplify_eq; (split; [done|]); [done|]. intros id [= <-]. auto.
Qed.

(** The approval of an image whose assertions are valid. *)
Lemma inspect_snap_image_approved cfg (st : IS) data a rev decl account st' a' e :
  response_opinion snap_id a = None -> inspect_snap_image cfg st data a rev decl account = (st', a', e) ->
  st' = st /\ (response_opinion snap_id a' = Some Approved ->
    Forall (fun v => exists d, as_Header decl !! af_Name v = Some d /\ In d (af_Value v)) (SnapDeclarationFilter cfg) /\
    ContentID (Meta a') = SnapID rev /\ StoreRevision (Meta a') = SnapRevision rev /\
    Name (Meta a') = SnapName decl /\ Vendor (Meta a') = DisplayName account).
Proof.
  intros Hno H. unfold inspect_snap_image, checkSnapDeclarationFilter in H.
  destruct (squashfs_Open _ _) as [[sf|]|].
  2: { simplify_eq. by autorewrite with opinions. }
  2: { simplify_eq. split; [done|]. congruence. }
  destruct (decode_snapYaml sf); [|simplify_eq; by autorewrite with opinions].
  destruct (check_filter _ decl) eqn:Ef; simplify_eq; (split; [done|]); autorewrite with opinions; [done|].
  intros _. apply check_filter_spec in Ef. split; [done|]. simpl. done.
Qed.

(** C10: An approved snap was checked against assertions that are signed by keys certified down from the root key
    of Canonical: the revision assertion has the SHA3-384 digest and the size of the file, and ID, revision,
    name and publisher come from the three assertions; the declaration passes the configured filter. The
    keys remembered stay certified ones, whatever the outcome. *)
Theorem snap_approved : forall cfg (st : IS) data a st' a' e,
  trusting st -> response_opinion snap_id a = None ->
  Snap_InspectArtifact fuel cfg st data a = (st', a', e) ->
  trusting st' /\
  (response_opinion snap_id a' = Some Approved ->
   exists rev decl account, signed rev /\ signed decl /\ signed account /\
     encodeDigest (sha3_384 data) = Ok (SnapSha384 rev) /\ SnapSize rev = Itoa (Artifact_Size a) /\
     Forall (fun v => exists d, as_Header decl !! af_Name v = Some d /\ In d (af_Value v)) (SnapDeclarationFilter cfg) /\
     ContentID (Meta a') = SnapID rev /\ StoreRevision (Meta a') = SnapRevision rev /\
     Name (Meta a') = SnapName decl /\ Vendor (Meta a') = DisplayName account).
Proof.
  intros cfg st data a st' a' e Ht Hno H. unfold Snap_InspectArtifact in H.
  destruct (negb _); [simplify_eq; split; [done|congruence]|].
  destruct (encodeDigest _) as [digest|]; [|simplify_eq; split; [done|congruence]].
  destruct (fetch_assertion _ st) as [st1 [rev|]] eqn:E1; apply download_trusting in E1; try done;
    [|simplify_eq; split; [done|congruence]].
  destruct (checkSnapRevisionAssertion fuel rev digest a st1) as [st2 r] eqn:E2.
  apply checkSnapRevisionAssertion_ok in E2 as [E2 Hrev]; [|done].
  destruct r as [id|[note reason]]; [|simplify_eq; split; [done|]; by autorewrite with opinions].
  destruct (Hrev id eq_refl) as (Hs1 & Hsize & Hdig & Hid). clear Hrev.
  destruct (fetch_assertion _ st2) as [st3 [decl|]] eqn:E3; apply download_trusting in E3; try done;
    [|simplify_eq; split; [done|congruence]].
  cbn zeta in H. destruct (String.eqb _ _); [simplify_eq; split; [done|]; by autorewrite with opinions|].
  destruct (as_VerifySignature fuel decl st3) as [st4 e4] eqn:E4.
  apply as_VerifySignature_trust in E4 as [E4 Hs2]; [|done].
  destruct e4; [simplify_eq; split; [done|]; by autorewrite with opinions|].
  destruct (fetch_assertion _ st4) as [st5 [account|]] eqn:E5; apply download_trusting in E5; try done;
    [|simplify_eq; split; [done|congruence]].
  destruct (as_VerifySignature fuel account st5) as [st6 e6] eqn:E6.
  apply as_VerifySignature_trust in E6 as [E6 Hs3]; [|done].
  destruct e6; [simplify_eq; split; [done|]; by autorewrite with opinions|].
  apply inspect_snap_image_approved in H as [-> H]; [|done]. split; [done|]. intros Hop.
  destruct (H Hop) as (Hf & H1 & H2 & H3 & H4).
  exists rev, decl, account. subst digest. auto 12.
Qed.

(** An approved assertion file is signed by a certified key. *)
Lemma assertion_approved (st : IS) data a st' a' e : trusting st -> response_opinion snap_assertion_id a = None ->
  SnapAssertion_InspectArtifact fuel st data a = (st', a', e) ->
  response_opinion snap_assertion_id a' = Some Approved ->
  exists assert, newAssertion data = Ok assert /\ signed assert.
Proof.
  intros Ht Hno H Hop. unfold SnapAssertion_InspectArtifact in H.
  destruct (negb _); [simplify_eq; congruence|]. destruct (negb _); [simplify_eq; congruence|].
  destruct (newAssertion data) as [assert|]; [|simplify_eq; by autorewrite with opinions in Hop].
  cbn zeta in H. destruct (as_VerifySignature fuel assert st) as [st1 e1] eqn:E.
  apply as_VerifySignature_trust in E as [_ Hs]; [|done].
  destruct e1; simplify_eq; [by autorewrite with opinions in Hop|]. eauto.
Qed.
End SnapProps.

(** ** Witnesses *)

Section SnapDemo.
#[local] Existing Instance text_mime.
#[local] Existing Instance toy_pgp.

Definition demo_sig : string := b64_encode (String (chr 1) "Sgood").
Definition demo_assertion (fields : list (string * string)) : string :=
  fold_right (fun f s => fst f +:+ ": " +:+ snd f +:+ String nl s) "" fields +:+
  "sign-key-sha3-384: " +:+ SignKey CanonicalRootAccountKey +:+ nlnl +:+ demo_sig.
Definition demo_digest : string := fold_right (fun _ s => String "x" s) "" (seq 0 48).
Definition demo_digest_text : string := match encodeDigest demo_digest with Ok d => d | Err _ => "" end.

#[local] Instance demo_store_sha3 : Sha3 := {| sha3_384 := fun _ => demo_digest |}.
#[local] Instance demo_squashfs : SquashFs := {| squashfs_Open := fun _ _ => Ok (Ok (bytes "")) |}.
#[local] Instance demo_snap_yaml : SnapYamlLib := {|
  decode_snapYaml := fun _ => Ok (mksnapYaml "hello" "1.0" "" "" ["amd64"; "arm64"] "" "") |}.
(** The store; the key of the publisher's account assertion is another one. *)
Definition demo_get (url : string) : string :=
  if HasPrefix url (assertions_url +:+ "snap-revision/") then
    demo_assertion [("type", "snap-revision"); ("snap-size", "0"); ("snap-sha3-384", demo_digest_text);
                    ("snap-id", "abc"); ("snap-revision", "7")]
  else if HasPrefix url (assertions_url +:+ "snap-declaration/") then
    demo_assertion [("type", "snap-declaration"); ("snap-name", "hello"); ("publisher-id", "pub")]
  else if HasPrefix url (assertions_url +:+ "account/") then
    "display-name: Me" +:+ String nl "sign-key-sha3-384: otherkey" +:+ nlnl +:+ demo_sig
  else demo_assertion [("type", "account-key")].
#[local] Instance demo_http : HttpClient := {|
  World := unit;
  client_Get := fun w url =>
    (w, Ok (200%Z, "200 OK",
       bytes (if HasPrefix url (assertions_url +:+ "account-key/")
              then "type: account-key" +:+ String nl ("sign-key-sha3-384: " +:+ SignKey CanonicalRootAccountKey) +:+
                   nlnl +:+ b64_encode (String (chr 1) "thekey") +:+ nlnl +:+ demo_sig
              else demo_get url))) |}.

Definition demo_snap_cfg : SnapInspectorConfig :=
  mkSnapInspectorConfig [mkAssertionFilter "type" ["snap-declaration"]].
Definition demo_snap : Artifact :=
  set_Meta (mkMetadata "application/x.squashfs" zero_sha1 zero_sha256 0 "" "" "" "" "" "" "" "" "" "" "" "" "") NewArtifact.
Definition demo_snap_store : SnapStore := mkSnapStore ∅ tt.
Definition demo_snap_run : SnapStore * Artifact * option error :=
  Snap_InspectArtifact 3 demo_snap_cfg demo_snap_store "image" demo_snap.

Lemma snap_approved_witness : response_opinion snap_id demo_snap_run.1.2 = Some Approved /\
  accountKeyCache demo_snap_run.1.1 !! "otherkey" = Some "thekey" /\ trusting demo_snap_run.1.1 /\
  exists rev, signed rev /\ ContentID (Meta demo_snap_run.1.2) = SnapID rev.
Proof.
  assert (Ho : response_opinion snap_id demo_snap_run.1.2 = Some Approved) by (by vm_compute).
  split; [exact Ho|]. split; [by vm_compute|].
  assert (He : demo_snap_run.2 = None) by (by vm_compute).
  assert (Hno : response_opinion snap_id demo_snap = None) by (by vm_compute).
  pose proof (triple_eta demo_snap_run None He) as Hr. clear He. revert Ho Hr.
  generalize demo_snap_run.1.1 demo_snap_run.1.2. intros st a Ho Hr. unfold demo_snap_run in Hr.
  destruct (snap_approved 3 demo_snap_cfg demo_snap_store "image" demo_snap st a None) as [Ht H];
    [exact (map_Forall_empty _)|exact Hno|exact Hr|].
  split; [exact Ht|]. destruct (H Ho) as (rev & _ & _ & Hs & _ & _ & _ & _ & _ & Hc & _).
  exists rev. split; [exact Hs|exact Hc].
Defined.

(** In that store every account key is signed by the root key. *)
Definition demo_rank (n : string) : nat := if String.eqb n (SignKey CanonicalRootAccountKey) then 0 else 1.
Definition demo_account : assertion :=
  match newAssertion (demo_get (assertions_url +:+ "account/")) with Ok a => a | Err _ => no_assertion end.

Lemma VerifyChain_terminates_witness : exists r, forall fuel', 2 <= fuel' ->
  VerifyChain fuel' demo_account demo_snap_store = Some r.
Proof.
  apply (VerifyChain_terminates demo_rank).
  - intros w n w' b Hn H.
    assert (Hk : exists b0, SignKey b0 = SignKey CanonicalRootAccountKey /\ (Ok b : result assertion) = Ok b0).
    { unfold downloadAccountKeyAssertion, downloadAssertion in H. cbn [client_Get demo_http] in H.
      assert (Hp : HasPrefix (assertions_url +:+ "account-key/" +:+ n +:+ "?max-format=1")
        (assertions_url +:+ "account-key/") = true) by (apply HasPrefix_true; eexists; by rewrite app_str_assoc).
      rewrite Hp in H. injection H as _ H. rewrite <- H. eexists. split; [|done]. by vm_compute. }
    destruct Hk as (b0 & Hb & [= ->]).
    unfold demo_rank. rewrite Hb, String.eqb_refl. destruct (String.eqb_spec n (SignKey CanonicalRootAccountKey)); [done|lia].
  - by vm_compute.
Defined.
End SnapDemo.
