(* ===== verification/Session.v ===== *)
(** * Sessions

    [session/session.go], [session/timer.go], [session/resources.go] and [MoveFile] of
    [utils/file_utils.go]: the table of active sessions, their tokens, artifacts, files and timers.

    Sessions are shared by pointer: an inspection that started before a session was discarded still
    holds it. The model has a heap of session objects and the table from IDs to their addresses.
    What Go draws at random and reads from the clock is an argument. *)
From stdpp Require Import base gmap strings list option fin_maps.
From Stdlib Require Import ZArith Lia Ascii.
From S2P Require Import Prelude GoStrings GoCodec Platform Json Net Digests Artifact.
From S2P Require Import Report Config Secrets SecLog Inspectors.

Definition DefaultSessionTimeout : Duration := (6 * Hour)%Z.

Definition ErrInvalidSessionPolicy : error := ESentinel "Invalid session policy".
Definition ErrInvalidSessionInspectorsConfiguration : error :=
  ESentinel "Invalid inspectors configuration".

(** The generated version text. *)
Class VersionText := { service_version : string }.

(** ** Identifiers *)

(** [makeSessionIDImpl], from the 16 bytes of a random UUID. *)
Definition makeSessionID (uuid : string) : string := EncodeToString uuid.

Definition token_chars : string :=
  "ABCDEFGHIJKLMNOPQRSTUVWXYZabcdefghijklmnopqrstuvwxyz0123456789".

(** [randomStringImpl(length)], from the draws of [rand.Intn(len(chars))]. *)
Fixpoint randomString (length : nat) (draws : nat -> nat) : string :=
  match length with
  | O => ""
  | S n => String (default zero (String.get (draws 0 mod String.length token_chars) token_chars))
             (randomString n (fun i => draws (S i)))
  end.

(** ** Timers *)

(** The goroutine that waits for the timer or for the end of monitoring. *)
Inductive Watcher : Set := Watching | Sending | Exited.

Record sessionTimer := mkTimer {
  t_armed : bool;   (** the [time.Timer] is running *)
  t_fired : bool;   (** its channel holds the expiry *)
  t_done : nat;     (** signals in the [done] channel, of capacity 1 *)
  t_watcher : Watcher;
}.

#[export] Instance Watcher_eq_dec : EqDecision Watcher.
Proof. solve_decision. Defined.

Definition newSessionTimer : sessionTimer := mkTimer true false 0 Watching.

(** [Timer.Stop]: no expiry is left in the channel after it returns. *)
Definition Timer_Stop (t : sessionTimer) : sessionTimer :=
  mkTimer false false (t_done t) (t_watcher t).

(** [None] when the send on the full [done] channel blocks. *)
Definition Timer_Cancel (t : sessionTimer) : option sessionTimer :=
  let t := Timer_Stop t in
  if t_done t <? 1 then Some (mkTimer (t_armed t) (t_fired t) (S (t_done t)) (t_watcher t))
  else None.

(** The steps of a timer and its watcher: the timer fires, the watcher sees that, or the
    end of monitoring. *)
Inductive timer_step : sessionTimer -> sessionTimer -> Prop :=
| step_fire d w : timer_step (mkTimer true false d w) (mkTimer false true d w)
| step_expired a d : timer_step (mkTimer a true d Watching) (mkTimer a false d Sending)
| step_done a f d : timer_step (mkTimer a f (S d) Watching) (mkTimer a f d Exited).

(** The blocked send of the session ID completes. *)
Definition sent (t : sessionTimer) : sessionTimer :=
  mkTimer (t_armed t) (t_fired t) (t_done t) Exited.

Section Session.
Context `{ML : MimeLib} `{GL : GlobLib} `{OS : Os} `{VT : VersionText} {IS : Type}.

(** ** State *)

Record Session := mkSession {
  s_ID : string;
  Token : string;
  Start : Time;
  End_ : Time;
  Insps : Inspectors (IS := IS);
  A : gmap Sha256Digest Artifact;
  Permissive : bool;
  SessionDir : string;
  s_CacheDir : string;
  Timeout : Duration;
  InspectorsCfg : InspectorsConfig;
  Secrets_ : list Secret;
  timer : sessionTimer;
  revoked : bool;
  ins_state : IS; (** what the inspectors of this session remember *)
}.

Definition set_End_ (v : _) (s : Session) : Session :=
  mkSession (s_ID s) (Token s) (Start s) v (Insps s) (A s) (Permissive s) (SessionDir s)
    (s_CacheDir s) (Timeout s) (InspectorsCfg s) (Secrets_ s) (timer s) (revoked s)
    (ins_state s) .
Definition set_A (v : _) (s : Session) : Session :=
  mkSession (s_ID s) (Token s) (Start s) (End_ s) (Insps s) v (Permissive s) (SessionDir s)
    (s_CacheDir s) (Timeout s) (InspectorsCfg s) (Secrets_ s) (timer s) (revoked s)
    (ins_state s) .
Definition set_timer (v : _) (s : Session) : Session :=
  mkSession (s_ID s) (Token s) (Start s) (End_ s) (Insps s) (A s) (Permissive s) (SessionDir s)
    (s_CacheDir s) (Timeout s) (InspectorsCfg s) (Secrets_ s) v (revoked s) (ins_state s) .
Definition set_revoked (v : _) (s : Session) : Session :=
  mkSession (s_ID s) (Token s) (Start s) (End_ s) (Insps s) (A s) (Permissive s) (SessionDir s)
    (s_CacheDir s) (Timeout s) (InspectorsCfg s) (Secrets_ s) (timer s) v (ins_state s) .
Definition set_ins_state (v : _) (s : Session) : Session :=
  mkSession (s_ID s) (Token s) (Start s) (End_ s) (Insps s) (A s) (Permissive s) (SessionDir s)
    (s_CacheDir s) (Timeout s) (InspectorsCfg s) (Secrets_ s) (timer s) (revoked s) v.

(** The session package: objects, the table of active sessions, and the channel of expired session
    IDs, of capacity 1. *)
Record SessState := mkSessState {
  objs : gmap nat Session;
  sessions : gmap string nat;
  next : nat;
  ExpiredSessionID : list string;
}.

Definition set_obj (p : nat) (s : Session) (st : SessState) : SessState :=
  mkSessState (<[p := s]> (objs st)) (sessions st) (next st) (ExpiredSessionID st).

(** [sessions.Get(id)]: a pointer, or nil. *)
Definition sessions_Get (st : SessState) (id : string) : option nat := sessions st !! id.
Definition GetSession := sessions_Get.

(** The session an active ID stands for. *)
Definition active (st : SessState) (id : string) : option Session :=
  sessions st !! id ≫= fun p => objs st !! p.

(** ** Creation *)

(** [uuid] is the draw used if the requested ID is taken. *)
Definition NewWithID (C : Constructors (IS := IS)) (st0 : IS) (sessionID token spoolDir : string)
    (timeout : Duration) (perm : bool) (secrets : list Secret)
    (override : OverrideInspectorsConfig) (cs : ConfigState) (uuid : string) (now : Time)
    (st : SessState) : nat * Session * SessState :=
  let sessionID := match sessions st !! sessionID with
                   | Some _ => makeSessionID uuid
                   | None => sessionID
                   end in
  let timeout := if (timeout =? 0)%Z then DefaultSessionTimeout else timeout in
  let cfg := Combine (GetInspectorsConfig cs) override in
  let s := {|
    s_ID := sessionID;
    Token := token;
    Start := now;
    End_ := zero_time;
    Insps := Inspectors_New C perm cfg;
    A := ∅;
    Permissive := perm;
    SessionDir := filepath_Join [spoolDir; sessionID];
    s_CacheDir := filepath_Join [spoolDir; sessionID; "cache"];
    Timeout := timeout;
    InspectorsCfg := GetInspectorsConfig cs;
    Secrets_ := secrets;
    timer := newSessionTimer;
    revoked := false;
    ins_state := st0;
  |} in
  let p := next st in
  (p, s, mkSessState (<[p := s]> (objs st)) (<[s_ID s := p]> (sessions st)) (S p)
           (ExpiredSessionID st)).

(** Two identifiers are drawn: the session ID, and another one should it be taken. *)
Definition New (C : Constructors (IS := IS)) (st0 : IS) (spoolDir : string) (timeout : Duration)
    (perm : bool) (secrets : list Secret) (override : OverrideInspectorsConfig) (cs : ConfigState)
    (uuid uuid' : string) (draws : nat -> nat) (now : Time) (st : SessState) :
    nat * Session * SessState :=
  NewWithID C st0 (makeSessionID uuid) (randomString 20 draws) spoolDir timeout perm secrets override
    cs uuid' now st.

(** ** Session data *)

Definition policy_name (s : Session) : string := if Permissive s then "permissive" else "strict".

Definition Session_Metadata (s : Session) : SessionMetadata := {|
  Generator := "fetch-service " +:+ service_version;
  Comment_ := "Metadata format is unstable and may change without prior notice.";
  sm_SessionID := s_ID s;
  sm_StartTime := Start s;
  sm_EndTime := End_ s;
  sm_Inspectors := Inspectors_List (Insps s);
  SpoolPath := SessionDir s;
  Policy := policy_name s;
  sm_Err := None;
|}.

Definition Revoke (token : string) (now : Time) (s : Session) : Session * bool :=
  if negb (String.eqb token (Token s)) then (s, false)
  else (set_End_ now (set_revoked true s), true).

Definition IsRevoked (s : Session) : bool := revoked s.

Definition AddArtifact (a : Artifact) (s : Session) : Session :=
  let digest := Sha256 (Meta a) in
  match A s !! digest with
  | None => set_A (<[digest := a]> (A s)) s
  | Some _ => s
  end.

Definition HasArtifact (s : Session) (sha256 : Sha256Digest) : bool :=
  match A s !! sha256 with Some _ => true | None => false end.

Definition ArtifactResult (s : Session) (sha256 : Sha256Digest) : OpinionKind :=
  match A s !! sha256 with Some a => Result a | None => Rejected end.

Definition AddDownload (di : Download) (s : Session) : Session :=
  if HasArtifact s (dl_Sha256 di) then
    set_A (alter (fun a => set_Downloads (Downloads a ++ [di]) a) (dl_Sha256 di) (A s)) s
  else s.

(** The artifacts in the order Go enumerates the map. *)
Definition Artifacts (s : Session) (order : list Sha256Digest) : list Artifact :=
  omap (fun k => A s !! k) order.

(** ** Files *)

Definition SaveSessionMetadata (s : Session) (sm : SessionMetadata) (fs : FS) : FS * option error :=
  let j := MarshalIndent (str1 (chr 9)) (jsession true sm) in
  match os_MkdirAll fs (SessionDir s) with
  | (fs, Some e) => (fs, Some e)
  | (fs, None) => os_WriteFile fs (filepath_Join [SessionDir s; "session.json"]) j
  end.

(** [utils.MoveFile]: renames the file, or copies it when renaming is not possible; a copy that
    fails is removed. *)
Definition MoveFile (fs : FS) (oldpath newpath : string) : FS * option error :=
  match os_Rename fs oldpath newpath with
  | (fs, None) => (fs, None)
  | (fs, Some _) =>
      match os_ReadFile fs oldpath with
      | Err e => (fs, Some e)
      | Ok data =>
          match os_Create fs newpath with
          | (fs, Some e) => (fs, Some e)
          | (fs, None) =>
              match os_WriteFile fs newpath data with
              | (fs, Some e) => (fst (os_Remove fs newpath), Some e)
              | (fs, None) => os_Remove fs oldpath
              end
          end
      end
  end.

(** The file is removed if it is there; an error is only logged. *)
Definition removeTempFile (fs : FS) (name : string) : FS := fst (os_Remove fs name).

(** Moves the downloaded file to the spool, unless it is there already, and removes the temporary
    file in any case. *)
Definition SaveData (a : Artifact) (fs : FS) : FS * option error :=
  let dest := filepath_Join [AssetDir a; Sha256_String (Sha256 (Meta a)) +:+ ".data"] in
  let '(fs, e) :=
    match os_MkdirAll fs (Dir dest) with
    | (fs, Some e) => (fs, Some e)
    | (fs, None) =>
        match os_Stat fs dest with
        | Ok _ => (fs, None)
        | Err e => if negb (IsNotExist e) then (fs, Some e) else MoveFile fs (Tempfile a) dest
        end
    end in
  (removeTempFile fs (Tempfile a), e).

Definition SaveMetadata (digest : Sha256Digest) (s : Session) (fs : FS) : FS * option error :=
  match A s !! digest with
  | None =>
      (fs, Some (EText ("metadata for artifact " +:+ Sha256_String digest +:+ " not available")))
  | Some a =>
      match jartifact false a with
      | Err e => (fs, Some e)
      | Ok j =>
          os_WriteFile fs (filepath_Join [AssetDir a; Sha256_String (Sha256 (Meta a)) +:+ ".json"])
            (JSONMarshalIndentNoHTMLEscape (str1 (chr 9)) j)
      end
  end.

(** ** The end of a session *)

(** [None] is a goroutine blocked for ever: the timer of the session was cancelled before. *)
Definition Discard (p : nat) (st : SessState) : option SessState :=
  match objs st !! p with
  | None => Some st
  | Some s =>
      match sessions st !! s_ID s with
      | None => Some st
      | Some _ =>
          match Timer_Cancel (timer s) with
          | None => None
          | Some t =>
              Some (mkSessState (<[p := set_timer t s]> (objs st)) (delete (s_ID s) (sessions st))
                      (next st) (ExpiredSessionID st))
          end
      end
  end.

(** The loop of [Finish] over the artifacts. *)
Fixpoint save_all (order : list Sha256Digest) (s : Session) (fs : FS) : FS * option error :=
  match order with
  | [] => (fs, None)
  | k :: order' =>
      match SaveMetadata k s fs with
      | (fs, Some e) => (fs, Some e)
      | (fs, None) => save_all order' s fs
      end
  end.

Definition remove_cache (s : Session) (fs : FS) : FS * option error :=
  match os_Stat fs (s_CacheDir s) with
  | Ok true => os_RemoveAll fs (s_CacheDir s)
  | _ => (fs, None)
  end.

(** Saves everything and discards the session, [order] being the order in which Go enumerates the
    artifacts. If anything cannot be saved the session stays, with its timer stopped. *)
Definition Finish (p : nat) (order : list Sha256Digest) (st : SessState) (fs : FS) :
    option (SessState * FS * option error) :=
  match objs st !! p with
  | None => Some (st, fs, Some nil_dereference)
  | Some s =>
      let s := set_timer (Timer_Stop (timer s)) s in
      let st := set_obj p s st in
      let sm := Session_Metadata s in
      match save_all order s fs with
      | (fs, Some e) => Some (st, fs, Some e)
      | (fs, None) =>
          match SaveSessionMetadata s sm fs with
          | (fs, Some e) => Some (st, fs, Some e)
          | (fs, None) =>
              match remove_cache s fs with
              | (fs, Some e) => Some (st, fs, Some e)
              | (fs, None) => st ← Discard p st; Some (st, fs, None)
              end
          end
      end
  end.

(** Finishes the sessions in the order Go enumerates the table; failures are only logged. *)
Fixpoint FinishAll (l : list (nat * list Sha256Digest)) (st : SessState) (fs : FS) :
    option (SessState * FS) :=
  match l with
  | [] => Some (st, fs)
  | (p, order) :: l' => '(st, fs, _) ← Finish p order st fs; FinishAll l' st fs
  end.

(** ** Authentication and lists *)

Definition CheckAuth (st : SessState) (id pw hostIP clientIP agent : string) :
    bool * list SecEvent :=
  match active st id with
  | None => (false, [])
  | Some s =>
      let ev := mkEventData id id hostIP clientIP agent "" "" in
      if revoked s then (false, [AuthnTokenReuse ev])
      else if negb (String.eqb (Token s) pw) then (false, [AuthnLoginFail ev])
      else (true, [AuthnLoginSuccess ev])
  end.

Definition GetSessionSecrets (st : SessState) (id : string) : list Secret :=
  match active st id with None => [] | Some s => Secrets_ s end.

Definition NumSessions (st : SessState) : nat := size (sessions st).

(** The sessions in the order Go enumerates the table. *)
Definition SessionInfos (st : SessState) (order : list string) (now : Time) : list SessionInfo :=
  omap (fun id => s ← active st id;
    Some (mkSessionInfo id (Start s) (policy_name s) (whole_seconds (now - Start s)%Z)
            (whole_seconds (Timeout s)))) order.

(** ** Resources *)

Definition SessionMetadataWritten (fs : FS) (spoolDir sessionID : string) : bool :=
  is_ok (os_Stat fs (filepath_Join [spoolDir; sessionID; "session.json"])).

Definition RemoveResources (fs : FS) (spoolDir sessionID : string) : FS * option error :=
  os_RemoveAll fs (filepath_Join [spoolDir; sessionID]).

(** ** Invariant *)

(** Every active ID stands for a session of that ID whose timer was not cancelled; addresses are
    allocated in order; the channel of expired IDs holds at most one. *)
Record sess_wf (st : SessState) : Prop := {
  wf_table : forall id p, sessions st !! id = Some p ->
    exists s, objs st !! p = Some s /\ s_ID s = id /\ t_done (timer s) = 0;
  wf_next : forall p s, objs st !! p = Some s -> p < next st;
  wf_chan : length (ExpiredSessionID st) <= 1;
}.

Definition no_sessions : SessState := mkSessState ∅ ∅ 0 [].

Lemma no_sessions_wf : sess_wf no_sessions.
Proof. split; [| |simpl; lia]; intros ? ? H; simpl in H; by rewrite lookup_empty in H. Qed.

Lemma active_Some st id s :
  active st id = Some s <-> exists p, sessions st !! id = Some p /\ objs st !! p = Some s.
Proof. unfold active. rewrite bind_Some. done. Qed.

(** Updates of a session that keep its ID and do not cancel its timer. *)
Lemma set_obj_wf st p s s' : sess_wf st -> objs st !! p = Some s -> s_ID s' = s_ID s ->
  t_done (timer s') = t_done (timer s) -> sess_wf (set_obj p s' st).
Proof.
  intros [Ht Hn Hc] Hp Hid Hd. split; simpl; [| |done].
  - intros id q Hq. destruct (Ht id q Hq) as (s0 & H0 & Hi & Hd0).
    destruct (decide (p = q)) as [<-|Hne].
    + rewrite lookup_insert_eq. exists s'. simplify_eq. split; [done|]. split; congruence.
    + rewrite lookup_insert_ne by done. eauto.
  - intros q s0. rewrite lookup_insert. case_decide; [subst; intros; by eapply Hn|apply Hn].
Qed.

Lemma sessions_set_obj p s st : sessions (set_obj p s st) = sessions st.
Proof. done. Qed.

Lemma active_set_obj_other st p s id :
  sessions st !! id <> Some p -> active (set_obj p s st) id = active st id.
Proof.
  intros Hne. unfold active. simpl. destruct (sessions st !! id) as [q|]; [|done]. simpl.
  by rewrite lookup_insert_ne by congruence.
Qed.

Lemma active_set_obj st p s id :
  sessions st !! id = Some p -> active (set_obj p s st) id = Some s.
Proof. intros H. unfold active. simpl. rewrite H. simpl. by rewrite lookup_insert_eq. Qed.

Lemma NewWithID_wf C st0 sid token spool timeout perm secrets o cs uuid now st p s st' :
  sess_wf st -> sessions st !! makeSessionID uuid = None ->
  NewWithID C st0 sid token spool timeout perm secrets o cs uuid now st = (p, s, st') ->
  sess_wf st' /\ sessions st !! s_ID s = None /\ objs st !! p = None.
Proof.
  intros [Ht Hn Hc] Hu H.
  assert (Hfree : sessions st !! s_ID s = None).
  { unfold NewWithID in H. destruct (sessions st !! sid) eqn:E; simplify_eq; simpl; done. }
  assert (Hp : objs st !! next st = None).
  { destruct (objs st !! next st) eqn:E; [|done]. apply Hn in E. lia. }
  unfold NewWithID in H. simplify_eq. split; [|by split]. split; simpl; [| |done].
  - intros id q. rewrite lookup_insert. case_decide as Hid.
    + intros; simplify_eq. rewrite lookup_insert_eq. by eexists.
    + intros Hq. destruct (Ht id q Hq) as (s0 & H0 & Hi & Hd). exists s0. split; [|done].
      rewrite lookup_insert_ne; [done|]. intros <-. congruence.
  - intros q s0. rewrite lookup_insert. case_decide; [lia|]. intros Hq. apply Hn in Hq. lia.
Qed.

(** Discarding an active session succeeds and removes just its ID. *)
Lemma Discard_active st p s : sess_wf st -> objs st !! p = Some s ->
  sessions st !! s_ID s = Some p ->
  exists t, Discard p st =
    Some (mkSessState (<[p := set_timer t s]> (objs st)) (delete (s_ID s) (sessions st)) (next st)
            (ExpiredSessionID st)) /\
  t_armed t = false /\ t_fired t = false /\ t_done t = 1 /\ t_watcher t = t_watcher (timer s).
Proof.
  intros [Ht _ _] Hp Hs. destruct (Ht _ _ Hs) as (s' & Hp' & _ & Hd). simplify_eq.
  unfold Discard. rewrite Hp, Hs. unfold Timer_Cancel. simpl. rewrite Hd. simpl.
  eexists. split; [done|]. done.
Qed.

Lemma Discard_wf st p s st' : sess_wf st -> objs st !! p = Some s ->
  sessions st !! s_ID s = Some p -> Discard p st = Some st' -> sess_wf st'.
Proof.
  intros Hwf Hp Hs HD. destruct (Discard_active st p s Hwf Hp Hs) as (t & E & _).
  rewrite HD in E. simplify_eq. destruct Hwf as [Ht Hn Hc]. split; simpl; [| |done].
  - intros id q. rewrite lookup_delete. case_decide as Hid; [done|]. intros Hq.
    destruct (Ht id q Hq) as (s0 & H0 & Hi & Hd). exists s0. split; [|done].
    rewrite lookup_insert_ne; [done|]. intros <-. simplify_eq.
  - intros q s0. rewrite lookup_insert. case_decide; [|apply Hn].
    intros; simplify_eq. by eapply Hn.
Qed.

(** The outcome of [Finish] on an active session: it never blocks, and discards the session
    exactly when it reports no error. *)
Lemma Finish_active st fs p s order : sess_wf st -> objs st !! p = Some s ->
  sessions st !! s_ID s = Some p ->
  exists st' fs' e, Finish p order st fs = Some (st', fs', e) /\ sess_wf st' /\
    next st' = next st /\ ExpiredSessionID st' = ExpiredSessionID st /\
    (forall q, q <> p -> objs st' !! q = objs st !! q) /\
    match e with
    | Some _ => sessions st' = sessions st /\
                objs st' !! p = Some (set_timer (Timer_Stop (timer s)) s)
    | None => sessions st' = delete (s_ID s) (sessions st) /\
              exists t, objs st' !! p = Some (set_timer t s) /\
                t_armed t = false /\ t_fired t = false /\ t_done t = 1 /\
                t_watcher t = t_watcher (timer s)
    end.
Proof.
  intros Hwf Hp Hs. unfold Finish. rewrite Hp.
  set (s1 := set_timer (Timer_Stop (timer s)) s). set (st1 := set_obj p s1 st).
  assert (Hwf1 : sess_wf st1) by (by eapply set_obj_wf).
  assert (Hp1 : objs st1 !! p = Some s1) by (simpl; by rewrite lookup_insert_eq).
  assert (Hother : forall q, q <> p -> objs st1 !! q = objs st !! q).
  { intros q Hq. simpl. by rewrite lookup_insert_ne. }
  destruct (save_all order s1 fs) as [fs1 [e|]].
  { exists st1, fs1, (Some e). by split_and!. }
  destruct (SaveSessionMetadata s1 (Session_Metadata s1) fs1) as [fs2 [e|]].
  { exists st1, fs2, (Some e). by split_and!. }
  destruct (remove_cache s1 fs2) as [fs3 [e|]].
  { exists st1, fs3, (Some e). by split_and!. }
  destruct (Discard_active st1 p s1 Hwf1 Hp1 Hs) as (t & E & Ht).
  rewrite E. cbn [mbind option_bind]. eexists _, fs3, None. split; [done|].
  split; [by eapply Discard_wf|]. split; [done|]. split; [done|]. split.
  - intros q Hq. cbn [objs]. rewrite lookup_insert_ne by done. by apply Hother.
  - split; [done|]. exists t. cbn [objs]. rewrite lookup_insert_eq. by destruct s.
Qed.

(** What a caller sees of a new session. *)
Lemma new_session_active C st0 sid token spool timeout perm secrets o cs uuid now st p s st' :
  sess_wf st -> sessions st !! makeSessionID uuid = None ->
  NewWithID C st0 sid token spool timeout perm secrets o cs uuid now st = (p, s, st') ->
  active st (s_ID s) = None /\ active st' (s_ID s) = Some s /\ Permissive s = perm /\
  Secrets_ s = secrets /\ IsRevoked s = false /\
  (forall h c ag, fst (CheckAuth st' (s_ID s) (Token s) h c ag) = true) /\
  (forall id, id <> s_ID s -> active st' id = active st id).
Proof.
  intros Hwf Hu H. destruct (NewWithID_wf _ _ _ _ _ _ _ _ _ _ _ _ _ _ _ _ Hwf Hu H) as (_ & Hfree & Hp).
  unfold NewWithID in H. injection H as <- <- <-. set (s := mkSession _ _ _ _ _ _ _ _ _ _ _ _ _ _ _) in *.
  change (match sessions st !! sid with Some _ => makeSessionID uuid | None => sid end) with (s_ID s).
  set (st' := mkSessState _ _ _ _).
  assert (Ha : active st' (s_ID s) = Some s).
  { unfold active, st'. simpl. rewrite lookup_insert_eq. simpl. by rewrite lookup_insert_eq. }
  split_and!; try done.
  - unfold active. by rewrite Hfree.
  - intros h c ag. unfold CheckAuth. rewrite Ha. simpl. by rewrite String.eqb_refl.
  - intros id Hid. unfold active, st'. simpl. rewrite lookup_insert_ne by done.
    destruct (sessions st !! id) as [q|] eqn:Eq; [|done]. simpl.
    rewrite lookup_insert_ne; [done|]. intros <-.
    destruct (wf_table _ Hwf _ _ Eq) as (? & ? & _). congruence.
Qed.

(** ** Properties *)

(** Creating a session never replaces one: a requested ID that is taken is exchanged for a generated
    one, the session becomes active under an ID that was free, and every other session stays as it
    was. A zero timeout stands for the default one, and the session starts with no artifacts, a
    valid token and the inspectors of its policy. *)
Theorem NewWithID_spec : forall C st0 sid token spool timeout perm secrets o cs uuid now st p s st',
  sess_wf st -> sessions st !! makeSessionID uuid = None ->
  NewWithID C st0 sid token spool timeout perm secrets o cs uuid now st = (p, s, st') ->
  sess_wf st' /\ sessions st !! s_ID s = None /\ active st' (s_ID s) = Some s /\
  (forall id, id <> s_ID s -> active st' id = active st id) /\
  NumSessions st' = S (NumSessions st) /\
  (sessions st !! sid = None -> s_ID s = sid) /\
  (sessions st !! sid <> None -> s_ID s = makeSessionID uuid) /\
  Timeout s = (if (timeout =? 0)%Z then DefaultSessionTimeout else timeout) /\
  Token s = token /\ revoked s = false /\ A s = ∅ /\
  Permissive s = perm /\ permissive (Insps s) = perm.
Proof.
  intros C st0 sid token spool timeout perm secrets o cs uuid now st p s st' Hwf Hu H.
  destruct (NewWithID_wf _ _ _ _ _ _ _ _ _ _ _ _ _ _ _ _ Hwf Hu H) as (Hwf' & Hfree & Hp).
  destruct (new_session_active _ _ _ _ _ _ _ _ _ _ _ _ _ _ _ _ Hwf Hu H) as (_ & Ha & _ & _ & _ & _ & Ho).
  unfold NewWithID in H. injection H as <- <- <-. simpl in Hfree.
  split_and!; try done; simpl.
  - unfold NumSessions. simpl. by apply map_size_insert_None.
  - by intros ->.
  - by destruct (sessions st !! sid).
Qed.

(** Authentication: credentials are accepted exactly if the ID is that of an active session, its
    token is the password, and the token was not revoked; exactly one security event is reported
    for an active session, the critical one when a revoked token is used, and none for an
    unknown ID. *)
Theorem CheckAuth_spec : forall st id pw hostIP clientIP agent,
  let '(ok, evs) := CheckAuth st id pw hostIP clientIP agent in
  let ev := mkEventData id id hostIP clientIP agent "" "" in
  (ok = true <-> exists s, active st id = Some s /\ revoked s = false /\ Token s = pw) /\
  (active st id = None -> evs = []) /\
  (forall s, active st id = Some s ->
     evs = [if revoked s then AuthnTokenReuse ev
            else if ok then AuthnLoginSuccess ev else AuthnLoginFail ev]).
Proof.
  intros st id pw hostIP clientIP agent. unfold CheckAuth.
  destruct (active st id) as [s|]; [|split_and!; naive_solver].
  destruct (revoked s) eqn:Er; [split_and!; try naive_solver; intros; simplify_eq; by rewrite Er|].
  destruct (String.eqb (Token s) pw) eqn:Et; simpl.
  - apply String.eqb_eq in Et. split_and!; try naive_solver. intros; simplify_eq; by rewrite Er.
  - apply String.eqb_neq in Et. split_and!; try naive_solver. intros; simplify_eq; by rewrite Er.
Qed.

(** Only the session's own token revokes it, a failed attempt changes nothing, and after the
    revocation no password is accepted for the session, while other sessions are not affected. *)
Theorem Revoke_spec : forall st id p s token now s' ok pw h c ag,
  sessions st !! id = Some p -> objs st !! p = Some s ->
  Revoke token now s = (s', ok) ->
  (ok = true <-> token = Token s) /\
  (ok = false -> s' = s) /\
  (ok = true -> IsRevoked s' = true /\ End_ s' = now /\
     fst (CheckAuth (set_obj p s' st) id pw h c ag) = false /\
     s_ID s' = s_ID s /\ A s' = A s /\ Token s' = Token s) /\
  (forall id', sessions st !! id' <> Some p ->
     CheckAuth (set_obj p s' st) id' pw h c ag = CheckAuth st id' pw h c ag).
Proof.
  intros st id p s token now s' ok pw h c ag Hid Hp H. unfold Revoke in H.
  assert (Hoth : forall id', sessions st !! id' <> Some p ->
     CheckAuth (set_obj p s' st) id' pw h c ag = CheckAuth st id' pw h c ag).
  { intros id' Hne. unfold CheckAuth. by rewrite active_set_obj_other. }
  destruct (String.eqb token (Token s)) eqn:E; simpl in H; simplify_eq.
  - apply String.eqb_eq in E. split_and!; try done. intros _. split_and!; try done.
    unfold CheckAuth. by rewrite (active_set_obj _ _ _ _ Hid).
  - apply String.eqb_neq in E. split_and!; try done.
Qed.

(** Artifacts of a session: the first artifact with a digest is kept and never replaced, downloads
    are appended to the artifact they belong to in the order they happen, and a download of an
    unknown digest is dropped. The result of a digest that was not inspected is a rejection. *)
Theorem session_artifacts : forall s a di k,
  A (AddArtifact a s) !! Sha256 (Meta a) =
    Some (match A s !! Sha256 (Meta a) with Some a0 => a0 | None => a end) /\
  (k <> Sha256 (Meta a) -> A (AddArtifact a s) !! k = A s !! k) /\
  A (AddDownload di s) !! k =
    (if decide (k = dl_Sha256 di) then (fun a => set_Downloads (Downloads a ++ [di]) a) <$> A s !! k
     else A s !! k) /\
  HasArtifact (AddArtifact a s) (Sha256 (Meta a)) = true /\
  (HasArtifact s k = false -> ArtifactResult s k = Rejected).
Proof.
  intros s a di k. unfold AddArtifact, AddDownload, HasArtifact, ArtifactResult. split_and!.
  - destruct (A s !! Sha256 (Meta a)) eqn:E; [done|]. simpl. by rewrite lookup_insert_eq.
  - intros Hk. destruct (A s !! Sha256 (Meta a)); [done|]. simpl. by rewrite lookup_insert_ne.
  - destruct (A s !! dl_Sha256 di) eqn:E; simpl; case_decide as Hk; subst.
    + by rewrite lookup_alter_eq.
    + by rewrite lookup_alter_ne.
    + by rewrite E.
    + done.
  - destruct (A s !! Sha256 (Meta a)) eqn:E; simpl; [by rewrite E|by rewrite lookup_insert_eq].
  - by destruct (A s !! k).
Qed.

(** When a session ends without an error its metadata is in its directory. *)
Lemma Finish_saved `{OL : !OsLaws} st fs p s order st' fs' : objs st !! p = Some s ->
  under (s_CacheDir s) (filepath_Join [SessionDir s; "session.json"]) = false ->
  Finish p order st fs = Some (st', fs', None) ->
  os_ReadFile fs' (filepath_Join [SessionDir s; "session.json"]) =
    Ok (MarshalIndent (str1 (chr 9)) (jsession true (Session_Metadata s))).
Proof.
  intros Hp Hpath HF. unfold Finish in HF. rewrite Hp in HF.
  set (s1 := set_timer (Timer_Stop (timer s)) s) in *.
  destruct (save_all order s1 fs) as [fs1 [e|]]; [done|].
  destruct (SaveSessionMetadata s1 (Session_Metadata s1) fs1) as [fs2 [e|]] eqn:E2; [done|].
  destruct (remove_cache s1 fs2) as [fs3 [e|]] eqn:E3; [done|].
  destruct (Discard p _) as [st2|]; [|done]. simpl in HF. simplify_eq.
  unfold SaveSessionMetadata in E2. destruct (os_MkdirAll fs1 (SessionDir s1)) as [fs4 [e|]]; [done|].
  apply os_WriteFile_read in E2. unfold remove_cache in E3.
  destruct (os_Stat fs2 (s_CacheDir s1)) as [[]|]; simplify_eq; try done.
  eapply os_RemoveAll_other in E3 as [E3 _]; [|exact Hpath]. rewrite E3. exact E2.
Qed.


(** The spool keeps the first copy of a file: when saving a download succeeds its content is in the
    spool under its digest; a file already there is left as it is. *)
Theorem SaveData_spec `{OL : !OsLaws} : forall a fs fs' data,
  let dest := filepath_Join [AssetDir a; Sha256_String (Sha256 (Meta a)) +:+ ".data"] in
  SaveData a fs = (fs', None) -> Tempfile a <> dest ->
  (os_ReadFile fs (Tempfile a) = Ok data -> (forall fs1, os_MkdirAll fs (Dir dest) = (fs1, None) ->
     os_Stat fs1 dest = Err ErrNotExist) -> os_ReadFile fs' dest = Ok data) /\
  (os_ReadFile fs dest = Ok data -> os_ReadFile fs' dest = Ok data).
Proof.
  intros a fs fs' data dest H Hne. unfold SaveData in H. fold dest in H.
  destruct (os_MkdirAll fs (Dir dest)) as [fs1 [e|]] eqn:E1; [done|].
  assert (Hrm : forall g, os_ReadFile (removeTempFile g (Tempfile a)) dest = os_ReadFile g dest).
  { intros g. unfold removeTempFile. destruct (os_Remove g (Tempfile a)) as [g' e] eqn:E.
    simpl. eapply os_Remove_other; [exact E|done]. }
  split.
  - intros Hr Hst. specialize (Hst _ eq_refl). rewrite Hst in H. simpl in H.
    assert (Hr1 : os_ReadFile fs1 (Tempfile a) = Ok data) by (eapply os_MkdirAll_read; eauto).
    destruct (MoveFile fs1 (Tempfile a) dest) as [fs2 e2] eqn:EM. simplify_eq. rewrite Hrm.
    unfold MoveFile in EM. destruct (os_Rename fs1 (Tempfile a) dest) as [fs3 [e3|]] eqn:ER.
    + destruct (os_Rename_fail _ _ _ _ _ (Tempfile a) ER) as [Hf _]. rewrite Hf, Hr1 in EM.
      destruct (os_Create fs3 dest) as [fs4 [e4|]]; [done|].
      destruct (os_WriteFile fs4 dest data) as [fs5 [e5|]] eqn:EW; [done|].
      rewrite (os_Remove_other _ _ _ _ dest EM) by done. by eapply os_WriteFile_read.
    + simplify_eq. by eapply os_Rename_read.
  - intros Hr. assert (Hr1 : os_ReadFile fs1 dest = Ok data) by (eapply os_MkdirAll_read; eauto).
    rewrite (os_ReadFile_stat _ _ _ Hr1) in H. simplify_eq. by rewrite Hrm.
Qed.

(** Timers: cancelling the timer of a session that is still being watched does not block and no
    expiry follows from then on; a watched timer that was not stopped can expire, and it
    is the only way to reach the send of the session ID. *)
Theorem timer_cancel : forall t,
  t_done t = 0 -> t_watcher t = Watching ->
  (exists t', Timer_Cancel t = Some t' /\
     (forall t'', rtc timer_step t' t'' -> t_watcher t'' <> Sending) /\
     exists t'', rtc timer_step t' t'' /\ t_watcher t'' = Exited) /\
  (t_armed t = true -> exists t'', rtc timer_step t t'' /\ t_watcher t'' = Sending).
Proof.
  intros [a f d w] Hd Hw. simpl in *. subst. split.
  - eexists. split; [reflexivity|]. split.
    + assert (H : forall t t', rtc timer_step t t' -> t_armed t = false -> t_fired t = false ->
        t_watcher t <> Sending -> t_watcher t' <> Sending).
      { induction 1 as [|x y z Hs _ IH]; [done|]. intros Ha Hf Hw. apply IH; destruct Hs; simpl in *; done. }
      intros t'' Hr. by apply (H _ _ Hr).
    + eexists. split; [eapply rtc_once, step_done|done].
  - intros ->. destruct f.
    + eexists. split; [eapply rtc_once, step_expired|done].
    + eexists. split; [eapply rtc_l; [apply step_fire|eapply rtc_once, step_expired]|done].
Qed.

End Session.

(** ** Witnesses *)

Section Witnesses.
#[local] Existing Instance text_mime.
#[local] Existing Instance literal_glob.
#[local] Existing Instance mem_os.
#[local] Instance demo_version : VersionText := {| service_version := "1.0" |}.

(** A first session "abc" with token "tok". *)
Definition demo_new : nat * Session (IS := unit) * SessState (IS := unit) :=
  NewWithID sample_constructors tt "abc" "tok" "/spool" 0%Z false [] empty_override sample_state
    (nul_bytes 16) 0%Z no_sessions.
Definition demo_p : nat := demo_new.1.1.
Definition demo_session : Session (IS := unit) := demo_new.1.2.
Definition demo_state : SessState (IS := unit) := demo_new.2.

Lemma demo_new_eq :
  NewWithID sample_constructors tt "abc" "tok" "/spool" 0%Z false [] empty_override sample_state
    (nul_bytes 16) 0%Z no_sessions = (demo_p, demo_session, demo_state).
Proof. reflexivity. Qed.

Lemma demo_wf : sess_wf demo_state /\ sessions demo_state !! s_ID demo_session = Some demo_p /\
  objs demo_state !! demo_p = Some demo_session.
Proof.
  destruct (NewWithID_wf _ _ _ _ _ _ _ _ _ _ _ _ _ _ _ _ no_sessions_wf
    ltac:(reflexivity) demo_new_eq) as (H & _).
  split; [exact H|]. split; reflexivity.
Qed.

Lemma NewWithID_spec_witness :
  sess_wf demo_state /\ active demo_state (s_ID demo_session) = Some demo_session.
Proof.
  destruct (NewWithID_spec sample_constructors tt "abc" "tok" "/spool" 0%Z false [] empty_override
    sample_state (nul_bytes 16) 0%Z no_sessions demo_p demo_session demo_state no_sessions_wf eq_refl
    demo_new_eq) as (H1 & _ & H2 & _).
  exact (conj H1 H2).
Defined.

Lemma Revoke_spec_witness :
  fst (CheckAuth (set_obj demo_p (fst (Revoke "tok" 5%Z demo_session)) demo_state) "abc" "tok" "" "" "")
  = false.
Proof.
  destruct demo_wf as (_ & H1 & H2).
  apply (Revoke_spec demo_state "abc" demo_p demo_session "tok" 5%Z
    (fst (Revoke "tok" 5%Z demo_session)) true "tok" "" "" "" H1 H2 eq_refl).
  reflexivity.
Defined.


(** A downloaded file waits in a temporary file. *)
Definition demo_artifact : Artifact := set_Tempfile "/tmp/a" (set_AssetDir "/spool/abc/assets" NewArtifact).
Definition demo_fs : MemFS := {[ "/tmp/a" := Some "data" ]}.

Lemma SaveData_spec_witness :
  os_ReadFile (fst (SaveData demo_artifact demo_fs))
    (filepath_Join ["/spool/abc/assets"; Sha256_String zero_sha256 +:+ ".data"]) = Ok "data".
Proof.
  assert (E : SaveData demo_artifact demo_fs = (fst (SaveData demo_artifact demo_fs), None))
    by (vm_compute; reflexivity).
  refine (proj1 (SaveData_spec (OL := mem_os_laws) demo_artifact demo_fs _ "data" E _) eq_refl _).
  - vm_compute. discriminate.
  - intros fs1 H. injection H as <-. vm_compute. reflexivity.
Defined.

Lemma timer_cancel_witness :
  exists t'', rtc timer_step newSessionTimer t'' /\ t_watcher t'' = Sending.
Proof. apply (timer_cancel newSessionTimer); reflexivity. Defined.
End Witnesses.
