(* ===== verification/SessionFile.v ===== *)
(** * The metadata file of a session, written and read back

    [LoadSessionMetadata] of [session/resources.go]: the file [session.json] that [SaveSessionMetadata] leaves in the
    directory of a session is decoded into the metadata it was made of, text outside UTF-8 apart. *)
From stdpp Require Import base gmap strings list option.
From Stdlib Require Import ZArith Lia Ascii.
From S2P Require Import Prelude GoStrings GoCodec Platform Json JsonDecode JsonString Net Digests Artifact.
From S2P Require Import Report Indent TimeText Paths Config Secrets SecLog Inspectors Session.

(** ** Decoding *)

Definition zero_metadata : SessionMetadata := mkSessionMetadata "" "" "" zero_time zero_time [] "" "" None.

(** A member of the object into the field with its tag; [Err] has none, other members are ignored. *)
Definition decode_metadata_field (k : string) (v : json) (m : SessionMetadata) : result SessionMetadata :=
  let '(mkSessionMetadata g c i st et ins sp pol err) := m in
  if field_is "generator" k then g ← decode_string v g; Ok (mkSessionMetadata g c i st et ins sp pol err)
  else if field_is "comment" k then c ← decode_string v c; Ok (mkSessionMetadata g c i st et ins sp pol err)
  else if field_is "session-id" k then i ← decode_string v i; Ok (mkSessionMetadata g c i st et ins sp pol err)
  else if field_is "start-time" k then st ← decode_time v st; Ok (mkSessionMetadata g c i st et ins sp pol err)
  else if field_is "end-time" k then et ← decode_time v et; Ok (mkSessionMetadata g c i st et ins sp pol err)
  else if field_is "inspectors" k then
    ins ← decode_slice "" decode_string v ins; Ok (mkSessionMetadata g c i st et ins sp pol err)
  else if field_is "spool-path" k then sp ← decode_string v sp; Ok (mkSessionMetadata g c i st et ins sp pol err)
  else if field_is "policy" k then pol ← decode_string v pol; Ok (mkSessionMetadata g c i st et ins sp pol err)
  else Ok m.
Definition decode_SessionMetadata : json -> SessionMetadata -> result SessionMetadata :=
  decode_struct decode_metadata_field.

Definition LoadSessionMetadata `{OS : Os} (fs : FS) (spoolDir sessionID : string) : result SessionMetadata :=
  f ← os_ReadFile fs (filepath_Join [spoolDir; sessionID; "session.json"]);
  json_Decode decode_SessionMetadata zero_metadata f.

(** ** Reading back *)

(** What a file keeps of the metadata: text in UTF-8, and no error. *)
Definition as_read (m : SessionMetadata) : SessionMetadata := {|
  Generator := ToValidUTF8 (Generator m);
  Comment_ := ToValidUTF8 (Comment_ m);
  sm_SessionID := ToValidUTF8 (sm_SessionID m);
  sm_StartTime := sm_StartTime m;
  sm_EndTime := sm_EndTime m;
  sm_Inspectors := map ToValidUTF8 (sm_Inspectors m);
  SpoolPath := ToValidUTF8 (SpoolPath m);
  Policy := ToValidUTF8 (Policy m);
  sm_Err := None;
|}.

(** The years that [time.Time] writes in JSON. *)
Definition json_year (t : Time) : Prop := (0 <= year_of t <= 9999)%Z.

Lemma decode_string_escaped html s old : decode_string (jstring html s) old = Ok (ToValidUTF8 s).
Proof. unfold decode_string, decode_text, jstring. by rewrite json_unescape_escape. Qed.

Lemma decode_time_written t old : json_year t -> decode_time (JStr (rfc3339nano t)) old = Ok t.
Proof. intros Ht. cbn [decode_time]. by rewrite time_read_back. Qed.

Lemma decode_strings_escaped html l old :
  decode_elements "" decode_string (map (jstring html) l) old = Ok (map ToValidUTF8 l).
Proof.
  revert old. induction l as [|s l IH]; intros old; [done|]. cbn [map decode_elements].
  by rewrite decode_string_escaped, IH.
Qed.

(** Members decode one after the other. *)
Lemma decode_fields_app {A} (f : string -> json -> A -> result A) m m' a :
  decode_fields f (m ++ m') a = (a ← decode_fields f m a; decode_fields f m' a).
Proof. revert a. induction m as [|[k v] m IH]; intros a; [done|]. simpl. destruct (f k v a); [apply IH|done]. Qed.

Lemma decode_session html sm : json_year (sm_StartTime sm) -> json_year (sm_EndTime sm) ->
  decode_SessionMetadata (jsession html sm) zero_metadata = Ok (as_read sm).
Proof.
  intros Hst Het. destruct sm as [g c i st et ins sp pol err]. cbn [sm_StartTime sm_EndTime] in *.
  unfold decode_SessionMetadata, jsession, decode_struct, session_members, member_omitempty, member, as_read, zero_metadata.
  cbn [Generator Comment_ sm_SessionID sm_StartTime sm_EndTime sm_Inspectors SpoolPath Policy].
  destruct (String.eqb_spec c "") as [->|Hc]; cbn [app decode_fields decode_metadata_field];
    repeat match goal with |- context [field_is ?a ?k] =>
      let b := eval vm_compute in (field_is a k) in change (field_is a k) with b; cbn iota end;
    repeat (rewrite ?decode_string_escaped, ?(decode_time_written st), ?(decode_time_written et) by done;
            cbn [mbind result_bind decode_slice decode_fields decode_metadata_field app];
            rewrite ?decode_strings_escaped;
            cbn [mbind result_bind];
            repeat match goal with |- context [field_is ?a ?k] =>
              let b := eval vm_compute in (field_is a k) in change (field_is a k) with b; cbn iota end).
  all: reflexivity.
Qed.

Lemma member_wf html k s : valid_raw k = true ->
  forallb (fun kv => valid_raw (fst kv) && json_wf (snd kv)) (member html k s) = true.
Proof. intros Hk. cbn [member forallb fst snd json_wf jstring]. by rewrite Hk, json_escape_valid. Qed.

Lemma plain_raw s : str_forall (fun c => unescaped c && negb (Ascii.eqb c dquote) && (32 <=? byte_Z c)%Z) s = true ->
  raw_piece s.
Proof.
  induction s as [|c s IH]; [by intros _ t raw r|]. cbn [str_forall]. intros [[[Hu Hq]%andb_true_iff Hc]%andb_true_iff Hs]%andb_true_iff.
  unfold unescaped in Hu. apply andb_true_iff in Hu as [_ Hb]. apply (raw_piece_app (str1 c)); [|by apply IH].
  apply raw_piece_char; [by intros ->|by intros ->|lia].
Qed.

(** What is written of a time is digits and punctuation. *)
Lemma digits_raw s : str_forall is_digit s = true -> raw_piece s.
Proof.
  induction s as [|c s IH]; [by intros _ t raw r|]. cbn [str_forall]. intros [Hc Hs]%andb_true_iff.
  apply (raw_piece_app (str1 c)); [|by apply IH]. unfold is_digit, in_range in Hc.
  apply raw_piece_char; [by intros ->|by intros ->|lia].
Qed.
Lemma pad_raw n z : (0 <= z < 10 ^ Z.of_nat (S n))%Z -> raw_piece (pad (S n) z).
Proof. intros Hz. apply digits_raw. by destruct (pad_spec n z Hz) as (_ & ? & _). Qed.
Lemma fraction_raw ns : (0 <= ns < Second)%Z -> raw_piece (fraction ns).
Proof.
  intros Hns. unfold fraction. case_match; [by intros s raw r|].
  apply raw_piece_app; [by apply raw_piece_char|]. apply digits_raw.
  destruct (trim_back (pad 9 ns)) as [k Hk]. destruct (pad_spec 8 ns Hns) as (_ & Hd & _). rewrite <- Hk in Hd.
  rewrite str_forall_split in Hd. by apply andb_true_iff in Hd as [? _].
Qed.

Lemma time_raw t : json_year t -> raw_piece (rfc3339nano t).
Proof.
  unfold json_year, year_of, rfc3339nano. set (secs := (t / Second)%Z). intros Hy.
  pose proof (civil_roundtrip (secs / 86400)) as Hc. destruct (civil_from_days (secs / 86400)) as [[y m] d].
  cbn [fst] in Hy. destruct Hc as (_ & Hm & Hd). assert (Hd31 : (d <= 31)%Z) by (revert Hd; unfold daysIn; repeat case_match; lia).
  assert (Hx : (0 <= secs mod 86400 < 86400)%Z) by (apply Z.mod_pos_bound; lia).
  revert Hx. generalize (secs mod 86400)%Z. intros x Hx.
  repeat apply raw_piece_app; try (by apply raw_piece_char);
    try (apply pad_raw; change (10 ^ Z.of_nat 2)%Z with 100%Z; change (10 ^ Z.of_nat 4)%Z with 10000%Z;
         first [lia | Z.to_euclidean_division_equations; lia]).
  apply fraction_raw. by apply Z.mod_pos_bound.
Qed.

Lemma jsession_wf html sm : json_year (sm_StartTime sm) -> json_year (sm_EndTime sm) -> json_wf (jsession html sm) = true.
Proof.
  intros Hst Het. unfold jsession, session_members, member_omitempty. cbn [json_wf].
  assert (Hins : json_wf (JArr (map (jstring html) (sm_Inspectors sm))) = true).
  { cbn [json_wf]. induction (sm_Inspectors sm) as [|s l IH]; [done|]. cbn [map forallb jstring json_wf].
    by rewrite json_escape_valid. }
  rewrite !forallb_app. cbn [forallb fst snd json_wf]. cbn [json_wf] in Hins.
  rewrite (valid_raw_piece _ (time_raw _ Hst)), (valid_raw_piece _ (time_raw _ Het)), Hins.
  case_match; rewrite ?member_wf by reflexivity; reflexivity.
Qed.

(** ** The round trip *)

Section RoundTrip.
Context `{ML : MimeLib} `{GL : GlobLib} `{OS : Os} `{VT : VersionText} {IS : Type} `{OL : !OsLaws}.

Lemma load_written fs spool id sm : json_year (sm_StartTime sm) -> json_year (sm_EndTime sm) ->
  os_ReadFile fs (filepath_Join [filepath_Join [spool; id]; "session.json"]) =
    Ok (MarshalIndent (str1 (chr 9)) (jsession true sm)) ->
  LoadSessionMetadata fs spool id = Ok (as_read sm) /\ SessionMetadataWritten fs spool id = true.
Proof using OL.
  intros Hst Het. rewrite filepath_Join_nested. cbn [app]. intros Hf. unfold LoadSessionMetadata, SessionMetadataWritten.
  rewrite (os_ReadFile_stat _ _ _ Hf), Hf. split; [|done]. cbn [mbind result_bind]. unfold json_Decode.
  destruct (MarshalIndent_back (str1 (chr 9)) (jsession true sm) eq_refl (jsession_wf true sm Hst Het)) as [_ ->].
  cbn [mbind result_bind]. by apply decode_session.
Qed.

Lemma as_read_same sm : Forall (fun s => utf8_ValidString s = true)
    ([Generator sm; Comment_ sm; sm_SessionID sm; SpoolPath sm; Policy sm] ++ sm_Inspectors sm) -> sm_Err sm = None ->
  as_read sm = sm.
Proof.
  intros [H Hl]%Forall_app He. rewrite !Forall_cons_iff in H. destruct H as (H1 & H2 & H3 & H4 & H5 & _).
  destruct sm as [g c i st et ins sp pol err]. unfold as_read. cbn [Generator Comment_ sm_SessionID SpoolPath Policy sm_Inspectors sm_StartTime sm_EndTime sm_Err] in *.
  rewrite !ToValidUTF8_same, He by done. f_equal.
  induction Hl as [|s l Hs Hl IH]; [done|]. cbn [map]. by rewrite ToValidUTF8_same, IH.
Qed.

(** C24: When a session ends without an error, its metadata file is there and loads as the session's metadata: every
    field comes back, the times to the nanosecond, the names of the inspectors in their order; text outside UTF-8
    comes back repaired, so for a session with text in UTF-8 the metadata is the same. *)
Theorem session_file_roundtrip : forall (st : SessState (IS := IS)) fs p (s : Session (IS := IS)) order spool st' fs',
  objs st !! p = Some s -> SessionDir s = filepath_Join [spool; s_ID s] ->
  under (s_CacheDir s) (filepath_Join [SessionDir s; "session.json"]) = false ->
  json_year (Start s) -> json_year (End_ s) ->
  Finish p order st fs = Some (st', fs', None) ->
  SessionMetadataWritten fs' spool (s_ID s) = true /\
  LoadSessionMetadata fs' spool (s_ID s) = Ok (as_read (Session_Metadata s)) /\
  (Forall (fun t => utf8_ValidString t = true) ([service_version; s_ID s; SessionDir s] ++ Inspectors_List (Insps s)) ->
   LoadSessionMetadata fs' spool (s_ID s) = Ok (Session_Metadata s)).
Proof using OL.
  intros st fs p s order spool st' fs' Hp Hdir Hcache Hst Het HF.
  pose proof (Finish_saved _ _ _ _ _ _ _ Hp Hcache HF) as Hf. rewrite Hdir in Hf.
  destruct (load_written fs' spool (s_ID s) (Session_Metadata s) Hst Het Hf) as [HL HW].
  split; [exact HW|]. split; [exact HL|]. intros [Ht Hi]%Forall_app. rewrite HL. f_equal.
  rewrite !Forall_cons_iff in Ht. destruct Ht as (H1 & H2 & H3 & _).
  apply as_read_same; [|reflexivity]. apply Forall_app. split; [|exact Hi].
  repeat apply Forall_cons; [|reflexivity|exact H2|exact H3| |by apply Forall_nil].
  - change (Generator _) with ("fetch-service " +:+ service_version).
    apply utf8_ValidString_iff, utf8_app; [by apply utf8_ascii|by apply utf8_ValidString_iff].
  - cbn [Policy Session_Metadata]. unfold policy_name. by destruct (Permissive s).
Qed.
End RoundTrip.

(** ** A session that ends *)

Section Witnesses.
#[local] Existing Instance text_mime.
#[local] Existing Instance literal_glob.
#[local] Existing Instance mem_os.
#[local] Existing Instance demo_version.

(** The demo session ends, and its file is read. *)
Definition demo_finished : option (SessState (IS := unit) * MemFS * option error) :=
  Finish demo_p [] demo_state (∅ : MemFS).
Definition demo_final : SessState (IS := unit) * MemFS :=
  match demo_finished with Some (st', fs', _) => (st', fs') | None => (demo_state, ∅) end.

Lemma demo_finished_eq : demo_finished = Some (demo_final.1, demo_final.2, None).
Proof.
  assert (E : match demo_finished with Some (_, _, None) => true | _ => false end = true) by (vm_compute; reflexivity).
  unfold demo_final. destruct demo_finished as [[[st' fs'] [e|]]|]; [discriminate E|reflexivity|discriminate E].
Qed.

Lemma session_file_roundtrip_witness :
  LoadSessionMetadata (demo_final.2 : MemFS) "/spool" "abc" = Ok (Session_Metadata demo_session).
Proof.
  apply (session_file_roundtrip (OL := mem_os_laws) demo_state (∅ : MemFS) demo_p demo_session [] "/spool"
    demo_final.1 demo_final.2).
  - reflexivity.
  - reflexivity.
  - vm_compute. reflexivity.
  - unfold json_year. vm_compute. split; discriminate.
  - unfold json_year. vm_compute. split; discriminate.
  - exact demo_finished_eq.
  - apply List.Forall_forall, List.forallb_forall. vm_compute. reflexivity.
Defined.

(** A file that is not there, one that is not JSON, and one with a single field. *)
Example load_missing : LoadSessionMetadata (∅ : MemFS) "/spool" "abc" = Err ErrNotExist.
Proof. vm_compute. reflexivity. Qed.
Example load_invalid :
  LoadSessionMetadata ({[ "/spool/abc/session.json" := Some "invalid-content" ]} : MemFS) "/spool" "abc" = Err json_syntax_error.
Proof. vm_compute. reflexivity. Qed.
Example load_partial :
  LoadSessionMetadata ({[ "/spool/abc/session.json" := Some (double_quotes "{'session-id': 'abc'}") ]} : MemFS) "/spool" "abc"
  = Ok (mkSessionMetadata "" "" "abc" zero_time zero_time [] "" "" None).
Proof. vm_compute. reflexivity. Qed.
End Witnesses.
