(* ===== verification/Messages.v ===== *)
(** * Messages to the service

    [service/messages/messages.go]: the requests the proxy, the control server and the fetchctl
    server send to the dispatcher, and what it answers. A return channel is a number; every channel
    is made for one message and holds its one answer. Artifacts are sent by pointer: their address. *)
From stdpp Require Import base gmap strings list option fin_maps.
From Stdlib Require Import ZArith Lia Ascii.
From S2P Require Import Prelude GoStrings GoCodec Platform Json Digests Artifact Config.
From S2P Require Import Secrets.

Definition ErrSessionNotFound : error := ESentinel "session not found".
Definition ErrSessionActive : error := ESentinel "session token is active".
Definition ErrSessionNotFinished : error := ESentinel "session not finished".
Definition ErrInvalidSessionToken : error := ESentinel "invalid session token".

Record ServiceStatus := mkServiceStatus {
  Uptime : Z;
  ss_StartTime : Time;
  SessionCount : Z;
  ActiveSessions : list SessionInfo;
}.

Record SessionCredentials := mkSessionCredentials {
  cred_ID : string;
  cred_Token : string;
  cred_Err : option error;
}.

Record RevokeTokenResult := mkRevokeTokenResult {
  rt_SessionID : string;
  rt_StartTime : string;
  rt_EndTime : string;
  rt_SpoolPath : string;
  rt_Err : option error;
}.

Record FetchCtlResult := mkFetchCtlResult { ctl_Status : string; ctl_Message : string }.

Record CreateSessionPayload := mkCreateSessionPayload {
  csp_SessionID : string;
  csp_Token : string;
  csp_Timeout : Z;
  csp_Mode : string;
  csp_InspectorsConfig : string;
}.

Section Messages.
Context `{ML : MimeLib} `{GL : GlobLib}.

Record SessionReportResult := mkSessionReportResult {
  sr_Metadata : SessionMetadata;
  sr_Artifacts : list Artifact;
  sr_Err : option error;
}.

Record CreateSessionRequest := mkCreateSession {
  cs_Timeout : Z;
  cs_Policy : string;
  cs_Secrets : list Secret;
  cs_InspectorsConfig : OverrideInspectorsConfig;
  cs_ClientIP : string;
  cs_Agent : string;
}.

Record ProxyAuthRequest := mkProxyAuth {
  pa_ID : string;
  pa_Pw : string;
  pa_HostIP : string;
  pa_ClientIP : string;
  pa_Agent : string;
}.

Record FetchCtlRequest := mkFetchCtl {
  fc_Operation : string;
  fc_Type : string;
  fc_ValidateOnly : bool;
  fc_Payload : string;
}.

Inductive Request : Type :=
| GetServiceStatus
| RequestInspectionMsg (a : nat)
| ResponseInspectionMsg (a : nat)
| CompleteInspectionMsg (a : nat)
| CreateSession (v : CreateSessionRequest)
| RevokeToken (id token : string)
| SessionReport (id : string)
| EndSession (id : string)
| DeleteResources (id : string)
| ProxyAuth (v : ProxyAuthRequest)
| FetchCtl (v : FetchCtlRequest).

Record Message := mkMessage { Rch : nat; Req : Request }.

Inductive Answer : Type :=
| AnsStatus (v : ServiceStatus)
| AnsError (e : option error)
| AnsCredentials (v : SessionCredentials)
| AnsRevoked (v : RevokeTokenResult)
| AnsReport (v : SessionReportResult)
| AnsAuth (ok : bool)
| AnsFetchCtl (v : FetchCtlResult).

(** The constructors of the messages of the control API. *)
Definition NewCreateSession (policy : string) (timeout : Z) (secrets : list Secret)
    (cfg : OverrideInspectorsConfig) : Request :=
  CreateSession (mkCreateSession timeout policy secrets cfg "" "").
Definition NewFetchCtl (operation optype : string) (validateOnly : bool) (payload : string) : Request :=
  FetchCtl (mkFetchCtl operation optype validateOnly payload).
End Messages.
