(* ===== verification/Service.v ===== *)
(** * The service

    [service/handlers.go], [service/fetchctl_handlers.go], [service/options.go] and the dispatcher
    and start-up of [service/service.go]: what the dispatcher does with every message, the
    goroutines it starts, and the expiry of sessions. *)
From stdpp Require Import base gmap strings list option fin_maps.
From Stdlib Require Import ZArith Lia Ascii.
From S2P Require Import Prelude GoStrings GoCodec Platform Json JsonDecode Net Digests Artifact.
From S2P Require Import Report Config Secrets SecLog Inspectors Session Messages.

Record Options := mkOptions {
  ControlPort : Z;
  ProxyPort : Z;
  Config_ : string;
  Spool : string;
  PermissiveMode : bool;
  KeyPath : string;
  CertPath : string;
  IdleShutdown : Z;
}.

(** What a handler reads from the clock and draws at random, and the orders in which it
    enumerates maps. *)
Record Draws := mkDraws {
  d_now : Time;
  d_uuid : string;
  d_uuid' : string;
  d_token : nat -> nat;
  d_digests : list Sha256Digest;
  d_sessions : list string;
}.

(** [UpdateCert] of [proxy/cert.go]: checks and installs a certificate and key. *)
Class CertUpdate `{Os} := {
  proxyUpdateCert : bool -> string -> string -> string -> FS -> FS * option error }.

Section Service.
Context `{ML : MimeLib} `{GL : GlobLib} `{OS : Os} `{VT : VersionText} `{Y : !YamlLib}
  `{FT : FloatText} `{CU : !CertUpdate} {IS : Type}.
(** The inspectors a session gets, and what they remember at its start. *)
Variable C : Constructors (IS := IS).
Variable st0 : IS.

(** ** State *)

Record World := mkWorld {
  w_sess : SessState (IS := IS);
  w_fs : FS;
  w_cfg : ConfigState;
  w_arts : gmap nat Artifact;  (** artifacts by address *)
  totalSessions : Z;
  w_start : Time;
  w_opt : Options;
}.

(** A goroutine started by a handler. [WaitCompletion] holds the result of the inspection while it
    waits for the answer on its own channel. *)
Inductive Task : Type :=
| InspectRequestTask (rch : nat) (s a : nat)
| InspectResponseTask (rch : nat) (s a : nat)
| WaitCompletion (rch : nat) (err : option error) (crch : nat)
| DeleteTask (rch : nat) (spoolDir sessionID : string).

(** What a handler does besides changing the state. *)
Inductive Output : Type :=
| Reply (rch : nat) (v : Answer)
| Spawn (t : Task)
| Event (e : SecEvent)
| Hang.  (** the dispatcher blocks *)

Definition set_w_sess (v : _) (w : World) : World :=
  mkWorld v (w_fs w) (w_cfg w) (w_arts w) (totalSessions w) (w_start w) (w_opt w) .
Definition set_w_fs (v : _) (w : World) : World :=
  mkWorld (w_sess w) v (w_cfg w) (w_arts w) (totalSessions w) (w_start w) (w_opt w) .
Definition set_w_cfg (v : _) (w : World) : World :=
  mkWorld (w_sess w) (w_fs w) v (w_arts w) (totalSessions w) (w_start w) (w_opt w) .
Definition set_w_arts (v : _) (w : World) : World :=
  mkWorld (w_sess w) (w_fs w) (w_cfg w) v (totalSessions w) (w_start w) (w_opt w) .
Definition set_totalSessions (v : _) (w : World) : World :=
  mkWorld (w_sess w) (w_fs w) (w_cfg w) (w_arts w) v (w_start w) (w_opt w) .

Definition set_session (p : nat) (s : Session) (w : World) : World :=
  set_w_sess (set_obj p s (w_sess w)) w.
Definition set_art (p : nat) (a : Artifact) (w : World) : World :=
  set_w_arts (<[p := a]> (w_arts w)) w.

(** ** Inspections *)

Definition evaluateRequestInspection (s : Session (IS := IS)) (a : Artifact) : option error :=
  if negb (RequestPending a) then
    if Permissive s then None else Some ErrRejectedRequest
  else None.

Definition runRequestInspection (s : Session (IS := IS)) (st : IS) (a : Artifact) :
    IS * Artifact * option error :=
  match RunRequestInspectors (Insps s) st a with
  | (st, a, Some err) => (st, a, Some err)
  | (st, a, None) => (st, a, evaluateRequestInspection s a)
  end.

Definition evaluateResponseInspection (s : Session (IS := IS)) (a : Artifact) :
    Artifact * option error :=
  if Artifact_Rejected a then
    (set_Result Rejected a, if Permissive s then None else Some ErrRejectedArtifact)
  else (set_Result Approved a, None).

Definition runResponseInspection (s : Session (IS := IS)) (fs : FS) (st : IS) (a : Artifact) :
    IS * Artifact * option error :=
  match RunArtifactInspectors (Insps s) (AssetDir a) fs st a with
  | (st, a, Some err) => (st, set_Result Rejected a, Some err)
  | (st, a, None) => let '(a, e) := evaluateResponseInspection s a in (st, a, e)
  end.

(** ** Handlers *)

(** Answers on the return channel of the message. *)
Definition answer (rch : nat) (v : Answer) (w : World) : World * list Output := (w, [Reply rch v]).

Definition not_active (what id : string) : error :=
  EText ("cannot " +:+ what +:+ ": session " +:+ id +:+ " is not active").

Definition handleRequestInspection (rch pa : nat) (a : Artifact) (w : World) : World * list Output :=
  match GetSession (w_sess w) (SessionID a) with
  | None => answer rch (AnsError (Some (not_active "inspect request" (SessionID a)))) w
  | Some s => (w, [Spawn (InspectRequestTask rch s pa)])
  end.

Definition set_EndTime (now : Time) (d : Download) : Download :=
  mkDownload (StartTime d) now (dl_Method d) (dl_URL d) (Address d) (UserAgent d) (RequestHeader d)
    (dl_StatusCode d) (dl_Status d) (ContentType d) (ResponseHeader d) (dl_Sha256 d).

(** Removes the temporary file of an artifact; an error is ignored. *)
Definition remove_tempfile (a : Artifact) (w : World) : World :=
  set_w_fs (fst (os_Remove (w_fs w) (Tempfile a))) w.

Definition handleResponseInspection (rch pa : nat) (a : Artifact) (d : Draws) (w : World) :
    World * list Output :=
  let digest := Sha256 (Meta a) in
  match GetSession (w_sess w) (SessionID a) with
  | None =>
      answer rch (AnsError (Some (not_active "inspect response" (SessionID a)))) (remove_tempfile a w)
  | Some p =>
      match objs (w_sess w) !! p with
      | None => (w, [])
      | Some s =>
          let a := set_CurrentDownload (set_EndTime (d_now d) (CurrentDownload a)) a in
          let w := set_art pa a w in
          if HasArtifact s digest then
            let s := AddDownload (CurrentDownload a) s in
            let w := remove_tempfile a (set_session p s w) in
            if negb (Permissive s) && bool_decide (ArtifactResult s digest = Rejected)
            then answer rch (AnsError (Some ErrRejectedArtifact)) w
            else answer rch (AnsError None) w
          else
            match SaveData a (w_fs w) with
            | (fs, Some err) => answer rch (AnsError (Some err)) (set_w_fs fs w)
            | (fs, None) => (set_w_fs fs w, [Spawn (InspectResponseTask rch p pa)])
            end
      end
  end.

Definition handleCompleteInspection (rch : nat) (a : Artifact) (w : World) : World * list Output :=
  let digest := Sha256 (Meta a) in
  match GetSession (w_sess w) (SessionID a) with
  | None => answer rch (AnsError (Some (not_active "complete inspection" (SessionID a)))) w
  | Some p =>
      match objs (w_sess w) !! p with
      | None => (w, [])
      | Some s =>
          let s := if negb (HasArtifact s digest) then AddArtifact a s else s in
          let s := AddDownload (CurrentDownload a) s in
          answer rch (AnsError None) (set_session p s w)
      end
  end.

(** [time.Duration(v.Timeout * uint64(time.Second))]: both the product and the conversion wrap. *)
Definition create_timeout (t : Z) : Duration := wrap_i64 (wrap_u64 (t * Second)).

Definition failed_credentials (e : error) : Answer :=
  AnsCredentials (mkSessionCredentials "" "" (Some e)).

Definition handleCreateSession (rch : nat) (v : CreateSessionRequest) (d : Draws) (w : World) :
    World * list Output :=
  let is_permissive := String.eqb (cs_Policy v) "permissive" in
  if is_permissive && negb (PermissiveMode (w_opt w)) then
    answer rch (failed_credentials ErrInvalidSessionPolicy) w
  else
    let perm := is_permissive && PermissiveMode (w_opt w) in
    let timeout := create_timeout (cs_Timeout v) in
    match ValidateSecrets (cs_Secrets v) with
    | Some err => answer rch (failed_credentials err) w
    | None =>
        let '(_, s, ss) := New C st0 (Spool (w_opt w)) timeout perm (cs_Secrets v)
          (cs_InspectorsConfig v) (w_cfg w) (d_uuid d) (d_uuid' d) (d_token d) (d_now d) (w_sess w) in
        answer rch (AnsCredentials (mkSessionCredentials (s_ID s) (Token s) None))
          (set_totalSessions (wrap_u64 (totalSessions w + 1)) (set_w_sess ss w))
    end.

Definition revoke_failed (e : error) : Answer :=
  AnsRevoked (mkRevokeTokenResult "" "" "" "" (Some e)).

Definition handleRevokeToken (rch : nat) (id token : string) (d : Draws) (w : World) :
    World * list Output :=
  match GetSession (w_sess w) id with
  | None => answer rch (revoke_failed ErrSessionNotFound) w
  | Some p =>
      match objs (w_sess w) !! p with
      | None => (w, [])
      | Some s =>
          match Revoke token (d_now d) s with
          | (_, false) => answer rch (revoke_failed ErrInvalidSessionToken) w
          | (s, true) =>
              answer rch (AnsRevoked (mkRevokeTokenResult (s_ID s) (Time_String (Start s))
                (Time_String (End_ s)) (Spool (w_opt w)) None)) (set_session p s w)
          end
      end
  end.

(** The report of a session that cannot be given: only its error. *)
Definition report_failed (in_metadata err : error) : Answer :=
  AnsReport (mkSessionReportResult
    (mkSessionMetadata "" "" "" zero_time zero_time [] "" "" (Some in_metadata)) [] (Some err)).

Definition handleSessionReport (rch : nat) (id : string) (d : Draws) (w : World) :
    World * list Output :=
  match active (w_sess w) id with
  | None => answer rch (report_failed ErrSessionNotFound ErrSessionNotFound) w
  | Some s =>
      if negb (IsRevoked s) then
        answer rch (report_failed (EText ("cannot get session report: session " +:+ id +:+
          " token was not revoked")) ErrSessionActive) w
      else answer rch (AnsReport (mkSessionReportResult (Session_Metadata s)
             (Artifacts s (d_digests d)) None)) w
  end.

(** Runs [Finish] on a session; the dispatcher hangs if that blocks. *)
Definition finish_session (p : nat) (d : Draws) (w : World) (k : World -> option error ->
    World * list Output) : World * list Output :=
  match Finish p (d_digests d) (w_sess w) (w_fs w) with
  | None => (w, [Hang])
  | Some (ss, fs, e) => k (set_w_fs fs (set_w_sess ss w)) e
  end.

Definition handleEndSession (rch : nat) (id : string) (d : Draws) (w : World) : World * list Output :=
  match GetSession (w_sess w) id with
  | None => answer rch (AnsError (Some ErrSessionNotFound)) w
  | Some p => finish_session p d w (fun w e => answer rch (AnsError e) w)
  end.

Definition handleDeleteResources (rch : nat) (id : string) (w : World) : World * list Output :=
  match GetSession (w_sess w) id with
  | Some _ => answer rch (AnsError (Some ErrSessionNotFinished)) w
  | None => (w, [Spawn (DeleteTask rch (Spool (w_opt w)) id)])
  end.

(** ** Fetchctl operations *)

Definition fetchCtlUpdateConfig (v : FetchCtlRequest) (w : World) : World * FetchCtlResult :=
  let '(cs, fs, err) := UpdateConfig (fc_Type v) (fc_ValidateOnly v) (fc_Payload v)
                          (Config_ (w_opt w)) (w_cfg w) (w_fs w) in
  let w := set_w_fs fs (set_w_cfg cs w) in
  match err with
  | Some _ => (w, mkFetchCtlResult "error" (fc_Type v +:+ " configuration update error"))
  | None =>
      if fc_ValidateOnly v then (w, mkFetchCtlResult "ok" "configuration validated")
      else (w, mkFetchCtlResult "ok" "configuration updated")
  end.

Definition fetchCtlUpdateCert (v : FetchCtlRequest) (w : World) : World * FetchCtlResult :=
  let '(fs, err) := proxyUpdateCert (fc_ValidateOnly v) (fc_Payload v) (CertPath (w_opt w))
                      (KeyPath (w_opt w)) (w_fs w) in
  let w := set_w_fs fs w in
  match err with
  | Some _ => (w, mkFetchCtlResult "error" "certificate update error")
  | None =>
      if fc_ValidateOnly v then (w, mkFetchCtlResult "ok" "certificate validated")
      else (w, mkFetchCtlResult "ok" "proxy certificate updated")
  end.

(** A base64 string into a byte slice. *)
Definition decode_bytes (v : json) : result string :=
  match v with JStr raw => b64_decode (json_unescape raw) | JNull => Ok "" | _ => Err type_mismatch end.

Fixpoint decode_payload (p : CreateSessionPayload) (m : list (string * json)) :
    result CreateSessionPayload :=
  match m with
  | [] => Ok p
  | (k, v) :: m' =>
      p' ← (if field_is "session-id" k then
              s ← decode_text (csp_SessionID p) v;
              Ok (mkCreateSessionPayload s (csp_Token p) (csp_Timeout p) (csp_Mode p)
                    (csp_InspectorsConfig p))
            else if field_is "token" k then
              s ← decode_text (csp_Token p) v;
              Ok (mkCreateSessionPayload (csp_SessionID p) s (csp_Timeout p) (csp_Mode p)
                    (csp_InspectorsConfig p))
            else if field_is "timeout" k then
              z ← decode_int (csp_Timeout p) v;
              Ok (mkCreateSessionPayload (csp_SessionID p) (csp_Token p) z (csp_Mode p)
                    (csp_InspectorsConfig p))
            else if field_is "mode" k then
              s ← decode_text (csp_Mode p) v;
              Ok (mkCreateSessionPayload (csp_SessionID p) (csp_Token p) (csp_Timeout p) s
                    (csp_InspectorsConfig p))
            else if field_is "inspectors-configuration" k then
              s ← decode_bytes v;
              Ok (mkCreateSessionPayload (csp_SessionID p) (csp_Token p) (csp_Timeout p) (csp_Mode p) s)
            else Ok p);
      decode_payload p' m'
  end.

Definition unmarshal_payload (data : string) : result CreateSessionPayload :=
  j ← json_parse data;
  match j with
  | JObj m => decode_payload (mkCreateSessionPayload "" "" 0 "" "") m
  | JNull => Ok (mkCreateSessionPayload "" "" 0 "" "")
  | _ => Err type_mismatch
  end.

Definition malformed (e : error) : FetchCtlResult :=
  mkFetchCtlResult "error" ("malformed payload: " +:+ error_string e).

Definition fetchCtlCreateSession (v : FetchCtlRequest) (d : Draws) (w : World) :
    World * FetchCtlResult * list SecEvent :=
  match unmarshal_payload (fc_Payload v) with
  | Err e => (w, malformed e, [])
  | Ok params =>
      let perm := PermissiveMode (w_opt w) && String.eqb (csp_Mode params) "permissive" in
      let timeout := wrap_i64 (csp_Timeout params * Second) in
      let cfg := if String.eqb (csp_InspectorsConfig params) "" then Ok empty_override
                 else yaml_override (csp_InspectorsConfig params) in
      match cfg with
      | Err e => (w, malformed e, [])
      | Ok cfg =>
          let '(_, s, ss) := NewWithID C st0 (csp_SessionID params) (csp_Token params)
            (Spool (w_opt w)) timeout perm [] cfg (w_cfg w) (d_uuid d) (d_now d) (w_sess w) in
          (set_totalSessions (wrap_u64 (totalSessions w + 1)) (set_w_sess ss w),
           mkFetchCtlResult "ok" ("session " +:+ s_ID s +:+ ":" +:+ Token s +:+ " created (" +:+
             Policy (Session_Metadata s) +:+ ")"),
           [AuthnTokenCreated (mkEventData (s_ID s) "fetchctl" "" "" "" "" "")])
      end
  end.

Definition fetchCtlListArtifacts (v : FetchCtlRequest) (d : Draws) (w : World) : FetchCtlResult :=
  match active (w_sess w) (fc_Payload v) with
  | None => mkFetchCtlResult "error" "session does not exist"
  | Some s =>
      match jartifacts false (Artifacts s (d_digests d)) with
      | Err e => mkFetchCtlResult "error" (error_string e)
      | Ok j => mkFetchCtlResult "ok" (JSONMarshalIndentNoHTMLEscape "   " j)
      end
  end.

Definition handleFetchCtl (v : FetchCtlRequest) (d : Draws) (w : World) :
    World * FetchCtlResult * list SecEvent :=
  let ev := AuthzAdmin (mkEventData "fetchctl" "fetchctl" "" "" "" "" "")
              (ReplaceAll (fc_Operation v) "-" "_") in
  let op := fc_Operation v in
  if String.eqb op "version" then (w, mkFetchCtlResult "ok" service_version, [ev])
  else if String.eqb op "update-config" then
    let '(w, r) := fetchCtlUpdateConfig v w in (w, r, [ev])
  else if String.eqb op "update-cert" then
    let '(w, r) := fetchCtlUpdateCert v w in (w, r, [ev])
  else if String.eqb op "create-session" then
    let '(w, r, evs) := fetchCtlCreateSession v d w in (w, r, ev :: evs)
  else if String.eqb op "list-artifacts" then (w, fetchCtlListArtifacts v d w, [ev])
  else (w, mkFetchCtlResult "error" "unsupported operation", [ev]).

(** ** The dispatcher *)

Definition with_art (pa : nat) (w : World) (k : Artifact -> World * list Output) :
    World * list Output :=
  match w_arts w !! pa with Some a => k a | None => (w, []) end.

Definition handleMessages (msg : Message) (d : Draws) (w : World) : World * list Output :=
  let rch := Rch msg in
  match Req msg with
  | GetServiceStatus =>
      answer rch (AnsStatus (mkServiceStatus (whole_seconds (d_now d - w_start w)%Z) (w_start w)
        (totalSessions w) (SessionInfos (w_sess w) (d_sessions d) (d_now d)))) w
  | RequestInspectionMsg pa => with_art pa w (fun a => handleRequestInspection rch pa a w)
  | ResponseInspectionMsg pa => with_art pa w (fun a => handleResponseInspection rch pa a d w)
  | CompleteInspectionMsg pa => with_art pa w (fun a => handleCompleteInspection rch a w)
  | CreateSession v => handleCreateSession rch v d w
  | RevokeToken id token => handleRevokeToken rch id token d w
  | SessionReport id => handleSessionReport rch id d w
  | EndSession id => handleEndSession rch id d w
  | DeleteResources id => handleDeleteResources rch id w
  | ProxyAuth v =>
      let '(ok, evs) := CheckAuth (w_sess w) (pa_ID v) (pa_Pw v) (pa_HostIP v) (pa_ClientIP v)
                          (pa_Agent v) in
      (w, map Event evs ++ [Reply rch (AnsAuth ok)])
  | FetchCtl v =>
      let '(w, r, evs) := handleFetchCtl v d w in
      (w, map Event evs ++ [Reply rch (AnsFetchCtl r)])
  end.

(** An expired session is finished and its files are removed; errors are only logged. *)
Definition handleExpired (sessionID : string) (d : Draws) (w : World) : World * list Output :=
  match GetSession (w_sess w) sessionID with
  | None => (w, [])
  | Some p => finish_session p d w (fun w _ =>
      (set_w_fs (fst (RemoveResources (w_fs w) (Spool (w_opt w)) sessionID)) w, []))
  end.

(** ** Goroutines *)

(** The inspection goroutines, run to the point where they answer or wait. [crch] is the channel
    made for the completion message. Inspections of a session are not interleaved with each other;
    they use the session object even if the session has ended. *)
Definition run_task (t : Task) (crch : nat) (w : World) : World * list Output * list Message :=
  match t with
  | InspectRequestTask rch p pa =>
      match objs (w_sess w) !! p, w_arts w !! pa with
      | Some s, Some a =>
          let '(st, a, e) := runRequestInspection s (ins_state s) a in
          (set_art pa a (set_session p (set_ins_state st s) w), [Reply rch (AnsError e)], [])
      | _, _ => (w, [], [])
      end
  | InspectResponseTask rch p pa =>
      match objs (w_sess w) !! p, w_arts w !! pa with
      | Some s, Some a =>
          let '(st, a, e) := runResponseInspection s (w_fs w) (ins_state s) a in
          (set_art pa a (set_session p (set_ins_state st s) w), [Spawn (WaitCompletion rch e crch)],
           [mkMessage crch (CompleteInspectionMsg pa)])
      | _, _ => (w, [], [])
      end
  | WaitCompletion rch err crch => (w, [], [])
  | DeleteTask rch spoolDir sessionID =>
      let '(fs, e) := RemoveResources (w_fs w) spoolDir sessionID in
      (set_w_fs fs w, [Reply rch (AnsError e)], [])
  end.

(** The answer of an inspection, once the completion is answered. *)
Definition completion_answer (err completion : option error) : Answer :=
  AnsError (match completion with Some e => Some e | None => err end).

(** ** Start-up *)

Definition SnapBundledConfigDir (snap : string) : string := snap +:+ "/conf".

(** [RunningFromSnap], from the environment. *)
Definition RunningFromSnap (snap snap_name : string) : bool :=
  negb (String.eqb snap "") && String.eqb snap_name "fetch-service".

Definition not_exist (e : option error) : bool :=
  match e with Some e => errors_is e ErrNotExist | None => false end.

Definition loadHTTPProxyRulesOrDefault (snap snap_name cfgdir : string) (fs : FS) (cs : ConfigState) :
    ConfigState * option error :=
  let '(cs, err) := LoadHTTPProxyRules fs cfgdir cs in
  if not_exist err then
    if RunningFromSnap snap snap_name then LoadHTTPProxyRules fs (SnapBundledConfigDir snap) cs
    else (cs, None)
  else (cs, err).

Definition loadDefaultInspectorsConfigCombine (snap snap_name cfgdir : string) (fs : FS)
    (cs : ConfigState) : ConfigState * option error :=
  if negb (RunningFromSnap snap snap_name) then LoadInspectorsConfig fs cfgdir cs
  else
    match LoadInspectorsConfig fs (SnapBundledConfigDir snap) cs with
    | (cs, Some err) => (cs, Some err)
    | (cs, None) =>
        match LoadOverrideInspectorsConfig fs cfgdir cs with
        | (cs, Some err) => if errors_is err ErrNotExist then (cs, None) else (cs, Some err)
        | (cs, None) => (cs, None)
        end
    end.

End Service.
