(* ===== verification/ServiceProps.v ===== *)
(** * What the service promises

    Properties of the handlers of [Service.v]: what reaches a strict session, the life of a session
    from its creation to the removal of its files, and the start-up. *)
From stdpp Require Import base gmap strings list option fin_maps.
From Stdlib Require Import ZArith Lia Ascii.
From S2P Require Import Prelude GoStrings GoCodec Platform Json Net Digests Artifact.
From S2P Require Import Report Config Secrets SecLog Inspectors Session Messages Service.

Section ServiceProps.
Context `{ML : MimeLib} `{GL : GlobLib} `{OS : Os} `{VT : VersionText} `{Y : !YamlLib}
  `{FT : FloatText} `{CU : !CertUpdate} {IS : Type}.
Variable C : Constructors (IS := IS).
Variable st0 : IS.
Notation World := (World (IS := IS)).
Notation Sess := (Session (IS := IS)).

(** ** Inspections *)

(** C8: The inspection verdict decides: the result recorded for a downloaded file is an approval
    exactly if the inspectors ran without error, found the request valid and approved the file; in
    a strict session the file is delivered (no error) exactly then. In a permissive session it is
    delivered whenever the inspectors ran without error, its result being recorded all the same. *)
Theorem response_verdict : forall (s : Sess) fs st a st' a' e,
  runResponseInspection s fs st a = (st', a', e) ->
  let run := RunArtifactInspectors (Insps s) (AssetDir a) fs st a in
  (Result a' = Approved <-> run.2 = None /\ Artifact_Approved run.1.2 = true) /\
  (Result a' = Rejected \/ Result a' = Approved) /\
  (Artifact_Approved a' = Artifact_Approved run.1.2) /\
  (Permissive s = false -> (e = None <-> Result a' = Approved)) /\
  (Permissive s = true -> (e = None <-> run.2 = None)).
Proof.
  intros s fs st a st' a' e H run. subst run. unfold runResponseInspection, evaluateResponseInspection in H.
  destruct (RunArtifactInspectors _ _ _ _ _) as [[st1 a1] [err|]]; simpl.
  - simplify_eq. simpl. split_and!; naive_solver.
  - unfold Artifact_Rejected in H. destruct (Artifact_Approved a1) eqn:Ea; simpl in H; simplify_eq;
      (split_and!; [simpl; naive_solver..| |]); simpl; destruct (Permissive s); naive_solver.
Qed.

(** A request leaves a strict session only if an inspector found it valid: the request inspection of
    a strict session succeeds exactly if the inspectors ran without error and left a
    pending opinion; a permissive session sends it on whenever they ran without error. *)
Theorem request_verdict : forall (s : Sess) st a st' a' e,
  runRequestInspection s st a = (st', a', e) ->
  let run := RunRequestInspectors (Insps s) st a in
  a' = run.1.2 /\
  (Permissive s = false -> (e = None <-> run.2 = None /\ RequestPending a' = true)) /\
  (Permissive s = true -> (e = None <-> run.2 = None)).
Proof.
  intros s st a st' a' e H run. subst run. unfold runRequestInspection, evaluateRequestInspection in H.
  destruct (RunRequestInspectors _ _ _) as [[st1 a1] [err|]]; simpl; [simplify_eq; naive_solver|].
  simplify_eq. destruct (RequestPending a') eqn:Ea, (Permissive s); naive_solver.
Qed.

(** A file that the session has seen is not inspected again: its stored verdict is the answer, no
    goroutine is started, the new temporary file is removed, and the stored artifact only gains the
    new download, with the time it ended. *)
Theorem known_artifact_reused : forall rch pa a d (w : World) p s a0,
  sess_wf (w_sess w) ->
  sessions (w_sess w) !! SessionID a = Some p -> objs (w_sess w) !! p = Some s ->
  A s !! Sha256 (Meta a) = Some a0 -> dl_Sha256 (CurrentDownload a) = Sha256 (Meta a) ->
  exists w' s', handleResponseInspection rch pa a d w =
    (w', [Reply rch (AnsError (if negb (Permissive s) && bool_decide (Result a0 = Rejected)
                               then Some ErrRejectedArtifact else None))]) /\
    active (w_sess w') (SessionID a) = Some s' /\
    A s' = <[Sha256 (Meta a) := set_Downloads (Downloads a0 ++
             [set_EndTime (d_now d) (CurrentDownload a)]) a0]> (A s) /\
    w_fs w' = fst (os_Remove (w_fs w) (Tempfile a)) /\ w_cfg w' = w_cfg w /\
    (forall id, id <> SessionID a -> active (w_sess w') id = active (w_sess w) id).
Proof.
  intros rch pa a d w p s a0 Hwf Hid Hp Ha Hd. unfold handleResponseInspection, GetSession, sessions_Get.
  rewrite Hid, Hp. unfold HasArtifact at 1. rewrite Ha.
  set (dl := set_EndTime (d_now d) (CurrentDownload a)).
  assert (Hadd : AddDownload dl s =
    set_A (<[Sha256 (Meta a) := set_Downloads (Downloads a0 ++ [dl]) a0]> (A s)) s).
  { unfold AddDownload, HasArtifact. change (dl_Sha256 dl) with (dl_Sha256 (CurrentDownload a)).
    rewrite Hd, Ha. f_equal. apply map_eq. intros k. rewrite lookup_alter, lookup_insert.
    case_decide; [by subst; rewrite Ha|done]. }
  change (CurrentDownload (set_CurrentDownload dl a)) with dl. rewrite Hadd.
  set (s' := set_A _ s).
  set (w' := remove_tempfile (set_CurrentDownload dl a) (set_session p s' (set_art pa _ w))).
  assert (Hr : ArtifactResult s' (Sha256 (Meta a)) = Result a0).
  { unfold ArtifactResult, s'. simpl. by rewrite lookup_insert_eq. }
  change (Permissive s') with (Permissive s). rewrite Hr.
  exists w', s'. split; [by destruct (_ && _)|]. split.
  { unfold active. simpl. rewrite Hid. simpl. by rewrite lookup_insert_eq. }
  split_and!; [done..|]. intros id Hne. apply (active_set_obj_other (w_sess w) p s' id).
  intros Hid'. destruct (wf_table _ Hwf _ _ Hid) as (s1 & Hs1 & Hi1 & _).
  destruct (wf_table _ Hwf _ _ Hid') as (s2 & Hs2 & Hi2 & _). congruence.
Qed.

(** An inspection that ends after its session changes nothing: once the session is gone, inspection
    requests and the completion of one under way are refused with an error, and no session,
    configuration or saved file is changed (the temporary file of a response is removed). *)
Theorem ended_session_refuses : forall rch pa a d (w : World),
  sessions (w_sess w) !! SessionID a = None ->
  (exists e, handleRequestInspection rch pa a w = (w, [Reply rch (AnsError (Some e))])) /\
  (exists e, handleResponseInspection rch pa a d w =
     (set_w_fs (fst (os_Remove (w_fs w) (Tempfile a))) w, [Reply rch (AnsError (Some e))])) /\
  (exists e, handleCompleteInspection rch a w = (w, [Reply rch (AnsError (Some e))]) /\
     forall err, completion_answer err (Some e) = AnsError (Some e)).
Proof.
  intros rch pa a d w H. unfold handleRequestInspection, handleResponseInspection,
    handleCompleteInspection, GetSession, sessions_Get. rewrite H. split_and!; by eexists.
Qed.

(** ** The life of a session *)

(** A request to create a session is refused without a change, or a new session is active. *)
Lemma handleCreateSession_cases rch v d (w : World) :
  sess_wf (w_sess w) -> sessions (w_sess w) !! makeSessionID (d_uuid' d) = None ->
  let wants := String.eqb (cs_Policy v) "permissive" in
  if wants && negb (PermissiveMode (w_opt w)) then
    handleCreateSession C st0 rch v d w =
      (w, [Reply rch (failed_credentials ErrInvalidSessionPolicy)])
  else match ValidateSecrets (cs_Secrets v) with
  | Some e => handleCreateSession C st0 rch v d w = (w, [Reply rch (failed_credentials e)])
  | None => exists w' s, handleCreateSession C st0 rch v d w =
      (w', [Reply rch (AnsCredentials (mkSessionCredentials (s_ID s) (Token s) None))]) /\
      active (w_sess w) (s_ID s) = None /\ active (w_sess w') (s_ID s) = Some s /\
      Permissive s = wants /\ Secrets_ s = cs_Secrets v /\ IsRevoked s = false /\
      totalSessions w' = wrap_u64 (totalSessions w + 1) /\
      (forall h c ag, fst (CheckAuth (w_sess w') (s_ID s) (Token s) h c ag) = true) /\
      (forall id', id' <> s_ID s -> active (w_sess w') id' = active (w_sess w) id')
  end.
Proof.
  intros Hwf Hfree wants. unfold handleCreateSession. fold wants.
  destruct (wants && negb (PermissiveMode (w_opt w))) eqn:Ec; [done|].
  assert (wants && PermissiveMode (w_opt w) = wants) as ->.
  { by destruct wants, (PermissiveMode (w_opt w)). }
  destruct (ValidateSecrets (cs_Secrets v)) as [e|]; [done|]. unfold New.
  destruct (NewWithID _ _ _ _ _ _ _ _ _ _ _ _ _) as [[p s] ss] eqn:E.
  destruct (new_session_active _ _ _ _ _ _ _ _ _ _ _ _ _ _ _ _ Hwf Hfree E)
    as (H1 & H2 & H3 & H4 & H5 & H6 & H7).
  by eexists _, s.
Qed.

(** Creating a session: a permissive one is refused unless the service runs in permissive mode, and
    invalid secrets are refused, both with the reason and without any change; otherwise the credentials
    returned are those of a new active session, they authenticate, and the count of sessions grows. *)
Theorem create_session : forall rch v d (w : World) w' outs,
  sess_wf (w_sess w) -> sessions (w_sess w) !! makeSessionID (d_uuid' d) = None ->
  handleCreateSession C st0 rch v d w = (w', outs) ->
  let wants := String.eqb (cs_Policy v) "permissive" in
  (wants = true -> PermissiveMode (w_opt w) = false ->
     w' = w /\ outs = [Reply rch (failed_credentials ErrInvalidSessionPolicy)]) /\
  (forall e, (wants = true -> PermissiveMode (w_opt w) = true) -> ValidateSecrets (cs_Secrets v) = Some e ->
     w' = w /\ outs = [Reply rch (failed_credentials e)]) /\
  ((wants = true -> PermissiveMode (w_opt w) = true) -> ValidateSecrets (cs_Secrets v) = None ->
     exists id token s, outs = [Reply rch (AnsCredentials (mkSessionCredentials id token None))] /\
       active (w_sess w) id = None /\ active (w_sess w') id = Some s /\
       Permissive s = wants /\ Secrets_ s = cs_Secrets v /\ IsRevoked s = false /\
       totalSessions w' = wrap_u64 (totalSessions w + 1) /\
       (forall h c ag, fst (CheckAuth (w_sess w') id token h c ag) = true) /\
       (forall id', id' <> id -> active (w_sess w') id' = active (w_sess w) id')).
Proof.
  intros rch v d w w' outs Hwf Hfree H wants.
  pose proof (handleCreateSession_cases rch v d w Hwf Hfree) as HC. cbv zeta in HC. fold wants in HC.
  rewrite H in HC. split; [|split].
  - intros Hw Hm. rewrite Hw, Hm in HC. simpl in HC. by simplify_eq.
  - intros e Hp Hv. rewrite Hv in HC.
    destruct wants, (PermissiveMode (w_opt w)); simpl in HC; first [by simplify_eq | naive_solver].
  - intros Hp Hv. rewrite Hv in HC.
    assert (wants && negb (PermissiveMode (w_opt w)) = false) as Hc.
    { destruct wants; [by rewrite Hp|done]. }
    rewrite Hc in HC. destruct HC as (w1 & s & Heq & HC). simplify_eq.
    by exists (s_ID s), (Token s), s.
Qed.

(** C32: Tokens, reports and the end of a session: a report is given only after the token was revoked,
    revoking needs the token itself, nothing else in the service changes, and after the
    revocation the credentials are refused for ever as long as the session is active. *)
Theorem revoke_then_report : forall rch id token d (w : World) s,
  sess_wf (w_sess w) -> active (w_sess w) id = Some s ->
  exists w' r, handleRevokeToken rch id token d w = (w', [Reply rch (AnsRevoked r)]) /\
    (token <> Token s -> w' = w /\ rt_Err r = Some ErrInvalidSessionToken) /\
    (token = Token s -> rt_Err r = None /\ rt_SessionID r = id /\
       rt_StartTime r = Time_String (Start s) /\ rt_EndTime r = Time_String (d_now d) /\
       (forall h c ag pw, fst (CheckAuth (w_sess w') id pw h c ag) = false) /\
       (forall rch' d', exists r', handleSessionReport rch' id d' w' =
          (w', [Reply rch' (AnsReport r')]) /\ sr_Err r' = None /\
          sr_Artifacts r' = Artifacts s (d_digests d') /\ sm_EndTime (sr_Metadata r') = d_now d)) /\
    (IsRevoked s = false -> forall rch' d', exists r', handleSessionReport rch' id d' w =
       (w, [Reply rch' (AnsReport r')]) /\ sr_Err r' = Some ErrSessionActive /\ sr_Artifacts r' = []).
Proof.
  intros rch id token d w s Hwf Ha. pose proof Ha as (p & Hid & Hp)%active_Some.
  destruct (wf_table _ Hwf _ _ Hid) as (s1 & Hs1 & Hi1 & _). simplify_eq.
  assert (Hact : IsRevoked s = false -> forall rch' d', exists r', handleSessionReport rch' (s_ID s) d' w =
       (w, [Reply rch' (AnsReport r')]) /\ sr_Err r' = Some ErrSessionActive /\ sr_Artifacts r' = []).
  { intros Hr rch' d'. unfold handleSessionReport. rewrite Ha, Hr. simpl. by eexists. }
  unfold handleRevokeToken, GetSession, sessions_Get. rewrite Hid, Hp. unfold Revoke.
  destruct (String.eqb token (Token s)) eqn:Et; simpl.
  - apply String.eqb_eq in Et. eexists _, _. split; [done|]. split; [done|]. split; [|done].
    intros _. split_and!; try done.
    + intros h c ag pw. unfold CheckAuth, active. simpl. rewrite Hid. simpl. by rewrite lookup_insert_eq.
    + intros rch' d'. unfold handleSessionReport, active. simpl. rewrite Hid. simpl.
      rewrite lookup_insert_eq. simpl. by eexists.
  - apply String.eqb_neq in Et. eexists _, _. split; [done|]. split; [done|]. by split.
Qed.


(** Ending a session and expiry never block the dispatcher: an expired session is finished and its
    directory removed while other sessions stay active and no file outside the directory is touched
    by the removal; if finishing fails, the session stays active with its timer stopped although its
    files are removed. An ID that is not active any more is ignored. *)
Theorem expired_session `{OL : !OsLaws} : forall id d (w : World),
  sess_wf (w_sess w) ->
  let dir := filepath_Join [Spool (w_opt w); id] in
  (sessions (w_sess w) !! id = None -> handleExpired id d w = (w, [])) /\
  (forall s, active (w_sess w) id = Some s ->
     exists w' fs e, handleExpired id d w = (w', []) /\ sess_wf (w_sess w') /\
       os_RemoveAll fs dir = (w_fs w', e) /\
       (forall q, under dir q = true -> e = None -> os_Stat (w_fs w') q = Err ErrNotExist) /\
       (forall q, under dir q = false -> os_ReadFile (w_fs w') q = os_ReadFile fs q) /\
       (active (w_sess w') id = None \/
        exists s', active (w_sess w') id = Some s' /\ t_armed (timer s') = false /\
          t_fired (timer s') = false) /\
       (forall id', id' <> id -> active (w_sess w') id' = active (w_sess w) id')).
Proof.
  intros id d w Hwf dir. unfold handleExpired, GetSession, sessions_Get. split; [by intros ->|].
  intros s (p & Hid & Hp)%active_Some. rewrite Hid. unfold finish_session.
  destruct (wf_table _ Hwf _ _ Hid) as (s1 & Hs1 & Hi1 & _). simplify_eq.
  destruct (Finish_active (w_sess w) (w_fs w) p s (d_digests d) Hwf Hp Hid)
    as (ss & fs & e & -> & Hwf' & _ & _ & Hoth & He).
  unfold RemoveResources. simpl. fold dir.
  destruct (os_RemoveAll fs dir) as [fs' e'] eqn:ER. eexists _, fs, e'. split; [done|]. simpl.
  split; [done|]. split; [done|].
  split; [intros q Hq ->; by eapply os_RemoveAll_gone|].
  split; [intros q Hq; by apply (os_RemoveAll_other _ _ _ _ _ ER) in Hq as [Hq _]|].
  split.
  - destruct e as [e|].
    + destruct He as [Hs Ho]. right. exists (set_timer (Timer_Stop (timer s)) s). split; [|done].
      unfold active. rewrite Hs, Hid. exact Ho.
    + destruct He as [Hs _]. left. unfold active. by rewrite Hs, lookup_delete_eq.
  - intros id' Hne. unfold active.
    assert (Hsame : sessions ss !! id' = sessions (w_sess w) !! id').
    { destruct e; destruct He as [-> _]; [done|by apply lookup_delete_ne]. }
    rewrite Hsame. destruct (sessions (w_sess w) !! id') as [q|] eqn:Eq; [|done]. simpl.
    apply Hoth. intros ->. destruct (wf_table _ Hwf _ _ Eq) as (s2 & Hs2 & Hi2 & _). congruence.
Qed.

(** C37: Session timeouts are exact where 64-bit nanoseconds can hold them (up to 9223372036 seconds);
    the next number of seconds gives a negative duration, and 2^55 seconds give zero, for which the
    session gets the default timeout of six hours. *)
Theorem create_timeout_range : forall t,
  ((0 <= t <= 9223372036)%Z -> create_timeout t = (t * Second)%Z) /\
  (create_timeout 9223372037 < 0)%Z /\ create_timeout (2 ^ 55) = 0%Z /\
  (forall sid token spool perm secrets o cs uuid now st,
     Timeout (NewWithID C st0 sid token spool (create_timeout (2 ^ 55)) perm secrets o cs uuid now st).1.2
     = DefaultSessionTimeout).
Proof.
  intros t. split_and!; [|done..]. intros Ht. unfold create_timeout, wrap_i64, wrap_u64, Second in *.
  rewrite (Z.mod_small (t * 1000000000) (2 ^ 64)) by lia.
  rewrite Z.mod_small by lia. lia.
Qed.

(** ** Start-up *)

(** Loading the configuration at start-up: without a rules file the service starts with the rules it
    has, or with the rules bundled in its snap; any other failure to load rules or the bundled
    inspectors configuration stops the start; in a snap the local inspectors
    configuration overrides the bundled one field by field, and may be missing. *)
Theorem load_configuration : forall snap name dir fs cs,
  let rules := LoadHTTPProxyRules fs dir cs in
  let bundled := LoadInspectorsConfig fs (SnapBundledConfigDir snap) cs in
  (RunningFromSnap snap name = false -> not_exist rules.2 = true ->
     loadHTTPProxyRulesOrDefault snap name dir fs cs = (cs, None)) /\
  (RunningFromSnap snap name = true -> not_exist rules.2 = true ->
     loadHTTPProxyRulesOrDefault snap name dir fs cs =
       LoadHTTPProxyRules fs (SnapBundledConfigDir snap) cs) /\
  (not_exist rules.2 = false -> loadHTTPProxyRulesOrDefault snap name dir fs cs = rules) /\
  (RunningFromSnap snap name = false ->
     loadDefaultInspectorsConfigCombine snap name dir fs cs = LoadInspectorsConfig fs dir cs) /\
  (RunningFromSnap snap name = true -> forall e, bundled.2 = Some e ->
     loadDefaultInspectorsConfigCombine snap name dir fs cs = (cs, Some e)) /\
  (RunningFromSnap snap name = true -> bundled.2 = None ->
     forall o, load_file decodeOverrideInspectorsConfig fs (filepath_Join [dir; inspectorsConfigFile]) = o ->
     loadDefaultInspectorsConfigCombine snap name dir fs cs =
       match o with
       | Ok o => (SetInspectorsConfig (Combine (GetInspectorsConfig bundled.1) o) bundled.1, None)
       | Err e => (bundled.1, if errors_is e ErrNotExist then None else Some e)
       end).
Proof.
  intros snap name dir fs cs rules bundled.
  unfold loadHTTPProxyRulesOrDefault, loadDefaultInspectorsConfigCombine. fold rules bundled.
  assert (Hcs : forall e, rules.2 = Some e -> rules.1 = cs).
  { subst rules. unfold LoadHTTPProxyRules. by destruct (load_file _ _ _). }
  assert (Hcb : forall e, bundled.2 = Some e -> bundled.1 = cs).
  { subst bundled. unfold LoadInspectorsConfig. by destruct (load_file _ _ _). }
  destruct rules as [cr er], bundled as [cb eb]. simpl in *. split_and!.
  - intros -> Hn. rewrite Hn. destruct er as [e|]; [|done]. by rewrite (Hcs e eq_refl).
  - intros -> Hn. rewrite Hn. destruct er as [e|]; [|done]. by rewrite (Hcs e eq_refl).
  - by intros ->.
  - by intros ->.
  - intros -> e ->. by rewrite (Hcb e eq_refl).
  - intros -> -> o Ho. unfold LoadOverrideInspectorsConfig. rewrite Ho. simpl.
    destruct o as [o|e]; [done|]. by destruct (errors_is e ErrNotExist).
Qed.
End ServiceProps.

(** ** Witnesses *)

Section Witnesses.
#[local] Existing Instance text_mime.
#[local] Existing Instance literal_glob.
#[local] Existing Instance mem_os.
#[local] Existing Instance demo_version.
#[local] Existing Instance sample_yaml.
#[local] Existing Instance same_text.

(** Certificates are accepted and not installed. *)
Definition demo_cert : CertUpdate := {| proxyUpdateCert := fun _ _ _ _ fs => (fs, None) |}.
#[local] Existing Instance demo_cert.

Definition demo_options : Options := mkOptions 13444 13445 "/etc/fetch" "/spool" false "" "" 0.
Definition demo_draws : Draws := mkDraws 7%Z (nul_bytes 16) (nul_bytes 17) (fun i => i) [] [].
Definition demo_world : World (IS := unit) :=
  mkWorld demo_state demo_fs sample_state {[ 0 := demo_artifact ]} 1 0%Z demo_options.
Definition empty_world : World (IS := unit) :=
  mkWorld no_sessions (∅ : MemFS) sample_state ∅ 0 0%Z demo_options.

Definition demo_response : unit * Artifact * option error :=
  runResponseInspection demo_session demo_fs tt demo_artifact.

Lemma response_verdict_witness : Result demo_response.1.2 = Rejected \/ Result demo_response.1.2 = Approved.
Proof.
  exact (proj1 (proj2 (response_verdict demo_session demo_fs tt demo_artifact demo_response.1.1
    demo_response.1.2 demo_response.2 (triple_eta demo_response _ eq_refl)))).
Defined.

Definition demo_request : unit * Artifact * option error :=
  runRequestInspection demo_session tt demo_artifact.

Lemma request_verdict_witness : demo_request.2 = None /\ RequestPending demo_request.1.2 = true.
Proof.
  assert (He : demo_request.2 = None) by (vm_compute; reflexivity). split; [exact He|].
  destruct (request_verdict demo_session tt demo_artifact demo_request.1.1 demo_request.1.2
    demo_request.2 (triple_eta demo_request _ eq_refl)) as (_ & H & _).
  apply (H eq_refl). exact He.
Defined.

(** The demonstration session has seen the artifact. *)
Definition seen_session : Session (IS := unit) := AddArtifact (set_Result Rejected demo_artifact) demo_session.
Definition seen_world : World (IS := unit) := set_session demo_p seen_session demo_world.
Definition seen_artifact : Artifact := set_SessionID "abc" demo_artifact.

Lemma seen_wf : sess_wf (w_sess seen_world).
Proof.
  destruct demo_wf as (H0 & H1 & H2). by apply (set_obj_wf demo_state demo_p demo_session seen_session).
Qed.

Lemma known_artifact_reused_witness :
  exists w', handleResponseInspection 3 0 seen_artifact demo_draws seen_world =
    (w', [Reply 3 (AnsError (Some ErrRejectedArtifact))]).
Proof.
  destruct (known_artifact_reused 3 0 seen_artifact demo_draws seen_world demo_p seen_session
    (set_Result Rejected demo_artifact) seen_wf eq_refl eq_refl eq_refl eq_refl) as (w' & s' & H & _).
  exists w'. exact H.
Defined.

Lemma ended_session_refuses_witness :
  exists e, handleRequestInspection 3 0 demo_artifact empty_world = (empty_world, [Reply 3 (AnsError (Some e))]).
Proof. apply (ended_session_refuses 3 0 demo_artifact demo_draws empty_world). reflexivity. Defined.

Definition demo_create : World (IS := unit) * list Output :=
  handleCreateSession sample_constructors tt 5 (mkCreateSession 60 "strict" [] empty_override "" "")
    demo_draws empty_world.

Lemma create_session_witness :
  exists id token, demo_create.2 = [Reply 5 (AnsCredentials (mkSessionCredentials id token None))] /\
    forall h c ag, fst (CheckAuth (w_sess demo_create.1) id token h c ag) = true.
Proof.
  destruct (create_session sample_constructors tt 5 (mkCreateSession 60 "strict" [] empty_override "" "")
    demo_draws empty_world demo_create.1 demo_create.2 no_sessions_wf eq_refl
    (surjective_pairing demo_create)) as (_ & _ & H).
  destruct H as (id & token & s & H1 & _ & _ & _ & _ & _ & _ & H2 & _); [discriminate|reflexivity|].
  exists id, token. exact (conj H1 H2).
Defined.

Lemma revoke_then_report_witness :
  exists w' r, handleRevokeToken 1 "abc" "tok" demo_draws demo_world = (w', [Reply 1 (AnsRevoked r)]) /\
    forall h c ag pw, fst (CheckAuth (w_sess w') "abc" pw h c ag) = false.
Proof.
  destruct demo_wf as (H0 & _).
  destruct (revoke_then_report 1 "abc" "tok" demo_draws demo_world demo_session H0 eq_refl)
    as (w' & r & H1 & _ & H2 & _).
  exists w', r. split; [exact H1|]. exact (proj1 (proj2 (proj2 (proj2 (proj2 (H2 eq_refl)))))).
Defined.


Lemma expired_session_witness :
  exists w', handleExpired "abc" demo_draws demo_world = (w', []) /\ sess_wf (w_sess w').
Proof.
  destruct demo_wf as (H0 & _).
  destruct (expired_session (OL := mem_os_laws) "abc" demo_draws demo_world H0) as [_ H].
  destruct (H demo_session eq_refl) as (w' & fs & e & H1 & H2 & _). exists w'. exact (conj H1 H2).
Defined.

(** ** A session without an ID *)

(** A request to create a session that names no ID. *)
Definition nameless : FetchCtlRequest := mkFetchCtl "create-session" "" false "{}".

(** Another session's file, before and after the nameless session expires. *)
Definition spool_world : World (IS := unit) :=
  set_w_fs (<["/spool/abc/session.json" := Some "data"]> (∅ : MemFS)) demo_world.
Definition after_nameless : World (IS := unit) :=
  (handleExpired "" demo_draws (handleFetchCtl sample_constructors tt nameless demo_draws spool_world).1.1).1.

(** A session created by fetchctl without an ID has the spool itself as its directory: when
    it expires, the files of all sessions are removed, also those of sessions that are active. *)
Theorem nameless_session_wipes_spool :
  ctl_Status (handleFetchCtl sample_constructors tt nameless demo_draws spool_world).1.2 = "ok" /\
  os_ReadFile (w_fs spool_world) "/spool/abc/session.json" = Ok "data" /\
  os_ReadFile (w_fs after_nameless) "/spool/abc/session.json" = Err ErrNotExist /\
  fst (CheckAuth (w_sess after_nameless) "abc" "tok" "" "" "") = true.
Proof. split; [|split; [|split]]; vm_compute; reflexivity. Qed.
End Witnesses.
