(* ===== verification/Fetchctl.v ===== *)
(** * The fetchctl socket and its client

    [service/fetchctl/server.go] and [cmd/fetchctl]: the messages on the UNIX socket, the server that hands
    each request to the dispatcher, and the commands of the [fetchctl] program. A command whose texts are
    valid UTF-8 asks the service for exactly the operation the user named, and reports its answer.

    The socket is a parameter ([SocketConn]); parsing of the command line is that of go-flags, whose result
    is an argument. The texts of decoding errors are not those of Go. *)
From stdpp Require Import base gmap strings list option fin_maps.
From Stdlib Require Import ZArith Lia Ascii.
From S2P Require Import Prelude GoStrings GoCodec Platform Json JsonDecode JsonString Net Digests Artifact.
From S2P Require Import Report Config Secrets SecLog Inspectors Session Messages Service.
From S2P Require Import ServiceProps.

(** ** Messages on the socket *)

Record OperationRequest := mkOperationRequest {
  or_Operation : string;
  or_Type : string;
  or_ValidateOnly : bool;
  or_Payload : string;
}.
Definition no_request : OperationRequest := mkOperationRequest "" "" false "".

Record OperationReply := mkOperationReply { or_Result : string; or_Message : string }.

(** A member of a struct under its tag. *)
Definition tagged (k s : string) : string * json := (k, jstring true s).

Definition jrequest (r : OperationRequest) : json :=
  JObj ([tagged "operation" (or_Operation r)] ++
        (if String.eqb (or_Type r) "" then [] else [tagged "type" (or_Type r)]) ++
        (if or_ValidateOnly r then [("validate-only", JBool true)] else []) ++
        [tagged "payload" (or_Payload r)]).

Definition decode_OperationRequest (k : string) (v : json) (r : OperationRequest) : result OperationRequest :=
  if field_is "operation" k then
    s ← decode_text (or_Operation r) v;
    Ok (mkOperationRequest s (or_Type r) (or_ValidateOnly r) (or_Payload r))
  else if field_is "type" k then
    s ← decode_text (or_Type r) v;
    Ok (mkOperationRequest (or_Operation r) s (or_ValidateOnly r) (or_Payload r))
  else if field_is "validate-only" k then
    b ← decode_bool v (or_ValidateOnly r);
    Ok (mkOperationRequest (or_Operation r) (or_Type r) b (or_Payload r))
  else if field_is "payload" k then
    s ← decode_text (or_Payload r) v;
    Ok (mkOperationRequest (or_Operation r) (or_Type r) (or_ValidateOnly r) s)
  else Ok r.

Definition jreply (r : OperationReply) : json :=
  JObj [tagged "result" (or_Result r); tagged "message" (or_Message r)].

Definition decode_OperationReply (k : string) (v : json) (r : OperationReply) : result OperationReply :=
  if field_is "result" k then s ← decode_text (or_Result r) v; Ok (mkOperationReply s (or_Message r))
  else if field_is "message" k then s ← decode_text (or_Message r) v; Ok (mkOperationReply (or_Result r) s)
  else Ok r.

(** The encoder does not fail on strings. *)
Definition buildReply (result message : string) : string := json_print (jreply (mkOperationReply result message)).

(** ** The server *)

Definition SocketPath (tempdir : string) : string := filepath_Join [tempdir; "fetchctl.socket"].

(** What an accepted connection sends, and whether the reply can be written and the connection closed;
    or why none was accepted. *)
Inductive Accepted : Type :=
| AcceptFailed (e : error)
| Connection (data : string) (write_err close_err : option error).

Section Server.
Context {S : Type}.
(** Sends the message of [NewFetchCtl] to the dispatcher and waits for its answer. *)
Variable ask : FetchCtlRequest -> S -> S * FetchCtlResult.

(** One connection: the reply, after the answer of the dispatcher. *)
Definition serve_connection (data : string) (s : S) : S * string :=
  match json_Decode (decode_struct decode_OperationRequest) no_request data with
  | Err e => (s, buildReply "error" (error_string e))
  | Ok op =>
      let msg := mkFetchCtl (or_Operation op) (or_Type op) (or_ValidateOnly op) (or_Payload op) in
      let '(s, res) := ask msg s in
      (s, buildReply (ctl_Status res) (ctl_Message res))
  end.

(** The loop over the connections, one at a time: the replies that were written. Errors are logged. *)
Fixpoint server_loop (l : list Accepted) (s : S) : S * list string :=
  match l with
  | [] => (s, [])
  | AcceptFailed _ :: l' => server_loop l' s
  | Connection data werr _ :: l' =>
      let '(s, reply) := serve_connection data s in
      let '(s, replies) := server_loop l' s in
      (s, match werr with None => reply :: replies | Some _ => replies end)
  end.
End Server.

Section ServerLife.
Context `{OS : Os}.

(** [Server.Start] and [Server.Stop]: the socket is removed before it is made and at the end. *)
Definition Fetchctl_Start (listen : FS -> FS * option error) (tempdir : string) (fs : FS) : FS * option error :=
  match os_RemoveAll fs (SocketPath tempdir) with
  | (fs, Some err) => (fs, Some err)
  | (fs, None) => listen fs
  end.

Definition Fetchctl_Stop (tempdir : string) (fs : FS) : FS * option error :=
  os_RemoveAll fs (SocketPath tempdir).
End ServerLife.

(** ** The client *)

(** A connection to the socket: dialing, writing, and reading all until the other side closes. *)
Class SocketConn (S : Type) := {
  net_Dial : string -> S -> S * option error;
  conn_Write : string -> S -> S * option error;
  conn_ReadAll : S -> S * result string;
}.

Record CreateSessionCmd := mkCreateSessionCmd {
  csc_SessionID : string;
  csc_Token : string;
  csc_Timeout : Z;
  csc_Permissive : bool;
  csc_Filename : string;
}.
Record UpdateCertCmd := mkUpdateCertCmd { ucc_ValidateOnly : bool; ucc_Filename : string }.
Record UpdateConfigCmd := mkUpdateConfigCmd {
  uco_Type : string;
  uco_ValidateOnly : bool;
  uco_Filename : string;
}.

(** The command the parser found, with its options. *)
Inductive Command : Type :=
| CmdCreateSession (cmd : CreateSessionCmd)
| CmdListArtifacts (sessionID : string)
| CmdUpdateCert (cmd : UpdateCertCmd)
| CmdUpdateConfig (cmd : UpdateConfigCmd)
| CmdVersion.

(** A nil slice is null. *)
Definition jbytes (b : option string) : json :=
  match b with Some d => JStr (b64_encode d) | None => JNull end.

(** [json.Marshal] of a [CreateSessionPayload], whose configuration may be nil. *)
Definition jpayload (id token : string) (timeout : Z) (mode : string) (cfg : option string) : json :=
  JObj [tagged "session-id" id; tagged "token" token; ("timeout", JNum (Itoa timeout));
        tagged "mode" mode; ("inspectors-configuration", jbytes cfg)].

Section Client.
Context `{OS : Os} {S : Type} `{SC : !SocketConn S}.
Variable fs : FS.
Variable stdin : result string.
Variable socket : string.

Definition checkSocket (filename : string) : option error :=
  match os_Stat fs filename with
  | Err _ => Some (EText "cannot access socket, is the service running?")
  | Ok _ => None
  end.

Definition readContent (filename : string) : result string :=
  if String.eqb filename "-" then stdin else os_ReadFile fs filename.

Definition send (r : OperationRequest) (s : S) : S * option error := conn_Write (json_print (jrequest r)) s.

Definition receive (s : S) : S * result OperationReply :=
  let '(s, data) := conn_ReadAll s in
  (s, d ← data; j ← json_parse d; decode_struct decode_OperationReply j (mkOperationReply "" "")).

(** What every command does with its request: the reply of the service, or why there is none. *)
Definition converse (r : OperationRequest) (s : S) : S * result OperationReply :=
  match send r s with
  | (s, Some e) => (s, Err (EText ("cannot send request: " +:+ error_string e)))
  | (s, None) =>
      match receive s with
      | (s, Err e) => (s, Err (EText ("cannot read reply: " +:+ error_string e)))
      | (s, Ok reply) => (s, Ok reply)
      end
  end.

(** The end of a command: what it prints on success, and its error. *)
Definition report (shown failed : string -> string) (reply : OperationReply) : string * option error :=
  if negb (String.eqb (or_Result reply) "ok") then ("", Some (EText (failed (or_Message reply))))
  else (shown (or_Message reply), None).

(** Dials and runs the conversation. *)
Definition operation (r : OperationRequest) (shown failed : string -> string) (s : S) :
    S * (string * option error) :=
  match net_Dial socket s with
  | (s, Some e) => (s, ("", Some e))
  | (s, None) =>
      match converse r s with
      | (s, Err e) => (s, ("", Some e))
      | (s, Ok reply) => (s, report shown failed reply)
      end
  end.

Definition as_is (m : string) : string := m.
Definition line (m : string) : string := m +:+ str1 nl.

Definition CreateSession_Execute (cmd : CreateSessionCmd) (s : S) : S * (string * option error) :=
  match checkSocket socket with
  | Some e => (s, ("", Some e))
  | None =>
      match (if String.eqb (csc_Filename cmd) "" then Ok None else Some <$> readContent (csc_Filename cmd)) with
      | Err e => (s, ("", Some e))
      | Ok content =>
          let mode := if csc_Permissive cmd then "permissive" else "strict" in
          let p := json_print (jpayload (csc_SessionID cmd) (csc_Token cmd) (csc_Timeout cmd) mode content) in
          operation (mkOperationRequest "create-session" "" false p) line as_is s
      end
  end.

Definition ListArtifacts_Execute (sessionID : string) (s : S) : S * (string * option error) :=
  match checkSocket socket with
  | Some e => (s, ("", Some e))
  | None => operation (mkOperationRequest "list-artifacts" "" false sessionID) line as_is s
  end.

Definition UpdateCert_Execute (cmd : UpdateCertCmd) (s : S) : S * (string * option error) :=
  match checkSocket socket with
  | Some e => (s, ("", Some e))
  | None =>
      match readContent (ucc_Filename cmd) with
      | Err e => (s, ("", Some e))
      | Ok content =>
          operation (mkOperationRequest "update-cert" "" (ucc_ValidateOnly cmd) content) line as_is s
      end
  end.

Definition UpdateConfig_Execute (cmd : UpdateConfigCmd) (s : S) : S * (string * option error) :=
  match checkSocket socket with
  | Some e => (s, ("", Some e))
  | None =>
      match readContent (uco_Filename cmd) with
      | Err e => (s, ("", Some e))
      | Ok content =>
          operation (mkOperationRequest "update-config" (uco_Type cmd) (uco_ValidateOnly cmd) content)
            (fun m => line (uco_Type cmd +:+ " " +:+ m)) as_is s
      end
  end.

Definition Version_Execute (s : S) : S * (string * option error) :=
  match checkSocket socket with
  | Some e => (s, ("", Some e))
  | None => operation (mkOperationRequest "version" "" false "") line
              (fun m => "cannot obtain service version: " +:+ m) s
  end.

Definition Execute (c : Command) : S -> S * (string * option error) :=
  match c with
  | CmdCreateSession cmd => CreateSession_Execute cmd
  | CmdListArtifacts id => ListArtifacts_Execute id
  | CmdUpdateCert cmd => UpdateCert_Execute cmd
  | CmdUpdateConfig cmd => UpdateConfig_Execute cmd
  | CmdVersion => Version_Execute
  end.

(** What is printed in the end and the status. *)
Definition exit_with (r : S * (string * option error)) : S * (string * Z) :=
  let '(s, (out, err)) := r in
  match err with
  | Some e => (s, (out +:+ line ("error: " +:+ error_string e), 1%Z))
  | None => (s, (out, 0%Z))
  end.

(** [Run]: the parser executes the command it finds and returns its error. *)
Definition Fetchctl_Run (parsed : result Command) (s : S) : S * (string * Z) :=
  exit_with match parsed with Ok c => Execute c s | Err e => (s, ("", Some e)) end.
End Client.

(** ** What is read from the socket *)

(** Field names of a concrete object. *)
Ltac fields :=
  repeat match goal with |- context [field_is ?a ?b] =>
    let b' := eval vm_compute in (field_is a b) in change (field_is a b) with b' end;
  cbn [mbind result_bind decode_text decode_bool decode_int jstring fst snd].

(** A request and a reply as they arrive: bytes outside UTF-8 are replaced. *)
Definition valid_request (r : OperationRequest) : OperationRequest :=
  mkOperationRequest (ToValidUTF8 (or_Operation r)) (ToValidUTF8 (or_Type r)) (or_ValidateOnly r)
    (ToValidUTF8 (or_Payload r)).
Definition valid_reply (r : OperationReply) : OperationReply :=
  mkOperationReply (ToValidUTF8 (or_Result r)) (ToValidUTF8 (or_Message r)).

Lemma decode_first_print j : json_wf j = true -> json_decode_first (json_print j) = Ok j.
Proof. intros H. destruct (json_roundtrip j "" H eq_refl) as [_ E]. by rewrite app_str_nil_r in E. Qed.

Lemma parse_print j : json_wf j = true -> json_parse (json_print j) = Ok j.
Proof. intros H. exact (proj1 (json_roundtrip j "" H eq_refl)). Qed.

Lemma tagged_wf k s : valid_raw k = true -> valid_raw (fst (tagged k s)) && json_wf (snd (tagged k s)) = true.
Proof. intros H. simpl. by rewrite H, json_escape_valid. Qed.

Lemma jrequest_wf r : json_wf (jrequest r) = true.
Proof.
  unfold jrequest. cbn [json_wf]. rewrite !forallb_app. cbn [forallb].
  rewrite !tagged_wf by reflexivity. destruct (String.eqb (or_Type r) ""), (or_ValidateOnly r); cbn [forallb];
    rewrite ?tagged_wf by reflexivity; reflexivity.
Qed.

Lemma read_request r :
  json_Decode (decode_struct decode_OperationRequest) no_request (json_print (jrequest r)) = Ok (valid_request r).
Proof.
  unfold json_Decode. rewrite decode_first_print by apply jrequest_wf.
  destruct r as [op ty vo pl]. unfold jrequest, tagged. cbn [or_Operation or_Type or_ValidateOnly or_Payload].
  cbn [mbind result_bind decode_struct].
  destruct (String.eqb_spec ty "") as [->|], vo; cbn [decode_fields app]; unfold decode_OperationRequest; fields;
    by rewrite !json_unescape_escape.
Qed.

Lemma read_reply res msg : (j ← json_parse (buildReply res msg); decode_struct decode_OperationReply j
  (mkOperationReply "" "")) = Ok (valid_reply (mkOperationReply res msg)).
Proof.
  unfold buildReply. rewrite parse_print.
  - cbn [mbind result_bind decode_struct jreply tagged decode_fields or_Result or_Message].
    unfold decode_OperationReply, tagged. fields. by rewrite !json_unescape_escape.
  - unfold jreply. cbn [json_wf forallb]. by rewrite !tagged_wf.
Qed.

Lemma jpayload_wf id token t mode cfg : json_wf (jpayload id token t mode cfg) = true.
Proof.
  unfold jpayload. cbn [json_wf forallb]. rewrite !tagged_wf by reflexivity. cbn [fst snd json_wf].
  rewrite valid_num_Itoa. destruct cfg as [d|]; [|reflexivity]. cbn [jbytes json_wf].
  by rewrite (valid_raw_piece _ (proj1 (raw_piece_b64 d))).
Qed.

Lemma read_payload id token t mode cfg : (- 2 ^ 63 <= t < 2 ^ 63)%Z ->
  unmarshal_payload (json_print (jpayload id token t mode cfg)) =
  Ok (mkCreateSessionPayload (ToValidUTF8 id) (ToValidUTF8 token) t (ToValidUTF8 mode) (default "" cfg)).
Proof.
  intros Ht. unfold unmarshal_payload. rewrite parse_print by apply jpayload_wf.
  cbn [mbind result_bind jpayload tagged decode_payload]. fields. rewrite ParseInt_Itoa by done.
  rewrite !json_unescape_escape. destruct cfg as [d|]; cbn [mbind result_bind jbytes decode_bytes]; [|done].
  by rewrite unescape_b64, b64_roundtrip.
Qed.

(** The payload is valid text whatever it holds: the encoder has replaced what is not. *)
Lemma utf8_tagged k s r : utf8 k -> utf8 r ->
  utf8 (String dquote (fst (tagged k s) +:+ String dquote (":" +:+ json_print (snd (tagged k s)))) +:+ r).
Proof.
  intros Hk Hr. apply utf8_app; [|done]. apply utf8_cons; [done|]. apply utf8_app; [done|].
  do 3 (apply utf8_cons; [done|]). apply utf8_app; [apply utf8_json_escape|by apply utf8_ascii].
Qed.

Lemma utf8_payload id token t mode cfg : utf8 (json_print (jpayload id token t mode cfg)).
Proof.
  assert (Hk : forall k, str_forall is_ascii k = true -> utf8 k) by apply utf8_ascii.
  unfold jpayload. change (json_print (JObj ?m)) with ("{" +:+ print_members m). apply utf8_cons; [done|].
  cbn [print_members]. do 2 (apply utf8_tagged; [by apply Hk|]; apply utf8_cons; [done|]).
  apply utf8_app; [do 2 (apply utf8_cons; [done|])|]. 
  { apply (utf8_app "imeout"); [by apply Hk|]. do 2 (apply utf8_cons; [done|]). apply Hk, N_to_dec_ascii. }
  apply utf8_cons; [done|]. apply utf8_tagged; [by apply Hk|]. apply utf8_cons; [done|].
  apply utf8_app; [|by apply Hk]. apply utf8_cons; [done|].
  apply (utf8_app "inspectors-configuration"); [by apply Hk|]. do 2 (apply utf8_cons; [done|]).
  destruct cfg as [d|]; [|by apply Hk]. cbn [jbytes json_print]. apply utf8_cons; [done|].
  apply utf8_app; [apply raw_piece_b64|by apply Hk].
Qed.

Lemma ToValidUTF8_utf8 s : utf8 s -> ToValidUTF8 s = s.
Proof. intros H. by apply ToValidUTF8_same, utf8_ValidString_iff. Qed.

(** ** A command served by the service *)

Definition message_of (r : OperationRequest) : FetchCtlRequest :=
  mkFetchCtl (or_Operation r) (or_Type r) (or_ValidateOnly r) (or_Payload r).

(** The socket with the server on its other side. *)
Definition served {W} (ask : FetchCtlRequest -> W -> W * FetchCtlResult) : SocketConn (W * string) := {|
  net_Dial _ s := (s, None);
  conn_Write data s := (serve_connection ask data s.1, None);
  conn_ReadAll s := (s, Ok s.2);
|}.

Lemma serve_request {W} (ask : FetchCtlRequest -> W -> W * FetchCtlResult) r w :
  serve_connection ask (json_print (jrequest r)) w =
  ((ask (message_of (valid_request r)) w).1,
   buildReply (ctl_Status (ask (message_of (valid_request r)) w).2)
     (ctl_Message (ask (message_of (valid_request r)) w).2)).
Proof. unfold serve_connection. rewrite read_request. unfold message_of. by destruct (ask _ w) as [w' res]. Qed.

(** The request a command makes, from the files it reads. *)
Definition command_request `{OS : Os} (fs : FS) (stdin : result string) (c : Command) : result OperationRequest :=
  match c with
  | CmdCreateSession cmd =>
      cfg ← (if String.eqb (csc_Filename cmd) "" then Ok None else Some <$> readContent fs stdin (csc_Filename cmd));
      Ok (mkOperationRequest "create-session" "" false (json_print (jpayload (csc_SessionID cmd) (csc_Token cmd)
            (csc_Timeout cmd) (if csc_Permissive cmd then "permissive" else "strict") cfg)))
  | CmdListArtifacts id => Ok (mkOperationRequest "list-artifacts" "" false id)
  | CmdUpdateCert cmd =>
      mkOperationRequest "update-cert" "" (ucc_ValidateOnly cmd) <$> readContent fs stdin (ucc_Filename cmd)
  | CmdUpdateConfig cmd =>
      mkOperationRequest "update-config" (uco_Type cmd) (uco_ValidateOnly cmd) <$>
        readContent fs stdin (uco_Filename cmd)
  | CmdVersion => Ok (mkOperationRequest "version" "" false "")
  end.

(** What a command prints for the answer of the service, and its exit status. *)
Definition command_outcome (c : Command) (res : FetchCtlResult) : string * Z :=
  let m := ToValidUTF8 (ctl_Message res) in
  if String.eqb (ToValidUTF8 (ctl_Status res)) "ok" then
    (line (match c with CmdUpdateConfig cmd => uco_Type cmd +:+ " " +:+ m | _ => m end), 0%Z)
  else
    (line ("error: " +:+ match c with CmdVersion => "cannot obtain service version: " +:+ m | _ => m end), 1%Z).

Lemma operation_served {W} (ask : FetchCtlRequest -> W -> W * FetchCtlResult) socket r shown failed w x :
  let res := ask (message_of (valid_request r)) w in
  exists reply, exit_with (operation (SC := served ask) socket r shown failed (w, x)) = ((res.1, reply),
    if String.eqb (ToValidUTF8 (ctl_Status res.2)) "ok" then (shown (ToValidUTF8 (ctl_Message res.2)), 0%Z)
    else (line ("error: " +:+ failed (ToValidUTF8 (ctl_Message res.2))), 1%Z)).
Proof.
  intros res. unfold operation, converse, send, receive. cbn [net_Dial conn_Write conn_ReadAll served].
  rewrite serve_request. cbn [fst snd]. cbn [mbind result_bind].
  pose proof (read_reply (ctl_Status res.2) (ctl_Message res.2)) as E. cbn [mbind result_bind] in E.
  fold res. rewrite E. unfold report, valid_reply. cbn [or_Result or_Message exit_with].
  destruct (String.eqb _ "ok"); by eexists.
Qed.

Ltac served_operation :=
  match goal with |- context [operation _ ?r ?f ?g _] => apply (operation_served _ _ r f g) end.

Ltac execute := unfold Fetchctl_Run; cbn [Execute command_request];
  unfold CreateSession_Execute, ListArtifacts_Execute, UpdateCert_Execute, UpdateConfig_Execute, Version_Execute.

Lemma run_served `{OS : Os} {W} (ask : FetchCtlRequest -> W -> W * FetchCtlResult) fs stdin socket c r w x :
  checkSocket fs socket = None -> command_request fs stdin c = Ok r ->
  let res := ask (message_of (valid_request r)) w in
  exists reply, Fetchctl_Run (SC := served ask) fs stdin socket (Ok c) (w, x) =
    ((res.1, reply), command_outcome c res.2).
Proof.
  intros Es. destruct c as [cmd|id|cmd|cmd|]; execute; rewrite Es.
  - destruct (if String.eqb _ _ then _ else _) as [cfg|e]; cbn [mbind result_bind]; [|done].
    intros [= <-]. served_operation.
  - intros [= <-]. served_operation.
  - destruct (readContent _ _ _) as [d|e]; cbn [fmap result_fmap]; [|done]. intros [= <-]. served_operation.
  - destruct (readContent _ _ _) as [d|e]; cbn [fmap result_fmap]; [|done]. intros [= <-]. served_operation.
  - intros [= <-]. served_operation.
Qed.

(** C16: A command of the fetchctl program is served as the user wrote it: with the socket in place and its
    files readable, the service handles exactly the request of the command (bytes outside UTF-8 replaced),
    once; the command exits with 0 and prints the service's message exactly if the service answered ok, and with 1
    and the message as an error otherwise. Without the socket, or with a file it cannot read, it exits
    with 1 and the service does not see it. *)
Theorem command_served : forall `{OS : Os} (W : Type) (ask : FetchCtlRequest -> W -> W * FetchCtlResult)
    fs stdin socket c w x,
  match checkSocket fs socket, command_request fs stdin c with
  | None, Ok r =>
      let res := ask (message_of (valid_request r)) w in
      exists reply, Fetchctl_Run (SC := served ask) fs stdin socket (Ok c) (w, x) =
        ((res.1, reply), command_outcome c res.2)
  | Some e, _ | None, Err e =>
      Fetchctl_Run (SC := served ask) fs stdin socket (Ok c) (w, x) =
        ((w, x), (line ("error: " +:+ error_string e), 1%Z))
  end.
Proof.
  intros OS W ask fs stdin socket c w x. destruct (checkSocket fs socket) as [e|] eqn:Es.
  { destruct c; execute; by rewrite Es. }
  destruct (command_request fs stdin c) as [r|e] eqn:Er; [by apply run_served|].
  destruct c as [cmd|id|cmd|cmd|]; try done; revert Er; execute; rewrite Es.
  - destruct (if String.eqb _ _ then _ else _) as [cfg|e']; [done|]. by intros [= <-].
  - destruct (readContent _ _ _) as [d|e']; [done|]. by intros [= <-].
  - destruct (readContent _ _ _) as [d|e']; [done|]. by intros [= <-].
Qed.

(** ** The commands and the service *)

Section WithService.
Context `{ML : MimeLib} `{GL : GlobLib} `{OS : Os} `{VT : VersionText} `{Y : !YamlLib}
  `{FT : FloatText} `{CU : !CertUpdate} {IS : Type}.
Variable C : Constructors (IS := IS).
Variable st0 : IS.
Notation World := (World (IS := IS)).

(** The dispatcher's answer to the message of the fetchctl server. *)
Definition service_ask (d : Draws) (v : FetchCtlRequest) (w : World) : World * FetchCtlResult :=
  let '(w, r, _) := handleFetchCtl C st0 v d w in (w, r).

(** The session a create-session command asks for. *)
Definition asked_session (cmd : CreateSessionCmd) (cfg : OverrideInspectorsConfig) (d : Draws) (w : World) :
    nat * Session (IS := IS) * SessState (IS := IS) :=
  NewWithID C st0 (ToValidUTF8 (csc_SessionID cmd)) (ToValidUTF8 (csc_Token cmd)) (Spool (w_opt w))
    (wrap_i64 (csc_Timeout cmd * Second)) (PermissiveMode (w_opt w) && csc_Permissive cmd) [] cfg (w_cfg w)
    (d_uuid d) (d_now d) (w_sess w).

(** The service handles a create-session command by making the session it describes. *)
Lemma create_command_handled cmd content cfg d w :
  (- 2 ^ 63 <= csc_Timeout cmd < 2 ^ 63)%Z ->
  (if String.eqb (default "" content) "" then Ok empty_override else yaml_override (default "" content)) = Ok cfg ->
  let '(_, s, ss) := asked_session cmd cfg d w in
  service_ask d (message_of (valid_request (mkOperationRequest "create-session" "" false
    (json_print (jpayload (csc_SessionID cmd) (csc_Token cmd) (csc_Timeout cmd)
      (if csc_Permissive cmd then "permissive" else "strict") content))))) w =
  (set_totalSessions (wrap_u64 (totalSessions w + 1)) (set_w_sess ss w),
   mkFetchCtlResult "ok" ("session " +:+ s_ID s +:+ ":" +:+ Token s +:+ " created (" +:+
     Policy (Session_Metadata s) +:+ ")")).
Proof.
  intros Ht Hcfg. unfold asked_session, service_ask, message_of, valid_request.
  cbn [or_Operation or_Type or_ValidateOnly or_Payload]. rewrite (ToValidUTF8_utf8 (json_print _)) by apply utf8_payload.
  unfold handleFetchCtl. cbn [fc_Operation].
  change (ToValidUTF8 "create-session") with "create-session". cbn [String.eqb Ascii.eqb Bool.eqb].
  unfold fetchCtlCreateSession. cbn [fc_Payload]. rewrite read_payload by done.
  cbn [csp_InspectorsConfig csp_Mode csp_Timeout csp_SessionID csp_Token]. rewrite Hcfg.
  assert (Hm : String.eqb (ToValidUTF8 (if csc_Permissive cmd then "permissive" else "strict")) "permissive" =
    csc_Permissive cmd) by (by destruct (csc_Permissive cmd)).
  rewrite Hm. by destruct (NewWithID _ _ _ _ _ _ _ _ _ _ _ _ _) as [[p s] ss].
Qed.

End WithService.

(** ** Witnesses *)

Section Witnesses.
#[local] Existing Instance text_mime.
#[local] Existing Instance literal_glob.
#[local] Existing Instance mem_os.
#[local] Existing Instance demo_version.
#[local] Existing Instance sample_yaml.
#[local] Existing Instance same_text.
#[local] Existing Instance demo_cert.

(** The files of the user, with the socket. *)
Definition client_files : FS (Os := mem_os) := (<["/tmp/fetchctl.socket" := Some ""]> ∅ : MemFS).
Definition demo_command : CreateSessionCmd := mkCreateSessionCmd "build-7" "s3cret" 60 true "".


(** The command without options, on a service whose spool holds the file of another session. *)
Definition plain_command : CreateSessionCmd := mkCreateSessionCmd "" "" 0 false "".
Definition after_plain : World (IS := unit) :=
  (Fetchctl_Run (SC := served (service_ask sample_constructors tt demo_draws)) client_files (Ok "")
    (SocketPath "/tmp") (Ok (CmdCreateSession plain_command)) (spool_world, "")).1.1.

(** [fetchctl create-session] without options makes a session that anyone can use, with an empty name and token,
    and whose expiry removes the files of all sessions. *)
Theorem plain_create_session :
  fst (CheckAuth (w_sess after_plain) "" "" "" "" "") = true /\
  os_ReadFile (w_fs after_plain) "/spool/abc/session.json" = Ok "data" /\
  os_ReadFile (w_fs (handleExpired "" demo_draws after_plain).1) "/spool/abc/session.json" = Err ErrNotExist.
Proof. split_and!; vm_compute; reflexivity. Qed.

(** What a file that is not valid UTF-8 turns into on its way to the service. *)
Definition latin1_config : string := "domain: caf" +:+ str1 (chr 233).
Lemma update_config_latin1 :
  let r := mkOperationRequest "update-config" "acl" false latin1_config in
  json_Decode (decode_struct decode_OperationRequest) no_request (json_print (jrequest r)) = Ok (valid_request r) /\
  or_Payload (valid_request r) = "domain: caf" +:+ RuneErrorBytes.
Proof. split; [apply read_request|by vm_compute]. Qed.
End Witnesses.
