(* ===== verification/Dispatcher.v ===== *)
(** * The dispatcher as a transition system

    The loop [dispatcher] of [service/service.go] with everything that runs beside it: requests that
    arrive in any order, goroutines that inspect and delete, timers that expire sessions. Invariants
    of all reachable states: sessions are well formed, the dispatcher never hangs, every
    request is answered exactly once, and what a session keeps has been inspected. *)
From stdpp Require Import base gmap strings list option fin_maps relations.
From Stdlib Require Import ZArith Lia Ascii.
From S2P Require Import Prelude GoStrings GoCodec Platform Json Net Digests Artifact.
From S2P Require Import Report Config Secrets SecLog Inspectors Session Messages Service.
From S2P Require Import ServiceProps.

Section Dispatcher.
Context `{ML : MimeLib} `{GL : GlobLib} `{OS : Os} `{VT : VersionText} `{Y : !YamlLib}
  `{FT : FloatText} `{CU : !CertUpdate} {IS : Type}.
Variable C : Constructors (IS := IS).
Variable st0 : IS.
Notation World := (World (IS := IS)).
Notation handle := (handleMessages C st0).

(** ** Steps *)

Record Sys := mkSys {
  sys_w : World;
  inbox : list Message;          (** messages whose senders wait for the dispatcher *)
  tasks : list Task;             (** goroutines *)
  answers : gmap nat Answer;     (** what the return channels hold *)
  next_ch : nat;                 (** channels made so far *)
  log : list SecEvent;           (** security events, in order *)
  hung : bool;                   (** the dispatcher is blocked for ever *)
}.

Definition apply_output (s : Sys) (o : Output) : Sys :=
  match o with
  | Reply rch v => mkSys (sys_w s) (inbox s) (tasks s) (<[rch := v]> (answers s)) (next_ch s) (log s)
                     (hung s)
  | Spawn t => mkSys (sys_w s) (inbox s) (tasks s ++ [t]) (answers s) (next_ch s) (log s) (hung s)
  | Event e => mkSys (sys_w s) (inbox s) (tasks s) (answers s) (next_ch s) (log s ++ [e]) (hung s)
  | Hang => mkSys (sys_w s) (inbox s) (tasks s) (answers s) (next_ch s) (log s) true
  end.
Definition apply_outputs (s : Sys) (l : list Output) : Sys := fold_left apply_output l s.

Definition req_art (q : Request) : option nat :=
  match q with
  | RequestInspectionMsg pa | ResponseInspectionMsg pa | CompleteInspectionMsg pa => Some pa
  | _ => None
  end.
Definition task_art (t : Task) : option nat :=
  match t with InspectRequestTask _ _ pa | InspectResponseTask _ _ pa => Some pa | _ => None end.
Definition task_rch (t : Task) : nat :=
  match t with
  | InspectRequestTask r _ _ | InspectResponseTask r _ _ | WaitCompletion r _ _ | DeleteTask r _ _ => r
  end.
Definition is_completion (q : Request) : bool :=
  match q with CompleteInspectionMsg _ => true | _ => false end.
Definition is_wait (t : Task) : bool := match t with WaitCompletion _ _ _ => true | _ => false end.
Definition makes_channel (t : Task) : bool :=
  match t with InspectResponseTask _ _ _ => true | _ => false end.

(** The service is working on the artifact. *)
Definition busy (s : Sys) (pa : nat) : Prop :=
  (exists m, In m (inbox s) /\ req_art (Req m) = Some pa) \/
  (exists t, In t (tasks s) /\ task_art t = Some pa).

Definition set_world (w : World) (s : Sys) : Sys :=
  mkSys w (inbox s) (tasks s) (answers s) (next_ch s) (log s) (hung s).

(** What the clients do: send a request on a new channel ([CompleteInspection] is sent by the service
    only), and prepare artifacts the service is not working on. *)
Inductive client_step : Sys -> Sys -> Prop :=
| step_request s q :
    is_completion q = false ->
    (forall pa, req_art q = Some pa -> is_Some (w_arts (sys_w s) !! pa)) ->
    client_step s (mkSys (sys_w s) (inbox s ++ [mkMessage (next_ch s) q]) (tasks s) (answers s)
                     (S (next_ch s)) (log s) (hung s))
| step_artifact s pa a :
    ~ busy s pa -> client_step s (set_world (set_art pa a (sys_w s)) s).

(** The fresh identifiers of a step are not in use. *)
Definition draws_fresh (d : Draws) (w : World) : Prop :=
  sessions (w_sess w) !! makeSessionID (d_uuid d) = None /\
  sessions (w_sess w) !! makeSessionID (d_uuid' d) = None.

(** The dispatcher takes a message, of any sender that waits. *)
Inductive receive_step : Sys -> Sys -> Prop :=
| step_message s pre m post d w outs :
    hung s = false -> inbox s = pre ++ m :: post -> draws_fresh d (sys_w s) ->
    handle m d (sys_w s) = (w, outs) ->
    receive_step s (apply_outputs
      (mkSys w (pre ++ post) (tasks s) (answers s) (next_ch s) (log s) (hung s)) outs).

(** A goroutine runs, or gets the answer it waits for. *)
Inductive goroutine_step : Sys -> Sys -> Prop :=
| step_task s pre t post w outs msgs :
    tasks s = pre ++ t :: post -> is_wait t = false ->
    run_task t (next_ch s) (sys_w s) = (w, outs, msgs) ->
    goroutine_step s (apply_outputs
      (mkSys w (inbox s ++ msgs) (pre ++ post) (answers s)
         (if makes_channel t then S (next_ch s) else next_ch s) (log s) (hung s)) outs)
| step_wait s pre rch err crch post c :
    tasks s = pre ++ WaitCompletion rch err crch :: post ->
    answers s !! crch = Some (AnsError c) ->
    goroutine_step s (mkSys (sys_w s) (inbox s) (pre ++ post)
      (<[rch := completion_answer err c]> (answers s)) (next_ch s) (log s) (hung s)).

(** What the service does with requests. *)
Definition service_step (s s' : Sys) : Prop := receive_step s s' \/ goroutine_step s s'.

(** A timer makes a step, or an expired ID is sent. *)
Inductive watch_step : Sys -> Sys -> Prop :=
| step_timer s p o t :
    objs (w_sess (sys_w s)) !! p = Some o -> timer_step (timer o) t ->
    watch_step s (set_world (set_session p (set_timer t o) (sys_w s)) s)
| step_send_id s p o :
    objs (w_sess (sys_w s)) !! p = Some o -> t_watcher (timer o) = Sending ->
    ExpiredSessionID (w_sess (sys_w s)) = [] ->
    watch_step s (set_world (set_w_sess
      (mkSessState (<[p := set_timer (sent (timer o)) o]> (objs (w_sess (sys_w s))))
         (sessions (w_sess (sys_w s))) (next (w_sess (sys_w s))) [s_ID o]) (sys_w s)) s).

(** The dispatcher receives an expired ID. *)
Inductive expiry_step (id : string) : Sys -> Sys -> Prop :=
| step_expired_id s rest d w outs :
    hung s = false -> ExpiredSessionID (w_sess (sys_w s)) = id :: rest ->
    handleExpired id d (set_w_sess (mkSessState (objs (w_sess (sys_w s))) (sessions (w_sess (sys_w s)))
      (next (w_sess (sys_w s))) rest) (sys_w s)) = (w, outs) ->
    expiry_step id s (apply_outputs (set_world w s) outs).

(** What time does. *)
Definition clock_step (s s' : Sys) : Prop := watch_step s s' \/ exists id, expiry_step id s s'.

Definition sys_step (s s' : Sys) : Prop := client_step s s' \/ service_step s s' \/ clock_step s s'.

Definition initial (s : Sys) : Prop :=
  inbox s = [] /\ tasks s = [] /\ answers s = ∅ /\ next_ch s = 0 /\ hung s = false /\
  w_sess (sys_w s) = no_sessions /\ w_arts (sys_w s) = ∅.

Definition reachable (s : Sys) : Prop := exists s0, initial s0 /\ rtc sys_step s0 s.

(** ** Invariant *)

(** The verdict of an inspection has been recorded. *)
Definition judged (a : Artifact) : Prop := Result a = Approved \/ Result a = Rejected.

(** What every session object satisfies. *)
Record session_ok (o : Session (IS := IS)) : Prop := {
  so_insps : insps_wf (Insps o);
  so_policy : permissive (Insps o) = Permissive o;
  so_arts : forall k a, A o !! k = Some a -> Sha256 (Meta a) = k /\ judged a;
}.

Definition world_ok (w : World) : Prop :=
  sess_wf (w_sess w) /\ forall p o, objs (w_sess w) !! p = Some o -> session_ok o.

(** Objects and artifacts are never freed. *)
Definition world_le (w w' : World) : Prop :=
  (forall p, is_Some (objs (w_sess w) !! p) -> is_Some (objs (w_sess w') !! p)) /\
  (forall pa, is_Some (w_arts w !! pa) -> is_Some (w_arts w' !! pa)).

(** Artifacts keep a recorded verdict. *)
Definition keeps_judged (w w' : World) : Prop := forall pa a, w_arts w !! pa = Some a -> judged a ->
  exists a', w_arts w' !! pa = Some a' /\ judged a'.

Definition msg_ok (w : World) (m : Message) : Prop :=
  match Req m with
  | CompleteInspectionMsg pa => exists a, w_arts w !! pa = Some a /\ judged a
  | q => forall pa, req_art q = Some pa -> is_Some (w_arts w !! pa)
  end.

Definition task_ok (w : World) (t : Task) : Prop :=
  match t with
  | InspectRequestTask _ p pa | InspectResponseTask _ p pa =>
      is_Some (objs (w_sess w) !! p) /\ is_Some (w_arts w !! pa)
  | _ => True
  end.

(** A step of the world that invariants survive. *)
Record good_step (w w' : World) : Prop := {
  gs_ok : world_ok w';
  gs_le : world_le w w';
  gs_judged : keeps_judged w w';
}.

(** How much the service has left to do. *)
Definition task_weight (t : Task) : nat :=
  match t with InspectResponseTask _ _ _ => 3 | _ => 1 end.
Definition req_weight (q : Request) : nat :=
  match q with
  | ResponseInspectionMsg _ => 4
  | RequestInspectionMsg _ | DeleteResources _ => 2
  | _ => 1
  end.

(** A handler answers once: directly, after some events, or through one goroutine it starts. *)
Inductive answers_once (m : Message) (w : World) : list Output -> Prop :=
| once_reply evs v : (is_completion (Req m) = true -> exists e, v = AnsError e) ->
    answers_once m w (map Event evs ++ [Reply (Rch m) v])
| once_spawn t : task_rch t = Rch m -> is_wait t = false -> task_ok w t ->
    task_weight t < req_weight (Req m) -> is_completion (Req m) = false ->
    answers_once m w [Spawn t].

(** ** Preservation by the handlers *)

Hypothesis C_laws : forall cfg, Forall InspectorLaws (insList C cfg).

Lemma good_step_refl w : world_ok w -> good_step w w.
Proof. intros. split; [done|by split|]. intros pa a ? ?. eauto. Qed.

Lemma good_step_trans w1 w2 w3 : good_step w1 w2 -> good_step w2 w3 -> good_step w1 w3.
Proof.
  intros [_ [L1 L2] J1] [O2 [L3 L4] J2]. split; [done|split; eauto|].
  intros pa a Ha Hj. destruct (J1 _ _ Ha Hj) as (a' & Ha' & Hj'). eauto.
Qed.

(** Changes of files, configuration and counters only. *)
Lemma good_step_same w w' : world_ok w -> w_sess w' = w_sess w -> w_arts w' = w_arts w ->
  good_step w w'.
Proof.
  intros Hw Hs Ha. unfold world_ok, world_le, keeps_judged.
  split; [unfold world_ok|unfold world_le|unfold keeps_judged]; rewrite ?Hs, ?Ha; eauto.
Qed.

(** An update of a session object. *)
Lemma good_step_session w p o o' : world_ok w -> objs (w_sess w) !! p = Some o ->
  s_ID o' = s_ID o -> t_done (timer o') = t_done (timer o) -> session_ok o' ->
  good_step w (set_session p o' w).
Proof.
  intros [Hwf Ho] Hp Hid Hd Hok. split.
  - split; [by eapply set_obj_wf|]. intros q o2. simpl. rewrite lookup_insert.
    case_decide; [by intros; simplify_eq|apply Ho].
  - split; [|done]. intros q [x Hx]. simpl. rewrite lookup_insert. case_decide; eauto.
  - intros pa a Ha Hj. eauto.
Qed.

(** An update of an artifact that keeps its verdict. *)
Lemma good_step_art w pa a' : world_ok w ->
  (forall a, w_arts w !! pa = Some a -> judged a -> judged a') ->
  good_step w (set_art pa a' w).
Proof.
  intros Hw Hj. split; [done|split; [done|]|].
  - intros q [x Hx]. simpl. rewrite lookup_insert. case_decide; eauto.
  - intros q a Ha Hja. simpl. rewrite lookup_insert. case_decide; [subst; eauto|eauto].
Qed.

Lemma session_ok_AddDownload di (o : Session (IS := IS)) : session_ok o -> session_ok (AddDownload di o).
Proof.
  intros [H1 H2 H3]. unfold AddDownload. destruct (HasArtifact o (dl_Sha256 di)); [|by split].
  split; simpl; [done|done|]. intros k a. rewrite lookup_alter. case_decide.
  - subst. intros H. apply fmap_Some in H as (a0 & Ha & ->). by apply H3 in Ha.
  - apply H3.
Qed.

Lemma session_ok_AddArtifact a (o : Session (IS := IS)) : judged a -> session_ok o -> session_ok (AddArtifact a o).
Proof.
  intros Hj [H1 H2 H3]. unfold AddArtifact. destruct (A o !! Sha256 (Meta a)); [by split|].
  split; simpl; [done|done|]. intros k a'. rewrite lookup_insert.
  case_decide; [intros; simplify_eq; done|apply H3].
Qed.

Lemma AddDownload_keeps di (o : Session (IS := IS)) :
  s_ID (AddDownload di o) = s_ID o /\ timer (AddDownload di o) = timer o.
Proof. unfold AddDownload. by destruct (HasArtifact o (dl_Sha256 di)). Qed.

Lemma AddArtifact_keeps a (o : Session (IS := IS)) :
  s_ID (AddArtifact a o) = s_ID o /\ timer (AddArtifact a o) = timer o.
Proof. unfold AddArtifact. by destruct (A o !! Sha256 (Meta a)). Qed.

Lemma session_ok_set_timer t (o : Session (IS := IS)) : session_ok o -> session_ok (set_timer t o).
Proof. intros [H1 H2 H3]. by split. Qed.

(** [Finish] on an active session. *)
Lemma good_step_Finish w p o d : world_ok w -> objs (w_sess w) !! p = Some o ->
  sessions (w_sess w) !! s_ID o = Some p ->
  exists ss fs e, Finish p (d_digests d) (w_sess w) (w_fs w) = Some (ss, fs, e) /\
    good_step w (set_w_fs fs (set_w_sess ss w)).
Proof.
  intros [Hwf Ho] Hp Hs.
  destruct (Finish_active (w_sess w) (w_fs w) p o (d_digests d) Hwf Hp Hs)
    as (ss & fs & e & HF & Hwf' & _ & _ & Hoth & He).
  exists ss, fs, e. split; [done|].
  assert (Hobj : exists t, objs ss !! p = Some (set_timer t o)).
  { destruct e; [destruct He as [_ He]|destruct He as (_ & t & He & _)]; eauto. }
  destruct Hobj as [t Hobj]. split; simpl.
  - split; [done|]. simpl. intros q o2 Hq. destruct (decide (q = p)) as [->|Hne].
    + rewrite Hobj in Hq. simplify_eq. by apply session_ok_set_timer, (Ho p).
    + rewrite (Hoth q Hne) in Hq. by apply (Ho q).
  - split; [|done]. simpl. intros q Hq. destruct (decide (q = p)) as [->|Hne]; [by rewrite Hobj|].
    by rewrite Hoth.
  - intros pa a Ha Hj. eauto.
Qed.

Lemma session_of_active w id p : world_ok w -> sessions (w_sess w) !! id = Some p ->
  exists o, objs (w_sess w) !! p = Some o /\ s_ID o = id /\ session_ok o.
Proof.
  intros [Hwf Ho] Hid. destruct (wf_table _ Hwf _ _ Hid) as (o & Hp & Hi & _).
  exists o. split; [done|]. split; [done|]. by apply (Ho p).
Qed.

Lemma good_step_NewWithID w sid token timeout perm secs ov uuid now p o ss fs n :
  world_ok w -> sessions (w_sess w) !! makeSessionID uuid = None ->
  NewWithID C st0 sid token fs timeout perm secs ov (w_cfg w) uuid now (w_sess w) = (p, o, ss) ->
  good_step w (set_totalSessions n (set_w_sess ss w)).
Proof.
  intros [Hwf Ho] Hu H.
  destruct (NewWithID_wf _ _ _ _ _ _ _ _ _ _ _ _ _ _ _ _ Hwf Hu H) as (Hwf' & _ & Hp).
  unfold NewWithID in H. injection H as <- <- <-. split.
  - split; [done|]. simpl. intros q o2. rewrite lookup_insert. case_decide.
    + intros; simplify_eq. split; simpl; [by apply insps_wf_New|done|].
      intros k a Hk. by rewrite lookup_empty in Hk.
    + apply Ho.
  - split; [|done]. simpl. intros q Hq. rewrite lookup_insert. case_decide; eauto.
  - intros pa a Ha Hj. eauto.
Qed.

Lemma once_answer m w v : (is_completion (Req m) = true -> exists e, v = AnsError e) ->
  answers_once m w [Reply (Rch m) v].
Proof. apply (once_reply m w []). Qed.

Lemma good_step_remove_tempfile w a : world_ok w -> good_step w (remove_tempfile a w).
Proof. intros. by apply good_step_same. Qed.

(** What a handler does: invariants survive and the message is answered once. *)
Definition handles (m : Message) (w : World) (r : World * list Output) : Prop :=
  good_step w (fst r) /\ answers_once m (fst r) (snd r).

Lemma handles_answer m w w' v : good_step w w' ->
  (is_completion (Req m) = true -> exists e, v = AnsError e) ->
  handles m w (answer (Rch m) v w').
Proof. intros. split; simpl; [done|by apply once_answer]. Qed.

Lemma handles_error m w w' e : good_step w w' -> handles m w (answer (Rch m) (AnsError e) w').
Proof. intros. apply handles_answer; eauto. Qed.

Lemma handles_refused m w v : world_ok w -> is_completion (Req m) = false ->
  handles m w (answer (Rch m) v w).
Proof. intros. apply handles_answer; [by apply good_step_refl|congruence]. Qed.

Lemma handleRequestInspection_good rch pa a w : world_ok w -> is_Some (w_arts w !! pa) ->
  handles (mkMessage rch (RequestInspectionMsg pa)) w (handleRequestInspection rch pa a w).
Proof.
  intros Hw Ha. unfold handleRequestInspection.
  destruct (GetSession (w_sess w) (SessionID a)) as [p|] eqn:Ep.
  - destruct (session_of_active w _ p Hw Ep) as (o & Ho & _ & _).
    split; simpl; [by apply good_step_refl|]. apply once_spawn; simpl; eauto.
  - apply (handles_error (mkMessage rch (RequestInspectionMsg pa))). by apply good_step_refl.
Qed.

Lemma good_step_download w pa a d : world_ok w -> w_arts w !! pa = Some a ->
  good_step w (set_art pa (set_CurrentDownload d a) w).
Proof. intros Hw Ha. apply good_step_art; [done|]. intros a0 Ha0 Hj. simplify_eq. exact Hj. Qed.

Lemma handleResponseInspection_good rch pa a d w : world_ok w -> w_arts w !! pa = Some a ->
  handles (mkMessage rch (ResponseInspectionMsg pa)) w (handleResponseInspection rch pa a d w).
Proof.
  intros Hw Ha. set (m := mkMessage rch (ResponseInspectionMsg pa)).
  unfold handleResponseInspection.
  destruct (GetSession (w_sess w) (SessionID a)) as [p|] eqn:Ep.
  2: { apply (handles_error m), good_step_remove_tempfile, Hw. }
  destruct (session_of_active w _ p Hw Ep) as (o & Ho & _ & Hok). rewrite Ho.
  set (a1 := set_CurrentDownload _ a).
  pose proof (good_step_download w pa a (set_EndTime (d_now d) (CurrentDownload a)) Hw Ha) as G1.
  fold a1 in G1. set (w1 := set_art pa a1 w) in *.
  destruct (HasArtifact o (Sha256 (Meta a))).
  - assert (G2 : good_step w (remove_tempfile a1 (set_session p (AddDownload (CurrentDownload a1) o) w1))).
    { eapply good_step_trans; [exact G1|]. eapply good_step_trans.
      - apply (good_step_session w1 p o (AddDownload (CurrentDownload a1) o)); [apply G1|exact Ho| | |];
          [apply AddDownload_keeps| |by apply session_ok_AddDownload].
        by rewrite (proj2 (AddDownload_keeps (CurrentDownload a1) o)).
      - apply good_step_remove_tempfile. eapply good_step_session; [apply G1|exact Ho| | |];
          [apply AddDownload_keeps| |by apply session_ok_AddDownload].
        by rewrite (proj2 (AddDownload_keeps (CurrentDownload a1) o)). }
    destruct (_ && _); by apply (handles_error m).
  - destruct (SaveData a1 (w_fs w1)) as [fs [e|]].
    + apply (handles_error m). eapply good_step_trans; [exact G1|]. apply good_step_same; [apply G1|done..].
    + split; simpl.
      * eapply good_step_trans; [exact G1|]. apply good_step_same; [apply G1|done..].
      * apply once_spawn; simpl; try done; [|lia]. split; [by eexists|].
        rewrite lookup_insert_eq. eauto.
Qed.

Lemma handleCompleteInspection_good rch pa a w : world_ok w -> judged a ->
  handles (mkMessage rch (CompleteInspectionMsg pa)) w (handleCompleteInspection rch a w).
Proof.
  intros Hw Hj. set (m := mkMessage rch (CompleteInspectionMsg pa)).
  unfold handleCompleteInspection.
  destruct (GetSession (w_sess w) (SessionID a)) as [p|] eqn:Ep.
  2: by apply (handles_error m), good_step_refl.
  destruct (session_of_active w _ p Hw Ep) as (o & Ho & _ & Hok). rewrite Ho.
  apply (handles_error m).
  set (o1 := if negb (HasArtifact o (Sha256 (Meta a))) then AddArtifact a o else o).
  assert (H1 : s_ID o1 = s_ID o /\ timer o1 = timer o /\ session_ok o1).
  { unfold o1. destruct (negb _); [|done]. destruct (AddArtifact_keeps a o) as [H1 H2].
    split; [done|]. split; [done|]. by apply session_ok_AddArtifact. }
  destruct H1 as (H1 & H2 & H3). destruct (AddDownload_keeps (CurrentDownload a) o1) as [H4 H5].
  eapply good_step_session; [exact Hw|exact Ho|congruence|congruence|].
  by apply session_ok_AddDownload.
Qed.

Lemma handleCreateSession_good rch v d w : world_ok w -> draws_fresh d w ->
  handles (mkMessage rch (CreateSession v)) w (handleCreateSession C st0 rch v d w).
Proof.
  intros Hw [_ Hd]. set (m := mkMessage rch (CreateSession v)). unfold handleCreateSession.
  destruct (_ && _); [by apply (handles_refused m)|].
  destruct (ValidateSecrets _); [by apply (handles_refused m)|].
  destruct (New _ _ _ _ _ _ _ _ _ _ _ _ _) as [[p o] ss] eqn:E. unfold New in E.
  apply (handles_answer m); [|done]. by eapply good_step_NewWithID.
Qed.

Lemma handleRevokeToken_good rch id token d w : world_ok w ->
  handles (mkMessage rch (RevokeToken id token)) w (handleRevokeToken rch id token d w).
Proof.
  intros Hw. set (m := mkMessage rch (RevokeToken id token)). unfold handleRevokeToken.
  destruct (GetSession (w_sess w) id) as [p|] eqn:Ep; [|by apply (handles_refused m)].
  destruct (session_of_active w _ p Hw Ep) as (o & Ho & _ & Hok). rewrite Ho.
  unfold Revoke. destruct (negb _); [by apply (handles_refused m)|].
  apply (handles_answer m); [|done]. eapply good_step_session; [done|exact Ho|done|done|].
  destruct Hok as [H1 H2 H3]. by split.
Qed.

Lemma handleSessionReport_good rch id d w : world_ok w ->
  handles (mkMessage rch (SessionReport id)) w (handleSessionReport rch id d w).
Proof.
  intros Hw. unfold handleSessionReport. destruct (active (w_sess w) id) as [s|];
    [destruct (negb _)|]; by apply (handles_refused (mkMessage rch (SessionReport id))).
Qed.

Lemma handleEndSession_good rch id d w : world_ok w ->
  handles (mkMessage rch (EndSession id)) w (handleEndSession rch id d w).
Proof.
  intros Hw. unfold handleEndSession, finish_session.
  destruct (GetSession (w_sess w) id) as [p|] eqn:Ep.
  2: by apply (handles_error (mkMessage rch (EndSession id))), good_step_refl.
  destruct (session_of_active w _ p Hw Ep) as (o & Ho & Hid & _).
  destruct (good_step_Finish w p o d Hw Ho) as (ss & fs & e & -> & HG); [by rewrite Hid|].
  by apply (handles_error (mkMessage rch (EndSession id))).
Qed.

Lemma handleDeleteResources_good rch id w : world_ok w ->
  handles (mkMessage rch (DeleteResources id)) w (handleDeleteResources rch id w).
Proof.
  intros Hw. unfold handleDeleteResources. destruct (GetSession (w_sess w) id).
  - by apply (handles_error (mkMessage rch (DeleteResources id))), good_step_refl.
  - split; simpl; [by apply good_step_refl|]. by apply once_spawn; simpl; [..|lia|].
Qed.

(** Fetchctl operations change files, the configuration and the table of sessions only. *)
Lemma handleFetchCtl_good v d w w' r evs : world_ok w -> draws_fresh d w ->
  handleFetchCtl C st0 v d w = (w', r, evs) -> good_step w w'.
Proof.
  intros Hw [Hd _]. unfold handleFetchCtl.
  destruct (String.eqb _ "version"); [intros; simplify_eq; by apply good_step_refl|].
  destruct (String.eqb _ "update-config").
  { unfold fetchCtlUpdateConfig. destruct (UpdateConfig _ _ _ _ _ _) as [[cs fs] err].
    destruct err, (fc_ValidateOnly v); intros; simplify_eq; by apply good_step_same. }
  destruct (String.eqb _ "update-cert").
  { unfold fetchCtlUpdateCert. destruct (proxyUpdateCert _ _ _ _ _) as [fs err].
    destruct err, (fc_ValidateOnly v); intros; simplify_eq; by apply good_step_same. }
  destruct (String.eqb _ "create-session").
  { unfold fetchCtlCreateSession. destruct (unmarshal_payload _) as [params|];
      [|intros; simplify_eq; by apply good_step_refl].
    destruct (if String.eqb _ "" then _ else _) as [cfg|]; [|intros; simplify_eq; by apply good_step_refl].
    destruct (NewWithID _ _ _ _ _ _ _ _ _ _ _ _ _) as [[p o] ss] eqn:E.
    intros; simplify_eq. by eapply good_step_NewWithID. }
  destruct (String.eqb _ "list-artifacts"); intros; simplify_eq; by apply good_step_refl.
Qed.

(** Every message is handled: invariants survive, and it is answered once. *)
Lemma handle_good m d w : world_ok w -> msg_ok w m -> draws_fresh d w -> handles m w (handle m d w).
Proof.
  intros Hw Hm Hd. destruct m as [rch q]. unfold handleMessages. simpl in *. destruct q; simpl in *.
  - by apply (handles_refused (mkMessage rch GetServiceStatus)).
  - unfold with_art. destruct (Hm a eq_refl) as [a0 Ha]. rewrite Ha.
    by apply handleRequestInspection_good; [|rewrite Ha; eauto].
  - unfold with_art. destruct (Hm a eq_refl) as [a0 Ha]. rewrite Ha.
    by apply handleResponseInspection_good.
  - unfold with_art. destruct Hm as (a0 & Ha & Hj). rewrite Ha. by apply handleCompleteInspection_good.
  - by apply handleCreateSession_good.
  - by apply handleRevokeToken_good.
  - by apply handleSessionReport_good.
  - by apply handleEndSession_good.
  - by apply handleDeleteResources_good.
  - destruct (CheckAuth _ _ _ _ _ _) as [ok evs]. split; simpl; [by apply good_step_refl|].
    by apply (once_reply (mkMessage rch (ProxyAuth v))).
  - destruct (handleFetchCtl _ _ _ _ _) as [[w' r] evs] eqn:E.
    apply handleFetchCtl_good in E; [|done..]. split; simpl; [done|].
    by apply (once_reply (mkMessage rch (FetchCtl v))).
Qed.

(** ** Preservation by goroutines *)

Lemma run_request_keeps (s : Session (IS := IS)) st a st' a' e : session_ok s ->
  runRequestInspection s st a = (st', a', e) -> judged a -> judged a'.
Proof.
  intros Hs. unfold runRequestInspection.
  destruct (RunRequestInspectors (Insps s) st a) as [[st1 a1] e1] eqn:E.
  destruct (run_request_frame _ _ _ _ _ _ _ (wf_laws _ (so_insps _ Hs)) E) as (Hf & _ & _).
  unfold judged. destruct e1; intros; simplify_eq; by rewrite (fr_result _ _ Hf).
Qed.

Lemma run_response_judged (s : Session (IS := IS)) fs st a st' a' e :
  runResponseInspection s fs st a = (st', a', e) -> judged a'.
Proof.
  unfold runResponseInspection, evaluateResponseInspection, judged.
  destruct (RunArtifactInspectors _ _ _ _ _) as [[st1 a1] [e1|]];
    [intros; simplify_eq; by right|].
  destruct (Artifact_Rejected a1); intros; simplify_eq; [by right|by left].
Qed.

Lemma good_step_inspected w p o st pa a : world_ok w -> objs (w_sess w) !! p = Some o ->
  (forall a0, w_arts w !! pa = Some a0 -> judged a0 -> judged a) ->
  good_step w (set_art pa a (set_session p (set_ins_state st o) w)).
Proof.
  intros Hw Hp Hj. pose proof (proj2 Hw p o Hp) as Hok.
  assert (G : good_step w (set_session p (set_ins_state st o) w)).
  { eapply good_step_session; [done|exact Hp|done|done|]. destruct Hok as [H1 H2 H3]. by split. }
  eapply good_step_trans; [exact G|]. apply good_step_art; [apply G|exact Hj].
Qed.

(** What a goroutine that runs does: it answers, or sends the completion message on a new channel and
    waits for it. *)
Inductive task_done (t : Task) (ch : nat) (w' : World) : list Output -> list Message -> Prop :=
| done_reply v : makes_channel t = false -> task_done t ch w' [Reply (task_rch t) v] []
| done_wait e pa : makes_channel t = true ->
    msg_ok w' (mkMessage ch (CompleteInspectionMsg pa)) ->
    task_done t ch w' [Spawn (WaitCompletion (task_rch t) e ch)]
      [mkMessage ch (CompleteInspectionMsg pa)].

Lemma run_task_good t ch w w' outs msgs : world_ok w -> task_ok w t -> is_wait t = false ->
  run_task t ch w = (w', outs, msgs) -> good_step w w' /\ task_done t ch w' outs msgs.
Proof.
  intros Hw Ht Hwait. destruct t as [rch p pa|rch p pa|rch e crch|rch spool id]; [| |done|]; simpl.
  - destruct Ht as [[o Ho] [a Ha]]. rewrite Ho, Ha. pose proof (proj2 Hw p o Ho) as Hok.
    destruct (runRequestInspection _ _ _) as [[st a'] e] eqn:E. intros; simplify_eq.
    split; [|by apply (done_reply (InspectRequestTask rch p pa))].
    apply good_step_inspected; [done..|]. intros a0 Ha0 Hj. simplify_eq. by eapply run_request_keeps.
  - destruct Ht as [[o Ho] [a Ha]]. rewrite Ho, Ha.
    destruct (runResponseInspection _ _ _ _) as [[st a'] e] eqn:E. intros; simplify_eq.
    apply run_response_judged in E.
    split; [by apply good_step_inspected|].
    apply (done_wait (InspectResponseTask rch p pa)); [done|].
    exists a'. split; [|done]. simpl. by rewrite lookup_insert_eq.
  - destruct (RemoveResources _ _ _) as [fs e]. intros; simplify_eq.
    split; [by apply good_step_same|by apply (done_reply (DeleteTask rch spool id))].
Qed.

(** ** The invariant of the system *)

(** The return channels of waiting messages, of goroutines, and those that hold an answer. *)
Definition channels (s : Sys) : list nat :=
  map Rch (inbox s) ++ map task_rch (tasks s) ++ (map_to_list (answers s)).*1.

Record sys_inv (s : Sys) : Prop := {
  inv_world : world_ok (sys_w s);
  inv_msgs : Forall (msg_ok (sys_w s)) (inbox s);
  inv_tasks : Forall (task_ok (sys_w s)) (tasks s);
  inv_waits : forall rch e crch, In (WaitCompletion rch e crch) (tasks s) ->
    (exists pa, In (mkMessage crch (CompleteInspectionMsg pa)) (inbox s)) \/
    (exists c, answers s !! crch = Some (AnsError c));
  inv_chans : channels s ≡ₚ seq 0 (next_ch s);
  inv_hung : hung s = false;
}.

Lemma msg_ok_mono w w' m : good_step w w' -> msg_ok w m -> msg_ok w' m.
Proof.
  intros [_ [_ L] J]. destruct m as [rch q]. unfold msg_ok. destruct q; simpl; try done.
  - intros H pa Hpa. eauto.
  - intros H pa Hpa. eauto.
  - intros (x & Hx & Hj). eauto.
Qed.

Lemma task_ok_mono w w' t : world_le w w' -> task_ok w t -> task_ok w' t.
Proof. intros [L1 L2]. destruct t; simpl; naive_solver. Qed.

Lemma seq_fresh l (ans : gmap nat Answer) c n : c :: l ++ (map_to_list ans).*1 ≡ₚ seq 0 n ->
  ans !! c = None /\ ~ In c l.
Proof.
  intros HP. assert (HN : NoDup (c :: l ++ (map_to_list ans).*1)) by (rewrite HP; apply NoDup_seq).
  apply NoDup_cons in HN as [Hc _]. rewrite elem_of_app in Hc. split.
  - destruct (ans !! c) as [v|] eqn:E; [|done]. destruct Hc. right.
    apply list_elem_of_fmap. exists (c, v). split; [done|]. by apply elem_of_map_to_list.
  - intros H. apply Hc. left. by apply list_elem_of_In.
Qed.

Lemma keys_insert (ans : gmap nat Answer) c v : ans !! c = None ->
  (map_to_list (<[c := v]> ans)).*1 ≡ₚ c :: (map_to_list ans).*1.
Proof. intros H. by rewrite map_to_list_insert. Qed.

Lemma seq_snoc n l : l ≡ₚ seq 0 n -> l ++ [n] ≡ₚ seq 0 (S n).
Proof. intros ->. by rewrite seq_S. Qed.

Lemma apply_outputs_events evs o s :
  apply_outputs s (map Event evs ++ [o]) =
  apply_output (mkSys (sys_w s) (inbox s) (tasks s) (answers s) (next_ch s) (log s ++ evs) (hung s)) o.
Proof.
  revert s. induction evs as [|e evs IH]; intros s; simpl.
  - destruct s. simpl. by rewrite app_nil_r.
  - unfold apply_outputs in *. rewrite IH. simpl. by rewrite <- app_assoc.
Qed.

(** A message that is taken from the inbox and handled. *)
Lemma inv_step_message s pre m post d w outs : sys_inv s -> inbox s = pre ++ m :: post ->
  draws_fresh d (sys_w s) -> handle m d (sys_w s) = (w, outs) ->
  sys_inv (apply_outputs (mkSys w (pre ++ post) (tasks s) (answers s) (next_ch s) (log s) (hung s)) outs).
Proof.
  intros [Hw Hm Ht Hwt Hc Hh] Hin Hd HE. rewrite Hin in Hm.
  apply Forall_app in Hm as [Hm1 Hm2]. apply Forall_cons_iff in Hm2 as [Hm0 Hm2].
  destruct (handle_good m d (sys_w s) Hw Hm0 Hd) as [G O]. rewrite HE in G, O. simpl in G, O.
  assert (Hmsgs : Forall (msg_ok w) (pre ++ post)).
  { apply Forall_app. split; eapply List.Forall_impl; try eassumption; intros; by eapply msg_ok_mono. }
  assert (Htasks : Forall (task_ok w) (tasks s)).
  { eapply List.Forall_impl; [|exact Ht]. intros. eapply task_ok_mono; [apply G|done]. }
  assert (Hc' : Rch m :: (map Rch (pre ++ post) ++ map task_rch (tasks s)) ++
      (map_to_list (answers s)).*1 ≡ₚ seq 0 (next_ch s)).
  { rewrite <- Hc. unfold channels. rewrite Hin, !map_app. simpl. solve_Permutation. }
  destruct (seq_fresh _ _ _ _ Hc') as [Hnone Hnin].
  (** A completion message is waited for under its own channel. *)
  assert (Hwait : forall rch e crch, In (WaitCompletion rch e crch) (tasks s) ->
    (exists pa, In (mkMessage crch (CompleteInspectionMsg pa)) (pre ++ post)) \/
    (exists c, answers s !! crch = Some (AnsError c)) \/
    (crch = Rch m /\ is_completion (Req m) = true)).
  { intros rch e crch Hi. destruct (Hwt _ _ _ Hi) as [[pa Hpa]|Ha]; [|by right; left].
    rewrite Hin in Hpa. apply in_app_iff in Hpa as [Hpa|[->|Hpa]].
    - left. exists pa. apply in_app_iff. by left.
    - by right; right.
    - left. exists pa. apply in_app_iff. by right. }
  destruct O as [evs v Hv|t Htr Htw Htok Hlt Hnc].
  - rewrite apply_outputs_events. split; simpl; try done; [apply G| |].
    + intros rch e crch Hi. destruct (Hwait _ _ _ Hi) as [H|[[c H]|[-> H]]]; [by left|right..].
      * exists c. rewrite lookup_insert_ne; [done|]. congruence.
      * destruct (Hv H) as [e' ->]. exists e'. by rewrite lookup_insert_eq.
    + rewrite <- Hc'. unfold channels. simpl. rewrite keys_insert by done. solve_Permutation.
  - split; simpl; try done; [apply G|by apply Forall_app; split; [|apply Forall_singleton]| |].
    + intros rch e crch Hi. apply in_app_iff in Hi as [Hi|[->|[]]]; [|done].
      destruct (Hwait _ _ _ Hi) as [H|[H|[_ H]]]; [by left|by right|congruence].
    + rewrite <- Hc'. unfold channels. simpl. rewrite (map_app task_rch). simpl. rewrite Htr.
      solve_Permutation.
Qed.

(** A goroutine that runs. *)
Lemma inv_step_task s pre t post w outs msgs : sys_inv s -> tasks s = pre ++ t :: post ->
  is_wait t = false -> run_task t (next_ch s) (sys_w s) = (w, outs, msgs) ->
  sys_inv (apply_outputs (mkSys w (inbox s ++ msgs) (pre ++ post) (answers s)
    (if makes_channel t then S (next_ch s) else next_ch s) (log s) (hung s)) outs).
Proof.
  intros [Hw Hm Ht Hwt Hc Hh] Hin Hnw HE.
  assert (Ht0 : task_ok (sys_w s) t).
  { rewrite List.Forall_forall in Ht. apply Ht. rewrite Hin. apply in_elt. }
  destruct (run_task_good t _ _ _ _ _ Hw Ht0 Hnw HE) as [G D].
  assert (Hmsgs : Forall (msg_ok w) (inbox s)).
  { eapply List.Forall_impl; [|exact Hm]. intros. by eapply msg_ok_mono. }
  assert (Htasks : Forall (task_ok w) (pre ++ post)).
  { rewrite Hin in Ht. apply Forall_app in Ht as [H1 H2]. apply Forall_cons_iff in H2 as [_ H2].
    apply Forall_app. split; eapply List.Forall_impl; try eassumption; intros;
      (eapply task_ok_mono; [apply G|done]). }
  assert (Hw' : forall rch e crch, In (WaitCompletion rch e crch) (pre ++ post) ->
    (exists pa, In (mkMessage crch (CompleteInspectionMsg pa)) (inbox s)) \/
    (exists c, answers s !! crch = Some (AnsError c))).
  { intros rch e crch Hi. apply (Hwt rch e crch). rewrite Hin. apply in_app_iff in Hi.
    apply in_app_iff. simpl. tauto. }
  assert (Hc' : task_rch t :: (map Rch (inbox s) ++ map task_rch (pre ++ post)) ++
      (map_to_list (answers s)).*1 ≡ₚ seq 0 (next_ch s)).
  { rewrite <- Hc. unfold channels. rewrite Hin, !map_app. simpl. solve_Permutation. }
  destruct (seq_fresh _ _ _ _ Hc') as [Hnone _].
  destruct D as [v Hmk|e pa Hmk Hok]; rewrite Hmk; simpl.
  - rewrite app_nil_r. split; simpl; try done; [apply G| |].
    + intros rch e crch Hi. destruct (Hw' _ _ _ Hi) as [H|[c H]]; [by left|right].
      exists c. rewrite lookup_insert_ne; [done|]. congruence.
    + rewrite <- Hc'. unfold channels. simpl. rewrite keys_insert by done. solve_Permutation.
  - split; simpl; try done; [apply G|by apply Forall_app; split; [|apply Forall_singleton]| | |].
    + apply Forall_app. split; [done|]. by apply Forall_singleton.
    + intros rch e' crch Hi. apply in_app_iff in Hi as [Hi|[Hi|[]]].
      * destruct (Hw' _ _ _ Hi) as [[q H]|H]; [|by right].
        left. exists q. apply in_app_iff. by left.
      * injection Hi as <- <- <-. left. exists pa. apply in_app_iff. right. by left.
    + change (0 :: seq 1 (next_ch s)) with (seq 0 (S (next_ch s))).
      rewrite <- (seq_snoc _ _ Hc'). unfold channels. simpl. rewrite !map_app. simpl. solve_Permutation.
Qed.

(** A goroutine that gets the answer it waits for. *)
Lemma inv_step_wait s pre rch err crch post c : sys_inv s ->
  tasks s = pre ++ WaitCompletion rch err crch :: post -> answers s !! crch = Some (AnsError c) ->
  sys_inv (mkSys (sys_w s) (inbox s) (pre ++ post) (<[rch := completion_answer err c]> (answers s))
    (next_ch s) (log s) (hung s)).
Proof.
  intros [Hw Hm Ht Hwt Hc Hh] Hin Ha.
  assert (Hc' : rch :: (map Rch (inbox s) ++ map task_rch (pre ++ post)) ++
      (map_to_list (answers s)).*1 ≡ₚ seq 0 (next_ch s)).
  { rewrite <- Hc. unfold channels. rewrite Hin, !map_app. simpl. solve_Permutation. }
  destruct (seq_fresh _ _ _ _ Hc') as [Hnone _].
  split; simpl; try done.
  - rewrite Hin in Ht. apply Forall_app in Ht as [H1 H2]. apply Forall_cons_iff in H2 as [_ H2].
    by apply Forall_app.
  - intros r e cr Hi. destruct (Hwt r e cr) as [H|[c' H]].
    + rewrite Hin. apply in_app_iff in Hi. apply in_app_iff. simpl. tauto.
    + by left.
    + right. exists c'. rewrite lookup_insert_ne; [done|]. congruence.
  - rewrite <- Hc'. unfold channels. simpl. rewrite keys_insert by done. solve_Permutation.
Qed.

(** ** Clients and clocks *)

Lemma inv_set_world s w : sys_inv s -> good_step (sys_w s) w -> sys_inv (set_world w s).
Proof.
  intros [Hw Hm Ht Hwt Hc Hh] G. split; simpl; try done; [apply G| |].
  - eapply List.Forall_impl; [|exact Hm]. intros. by eapply msg_ok_mono.
  - eapply List.Forall_impl; [|exact Ht]. intros. eapply task_ok_mono; [apply G|done].
Qed.

Lemma inv_client s s' : sys_inv s -> client_step s s' -> sys_inv s'.
Proof.
  intros [Hw Hm Ht Hwt Hc Hh] H. destruct H as [s q Hnc Hq|s pa a Hb].
  - split; simpl; try done.
    + apply Forall_app. split; [done|]. apply Forall_singleton. destruct q; naive_solver.
    + intros r e cr Hi. destruct (Hwt r e cr Hi) as [[pa H]|H]; [|by right].
      left. exists pa. apply in_app_iff. by left.
    + change (0 :: seq 1 (next_ch s)) with (seq 0 (S (next_ch s))).
      rewrite <- (seq_snoc _ _ Hc). unfold channels. simpl. rewrite map_app. simpl.
      solve_Permutation.
  - assert (Hne : forall q, is_Some (w_arts (sys_w s) !! q) ->
      is_Some (w_arts (set_art pa a (sys_w s)) !! q)).
    { intros q Hq. simpl. rewrite lookup_insert. case_decide; eauto. }
    split; simpl; try done.
    + rewrite List.Forall_forall in *. intros m Hi. specialize (Hm m Hi).
      destruct m as [rch q]. unfold msg_ok in *. simpl in *. destruct q; simpl in *; try done.
      * intros p [= <-]. by apply Hne, Hm.
      * intros p [= <-]. by apply Hne, Hm.
      * destruct Hm as (a1 & Ha1 & Hj). exists a1. split; [|done].
        rewrite lookup_insert_ne; [done|]. intros ->. apply Hb. left. by eexists.
    + eapply List.Forall_impl; [|exact Ht]. intros t. apply task_ok_mono. by split.
Qed.

(** A step of a timer or its watcher; the timer of an active session was not cancelled. *)
Lemma good_step_timer w p o t : world_ok w -> objs (w_sess w) !! p = Some o ->
  (t_done (timer o) = 0 -> t_done t = 0) -> good_step w (set_session p (set_timer t o) w).
Proof.
  intros [[Ht Hn Hch] Ho] Hp Hd. split.
  - split; [split; simpl; [| |done]|].
    + intros id q Hq. destruct (Ht id q Hq) as (s0 & H0 & Hi & Hd0).
      destruct (decide (p = q)) as [<-|Hne].
      * rewrite lookup_insert_eq. exists (set_timer t o). simplify_eq. split; [done|]. split; [done|].
        by apply Hd.
      * rewrite lookup_insert_ne by done. eauto.
    + intros q s0. rewrite lookup_insert. case_decide; [subst; intros; by eapply Hn|apply Hn].
    + intros q o2. simpl. rewrite lookup_insert. case_decide; [|apply Ho].
      intros; simplify_eq. by apply session_ok_set_timer, (Ho q).
  - split; [|done]. intros q [x Hx]. simpl. rewrite lookup_insert. case_decide; eauto.
  - intros pa a Ha Hj. eauto.
Qed.

(** The channel of expired IDs. *)
Lemma good_step_chan w l : world_ok w -> length l <= 1 ->
  good_step w (set_w_sess (mkSessState (objs (w_sess w)) (sessions (w_sess w)) (next (w_sess w)) l) w).
Proof.
  intros [[Ht Hn Hch] Ho] Hl. split; [split; [by split|done]|by split|].
  intros pa a Ha Hj. eauto.
Qed.

Lemma handleExpired_good id d w : world_ok w ->
  good_step w (fst (handleExpired id d w)) /\ snd (handleExpired id d w) = [].
Proof.
  intros Hw. unfold handleExpired, finish_session.
  destruct (GetSession (w_sess w) id) as [p|] eqn:Ep; [|split; [by apply good_step_refl|done]].
  destruct (session_of_active w _ p Hw Ep) as (o & Ho & Hid & _).
  destruct (good_step_Finish w p o d Hw Ho) as (ss & fs & e & -> & HG); [by rewrite Hid|].
  split; [|done]. simpl. eapply good_step_trans; [exact HG|]. apply good_step_same; [apply HG|done..].
Qed.

Lemma inv_clock s s' : sys_inv s -> clock_step s s' -> sys_inv s'.
Proof.
  intros Hi H. pose proof (inv_world _ Hi) as Hw.
  destruct H as [H|[id H]]; [destruct H as [s p o t Hp Hst|s p o Hp Hs Hch]|destruct H as [s rest d w outs Hh Hch HE]].
  - apply inv_set_world; [done|]. apply good_step_timer; [done..|].
    destruct Hst; simpl; congruence || lia.
  - apply inv_set_world; [done|].
    eapply good_step_trans; [by apply (good_step_timer (sys_w s) p o (sent (timer o)))|].
    apply (good_step_chan (set_session p (set_timer (sent (timer o)) o) (sys_w s)) [s_ID o]);
      [|simpl; lia].
    by apply good_step_timer.
  - assert (G : good_step (sys_w s) (set_w_sess (mkSessState (objs (w_sess (sys_w s)))
      (sessions (w_sess (sys_w s))) (next (w_sess (sys_w s))) rest) (sys_w s))).
    { apply good_step_chan; [done|]. pose proof (wf_chan _ (proj1 Hw)) as Hl.
      rewrite Hch in Hl. simpl in Hl. lia. }
    destruct (handleExpired_good id d _ (gs_ok _ _ G)) as [G' Ho]. rewrite HE in G', Ho.
    simpl in G', Ho. subst outs. apply inv_set_world; [done|]. by eapply good_step_trans.
Qed.

Lemma inv_service s s' : sys_inv s -> service_step s s' -> sys_inv s'.
Proof.
  intros Hi H. destruct H as [H|H]; [destruct H as [s pre m post d w outs Hh Hin Hd HE]|
    destruct H as [s pre t post w outs msgs Hin Hnw HE|s pre rch err crch post c Hin Ha]].
  - by eapply inv_step_message.
  - by eapply inv_step_task.
  - by eapply inv_step_wait.
Qed.

Lemma inv_step s s' : sys_inv s -> sys_step s s' -> sys_inv s'.
Proof.
  intros Hi [H|[H|H]]; [by eapply inv_client|by eapply inv_service|by eapply inv_clock].
Qed.

Lemma initial_inv s : initial s -> sys_inv s.
Proof.
  intros (Hin & Hta & Han & Hn & Hh & Hs & Ha). split; [| | | | |done].
  - unfold world_ok. rewrite Hs. split; [apply no_sessions_wf|]. intros p o H. simpl in H.
    by rewrite lookup_empty in H.
  - by rewrite Hin.
  - by rewrite Hta.
  - rewrite Hta. by intros.
  - unfold channels. rewrite Hin, Hta, Han, Hn. simpl. by rewrite map_to_list_empty.
Qed.

Lemma reachable_inv s : reachable s -> sys_inv s.
Proof.
  intros (s0 & H0 & Hr). apply initial_inv in H0. induction Hr; [done|].
  apply IHHr. by eapply inv_step.
Qed.

(** ** Progress *)

Definition work (s : Sys) : nat :=
  list_sum (map (fun m => req_weight (Req m)) (inbox s)) + list_sum (map task_weight (tasks s)).

Lemma req_weight_pos q : 0 < req_weight q.
Proof. destruct q; simpl; lia. Qed.

Lemma service_step_work s s' : sys_inv s -> service_step s s' -> work s' < work s.
Proof.
  intros Hi H. pose proof (inv_world _ Hi) as Hw.
  destruct H as [H|H]; [destruct H as [s pre m post d w outs Hh Hin Hd HE]|
    destruct H as [s pre t post w outs msgs Hin Hnw HE|s pre rch err crch post c Hin Ha]].
  - assert (Hm : msg_ok (sys_w s) m).
    { pose proof (inv_msgs _ Hi) as H. rewrite List.Forall_forall in H. apply H. rewrite Hin.
      apply in_elt. }
    destruct (handle_good m d (sys_w s) Hw Hm Hd) as [_ O]. rewrite HE in O. simpl in O.
    pose proof (req_weight_pos (Req m)). destruct O as [evs v _|t _ _ _ Hlt _].
    + rewrite apply_outputs_events. unfold work. simpl. rewrite Hin, !map_app, !list_sum_app. simpl. lia.
    + unfold work. simpl. rewrite Hin, !map_app, !list_sum_app. simpl. lia.
  - assert (Ht : task_ok (sys_w s) t).
    { pose proof (inv_tasks _ Hi) as H. rewrite List.Forall_forall in H. apply H. rewrite Hin.
      apply in_elt. }
    destruct (run_task_good t _ _ _ _ _ Hw Ht Hnw HE) as [_ D].
    destruct D as [v Hmk|e pa Hmk _]; unfold work; simpl; rewrite Hin, !map_app, !list_sum_app; simpl.
    + destruct t; simpl in *; lia.
    + destruct t; simpl in *; try done. lia.
  - unfold work. simpl. rewrite Hin, !map_app, !list_sum_app. simpl. lia.
Qed.

Lemma exists_fresh_draws w : exists d, draws_fresh d w.
Proof.
  set (decode := fun k => match DecodeString k with Ok d => d | Err _ => "" end).
  set (u := fresh (set_map decode (dom (sessions (w_sess w))) : gset string)).
  assert (Hu : sessions (w_sess w) !! makeSessionID u = None).
  { apply not_elem_of_dom. intros H.
    apply (is_fresh (set_map decode (dom (sessions (w_sess w))) : gset string)).
    apply elem_of_map. exists (makeSessionID u). split; [|done].
    unfold decode, makeSessionID. by rewrite DecodeString_EncodeToString. }
  exists (mkDraws 0%Z u u (fun _ => 0) [] []). by split.
Qed.

Lemma service_progress s : sys_inv s -> inbox s <> [] \/ tasks s <> [] -> exists s', service_step s s'.
Proof.
  intros Hi H. destruct (inbox s) as [|m post] eqn:Ein.
  - destruct H as [H|H]; [done|]. destruct (tasks s) as [|t post] eqn:Eta; [done|].
    destruct (is_wait t) eqn:Ew.
    + destruct t as [| |rch e crch|]; try done.
      destruct (inv_waits _ Hi rch e crch) as [[pa Hpa]|[c Hc]].
      * rewrite Eta. by left.
      * by rewrite Ein in Hpa.
      * eexists. right. by eapply (step_wait s [] rch e crch post c).
    + destruct (run_task t (next_ch s) (sys_w s)) as [[w outs] msgs] eqn:E.
      eexists. right. by eapply (step_task s [] t post).
  - destruct (exists_fresh_draws (sys_w s)) as [d Hd].
    destruct (handle m d (sys_w s)) as [w outs] eqn:E.
    eexists. left. eapply (step_message s [] m post d w outs); [apply (inv_hung _ Hi)|done..].
Qed.

(** Answers are only given on channels that hold none. *)
Lemma answers_kept s s' : sys_inv s -> sys_step s s' -> answers s ⊆ answers s'.
Proof.
  intros Hi H. assert (HN : NoDup (channels s)) by (rewrite (inv_chans _ Hi); apply NoDup_seq).
  assert (Hfree : forall c, In c (map Rch (inbox s) ++ map task_rch (tasks s)) -> answers s !! c = None).
  { intros c Hc. unfold channels in HN. rewrite app_assoc in HN. apply NoDup_app in HN as (_ & HN & _).
    apply list_elem_of_In in Hc. specialize (HN c Hc).
    destruct (answers s !! c) as [v|] eqn:E; [|done]. destruct HN.
    apply list_elem_of_fmap. exists (c, v). split; [done|]. by apply elem_of_map_to_list. }
  assert (Hm : forall c v, In c (map Rch (inbox s) ++ map task_rch (tasks s)) ->
    answers s ⊆ <[c := v]> (answers s)) by (intros; apply insert_subseteq; auto).
  destruct H as [H|[H|H]].
  - by destruct H.
  - destruct H as [H|H]; [destruct H as [s pre m post d w outs Hh Hin Hd HE]|
      destruct H as [s pre t post w outs msgs Hin Hnw HE|s pre rch err crch post c Hin Ha]].
    + destruct (handle_good m d (sys_w s)) as [_ O]; [apply (inv_world _ Hi)| |done|].
      { pose proof (inv_msgs _ Hi) as H. rewrite List.Forall_forall in H. apply H. rewrite Hin. apply in_elt. }
      rewrite HE in O. simpl in O. destruct O as [evs v _|t]; [|done].
      rewrite apply_outputs_events. simpl. apply Hm. rewrite Hin, map_app, <- app_assoc.
      apply in_app_iff. right. by left.
    + assert (Ht : task_ok (sys_w s) t).
      { pose proof (inv_tasks _ Hi) as H. rewrite List.Forall_forall in H. apply H. rewrite Hin. apply in_elt. }
      destruct (run_task_good t _ _ _ _ _ (inv_world _ Hi) Ht Hnw HE) as [_ D].
      destruct D as [v _|]; [|done]. simpl. apply Hm. rewrite Hin, (map_app task_rch).
      apply in_app_iff. right. apply in_elt.
    + simpl. apply Hm. rewrite Hin, (map_app task_rch). apply in_app_iff. right.
      apply (in_elt rch).
  - destruct H as [H|[id H]]; [by destruct H|].
    destruct H as [s rest d w outs Hh Hch HE].
    assert (outs = []) as ->; [|done].
    destruct (handleExpired_good id d (set_w_sess (mkSessState (objs (w_sess (sys_w s)))
      (sessions (w_sess (sys_w s))) (next (w_sess (sys_w s))) rest) (sys_w s))) as [_ Ho].
    + apply good_step_chan; [apply (inv_world _ Hi)|].
      pose proof (wf_chan _ (proj1 (inv_world _ Hi))) as Hl. rewrite Hch in Hl. simpl in Hl. lia.
    + by rewrite HE in Ho.
Qed.

Lemma service_acc s : sys_inv s -> Acc (fun s2 s1 => service_step s1 s2) s.
Proof.
  remember (work s) as n eqn:E. revert s E. induction (lt_wf n) as [n _ IH]. intros s -> Hi.
  constructor. intros s' Hst. apply (IH (work s')); [|done|by eapply inv_service].
  by apply service_step_work.
Qed.

Lemma service_next s s' : service_step s s' -> next_ch s <= next_ch s'.
Proof.
  assert (Hap : forall l x, next_ch (apply_outputs x l) = next_ch x).
  { induction l as [|o l IH]; intros x; [done|]. unfold apply_outputs in *. simpl. rewrite IH. by destruct o. }
  intros [[]|[]]; simpl; rewrite ?Hap; simpl; [done| |done]. destruct (makes_channel t); lia.
Qed.

(** The service runs until nothing is left to do. *)
Lemma service_drains s : sys_inv s -> exists s', rtc service_step s s' /\ sys_inv s' /\
  inbox s' = [] /\ tasks s' = [] /\ next_ch s <= next_ch s'.
Proof.
  intros Hi. pose proof (service_acc s Hi) as Ha. induction Ha as [s _ IH].
  destruct (inbox s) as [|m l] eqn:E1; [destruct (tasks s) as [|t l] eqn:E2|].
  { exists s. split; [apply rtc_refl|]. done. }
  all: destruct (service_progress s Hi) as [s1 Hst]; [rewrite ?E1, ?E2; by (left + right)|].
  all: destruct (IH s1 Hst) as (s' & Hr & Hi' & H1 & H2 & H3); [by eapply inv_service|].
  all: exists s'; pose proof (service_next _ _ Hst); split_and!; try done; [by eapply rtc_l|lia].
Qed.

(** ** Properties *)

(** C4: Every request is answered exactly once: whatever clients send in whatever order, and however
    goroutines and timers run, each return channel belongs to one waiting message, to one
    goroutine, or holds its answer; an answer given is never replaced; and the dispatcher is
    never blocked. *)
Theorem answered_once : forall s s', reachable s -> sys_step s s' ->
  NoDup (channels s) /\ (forall ch, In ch (channels s) <-> ch < next_ch s) /\
  hung s = false /\ answers s ⊆ answers s'.
Proof.
  intros s s' Hr%reachable_inv Hst. split_and!.
  - rewrite (inv_chans _ Hr). apply NoDup_seq.
  - intros ch. rewrite (inv_chans _ Hr), in_seq. lia.
  - apply (inv_hung _ Hr).
  - apply (answers_kept _ _ Hr Hst).
Qed.

(** C5: No request waits for ever: the steps the service makes on its own terminate from every
    reachable state, and when none is left there is no waiting message and no goroutine, and every
    return channel holds its answer. *)
Theorem every_request_answered : forall s, reachable s ->
  Acc (fun s2 s1 => service_step s1 s2) s /\
  exists s', rtc service_step s s' /\ inbox s' = [] /\ tasks s' = [] /\ next_ch s <= next_ch s' /\
    forall ch, ch < next_ch s' -> is_Some (answers s' !! ch).
Proof.
  intros s Hr%reachable_inv. split; [by apply service_acc|].
  destruct (service_drains s Hr) as (s' & Hst & Hi' & Hin & Hta & Hn).
  exists s'. split_and!; try done. intros ch Hch.
  assert (Hx : In ch (channels s')).
  { rewrite (inv_chans _ Hi'), in_seq. lia. }
  unfold channels in Hx. rewrite Hin, Hta in Hx. simpl in Hx.
  apply list_elem_of_In, list_elem_of_fmap in Hx as ([c v] & -> & Hv).
  apply elem_of_map_to_list in Hv. eauto.
Qed.

(** C23: What a session keeps has been inspected: in every reachable state the table of sessions is
    consistent, every session's inspectors have the session's policy, and each artifact is filed
    under its digest with the verdict of an inspection. *)
Theorem sessions_keep_inspected : forall s id, reachable s ->
  sess_wf (w_sess (sys_w s)) /\
  forall o, active (w_sess (sys_w s)) id = Some o ->
    s_ID o = id /\ permissive (Insps o) = Permissive o /\ t_done (timer o) = 0 /\
    forall k a, A o !! k = Some a ->
      Sha256 (Meta a) = k /\ (Result a = Approved \/ Result a = Rejected).
Proof.
  intros s id Hr%reachable_inv. destruct (inv_world _ Hr) as [Hwf Ho]. split; [done|].
  intros o (p & Hid & Hp)%active_Some. destruct (wf_table _ Hwf _ _ Hid) as (o' & Hp' & Hi & Hd).
  simplify_eq. destruct (Ho p o Hp) as [_ H2 H3]. done.
Qed.
End Dispatcher.

(** ** Witnesses *)

Section Witnesses.
#[local] Existing Instance text_mime.
#[local] Existing Instance literal_glob.
#[local] Existing Instance mem_os.
#[local] Existing Instance demo_version.
#[local] Existing Instance sample_yaml.
#[local] Existing Instance same_text.
#[local] Existing Instance demo_cert.

(** The service before and after a first client asks for its status. *)
Definition demo_sys : Sys (IS := unit) := mkSys empty_world [] [] ∅ 0 [] false.
Definition asked_sys : Sys (IS := unit) :=
  mkSys empty_world [mkMessage 0 GetServiceStatus] [] ∅ 1 [] false.

Lemma demo_reachable : reachable sample_constructors tt demo_sys.
Proof. exists demo_sys. split; [by repeat split|apply rtc_refl]. Qed.

Lemma demo_asks : sys_step sample_constructors tt demo_sys asked_sys.
Proof. left. by apply (step_request demo_sys GetServiceStatus). Qed.

Lemma answered_once_witness : NoDup (channels demo_sys) /\ hung demo_sys = false.
Proof.
  destruct (answered_once sample_constructors tt sample_laws demo_sys asked_sys demo_reachable demo_asks)
    as (H1 & _ & H2 & _).
  exact (conj H1 H2).
Defined.

Lemma asked_reachable : reachable sample_constructors tt asked_sys.
Proof. exists demo_sys. split; [by repeat split|apply rtc_once, demo_asks]. Qed.

Lemma every_request_answered_witness :
  exists s', rtc (service_step sample_constructors tt) asked_sys s' /\ inbox s' = [].
Proof.
  destruct (every_request_answered sample_constructors tt sample_laws asked_sys asked_reachable)
    as (_ & s' & H1 & H2 & _).
  exists s'. exact (conj H1 H2).
Defined.

Lemma sessions_keep_inspected_witness : sess_wf (w_sess (sys_w asked_sys)).
Proof.
  apply (sessions_keep_inspected sample_constructors tt sample_laws asked_sys "abc" asked_reachable).
Defined.
End Witnesses.
