(* ===== verification/Control.v ===== *)
(** * The control API

    [control/control.go]: the handlers of the control server, from the request they get to the
    message they send to the dispatcher and the response they give, and the routes of the server. How the
    router matches a path is a parameter (class [Mux]); listening is not modelled. Texts of decoding errors
    are not those of Go. *)
From stdpp Require Import base gmap strings list option fin_maps.
From Stdlib Require Import ZArith Lia Ascii.
From S2P Require Import Prelude GoStrings GoCodec Platform HttpUtil Json JsonDecode Net Digests.
From S2P Require Import Artifact Report Config Secrets SecLog Inspectors Session Messages.
From S2P Require Import Service ServiceProps.

(** ** Decoding *)

(** The router of gorilla/mux: which of some routes, each a path with variables in braces and a method, a request
    takes, with the values of the variables, and the answer to a request that takes none. *)
Class Mux := {
  mux_match : list (string * string) -> HttpRequest -> option (nat * gmap string string);
  mux_error : HttpRequest -> Z * string;
}.

Section Control.
Context `{ML : MimeLib} `{GL : GlobLib} `{OS : Os} `{VT : VersionText} `{Y : !YamlLib}
  `{FT : FloatText} `{CU : !CertUpdate} {IS : Type}.
Variable C : Constructors (IS := IS).
Variable st0 : IS.
Notation World := (World (IS := IS)).

(** [UnmarshalJSON] of a glob. *)
Definition decode_glob (v : json) (g : Glob) : result Glob :=
  match Glob_Unmarshal g (decode_string v "") with
  | (g, None) => Ok g
  | (_, Some e) => Err e
  end.
Definition decode_globs : json -> list Glob -> result (list Glob) := decode_slice None decode_glob.

Definition zero_secret : Secret := mkSecret "" None "" "" "".
Definition decode_secret : json -> Secret -> result Secret := decode_struct (fun k v s =>
  if field_is "Type" k then
    t ← decode_string v (sec_Type s);
    Ok (mkSecret t (sec_URL s) (BasicCreds s) (MacaroonCreds s) (KeystoneV3Creds s))
  else if field_is "URL" k then
    g ← decode_glob v (sec_URL s);
    Ok (mkSecret (sec_Type s) g (BasicCreds s) (MacaroonCreds s) (KeystoneV3Creds s))
  else if field_is "basic-credentials" k then
    c ← decode_string v (BasicCreds s);
    Ok (mkSecret (sec_Type s) (sec_URL s) c (MacaroonCreds s) (KeystoneV3Creds s))
  else if field_is "macaroon-credentials" k then
    c ← decode_string v (MacaroonCreds s);
    Ok (mkSecret (sec_Type s) (sec_URL s) (BasicCreds s) c (KeystoneV3Creds s))
  else if field_is "keystone-v3-credentials" k then
    c ← decode_string v (KeystoneV3Creds s);
    Ok (mkSecret (sec_Type s) (sec_URL s) (BasicCreds s) (MacaroonCreds s) c)
  else Ok s).

(** The inspector configurations have no JSON names: fields are matched by their Go names. *)
Definition zero_repository : AptInspectorConfigRepository := mkAptRepository [] [] [] "" "".
Definition decode_repository : json -> AptInspectorConfigRepository ->
    result AptInspectorConfigRepository := decode_struct (fun k v r =>
  if field_is "URLs" k then
    l ← decode_globs v (apt_URLs r);
    Ok (mkAptRepository l (Suites r) (Components r) (PublicKey r) (BaseURLAlias r))
  else if field_is "Suites" k then
    l ← decode_globs v (Suites r);
    Ok (mkAptRepository (apt_URLs r) l (Components r) (PublicKey r) (BaseURLAlias r))
  else if field_is "Components" k then
    l ← decode_globs v (Components r);
    Ok (mkAptRepository (apt_URLs r) (Suites r) l (PublicKey r) (BaseURLAlias r))
  else if field_is "PublicKey" k then
    s ← decode_string v (PublicKey r);
    Ok (mkAptRepository (apt_URLs r) (Suites r) (Components r) s (BaseURLAlias r))
  else if field_is "BaseURLAlias" k then
    s ← decode_string v (BaseURLAlias r);
    Ok (mkAptRepository (apt_URLs r) (Suites r) (Components r) (PublicKey r) s)
  else Ok r).
Definition decode_apt : json -> AptInspectorConfig -> result AptInspectorConfig :=
  decode_struct (fun k v c =>
    if field_is "Repositories" k then
      mkAptInspectorConfig <$> decode_map zero_repository decode_repository v (Repositories c)
    else Ok c).
Definition decode_filter : json -> AssertionFilter -> result AssertionFilter :=
  decode_struct (fun k v f =>
    if field_is "Name" k then s ← decode_string v (af_Name f); Ok (mkAssertionFilter s (af_Value f))
    else if field_is "Value" k then
      l ← decode_slice "" decode_string v (af_Value f); Ok (mkAssertionFilter (af_Name f) l)
    else Ok f).
Definition decode_snap : json -> SnapInspectorConfig -> result SnapInspectorConfig :=
  decode_struct (fun k v c =>
    if field_is "SnapDeclarationFilter" k then
      mkSnapInspectorConfig <$>
        decode_slice (mkAssertionFilter "" []) decode_filter v (SnapDeclarationFilter c)
    else Ok c).
(** The configurations that are a list of URLs. *)
Definition decode_urls {A} (make : list Glob -> A) (urls : A -> list Glob) : json -> A -> result A :=
  decode_struct (fun k v c => if field_is "URLs" k then make <$> decode_globs v (urls c) else Ok c).

Definition decode_override : json -> OverrideInspectorsConfig -> result OverrideInspectorsConfig :=
  decode_struct (fun k v o =>
  if field_is "apt" k then
    c ← decode_pointer (mkAptInspectorConfig ∅) decode_apt v (o_Apt o);
    Ok (mkOverride c (o_Git o) (o_Crafts o) (o_Chisel o) (o_Snap o) (o_Store o) (o_BldBin o))
  else if field_is "git" k then
    c ← decode_pointer (mkGitInspectorConfig []) (decode_urls mkGitInspectorConfig git_URLs) v (o_Git o);
    Ok (mkOverride (o_Apt o) c (o_Crafts o) (o_Chisel o) (o_Snap o) (o_Store o) (o_BldBin o))
  else if field_is "crafts" k then
    c ← decode_pointer (mkCraftsInspectorConfig [])
          (decode_urls mkCraftsInspectorConfig crafts_URLs) v (o_Crafts o);
    Ok (mkOverride (o_Apt o) (o_Git o) c (o_Chisel o) (o_Snap o) (o_Store o) (o_BldBin o))
  else if field_is "chisel" k then
    c ← decode_pointer (mkChiselInspectorConfig [])
          (decode_urls mkChiselInspectorConfig chisel_URLs) v (o_Chisel o);
    Ok (mkOverride (o_Apt o) (o_Git o) (o_Crafts o) c (o_Snap o) (o_Store o) (o_BldBin o))
  else if field_is "snap" k then
    c ← decode_pointer (mkSnapInspectorConfig []) decode_snap v (o_Snap o);
    Ok (mkOverride (o_Apt o) (o_Git o) (o_Crafts o) (o_Chisel o) c (o_Store o) (o_BldBin o))
  else if field_is "store" k then
    c ← decode_pointer (mkStoreInspectorConfig [])
          (decode_urls mkStoreInspectorConfig store_URLs) v (o_Store o);
    Ok (mkOverride (o_Apt o) (o_Git o) (o_Crafts o) (o_Chisel o) (o_Snap o) c (o_BldBin o))
  else if field_is "bldbin" k then
    c ← decode_pointer (mkBldBinInspectorConfig [])
          (decode_urls mkBldBinInspectorConfig bldbin_URLs) v (o_BldBin o);
    Ok (mkOverride (o_Apt o) (o_Git o) (o_Crafts o) (o_Chisel o) (o_Snap o) (o_Store o) c)
  else Ok o).

Record createSessionParameters := mkCreateParams {
  cp_Timeout : Z;
  cp_Policy : string;
  cp_Secrets : list Secret;
  cp_InspectorsConfig : OverrideInspectorsConfig;
}.
Definition decode_create : json -> createSessionParameters -> result createSessionParameters :=
  decode_struct (fun k v p =>
  if field_is "timeout" k then
    t ← decode_uint64 v (cp_Timeout p);
    Ok (mkCreateParams t (cp_Policy p) (cp_Secrets p) (cp_InspectorsConfig p))
  else if field_is "policy" k then
    s ← decode_string v (cp_Policy p);
    Ok (mkCreateParams (cp_Timeout p) s (cp_Secrets p) (cp_InspectorsConfig p))
  else if field_is "secrets" k then
    l ← decode_slice zero_secret decode_secret v (cp_Secrets p);
    Ok (mkCreateParams (cp_Timeout p) (cp_Policy p) l (cp_InspectorsConfig p))
  else if field_is "inspectors-configuration" k then
    o ← decode_override v (cp_InspectorsConfig p);
    Ok (mkCreateParams (cp_Timeout p) (cp_Policy p) (cp_Secrets p) o)
  else Ok p).

Record revokeTokenParameters := mkRevokeParams { rp_Token : string }.
Definition decode_revoke : json -> revokeTokenParameters -> result revokeTokenParameters :=
  decode_struct (fun k v p => if field_is "token" k then mkRevokeParams <$> decode_string v (rp_Token p)
                              else Ok p).

(** [json.NewDecoder(r.Body).Decode(&params)]: what follows the first value is not read. *)
Definition decode_body {A} (f : json -> A -> result A) (zero : A) (r : HttpRequest) : result A :=
  j ← json_decode_first (from_option body_data "" (ReqBody r)); f j zero.

(** ** The server *)

Record Server := mkServer { srv_port : Z; srv_user : string; srv_pw : string }.

(** [creds] is the value of [FETCH_SERVICE_AUTH]. *)
Definition NewServer (port : Z) (creds : string) : Server :=
  match SplitN2 creds ":" with
  | [user; pw] => mkServer port user pw
  | _ => mkServer port "" ""
  end.

(** A response and the security events reported before it. *)
Record Response := mkResponse { code : Z; body : string; events : list SecEvent }.

(** A handler responds, or first sends a message and waits for the answer. *)
Inductive Exchange : Type :=
| Respond (r : Response)
| Ask (q : Request) (k : Answer -> Response).

Definition with_events (evs : list SecEvent) (x : Exchange) : Exchange :=
  let add r := mkResponse (code r) (body r) (evs ++ events r) in
  match x with Respond r => Respond (add r) | Ask q k => Ask q (fun a => add (k a)) end.

Definition badRequest (reason : string) : Response := mkResponse StatusBadRequest reason [].
Definition internalServerError : Response :=
  mkResponse StatusInternalServerError "500 Internal Server Error" [].
Definition notFound : Response := mkResponse StatusNotFound "404 Not Found" [].
Definition unauthorized : Response := mkResponse StatusUnauthorized "401 Unauthorized" [].
Definition writeResponse (b : string) : Response := mkResponse StatusOK b [].

(** The verdict of [checkAuth] and the event it reports. *)
Definition checkAuth (c : Server) (r : HttpRequest) : bool * list SecEvent :=
  match BasicAuth r with
  | None => (false, [])
  | Some (user, pw) =>
      if negb (String.eqb user (srv_user c)) || negb (String.eqb pw (srv_pw c)) then
        (false, [AuthnLoginFail (mkEventData (srv_user c) "" (ServerIP r) (ClientIP r) (Request_UserAgent r)
                                   "Invalid credentials" "")])
      else
        (true, [AuthnLoginSuccess (mkEventData (srv_user c) (srv_user c) (ServerIP r) (ClientIP r)
                                     (Request_UserAgent r) "" "")])
  end.

(** A handler that starts with [checkAuth]. *)
Definition authenticated (c : Server) (r : HttpRequest) (x : Exchange) : Exchange :=
  match checkAuth c r with
  | (false, evs) => Respond (mkResponse (code unauthorized) (body unauthorized) evs)
  | (true, evs) => with_events evs x
  end.

(** The user of the request's credentials. *)
Definition basic_user (r : HttpRequest) : string :=
  match BasicAuth r with Some (user, _) => user | None => "" end.

(** The JSON of the answers. *)
Definition jstatus (s : ServiceStatus) : json :=
  JObj [("uptime", JNum (Itoa (Uptime s))); ("start-time", JStr (rfc3339nano (ss_StartTime s)));
        ("session-count", JNum (Itoa (SessionCount s)));
        ("active-sessions", JArr (map (jsession_info true) (ActiveSessions s)))].
Definition jcredentials (c : SessionCredentials) : json :=
  JObj (member true "id" (cred_ID c) ++ member true "token" (cred_Token c)).
Definition jrevoked (r : RevokeTokenResult) : json :=
  JObj (member true "session-id" (rt_SessionID r) ++ member true "start-time" (rt_StartTime r) ++
        member true "end-time" (rt_EndTime r) ++ member true "spool-path" (rt_SpoolPath r)).
(** The members of the session metadata, which is embedded, and the artifacts. *)
Definition jreport (r : SessionReportResult) : result json :=
  a ← jartifacts false (sr_Artifacts r);
  Ok (JObj (session_members false (sr_Metadata r) ++ [("artifacts", a)])).

(** An answer of another type is never sent on the channel of a message. *)
Definition wrong_answer : Response := internalServerError.

Definition getServiceStatus (r : HttpRequest) : Exchange :=
  Ask GetServiceStatus (fun a => match a with
    | AnsStatus s => writeResponse (json_print (jstatus s))
    | _ => wrong_answer
    end).

Definition createSession (c : Server) (r : HttpRequest) : Exchange :=
  authenticated c r
    match decode_body decode_create (mkCreateParams 0 "" [] empty_override) r with
    | Err e => Respond (badRequest (error_string e))
    | Ok params =>
        Ask (NewCreateSession (cp_Policy params) (cp_Timeout params) (cp_Secrets params)
               (cp_InspectorsConfig params))
          (fun a => match a with
           | AnsCredentials cred =>
               match cred_Err cred with
               | Some e => badRequest (error_string e)
               | None =>
                   mkResponse StatusOK (json_print (jcredentials cred))
                     [AuthnTokenCreated (mkEventData (cred_ID cred) (basic_user r) (ServerIP r)
                                           (ClientIP r) (Request_UserAgent r) "" "")]
               end
           | _ => wrong_answer
           end)
    end.

Definition deleteSessionToken (id : option string) (r : HttpRequest) : Exchange :=
  match id with
  | None => Respond notFound
  | Some id =>
      match decode_body decode_revoke (mkRevokeParams "") r with
      | Err e => Respond (badRequest (error_string e))
      | Ok params =>
          Ask (RevokeToken id (rp_Token params)) (fun a => match a with
            | AnsRevoked res =>
                match rt_Err res with
                | Some e =>
                    if decide (e = ErrSessionNotFound) then notFound
                    else if decide (e = ErrInvalidSessionToken) then badRequest (error_string e)
                    else internalServerError
                | None =>
                    mkResponse StatusOK (json_print (jrevoked res))
                      [AuthnTokenRevoked (mkEventData id "" (ServerIP r) (ClientIP r) (Request_UserAgent r)
                                            "Proxy access disabled" "")]
                end
            | _ => wrong_answer
            end)
      end
  end.

Definition getSessionReport (c : Server) (id : option string) (r : HttpRequest) : Exchange :=
  authenticated c r
    match id with
    | None => Respond notFound
    | Some id =>
        Ask (SessionReport id) (fun a => match a with
          | AnsReport res =>
              match sr_Err res with
              | Some e =>
                  if decide (e = ErrSessionNotFound) then notFound
                  else if decide (e = ErrSessionActive) then badRequest (error_string e)
                  else internalServerError
              | None =>
                  match jreport res with
                  | Ok j => writeResponse (JSONMarshalNoHTMLEscape j)
                  | Err _ => internalServerError
                  end
              end
          | _ => wrong_answer
          end)
    end.

Definition deleteSession (c : Server) (id : option string) (r : HttpRequest) : Exchange :=
  authenticated c r
    match id with
    | None => Respond notFound
    | Some id =>
        Ask (EndSession id) (fun a => match a with
          | AnsError (Some e) => if decide (e = ErrSessionNotFound) then notFound else internalServerError
          | AnsError None =>
              mkResponse StatusOK ""
                [AuthnTokenDelete (mkEventData id (basic_user r) (ServerIP r) (ClientIP r) (Request_UserAgent r)
                                     "end of session" "")]
          | _ => wrong_answer
          end)
    end.

Definition deleteResources (c : Server) (id : option string) (r : HttpRequest) : Exchange :=
  authenticated c r
    match id with
    | None => Respond notFound
    | Some id =>
        Ask (DeleteResources id) (fun a => match a with
          | AnsError (Some e) =>
              if decide (e = ErrSessionNotFound) then notFound
              else if decide (e = ErrSessionActive) then badRequest (error_string e)
              else internalServerError
          | AnsError None => writeResponse ""
          | _ => wrong_answer
          end)
    end.

(** ** The routes *)

(** [Start]: the routes in the order of their registration, with their handlers. *)
Definition routes (c : Server) : list (string * string * (option string -> HttpRequest -> Exchange)) := [
  ("/status", "GET", fun _ => getServiceStatus);
  ("/session", "POST", fun _ => createSession c);
  ("/session/{id}/token", "DELETE", deleteSessionToken);
  ("/session/{id}", "GET", getSessionReport c);
  ("/session/{id}", "DELETE", deleteSession c);
  ("/resources/{id}", "DELETE", deleteResources c)
].

Definition mux_answer `{Mux} (r : HttpRequest) : Exchange :=
  Respond (mkResponse (mux_error r).1 (mux_error r).2 []).

(** The handler of the server. *)
Definition router `{Mux} (c : Server) (r : HttpRequest) : Exchange :=
  match mux_match (map fst (routes c)) r with
  | Some (i, vars) =>
      match routes c !! i with
      | Some (_, handler) => handler (vars !! "id") r
      | None => mux_answer r
      end
  | None => mux_answer r
  end.

(** ** With the dispatcher *)

(** What an exchange does when the service has nothing else to do: the message is handled, and the
    goroutine that may be started runs. *)
Definition serve (x : Exchange) (rch : nat) (d : Draws) (w : World) : World * option Response :=
  match x with
  | Respond r => (w, Some r)
  | Ask q k =>
      let '(w, outs) := handleMessages C st0 (mkMessage rch q) d w in
      match last outs with
      | Some (Reply _ v) => (w, Some (k v))
      | Some (Spawn t) =>
          match run_task t (S rch) w with
          | (w, [Reply _ v], _) => (w, Some (k v))
          | (w, _, _) => (w, None)
          end
      | _ => (w, None)
      end
  end.

(** ** Properties *)

Lemma NewServer_creds port creds :
  NewServer port creds = match Cut creds ":" with Some (user, pw) => mkServer port user pw
                                                | None => mkServer port "" "" end.
Proof. unfold NewServer, SplitN2. by destruct (Cut creds ":") as [[user pw]|]. Qed.

Lemma checkAuth_true c r :
  fst (checkAuth c r) = true <-> BasicAuth r = Some (srv_user c, srv_pw c).
Proof.
  unfold checkAuth. destruct (BasicAuth r) as [[user pw]|]; [|done].
  destruct (String.eqb user (srv_user c)) eqn:Eu, (String.eqb pw (srv_pw c)) eqn:Ep; simpl;
    rewrite ?String.eqb_eq, ?String.eqb_neq in *; naive_solver.
Qed.

Lemma authenticated_ok c r x : BasicAuth r = Some (srv_user c, srv_pw c) ->
  exists ev, authenticated c r x = with_events [ev] x.
Proof.
  intros H. unfold authenticated, checkAuth. rewrite H, !String.eqb_refl. simpl. by eexists.
Qed.


(** The code of the response to an exchange. *)
Definition response_code (x : Exchange) (rch : nat) (d : Draws) (w : World) : option Z :=
  code <$> snd (serve x rch d w).

Lemma serve_code_events evs x rch d w :
  response_code (with_events evs x) rch d w = response_code x rch d w.
Proof.
  unfold response_code. destruct x as [r|q k]; [done|]. simpl.
  destruct (handleMessages C st0 _ d w) as [w' outs]. destruct (last outs) as [[| | |]|]; try done.
  destruct (run_task t (S rch) w') as [[w'' [|[] []]] msgs]; done.
Qed.

Lemma response_code_authenticated c r x rch d w : BasicAuth r = Some (srv_user c, srv_pw c) ->
  response_code (authenticated c r x) rch d w = response_code x rch d w.
Proof. intros H. destruct (authenticated_ok c r x H) as [ev ->]. apply serve_code_events. Qed.

(** C34: Errors of the control API, for a client with valid credentials: 404 for a session that is not
    active, 400 for a report of a session whose token was not revoked and for a wrong token, and 200 for
    the right one; but deleting the files of an active session is answered with 500, as if the service
    had failed. *)
Theorem control_errors : forall c r id rch d (w : World) params,
  sess_wf (w_sess w) -> BasicAuth r = Some (srv_user c, srv_pw c) ->
  decode_body decode_revoke (mkRevokeParams "") r = Ok params ->
  (active (w_sess w) id = None ->
     response_code (getSessionReport c (Some id) r) rch d w = Some StatusNotFound /\
     response_code (deleteSession c (Some id) r) rch d w = Some StatusNotFound /\
     response_code (deleteSessionToken (Some id) r) rch d w = Some StatusNotFound) /\
  (forall s, active (w_sess w) id = Some s ->
     (IsRevoked s = false ->
        response_code (getSessionReport c (Some id) r) rch d w = Some StatusBadRequest) /\
     response_code (deleteSessionToken (Some id) r) rch d w =
       Some (if decide (rp_Token params = Token s) then StatusOK else StatusBadRequest) /\
     response_code (deleteResources c (Some id) r) rch d w = Some StatusInternalServerError).
Proof.
  intros c r id rch d w params Hwf Hauth Hbody.
  unfold getSessionReport, deleteSession, deleteResources.
  rewrite !response_code_authenticated by done. unfold deleteSessionToken. rewrite Hbody.
  unfold response_code, serve, handleMessages. cbn [Req Rch].
  unfold handleSessionReport, handleEndSession, handleRevokeToken, handleDeleteResources,
    GetSession, sessions_Get. split.
  - intros Ha. rewrite Ha. unfold active in Ha.
    destruct (sessions (w_sess w) !! id) as [p|] eqn:Ep; [|done].
    destruct (wf_table _ Hwf _ _ Ep) as (s & Hs & _). simpl in Ha. congruence.
  - intros s Ha. rewrite Ha. apply active_Some in Ha as (p & Hid & Hp). rewrite Hid, Hp.
    split_and!; [by intros ->| |done].
    unfold Revoke. destruct (String.eqb (rp_Token params) (Token s)) eqn:Et; simpl.
    + apply String.eqb_eq in Et. by rewrite decide_True.
    + apply String.eqb_neq in Et. by rewrite decide_False.
Qed.

(** Creating a session over the API: malformed parameters, invalid secrets and a forbidden permissive
    policy are answered with 400 and change nothing; otherwise the response is 200 with the session's
    ID and token, which authenticate, and the security log says for which controller. *)
Theorem control_create : forall c r rch d (w : World),
  sess_wf (w_sess w) -> sessions (w_sess w) !! makeSessionID (d_uuid' d) = None ->
  BasicAuth r = Some (srv_user c, srv_pw c) ->
  let '(w', resp) := serve (createSession c r) rch d w in
  match decode_body decode_create (mkCreateParams 0 "" [] empty_override) r with
  | Err _ => w' = w /\ code <$> resp = Some StatusBadRequest
  | Ok params =>
      if bool_decide (cp_Policy params = "permissive") && negb (PermissiveMode (w_opt w)) ||
         bool_decide (ValidateSecrets (cp_Secrets params) <> None)
      then w' = w /\ code <$> resp = Some StatusBadRequest
      else exists id token ev, code <$> resp = Some StatusOK /\
        body <$> resp = Some (json_print (jcredentials (mkSessionCredentials id token None))) /\
        (forall h cl ag, fst (CheckAuth (w_sess w') id token h cl ag) = true) /\
        events <$> resp = Some [ev; AuthnTokenCreated (mkEventData id (srv_user c) (ServerIP r)
          (ClientIP r) (Request_UserAgent r) "" "")]
  end.
Proof.
  intros c r rch d w Hwf Hfree Hauth. unfold createSession.
  match goal with |- context [authenticated c r ?x] => set (X := x) end.
  destruct (authenticated_ok c r X Hauth) as [ev ->]. subst X.
  destruct (decode_body decode_create _ r) as [params|e]; [|done].
  pose proof (handleCreateSession_cases C st0 rch (mkCreateSession (cp_Timeout params)
    (cp_Policy params) (cp_Secrets params) (cp_InspectorsConfig params) "" "") d w Hwf Hfree) as HC.
  cbv zeta in HC. cbn [cs_Policy cs_Secrets] in HC.
  assert (Hp : String.eqb (cp_Policy params) "permissive" = bool_decide (cp_Policy params = "permissive")).
  { apply eq_true_iff_eq. by rewrite String.eqb_eq, bool_decide_eq_true. }
  rewrite Hp in HC. unfold serve, with_events, NewCreateSession, handleMessages. cbn [Req Rch].
  destruct (bool_decide (cp_Policy params = "permissive") && _); [by rewrite HC|].
  destruct (ValidateSecrets (cp_Secrets params)) as [e|]; [by rewrite HC|].
  destruct HC as (w' & s & -> & _ & _ & _ & _ & _ & _ & H & _). simpl.
  exists (s_ID s), (Token s), ev. unfold basic_user. rewrite Hauth. done.
Qed.

(** The names the API documents for a repository's public key and for the filters of snap
    declarations are not those the service reads: what is sent under them is dropped without an
    error. *)
Theorem documented_names_ignored : forall v r c,
  decode_repository (JObj [("public-key", v)]) r = Ok r /\
  decode_snap (JObj [("snap-declaration", v)]) c = Ok c.
Proof. intros v r c. split; reflexivity. Qed.
End Control.

(** ** Witnesses *)

Section Witnesses.
#[local] Existing Instance text_mime.
#[local] Existing Instance literal_glob.
#[local] Existing Instance mem_os.
#[local] Existing Instance demo_version.
#[local] Existing Instance sample_yaml.
#[local] Existing Instance same_text.
#[local] Existing Instance demo_cert.

Definition demo_server : Server := NewServer 13444 "admin:s3cret".

(** A request of the controller with a JSON body. *)
Definition controller_request (data : string) : HttpRequest :=
  mkHttpRequest "POST" (mkURL "http" "localhost:13444" "/session" "")
    {["Authorization" := [basic_credentials "admin" "s3cret"]]} (Some (mkBody data None)) 0 []
    "10.0.0.7:5123" (Some "10.0.0.1:13444").

Lemma controller_auth data :
  BasicAuth (controller_request data) = Some (srv_user demo_server, srv_pw demo_server).
Proof. vm_compute. reflexivity. Qed.

(** A JSON text: single quotes stand for double ones. *)
Definition json_text (s : string) : string := ReplaceAll s "'" (str1 dquote).

Definition create_body : string := json_text
  "{'timeout':60,'policy':'strict','secrets':[{'type':'basic-auth','url':'https://x','basic-credentials':'u:p'}]}".

Lemma control_errors_witness :
  response_code sample_constructors tt (getSessionReport demo_server (Some "abc") (controller_request "{}"))
    1 demo_draws demo_world = Some StatusBadRequest.
Proof.
  destruct demo_wf as (H0 & _).
  destruct (control_errors sample_constructors tt demo_server (controller_request "{}") "abc" 1 demo_draws
    demo_world (mkRevokeParams "") H0 (controller_auth "{}") eq_refl) as [_ H].
  apply (H demo_session eq_refl).
Defined.

Definition created : World (IS := unit) * option Response :=
  serve sample_constructors tt (createSession demo_server (controller_request create_body)) 1 demo_draws
    empty_world.

Lemma control_create_witness : code <$> created.2 = Some StatusOK.
Proof.
  pose proof (control_create sample_constructors tt demo_server (controller_request create_body) 1
    demo_draws empty_world no_sessions_wf eq_refl (controller_auth create_body)) as H.
  fold created in H. destruct created as [w' resp].
  assert (E : exists params, decode_body decode_create (mkCreateParams 0 "" [] empty_override)
      (controller_request create_body) = Ok params /\ cp_Policy params = "strict" /\
      ValidateSecrets (cp_Secrets params) = None).
  { eexists. split; [vm_compute; reflexivity|]. split; vm_compute; reflexivity. }
  destruct E as (params & E1 & E2 & E3). rewrite E1, E2, E3 in H.
  destruct H as (id & token & ev & H & _). exact H.
Defined.

(** The life of a session, request by request: it is created, its token is revoked, its report is
    given, it is ended, and its files are removed. *)
Definition demo_life : list (option Z) :=
  let new w := serve sample_constructors tt (createSession demo_server (controller_request create_body))
                 1 demo_draws w in
  let '(w1, r1) := new empty_world in
  let id := Some (makeSessionID (nul_bytes 16)) in
  let token := default "" (Token <$> active (w_sess w1) (default "" id)) in
  let '(w2, r2) := serve sample_constructors tt (getSessionReport demo_server id (controller_request ""))
                     2 demo_draws w1 in
  let '(w3, r3) := serve sample_constructors tt (deleteSessionToken id (controller_request
                     (json_text ("{'token':'" +:+ token +:+ "'}")))) 3 demo_draws w2 in
  let '(w4, r4) := serve sample_constructors tt (getSessionReport demo_server id (controller_request ""))
                     4 demo_draws w3 in
  let '(w5, r5) := serve sample_constructors tt (deleteResources demo_server id (controller_request ""))
                     5 demo_draws w4 in
  let '(w6, r6) := serve sample_constructors tt (deleteSession demo_server id (controller_request ""))
                     6 demo_draws w5 in
  let '(w7, r7) := serve sample_constructors tt (deleteResources demo_server id (controller_request ""))
                     7 demo_draws w6 in
  let '(_, r8) := serve sample_constructors tt (deleteSession demo_server id (controller_request ""))
                     8 demo_draws w7 in
  map (fmap code) [r1; r2; r3; r4; r5; r6; r7; r8].

Example demo_life_codes : demo_life = map Some [200; 400; 200; 200; 500; 200; 200; 404]%Z.
Proof. vm_compute. reflexivity. Qed.
End Witnesses.
