(* ===== verification/Cert.v ===== *)
(** * The proxy certificate

    [proxy/cert.go]: loading, checking and replacing the certificate and key the proxy signs with, and making
    them the certificate authority of the proxy. Parsing PEM blocks and certificates is a parameter. [Service.v] uses the update through the interface
    [CertUpdate], which this file implements. *)
From stdpp Require Import base gmap strings list option fin_maps.
From Stdlib Require Import ZArith Lia Ascii.
From S2P Require Import Prelude GoStrings Platform Json Net Digests Artifact Report.
From S2P Require Import Config Secrets SecLog Inspectors Session Messages Service ServiceProps.

(** [tls.X509KeyPair]: the certificates of a chain in their binary form, and the private key.
    [x509.ParseCertificate]: a certificate from its binary form. *)
Class X509 := {
  x509_Certificate : Type;
  tls_PrivateKey : Type;
  X509KeyPair : string -> string -> result (list string * tls_PrivateKey);
  ParseCertificate : string -> result x509_Certificate;
}.

Record tls_Certificate `{X509} := mkTlsCertificate {
  Certificate : list string;
  PrivateKey : tls_PrivateKey;
  Leaf : option x509_Certificate;
}.

(** The first certificate of the chain; [X509KeyPair] gives at least one. *)
Definition empty_chain : error := ESentinel "index out of range [0] with length 0".
Definition CreateProxyCA `{X509} (cert key : string) : result tls_Certificate :=
  ca ← X509KeyPair cert key;
  match ca.1 with
  | [] => Err empty_chain
  | c :: _ => leaf ← ParseCertificate c; Ok (mkTlsCertificate _ ca.1 ca.2 (Some leaf))
  end.

(** What the proxy library does with connections, and the certificate it signs with: its global variables. *)
Inductive ConnectActionLiteral : Set := ConnectAccept | ConnectMitm | ConnectReject.
Record ProxyCA `{X509} := mkProxyCA {
  GoproxyCa : tls_Certificate;
  OkConnectAction : ConnectActionLiteral * tls_Certificate;
  MitmConnectAction : ConnectActionLiteral * tls_Certificate;
  RejectConnectAction : ConnectActionLiteral * tls_Certificate;
}.
Definition SetProxyCA `{X509} (ca : tls_Certificate) : ProxyCA :=
  mkProxyCA _ ca (ConnectAccept, ca) (ConnectMitm, ca) (ConnectReject, ca).

Section Cert.
Context `{OS : Os} `{X : X509}.

Definition no_cert_path : error := EText "HTTPS proxy certificate path not specified".
Definition no_key_path : error := EText "HTTPS proxy key path not specified".

Definition LoadCertificate (certPath keyPath : string) (fs : FS) : result (string * string) :=
  if String.eqb certPath "" then Err no_cert_path
  else
    cert ← os_ReadFile fs certPath;
    if String.eqb keyPath "" then Err no_key_path
    else key ← os_ReadFile fs keyPath; Ok (cert, key).

Definition UpdateCertFiles (certPath keyPath cert key : string) (fs : FS) : FS * option error :=
  let tmpCertPath := certPath +:+ ".new" in
  let tmpKeyPath := keyPath +:+ ".new" in
  match os_WriteFile fs tmpCertPath cert with
  | (fs, Some e) => (fs, Some e)
  | (fs, None) =>
      match os_WriteFile fs tmpKeyPath key with
      | (fs, Some e) => (fst (os_Remove fs tmpCertPath), Some e)
      | (fs, None) =>
          match os_Rename fs tmpCertPath certPath with
          | (fs, Some e) => (fs, Some e)
          | (fs, None) =>
              match os_Rename fs tmpKeyPath keyPath with
              | (fs, Some e) => (fs, Some (EWrap "inconsistent state: " e ""))
              | (fs, None) => (fs, None)
              end
          end
      end
  end.

Definition splitCertKey (content : string) : result (string * string) :=
  match SplitN2 content (String nl (str1 nl)) with
  | [cert; key] => Ok (cert, key)
  | _ => Err (EText "cannot parse certificate and key")
  end.

(** [ca] is the authority in force; [SetProxyCA] replaces it and does not fail. It does so before the files are
    written. *)
Definition UpdateCert (dryRun : bool) (payload certPath keyPath : string) (fs : FS)
    (ca : ProxyCA) : FS * ProxyCA * option error :=
  match splitCertKey payload with
  | Err e => (fs, ca, Some e)
  | Ok (cert, key) =>
      match CreateProxyCA cert key with
      | Err e => (fs, ca, Some e)
      | Ok ca' =>
          if negb dryRun then
            let '(fs, e) := UpdateCertFiles certPath keyPath cert key fs in (fs, SetProxyCA ca', e)
          else (fs, ca, None)
      end
  end.

(** What the service sees of it. The authority that is in force does not influence the result. *)
Definition update_files (dryRun : bool) (payload certPath keyPath : string) (fs : FS) :
    FS * option error :=
  match splitCertKey payload with
  | Err e => (fs, Some e)
  | Ok (cert, key) =>
      match CreateProxyCA cert key with
      | Err e => (fs, Some e)
      | Ok _ => if negb dryRun then UpdateCertFiles certPath keyPath cert key fs else (fs, None)
      end
  end.

#[export] Instance proxy_cert_update : CertUpdate := {| proxyUpdateCert := update_files |}.

(** ** Properties *)

(** The instance is [UpdateCert] without the authority. *)
Lemma update_files_UpdateCert dryRun payload certPath keyPath fs ca :
  let '(fs', _, e) := UpdateCert dryRun payload certPath keyPath fs ca in
  proxyUpdateCert dryRun payload certPath keyPath fs = (fs', e).
Proof.
  unfold UpdateCert. simpl. unfold update_files. destruct (splitCertKey payload) as [[cert key]|]; [|done].
  destruct (CreateProxyCA cert key); [|done]. destruct dryRun; [done|]. simpl.
  by destruct (UpdateCertFiles _ _ _ _ _).
Qed.

(** Replacing the certificate: nothing is changed by a validation or by an invalid payload; after an
    update without error the new pair is in force, and loading the files gives it back. *)
Theorem UpdateCert_spec `{OL : !OsLaws} : forall dryRun payload certPath keyPath fs ca fs' ca' e,
  UpdateCert dryRun payload certPath keyPath fs ca = (fs', ca', e) ->
  let valid cert key ca2 := splitCertKey payload = Ok (cert, key) /\ CreateProxyCA cert key = Ok ca2 in
  ((dryRun = true \/ ~ exists cert key ca2, valid cert key ca2) -> fs' = fs /\ ca' = ca) /\
  (dryRun = true -> (e = None <-> exists cert key ca2, valid cert key ca2)) /\
  (dryRun = false -> forall cert key ca2, valid cert key ca2 -> ca' = SetProxyCA ca2) /\
  (dryRun = false -> e = None -> certPath <> "" -> keyPath <> "" ->
   NoDup [certPath; keyPath; certPath +:+ ".new"; keyPath +:+ ".new"] ->
   under (certPath +:+ ".new") (keyPath +:+ ".new") = false -> under certPath (keyPath +:+ ".new") = false ->
   under (keyPath +:+ ".new") certPath = false -> under keyPath certPath = false ->
   exists cert key ca2, valid cert key ca2 /\ ca' = SetProxyCA ca2 /\ LoadCertificate certPath keyPath fs' = Ok (cert, key)).
Proof.
  intros dryRun payload certPath keyPath fs ca fs' ca' e H valid. unfold UpdateCert in H.
  unfold valid. destruct (splitCertKey payload) as [[cert key]|e1].
  2: { injection H as <- <- <-. split; [done|]. split; [|split].
       - intros _. split; [done|]. by intros (? & ? & ? & [? _]).
       - by intros _ ? ? ? [? _].
       - done. }
  destruct (CreateProxyCA cert key) as [ca2|e2] eqn:E2.
  2: { injection H as <- <- <-. split; [done|]. split; [|split].
       - intros _. split; [done|]. intros (? & ? & ? & [[= <- <-] Hca]). congruence.
       - intros _ ? ? ? [[= <- <-] Hca]. congruence.
       - done. }
  destruct dryRun; simpl in H.
  { injection H as <- <- <-. split; [done|]. split; [|by split]. intros _. split; [|done].
    intros _. by exists cert, key, ca2. }
  destruct (UpdateCertFiles certPath keyPath cert key fs) as [fs1 e1] eqn:EU. injection H as <- <- <-.
  split; [intros [?|Hn]; [done|]; destruct Hn; by exists cert, key, ca2|]. split; [done|].
  split; [intros _ ? ? ? [[= <- <-] ?]; congruence|].
  intros _ -> Hc Hk HN Hu1 Hu2 Hu3 Hu4. exists cert, key, ca2. split; [done|]. split; [done|].
  (** what was written is read back *)
  unfold UpdateCertFiles in EU.
  destruct (os_WriteFile fs (certPath +:+ ".new") cert) as [f1 [?|]] eqn:W1; [done|].
  destruct (os_WriteFile f1 (keyPath +:+ ".new") key) as [f2 [?|]] eqn:W2; [done|].
  destruct (os_Rename f2 (certPath +:+ ".new") certPath) as [f3 [?|]] eqn:R1; [done|].
  destruct (os_Rename f3 (keyPath +:+ ".new") keyPath) as [f4 [?|]] eqn:R2; [done|]. injection EU as <-.
  apply os_WriteFile_read in W1 as Hr1.
  assert (Hr1' : os_ReadFile f2 (certPath +:+ ".new") = Ok cert).
  { rewrite <- Hr1. eapply os_WriteFile_other; [exact W2|]. intros Heq.
    apply NoDup_cons in HN as [_ HN]. apply NoDup_cons in HN as [_ HN].
    apply NoDup_cons in HN as [HN _]. apply HN. rewrite Heq. set_solver. }
  apply os_WriteFile_read in W2 as Hr2.
  assert (Hr3 : os_ReadFile f3 certPath = Ok cert) by (by eapply os_Rename_read).
  assert (Hr4 : os_ReadFile f3 (keyPath +:+ ".new") = Ok key).
  { rewrite <- Hr2. by apply (os_Rename_other _ _ _ _ _ (keyPath +:+ ".new") R1). }
  assert (Hr5 : os_ReadFile f4 keyPath = Ok key) by (by eapply os_Rename_read).
  assert (Hr6 : os_ReadFile f4 certPath = Ok cert).
  { rewrite <- Hr3. by apply (os_Rename_other _ _ _ _ _ certPath R2). }
  unfold LoadCertificate. apply String.eqb_neq in Hc, Hk. rewrite Hc, Hk, Hr6. simpl. by rewrite Hr5.
Qed.
End Cert.
(** A certificate authority that is its two blocks. *)
Definition text_x509 : X509 :=
  {| x509_Certificate := string; tls_PrivateKey := string;
     X509KeyPair := fun cert key => if String.eqb key "" then Err (EText "no key") else Ok ([cert], key);
     ParseCertificate := fun c => Ok c |}.

Definition demo_pair : string := "CERT" +:+ String nl (str1 nl) +:+ "KEY".
Definition text_ca (cert key : string) : ProxyCA (H := text_x509) :=
  SetProxyCA (H := text_x509) (mkTlsCertificate text_x509 [cert] key (Some cert)).

Lemma UpdateCert_spec_witness :
  let '(fs', ca', e) := UpdateCert (OS := mem_os) (X := text_x509) false demo_pair "/c" "/k" (∅ : MemFS) (text_ca "a" "b") in
  e = None /\ ca' = text_ca "CERT" "KEY" /\ LoadCertificate (OS := mem_os) "/c" "/k" fs' = Ok ("CERT", "KEY") /\
  exists cert key ca2, (splitCertKey demo_pair = Ok (cert, key) /\ CreateProxyCA (H := text_x509) cert key = Ok ca2) /\
    ca' = SetProxyCA (H := text_x509) ca2 /\ LoadCertificate (OS := mem_os) "/c" "/k" fs' = Ok (cert, key).
Proof.
  set (r := UpdateCert (OS := mem_os) (X := text_x509) false demo_pair "/c" "/k" (∅ : MemFS) (text_ca "a" "b")).
  assert (Hr : r = (r.1.1, r.1.2, r.2)) by (by destruct r as [[? ?] ?]). rewrite Hr.
  assert (He : r.2 = None) by (by vm_compute).
  destruct (UpdateCert_spec (OS := mem_os) (X := text_x509) (OL := mem_os_laws) false demo_pair "/c" "/k"
              (∅ : MemFS) (text_ca "a" "b") r.1.1 r.1.2 r.2 Hr) as (_ & _ & _ & Hload).
  split; [exact He|]. split; [by vm_compute|]. split; [by vm_compute|].
  apply Hload; try done.
  apply (bool_decide_unpack _). by vm_compute.
Defined.
