(* ===== verification/Proxy.v ===== *)
(** * The proxy

    [proxy/proxy.go] and [proxy/file.go]: what the proxy does with a request and its response. The
    proxy library calls the handlers in this order: authentication, [processRoundTrip],
    [processRequest], then the round trip, then [processResponse]. Messages to the dispatcher are
    handled at once, with the goroutine they start: what happens in between is in [Dispatcher]; the wiring of the
    handlers and whole exchanges are in [Pipeline]. *)
From stdpp Require Import base gmap strings list option fin_maps.
From Stdlib Require Import ZArith Lia Ascii.
From S2P Require Import Prelude GoStrings GoCodec Platform HttpUtil PathMatch Json Net.
From S2P Require Import Digests Artifact Report Config Acl Secrets SecLog Inspectors Archives.
From S2P Require Import Session Messages Service ServiceProps Dispatcher.

(** ** Upstream proxies *)

(** [url.Parse]. *)
Class UrlParse := { url_Parse : string -> result URL }.

Section Upstream.
Variable env : string -> string.

Fixpoint getenvAny (keys : list string) : string :=
  match keys with
  | [] => ""
  | k :: keys' => if String.eqb (env k) "" then getenvAny keys' else env k
  end.

(** One entry of the list of hosts; malformed patterns are only logged. *)
Definition bypass_entry (host h : string) : bool :=
  let h := TrimSpace h in
  if String.eqb h "" then false
  else let h := ToLower h in
       if String.eqb host h then true
       else match path_Match h host with Ok ok => ok | Err _ => false end.

Definition shouldBypassProxy (host : string) : bool :=
  let noProxy := getenvAny ["NO_PROXY"; "no_proxy"] in
  if String.eqb noProxy "" then false
  else existsb (bypass_entry (ToLower host)) (Split noProxy ",").

(** No upstream proxy, its URL, or an error. *)
Definition proxyFromEnvironment `{UrlParse} (u : URL) : result (option URL) :=
  if shouldBypassProxy (URL_Hostname u) then Ok None
  else
    let proxy := if String.eqb (Scheme u) "https" then getenvAny ["HTTPS_PROXY"; "https_proxy"]
                 else if String.eqb (Scheme u) "http" then getenvAny ["HTTP_PROXY"; "http_proxy"]
                 else "" in
    let proxy := if String.eqb proxy "" then getenvAny ["ALL_PROXY"; "all_proxy"] else proxy in
    if String.eqb proxy "" then Ok None else Some <$> url_Parse proxy.
End Upstream.

(** ** Responses *)

(** [goproxy.NewResponse(r, ContentTypeText, code, msg)]. *)
Class GoProxy := { goproxy_NewResponse : Z -> string -> HttpResponse }.
Class GoProxyLaws `{GoProxy} := {
  NewResponse_code code msg : StatusCode (goproxy_NewResponse code msg) = code;
  NewResponse_body code msg : RespBody (goproxy_NewResponse code msg) = mkBody msg None }.

Definition httpResponse (code : Z) (msg : string) : HttpResponse :=
  mkHttpResponse code "" {["Content-Type" := ["text/plain"]]} (mkBody msg None).

Definition copyHTTPHeader (h : Header) : Header := (fun v => v) <$> h.
(** The copy has no body. *)
Definition copyHTTPResponse (r : HttpResponse) : HttpResponse :=
  mkHttpResponse (StatusCode r) (Status r) (copyHTTPHeader (RespHeader r)) (mkBody "" None).
Definition set_RespBody (b : Body) (r : HttpResponse) : HttpResponse :=
  mkHttpResponse (StatusCode r) (Status r) (RespHeader r) b.

(** [processRoundTrip]: the response of the server at an address, or an error of the connection. *)
Definition round_trip (cfg : HTTPProxyConfig) (details : result (IP * HttpResponse)) :
    result HttpResponse :=
  match details with
  | Err e => Err e
  | Ok (ip, resp) =>
      if Allowed cfg ip then Ok resp else Ok (httpResponse StatusForbidden "Access denied")
  end.

(** ** Session headers *)

Definition sessionIDHeader : string := "X-Fetch-Session-Id".

Definition session_id_char (c : ascii) : bool := in_range 97 122 c || in_range 48 57 c.

Definition getSessionIDHeader (r : HttpRequest) : result string :=
  let id := Header_Get (ReqHeader r) sessionIDHeader in
  if String.eqb id "" then Err (EText "session ID cannot be empty")
  else if str_forall session_id_char id then Ok id
  else Err (EText ("invalid session ID: " +:+ Quote id)).

(** ** Downloads *)

(** [purell.NormalizeURL]. *)
Class UrlNormalizer := { NormalizedURL : URL -> string }.

Section Proxy.
Context `{ML : MimeLib} `{GL : GlobLib} `{OS : Os} `{VT : VersionText} `{Y : !YamlLib}
  `{FT : FloatText} `{CU : !CertUpdate} `{GP : GoProxy} `{HA : Hashes} `{UN : UrlNormalizer} {IS : Type}.
Variable C : Constructors (IS := IS).
Variable st0 : IS.
Notation World := (World (IS := IS)).
Notation handle := (handleMessages C st0).

(** What [LocalDownloadHandler] has recorded when it is closed. *)
Definition set_digests (data : string) (a : Artifact) : Artifact :=
  let o := Meta a in
  set_Meta (mkMetadata (Type_ o) (sha1_Sum data) (sha256_Sum data) (Z.of_nat (String.length data))
    (Name o) (Version o) (Vendor o) (Description o) (Author o) (AuthorEmail o) (Architecture o)
    (License o) (Copyright o) (SourcePackage o) (StoreRevision o) (AptSuite o) (ContentID o)) a.

Definition set_response_info (resp : HttpResponse) (a : Artifact) : Artifact :=
  let d := CurrentDownload a in
  set_CurrentDownload (mkDownload (StartTime d) (EndTime d) (dl_Method d) (dl_URL d) (Address d)
    (UserAgent d) (RequestHeader d) (StatusCode resp) (Status resp)
    (Header_Get (RespHeader resp) "Content-Type") (copyHTTPHeader (RespHeader resp))
    (Sha256 (Meta a))) a.

(** [io.Copy] to the temporary file: everything up to the end of the body or its error is written.
    Closing the body reports [close_err]. *)
Definition localDownload (resp : HttpResponse) (tempname : string) (close_err : option error)
    (fs : FS) (a : Artifact) : FS * Artifact * option error :=
  let data := body_data (RespBody resp) in
  match os_WriteFile fs tempname data with
  | (fs, Some e) => (fs, a, Some e)
  | (fs, None) =>
      match body_err (RespBody resp) with
      | Some e => (fs, a, Some e)
      | None =>
          let a := set_digests data a in
          match close_err with
          | Some e => (fs, a, Some e)
          | None =>
              let size := Z.of_nat (String.length data) in
              if negb (size =? Size (Meta a))%Z then
                (fs, a, Some (EText ("file size mismatch (" +:+ Itoa size +:+ ", expected " +:+
                                       Itoa (Size (Meta a)) +:+ ")")))
              else (fs, set_response_info resp a, None)
          end
      end
  end.

(** The inspection of a response whose artifact is at [pa]: the message is handled, the goroutine
    runs, and its completion message is handled. [None] if no answer comes. *)
Definition inspect_response (rch pa : nat) (d : Draws) (w : World) : World * option (option error) :=
  let '(w, outs) := handle (mkMessage rch (ResponseInspectionMsg pa)) d w in
  match outs with
  | [Reply _ (AnsError e)] => (w, Some e)
  | [Spawn t] =>
      match run_task t (S rch) w with
      | (w, [Spawn (WaitCompletion _ err _)], [m]) =>
          match handle m d w with
          | (w, [Reply _ (AnsError c)]) =>
              (w, Some (match c with Some e => Some e | None => err end))
          | (w, _) => (w, None)
          end
      | (w, _, _) => (w, None)
      end
  | _ => (w, None)
  end.

(** What the system does while a file is downloaded: how long it takes, and what fails. *)
Record DownloadEnv := mkDownloadEnv {
  tempname : result string;     (** [os.CreateTemp] *)
  pipe_err : option error;      (** [os.Pipe] *)
  close_err : option error;
  timed_out : bool;             (** the inspection takes longer than its timeout *)
  slow : bool;                  (** more than five seconds pass: the response goes on in background *)
}.

(** The goroutine of [NewFileDownloadHandler]: the content for the client, or an error. *)
Definition download (resp : HttpResponse) (env : DownloadEnv) (temp : string) (rch pa : nat) (a : Artifact)
    (d : Draws) (w : World) : World * result string :=
  match localDownload resp temp (close_err env) (w_fs w) a with
  | (fs, a, Some e) => (set_art pa a (set_w_fs fs w), Err e)
  | (fs, a, None) =>
      let '(w, ins) := inspect_response rch pa d (set_art pa a (set_w_fs fs w)) in
      if timed_out env then
        (w, Err (EText ("inspection of artifact " +:+ Sha256_String (Sha256 (Meta a)) +:+ " timed out")))
      else
        match ins with
        | Some None =>
            match os_ReadFile (w_fs w) (filepath_Join [AssetDir a; Sha256_String (Sha256 (Meta a)) +:+ ".data"]) with
            | Ok data => (w, Ok data)
            | Err e => (w, Err (EWrap "cannot open asset file: " e ""))
            end
        | Some (Some e) => (w, Err e)
        | None => (w, Err (EText "no answer"))
        end
  end.

(** The body the client gets, or an error. In the background the response has started already: if the
    download fails, the pipe is closed. *)
Definition NewFileDownloadHandler (req : HttpRequest) (resp : HttpResponse) (spool : string)
    (env : DownloadEnv) (rch pa : nat) (a : Artifact) (d : Draws) (w : World) :
    World * result Body :=
  match getSessionIDHeader req with
  | Err e => (w, Err e)
  | Ok sessionID =>
      match tempname env with
      | Err e => (w, Err e)
      | Ok temp =>
          let a := set_Tempfile temp a in
          let a := set_AssetDir (filepath_Join [spool; sessionID; "assets"]) a in
          let a := set_SessionCacheDir (filepath_Join [spool; sessionID; "cache"]) a in
          let w := set_art pa a w in
          match pipe_err env with
          | Some e => (w, Err (EWrap "cannot create body data pipe: " e ""))
          | None =>
              match download resp env temp rch pa a d w with
              | (w, Ok data) => (w, Ok (mkBody data None))
              | (w, Err e) =>
                  if slow env then (w, Ok (mkBody "" (Some (ESentinel "file already closed"))))
                  else (w, Err e)
              end
          end
      end
  end.

(** [processResponse]: only responses with status 200 are inspected. *)
Definition processResponse (req : HttpRequest) (resp : HttpResponse) (spool : string)
    (env : DownloadEnv) (rch pa : nat) (d : Draws) (w : World) : World * HttpResponse :=
  if negb (StatusCode resp =? StatusOK)%Z then (w, resp)
  else
    match w_arts w !! pa with
    | None => (w, resp)
    | Some a =>
        match NewFileDownloadHandler req resp spool env rch pa a d w with
        | (w, Ok body) => (w, set_RespBody body (copyHTTPResponse resp))
        | (w, Err e) =>
            let temp := from_option Tempfile "" (w_arts w !! pa) in
            let w := if String.eqb temp "" then w
                     else set_w_fs (fst (os_Remove (w_fs w) temp)) w in
            if decide (e = ErrRejectedArtifact) then
              (w, goproxy_NewResponse StatusForbidden "Download not authorized")
            else (w, goproxy_NewResponse StatusInternalServerError "Cannot handle file downloads")
        end
    end.

(** ** Requests *)

(** The authentication function of [NewHTTPProxy]: the session ID becomes a header of the request, and
    the dispatcher checks the credentials. The state is the world and what the dispatcher put out. *)
Definition basicAuth (rch : nat) (d : Draws) (req : HttpRequest) (user passwd : string)
    (s : World * list Output) : HttpRequest * bool * (World * list Output) :=
  let req := set_header sessionIDHeader user req in
  let '(w, outs) := handle (mkMessage rch (ProxyAuth (mkProxyAuth user passwd (ServerIP req)
                      (ClientIP req) (Request_UserAgent req)))) d (fst s) in
  (req, match last outs with Some (Reply _ (AnsAuth ok)) => ok | _ => false end, (w, snd s ++ outs)).

Definition authRealm : string := "fetch-service".

(** The artifact of a request: [header] is its header before the session ID is added. *)
Definition request_artifact (req : HttpRequest) (header : Header) (now : Time) : Artifact :=
  let sid := Header_Get (ReqHeader req) sessionIDHeader in
  set_CurrentDownload (mkDownload now zero_time (Method req) (NormalizedURL (ReqURL req))
    (RemoteAddr req) (Header_Get (ReqHeader req) "User-Agent") header 0 "" "" ∅ zero_sha256)
    (set_SessionID sid (set_Request (Some req) NewArtifact)).

(** What happens to a request: it is answered by the proxy, or sent to its server. *)
Inductive RequestVerdict : Type :=
| Refused (resp : HttpResponse)
| SendTo (req : HttpRequest).

(** The inspection of a request whose artifact is at [pa]. *)
Definition inspect_request (rch pa : nat) (d : Draws) (w : World) : World * option (option error) :=
  let '(w, outs) := handle (mkMessage rch (RequestInspectionMsg pa)) d w in
  match outs with
  | [Reply _ (AnsError e)] => (w, Some e)
  | [Spawn t] =>
      match run_task t (S rch) w with
      | (w, [Reply _ (AnsError e)], _) => (w, Some e)
      | (w, _, _) => (w, None)
      end
  | _ => (w, None)
  end.

(** [processRequest]. The user data of a request in a tunnel is the session ID of the tunnel. The
    artifact is stored at a new address [pa], the inspectors may change the request through it. *)
Definition processRequest (user_data : option string) (req : HttpRequest) (rch pa : nat) (d : Draws)
    (w : World) : World * RequestVerdict :=
  let header := copyHTTPHeader (ReqHeader req) in
  let req := match user_data with Some sid => set_header sessionIDHeader sid req | None => req end in
  let a := request_artifact req header (d_now d) in
  let '(w, ins) := inspect_request rch pa d (set_art pa a w) in
  let req := default req (w_arts w !! pa ≫= Artifact.Request) in
  match ins with
  | Some None =>
      let sec := GetSessionSecrets (w_sess w) (SessionID a) in
      match InjectSecrets sec (dl_URL (CurrentDownload a)) req with
      | Err e =>
          if errors_is e ErrKeystoneV3BodyTooLarge then
            (w, Refused (goproxy_NewResponse StatusRequestEntityTooLarge "Request body too large"))
          else (w, Refused (goproxy_NewResponse StatusInternalServerError "Cannot handle requests"))
      | Ok (_, req) => (w, SendTo req)
      end
  | Some (Some e) =>
      (w, Refused (goproxy_NewResponse StatusForbidden ("download authorization denied: " +:+ error_string e)))
  | None => (w, Refused (goproxy_NewResponse StatusInternalServerError "no answer"))
  end.

(** A plain request through the proxy up to the round trip: authentication, then [processRequest]. *)
Definition plain_request (req : HttpRequest) (rch pa : nat) (d : Draws) (w : World) :
    World * RequestVerdict :=
  match Basic (basicAuth rch d) authRealm None req (w, []) with
  | (Some resp, _, (w, _)) => (w, Refused resp)
  | (None, req, (w, _)) => processRequest None req (S rch) pa d w
  end.

(** ** Lemmas *)

Hypothesis C_laws : forall cfg, Forall InspectorLaws (insList C cfg).

Lemma GetSession_active (w : World) id o : sess_wf (w_sess w) -> active (w_sess w) id = Some o ->
  exists p, GetSession (w_sess w) id = Some p /\ sessions (w_sess w) !! id = Some p /\
    objs (w_sess w) !! p = Some o /\ s_ID o = id.
Proof.
  intros Hwf (p & Hid & Hp)%active_Some. exists p. destruct (wf_table _ Hwf _ _ Hid) as (o' & Ho' & Hi & _).
  simplify_eq. done.
Qed.

(** Inspecting a request of an active session. *)
Lemma inspect_request_active rch pa d (w : World) a p o :
  w_arts w !! pa = Some a -> GetSession (w_sess w) (SessionID a) = Some p ->
  objs (w_sess w) !! p = Some o ->
  forall st a' e, runRequestInspection o (ins_state o) a = (st, a', e) ->
  inspect_request rch pa d w = (set_art pa a' (set_session p (set_ins_state st o) w), Some e).
Proof.
  intros Ha Hp Ho st a' e HE. unfold inspect_request, handleMessages. cbn [Req Rch].
  unfold with_art. rewrite Ha. unfold handleRequestInspection. rewrite Hp. simpl.
  by rewrite Ho, Ha, HE.
Qed.

(** Requests of unknown sessions are refused. *)
Lemma inspect_request_inactive rch pa d (w : World) a :
  w_arts w !! pa = Some a -> sessions (w_sess w) !! SessionID a = None ->
  inspect_request rch pa d w = (w, Some (Some (not_active "inspect request" (SessionID a)))).
Proof.
  intros Ha Hs. unfold inspect_request, handleMessages. cbn [Req Rch].
  unfold with_art. rewrite Ha. unfold handleRequestInspection, GetSession, sessions_Get. by rewrite Hs.
Qed.

Lemma run_request_current (s : Session (IS := IS)) st a st' a' e : session_ok s ->
  runRequestInspection s st a = (st', a', e) ->
  CurrentDownload a' = CurrentDownload a /\ SessionID a' = SessionID a /\
  Sha256 (Meta a') = Sha256 (Meta a) /\ request_head a' = request_head a.
Proof.
  intros Hs. unfold runRequestInspection.
  destruct (RunRequestInspectors (Insps s) st a) as [[st1 a1] e1] eqn:E.
  destruct (run_request_frame _ _ _ _ _ _ _ (wf_laws _ (so_insps _ Hs)) E) as ([] & _ & _).
  destruct e1; intros; simplify_eq; done.
Qed.

Lemma run_response_current (s : Session (IS := IS)) fs st a st' a' e : session_ok s ->
  runResponseInspection s fs st a = (st', a', e) ->
  CurrentDownload a' = CurrentDownload a /\ SessionID a' = SessionID a /\
  Sha256 (Meta a') = Sha256 (Meta a).
Proof.
  intros Hs. unfold runResponseInspection, RunArtifactInspectors, evaluateResponseInspection.
  destruct (OpenArtifactFile _ _) as [data|]; [|intros; simplify_eq; done].
  destruct (DetectReader data) as [t|]; [|intros; simplify_eq; done].
  destruct (run_artifact _ _ _ _ _ _) as [[st1 a1] e1] eqn:E.
  destruct (run_artifact_frame _ _ _ _ _ _ _ _ _ (wf_laws _ (so_insps _ Hs)) E) as ([] & _ & _).
  destruct e1; [intros; simplify_eq; done|]. destruct (Artifact_Rejected a1); intros; simplify_eq; done.
Qed.

(** A download does not change the verdicts. *)
Lemma AddDownload_lookup di (o : Session (IS := IS)) k a0 : A o !! k = Some a0 ->
  exists a1, A (AddDownload di o) !! k = Some a1 /\ Result a1 = Result a0.
Proof.
  intros Hk. unfold AddDownload. destruct (HasArtifact o (dl_Sha256 di)); [|by exists a0].
  simpl. rewrite lookup_alter. case_decide; subst; rewrite Hk; simpl; eexists; split; reflexivity.
Qed.

(** The response inspection of a strict session: if there is no error, the session holds the artifact
    with an approval, whether it was inspected now or before. *)
Lemma inspect_response_approved rch pa d (w w' : World) a o :
  world_ok w -> w_arts w !! pa = Some a -> active (w_sess w) (SessionID a) = Some o ->
  Permissive o = false -> inspect_response rch pa d w = (w', Some None) ->
  exists o' a', active (w_sess w') (SessionID a) = Some o' /\
    A o' !! Sha256 (Meta a) = Some a' /\ Result a' = Approved.
Proof.
  intros [Hwf Hok] Ha Hact Hstrict. destruct (GetSession_active w _ o Hwf Hact) as (p & Hp & Hid & Ho & Hi).
  unfold inspect_response, handleMessages. cbn [Req Rch]. unfold with_art. rewrite Ha.
  unfold handleResponseInspection. rewrite Hp, Ho.
  set (a1 := set_CurrentDownload _ a). pose proof (Hok p o Ho) as Hso.
  destruct (HasArtifact o (Sha256 (Meta a))) eqn:Hhas.
  - (** inspected before *)
    set (o1 := AddDownload (CurrentDownload a1) o).
    assert (Hres : exists a0, A o1 !! Sha256 (Meta a) = Some a0 /\ judged a0).
    { unfold HasArtifact in Hhas. destruct (A o !! Sha256 (Meta a)) as [a0|] eqn:E0; [|done].
      destruct (AddDownload_lookup (CurrentDownload a1) _ _ _ E0) as (a3 & H3 & Hr3).
      exists a3. split; [exact H3|]. unfold judged. rewrite Hr3. by apply (so_arts _ Hso _ _ E0). }
    destruct Hres as (a0 & HA0 & Hj). unfold ArtifactResult. rewrite HA0.
    assert (Permissive o1 = false) as Hs1.
    { unfold o1, AddDownload. destruct (HasArtifact o (dl_Sha256 (CurrentDownload a1))); exact Hstrict. }
    rewrite Hs1. simpl.
    destruct (bool_decide (Result a0 = Rejected)) eqn:Er; unfold answer; [intros; simplify_eq|].
    apply bool_decide_eq_false in Er. intros [= <-]. exists o1, a0. split; [|by destruct Hj].
    unfold active. simpl. rewrite Hid. simpl. by rewrite lookup_insert_eq.
  - destruct (SaveData a1 _) as [fs [e|]]; unfold answer; [intros; simplify_eq|]. simpl.
    rewrite Ho. rewrite lookup_insert_eq.
    destruct (runResponseInspection o fs (ins_state o) a1) as [[st a2] e] eqn:E.
    destruct (run_response_current _ _ _ _ _ _ _ Hso E) as (Hc & Hsid & Hsha).
    apply run_response_judged in E as Hj. simpl.
    unfold with_art. simpl. rewrite lookup_insert_eq.
    unfold handleCompleteInspection, GetSession, sessions_Get. simpl.
    rewrite Hsid. change (SessionID a1) with (SessionID a). rewrite Hid.
    rewrite lookup_insert_eq, Hsha. change (Sha256 (Meta a1)) with (Sha256 (Meta a)).
    assert (HasArtifact (set_ins_state st o) (Sha256 (Meta a)) = false) as -> by exact Hhas. simpl.
    set (o2 := AddDownload _ _). unfold answer. intros [= <- ->].
    assert (HAdd : A (AddArtifact a2 (set_ins_state st o)) !! Sha256 (Meta a) = Some a2).
    { unfold AddArtifact. rewrite Hsha. change (Sha256 (Meta a1)) with (Sha256 (Meta a)).
      change (A (set_ins_state st o)) with (A o). unfold HasArtifact in Hhas.
      destruct (A o !! Sha256 (Meta a)); [done|]. simpl. by rewrite lookup_insert_eq. }
    pose proof (AddDownload_lookup (CurrentDownload a2) _ _ _ HAdd) as Hfin. fold o2 in Hfin.
    destruct Hfin as (a3 & HA3 & Hr3). exists o2, a3. split.
    + unfold active. simpl. rewrite Hid. simpl. by rewrite lookup_insert_eq.
    + split; [done|]. rewrite Hr3. unfold runResponseInspection, evaluateResponseInspection in E.
      destruct (RunArtifactInspectors _ _ _ _ _) as [[st1 a4] [e4|]]; [simplify_eq|].
      destruct (Artifact_Rejected a4); [rewrite Hstrict in E|]; by simplify_eq.
Qed.

Lemma download_ok resp env temp rch pa a d (w w' : World) data :
  download resp env temp rch pa a d w = (w', Ok data) ->
  exists fs, body_err (RespBody resp) = None /\
    let a1 := set_response_info resp (set_digests (body_data (RespBody resp)) a) in
    inspect_response rch pa d (set_art pa a1 (set_w_fs fs w)) = (w', Some None) /\
    os_ReadFile (w_fs w') (filepath_Join
      [AssetDir a; Sha256_String (sha256_Sum (body_data (RespBody resp))) +:+ ".data"]) = Ok data.
Proof.
  unfold download, localDownload.
  destruct (os_WriteFile (w_fs w) temp _) as [fs [e|]]; [done|].
  destruct (body_err (RespBody resp)) as [e|]; [done|]. destruct (close_err env) as [e|]; [done|].
  destruct (negb _); [done|].
  destruct (inspect_response _ _ _ _) as [w1 ins] eqn:E. destruct (timed_out env); [done|].
  destruct ins as [[e|]|]; [done| |done].
  match goal with |- context [os_ReadFile (w_fs w1) ?p] => destruct (os_ReadFile (w_fs w1) p) as [x|] eqn:ER end;
    [|done]. intros H. injection H as <- <-. exists fs. split; [done|]. split; [exact E|]. exact ER.
Qed.

Lemma world_ok_set (w : World) pa a fs : world_ok w -> world_ok (set_art pa a (set_w_fs fs w)).
Proof. done. Qed.

Lemma CheckAuth_true (st : SessState (IS := IS)) id pw h c ag : fst (CheckAuth st id pw h c ag) = true ->
  exists s, active st id = Some s /\ revoked s = false /\ Token s = pw.
Proof.
  unfold CheckAuth. destruct (active st id) as [s|]; [|done]. destruct (revoked s) eqn:Er; [done|].
  destruct (String.eqb (Token s) pw) eqn:Et; [|done]. apply String.eqb_eq in Et. by exists s.
Qed.

Lemma Header_Get_Set h k v k' : Header_Get (Header_Set h k v) k' =
  if decide (k' = k) then v else Header_Get h k'.
Proof.
  unfold Header_Get, Header_Set. rewrite lookup_insert. by repeat case_decide; subst.
Qed.

(** A download of a strict session, whatever session header its request has. *)
Lemma delivery_approved `{GPL : !GoProxyLaws} :
  forall req resp spool env rch pa d (w w' : World) resp' a o,
  world_ok w -> w_arts w !! pa = Some a -> active (w_sess w) (SessionID a) = Some o -> Permissive o = false ->
  StatusCode resp = StatusOK ->
  processResponse req resp spool env rch pa d w = (w', resp') ->
  let digest := sha256_Sum (body_data (RespBody resp)) in
  (StatusCode resp' = StatusOK -> body_err (RespBody resp') = None ->
     body_err (RespBody resp) = None /\
     exists sid o' a', getSessionIDHeader req = Ok sid /\ active (w_sess w') (SessionID a) = Some o' /\
       A o' !! digest = Some a' /\ Result a' = Approved /\
       os_ReadFile (w_fs w') (filepath_Join [filepath_Join [spool; sid; "assets"];
         Sha256_String digest +:+ ".data"]) = Ok (body_data (RespBody resp'))) /\
  (StatusCode resp' = StatusOK -> body_err (RespBody resp') <> None ->
     body_data (RespBody resp') = "") /\
  (StatusCode resp' <> StatusOK -> body_data (RespBody resp') = "Download not authorized" \/
     body_data (RespBody resp') = "Cannot handle file downloads").
Proof.
  intros req resp spool env rch pa d w w' resp' a o Hok Ha Hact Hstrict H200 H digest.
  unfold processResponse in H. rewrite H200, Ha in H. simpl in H.
  unfold NewFileDownloadHandler in H.
  assert (Herr : forall w1 e, (let temp := from_option Tempfile "" (w_arts w1 !! pa) in
      let w2 := if String.eqb temp "" then w1 else set_w_fs (fst (os_Remove (w_fs w1) temp)) w1 in
      if decide (e = ErrRejectedArtifact) then
        (w2, goproxy_NewResponse StatusForbidden "Download not authorized")
      else (w2, goproxy_NewResponse StatusInternalServerError "Cannot handle file downloads"))
      = (w', resp') -> (StatusCode resp' <> StatusOK) /\
        (body_data (RespBody resp') = "Download not authorized" \/
         body_data (RespBody resp') = "Cannot handle file downloads")).
  { intros w1 e H1. cbv zeta in H1.
    destruct (decide (e = ErrRejectedArtifact)); injection H1 as _ <-;
      rewrite NewResponse_code, NewResponse_body; split; [done|by left|done|by right]. }
  destruct (getSessionIDHeader req) as [sid|e] eqn:Hsid; [|apply Herr in H; naive_solver].
  destruct (tempname env) as [temp|e]; [|apply Herr in H; naive_solver].
  destruct (pipe_err env) as [e|]; [apply Herr in H; naive_solver|].
  match type of H with context [download ?r ?en ?t ?rc ?p ?x ?dd ?ww] =>
    destruct (download r en t rc p x dd ww) as [w1 [data|e]] eqn:ED end.
  - injection H as <- <-. cbn [RespBody set_RespBody body_err body_data StatusCode].
    apply download_ok in ED as (fs & Herr0 & HI & HR). split; [|split; [done|intros Hn; destruct Hn; exact H200]].
    intros _ _. split; [done|].
    match type of HI with inspect_response _ _ _ ?ww = _ => set (w2 := ww) in HI end.
    eapply (inspect_response_approved rch pa d w2 w1 _ o) in HI
      as (o' & a' & H1 & H2 & H3); [|exact Hok|by (unfold w2; simpl; rewrite lookup_insert_eq)|exact Hact|done].
    exists sid, o', a'. split; [done|]. split; [exact H1|]. split; [exact H2|]. split; [exact H3|exact HR].
  - destruct (slow env); [|apply Herr in H; naive_solver].
    injection H as <- <-. cbn [RespBody set_RespBody body_err body_data StatusCode].
    split; [done|split; [done|intros Hn; destruct Hn; exact H200]].
Qed.

(** What authentication lets pass, and what it does to the request. *)
Lemma Basic_accepts req rch d (w w' : World) outs0 outs req' :
  Basic (basicAuth rch d) authRealm None req (w, outs0) = (None, req', (w', outs)) ->
  exists s user pw cred, active (w_sess w) user = Some s /\ IsRevoked s = false /\ Token s = pw /\
    Header_Get (ReqHeader req) proxyAuthorizationHeader = "Basic " +:+ cred /\
    b64_decode cred = Ok (user +:+ ":" +:+ pw) /\ w' = w /\
    req' = set_header sessionIDHeader user
      (set_ReqHeader (Header_Del (ReqHeader req) proxyAuthorizationHeader) req).
Proof.
  intros H. unfold Basic in H. pose proof (auth_header (basicAuth rch d) req (w, outs0)) as HAu.
  destruct (auth (basicAuth rch d) req (w, outs0)) as [[[req1 u] ok] [w1 outs1]].
  destruct ok; [|done]. injection H as <- <- <-.
  destruct (HAu eq_refl) as (user & pw & cred & -> & Hh & Hb & _ & Hf). clear HAu.
  unfold basicAuth in Hf. cbn [fst snd] in Hf. unfold handleMessages in Hf. cbn [Req Rch] in Hf.
  cbn [pa_ID pa_Pw pa_HostIP pa_ClientIP pa_Agent] in Hf.
  match type of Hf with context [CheckAuth ?a ?b ?c ?d ?e ?f] =>
    pose proof (CheckAuth_true a b c d e f) as Hc; destruct (CheckAuth a b c d e f) as [ok evs] end.
  rewrite last_snoc in Hf. injection Hf as <- -> <- _.
  destruct (Hc eq_refl) as (s & Hs & Hr & Ht). exists s, user, pw, cred. by split_and!.
Qed.

Lemma set_header_id r user : Header_Get (ReqHeader (set_header sessionIDHeader user r)) sessionIDHeader = user.
Proof. cbn [set_header ReqHeader]. rewrite Header_Get_Set. by rewrite decide_True. Qed.

(** ** Properties *)

(** A strict session's client receives only approved files: when the proxy passes on the complete body of
    a successful response, the server's body was complete, the session holds the artifact of its
    SHA-256 digest with an approval, and the body is the content of that file in the spool. In all
    other cases the client gets no byte of the file. *)
Theorem client_receives_approved `{GPL : !GoProxyLaws} :
  forall req resp spool env rch pa d (w w' : World) resp' a o,
  world_ok w -> w_arts w !! pa = Some a -> getSessionIDHeader req = Ok (SessionID a) ->
  active (w_sess w) (SessionID a) = Some o -> Permissive o = false ->
  StatusCode resp = StatusOK ->
  processResponse req resp spool env rch pa d w = (w', resp') ->
  let digest := sha256_Sum (body_data (RespBody resp)) in
  (StatusCode resp' = StatusOK -> body_err (RespBody resp') = None ->
     body_err (RespBody resp) = None /\
     exists o' a', active (w_sess w') (SessionID a) = Some o' /\ A o' !! digest = Some a' /\
       Result a' = Approved /\
       os_ReadFile (w_fs w') (filepath_Join [filepath_Join [spool; SessionID a; "assets"];
         Sha256_String digest +:+ ".data"]) = Ok (body_data (RespBody resp'))) /\
  (StatusCode resp' = StatusOK -> body_err (RespBody resp') <> None ->
     body_data (RespBody resp') = "") /\
  (StatusCode resp' <> StatusOK -> body_data (RespBody resp') = "Download not authorized" \/
     body_data (RespBody resp') = "Cannot handle file downloads").
Proof.
  intros req resp spool env rch pa d w w' resp' a o Hok Ha Hsid Hact Hstrict H200 H digest.
  destruct (delivery_approved _ _ _ _ _ _ _ _ _ _ _ _ Hok Ha Hact Hstrict H200 H) as [Happ Hrest].
  split; [|exact Hrest]. intros H1 H2. destruct (Happ H1 H2) as (Hb & sid & o' & a' & Hs & Hact' & Hin & Hr & Hf).
  split; [exact Hb|]. exists o', a'. assert (sid = SessionID a) as -> by congruence. by split_and!.
Qed.

(** The session of a request is the authenticated one: a plain request gets past authentication only
    with the ID and token of an active session whose token was not revoked, and is then filed under
    that ID whatever session header the client had sent; the credentials are taken out, and
    nothing else of the request or the service is changed. *)
Theorem session_id_authentic : forall req rch d (w w' : World) outs req',
  Basic (basicAuth rch d) authRealm None req (w, []) = (None, req', (w', outs)) ->
  exists s user pw cred, active (w_sess w) user = Some s /\ IsRevoked s = false /\ Token s = pw /\
    Header_Get (ReqHeader req) proxyAuthorizationHeader = "Basic " +:+ cred /\
    b64_decode cred = Ok (user +:+ ":" +:+ pw) /\ w' = w /\
    Header_Get (ReqHeader req') sessionIDHeader = user /\
    SessionID (request_artifact req' (ReqHeader req') (d_now d)) = user /\
    ReqHeader req' !! proxyAuthorizationHeader = None /\
    (forall k, k <> proxyAuthorizationHeader -> k <> sessionIDHeader ->
       ReqHeader req' !! k = ReqHeader req !! k) /\
    ReqURL req' = ReqURL req /\ ReqBody req' = ReqBody req.
Proof.
  intros req rch d w w' outs req' (s & user & pw & cred & Hs & Hr & Ht & Hh & Hb & -> & ->)%Basic_accepts.
  exists s, user, pw, cred. assert (Hne : sessionIDHeader <> proxyAuthorizationHeader) by done.
  split_and!; try done.
  - apply set_header_id.
  - apply set_header_id.
  - cbn [set_header ReqHeader set_ReqHeader]. unfold Header_Set, Header_Del.
    rewrite lookup_insert_ne by done. by rewrite lookup_delete_eq.
  - intros k H1 H2. cbn [set_header ReqHeader set_ReqHeader]. unfold Header_Set, Header_Del.
    rewrite lookup_insert_ne by done. by rewrite lookup_delete_ne.
Qed.

(** The outcome of [processRequest] on an active session. *)
Lemma processRequest_active user_data req rch pa d (w : World) o :
  let header := ReqHeader req in
  let req1 := match user_data with Some sid => set_header sessionIDHeader sid req | None => req end in
  let a := request_artifact req1 (copyHTTPHeader header) (d_now d) in
  sess_wf (w_sess w) -> active (w_sess w) (SessionID a) = Some o ->
  exists p, sessions (w_sess w) !! SessionID a = Some p /\
  forall st a' e, runRequestInspection o (ins_state o) a = (st, a', e) ->
  processRequest user_data req rch pa d w =
    (set_art pa a' (set_session p (set_ins_state st o) (set_art pa a w)),
     match e with
     | Some e => Refused (goproxy_NewResponse StatusForbidden
                            ("download authorization denied: " +:+ error_string e))
     | None =>
         match InjectSecrets (Secrets_ o) (dl_URL (CurrentDownload a)) (default req1 (Artifact.Request a')) with
         | Err e => Refused (if errors_is e ErrKeystoneV3BodyTooLarge
             then goproxy_NewResponse StatusRequestEntityTooLarge "Request body too large"
             else goproxy_NewResponse StatusInternalServerError "Cannot handle requests")
         | Ok (_, req) => SendTo req
         end
     end).
Proof.
  intros header req1 a Hwf Hact.
  destruct (GetSession_active w _ o Hwf Hact) as (p & Hp & Hid & Ho & _).
  exists p. split; [done|]. intros st a' e HE. unfold processRequest. fold header req1. fold a.
  rewrite (inspect_request_active rch pa d (set_art pa a w) a p o
    ltac:(simpl; by rewrite lookup_insert_eq) Hp Ho st a' e HE).
  assert (HG : GetSessionSecrets (w_sess (set_art pa a' (set_session p (set_ins_state st o)
    (set_art pa a w)))) (SessionID a) = Secrets_ o).
  { unfold GetSessionSecrets. rewrite (active_set_obj (w_sess w) p (set_ins_state st o)) by done. done. }
  destruct e as [e|]; [done|]. rewrite HG. simpl. rewrite lookup_insert_eq. simpl.
  destruct (InjectSecrets _ _ _) as [[inj r]|e]; [done|]. by destruct (errors_is e _).
Qed.

(** Every outcome of [processRequest]: a refusal, or a request of an active session that its inspectors let
    through, with the state it leaves. *)
Lemma processRequest_cases `{GPL : !GoProxyLaws} user_data req rch pa d (w w' : World) v :
  let req1 := match user_data with Some sid => set_header sessionIDHeader sid req | None => req end in
  let a := request_artifact req1 (ReqHeader req) (d_now d) in
  world_ok w -> processRequest user_data req rch pa d w = (w', v) ->
  match v with
  | Refused resp => In (StatusCode resp) [403; 413; 500]%Z
  | SendTo out => exists p o st a' inj,
      sessions (w_sess w) !! SessionID a = Some p /\ objs (w_sess w) !! p = Some o /\
      runRequestInspection o (ins_state o) a = (st, a', None) /\
      w' = set_art pa a' (set_session p (set_ins_state st o) (set_art pa a w)) /\
      CurrentDownload a' = CurrentDownload a /\ SessionID a' = SessionID a /\ request_head a' = request_head a /\
      (Permissive o = false -> RequestPending a' = true) /\
      InjectSecrets (Secrets_ o) (NormalizedURL (ReqURL req)) (default req1 (Artifact.Request a')) = Ok (inj, out)
  end.
Proof.
  intros req1 a [Hwf Hok] H.
  assert (Hcopy : copyHTTPHeader (ReqHeader req) = ReqHeader req) by apply map_fmap_id.
  destruct (sessions (w_sess w) !! SessionID a) as [p|] eqn:Hid.
  - destruct (wf_table _ Hwf _ _ Hid) as (o & Ho & _).
    assert (Hact : active (w_sess w) (SessionID a) = Some o) by (unfold active; by rewrite Hid).
    pose proof (processRequest_active user_data req rch pa d w o) as HP. cbv zeta in HP.
    rewrite Hcopy in HP. fold req1 in HP. fold a in HP. destruct (HP Hwf Hact) as (p' & Hid' & HP'). simplify_eq.
    destruct (runRequestInspection o (ins_state o) a) as [[st a'] e] eqn:E.
    rewrite (HP' _ _ _ eq_refl) in H. injection H as <- <-.
    destruct (run_request_current _ _ _ _ _ _ (Hok _ _ Ho) E) as (Hc & Hs & _ & Hh).
    destruct e as [e|]; [rewrite NewResponse_code; simpl; tauto|].
    assert (Hurl : ReqURL req1 = ReqURL req) by (unfold req1; by destruct user_data). rewrite Hurl.
    destruct (InjectSecrets _ _ _) as [[inj out]|e] eqn:EI.
    + exists p, o, st, a', inj. split_and!; try done. intros Hst.
      unfold runRequestInspection, evaluateRequestInspection in E.
      destruct (RunRequestInspectors _ _ _) as [[st1 a1] [e1|]]; [done|]. simplify_eq.
      destruct (RequestPending a'); [done|]. by rewrite Hst in *.
    + destruct (errors_is e _); rewrite NewResponse_code; simpl; tauto.
  - unfold processRequest in H. rewrite Hcopy in H. fold req1 in H. fold a in H.
    rewrite (inspect_request_inactive rch pa d (set_art pa a w) a) in H
      by (simpl; rewrite ?lookup_insert_eq; done).
    injection H as _ <-. rewrite NewResponse_code. simpl. tauto.
Qed.


(** A download is recorded as it was received: when the local copy succeeds, the body was read to its
    end without an error, the temporary file holds all of it, and the artifact has its length,
    its SHA-1 and SHA-256 digests and the server's response; a body that breaks off is an error. *)
Theorem localDownload_spec `{OL : !OsLaws} : forall resp temp cerr fs a fs' a' e,
  localDownload resp temp cerr fs a = (fs', a', e) ->
  (e = None -> body_err (RespBody resp) = None /\ cerr = None /\
     os_ReadFile fs' temp = Ok (body_data (RespBody resp)) /\
     Size (Meta a') = Z.of_nat (String.length (body_data (RespBody resp))) /\
     Sha1 (Meta a') = sha1_Sum (body_data (RespBody resp)) /\
     Sha256 (Meta a') = sha256_Sum (body_data (RespBody resp)) /\
     dl_Sha256 (CurrentDownload a') = Sha256 (Meta a') /\
     dl_StatusCode (CurrentDownload a') = StatusCode resp /\
     ResponseHeader (CurrentDownload a') = RespHeader resp /\
     RequestHeader (CurrentDownload a') = RequestHeader (CurrentDownload a)) /\
  (body_err (RespBody resp) <> None -> e <> None /\ a' = a) /\
  (e = None \/ snd (os_WriteFile fs temp (body_data (RespBody resp))) <> None \/
   body_err (RespBody resp) <> None \/ cerr <> None).
Proof.
  intros resp temp cerr fs a fs' a' e. unfold localDownload.
  destruct (os_WriteFile fs temp _) as [fs1 [e1|]] eqn:EW.
  { intros H. injection H as <- <- <-. simpl. split; [done|]. split; [done|]. by right; left. }
  destruct (body_err (RespBody resp)) as [e1|].
  { intros H. injection H as <- <- <-. split; [done|]. split; [done|]. by right; right; left. }
  destruct cerr as [e1|].
  { intros H. injection H as <- <- <-. split; [done|]. split; [done|]. by right; right; right. }
  cbn [set_digests Meta set_Meta Size]. rewrite Z.eqb_refl. simpl.
  intros H. injection H as <- <- <-. split; [|split; [done|by left]]. intros _.
  apply os_WriteFile_read in EW. split_and!; try done. simpl. apply map_fmap_id.
Qed.
End Proxy.
(** Hosts that need no upstream proxy: with a list of hosts in the environment a host is contacted directly
    exactly if, letter case aside, it is an entry of the list or matches one as a pattern; an entry
    that starts with a star and has no other special character stands for the hosts that end with
    the rest of it. Otherwise the proxy of the URL's scheme is used, the upper-case variables
    taking precedence. *)
Theorem bypass_spec `{UP : UrlParse} : forall env host,
  let noProxy := getenvAny env ["NO_PROXY"; "no_proxy"] in
  (shouldBypassProxy env host = true <-> noProxy <> "" /\ exists h, In h (Split noProxy ",") /\
     TrimSpace h <> "" /\ (ToLower host = ToLower (TrimSpace h) \/
       path_Match (ToLower (TrimSpace h)) (ToLower host) = Ok true)) /\
  (forall p, p <> "" -> str_forall literal_char p = true ->
     path_Match (String "*" p) host = Ok true <-> exists pre, host = pre +:+ p /\ occurs "/" pre = false) /\
  (forall u, shouldBypassProxy env (URL_Hostname u) = true -> proxyFromEnvironment env u = Ok None) /\
  (forall u v, shouldBypassProxy env (URL_Hostname u) = false -> Scheme u = "https" ->
     env "HTTPS_PROXY" = v -> v <> "" -> proxyFromEnvironment env u = Some <$> url_Parse v).
Proof.
  intros env host noProxy. split; [|split; [|split]].
  - unfold shouldBypassProxy. fold noProxy. destruct (String.eqb noProxy "") eqn:E0.
    + apply String.eqb_eq in E0. split; [done|]. by intros [H _].
    + apply String.eqb_neq in E0. rewrite existsb_exists. split.
      * intros (h & Hin & H). split; [done|]. exists h. split; [done|]. unfold bypass_entry in H.
        destruct (String.eqb (TrimSpace h) "") eqn:E1; [done|]. apply String.eqb_neq in E1. split; [done|].
        destruct (String.eqb (ToLower host) _) eqn:E2; [left; by apply String.eqb_eq|right].
        destruct (path_Match _ _) as [ok|]; [by subst|done].
      * intros (_ & h & Hin & H1 & H2). exists h. split; [done|]. unfold bypass_entry.
        apply String.eqb_neq in H1. rewrite H1.
        destruct (String.eqb (ToLower host) (ToLower (TrimSpace h))) eqn:E2; [done|].
        apply String.eqb_neq in E2. destruct H2 as [H2|H2]; [done|]. by rewrite H2.
  - intros p. apply path_Match_suffix.
  - intros u H. unfold proxyFromEnvironment. by rewrite H.
  - intros u v H Hs Hv Hne. unfold proxyFromEnvironment. rewrite H, Hs. simpl. rewrite Hv.
    apply String.eqb_neq in Hne. repeat (rewrite Hne; cbv iota). done.
Qed.

(** ** Witnesses *)

Section Witnesses.
#[local] Existing Instance text_mime.
#[local] Existing Instance literal_glob.
#[local] Existing Instance mem_os.
#[local] Existing Instance demo_version.
#[local] Existing Instance sample_yaml.
#[local] Existing Instance same_text.
#[local] Existing Instance demo_cert.

#[local] Instance demo_goproxy : GoProxy := {| goproxy_NewResponse := httpResponse |}.
#[local] Instance demo_goproxy_laws : GoProxyLaws.
Proof. by split. Qed.
#[local] Instance demo_hashes : Hashes := {| sha1_Sum := fun _ => zero_sha1; sha256_Sum := fun _ => zero_sha256 |}.
#[local] Instance demo_normalizer : UrlNormalizer := {| NormalizedURL := URL_String |}.

Definition get_request (h : Header) : HttpRequest :=
  mkHttpRequest "GET" (mkURL "http" "example.com" "/file" "") h None 0 [] "10.0.0.9:4000"
    (Some "10.0.0.1:13445").
Definition demo_credentials : string := "Basic " +:+ b64_encode "abc:tok".
Definition ok_response : HttpResponse := mkHttpResponse 200 "200 OK" ∅ (mkBody "data" None).
Definition quick : DownloadEnv := mkDownloadEnv (Ok "/tmp/artifact-1") None None false false.

(** The demonstration session has approved the request of the artifact at address 0. *)
Definition pending_artifact : Artifact :=
  (runRequestInspection demo_session tt (set_SessionID "abc" NewArtifact)).1.2.
Definition pending_world : World (IS := unit) := set_art 0 pending_artifact demo_world.

Lemma demo_world_ok : world_ok demo_world.
Proof.
  split; [apply demo_wf|]. intros p o H.
  change (objs (w_sess demo_world)) with (<[0 := demo_session]> (∅ : gmap nat (Session (IS := unit)))) in H.
  rewrite lookup_insert in H. case_decide; [|by rewrite lookup_empty in H]. injection H as <-.
  split; [apply insps_wf_New, sample_laws|done|]. intros k a Hk.
  change (A demo_session) with (∅ : gmap Sha256Digest Artifact) in Hk. by rewrite lookup_empty in Hk.
Qed.

Definition demo_delivery : World (IS := unit) * HttpResponse :=
  processResponse sample_constructors tt (get_request {["X-Fetch-Session-Id" := ["abc"]]}) ok_response
    "/spool" quick 1 0 demo_draws pending_world.

Lemma client_receives_approved_witness :
  body_data (RespBody demo_delivery.2) = "data" /\
  exists o' a', active (w_sess demo_delivery.1) "abc" = Some o' /\
    A o' !! zero_sha256 = Some a' /\ Result a' = Approved.
Proof.
  split; [vm_compute; reflexivity|].
  assert (Hid : SessionID pending_artifact = "abc") by (vm_compute; reflexivity).
  assert (Hget : getSessionIDHeader (get_request {["X-Fetch-Session-Id" := ["abc"]]}) =
    Ok (SessionID pending_artifact)) by (rewrite Hid; vm_compute; reflexivity).
  assert (Hact : active (w_sess pending_world) (SessionID pending_artifact) = Some demo_session)
    by (rewrite Hid; reflexivity).
  destruct (client_receives_approved sample_constructors tt
    (get_request {["X-Fetch-Session-Id" := ["abc"]]}) ok_response "/spool" quick 1 0 demo_draws
    pending_world demo_delivery.1 demo_delivery.2 pending_artifact demo_session
    demo_world_ok eq_refl Hget Hact eq_refl eq_refl
    (surjective_pairing demo_delivery)) as [H _].
  destruct H as (_ & o' & a' & H1 & H2 & H3 & _); [vm_compute; reflexivity|vm_compute; reflexivity|].
  rewrite Hid in H1. exists o', a'. exact (conj H1 (conj H2 H3)).
Defined.

Definition demo_basic :=
  Basic (basicAuth sample_constructors tt 1 demo_draws) authRealm None
    (get_request {["Proxy-Authorization" := [demo_credentials]; "X-Fetch-Session-Id" := ["other"]]})
    (demo_world, []).

Lemma session_id_authentic_witness :
  exists s user, active (w_sess demo_world) user = Some s /\ IsRevoked s = false /\
    Header_Get (ReqHeader demo_basic.1.2) sessionIDHeader = user.
Proof.
  assert (H1 : demo_basic.1.1 = None) by (vm_compute; reflexivity).
  assert (H2 : demo_basic = (None, demo_basic.1.2, (demo_basic.2.1, demo_basic.2.2))).
  { rewrite <- H1. by destruct demo_basic as [[? ?] [? ?]]. }
  destruct (session_id_authentic sample_constructors tt _ 1 demo_draws demo_world _ _ _ H2)
    as (s & user & pw & cred & Hs & Hr & _ & _ & _ & _ & Hh & _).
  exists s, user. exact (conj Hs (conj Hr Hh)).
Defined.
Example session_header_replaced :
  Header_Get (ReqHeader demo_basic.1.2) sessionIDHeader = "abc".
Proof. vm_compute. reflexivity. Qed.

Definition demo_sent : World (IS := unit) * RequestVerdict :=
  processRequest sample_constructors tt (Some "abc") (get_request ∅) 1 0 demo_draws demo_world.


Definition demo_copy : MemFS * Artifact * option error :=
  localDownload ok_response "/tmp/artifact-1" None (∅ : MemFS) NewArtifact.

Lemma localDownload_spec_witness : Size (Meta demo_copy.1.2) = 4%Z.
Proof.
  apply (proj1 (localDownload_spec (OL := mem_os_laws) ok_response "/tmp/artifact-1" None (∅ : MemFS)
    NewArtifact demo_copy.1.1 demo_copy.1.2 None (triple_eta demo_copy None eq_refl)) eq_refl).
Defined.

Example bypass_example :
  shouldBypassProxy (fun k => if String.eqb k "no_proxy" then "localhost, *.Example.com" else "")
    "ppa.example.COM" = true.
Proof. vm_compute. reflexivity. Qed.
End Witnesses.
