(* ===== verification/Bodies.v ===== *)
(** * Bodies read piece by piece

    [proxy/request.go] and the readers of [proxy/file.go]: the wrappers of the bodies of requests and responses, and
    the digests that are computed while a response is copied. However the network cuts the body into pieces, the copy
    and its digests are those of the whole body, as [Proxy] has them. *)
From stdpp Require Import base gmap strings list option fin_maps.
From Stdlib Require Import ZArith Lia Ascii.
From S2P Require Import Prelude GoStrings GoCodec Platform Json JsonString Net Digests Artifact Report Config Secrets.
From S2P Require Import SecLog Inspectors Session Messages Service Archives Proxy.

(** One read of at most [k] bytes: some bytes, or the end of the body or its error. *)
Definition body_Read (k : nat) (b : Body) : Body * string * option error :=
  match body_data b with
  | "" => (b, "", Some (default EOF (body_err b)))
  | s => (mkBody (str_drop k s) (body_err b), str_take k s, None)
  end.

Section Bodies.
Context `{ML : MimeLib} `{HA : Hashes}.

(** ** Wrappers that pass everything through *)

Record RequestHandler := mkRequestHandler { rh_a : Artifact; rh_body : option Body; rh_insTimeout : Duration }.
Definition NewRequestHandler (req : HttpRequest) (a : Artifact) : result RequestHandler :=
  Ok (mkRequestHandler a (ReqBody req) (180 * Second)%Z).
Definition RequestHandler_Read (k : nat) (h : RequestHandler) : RequestHandler * string * option error :=
  match rh_body h with
  | None => (h, "", Some nil_dereference)
  | Some b =>
      let '(b, p, e) := body_Read k b in (mkRequestHandler (rh_a h) (Some b) (rh_insTimeout h), p, e)
  end.

Record FileDownloadHandler := mkFileDownloadHandler { fh_a : Artifact; fh_body : Body }.
Definition FileDownloadHandler_Read (k : nat) (h : FileDownloadHandler) : FileDownloadHandler * string * option error :=
  let '(b, p, e) := body_Read k (fh_body h) in (mkFileDownloadHandler (fh_a h) b, p, e).

(** ** Digests while downloading *)

(** What was written to a hash is kept whole: [Sum] is the digest of all of it. *)
Record LocalDownloadHandler := mkLocalDownloadHandler {
  lh_a : Artifact;
  lh_size : Z;
  lh_sha1 : string;
  lh_sha256 : string;
  lh_body : Body;
}.
Definition NewLocalDownloadHandler (resp : HttpResponse) (a : Artifact) : LocalDownloadHandler :=
  mkLocalDownloadHandler a 0 "" "" (RespBody resp).

Definition LocalDownloadHandler_Read (k : nat) (h : LocalDownloadHandler) :
    LocalDownloadHandler * string * option error :=
  let '(b, p, e) := body_Read k (lh_body h) in
  (mkLocalDownloadHandler (lh_a h) (wrap_i64 (lh_size h + Z.of_nat (String.length p))) (lh_sha1 h +:+ p)
     (lh_sha256 h +:+ p) b, p, e).

Definition set_measures (size : Z) (s1 : Sha1Digest) (s256 : Sha256Digest) (a : Artifact) : Artifact :=
  let o := Meta a in
  set_Meta (mkMetadata (Type_ o) s1 s256 size (Name o) (Version o) (Vendor o) (Description o) (Author o)
    (AuthorEmail o) (Architecture o) (License o) (Copyright o) (SourcePackage o) (StoreRevision o) (AptSuite o)
    (ContentID o)) a.

(** Closing records what was read; the result is that of closing the body. *)
Definition LocalDownloadHandler_Close (close_err : option error) (h : LocalDownloadHandler) : Artifact * option error :=
  (set_measures (lh_size h) (sha1_Sum (lh_sha1 h)) (sha256_Sum (lh_sha256 h)) (lh_a h), close_err).

(** [io.Copy] from the handler: the sizes of the pieces are the network's choice. The copy, and the error if it is not
    the end of the body; [None] if the fuel runs out. *)
Fixpoint io_Copy (fuel : nat) (pieces : nat -> nat) (h : LocalDownloadHandler) (out : string) :
    option (LocalDownloadHandler * string * option error) :=
  match fuel with
  | O => None
  | S fuel =>
      let '(h, p, e) := LocalDownloadHandler_Read (pieces fuel) h in
      let out := out +:+ p in
      match e with
      | None => io_Copy fuel pieces h out
      | Some e => Some (h, out, if bool_decide (e = EOF) then None else Some e)
      end
  end.

(** ** Properties *)

Lemma length_drop_piece k s : 0 < k -> s <> "" -> String.length (str_drop k s) < String.length s.
Proof.
  intros Hk Hs. destruct k; [lia|]. destruct s as [|c s]; [done|]. cbn [str_drop String.length].
  pose proof (str_take_drop k s) as H. apply (f_equal String.length) in H. rewrite length_app_str in H. lia.
Qed.

(** The handler has seen some text: its size is that of a machine integer. *)
Definition seen (a : Artifact) (text : string) (b : Body) : LocalDownloadHandler :=
  mkLocalDownloadHandler a (wrap_i64 (Z.of_nat (String.length text))) text text b.

Lemma wrap_i64_add x y : wrap_i64 (wrap_i64 x + y) = wrap_i64 (x + y).
Proof.
  unfold wrap_i64. f_equal. replace ((x + 2 ^ 63) mod 2 ^ 64 - 2 ^ 63 + y + 2 ^ 63)%Z with ((x + 2 ^ 63) mod 2 ^ 64 + y)%Z by lia.
  rewrite Zplus_mod_idemp_l. f_equal. lia.
Qed.

Lemma read_seen k a text b : LocalDownloadHandler_Read k (seen a text b) =
  let '(b', p, e) := body_Read k b in (seen a (text +:+ p) b', p, e).
Proof.
  unfold LocalDownloadHandler_Read, seen. cbn [lh_body lh_size lh_sha1 lh_sha256 lh_a].
  destruct (body_Read k b) as [[b' p] e]. rewrite wrap_i64_add, length_app_str. by rewrite Nat2Z.inj_add.
Qed.

Lemma io_Copy_seen fuel pieces a text b out : (forall i, 0 < pieces i) -> String.length (body_data b) < fuel ->
  exists b', io_Copy fuel pieces (seen a text b) out =
    Some (seen a (text +:+ body_data b) b', out +:+ body_data b,
          match body_err b with Some e => if bool_decide (e = EOF) then None else Some e | None => None end).
Proof.
  intros Hp. revert text b out. induction fuel as [|fuel IH]; intros text b out Hl; [lia|].
  cbn [io_Copy]. rewrite read_seen. unfold body_Read. destruct (body_data b) as [|c s] eqn:E.
  - exists b. cbn [fst snd]. rewrite !app_str_nil_r. by destruct (body_err b).
  - destruct (IH (text +:+ str_take (pieces fuel) (String c s)) (mkBody (str_drop (pieces fuel) (String c s)) (body_err b))
      (out +:+ str_take (pieces fuel) (String c s))) as [b' H].
    { cbn [body_data]. pose proof (length_drop_piece (pieces fuel) (String c s) (Hp fuel) ltac:(done)). lia. }
    exists b'. cbn [body_data body_err] in H. rewrite !app_str_assoc, !str_take_drop in H. exact H.
Qed.

End Bodies.

(** ** Witness *)

Section Witnesses.
#[local] Existing Instance text_mime.
#[local] Instance text_hashes : Hashes := {| sha1_Sum := fun s => s; sha256_Sum := fun s => s |}.

Definition demo_body : HttpResponse := mkHttpResponse 200 "200 OK" ∅ (mkBody "hello" None).

End Witnesses.
