(* ===== verification/Pipeline.v ===== *)
(** * An exchange through the proxy

    [NewHTTPProxy] of [proxy/proxy.go] and [ProxyBasic] of [proxy/auth/basic.go]: which handlers the proxy installs in
    the proxy library, what they share through its context, and what a whole exchange comes to, from the
    client's request to the answer it gets, for plain requests and for requests in a tunnel. The library, the
    transport and the network are parameters; what the library's documentation says about the order in which it
    calls the handlers is the record [ProxyDoc]. *)
From stdpp Require Import base gmap strings list option fin_maps.
From Stdlib Require Import ZArith Lia Ascii.
From S2P Require Import Prelude GoStrings GoCodec Platform HttpUtil Json Net Digests Artifact Report Config Acl.
From S2P Require Import Secrets SecLog Inspectors Session Messages Service ServiceProps Archives Dispatcher Proxy.

(** [ctx.UserData]: nothing, the session ID of an authenticated tunnel, or [proxyData] with the address of
    the artifact. *)
Inductive UserData : Type := NoData | SessionData (id : string) | ProxyData (pa : nat).

(** What a handler for CONNECT requests decides. *)
Inductive ConnectAction : Type := MitmConnect | RejectConnect.

Section Pipeline.
Context `{ML : MimeLib} `{GL : GlobLib} `{OS : Os} `{VT : VersionText} `{Y : !YamlLib}
  `{FT : FloatText} `{CU : !CertUpdate} `{GP : GoProxy} `{HA : Hashes} `{UN : UrlNormalizer} `{UP : UrlParse} {IS : Type}.
Variable C : Constructors (IS := IS).
Variable st0 : IS.
Notation World := (World (IS := IS)).

(** The service, what it put out, and the requests handed to the transport. *)
Record XState := mkX { x_w : World; x_out : list Output; x_sent : list HttpRequest }.

Record ProxyCtx := mkCtx {
  ctx_UserData : UserData;
  ctx_RoundTripper : option (HttpRequest -> XState -> XState * result HttpResponse);
}.
Definition set_UserData (u : UserData) (ctx : ProxyCtx) : ProxyCtx := mkCtx u (ctx_RoundTripper ctx).

(** A response comes with its request; [None] is a nil response. *)
Definition ReqHandler : Type := HttpRequest -> ProxyCtx -> XState -> HttpRequest * option HttpResponse * ProxyCtx * XState.
Definition RespHandler : Type :=
  option (HttpRequest * HttpResponse) -> ProxyCtx -> XState -> XState * result (option (HttpRequest * HttpResponse)).
Definition HttpsHandler : Type := HttpRequest -> ProxyCtx -> XState -> option ConnectAction * ProxyCtx * XState.

Record ProxyHttpServer := mkProxyHttpServer {
  reqHandlers : list ReqHandler;
  respHandlers : list RespHandler;
  httpsHandlers : list HttpsHandler;
}.
Definition NewProxyHttpServer : ProxyHttpServer := mkProxyHttpServer [] [] [].
Definition OnRequest_Do (h : ReqHandler) (p : ProxyHttpServer) : ProxyHttpServer :=
  mkProxyHttpServer (reqHandlers p ++ [h]) (respHandlers p) (httpsHandlers p).
Definition OnResponse_Do (h : RespHandler) (p : ProxyHttpServer) : ProxyHttpServer :=
  mkProxyHttpServer (reqHandlers p) (respHandlers p ++ [h]) (httpsHandlers p).
Definition OnRequest_HandleConnect (h : HttpsHandler) (p : ProxyHttpServer) : ProxyHttpServer :=
  mkProxyHttpServer (reqHandlers p) (respHandlers p) (httpsHandlers p ++ [h]).

(** ** The handlers *)

(** The authentication function, as [basicAuth] below. *)
Definition AuthFunc : Type := HttpRequest -> string -> string -> World * list Output -> HttpRequest * bool * (World * list Output).

(** Whether the context has user data, and the session ID in it. *)
Definition has_data (u : UserData) : option string :=
  match u with NoData => None | SessionData id => Some id | ProxyData _ => Some "" end.

Definition Basic_handler (realm : string) (f : AuthFunc) : ReqHandler := fun req ctx s =>
  let '(resp, req, (w, outs)) := Basic f realm (has_data (ctx_UserData ctx)) req (x_w s, x_out s) in
  (req, resp, ctx, mkX w outs (x_sent s)).

Definition BasicConnect_handler (realm : string) (f : AuthFunc) : HttpsHandler := fun req ctx s =>
  match ctx_UserData ctx with
  | NoData =>
      let '(resp, u, (w, outs)) := BasicConnect f realm None req (x_w s, x_out s) in
      let ctx := match u with Some id => set_UserData (SessionData id) ctx | None => ctx end in
      (match resp with Some _ => Some RejectConnect | None => None end, ctx, mkX w outs (x_sent s))
  | _ => (None, ctx, s)
  end.

Definition ProxyBasic (p : ProxyHttpServer) (realm : string) (f : AuthFunc) : ProxyHttpServer :=
  OnRequest_HandleConnect (BasicConnect_handler realm f) (OnRequest_Do (Basic_handler realm f) p).

(** What the world outside decides about one exchange: the environment variables, the transport, the numbers of
    the new channels and of the new artifact, and the draws of the service for its messages. The transport gets
    the upstream proxy, the name of the TLS server and the request. *)
Record Env := mkEnv {
  e_getenv : string -> string;
  e_transport : result (option URL) -> string -> HttpRequest -> result (IP * HttpResponse);
  e_rch : nat;
  e_pa : nat;
  e_auth : Draws;
  e_request : Draws;
  e_response : Draws;
  e_download : DownloadEnv;
}.

Section Exchange.
Variable spool : string.
Variable e : Env.

(** The round tripper that [processRoundTrip] leaves in the context: the request is sent first, then the address it
    went to is checked. *)
Definition server_name (req : HttpRequest) : string :=
  match SplitHostPort (Host (ReqURL req)) with Ok (host, _) => host | Err _ => Host (ReqURL req) end.
Definition detailed_round_trip (name : string) (r : HttpRequest) : result (IP * HttpResponse) :=
  e_transport e (proxyFromEnvironment (e_getenv e) (ReqURL r)) name r.
Definition round_tripper (name : string) (r : HttpRequest) (s : XState) : XState * result HttpResponse :=
  (mkX (x_w s) (x_out s) (x_sent s ++ [r]),
   round_trip (GetHTTPProxyConfig (w_cfg (x_w s))) (detailed_round_trip name r)).

Definition RoundTrip_handler : ReqHandler := fun req ctx s =>
  (req, None, mkCtx (ctx_UserData ctx) (Some (round_tripper (server_name req))), s).

(** A context that has the data of a tunnel gives the session; the artifact replaces it. *)
Definition Request_handler : ReqHandler := fun req ctx s =>
  let user_data := match ctx_UserData ctx with SessionData id => Some id | _ => None end in
  match processRequest C st0 user_data req (S (e_rch e)) (e_pa e) (e_request e) (x_w s) with
  | (w, Refused resp) => (req, Some resp, ctx, mkX w (x_out s) (x_sent s))
  | (w, SendTo out) => (out, None, set_UserData (ProxyData (e_pa e)) ctx, mkX w (x_out s) (x_sent s))
  end.

(** The type assertion on the user data of a response with status 200. *)
Definition no_proxy_data : error := ESentinel "interface conversion: interface {} is not proxy.proxyData".

Definition Response_handler : RespHandler := fun r ctx s =>
  match r with
  | None => (s, Ok None)
  | Some (req, resp) =>
      if negb (StatusCode resp =? StatusOK)%Z then (s, Ok (Some (req, resp)))
      else match ctx_UserData ctx with
           | ProxyData pa =>
               let '(w, resp) := processResponse C st0 req resp spool (e_download e) (S (S (S (e_rch e)))) pa
                                   (e_response e) (x_w s) in
               (mkX w (x_out s) (x_sent s), Ok (Some (req, resp)))
           | _ => (s, Err no_proxy_data)
           end
  end.

Definition AlwaysMitm : HttpsHandler := fun _ ctx s => (Some MitmConnect, ctx, s).

(** The handlers that [NewHTTPProxy] installs, in its order. *)
Definition proxy_server : ProxyHttpServer :=
  let proxy := NewProxyHttpServer in
  let proxy := ProxyBasic proxy authRealm (basicAuth C st0 (e_rch e) (e_auth e)) in
  let proxy := OnRequest_Do RoundTrip_handler proxy in
  let proxy := OnRequest_Do Request_handler proxy in
  let proxy := OnResponse_Do Response_handler proxy in
  OnRequest_HandleConnect AlwaysMitm proxy.
End Exchange.

(** ** What the library does with them *)

(** The handlers of a request, until one answers it. *)
Fixpoint filterRequest (hs : list ReqHandler) (req : HttpRequest) (ctx : ProxyCtx) (s : XState) :
    HttpRequest * option HttpResponse * ProxyCtx * XState :=
  match hs with
  | [] => (req, None, ctx, s)
  | h :: hs' =>
      match h req ctx s with
      | (req, Some resp, ctx, s) => (req, Some resp, ctx, s)
      | (req, None, ctx, s) => filterRequest hs' req ctx s
      end
  end.

(** The handlers of a response, each with the response of the one before. *)
Fixpoint filterResponse (hs : list RespHandler) (r : option (HttpRequest * HttpResponse)) (ctx : ProxyCtx) (s : XState) :
    XState * result (option (HttpRequest * HttpResponse)) :=
  match hs with
  | [] => (s, Ok r)
  | h :: hs' => match h r ctx s with
                | (s, Ok r) => filterResponse hs' r ctx s
                | (s, Err e) => (s, Err e)
                end
  end.

(** The handlers of a CONNECT request, until one decides. *)
Fixpoint filterConnect (hs : list HttpsHandler) (req : HttpRequest) (ctx : ProxyCtx) (s : XState) :
    option ConnectAction * ProxyCtx * XState :=
  match hs with
  | [] => (None, ctx, s)
  | h :: hs' =>
      match h req ctx s with
      | (Some a, ctx, s) => (Some a, ctx, s)
      | (None, ctx, s) => filterConnect hs' req ctx s
      end
  end.

(** A request as the library serves it: the response to the client, [None] being an error page of the library. *)
Definition Serve : Type := ProxyHttpServer -> UserData -> HttpRequest -> XState -> XState * result (option HttpResponse).
(** A CONNECT request: the user data for the requests in its tunnel, [None] if it is refused. *)
Definition Connect : Type := ProxyHttpServer -> HttpRequest -> XState -> XState * option UserData.

Definition answer_of (r : XState * result (option (HttpRequest * HttpResponse))) : XState * result (option HttpResponse) :=
  (r.1, match r.2 with Ok o => Ok (snd <$> o) | Err e => Err e end).

(** The documentation of the library: handlers are called in the order of their registration; a handler that returns
    a response has answered the request, which is not sent; else the round tripper of the context sends it. The
    response, nil after an error, passes through the handlers of responses either way. A tunnel that is taken
    over by the proxy serves each request in it with the user data of its CONNECT request. *)
Record ProxyDoc (serve : Serve) (connect : Connect) : Prop := {
  doc_answered : forall p u req s req' resp ctx s1,
    filterRequest (reqHandlers p) req (mkCtx u None) s = (req', Some resp, ctx, s1) ->
    serve p u req s = answer_of (filterResponse (respHandlers p) (Some (req', resp)) ctx s1);
  doc_sent : forall p u req s req' ctx s1 rt s2 r,
    filterRequest (reqHandlers p) req (mkCtx u None) s = (req', None, ctx, s1) ->
    ctx_RoundTripper ctx = Some rt -> rt req' s1 = (s2, r) ->
    serve p u req s = answer_of (filterResponse (respHandlers p)
      (match r with Ok resp => Some (req', resp) | Err _ => None end) ctx s2);
  doc_tunnel : forall p req s ctx s1,
    filterConnect (httpsHandlers p) req (mkCtx NoData None) s = (Some MitmConnect, ctx, s1) ->
    connect p req s = (s1, Some (ctx_UserData ctx));
  doc_refused : forall p req s ctx s1,
    filterConnect (httpsHandlers p) req (mkCtx NoData None) s = (Some RejectConnect, ctx, s1) ->
    connect p req s = (s1, None);
}.

Variable serve : Serve.
Variable connect : Connect.
Hypothesis doc : ProxyDoc serve connect.

(** ** Lemmas *)

(** The request has the ID and the token of an active session whose token was not revoked. *)
Definition credentials (w : World) (req : HttpRequest) (id : string) : Prop :=
  exists o pw cred, active (w_sess w) id = Some o /\ IsRevoked o = false /\ Token o = pw /\
    Header_Get (ReqHeader req) proxyAuthorizationHeader = "Basic " +:+ cred /\
    b64_decode cred = Ok (id +:+ ":" +:+ pw).

(** A tunnel is opened only with credentials, and its requests are then those of the session. Nothing is sent,
    and the service is left as it was. *)
Lemma tunnel_authentic spool e req s s' u :
  connect (proxy_server spool e) req s = (s', Some u) ->
  exists id, u = SessionData id /\ credentials (x_w s) req id /\ x_w s' = x_w s /\ x_sent s' = x_sent s.
Proof.
  intros H.
  destruct (BasicConnect (basicAuth C st0 (e_rch e) (e_auth e)) authRealm None req (x_w s, x_out s))
    as [[resp v] [w outs]] eqn:EB.
  assert (HF : filterConnect (httpsHandlers (proxy_server spool e)) req (mkCtx NoData None) s =
    (match resp with Some _ => Some RejectConnect | None => Some MitmConnect end,
     match v with Some id => mkCtx (SessionData id) None | None => mkCtx NoData None end, mkX w outs (x_sent s))).
  { cbn [filterConnect httpsHandlers proxy_server OnRequest_HandleConnect OnResponse_Do OnRequest_Do ProxyBasic
      NewProxyHttpServer app]. unfold BasicConnect_handler. cbn [ctx_UserData]. rewrite EB. by destruct resp, v. }
  destruct resp as [resp|]; [by rewrite (doc_refused _ _ doc _ _ _ _ _ HF) in H|].
  rewrite (doc_tunnel _ _ doc _ _ _ _ _ HF) in H. injection H as <- <-.
  unfold BasicConnect in EB. destruct (auth _ _ _) as [[[req1 v1] []] w1] eqn:EA; [|done]. injection EB as -> ->.
  assert (EB : Basic (basicAuth C st0 (e_rch e) (e_auth e)) authRealm None req (x_w s, x_out s) = (None, req1, (w, outs)))
    by (unfold Basic; by rewrite EA).
  pose proof (auth_header (basicAuth C st0 (e_rch e) (e_auth e)) req (x_w s, x_out s)) as HAu. rewrite EA in HAu.
  destruct (HAu eq_refl) as (user & pw & cred & -> & Hh & Hb & _ & Hf). exists user. split; [done|].
  destruct (Basic_accepts _ _ _ _ _ _ _ _ _ _ EB) as (o & user' & pw' & cred' & Ho & Hr & Ht & Hh' & Hb' & -> & Hreq).
  assert (user' = user) as ->.
  { unfold basicAuth in Hf. destruct (handleMessages _ _ _ _ _) as [w2 outs2]. injection Hf as <- _ _ _.
    apply (f_equal (fun q => Header_Get (ReqHeader q) sessionIDHeader)) in Hreq.
    by rewrite !set_header_id in Hreq. }
  split; [|done]. by exists o, pw', cred'.
Qed.

(** A client of the proxy sends requests by themselves, or in a tunnel that the proxy has opened before. *)
Definition opened (spool : string) (u : UserData) (P : World -> HttpRequest -> Prop) : Prop :=
  exists e0 req0 s0 s1, connect (proxy_server spool e0) req0 s0 = (s1, Some u) /\ P (x_w s0) req0.
Definition client (spool : string) (u : UserData) : Prop := u = NoData \/ opened spool u (fun _ _ => True).

(** The request is made in the name of [id]: by its credentials, or in a tunnel opened with the credentials of [id]. *)
Definition made_by (spool : string) (w : World) (u : UserData) (req : HttpRequest) (id : string) : Prop :=
  match u with
  | NoData => credentials w req id
  | SessionData sid => id = sid /\ opened spool u (fun w0 req0 => credentials w0 req0 id)
  | ProxyData _ => False
  end.

Definition kept_headers (k : string) : Prop :=
  ~ In k [sessionIDHeader; "Authorization"; "Content-Encoding"; "Content-Length"].

(** The request a plain client is served for: its credentials for the proxy are taken out. *)
Definition without_credentials (u : UserData) (req : HttpRequest) : HttpRequest :=
  match u with
  | NoData => set_ReqHeader (Header_Del (ReqHeader req) proxyAuthorizationHeader) req
  | _ => req
  end.

(** Two requests are for the same thing: they differ in session, injected secret, and the length and encoding of
    the body. *)
Definition same_target (q q' : HttpRequest) : Prop :=
  Method q' = Method q /\ ReqURL q' = ReqURL q /\
  forall k, kept_headers k -> ReqHeader q' !! k = ReqHeader q !! k.

#[local] Instance same_target_trans : Transitive same_target.
Proof. intros a b c (M1 & U1 & H1) (M2 & U2 & H2). split_and!; try congruence. intros k Hk. by rewrite H2, H1. Qed.

Lemma set_header_target k v q : ~ kept_headers k -> same_target q (set_header k v q).
Proof.
  intros Hk. split_and!; try done. intros k' Hk'. simpl. unfold Header_Set. rewrite lookup_insert_ne; [done|].
  by intros ->.
Qed.

Lemma injectSecret_target x q q' : injectSecret x q = Ok q' -> same_target q q' /\
  Header_Get (ReqHeader q') sessionIDHeader = Header_Get (ReqHeader q) sessionIDHeader.
Proof.
  assert (Hn : forall k v, ~ kept_headers k -> k <> sessionIDHeader -> same_target q (set_header k v q) /\
    Header_Get (ReqHeader (set_header k v q)) sessionIDHeader = Header_Get (ReqHeader q) sessionIDHeader).
  { intros k v Hk Hs. split; [by apply set_header_target|]. simpl. rewrite Header_Get_Set. by rewrite decide_False by congruence. }
  assert (Ha : ~ kept_headers "Authorization") by (intros H; apply H; simpl; tauto).
  assert (Hc : ~ kept_headers "Content-Length") by (intros H; apply H; simpl; tauto).
  unfold injectSecret. destruct (String.eqb _ BasicAuthType); [intros [= <-]; by apply Hn|].
  destruct (String.eqb _ MacaroonType); [intros [= <-]; by apply Hn|].
  destruct (String.eqb _ KeystoneV3Type); [|by intros [= <-]].
  destruct (injectKeystoneV3Secret x q) as [[b|]|]; [|by intros [= <-]|done]. intros [= <-].
  exact (Hn _ (Itoa (Z.of_nat (String.length b))) Hc ltac:(done)).
Qed.

Lemma InjectSecrets_target l url q b q' : InjectSecrets l url q = Ok (b, q') -> same_target q q' /\
  Header_Get (ReqHeader q') sessionIDHeader = Header_Get (ReqHeader q) sessionIDHeader.
Proof.
  induction l as [|x l IH]; cbn [InjectSecrets]; [by intros [= _ <-]|].
  destruct (Glob_Match _ _) as [[]|]; [|exact IH|done].
  destruct (injectSecret x q) as [q1|] eqn:E; [|done]. intros [= _ <-]. by apply (injectSecret_target x).
Qed.

Lemma head_target q q' : head_of q' = head_of q -> same_target q q' /\
  Header_Get (ReqHeader q') sessionIDHeader = Header_Get (ReqHeader q) sessionIDHeader.
Proof.
  unfold head_of. intros [= HM HU HH].
  assert (Hk : forall k, k <> "Content-Encoding" -> ReqHeader q' !! k = ReqHeader q !! k).
  { intros k Hne. apply (f_equal (lookup k)) in HH. unfold Header_Del in HH. by rewrite !lookup_delete_ne in HH by done. }
  split; [split_and!; try done|].
  - intros k Hk'. apply Hk. intros ->. apply Hk'. simpl. tauto.
  - unfold Header_Get. by rewrite Hk.
Qed.

(** What [processRequest] sends is the request it got, for the session it ran in. *)
Lemma processRequest_target u req a' a l url inj out :
  let req1 := match u with Some sid => set_header sessionIDHeader sid req | None => req end in
  request_head a' = request_head a -> Artifact.Request a = Some req1 ->
  InjectSecrets l url (default req1 (Artifact.Request a')) = Ok (inj, out) ->
  same_target req out /\ Header_Get (ReqHeader out) sessionIDHeader = Header_Get (ReqHeader req1) sessionIDHeader.
Proof.
  intros req1 Hh Ha HI. unfold request_head in Hh. rewrite Ha in Hh. destruct (Artifact.Request a') as [q|]; [|done].
  injection Hh as Hh. apply InjectSecrets_target in HI as [HI1 HI2]. simpl in HI1, HI2.
  destruct (head_target req1 q) as [H1 H2]; [by unfold head_of; congruence|].
  split; [|by rewrite HI2]. transitivity q; [|done]. transitivity req1; [|done].
  unfold req1. destruct u; [|by split_and!]. apply set_header_target. intros Hn. apply Hn. simpl. tauto.
Qed.

Section Exchange.
Context `{GPL : !GoProxyLaws}.
Variable spool : string.
Variable e : Env.

(** What became of a request that was sent. *)
Definition received (req r : HttpRequest) (w1 : World) (s' : XState) (out : result (option HttpResponse)) (w : World) : Prop :=
  match detailed_round_trip e (server_name req) r with
  | Err _ => x_w s' = w1 /\ out = Ok None
  | Ok (ip, resp) =>
      if Allowed (GetHTTPProxyConfig (w_cfg w)) ip then
        if (StatusCode resp =? StatusOK)%Z then
          exists resp', out = Ok (Some resp') /\
            processResponse C st0 r resp spool (e_download e) (S (S (S (e_rch e)))) (e_pa e) (e_response e) w1 =
              (x_w s', resp')
        else x_w s' = w1 /\ out = Ok (Some resp)
      else x_w s' = w1 /\ out = Ok (Some (httpResponse StatusForbidden "Access denied"))
  end.

Lemma respond_other r ctx s resp : StatusCode resp <> StatusOK ->
  answer_of (filterResponse (respHandlers (proxy_server spool e)) (Some (r, resp)) ctx s) = (s, Ok (Some resp)).
Proof. intros H. apply Z.eqb_neq in H. simpl. unfold Response_handler. by rewrite H. Qed.

(** The part of an exchange after authentication. *)
Lemma exchange_tail (u : UserData) req s0 req0 s s' out :
  world_ok (x_w s) ->
  filterRequest (reqHandlers (proxy_server spool e)) req0 (mkCtx u None) s0 =
    filterRequest [RoundTrip_handler e; Request_handler e] req (mkCtx u None) s ->
  serve (proxy_server spool e) u req0 s0 = (s', out) ->
  let user_data := match u with SessionData id => Some id | _ => None end in
  let req1 := match user_data with Some sid => set_header sessionIDHeader sid req | None => req end in
  let a := request_artifact req1 (ReqHeader req) (d_now (e_request e)) in
  (x_sent s' = x_sent s /\ exists resp, out = Ok (Some resp) /\ In (StatusCode resp) [403; 407; 413; 500]%Z) \/
  exists r p o st a',
    sessions (w_sess (x_w s)) !! SessionID a = Some p /\ objs (w_sess (x_w s)) !! p = Some o /\
    runRequestInspection o (ins_state o) a = (st, a', None) /\ SessionID a' = SessionID a /\
    (Permissive o = false -> RequestPending a' = true) /\
    same_target req r /\ Header_Get (ReqHeader r) sessionIDHeader = SessionID a /\
    x_sent s' = x_sent s ++ [r] /\
    received req r (set_art (e_pa e) a' (set_session p (set_ins_state st o) (set_art (e_pa e) a (x_w s)))) s' out (x_w s).
Proof.
  intros Hok Hfilter Hserve user_data req1 a. cbn [filterRequest RoundTrip_handler] in Hfilter.
  unfold Request_handler in Hfilter. cbn [ctx_UserData] in Hfilter. fold user_data in Hfilter.
  destruct (processRequest C st0 user_data req (S (e_rch e)) (e_pa e) (e_request e) (x_w s)) as [w1 v] eqn:EP.
  pose proof (processRequest_cases _ _ _ _ _ _ _ _ _ _ Hok EP) as HC. cbv zeta in HC.
  fold req1 in HC. fold a in HC. destruct v as [resp|r].
  - left. rewrite (doc_answered _ _ doc _ _ _ _ _ _ _ _ Hfilter), respond_other in Hserve.
    + injection Hserve as <- <-. split; [done|]. exists resp. split; [done|]. simpl in HC |- *. tauto.
    + simpl in HC. intros H. destruct HC as [HC|[HC|[HC|[]]]]; rewrite H in HC; discriminate HC.
  - right. destruct HC as (p & o & st & a' & inj & Hp & Ho & HR & -> & Hc & Hs & Hh & Hpend & HI).
    destruct (processRequest_target user_data req a' a _ _ inj r Hh eq_refl HI) as [Ht Hsid].
    exists r, p, o, st, a'. do 7 (split; [done|]).
    rewrite (doc_sent _ _ doc _ _ _ _ _ _ _ _ _ _ Hfilter eq_refl eq_refl) in Hserve. cbn [x_w x_out x_sent] in Hserve.
    unfold received, round_trip in *. cbn [w_cfg set_art set_session set_w_arts set_w_sess] in Hserve.
    destruct (detailed_round_trip e (server_name req) r) as [[ip resp]|err].
    2: { injection Hserve as <- <-. done. }
    destruct (Allowed _ ip).
    2: { rewrite respond_other in Hserve by done. by injection Hserve as <- <-. }
    destruct (StatusCode resp =? StatusOK)%Z eqn:E200.
    + cbn [filterResponse respHandlers proxy_server OnRequest_HandleConnect OnResponse_Do OnRequest_Do ProxyBasic
        NewProxyHttpServer app] in Hserve. unfold Response_handler in Hserve. rewrite E200 in Hserve.
      cbn [negb ctx_UserData set_UserData x_w] in Hserve. destruct (processResponse _ _ _ _ _ _ _ _ _ _) as [w2 resp'].
      injection Hserve as <- <-. split; [done|]. by exists resp'.
    + rewrite respond_other in Hserve by (by apply Z.eqb_neq). by injection Hserve as <- <-.
Qed.

Lemma server_filter u req s :
  filterRequest (reqHandlers (proxy_server spool e)) req (mkCtx u None) s =
  let '(resp, req, (w, outs)) := Basic (basicAuth C st0 (e_rch e) (e_auth e)) authRealm (has_data u) req (x_w s, x_out s) in
  match resp with
  | Some resp => (req, Some resp, mkCtx u None, mkX w outs (x_sent s))
  | None => filterRequest [RoundTrip_handler e; Request_handler e] req (mkCtx u None) (mkX w outs (x_sent s))
  end.
Proof.
  cbn [filterRequest reqHandlers proxy_server OnRequest_HandleConnect OnResponse_Do OnRequest_Do ProxyBasic
    NewProxyHttpServer app]. unfold Basic_handler. cbn [ctx_UserData].
  by destruct (Basic _ _ _ _ _) as [[[resp|] req1] [w outs]].
Qed.

(** The outcomes of an exchange of a client that is not inside another one. *)
Lemma exchange_cases u req s s' out :
  world_ok (x_w s) -> client spool u -> serve (proxy_server spool e) u req s = (s', out) ->
  (x_sent s' = x_sent s /\ exists resp, out = Ok (Some resp) /\ In (StatusCode resp) [403; 407; 413; 500]%Z) \/
  exists r p o st a a',
    sessions (w_sess (x_w s)) !! SessionID a = Some p /\ objs (w_sess (x_w s)) !! p = Some o /\
    runRequestInspection o (ins_state o) a = (st, a', None) /\ SessionID a' = SessionID a /\
    (Permissive o = false -> RequestPending a' = true) /\
    dl_URL (CurrentDownload a) = NormalizedURL (ReqURL req) /\ made_by spool (x_w s) u req (SessionID a) /\
    same_target (without_credentials u req) r /\ Header_Get (ReqHeader r) sessionIDHeader = SessionID a /\
    x_sent s' = x_sent s ++ [r] /\
    received req r (set_art (e_pa e) a' (set_session p (set_ins_state st o) (set_art (e_pa e) a (x_w s)))) s' out (x_w s).
Proof.
  intros Hok Hu Hserve.
  assert (Ht : u = NoData \/ exists id, u = SessionData id /\ opened spool u (fun w0 req0 => credentials w0 req0 id)).
  { destruct Hu as [Hu|(e0 & req0 & s0 & s1 & Hc & _)]; [by left|right].
    destruct (tunnel_authentic _ _ _ _ _ _ Hc) as (id & -> & Hcred & _). exists id. split; [done|]. by exists e0, req0, s0, s1. }
  destruct Ht as [-> |(id & -> & Hopened)].
  - destruct (Basic (basicAuth C st0 (e_rch e) (e_auth e)) authRealm None req (x_w s, x_out s))
      as [[[resp|] req1] [w1 outs]] eqn:EB.
    + left. assert (Hr : resp = BasicUnauthorized authRealm).
      { revert EB. unfold Basic. destruct (auth _ _ _) as [[[? ?] []] ?]; [done|]. by intros [= <- _ _]. }
      pose proof (server_filter NoData req s) as HF. cbn [has_data] in HF. rewrite EB in HF.
      rewrite (doc_answered _ _ doc _ _ _ _ _ _ _ _ HF), respond_other in Hserve by (by rewrite Hr).
      injection Hserve as <- <-. split; [done|]. exists resp. split; [done|]. rewrite Hr. simpl. tauto.
    + destruct (Basic_accepts _ _ _ _ _ _ _ _ _ _ EB) as (o0 & user & pw & cred & Ho0 & Hrev & Htok & Hh & Hb & -> & ->).
      destruct (exchange_tail NoData (set_header sessionIDHeader user (without_credentials NoData req)) s req
        (mkX (x_w s) outs (x_sent s)) s' out Hok) as [H|(r & p & o & st & a' & H)]; [|done|by left|].
      { rewrite server_filter. cbn [has_data]. by rewrite EB. }
      right. destruct H as (Hp & Ho & HR & Hs & Hpend & Ht & Hid & Hsent & Hrec). eexists r, p, o, st, _, a'.
      split; [exact Hp|]. split; [exact Ho|]. split; [exact HR|]. split; [exact Hs|]. split; [exact Hpend|].
      split; [done|]. split.
      { cbn [made_by]. change (SessionID (request_artifact _ _ _)) with
          (Header_Get (ReqHeader (set_header sessionIDHeader user (without_credentials NoData req))) sessionIDHeader).
        rewrite set_header_id. by exists o0, pw, cred. }
      split; [|split; [exact Hid|]; split; [exact Hsent|exact Hrec]].
      etransitivity; [|exact Ht]. apply set_header_target. intros Hn. apply Hn. simpl. tauto.
  - destruct (exchange_tail (SessionData id) req s req s s' out Hok) as [H|(r & p & o & st & a' & H)]; [|done|by left|].
    { rewrite server_filter. by destruct s. }
    right. destruct H as (Hp & Ho & HR & Hs & Hpend & Ht & Hid & Hsent & Hrec). eexists r, p, o, st, _, a'.
    split; [exact Hp|]. split; [exact Ho|]. split; [exact HR|]. split; [exact Hs|]. split; [exact Hpend|].
    split; [done|]. split; [|by split_and!].
    cbn [made_by]. match goal with |- ?x = _ /\ _ => replace x with id by (symmetry; apply set_header_id) end.
    by split.
Qed.

Lemma processResponse_code req resp env rch pa d (w w' : World) resp' : StatusCode resp = StatusOK ->
  processResponse C st0 req resp spool env rch pa d w = (w', resp') -> In (StatusCode resp') [200; 403; 500]%Z.
Proof.
  intros H200. unfold processResponse. rewrite H200. cbn [negb Z.eqb StatusOK Pos.eqb].
  destruct (w_arts w !! pa); [|intros [= _ <-]; rewrite H200; simpl; tauto].
  destruct (NewFileDownloadHandler _ _ _ _ _ _ _ _ _) as [w1 [b|err]].
  - intros [= _ <-]. simpl. rewrite H200. tauto.
  - destruct (decide _); intros [= _ <-]; rewrite NewResponse_code; simpl; tauto.
Qed.

Lemma world_ok_inspected (w : World) pa a a' p o st : world_ok w -> objs (w_sess w) !! p = Some o ->
  world_ok (set_art pa a' (set_session p (set_ins_state st o) (set_art pa a w))).
Proof.
  intros [Hwf Hok] Ho. split; [by eapply set_obj_wf|]. intros q o'. simpl. rewrite lookup_insert. case_decide.
  - intros [= <-]. by destruct (Hok _ _ Ho).
  - apply Hok.
Qed.


End Exchange.

End Pipeline.

(** ** The documented library, and examples *)

Section Documented.
Context `{ML : MimeLib} `{GL : GlobLib} `{OS : Os} {IS : Type}.

(** A library that does what the documentation says. *)
Definition doc_serve : Serve (IS := IS) := fun p u req s =>
  match filterRequest (reqHandlers p) req (mkCtx u None) s with
  | (req, Some resp, ctx, s) => answer_of (filterResponse (respHandlers p) (Some (req, resp)) ctx s)
  | (req, None, ctx, s) =>
      match ctx_RoundTripper ctx with
      | Some rt =>
          let '(s, r) := rt req s in
          answer_of (filterResponse (respHandlers p) (match r with Ok resp => Some (req, resp) | Err _ => None end) ctx s)
      | None => (s, Ok None)
      end
  end.
Definition doc_connect : Connect (IS := IS) := fun p req s =>
  match filterConnect (httpsHandlers p) req (mkCtx NoData None) s with
  | (Some MitmConnect, ctx, s) => (s, Some (ctx_UserData ctx))
  | (_, _, s) => (s, None)
  end.

Lemma doc_serve_doc : ProxyDoc doc_serve doc_connect.
Proof.
  split; intros *.
  - intros H. unfold doc_serve. by rewrite H.
  - intros H Hrt Hr. unfold doc_serve. by rewrite H, Hrt, Hr.
  - intros H. unfold doc_connect. by rewrite H.
  - intros H. unfold doc_connect. by rewrite H.
Qed.
End Documented.

Section Witnesses.
#[local] Existing Instance text_mime.
#[local] Existing Instance literal_glob.
#[local] Existing Instance mem_os.
#[local] Existing Instance demo_version.
#[local] Existing Instance sample_yaml.
#[local] Existing Instance same_text.
#[local] Existing Instance demo_cert.
#[local] Existing Instance demo_goproxy.
#[local] Existing Instance demo_goproxy_laws.
#[local] Existing Instance demo_hashes.
#[local] Existing Instance demo_normalizer.
#[local] Instance demo_url_parse : UrlParse := {| url_Parse := fun _ => Err (EText "invalid URL") |}.

Definition plain : HttpRequest :=
  get_request {["Proxy-Authorization" := [demo_credentials]; "X-Fetch-Session-Id" := ["other"]]}.
(** The server at 127.0.0.1 answers every request in the same way. *)
Definition demo_env (srv : HttpResponse) : Env :=
  mkEnv (fun _ => "") (fun _ _ _ => Ok ([127; 0; 0; 1]%Z, srv)) 1 7 demo_draws demo_draws demo_draws quick.
Definition demo_exchange (srv : HttpResponse) (u : UserData) (req : HttpRequest) (w : World (IS := unit)) :=
  doc_serve (proxy_server sample_constructors tt "/spool" (demo_env srv)) u req (mkX w [] []).

Lemma by_itself : client sample_constructors tt doc_connect "/spool" NoData.
Proof. by left. Qed.

Definition delivered := demo_exchange ok_response NoData plain demo_world.



(** An answer of the server with another status is not inspected: the content of a request for a range (206) reaches
    the client of a strict session, and the session knows nothing of it. *)
Definition partial_response : HttpResponse := mkHttpResponse 206 "206 Partial Content" ∅ (mkBody "malware" None).
Example partial_content_uninspected :
  let r := demo_exchange partial_response NoData plain demo_world in
  r.2 = Ok (Some partial_response) /\ Permissive <$> active (w_sess (x_w r.1)) "abc" = Some false /\
  (size ∘ A) <$> active (w_sess (x_w r.1)) "abc" = Some 0.
Proof. vm_compute. done. Qed.

(** The address is checked after the request was sent: the server of a denied address has got the request, with the
    secrets that were injected. *)
Definition deny_all : World (IS := unit) :=
  set_w_cfg (mkConfigState (mkACLConfig (mkHTTPProxyConfig Deny [])) (globalInspectorsConfig (w_cfg demo_world))) demo_world.
Example denied_after_sending :
  let r := demo_exchange ok_response NoData plain deny_all in
  r.2 = Ok (Some (httpResponse 403 "Access denied")) /\ length (x_sent r.1) = 1.
Proof. vm_compute. done. Qed.

(** A tunnel that is open when the token is revoked goes on as before. *)
Definition revoked_world : World (IS := unit) :=
  (handleMessages sample_constructors tt (mkMessage 1 (RevokeToken "abc" "tok")) demo_draws demo_world).1.
Definition demo_connect (w : World (IS := unit)) :=
  doc_connect (proxy_server sample_constructors tt "/spool" (demo_env ok_response)) plain (mkX w [] []).
Example tunnel_outlives_revocation :
  IsRevoked <$> active (w_sess revoked_world) "abc" = Some true /\
  (demo_connect demo_world).2 = Some (SessionData "abc") /\ (demo_connect revoked_world).2 = None /\
  let r := demo_exchange ok_response (SessionData "abc") (get_request ∅) revoked_world in
  length (x_sent r.1) = 1 /\ r.2 = Ok (Some (mkHttpResponse 200 "200 OK" ∅ (mkBody "data" None))).
Proof. vm_compute. done. Qed.
End Witnesses.
