(* ===== verification/Lifecycle.v ===== *)
(** * The life of the service

    [service/service.go] with [NewHTTPProxy], [Start] and [Stop] of [proxy/proxy.go] and [control/control.go]:
    how the service is made, started and stopped, and the loop of the dispatcher with its idle timer and the
    ways it ends, as a transition system on top of [Dispatcher]. The results of the network and of the goroutines
    of the servers, which the tomb library keeps, are arguments. *)
From stdpp Require Import base gmap strings list option fin_maps relations.
From Stdlib Require Import ZArith Lia Ascii.
From S2P Require Import Prelude GoStrings GoCodec Platform Json Net Digests Artifact.
From S2P Require Import Report Config Secrets SecLog Inspectors Session Messages Service.
From S2P Require Import ServiceProps Fetchctl Dispatcher Control Cert.

(** ** The servers *)

Definition listen_addr (port : Z) : string := ":" +:+ Itoa port.

(** [http.ErrServerClosed] *)
Definition ErrServerClosed : error := ESentinel "http: Server closed".

(** [HTTPProxy.Start]: listens, then serves in a goroutine, whose result is an error only if the proxy was
    still meant to run. *)
Definition HTTPProxy_Start (listen : string -> option error) (port : Z) : option error := listen (listen_addr port).
Definition HTTPProxy_goroutine (served : error) (alive : bool) : option error :=
  if negb (bool_decide (served = ErrServerClosed)) && alive then Some served else None.

(** [HTTPProxy.Stop]: the server is closed, then the goroutine's result awaited. *)
Definition HTTPProxy_Stop (close wait : option error) : option error :=
  match close with Some e => Some e | None => wait end.

(** [control.Server.Stop] *)
Definition Control_Stop (shutdown : option error) : option error :=
  match shutdown with Some e => Some (EText ("server shutdown error: " +:+ error_string e)) | None => None end.

(** [tcpKeepAliveListener.Accept] over a TCP connection: it is passed on only with the keep-alive of 3 minutes set;
    after an error it is dropped without being closed. *)
Definition KeepAlive_Accept {Conn : Type} (AcceptTCP : result Conn) (SetKeepAlive : Conn -> bool -> option error)
    (SetKeepAlivePeriod : Conn -> Duration -> option error) : result Conn :=
  tc ← AcceptTCP;
  match SetKeepAlive tc true with
  | Some e => Err e
  | None => match SetKeepAlivePeriod tc (180 * Second)%Z with Some e => Err e | None => Ok tc end
  end.

(** [NewHTTPProxy]: the authority that signs; the handlers it installs are in [Pipeline]. *)
Definition NewHTTPProxy `{X509} (cert key : string) : result ProxyCA := SetProxyCA <$> CreateProxyCA cert key.

(** ** Making, starting and stopping the service *)

Section Lifecycle.
Context `{ML : MimeLib} `{GL : GlobLib} `{OS : Os} `{VT : VersionText} `{Y : !YamlLib}
  `{FT : FloatText} `{X : X509} {IS : Type}.
Variable C : Constructors (IS := IS).
Variable st0 : IS.
Notation World := (World (IS := IS)).
Notation Sys := (Sys (IS := IS)).

(** [New]: the authority of the proxy and the control server with its credentials ([FETCH_SERVICE_AUTH]). *)
Definition Service_New (opt : Options) (creds : string) (fs : FS) : result (ProxyCA * Server) :=
  match LoadCertificate (CertPath opt) (KeyPath opt) fs with
  | Err e => Err (EText ("Cannot load certificates: " +:+ error_string e))
  | Ok (cert, key) =>
      ca ← NewHTTPProxy cert key;
      Ok (ca, NewServer (ControlPort opt) creds)
  end.

(** What runs. *)
Inductive Running : Type := ProxyServer | FetchctlServer | ControlServer | DispatcherLoop.
#[export] Instance Running_eq_dec : EqDecision Running.
Proof. solve_decision. Defined.

(** [Service.Start]: the configuration, then the servers one after the other; an error leaves what was started
    before running. *)
Definition Service_Start (snap snap_name tempdir : string) (listen : string -> option error)
    (listen_socket : FS -> FS * option error) (opt : Options) (cs : ConfigState) (fs : FS) :
    ConfigState * FS * list Running * option error :=
  match loadHTTPProxyRulesOrDefault snap snap_name (Config_ opt) fs cs with
  | (cs, Some e) => (cs, fs, [], Some (EText ("cannot load proxy rules: " +:+ error_string e)))
  | (cs, None) =>
      match loadDefaultInspectorsConfigCombine snap snap_name (Config_ opt) fs cs with
      | (cs, Some e) => (cs, fs, [], Some (EText ("cannot load inspectors configuration: " +:+ error_string e)))
      | (cs, None) =>
          match HTTPProxy_Start listen (ProxyPort opt) with
          | Some e => (cs, fs, [], Some e)
          | None =>
              match Fetchctl_Start listen_socket tempdir fs with
              | (fs, Some e) => (cs, fs, [ProxyServer], Some e)
              | (fs, None) => (cs, fs, [ProxyServer; FetchctlServer; ControlServer; DispatcherLoop], None)
              end
          end
      end
  end.

(** The results [Service.Stop] gets: of closing the proxy's server and of its goroutine, and of shutting down the
    control server. *)
Record StopResults := mkStopResults {
  sr_close : option error;
  sr_wait : option error;
  sr_shutdown : option error;
}.

(** [Service.Stop]; [None] if it blocks. [order] is the order in which sessions are finished. *)
Definition Service_Stop (order : list (nat * list Sha256Digest)) (tempdir : string) (r : StopResults) (w : World) :
    option (World * option error) :=
  '(ss, fs) ← FinishAll order (w_sess w) (w_fs w);
  let w := set_w_fs fs (set_w_sess ss w) in
  match HTTPProxy_Stop (sr_close r) (sr_wait r) with
  | Some e => Some (w, Some (EWrap "cannot shut down the HTTP server: " e ""))
  | None =>
      let '(fs, err) := Fetchctl_Stop tempdir (w_fs w) in
      let w := set_w_fs fs w in
      match err with
      | Some e => Some (w, Some (EWrap "cannot shut down the fetchctl socket: " e ""))
      | None =>
          match Control_Stop (sr_shutdown r) with
          | Some e => Some (w, Some (EWrap "cannot shut down the control API server: " e ""))
          | None => Some (w, None)
          end
      end
  end.

(** ** The dispatcher's loop *)

(** The idle timer at the start: it runs unless no idle time was given, and a negative time is over at once. *)
Definition idle_armed (opt : Options) : bool := negb (IdleShutdown opt =? 0)%Z.
(** [idleTimer.Reset] after a message or an expired session. *)
Definition idle_reset (s : Sys) (armed : bool) : bool := (0 <? IdleShutdown (w_opt (sys_w s)))%Z || armed.

Record Loop := mkLoop {
  lp_sys : Sys;
  lp_armed : bool;                          (** the idle timer runs *)
  lp_result : option (option error);        (** what the dispatcher has returned *)
}.

(** Clients, goroutines and timers run beside the loop, which takes one of its cases at a time. *)
Inductive loop_step : Loop -> Loop -> Prop :=
| lp_client s a r s' : client_step s s' -> loop_step (mkLoop s a r) (mkLoop s' a r)
| lp_goroutine s a r s' : goroutine_step s s' -> loop_step (mkLoop s a r) (mkLoop s' a r)
| lp_watch s a r s' : watch_step s s' -> loop_step (mkLoop s a r) (mkLoop s' a r)
| lp_message s a s' : receive_step C st0 s s' -> loop_step (mkLoop s a None) (mkLoop s' (idle_reset s a) None)
| lp_expired s a id s' : expiry_step id s s' ->
    loop_step (mkLoop s a None)
      (mkLoop s' (match GetSession (w_sess (sys_w s)) id with Some _ => idle_reset s a | None => a end) None)
| lp_idle s : loop_step (mkLoop s true None)
    (mkLoop s false (if NumSessions (w_sess (sys_w s)) <? 1 then Some None else None))
| lp_dying s a err : loop_step (mkLoop s a None) (mkLoop s a (Some err)).

(** A loop that has just begun. *)
Definition loop_begins (l : Loop) : Prop :=
  initial (lp_sys l) /\ lp_armed l = idle_armed (w_opt (sys_w (lp_sys l))) /\ lp_result l = None.

Definition loop_reachable (l : Loop) : Prop := exists l0, loop_begins l0 /\ rtc loop_step l0 l.

(** ** The options never change, and only the dispatcher changes the table of sessions *)

Lemma finish_session_opt p d (w : World) k : (forall w e, w_opt (k w e).1 = w_opt w) ->
  w_opt (finish_session p d w k).1 = w_opt w.
Proof. intros Hk. unfold finish_session. destruct (Finish _ _ _ _) as [[[ss fs] e]|]; [by rewrite Hk|done]. Qed.

Lemma handleFetchCtl_opt v d (w : World) : w_opt (handleFetchCtl C st0 v d w).1.1 = w_opt w.
Proof.
  unfold handleFetchCtl, fetchCtlUpdateConfig, fetchCtlUpdateCert, fetchCtlCreateSession.
  repeat (case_match; simplify_eq/=; try done).
Qed.

Lemma handleMessages_opt m d (w : World) : w_opt (handleMessages C st0 m d w).1 = w_opt w.
Proof.
  destruct m as [rch q]. unfold handleMessages. cbn [Rch Req].
  assert (Hart : forall pa k, (forall a, w_opt (k a).1 = w_opt w) -> w_opt (with_art pa w k).1 = w_opt w).
  { intros pa k Hk. unfold with_art. by destruct (w_arts w !! pa). }
  destruct q; try done.
  - apply Hart. intros a'. unfold handleRequestInspection. by case_match.
  - apply Hart. intros a'. unfold handleResponseInspection. repeat (case_match; simplify_eq/=; try done).
  - apply Hart. intros a'. unfold handleCompleteInspection. repeat (case_match; simplify_eq/=; try done).
  - unfold handleCreateSession. repeat (case_match; simplify_eq/=; try done).
  - unfold handleRevokeToken. repeat (case_match; simplify_eq/=; try done).
  - unfold handleSessionReport. repeat (case_match; simplify_eq/=; try done).
  - unfold handleEndSession. case_match; [by apply finish_session_opt|done].
  - unfold handleDeleteResources. by case_match.
  - by destruct (CheckAuth _ _ _ _ _ _).
  - pose proof (handleFetchCtl_opt v d w) as H. by destruct (handleFetchCtl _ _ _ _ _) as [[w' r] evs].
Qed.

(** What a step leaves alone when the dispatcher has no part in it. *)
Definition same_table (s s' : Sys) : Prop :=
  sessions (w_sess (sys_w s')) = sessions (w_sess (sys_w s)) /\ w_opt (sys_w s') = w_opt (sys_w s).

Lemma apply_outputs_w outs (s : Sys) : sys_w (apply_outputs s outs) = sys_w s.
Proof.
  revert s. induction outs as [|o outs IH]; intros s; [done|].
  change (apply_outputs s (o :: outs)) with (apply_outputs (apply_output s o) outs). rewrite IH. by destruct o.
Qed.

Lemma client_same s s' : client_step s s' -> same_table s s'.
Proof. by destruct 1. Qed.

Lemma run_task_same t ch (w : World) w' outs msgs : run_task t ch w = (w', outs, msgs) ->
  sessions (w_sess w') = sessions (w_sess w) /\ w_opt w' = w_opt w.
Proof.
  destruct t; simpl; [..|by intros; simplify_eq|]; intros; repeat (case_match; simplify_eq/=; try done).
Qed.

Lemma goroutine_same s s' : goroutine_step s s' -> same_table s s'.
Proof.
  destruct 1 as [s pre t post w outs msgs _ _ H|]; [|done]. unfold same_table. rewrite apply_outputs_w.
  by apply run_task_same in H.
Qed.

Lemma watch_same s s' : watch_step s s' -> same_table s s'.
Proof. by destruct 1. Qed.

Lemma handleExpired_opt id d (w : World) : w_opt (handleExpired id d w).1 = w_opt w /\
  (GetSession (w_sess w) id = None -> sessions (w_sess (handleExpired id d w).1) = sessions (w_sess w)).
Proof.
  unfold handleExpired. destruct (GetSession (w_sess w) id); [|done]. split; [by apply finish_session_opt|done].
Qed.

Lemma expiry_same id s s' : expiry_step id s s' -> w_opt (sys_w s') = w_opt (sys_w s) /\
  (GetSession (w_sess (sys_w s)) id = None -> same_table s s').
Proof.
  destruct 1 as [s rest d w outs _ _ H]. unfold same_table. rewrite apply_outputs_w. simpl.
  match type of H with handleExpired _ _ ?w0 = _ => pose proof (handleExpired_opt id d w0) as [Ho Hs] end.
  rewrite H in Ho, Hs. simpl in Ho, Hs. split; [done|]. intros Hn. by split; [apply Hs|].
Qed.

Lemma receive_opt s s' : receive_step C st0 s s' -> w_opt (sys_w s') = w_opt (sys_w s).
Proof.
  destruct 1 as [s pre m post d w outs _ _ _ H]. rewrite apply_outputs_w. simpl.
  pose proof (handleMessages_opt m d (sys_w s)) as Ho. by rewrite H in Ho.
Qed.

(** ** Properties *)

(** The timer runs whenever the service is idle, and only if it was asked to. *)
Definition idle_inv (l : Loop) : Prop :=
  let opt := w_opt (sys_w (lp_sys l)) in
  ((IdleShutdown opt = 0)%Z -> lp_armed l = false) /\
  ((0 < IdleShutdown opt)%Z -> lp_result l = None ->
    lp_armed l = true \/ 1 <= NumSessions (w_sess (sys_w (lp_sys l)))).

Lemma idle_inv_same s s' a r : same_table s s' -> idle_inv (mkLoop s a r) -> idle_inv (mkLoop s' a r).
Proof. unfold idle_inv, NumSessions. simpl. by intros [-> ->]. Qed.

Lemma idle_inv_reset s s' a : w_opt (sys_w s') = w_opt (sys_w s) -> idle_inv (mkLoop s a None) ->
  idle_inv (mkLoop s' (idle_reset s a) None).
Proof.
  unfold idle_inv, idle_reset. simpl. intros -> [H0 H1]. split.
  - intros Hz. rewrite Hz. simpl. by apply H0.
  - intros Hp _. left. by rewrite (proj2 (Z.ltb_lt _ _)).
Qed.

Lemma idle_inv_step l l' : idle_inv l -> loop_step l l' -> idle_inv l'.
Proof.
  intros Hi H. destruct H as [s a r s' H|s a r s' H|s a r s' H|s a s' H|s a id s' H|s|s a err].
  - by apply (idle_inv_same s); [apply client_same|].
  - by apply (idle_inv_same s); [apply goroutine_same|].
  - by apply (idle_inv_same s); [apply watch_same|].
  - by apply idle_inv_reset; [apply receive_opt|].
  - destruct (expiry_same id s s' H) as [Ho Hs].
    destruct (GetSession (w_sess (sys_w s)) id); [by apply idle_inv_reset|].
    by apply (idle_inv_same s); [apply Hs|].
  - destruct Hi as [H0 _]. split; simpl; [done|]. intros _.
    destruct (Nat.ltb_spec (NumSessions (w_sess (sys_w s))) 1); [done|]. by right.
  - destruct Hi as [H0 _]. by split.
Qed.

Lemma loop_reachable_inv l : loop_reachable l -> idle_inv l.
Proof.
  intros (l0 & (Hi & Ha & Hr) & Hs). assert (H0 : idle_inv l0).
  { unfold idle_inv. rewrite Ha. unfold idle_armed. split.
    - intros ->. done.
    - intros Hp _. left. apply negb_true_iff, Z.eqb_neq. lia. }
  clear Hi Ha Hr. induction Hs as [|l l1 l2 Hst _ IH]; [done|]. by apply IH, (idle_inv_step l).
Qed.

(** C11: Auto-shutdown. In every reachable state of the dispatcher's loop: a service without an idle time never ends on
    its own account; one with an idle time has its timer running whenever no session is active, so that the
    next thing the timer does is to end the dispatcher without an error; and the timer never ends the
    dispatcher while a session is active, nor does anything but it or a server that stopped. *)
Theorem idle_shutdown : forall l, loop_reachable l -> lp_result l = None ->
  let opt := w_opt (sys_w (lp_sys l)) in
  let idle := NumSessions (w_sess (sys_w (lp_sys l))) < 1 in
  ((0 < IdleShutdown opt)%Z -> idle -> lp_armed l = true /\
     loop_step l (mkLoop (lp_sys l) false (Some None))) /\
  (forall l' r, loop_step l l' -> lp_result l' = Some r -> lp_sys l' = lp_sys l /\
     (lp_armed l' = false /\ lp_armed l = true /\ idle /\ r = None /\ (IdleShutdown opt <> 0)%Z \/
      lp_armed l' = lp_armed l)).
Proof.
  intros l Hl Hr opt idle. destruct (loop_reachable_inv l Hl) as [H0 H1]. subst opt idle. split.
  - intros Hp Hn. destruct (H1 Hp Hr) as [Ha|Hge]; [|lia]. split; [done|].
    destruct l as [s a r]. simpl in *. subst a r. pose proof (lp_idle s) as H.
    by rewrite (proj2 (Nat.ltb_lt _ _)) in H.
  - intros l' r Hst Hr'. destruct Hst; simpl in *; try congruence.
    + destruct (Nat.ltb_spec (NumSessions (w_sess (sys_w s))) 1); [|done]. injection Hr' as <-.
      split; [done|]. left. split_and!; try done. intros Hz. by specialize (H0 Hz).
    + split; [done|]. by right.
Qed.

(** Start: nothing listens before both configurations were loaded, the parts start in their order, and the start
    succeeds exactly if all four run. *)
Theorem service_start : forall snap snap_name tempdir listen listen_socket opt cs fs cs' fs' started err,
  Service_Start snap snap_name tempdir listen listen_socket opt cs fs = (cs', fs', started, err) ->
  let rules := loadHTTPProxyRulesOrDefault snap snap_name (Config_ opt) fs cs in
  started `prefix_of` [ProxyServer; FetchctlServer; ControlServer; DispatcherLoop] /\
  (err = None <-> In DispatcherLoop started) /\ (In DispatcherLoop started <-> In FetchctlServer started) /\
  (started <> [] -> rules.2 = None /\
     loadDefaultInspectorsConfigCombine snap snap_name (Config_ opt) fs rules.1 = (cs', None) /\
     listen (listen_addr (ProxyPort opt)) = None).
Proof.
  intros snap snap_name tempdir listen listen_socket opt cs fs cs' fs' started err H rules. unfold Service_Start in H.
  fold rules in H. destruct rules as [cs1 [e|]].
  { simplify_eq. split; [apply prefix_nil|simpl; naive_solver]. }
  destruct (loadDefaultInspectorsConfigCombine _ _ _ _ _) as [cs2 [e|]] eqn:E2.
  { simplify_eq. split; [apply prefix_nil|simpl; naive_solver]. }
  unfold HTTPProxy_Start in H. destruct (listen _) as [e|] eqn:E3.
  { simplify_eq. split; [apply prefix_nil|simpl; naive_solver]. }
  destruct (Fetchctl_Start _ _ _) as [fs1 [e|]]; simplify_eq; cbn [fst snd In] in *.
  - split; [by eexists [_; _; _]|]. naive_solver.
  - split; [done|]. naive_solver.
Qed.

(** An active session, at its address. *)
Definition active_at (ss : SessState (IS := IS)) (p : nat) : Prop :=
  exists o, objs ss !! p = Some o /\ sessions ss !! s_ID o = Some p.

(** Sessions are finished one after the other: none blocks, none is added, and one that stays (its data could not
    be saved) has its timer stopped. *)
Lemma FinishAll_spec l ss fs : sess_wf ss -> NoDup (map fst l) -> (forall p, In p (map fst l) -> active_at ss p) ->
  exists ss' fs', FinishAll l ss fs = Some (ss', fs') /\ sess_wf ss' /\ sessions ss' ⊆ sessions ss /\
    (forall p, ~ In p (map fst l) -> objs ss' !! p = objs ss !! p) /\
    (forall p o, In p (map fst l) -> objs ss' !! p = Some o -> t_armed (timer o) = false).
Proof.
  revert ss fs. induction l as [|[p order] l IH]; intros ss fs Hwf Hnd Ha.
  { exists ss, fs. split_and!; done. }
  apply NoDup_cons in Hnd as [Hp Hnd]. rewrite list_elem_of_In in Hp.
  destruct (Ha p) as (o & Ho & Hs); [by left|].
  destruct (Finish_active ss fs p o order Hwf Ho Hs) as (ss1 & fs1 & e & HF & Hwf1 & _ & _ & Hoth & He).
  assert (Hp1 : exists o1, objs ss1 !! p = Some o1 /\ t_armed (timer o1) = false).
  { destruct e; [destruct He as [_ He]; by eexists|]. destruct He as (_ & t & He & Ht & _). by eexists. }
  assert (Hsub : sessions ss1 ⊆ sessions ss).
  { destruct e; [by destruct He as [-> _]|]. destruct He as [-> _]. apply delete_subseteq. }
  assert (Hkeep : forall q id, q <> p -> sessions ss !! id = Some q -> sessions ss1 !! id = Some q).
  { intros q id Hq Hid. destruct e; [by destruct He as [-> _]|]. destruct He as [-> _].
    rewrite lookup_delete_ne; [done|]. intros <-. congruence. }
  destruct (IH ss1 fs1 Hwf1 Hnd) as (ss' & fs' & HA & Hwf' & Hsub' & Hout & Hin).
  { intros q Hq. destruct (Ha q) as (oq & Hoq & Hsq); [by right|]. assert (q <> p) by (by intros ->).
    exists oq. rewrite Hoth by done. split; [done|]. by apply Hkeep. }
  exists ss', fs'. cbn [FinishAll]. rewrite HF. split; [exact HA|]. split; [done|]. split; [by etrans|]. split.
  - intros q Hq. rewrite Hout by (intros H; apply Hq; by right). apply Hoth. intros ->. apply Hq. by left.
  - intros q oq [<-|Hq] Hoq; [|by eapply Hin]. destruct Hp1 as (o1 & Ho1 & Ht).
    rewrite Hout in Hoq by done. cbn [fst] in Hoq. congruence.
Qed.

(** C20: Shutdown: stopping the service never blocks on a session. Every session that was active is finished or, if its
    data could not be saved, stays with its timer stopped; no session is added; and all this is done whatever
    the servers answer. The stop succeeds exactly if the proxy, the socket and the control server stop. *)
Theorem service_stop : forall order tempdir r (w : World),
  sess_wf (w_sess w) -> NoDup (map fst order) ->
  (forall p, In p (map fst order) <-> active_at (w_sess w) p) ->
  exists w' e, Service_Stop order tempdir r w = Some (w', e) /\ sess_wf (w_sess w') /\
    sessions (w_sess w') ⊆ sessions (w_sess w) /\
    (forall id o, active (w_sess w') id = Some o -> t_armed (timer o) = false) /\
    (e = None <-> sr_close r = None /\ sr_wait r = None /\ sr_shutdown r = None /\
       exists ss fs, FinishAll order (w_sess w) (w_fs w) = Some (ss, fs) /\
         (os_RemoveAll fs (SocketPath tempdir)).2 = None).
Proof.
  intros order tempdir r w Hwf Hnd Ha.
  destruct (FinishAll_spec order (w_sess w) (w_fs w) Hwf Hnd ltac:(intros; by apply Ha))
    as (ss & fs & HF & Hwf' & Hsub & Hout & Hin).
  assert (Htimers : forall id o, active ss id = Some o -> t_armed (timer o) = false).
  { intros id o (p & Hid & Ho)%active_Some. apply (Hin p o); [|done].
    apply Ha. pose proof (lookup_weaken _ _ _ _ Hid Hsub) as Hid0.
    destruct (wf_table _ Hwf _ _ Hid0) as (o0 & Ho0 & <- & _). by exists o0. }
  assert (Hcases : exists fs' e, Service_Stop order tempdir r w = Some (set_w_fs fs' (set_w_sess ss w), e) /\
    (e = None <-> sr_close r = None /\ sr_wait r = None /\ sr_shutdown r = None /\
       (os_RemoveAll fs (SocketPath tempdir)).2 = None)).
  { unfold Service_Stop, HTTPProxy_Stop, Control_Stop, Fetchctl_Stop. rewrite HF. cbn [mbind option_bind].
    destruct (sr_close r) as [e|]; [by exists fs; eexists; split; [reflexivity|naive_solver]|].
    destruct (sr_wait r) as [e|]; [by exists fs; eexists; split; [reflexivity|naive_solver]|]. simpl.
    destruct (os_RemoveAll fs (SocketPath tempdir)) as [fs1 [e|]] eqn:E.
    all: destruct (sr_shutdown r); eexists fs1, _; (split; [reflexivity|simpl; naive_solver]). }
  destruct Hcases as (fs' & e & HS & He). exists (set_w_fs fs' (set_w_sess ss w)), e.
  split; [done|]. split; [done|]. split; [done|]. split; [done|]. rewrite He, HF. naive_solver.
Qed.
End Lifecycle.

(** ** Witnesses *)

Section Witnesses.
#[local] Existing Instance text_mime.
#[local] Existing Instance literal_glob.
#[local] Existing Instance mem_os.
#[local] Existing Instance demo_version.
#[local] Existing Instance sample_yaml.
#[local] Existing Instance same_text.
#[local] Existing Instance text_x509.

(** A service with some idle time, in seconds. *)
Definition idle_world (seconds : Z) : World (IS := unit) :=
  mkWorld no_sessions (∅ : MemFS) sample_state ∅ 0 0%Z (mkOptions 13444 13445 "/etc/fetch" "/spool" false "" "" seconds).
Definition begun (seconds : Z) : Loop (IS := unit) :=
  mkLoop (mkSys (idle_world seconds) [] [] ∅ 0 [] false) (idle_armed (w_opt (idle_world seconds))) None.

Lemma begun_reachable seconds : loop_reachable sample_constructors tt (begun seconds).
Proof. exists (begun seconds). split; [|apply rtc_refl]. by repeat split. Qed.

Lemma idle_shutdown_witness : lp_armed (begun 60) = true /\
  loop_step sample_constructors tt (begun 60) (mkLoop (lp_sys (begun 60)) false (Some None)).
Proof.
  apply (idle_shutdown sample_constructors tt (begun 60) (begun_reachable 60) eq_refl); simpl; [lia|].
  vm_compute. lia.
Defined.

(** With a negative idle time the service ends at once. *)
Lemma negative_idle_ends : loop_step sample_constructors tt (begun (-1))
  (mkLoop (lp_sys (begun (-1))) false (Some None)).
Proof. apply (lp_idle sample_constructors tt (lp_sys (begun (-1)))). Qed.

Lemma demo_active p : In p [demo_p] <-> active_at (w_sess demo_world) p.
Proof.
  destruct demo_wf as (_ & H1 & H2). split.
  - intros [<-|[]]. by exists demo_session.
  - intros (o & _ & Ho). change (sessions (w_sess demo_world)) with (<["abc" := demo_p]> (∅ : gmap string nat)) in Ho.
    rewrite lookup_insert in Ho. case_decide; [|by rewrite lookup_empty in Ho]. left. congruence.
Qed.

Lemma service_stop_witness : exists w' e,
  Service_Stop [(demo_p, [])] "/tmp" (mkStopResults None (Some ErrServerClosed) None) demo_world = Some (w', e) /\
  e <> None /\ sess_wf (w_sess w').
Proof.
  destruct (service_stop [(demo_p, [])] "/tmp" (mkStopResults None (Some ErrServerClosed) None) demo_world
    (proj1 demo_wf) (NoDup_singleton demo_p) demo_active) as (w' & e & H & Hwf & _ & _ & He).
  exists w', e. split; [exact H|]. split; [|exact Hwf]. intros Hn.
  destruct (proj1 He Hn) as (_ & Hw & _). discriminate Hw.
Defined.

(** A start on a machine where the proxy's port is taken. *)
Definition taken : string -> option error := fun _ => Some (EText "address already in use").
Definition demo_start : ConfigState * FS * list Running * option error :=
  Service_Start (OS := mem_os) "" "" "/tmp" taken (fun fs => (fs, None)) demo_options sample_state (∅ : MemFS).

Lemma service_start_witness : demo_start.2 <> None /\ ~ In DispatcherLoop demo_start.1.2.
Proof.
  assert (He : demo_start = (demo_start.1.1.1, demo_start.1.1.2, demo_start.1.2, demo_start.2)).
  { by repeat rewrite <- surjective_pairing. }
  destruct (service_start "" "" "/tmp" taken (fun fs : FS (Os := mem_os) => (fs, None)) demo_options sample_state
    (∅ : MemFS) _ _ _ _ He) as (_ & H & _ & _).
  assert (Hr : demo_start.2 <> None) by (by vm_compute). split; [exact Hr|]. intros Hin. exact (Hr (proj2 H Hin)).
Defined.
End Witnesses.
