(* ===== verification/Main.v ===== *)
(** * The program

    [cmd/fetch/main.go]: options, the set-up of the logs, the loop that waits for signals and for the end of the
    service, exit statuses, and the event of a crash. The parsing of the command line is that of go-flags: its
    result is an argument. What the parts of the program answer is an argument where the parts are modelled
    elsewhere ([Logging], [Lifecycle]). *)
From stdpp Require Import base gmap strings list option fin_maps relations.
From Stdlib Require Import ZArith Lia Ascii.
From S2P Require Import Prelude GoStrings GoCodec Platform SecLog Net Digests Artifact Report Config Secrets.
From S2P Require Import Inspectors Session Messages Service Logging Lifecycle.

(** ** The environment *)

(** [os.ExpandEnv] *)
Definition is_special_var (c : ascii) : bool :=
  existsb (Ascii.eqb c) ["*"; "#"; "$"; "@"; "!"; "?"; "-"]%char || in_range 48 57 c.
Definition is_name_char (c : ascii) : bool := is_alnum c || Ascii.eqb c "_".

Fixpoint span_name (s : string) : string * string :=
  match s with
  | String c s' => if is_name_char c then let '(n, r) := span_name s' in (String c n, r) else ("", s)
  | "" => ("", "")
  end.

(** The name of a variable after a dollar sign and the rest of the text; [None] if the dollar sign stands for itself. *)
Definition shell_name (s : string) : option (string * string) :=
  match s with
  | "" => None
  | String c s1 =>
      if Ascii.eqb c "{" then
        match Cut s1 "}" with
        | Some (n, r) => Some (n, r)
        | None => Some ("", s1)
        end
      else if is_special_var c then Some (str1 c, s1)
      else match span_name s with ("", _) => None | nr => Some nr end
  end.

Fixpoint expand (fuel : nat) (getenv : string -> string) (s : string) : string :=
  match fuel with
  | O => ""
  | S fuel =>
      match s with
      | "" => ""
      | String c s1 =>
          if Ascii.eqb c "$" then
            match shell_name s1 with
            | None => String c (expand fuel getenv s1)
            | Some (n, r) => (if String.eqb n "" then "" else getenv n) +:+ expand fuel getenv r
            end
          else String c (expand fuel getenv s1)
      end
  end.
Definition ExpandEnv (getenv : string -> string) (s : string) : string := expand (S (String.length s)) getenv s.

(** [filepath.Base] *)
Fixpoint drop_slashes (s : string) : string :=
  match s with String c s' => if Ascii.eqb c slash then drop_slashes s' else s | "" => "" end.
Definition Base (p : string) : string :=
  if String.eqb p "" then "."
  else match srev (drop_slashes (srev p)) with
  | "" => "/"
  | s => match CutLast s "/" with Some (_, b) => b | None => s end
  end.

(** ** Options *)

Record CmdlineOptions := mkCmdlineOptions {
  co_Profile : bool;
  co_ProfilePort : Z;
  co_ControlPort : Z;
  co_ProxyPort : Z;
  co_Config : string;
  co_Spool : string;
  co_Verbosity : string;
  co_PermissiveMode : bool;
  co_Version : bool;
  co_CertPath : string;
  co_KeyPath : string;
  co_IdleShutdown : Z;
  co_LogFile : string;
  co_SecLog : string;
}.
(** The options of an empty command line. *)
Definition default_options : CmdlineOptions :=
  mkCmdlineOptions false 6060 9999 9988 "" "" "" false false "" "" 0 "" "".

Definition SnapConfigDir : string := "${SNAP_DATA}/conf".
Definition SnapSpoolDir : string := "${SNAP_COMMON}/spool".
Definition NonSnapConfigDir : string := "/etc/fetch".
Definition NonSnapSpoolDir : string := "/var/lib/fetch".

Definition getOptionOrDefault (getenv : string -> string) (cmdlineValue snapDefault nonsnapDefault : string) : string :=
  if negb (String.eqb cmdlineValue "") then cmdlineValue
  else if RunningFromSnap (getenv "SNAP") (getenv "SNAP_NAME") then ExpandEnv getenv snapDefault
  else nonsnapDefault.

Definition getServiceOptions (getenv : string -> string) (o : CmdlineOptions) : Options :=
  mkOptions (co_ControlPort o) (co_ProxyPort o)
    (getOptionOrDefault getenv (co_Config o) SnapConfigDir NonSnapConfigDir)
    (getOptionOrDefault getenv (co_Spool o) SnapSpoolDir NonSnapSpoolDir)
    (co_PermissiveMode o) (co_KeyPath o) (co_CertPath o) (co_IdleShutdown o).

Definition policyMode (o : CmdlineOptions) : string :=
  if co_PermissiveMode o then "permissive-allowed" else "strict-only".

(** ** The main loop *)

(** A signal of the system with its number and name, or another one with its text. *)
Inductive OsSignal : Type :=
| SysSignal (num : Z) (name : string)
| OtherSignal (text : string).
Definition SIGUSR1 : OsSignal := SysSignal 10 "SIGUSR1".
Definition SIGINT : OsSignal := SysSignal 2 "SIGINT".
Definition SIGTERM : OsSignal := SysSignal 15 "SIGTERM".

#[export] Instance OsSignal_eq_dec : EqDecision OsSignal.
Proof. solve_decision. Defined.

(** The loop of [Run]: its variables, the signals that wait (at most one), and how the service and the profiling server
    ended. *)
Record MainLoop := mkMainLoop {
  ml_signals : list OsSignal;
  ml_service : option (option error);
  ml_profiler : option (option error);
  ml_status : Z;
  ml_reason : string;
  ml_reopened : nat;          (** how often the logs were reopened *)
  ml_errors : list string;    (** errors logged *)
  ml_done : bool;
}.

(** What happens to the program. *)
Inductive world_step : MainLoop -> MainLoop -> Prop :=
| ws_signal sig svc pp st re n er d :
    world_step (mkMainLoop [] svc pp st re n er d) (mkMainLoop [sig] svc pp st re n er d)
| ws_service sigs pp st re n er d err :
    world_step (mkMainLoop sigs None pp st re n er d) (mkMainLoop sigs (Some err) pp st re n er d)
| ws_profiler sigs svc st re n er d err :
    world_step (mkMainLoop sigs svc None st re n er d) (mkMainLoop sigs svc (Some err) st re n er d).

(** [fmt]'s [%s] of an error that may be nil. *)
Definition error_text (e : option error) : string :=
  match e with Some e => error_string e | None => "%!s(<nil>)" end.

(** What the loop does with a signal. *)
Definition on_signal (sig : OsSignal) (l : MainLoop) : MainLoop :=
  let '(mkMainLoop sigs svc pp st re n er d) := l in
  if bool_decide (sig = SIGUSR1) then mkMainLoop (tl sigs) svc pp st re (S n) er d
  else match sig with
  | SysSignal num name => mkMainLoop (tl sigs) svc pp (128 + num)%Z (name +:+ " received") n er true
  | OtherSignal text => mkMainLoop (tl sigs) svc pp 128 text n er true
  end.

(** What it does when the service has ended. *)
Definition on_service (err : option error) (l : MainLoop) : MainLoop :=
  let '(mkMainLoop sigs svc pp st re n er d) := l in
  match err with
  | Some e =>
      let reason := "Server error: " +:+ error_string e in
      mkMainLoop sigs svc pp 2 reason n (er ++ [reason]) true
  | None => mkMainLoop sigs svc pp st "Server stopped" n er true
  end.

(** And when the profiling server has ended: the loop goes on. *)
Definition on_profiler (err : option error) (l : MainLoop) : MainLoop :=
  let '(mkMainLoop sigs svc pp st re n er d) := l in
  let reason := "Profiling error: " +:+ error_text err in
  mkMainLoop sigs svc pp 3 reason n (er ++ [reason]) d.

(** One turn of the loop: any of the cases that are ready. *)
Inductive turn : MainLoop -> MainLoop -> Prop :=
| turn_signal l sig sigs : ml_done l = false -> ml_signals l = sig :: sigs -> turn l (on_signal sig l)
| turn_service l err : ml_done l = false -> ml_service l = Some err -> turn l (on_service err l)
| turn_profiler l err : ml_done l = false -> ml_profiler l = Some err -> turn l (on_profiler err l).

Definition main_step (l l' : MainLoop) : Prop := world_step l l' \/ turn l l'.
Definition main_begins : MainLoop := mkMainLoop [] None None 0 "" 0 [] false.

(** ** Running the program *)

(** What the parts of the program answer: the parser, the set-up of the logs, the making and start of the service,
    and its stop. *)
Record RunInputs := mkRunInputs {
  ri_parsed : result CmdlineOptions;
  ri_log : option error;
  ri_seclog : option error;
  ri_new : option error;
  ri_start : option error;
  ri_stop : option error;
}.

(** What the program prints, the security events it reports, and its exit status. *)
Record Outcome := mkOutcome { oc_printed : string; oc_events : list SecEvent; oc_status : Z }.

(** Before the loop: [inl] if the program ends there. *)
Definition run_begin (version app_env : string) (i : RunInputs) : Outcome + (list SecEvent * MainLoop) :=
  let failed e := inl (mkOutcome ("error: " +:+ error_string e) [] 1%Z) in
  match ri_parsed i with
  | Err e => failed e
  | Ok opts =>
      if co_Version opts then inl (mkOutcome ("fetch " +:+ version +:+ str1 nl) [] 0%Z)
      else match ri_log i with
      | Some e => failed e
      | None =>
          match (if String.eqb (co_SecLog opts) "" then None else ri_seclog i) with
          | Some e => failed e
          | None =>
              let evs := [SysStart version app_env (policyMode opts)] in
              match ri_new i with
              | Some _ => inl (mkOutcome "" evs 1%Z)
              | None =>
                  match ri_start i with
                  | Some _ => inl (mkOutcome "" evs 1%Z)
                  | None => inr (evs, main_begins)
                  end
              end
          end
      end
  end.

(** After the loop: a service that does not stop ends the program at once, with status 1. *)
Definition run_end (app_env : string) (i : RunInputs) (evs : list SecEvent) (l : MainLoop) : Outcome :=
  match ri_stop i with
  | Some _ => mkOutcome "" evs 1%Z
  | None =>
      mkOutcome "" (evs ++ [SysShutdown (mkEventData "" "" "" "" "" (ml_reason l) "") app_env]) (ml_status l)
  end.

(** [Run], with any course of the loop. *)
Inductive runs (version app_env : string) (i : RunInputs) : Outcome -> Prop :=
| runs_early o : run_begin version app_env i = inl o -> runs version app_env i o
| runs_loop evs l0 l : run_begin version app_env i = inr (evs, l0) -> rtc main_step l0 l -> ml_done l = true ->
    runs version app_env i (run_end app_env i evs l).

(** ** Crashes *)

(** What a panic carries: an error of the run-time system, another error, or any value. *)
Inductive PanicValue : Type :=
| RuntimeError (msg : string)
| ErrorPanic (e : error)
| OtherPanic (text : string).

(** The event name and the description of a panic that [main] recovers from. *)
Definition crash_event (v : PanicValue) : string * string :=
  match v with
  | RuntimeError msg =>
      (if Contains msg "nil pointer dereference" then "nil_pointer_dereference"
       else if Contains msg "out of range" then "index_out_of_bounds" else "runtime_error", msg)
  | ErrorPanic e => ("panic", error_string e)
  | OtherPanic t => ("other", t)
  end.

(** The end of a program that panicked. *)
Definition main_recover (go_version app_env stack : string) (evs : list SecEvent) (v : PanicValue) : Outcome :=
  let '(event, description) := crash_event v in
  mkOutcome "" (evs ++ [SysCrash event description stack go_version app_env]) 2%Z.

(** [main]: the name of the command selects the program. *)
Definition is_fetchctl (argv0 : string) : bool :=
  String.eqb (Base argv0) "fetchctl" || String.eqb (Base argv0) "fetch-service.fetchctl".

(** ** Properties *)

(** A command-line option always wins; without it, the snap's directories are used exactly inside the snap. *)
Theorem options_spec : forall getenv o,
  let s := getServiceOptions getenv o in
  let snap := RunningFromSnap (getenv "SNAP") (getenv "SNAP_NAME") in
  (co_Config o <> "" -> Config_ s = co_Config o) /\ (co_Spool o <> "" -> Spool s = co_Spool o) /\
  (co_Config o = "" -> Config_ s = if snap then getenv "SNAP_DATA" +:+ "/conf" else "/etc/fetch") /\
  (co_Spool o = "" -> Spool s = if snap then getenv "SNAP_COMMON" +:+ "/spool" else "/var/lib/fetch") /\
  PermissiveMode s = co_PermissiveMode o /\ IdleShutdown s = co_IdleShutdown o /\
  ExpandEnv getenv "${SNAP}/conf" = SnapBundledConfigDir (getenv "SNAP").
Proof.
  intros getenv o s snap. unfold s, getServiceOptions. cbn [Config_ Spool PermissiveMode IdleShutdown].
  unfold getOptionOrDefault. fold snap. split_and!; try done.
  - intros H%String.eqb_neq. by rewrite H.
  - intros H%String.eqb_neq. by rewrite H.
  - intros ->. by destruct snap.
  - intros ->. by destruct snap.
Qed.

(** While the loop runs the status is 0 or, after the end of the profiling server, 3; when it is done there is one of
    three reasons. *)
Definition loop_inv (l : MainLoop) : Prop :=
  (ml_done l = false -> ml_status l = 0%Z \/ ml_status l = 3%Z /\ is_Some (ml_profiler l)) /\
  (ml_done l = true ->
    (exists num name, SysSignal num name <> SIGUSR1 /\ ml_status l = (128 + num)%Z /\ ml_reason l = name +:+ " received") \/
    ml_status l = 128%Z \/
    (exists e, ml_service l = Some (Some e) /\ ml_status l = 2%Z /\ ml_reason l = "Server error: " +:+ error_string e) \/
    (ml_service l = Some None /\ ml_reason l = "Server stopped" /\
       (ml_status l = 0%Z \/ ml_status l = 3%Z /\ is_Some (ml_profiler l)))).

Lemma turn_inv l l' : loop_inv l -> turn l l' -> loop_inv l'.
Proof.
  intros [Hi _] H. destruct H as [l sig sigs Hd Hs|l err Hd Hs|l err Hd Hs]; specialize (Hi Hd);
    destruct l as [sigs0 svc pp st re n er d]; simpl in *; subst d.
  - unfold on_signal. case_bool_decide as Hu; [by split; simpl|]. destruct sig as [num name|t]; split; simpl; try done.
    + intros _. left. by exists num, name.
    + intros _. right. by left.
  - subst svc. destruct err as [e|]; split; simpl; try done; intros _.
    + right; right; left. by exists e.
    + right; right; right. done.
  - subst pp. split; simpl; [|done]. intros _. right. split; [done|by eexists].
Qed.

Lemma world_inv l l' : loop_inv l -> world_step l l' -> loop_inv l'.
Proof.
  intros [H1 H2] H. destruct H; split; simpl in *; try done.
  - intros ->. specialize (H2 eq_refl). naive_solver.
  - naive_solver.
  - intros ->. specialize (H2 eq_refl). naive_solver.
Qed.

Lemma main_inv l : rtc main_step main_begins l -> loop_inv l.
Proof.
  assert (H0 : loop_inv main_begins) by (split; simpl; [by left|done]).
  revert H0. generalize main_begins. intros l0 H0 H.
  induction H as [|l0 l1 l2 [H|H] _ IH]; [done|apply IH; by eapply world_inv|apply IH; by eapply turn_inv].
Qed.

Lemma run_begin_loop version app_env i evs l0 : run_begin version app_env i = inr (evs, l0) ->
  l0 = main_begins /\ exists opts, ri_parsed i = Ok opts /\ evs = [SysStart version app_env (policyMode opts)].
Proof.
  unfold run_begin. destruct (ri_parsed i) as [opts|]; [|done]. destruct (co_Version opts); [done|].
  destruct (ri_log i); [done|]. destruct (if String.eqb _ _ then _ else _); [done|].
  destruct (ri_new i); [done|]. destruct (ri_start i); [done|]. intros [= <- <-]. split; [done|]. by exists opts.
Qed.


(** A proxy that stops with an error: the service cannot be stopped, so the run ends with status 1 instead of 2
    and without the event of the shutdown. *)
Theorem proxy_failure_status : forall `{ML : MimeLib} `{GL : GlobLib} `{OS : Os} `{VT : VersionText} {IS : Type}
    order tempdir e shutdown (w w' : World (IS := IS)) r version app_env i o,
  Service_Stop order tempdir (mkStopResults None (Some e) shutdown) w = Some (w', r) -> ri_stop i = r ->
  (forall o', run_begin version app_env i <> inl o') -> runs version app_env i o ->
  oc_status o = 1%Z /\ Forall (fun ev => se_Description ev <> "Fetch Service shutting down") (oc_events o).
Proof.
  intros ML GL OS VT IS order tempdir e shutdown w w' r version app_env i o Hs Hr Hb H. unfold Service_Stop in Hs.
  destruct (FinishAll _ _ _) as [[ss fs]|]; [|done]. simpl in Hs. injection Hs as <- <-.
  destruct H as [o H|evs l0 l H Hl Hd]; [by destruct (Hb o)|]. unfold run_end. rewrite Hr. split; [done|]. simpl.
  destruct (run_begin_loop _ _ _ _ _ H) as (_ & opts & _ & ->). by repeat constructor.
Qed.

(** Once the profiling server has ended, and as long as no signal comes and the service runs, the loop has exactly one
    case that is ready and takes it over and over: every turn logs an error and none ends the loop. *)
Theorem profiler_end_spins : forall l err, ml_done l = false -> ml_signals l = [] -> ml_service l = None ->
  ml_profiler l = Some err ->
  (forall l', turn l l' <-> l' = on_profiler err l) /\
  forall n, exists l', relations.nsteps turn n l l' /\ ml_done l' = false /\
    length (ml_errors l') = length (ml_errors l) + n.
Proof.
  assert (Hone : forall l err, ml_done l = false -> ml_signals l = [] -> ml_service l = None ->
    ml_profiler l = Some err -> forall l', turn l l' <-> l' = on_profiler err l).
  { intros l err Hd Hs Hv Hp l'. split; [intros H; destruct H; congruence|]. intros ->. by apply turn_profiler. }
  intros l err Hd Hs Hv Hp. split; [by apply Hone|]. intros n. revert l Hd Hs Hv Hp.
  induction n as [|n IH]; intros l Hd Hs Hv Hp; [exists l; split; [apply relations.nsteps_O|]; split; [done|lia]|].
  destruct l as [sigs svc pp st re m er d]; simpl in *; subst.
  destruct (IH (on_profiler err (mkMainLoop [] None (Some err) st re m er false))) as (l' & Hn & Hd' & Hlen); try done.
  exists l'. split; [|split; [done|simpl in Hlen; rewrite length_app in Hlen; simpl in Hlen; lia]].
  eapply relations.nsteps_l; [|exact Hn]. by apply turn_profiler.
Qed.

(** ** Witnesses *)

Definition demo_inputs : RunInputs := mkRunInputs (Ok default_options) None None None None None.
Definition killed : MainLoop := mkMainLoop [SIGTERM] None None 0 "" 0 [] false.

Lemma killed_runs : runs "1.0" "" demo_inputs
  (run_end "" demo_inputs [SysStart "1.0" "" "strict-only"] (on_signal SIGTERM killed)).
Proof.
  eapply runs_loop; [reflexivity| |reflexivity].
  eapply rtc_l; [left; by apply ws_signal|]. apply rtc_once. right. by apply turn_signal with (sigs := []).
Qed.


Definition profiler_gone : MainLoop := mkMainLoop [] None (Some (Some (EText "address already in use"))) 0 "" 0 [] false.
Lemma profiler_end_spins_witness : exists l', relations.nsteps turn 1000 profiler_gone l' /\ ml_done l' = false.
Proof.
  destruct (proj2 (profiler_end_spins profiler_gone (Some (EText "address already in use")) eq_refl eq_refl eq_refl eq_refl) 1000)
    as (l' & H1 & H2 & _).
  exists l'. exact (conj H1 H2).
Defined.

(** The name of the command. *)
Lemma command_names : is_fetchctl "/snap/bin/fetch-service.fetchctl" = true /\ is_fetchctl "/usr/bin/fetch" = false /\
  Base "" = "." /\ Base "//" = "/" /\ Base "a/b//" = "b".
Proof. split_and!; reflexivity. Qed.

(** Bad syntax is swallowed, unknown variables are empty, a lone dollar sign stays. *)
Lemma expand_examples : let env n := if String.eqb n "HOME" then "/root" else "" in
  ExpandEnv env "$HOME/x${NONE}$ ${}${" = "/root/x$ ".
Proof. reflexivity. Qed.
