(* ===== verification/AptConfig.v ===== *)
(** * URLs of package archives

    [inspectors/apt/config/config.go]: the URLs of release files, package lists, translations, command lists
    and packages in the repositories of the configuration. *)
From stdpp Require Import base gmap strings list option fin_maps.
From Stdlib Require Import ZArith Lia Ascii.
From S2P Require Import Prelude GoStrings GoCodec Platform HttpUtil Digests Artifact Net Config.
From S2P Require Import Inspectors InspectorLib Regexp Url.

(** ** What the URLs say *)

Record InReleaseURLInfo := mkInReleaseURLInfo {
  ir_CfgName : string;
  ir_Origin : string;
  ir_Repository : string;
  ir_Suite : string;
}.
Record PackagesURLInfo := mkPackagesURLInfo {
  pu_CfgName : string;
  pu_Origin : string;
  pu_Repository : string;
  pu_Suite : string;
  pu_Component : string;
  pu_Architecture : string;
  pu_Digest : string;
}.
Record TranslationURLInfo := mkTranslationURLInfo {
  tu_CfgName : string;
  tu_Origin : string;
  tu_Repository : string;
  tu_Suite : string;
  tu_Component : string;
  tu_Digest : string;
}.
Record CommandsURLInfo := mkCommandsURLInfo {
  cu_CfgName : string;
  cu_Origin : string;
  cu_Repository : string;
  cu_Suite : string;
  cu_Component : string;
  cu_Digest : string;
}.
Record DebPackageURLInfo := mkDebPackageURLInfo {
  du_CfgName : string;
  du_Origin : string;
  du_Repository : string;
  du_Component : string;
  du_Name : string;
  du_Version : string;
  du_Architecture : string;
}.

Definition reInRelease : Regexp := MustCompile "/[\w-]+/dists/([\w-]+)/InRelease$".
Definition rePackagesByHash : Regexp :=
  MustCompile "/[\w-]+/dists/[\w-]+/[\w-]+/binary-(\w+)/by-hash/SHA256/([0-9a-f]{64})$".
Definition rePackagesByName : Regexp :=
  MustCompile "/[\w-]+/dists/[\w-]+/[\w-]+/binary-(\w+)/Packages.gz$".
Definition reTranslation : Regexp :=
  MustCompile "/[\w-]+/dists/[\w-]+/[\w-]+/i18n/Translation-[\w.-]+$".
Definition reTranslationByHash : Regexp :=
  MustCompile "/[\w-]+/dists/[\w-]+/[\w-]+/i18n/by-hash/SHA256/([0-9a-f]{64})$".
Definition reCommands : Regexp := MustCompile "/[\w-]+/dists/[\w-]+/[\w-]+/cnf/Commands-[\.\w-]+$".
Definition reCommandsByHash : Regexp :=
  MustCompile "/[\w-]+/dists/[\w-]+/[\w-]+/cnf/by-hash/SHA256/([0-9a-f]{64})$".
Definition reDebPackage : Regexp :=
  MustCompile "/[\w-]+/pool/([\w-]+)/.*/([^/_]+)_([^/_]+)_([^/_]+)\.deb$".

Section AptConfig.
Context `{GL : GlobLib} `{MO : MapOrder}.

(** ** What the configuration allows; [None] is the panic of a nil pattern *)

(** The entries in the order of the iteration. *)
Fixpoint find_repository (l : list (string * AptInspectorConfigRepository)) (repo : string) :
    option (option string) :=
  match l with
  | [] => Some None
  | (name, r) :: l' =>
      match match_globs (apt_URLs r) repo with
      | None => None
      | Some true => Some (Some name)
      | Some false => find_repository l' repo
      end
  end.
Definition repositoryIsAllowed (cfg : AptInspectorConfig) (repo : string) : option (option string) :=
  find_repository (map_range (Repositories cfg)) repo.

(** The zero entry has no patterns. *)
Definition zero_repository : AptInspectorConfigRepository := mkAptRepository [] [] [] "" "".
Definition repository (cfg : AptInspectorConfig) (name : string) : AptInspectorConfigRepository :=
  default zero_repository (Repositories cfg !! name).
Definition suiteIsAllowed (cfg : AptInspectorConfig) (name suite : string) : option bool :=
  match_globs (Suites (repository cfg name)) suite.
Definition componentIsAllowed (cfg : AptInspectorConfig) (name component : string) : option bool :=
  match_globs (Components (repository cfg name)) component.

(** The text of the first elements of a path. *)
Definition path_before (pos : nat) (parts : list string) : string := Join (take pos parts) "/".
Definition part_at (parts : list string) (n : nat) : string := default "" (parts !! n).

Definition checkRepositoryAndSuite (cfg : AptInspectorConfig) (u : ParsedURL) :
    option (result (string * string * string)) :=
  let origin := NormalizedOrigin u in
  let parts := Split (Path u) slash in
  let bad := Some (Err (EText ("invalid repository URL: " +:+ ParsedURL_String u))) in
  match slices_Index parts "dists" with
  | None => bad
  | Some pos =>
      if List.length parts <=? pos + 2 then bad
      else
        let suite := part_at parts (pos + 1) in
        let repo := origin +:+ path_before pos parts in
        name ← repositoryIsAllowed cfg repo;
        match name with
        | None => Some (Err (EText ("invalid repository: " +:+ repo)))
        | Some repoCfgName =>
            ok ← suiteIsAllowed cfg repoCfgName suite;
            Some (if (ok : bool) then Ok (repoCfgName, repo, suite)
                  else Err (EText ("invalid series: " +:+ suite)))
        end
  end.

Definition checkComponent (cfg : AptInspectorConfig) (name : string) (u : ParsedURL) : option (result string) :=
  let parts := Split (Path u) slash in
  let bad := Some (Err (EText ("invalid repository URL: " +:+ ParsedURL_String u))) in
  match slices_Index parts "dists" with
  | None => bad
  | Some pos =>
      if List.length parts <=? pos + 3 then bad
      else
        let component := part_at parts (pos + 2) in
        ok ← componentIsAllowed cfg name component;
        Some (if (ok : bool) then Ok component else Err (EText ("invalid component: " +:+ component)))
  end.

(** ** Reading the URLs *)

(** Goes on with the value of the check before. *)
Definition checked {A B} (c : option (result A)) (f : A -> option (result B)) : option (result B) :=
  r ← c; match r with Err e => Some (Err e) | Ok a => f a end.

Definition NewInReleaseURLInfo (u : ParsedURL) (cfg : AptInspectorConfig) : option (result InReleaseURLInfo) :=
  checked (checkRepositoryAndSuite cfg u) (fun '(name, repo, suite) =>
    Some (if negb (MatchString reInRelease (Path u)) then
            Err (EText ("invalid InRelease URL path: " +:+ Path u))
          else Ok (mkInReleaseURLInfo name (NormalizedOrigin u) repo suite))).

Definition NewPackagesURLInfo (u : ParsedURL) (cfg : AptInspectorConfig) : option (result PackagesURLInfo) :=
  checked (checkRepositoryAndSuite cfg u) (fun '(name, repo, suite) =>
    checked (checkComponent cfg name u) (fun component =>
      Some (match FindStringSubmatch rePackagesByHash (Path u) with
            | [_; arch; digest] =>
                Ok (mkPackagesURLInfo name (NormalizedOrigin u) repo suite component arch digest)
            | _ =>
                match FindStringSubmatch rePackagesByName (Path u) with
                | [_; arch] => Ok (mkPackagesURLInfo name (NormalizedOrigin u) repo suite component arch "")
                | _ => Err (EText ("invalid Packages URL path: " +:+ Path u))
                end
            end))).

(** The name of the file, or else its digest. *)
Definition by_name_or_hash (name hash : Regexp) (path text : string) : result string :=
  if MatchString name path then Ok ""
  else match FindStringSubmatch hash path with
       | [_; digest] => Ok digest
       | _ => Err (EText (text +:+ path))
       end.

Definition NewTranslationURLInfo (u : ParsedURL) (cfg : AptInspectorConfig) : option (result TranslationURLInfo) :=
  checked (checkRepositoryAndSuite cfg u) (fun '(name, repo, suite) =>
    checked (checkComponent cfg name u) (fun component =>
      Some (digest ← by_name_or_hash reTranslation reTranslationByHash (Path u) "invalid translation URL path: ";
            Ok (mkTranslationURLInfo name (NormalizedOrigin u) repo suite component digest)))).

Definition NewCommandURLInfo (u : ParsedURL) (cfg : AptInspectorConfig) : option (result CommandsURLInfo) :=
  checked (checkRepositoryAndSuite cfg u) (fun '(name, repo, suite) =>
    checked (checkComponent cfg name u) (fun component =>
      Some (digest ← by_name_or_hash reCommands reCommandsByHash (Path u) "invalid commands URL path: ";
            Ok (mkCommandsURLInfo name (NormalizedOrigin u) repo suite component digest)))).

Definition NewDebPackageURLInfo (u : ParsedURL) (cfg : AptInspectorConfig) : option (result DebPackageURLInfo) :=
  let origin := NormalizedOrigin u in
  let parts := Split (Path u) slash in
  let bad := Some (Err (EText ("invalid repository URL: " +:+ ParsedURL_String u))) in
  match slices_Index parts "pool" with
  | None => bad
  | Some pos =>
      if List.length parts <=? pos + 2 then bad
      else
        let repo := origin +:+ path_before pos parts in
        name ← repositoryIsAllowed cfg repo;
        match name with
        | None => Some (Err (EText ("invalid repository: " +:+ repo)))
        | Some repoCfgName =>
            match FindStringSubmatch reDebPackage (Path u) with
            | [_; component; pkg; version; arch] =>
                Some (Ok (mkDebPackageURLInfo repoCfgName origin repo component pkg version arch))
            | _ => Some (Err (EText (Path u +:+ ": not a valid deb package URL path")))
            end
        end
  end.

(** ** Lemmas *)

(** Every pattern of the configuration was compiled. *)
Definition apt_ok (cfg : AptInspectorConfig) : Prop := forall name r, Repositories cfg !! name = Some r ->
  globs_ok (apt_URLs r) /\ globs_ok (Suites r) /\ globs_ok (Components r).

(** Some pattern matches. *)
Definition glob_allows (l : list Glob) (s : string) : Prop := exists p, In (Some p : Glob) l /\ glob_Match p s = true.

Lemma match_globs_true l s : match_globs l s = Some true -> glob_allows l s.
Proof.
  induction l as [|[p|] l IH]; simpl; [done| |done].
  destruct (glob_Match p s) eqn:E.
  - intros _. exists p. split; [by left|done].
  - intros (q & ? & ?)%IH. exists q. split; [by right|done].
Qed.

Lemma find_repository_In l repo name : find_repository l repo = Some (Some name) ->
  exists r, In (name, r) l /\ glob_allows (apt_URLs r) repo.
Proof.
  induction l as [|[n r] l IH]; simpl; [done|].
  destruct (match_globs (apt_URLs r) repo) as [[]|] eqn:E; [| |done].
  - intros [= ->]. exists r. split; [by left|]. by apply match_globs_true.
  - intros (r' & ? & ?)%IH. exists r'. auto.
Qed.

Context {MOL : MapOrderLaws}.

(** An allowed repository is one of the configuration, with a pattern that matches it. *)
Lemma repositoryIsAllowed_spec cfg repo name : repositoryIsAllowed cfg repo = Some (Some name) ->
  exists r, Repositories cfg !! name = Some r /\ glob_allows (apt_URLs r) repo.
Proof.
  intros (r & Hin & Hg)%find_repository_In. apply map_range_elem in Hin. eauto.
Qed.

Lemma repositoryIsAllowed_total cfg repo : apt_ok cfg -> exists r, repositoryIsAllowed cfg repo = Some r.
Proof.
  intros Hok. unfold repositoryIsAllowed.
  assert (forall k r, In (k, r) (map_range (Repositories cfg)) -> globs_ok (apt_URLs r)) as Hl.
  { intros k r Hin. apply map_range_elem in Hin. by apply (Hok k). }
  induction (map_range (Repositories cfg)) as [|[n r] l IH]; simpl; [by eauto|].
  destruct (match_globs_spec (apt_URLs r) repo) as (b & -> & _); [by eapply Hl; left|].
  destruct b; [by eauto|]. apply IH. intros. eapply Hl. by right.
Qed.

(** What a URL of a suite is allowed by. *)
Lemma checkRepositoryAndSuite_spec cfg u name repo suite :
  checkRepositoryAndSuite cfg u = Some (Ok (name, repo, suite)) ->
  exists r, Repositories cfg !! name = Some r /\ glob_allows (apt_URLs r) repo /\ glob_allows (Suites r) suite.
Proof.
  unfold checkRepositoryAndSuite. destruct (slices_Index _ _) as [pos|]; [|done].
  destruct (_ <=? _); [done|].
  destruct (repositoryIsAllowed cfg _) as [[n|]|] eqn:Er; simpl; [|done..].
  destruct (suiteIsAllowed cfg n _) as [[]|] eqn:Es; simpl; [|done..]. intros [= <- <- <-].
  apply repositoryIsAllowed_spec in Er as (r & Hr & Hu). exists r. split; [done|]. split; [done|].
  unfold suiteIsAllowed, repository in Es. rewrite Hr in Es. by apply match_globs_true.
Qed.
End AptConfig.

Example rePackagesByHash_example :
  FindStringSubmatch rePackagesByName "/ubuntu/dists/jammy/main/binary-amd64/Packages.gz"
  = ["/ubuntu/dists/jammy/main/binary-amd64/Packages.gz"; "amd64"].
Proof. by vm_compute. Qed.
Example apt_expressions : forallb (fun r => match r with Some _ => true | None => false end)
  (map Compile ["/[\w-]+/dists/([\w-]+)/InRelease$";
    "/[\w-]+/dists/[\w-]+/[\w-]+/binary-(\w+)/by-hash/SHA256/([0-9a-f]{64})$";
    "/[\w-]+/dists/[\w-]+/[\w-]+/binary-(\w+)/Packages.gz$";
    "/[\w-]+/dists/[\w-]+/[\w-]+/i18n/Translation-[\w.-]+$";
    "/[\w-]+/dists/[\w-]+/[\w-]+/i18n/by-hash/SHA256/([0-9a-f]{64})$";
    "/[\w-]+/dists/[\w-]+/[\w-]+/cnf/Commands-[\.\w-]+$";
    "/[\w-]+/dists/[\w-]+/[\w-]+/cnf/by-hash/SHA256/([0-9a-f]{64})$";
    "/[\w-]+/pool/([\w-]+)/.*/([^/_]+)_([^/_]+)_([^/_]+)\.deb$"]) = true.
Proof. by vm_compute. Qed.
Example reDebPackage_example :
  FindStringSubmatch reDebPackage "/ubuntu/pool/main/0/0ad/0ad_0.0.25b-2_amd64.deb"
  = ["/ubuntu/pool/main/0/0ad/0ad_0.0.25b-2_amd64.deb"; "main"; "0ad"; "0.0.25b-2"; "amd64"].
Proof. by vm_compute. Qed.
