(* ===== verification/AptRelease.v ===== *)
(** * Release files of package archives

    [inspectors/apt/release.go] and [inspectors/apt/openpgp.go]: the inspector of clear-signed release files. It
    remembers the files that each release lists and checks package lists, translations and command lists
    against them. *)
From stdpp Require Import base gmap strings list option fin_maps.
From Stdlib Require Import ZArith Lia Ascii.
From S2P Require Import Prelude GoStrings GoCodec Platform HttpUtil Digests Artifact Net Config.
From S2P Require Import Inspectors InspectorLib OpenPgp Regexp Url AptConfig.

(** An access beyond the end of a string panics. *)
Definition index_out_of_range : error := ESentinel "index out of range".

(** ** Keys *)

(** An armored block of a key: its type, and what its first packet is; a key's ID as text. *)
Class KeyBlock `{PG : OpenPGP} := {
  armor_block : string -> result (string * result (Packet PublicKey Signature));
  KeyIdString : PublicKey -> string;
}.

Section CheckSignature.
Context `{KB : KeyBlock}.

Definition PublicKeyType : string := "PGP PUBLIC KEY BLOCK".

Definition decodePublicKey (f : string) : result PublicKey :=
  match armor_block f with
  | Err err => Err (EText ("cannot decode key: " +:+ error_string err))
  | Ok (btype, pkt) =>
      if negb (String.eqb btype PublicKeyType) then Err (EText "invalid data type")
      else match pkt with
           | Err err => Err (EText ("error reading key: " +:+ error_string err))
           | Ok (PubKeyPacket key) => Ok key
           | Ok _ => Err (EText "error parsing key")
           end
  end.

Fixpoint decode_keys (keyBlocks : list string) : result (list PublicKey) :=
  match keyBlocks with
  | [] => Ok []
  | k :: rest =>
      if String.eqb (TrimSpace k) "" then decode_keys rest
      else key ← decodePublicKey k; keys ← decode_keys rest; Ok (key :: keys)
  end.
Definition configured_keys (pubkey : string) : result (list PublicKey) :=
  decode_keys (SplitAfter pubkey "-----END PGP PUBLIC KEY BLOCK-----").

(** The notes, the signed text (also when no signature can be verified) and the error. *)
Definition checkSignature (data pubkey : string) : Annotation * option string * option error :=
  match configured_keys pubkey with
  | Err err => (∅, None, Some err)
  | Ok keys =>
      let notes : Annotation := {[ "public-keys" := AStrs (map KeyIdString keys) ]} in
      match DecodeClearSigned data with
      | Err err => (notes, None, Some (EText ("cannot decode clearsigned file: " +:+ error_string err)))
      | Ok (sigs, body) =>
          match VerifyAnySignature keys sigs body with
          | Some _ => (notes, Some body, Some (EText "cannot verify signature of the InRelease file"))
          | None => (notes, Some body, None)
          end
      end
  end.

(** The text is signed with one of the keys. *)
Definition signed_by (data pubkey body : string) : Prop :=
  exists keys sigs k s, configured_keys pubkey = Ok keys /\ DecodeClearSigned data = Ok (sigs, body) /\
    In k keys /\ In s sigs /\ VerifySignature k s body = None.

Lemma checkSignature_ok data pubkey notes body :
  checkSignature data pubkey = (notes, Some body, None) -> signed_by data pubkey body.
Proof.
  unfold checkSignature. destruct (configured_keys pubkey) as [keys|] eqn:Ek; [|done].
  destruct (DecodeClearSigned data) as [[sigs b]|] eqn:Ed; [|done].
  destruct (VerifyAnySignature keys sigs b) eqn:Ev; [done|]. intros [= <- <-].
  assert (verify_sigs keys sigs b None = None) as (k & s & ? & ? & ?)%verify_sigs_spec;
    [|exists keys, sigs, k, s; auto].
  unfold VerifyAnySignature in Ev. destruct (verify_sigs keys sigs b None) as [e|] eqn:E; [|done].
  destruct keys as [|k [|? ?]], sigs as [|s [|? ?]]; try discriminate.
  simpl length in Ev. rewrite verify_one in E. simpl in Ev. subst e. by destruct (VerifySignature k s b).
Qed.
End CheckSignature.

(** ** Release files *)

Record releaseEntry := mkreleaseEntry { re_Name : string; re_Size : Z }.
Record releaseFile := mkreleaseFile {
  rf_Sha256 : Sha256Digest;
  rf_Vendor : string;
  rf_Files : gmap Sha256Digest releaseEntry;
}.
Definition NewReleaseFile : releaseFile := mkreleaseFile zero_sha256 "" ∅.

(** The release files of the repositories. *)
Notation ReleaseState := (gmap string releaseFile).

(** The fields before the SHA256 section, and the lines after its first. *)
Fixpoint parse_fields (lines : list string) (n : nat) (fields : gmap string string) :
    result (gmap string string * list string) :=
  match lines with
  | [] => Err (EText "no SHA256 section found")
  | line :: rest =>
      if String.eqb line "" || HasPrefix line " " then parse_fields rest n fields
      else match Cut line ":" with
           | None => parse_fields rest n fields
           | Some (k, v) =>
               if String.eqb k "SHA256" then Ok (fields, rest)
               else
                 let v := TrimSpace v in
                 let fields := if String.eqb v "" then fields else <[k := v]> fields in
                 if 100 <? n then
                   Err (EText "stopped parsing, file unlikely to be a Release file")
                 else parse_fields rest (S n) fields
           end
  end.
Definition parseUpToSignatures (lines : list string) : result (gmap string string * list string) :=
  parse_fields lines 0 ∅.

(** One line of the section: an entry or what is wrong with it. *)
Definition parse_entry (line : string) : (Sha256Digest * releaseEntry) + string :=
  match Fields line with
  | [digest; size; name] =>
      match NewSha256Digest digest with
      | Err _ => inr ("error parsing digest: " +:+ line)
      | Ok d => match ParseUint size 10 64 with
                | Err _ => inr ("error parsing file size: " +:+ line)
                | Ok z => inl (d, mkreleaseEntry name z)
                end
      end
  | _ => inr ("ill-formed line: " +:+ line)
  end.

(** The errors and the files; [None] is the panic at an empty line. *)
Fixpoint parseSignaturesSection (lines : list string) (files : gmap Sha256Digest releaseEntry) :
    option (list string * gmap Sha256Digest releaseEntry) :=
  match lines with
  | [] => Some ([], files)
  | "" :: _ => None
  | line :: rest =>
      if negb (HasPrefix line " ") then Some ([], files)
      else match parse_entry line with
           | inl (d, e) => parseSignaturesSection rest (<[d := e]> files)
           | inr err => '(errs, files) ← parseSignaturesSection rest files; Some (err :: errs, files)
           end
  end.

Definition expectedFields : list string :=
  ["Origin"; "Label"; "Suite"; "Version"; "Codename"; "Date"; "Architectures"; "Components"].
Definition isMissingFields (fields : gmap string string) : bool :=
  existsb (fun k => match fields !! k with Some _ => false | None => true end) expectedFields.

(** ** Types of files *)

(** The second artifact is the first after setting responses with metadata of some type. *)
Section Retyped.
Context `{ML : MimeLib}.

Definition retyped (type : string) (a b : Artifact) : Prop :=
  MimeType b = MimeType a /\ (Type_ (Meta b) = Type_ (Meta a) \/ Type_ (Meta b) = type).

Lemma retyped_refl type a : retyped type a a.
Proof. split; auto. Qed.
Lemma SetResponse_retyped type id reason md a : am_Type md = type \/ am_Type md = "" ->
  retyped type a (SetResponseApproved id reason md a) /\ retyped type a (SetResponseRejected id reason md a) /\
  retyped type a (SetResponseUnknown id reason md a).
Proof.
  intros Ht. unfold SetResponseApproved, SetResponseRejected, SetResponseUnknown, retyped.
  destruct (decide _), (any_opinion _ _), (bool_decide _); simpl;
    destruct (String.eqb_spec (am_Type md) ""); naive_solver.
Qed.
Lemma SetResponseApproved_retyped type id reason md a : am_Type md = type \/ am_Type md = "" ->
  retyped type a (SetResponseApproved id reason md a).
Proof. apply SetResponse_retyped. Qed.
Lemma SetResponseRejected_retyped type id reason md a : am_Type md = type \/ am_Type md = "" ->
  retyped type a (SetResponseRejected id reason md a).
Proof. intros H. apply (SetResponse_retyped type id reason md a H). Qed.
Lemma SetResponseUnknown_retyped type id reason md a : am_Type md = type \/ am_Type md = "" ->
  retyped type a (SetResponseUnknown id reason md a).
Proof. intros H. apply (SetResponse_retyped type id reason md a H). Qed.
Lemma AnnotateResponse_retyped type id ann a b : retyped type a b -> retyped type a (AnnotateResponse id ann b).
Proof. intros H. exact H. Qed.

(** Another type than that one the file had before. *)
Lemma retyped_is type t a b : retyped type a b -> t <> type -> MimetypeIs b t = true -> MimetypeIs a t = true.
Proof.
  intros [Hm Hty] Ht. unfold MimetypeIs. rewrite Hm. destruct Hty as [-> | ->]; [done|].
  destruct (String.eqb_spec type t); [by subst|]. simpl. intros ->. by rewrite orb_true_r.
Qed.
End Retyped.

Create HintDb retyped.
#[export] Hint Resolve retyped_refl SetResponseApproved_retyped SetResponseRejected_retyped SetResponseUnknown_retyped
  AnnotateResponse_retyped : retyped.

(** ** The inspector *)

Definition apt_release_id : string := "apt.release".

(** Metadata of an index file. *)
Definition index_metadata (type name description vendor suite arch : string) : ArtifactMetadata :=
  mkArtifactMetadata type name "" vendor description vendor "" arch "" "" "" "" suite "".

(** The kinds of URLs of the inspector, in the order in which they are tried. *)
Inductive release_url :=
| RelInRelease (i : InReleaseURLInfo)
| RelPackages (i : PackagesURLInfo)
| RelTranslation (i : TranslationURLInfo)
| RelCommands (i : CommandsURLInfo).

(** The first check that succeeds. *)
Definition or_else {A} (c d : option (result A)) : option (result A) :=
  match c with Some (Err _) => d | _ => c end.
Definition wrap {A B} (f : A -> B) (c : option (result A)) : option (result B) :=
  match c with Some r => Some (f <$> r) | None => None end.

Section Release.
Context `{ML : MimeLib} `{GL : GlobLib} `{MO : MapOrder} `{KB : KeyBlock}.
Context {IS : Type} `{PS : !Part IS ReleaseState} (cfg : AptInspectorConfig).

Definition getRepositoryAlias (repo cfgName : string) : string * bool :=
  match Repositories cfg !! cfgName with
  | None => (repo, false)
  | Some repos =>
      let baseURL := BaseURLAlias repos in
      if String.eqb baseURL "" then (repo, true)
      else match Parse repo with
           | Err _ => (repo, true)
           | Ok u => match url_JoinPath baseURL (Path u) with
                     | Err _ => (repo, true)
                     | Ok alias => (alias, true)
                     end
           end
  end.

(** [repo/dists/suite] under its alias. *)
Definition suite_root (repo suite cfgName : string) : string * bool :=
  getRepositoryAlias (repo +:+ "/dists/" +:+ suite) cfgName.

Definition getReleaseState (repo : string) (st : ReleaseState) : option releaseFile := st !! repo.
Definition setReleaseState (repo : string) (release : releaseFile) (st : ReleaseState) : ReleaseState :=
  <[repo := release]> st.

(** *** Requests *)

Definition release_info (u : ParsedURL) : option (result release_url) :=
  or_else (wrap RelInRelease (NewInReleaseURLInfo u cfg))
 (or_else (wrap RelPackages (NewPackagesURLInfo u cfg))
 (or_else (wrap RelTranslation (NewTranslationURLInfo u cfg))
          (wrap RelCommands (NewCommandURLInfo u cfg)))).

(** A file of a release needs the release. *)
Definition mark_listed (st : ReleaseState) (what repo suite cfgName : string) (notes : Annotation) (a : Artifact) :
    Artifact :=
  AnnotateRequest apt_release_id notes
    match getReleaseState (fst (suite_root repo suite cfgName)) st with
    | Some _ => SetRequestPending apt_release_id ("valid URL for " +:+ what +:+ " file") a
    | None => SetRequestRejected apt_release_id ("attempt to download " +:+ what +:+ " file before Release") a
    end.

Definition mark_release (st : ReleaseState) (i : release_url) (a : Artifact) : Artifact :=
  match i with
  | RelInRelease i =>
      AnnotateRequest apt_release_id (str_notes [("cfg-name", ir_CfgName i); ("origin", ir_Origin i);
          ("repository", ir_Repository i); ("suite", ir_Suite i)])
        (SetRequestPending apt_release_id "valid URL for Release file" a)
  | RelPackages i =>
      mark_listed st "packages" (pu_Repository i) (pu_Suite i) (pu_CfgName i)
        (str_notes [("cfg-name", pu_CfgName i); ("origin", pu_Origin i); ("repository", pu_Repository i);
           ("suite", pu_Suite i); ("component", pu_Component i); ("architecture", pu_Architecture i)]) a
  | RelTranslation i =>
      mark_listed st "translation" (tu_Repository i) (tu_Suite i) (tu_CfgName i)
        (str_notes [("cfg-name", tu_CfgName i); ("origin", tu_Origin i); ("repository", tu_Repository i);
           ("suite", tu_Suite i); ("component", tu_Component i)]) a
  | RelCommands i =>
      mark_listed st "commands" (cu_Repository i) (cu_Suite i) (cu_CfgName i)
        (str_notes [("cfg-name", cu_CfgName i); ("origin", cu_Origin i); ("repository", cu_Repository i);
           ("suite", cu_Suite i); ("component", cu_Component i)]) a
  end.

Definition Release_InspectRequest (st : IS) (a : Artifact) : IS * Artifact * option error :=
  url_request release_info (mark_release (part st)) st a.

(** *** Files listed in a release *)

Definition reject_file (reason : string) (md : ArtifactMetadata) (notes : Annotation) (a : Artifact) : Artifact :=
  AnnotateResponse apt_release_id notes (SetResponseRejected apt_release_id reason md a).

(** What the three checks below share: the repository, its release, the entry with the digest of the file,
    and its size when [sized]. *)
Definition check_listed (st : ReleaseState) (what repo suite : string) (sized : bool) (md : ArtifactMetadata)
    (a : Artifact) : Artifact :=
  match RequestStringAnnotation a apt_release_id "cfg-name" with
  | None => reject_file (what +:+ " file downloaded from unknown repository") md ∅ a
  | Some cfgName =>
      let '(root, ok) := suite_root repo suite cfgName in
      if negb ok then
        reject_file "Unknown repository configuration name" md {[ "cfg-name" := AStr cfgName ]} a
      else match getReleaseState root st with
           | None => reject_file "Repository Release data not found" md ∅ a
           | Some rel =>
               match rf_Files rel !! Artifact_Sha256 a with
               | None => reject_file (what +:+ " file not listed in Release file") md ∅ a
               | Some entry =>
                   if sized && negb (wrap_i64 (re_Size entry) =? Artifact_Size a)%Z then
                     reject_file (what +:+ " file size mismatch") md {[ "expected-size" := AInt (re_Size entry) ]} a
                   else
                     AnnotateResponse apt_release_id
                       (str_notes [("file-path", re_Name entry); ("release-file", Sha256_String (rf_Sha256 rel));
                          ("vendor", rf_Vendor rel)])
                       (SetResponseUnknown apt_release_id (what +:+ " file listed in Release") md a)
               end
           end
  end.

(** The digest in the URL must be that of the file. *)
Definition check_by_hash (digest : string) (md : ArtifactMetadata) (a : Artifact) : option Artifact :=
  if String.eqb digest "" then None
  else match NewSha256Digest digest with
       | Err _ => Some (reject_file "invalid SHA256 digest" md {[ "invalid-sha256" := AStr digest ]} a)
       | Ok sha256 =>
           if negb (String.eqb sha256 (Artifact_Sha256 a)) then
             Some (reject_file "SHA256 digest mismatch" md {[ "expected-sha256" := AStr (Sha256_String sha256) ]} a)
           else None
       end.

Definition typed_metadata (type : string) : ArtifactMetadata := index_metadata type "" "" "" "" "".

(** The URL again, then [check]; a URL of another kind is a rejection. *)
Definition validate_file {A} (info : ParsedURL -> option (result A)) (type reason : string) (check : A -> Artifact -> Artifact)
    (st : IS) (a : Artifact) : IS * Artifact * option error :=
  match Parse (DownloadURL a) with
  | Err err => (st, a, Some (EText ("cannot parse URL: " +:+ error_string err)))
  | Ok u =>
      match info u with
      | None => panics st a
      | Some (Err _) => (st, reject_file reason (typed_metadata type) ∅ a, None)
      | Some (Ok i) => (st, check i a, None)
      end
  end.

Definition validatePackagesFile (st : IS) (a : Artifact) : IS * Artifact * option error :=
  validate_file (fun u => NewPackagesURLInfo u cfg) "application/x.apt.packages" "invalid path for packages file"
    (fun i a =>
       let md := index_metadata "application/x.apt.packages" "Packages"
                   (pu_Suite i +:+ " " +:+ pu_Component i +:+ " Packages file") "" (pu_Suite i) (pu_Architecture i) in
       match check_by_hash (pu_Digest i) md a with
       | Some a' => a'
       | None => check_listed (part st) "Packages" (pu_Repository i) (pu_Suite i) false md a
       end) st a.

Definition validateTranslationFile (st : IS) (a : Artifact) : IS * Artifact * option error :=
  validate_file (fun u => NewTranslationURLInfo u cfg) "application/x.apt.translation"
    "invalid path for translation file"
    (fun i a => check_listed (part st) "Translation" (tu_Repository i) (tu_Suite i) true
       (index_metadata "application/x.apt.translation" "Translation" "" "" (tu_Suite i) "") a) st a.

Definition validateCommandsFile (st : IS) (a : Artifact) : IS * Artifact * option error :=
  validate_file (fun u => NewCommandURLInfo u cfg) "application/x.apt.commands" "invalid path for commands file"
    (fun i a => check_listed (part st) "Commands" (cu_Repository i) (cu_Suite i) true
       (index_metadata "application/x.apt.commands" "Commands" "Commands list for command-not-found" ""
          (cu_Suite i) "") a) st a.

(** *** Release files themselves *)

Definition field (fields : gmap string string) (k : string) : string := default "" (fields !! k).

Definition release_metadata (fields : gmap string string) : ArtifactMetadata :=
  let origin := field fields "Origin" in
  let desc := field fields "Description" in
  mkArtifactMetadata "application/x.apt.release" "InRelease" (field fields "Codename") origin
    (if String.eqb desc "" then origin +:+ " " +:+ field fields "Suite" else desc) origin "" "" "" "" "" ""
    (field fields "Suite") "".

(** A list of texts as an annotation, left out if empty. *)
Definition error_notes (key : string) (l : list string) : Annotation :=
  match l with [] => ∅ | _ => {[ key := AStrs l ]} end.

Definition clear_signed : string := "-----BEGIN PGP SIGNED MESSAGE-----".

(** The lines of the signed text or, if there is none, of the whole file. *)
Definition inspect_release (cfgName : string) (st : IS) (data : string) (a : Artifact) :
    IS * Artifact * option error :=
  let '(signotes, body, err) := checkSignature data (Config.PublicKey (repository cfg cfgName)) in
  let integrityErrors :=
    match err with Some e => ["signature verification failed: " +:+ error_string e] | None => [] end in
  match parseUpToSignatures (fst (Scanner_Lines (default data body))) with
  | Err _ => (st, a, None)
  | Ok (fields, rest) =>
      if isMissingFields fields then (st, a, None)
      else match parseSignaturesSection rest ∅ with
           | None => (st, a, Some index_out_of_range)
           | Some (formatErrors, files) =>
               let release := mkreleaseFile (Artifact_Sha256 a) (field fields "Origin") files in
               let md := release_metadata fields in
               let notes := error_notes "file format errors" formatErrors ∪
                            error_notes "integrity errors" integrityErrors in
               if negb (bool_decide (notes = ∅)) then
                 (st, reject_file "error parsing release file" md notes a, None)
               else
                 let notes := signotes ∪ (AStr <$> fields) in
                 let a := AnnotateResponse apt_release_id notes
                            (SetResponseApproved apt_release_id "release file parsed and signature validated" md a) in
                 let repo := fst (getRepositoryAlias (TrimSuffix (DownloadURL a) "/InRelease") cfgName) in
                 (set_part (setReleaseState repo release (part st)) st, a, None)
           end
  end.

Definition Release_InspectArtifact (st : IS) (data : string) (a : Artifact) : IS * Artifact * option error :=
  if MimetypeIs a "application/x.apt.packages" then validatePackagesFile st a
  else if MimetypeIs a "application/x.apt.translation" then validateTranslationFile st a
  else if MimetypeIs a "application/x.apt.commands" then validateCommandsFile st a
  else if negb (MimetypeIs a "text/plain") then (st, a, None)
  else match RequestStringAnnotation a apt_release_id "cfg-name" with
       | None => (st, a, None)
       | Some cfgName =>
           if negb (HasPrefix data clear_signed) then (st, a, None)
           else inspect_release cfgName st data a
       end.

Definition AptReleaseInspector : Inspector (IS := IS) :=
  mkInspector apt_release_id Release_InspectRequest Release_InspectArtifact.

(** ** Lemmas *)

Lemma mark_release_frame st i a : request_frame apt_release_id a (mark_release st i a).
Proof. destruct i; simpl; unfold mark_listed; try case_match; auto with frames. Qed.

Lemma reject_file_frame reason md notes a b : response_frame apt_release_id a b ->
  response_frame apt_release_id a (reject_file reason md notes b).
Proof. unfold reject_file. auto with frames. Qed.
#[local] Hint Resolve reject_file_frame : frames.

Lemma check_listed_frame st what repo suite sized md a :
  response_frame apt_release_id a (check_listed st what repo suite sized md a).
Proof. unfold check_listed. repeat case_match; auto with frames. Qed.
Lemma check_by_hash_frame digest md a a' : check_by_hash digest md a = Some a' -> response_frame apt_release_id a a'.
Proof. unfold check_by_hash. solve_frame. Qed.
Lemma validate_file_frame {A} (info : ParsedURL -> option (result A)) type reason check st a st' a' e :
  (forall i, response_frame apt_release_id a (check i a)) ->
  validate_file info type reason check st a = (st', a', e) -> response_frame apt_release_id a a' /\ st' = st.
Proof. intros Hc. unfold validate_file, panics. repeat case_match; intros; simplify_eq; auto with frames. Qed.

(** The checks of listed files leave the state alone. *)
Lemma validate_frames st a st' a' e :
  validatePackagesFile st a = (st', a', e) \/ validateTranslationFile st a = (st', a', e) \/
  validateCommandsFile st a = (st', a', e) -> response_frame apt_release_id a a' /\ st' = st.
Proof.
  intros [Hv|[Hv|Hv]]; eapply validate_file_frame; try exact Hv; intros i; simpl; try apply check_listed_frame.
  case_match; [by eapply check_by_hash_frame|apply check_listed_frame].
Qed.

#[export] Instance Release_laws : InspectorLaws AptReleaseInspector.
Proof.
  split; simpl.
  - intros st a st' a' e. apply url_request_frame. apply mark_release_frame.
  - intros st data a st' a' e. unfold Release_InspectArtifact, inspect_release.
    repeat case_match; intros; simplify_eq; auto with frames; eapply validate_frames; eauto.
Qed.

(** *** What the state comes from *)

(** A release file that was signed with the key of a repository of the configuration. *)
Record signed_release (rel : releaseFile) : Prop := {
  sr_origin : exists cfgName data body fields rest,
    signed_by data (Config.PublicKey (repository cfg cfgName)) body /\
    parseUpToSignatures (fst (Scanner_Lines body)) = Ok (fields, rest) /\
    parseSignaturesSection rest ∅ = Some ([], rf_Files rel) /\ rf_Vendor rel = field fields "Origin"
}.

Lemma error_notes_empty k1 k2 l1 l2 : error_notes k1 l1 ∪ error_notes k2 l2 = (∅ : Annotation) -> l1 = [] /\ l2 = [].
Proof.
  intros H. pose proof (map_positive_l _ _ H) as H1. rewrite H1, (left_id_L ∅ _) in H.
  unfold error_notes in *. destruct l1; [|by apply map_non_empty_singleton in H1].
  destruct l2; [done|by apply map_non_empty_singleton in H].
Qed.

Lemma inspect_release_spec cfgName st data a st' a' e : inspect_release cfgName st data a = (st', a', e) ->
  st' = st \/
  e = None /\ response_opinion apt_release_id a' = Some Approved /\
  exists rel root, st' = set_part (setReleaseState root rel (part st)) st /\
    rf_Sha256 rel = Artifact_Sha256 a /\ signed_release rel.
Proof.
  unfold inspect_release.
  destruct (checkSignature data _) as [[signotes body] err] eqn:Es.
  destruct (parseUpToSignatures _) as [[fields rest]|] eqn:Ep; [|intros; left; by simplify_eq].
  destruct (isMissingFields fields); [intros; left; by simplify_eq|].
  destruct (parseSignaturesSection rest ∅) as [[errs files]|] eqn:Ef; [|intros; left; by simplify_eq].
  case_bool_decide as Hn; [|intros; left; by simplify_eq/=]. simpl. intros [= <- <- <-]. right.
  split; [done|]. split; [by autorewrite with opinions|].
  apply error_notes_empty in Hn as [-> Herr]. destruct err as [err|]; [done|].
  assert (exists b, body = Some b) as [b ->].
  { revert Es. unfold checkSignature. repeat case_match; intros; simplify_eq; eauto. }
  apply checkSignature_ok in Es.
  eexists (mkreleaseFile _ _ files), _. split; [reflexivity|]. split; [done|]. split.
  exists cfgName, data, b, fields, rest. auto.
Qed.

(** The file is listed in a release file that is known. *)
Definition listed_in (st : ReleaseState) (digest : Sha256Digest) (relfile : string) : Prop :=
  exists root rel entry, st !! root = Some rel /\ rf_Files rel !! digest = Some entry /\
    relfile = Sha256_String (rf_Sha256 rel).

(** The annotation other inspectors rely on. *)
Definition release_note (a : Artifact) : option string := ResponseStringAnnotation a apt_release_id "release-file".

Lemma reject_file_note reason md notes a : notes !! "release-file" = None ->
  release_note (reject_file reason md notes a) = None.
Proof.
  intros Hn. unfold release_note, reject_file.
  erewrite ResponseStringAnnotation_annotate by apply SetResponse_lookup. simpl.
  by rewrite lookup_union, Hn, lookup_empty.
Qed.

Lemma check_listed_note st what repo suite sized md a v :
  release_note (check_listed st what repo suite sized md a) = Some v -> listed_in st (Artifact_Sha256 a) v.
Proof.
  unfold check_listed. destruct (RequestStringAnnotation a apt_release_id "cfg-name") as [cfgName|];
    [|by rewrite reject_file_note].
  destruct (suite_root repo suite cfgName) as [root ok]. destruct ok; simpl; [|by rewrite reject_file_note].
  destruct (getReleaseState root st) as [rel|] eqn:Er; [|by rewrite reject_file_note].
  destruct (rf_Files rel !! Artifact_Sha256 a) as [entry|] eqn:Ee; [|by rewrite reject_file_note].
  case_match; [by rewrite reject_file_note|]. unfold release_note.
  erewrite ResponseStringAnnotation_annotate by apply SetResponse_lookup. simpl.
  rewrite lookup_union, !lookup_str_notes, lookup_empty. simpl.
  intros [= <-]. exists root, rel, entry. auto.
Qed.

Lemma check_by_hash_note digest md a a' : check_by_hash digest md a = Some a' -> release_note a' = None.
Proof. unfold check_by_hash. repeat case_match; intros; simplify_eq; by apply reject_file_note. Qed.

Definition index_file (a : Artifact) : bool :=
  MimetypeIs a "application/x.apt.packages" || MimetypeIs a "application/x.apt.translation" ||
  MimetypeIs a "application/x.apt.commands".

Lemma validate_file_note {A} (info : ParsedURL -> option (result A)) type reason check st a st' a' e v :
  release_note a = None ->
  (forall i, release_note (check i a) = Some v -> listed_in (part st) (Artifact_Sha256 a) v) ->
  validate_file info type reason check st a = (st', a', e) -> release_note a' = Some v ->
  listed_in (part st) (Artifact_Sha256 a) v.
Proof.
  intros Hn Hc. unfold validate_file, panics.
  repeat case_match; intros ? Hv; simplify_eq; try congruence; [by eauto|by rewrite reject_file_note in Hv].
Qed.

(** An index file with the annotation is listed in a release. *)
Lemma Release_note st data a st' a' e v :
  index_file a = true -> release_note a = None -> Release_InspectArtifact st data a = (st', a', e) ->
  release_note a' = Some v -> listed_in (part st) (Artifact_Sha256 a) v.
Proof.
  unfold index_file, Release_InspectArtifact. intros Hi Hn H Hv.
  destruct (MimetypeIs a "application/x.apt.packages");
    [|destruct (MimetypeIs a "application/x.apt.translation");
      [|destruct (MimetypeIs a "application/x.apt.commands"); [|done]]];
    (eapply validate_file_note; [exact Hn| |exact H|exact Hv]); intros i; simpl; try apply check_listed_note.
  case_match eqn:Eh; [|apply check_listed_note]. apply check_by_hash_note in Eh. by rewrite Eh.
Qed.

(** A file that is none does not become one. *)
Lemma Release_type st data a st' a' e t :
  index_file a = false -> t <> "application/x.apt.release" ->
  Release_InspectArtifact st data a = (st', a', e) -> MimetypeIs a' t = true -> MimetypeIs a t = true.
Proof.
  intros Hi Ht H. apply (retyped_is "application/x.apt.release"); [|done].
  revert H. unfold Release_InspectArtifact. unfold index_file in Hi. apply orb_false_iff in Hi as [Hi ->].
  apply orb_false_iff in Hi as [-> ->]. unfold inspect_release, reject_file.
  repeat case_match; intros; simplify_eq; auto 10 with retyped.
Qed.

(** Only a release file changes the state. *)
Lemma Release_state {PL : PartLaws IS ReleaseState} st data a st' a' e :
  Release_InspectArtifact st data a = (st', a', e) ->
  st' = st \/ index_file a = false /\ e = None /\ response_opinion apt_release_id a' = Some Approved /\
    exists rel root, st' = set_part (setReleaseState root rel (part st)) st /\
      rf_Sha256 rel = Artifact_Sha256 a /\ signed_release rel.
Proof.
  unfold Release_InspectArtifact, index_file.
  destruct (MimetypeIs a "application/x.apt.packages"); [intros H; left; eapply validate_frames; eauto|].
  destruct (MimetypeIs a "application/x.apt.translation"); [intros H; left; eapply validate_frames; eauto|].
  destruct (MimetypeIs a "application/x.apt.commands"); [intros H; left; eapply validate_frames; eauto|].
  destruct (negb _); [intros; left; by simplify_eq|].
  destruct (RequestStringAnnotation a apt_release_id "cfg-name") as [cfgName|]; [|intros; left; by simplify_eq].
  destruct (negb _); [intros; left; by simplify_eq|].
  intros H%inspect_release_spec. naive_solver.
Qed.
End Release.

(** An empty line in the list of files ends in a panic. *)
Example release_empty_line_panics : parseSignaturesSection [""] ∅ = None.
Proof. reflexivity. Qed.
