(* ===== verification/AptPackages.v ===== *)
(** * Package lists

    [inspectors/apt/packages.go]: the inspector of compressed package lists, which remembers the packages of each
    list, and checks packages from the pool against them. A list counts only after the release inspector found
    it in a release. *)
From stdpp Require Import base gmap strings list option fin_maps.
From Stdlib Require Import ZArith Lia Ascii.
From S2P Require Import Prelude GoStrings GoCodec Platform HttpUtil Digests Artifact Net Config.
From S2P Require Import Inspectors InspectorLib Archives OpenPgp Regexp Url AptConfig AptRelease.

Record aptPackagesEntry := mkaptPackagesEntry {
  pe_Pkg : string;
  pe_Architecture : string;
  pe_Version : string;
  pe_Size : Z;
}.
Definition zero_aptPackagesEntry : aptPackagesEntry := mkaptPackagesEntry "" "" "" 0%Z.

Record aptPackages := mkaptPackages {
  ap_sha256 : Sha256Digest;
  ap_origin : string;
  ap_suite : string;
  ap_component : string;
  ap_architecture : string;
  ap_entries : gmap Sha256Digest aptPackagesEntry;
}.
Definition newAptPackages (sha256 : Sha256Digest) (origin suite component architecture : string) : aptPackages :=
  mkaptPackages sha256 origin suite component architecture ∅.
Definition getPackagesEntry (pkg : aptPackages) (digest : Sha256Digest) : option aptPackagesEntry :=
  ap_entries pkg !! digest.

(** Package lists by origin and path, and the digests of the lists found in a release. *)
Record PackagesState := mkPackagesState {
  packages : gmap string (gmap string aptPackages);
  validated : gmap Sha256Digest unit;
}.
Definition empty_PackagesState : PackagesState := mkPackagesState ∅ ∅.

(** The list is kept by pointer: its entries are filled in where it was put. *)
Definition addPackages (origin path : string) (data : aptPackages) (st : PackagesState) : PackagesState :=
  mkPackagesState (<[origin := <[path := data]> (default ∅ (packages st !! origin))]> (packages st)) (validated st).
Definition validatePackages (sha256 : Sha256Digest) (st : PackagesState) : PackagesState :=
  mkPackagesState (packages st) (<[sha256 := tt]> (validated st)).
Definition isValidPackages (sha256 : Sha256Digest) (st : PackagesState) : bool :=
  match validated st !! sha256 with Some _ => true | None => false end.
Definition set_entries (entries : gmap Sha256Digest aptPackagesEntry) (p : aptPackages) : aptPackages :=
  mkaptPackages (ap_sha256 p) (ap_origin p) (ap_suite p) (ap_component p) (ap_architecture p) entries.

(** ** Parsing *)

Section Parse.
Context `{XZ : Xz} `{GZ : Gzip}.

(** The file is read again from its start when it is not XZ data. *)
Definition compressedReader (data : string) : result Body :=
  match xz_NewReader (bytes data) with
  | Ok xzr => Ok xzr
  | Err _ => gzip_NewReader (bytes data)
  end.

(** What the loop keeps: the entry being read, the number of packages, the entries. *)
Record parsing := mkparsing { cur : aptPackagesEntry; num : Z; found_entries : gmap Sha256Digest aptPackagesEntry }.
Definition set_cur (e : aptPackagesEntry) (p : parsing) : parsing := mkparsing e (num p) (found_entries p).

Definition parse_line (line : string) (p : parsing) : result parsing :=
  if String.eqb line "" then Ok (set_cur zero_aptPackagesEntry p)
  else match Cut line ":" with
  | None => Ok p
  | Some (k, v) =>
      let v := TrimSpace v in
      let e := cur p in
      if String.eqb k "Package" then
        Ok (mkparsing (mkaptPackagesEntry v (pe_Architecture e) (pe_Version e) (pe_Size e)) (num p + 1)
              (found_entries p))
      else if String.eqb k "Version" then
        Ok (set_cur (mkaptPackagesEntry (pe_Pkg e) (pe_Architecture e) v (pe_Size e)) p)
      else if String.eqb k "Architecture" then
        Ok (set_cur (mkaptPackagesEntry (pe_Pkg e) v (pe_Version e) (pe_Size e)) p)
      else if String.eqb k "Size" then
        match ParseInt v 10 64 with
        | Err err => Err (EText ("error parsing size '" +:+ v +:+ "': " +:+ error_string err))
        | Ok z => Ok (set_cur (mkaptPackagesEntry (pe_Pkg e) (pe_Architecture e) (pe_Version e) z) p)
        end
      else if String.eqb k "SHA256" then
        match NewSha256Digest v with
        | Err err => Err (EText ("error parsing digest '" +:+ v +:+ "': " +:+ error_string err))
        | Ok h => Ok (mkparsing e (num p) (<[h := e]> (found_entries p)))
        end
      else Ok p
  end.
Fixpoint parse_lines (lines : list string) (p : parsing) : result parsing :=
  match lines with [] => Ok p | l :: rest => p' ← parse_line l p; parse_lines rest p' end.

(** Lines may be up to a megabyte long; the rest after a longer one is left out. *)
Definition parsePackages (r : Body) : result (Z * gmap Sha256Digest aptPackagesEntry) :=
  p ← parse_lines (fst (Scanner_Buffer 1048576 (body_data r))) (mkparsing zero_aptPackagesEntry 0 ∅);
  Ok (num p, found_entries p).
End Parse.

(** ** The inspector *)

Definition apt_packages_id : string := "apt.packages".

Section Packages.
Context `{ML : MimeLib} `{GL : GlobLib} `{MO : MapOrder} `{XZ : Xz} `{GZ : Gzip}.
Context {IS : Type} `{PS : !Part IS PackagesState} (cfg : AptInspectorConfig).

Definition getOriginAlias (origin cfgName : string) : option string :=
  match Repositories cfg !! cfgName with
  | None => None
  | Some repos => Some (if String.eqb (BaseURLAlias repos) "" then origin else BaseURLAlias repos)
  end.

(** *** Requests *)

Definition packages_info (u : ParsedURL) : option (result (PackagesURLInfo + DebPackageURLInfo)) :=
  or_else (wrap inl (NewPackagesURLInfo u cfg)) (wrap inr (NewDebPackageURLInfo u cfg)).

Definition mark_packages (i : PackagesURLInfo + DebPackageURLInfo) (a : Artifact) : Artifact :=
  match i with
  | inl i =>
      AnnotateRequest apt_packages_id (str_notes [("cfg-name", pu_CfgName i); ("repository", pu_Repository i);
          ("suite", pu_Suite i); ("component", pu_Component i); ("architecture", pu_Architecture i)])
        (SetRequestPending apt_packages_id "valid URL for Packages file" a)
  | inr i =>
      AnnotateRequest apt_packages_id (str_notes [("cfg-name", du_CfgName i); ("repository", du_Repository i);
          ("component", du_Component i); ("name", du_Name i); ("version", du_Version i);
          ("architecture", du_Architecture i)])
        (SetRequestPending apt_packages_id "valid URL for deb package" a)
  end.

Definition Packages_InspectRequest (st : IS) (a : Artifact) : IS * Artifact * option error :=
  url_request packages_info mark_packages st a.

(** *** Packages from the pool *)

Definition deb_type : string := "application/vnd.debian.binary-package".
Definition deb_metadata (name version arch suite : string) : ArtifactMetadata :=
  mkArtifactMetadata deb_type name version "" "" "" "" arch "" "" "" "" suite "".

Definition reject (reason : string) (md : ArtifactMetadata) (notes : Annotation) (a : Artifact) : Artifact :=
  AnnotateResponse apt_packages_id notes (SetResponseRejected apt_packages_id reason md a).

(** The first list with the file, in the order of the iteration over the lists of the origin. *)
Fixpoint find_package (l : list (string * aptPackages)) (digest : Sha256Digest) :
    option (aptPackages * aptPackagesEntry) :=
  match l with
  | [] => None
  | (_, pkg) :: l' => match getPackagesEntry pkg digest with
                      | Some entry => Some (pkg, entry)
                      | None => find_package l' digest
                      end
  end.

Definition check_entry (st : PackagesState) (info : DebPackageURLInfo) (pkg : aptPackages) (entry : aptPackagesEntry)
    (a : Artifact) : Artifact :=
  let packagesIsValid := isValidPackages (ap_sha256 pkg) st in
  let notes : Annotation := <["packages-size" := AInt (pe_Size entry)]> (<["packages-is-valid" := ABool packagesIsValid]>
    (str_notes [("packages-name", pe_Pkg entry); ("packages-version", pe_Version entry);
       ("packages-architecture", pe_Architecture entry); ("packages-file", Sha256_String (ap_sha256 pkg));
       ("dist", ap_suite pkg); ("component", du_Component info)])) in
  let md := deb_metadata (pe_Pkg entry) (pe_Version entry) (pe_Architecture entry) (ap_suite pkg) in
  if negb packagesIsValid then reject "artifact listed in invalid Packages file" md notes a
  else if negb (Artifact_Size a =? pe_Size entry)%Z then
    reject "artifact size does not match Packages entry" md notes a
  else if negb (String.eqb (du_Architecture info) (pe_Architecture entry)) then
    reject "URL architecture does not match Packages entry" md notes a
  else AnnotateResponse apt_packages_id notes
         (SetResponseUnknown apt_packages_id "deb file matches packages entry" md a).

Definition validateDebianPackage (st : IS) (a : Artifact) : IS * Artifact * option error :=
  match Parse (DownloadURL a) with
  | Err err => (st, a, Some (EText ("cannot parse URL: " +:+ error_string err)))
  | Ok u =>
      let md := deb_metadata "" "" "" "" in
      match RequestStringAnnotation a apt_packages_id "cfg-name" with
      | None => (st, reject "deb file downloaded from unknown repository" md ∅ a, None)
      | Some cfgName =>
          match getOriginAlias (NormalizedOrigin u) cfgName with
          | None => (st, reject "Unknown repository configuration name" md {[ "cfg-name" := AStr cfgName ]} a, None)
          | Some origin =>
              match NewDebPackageURLInfo u cfg with
              | None => panics st a
              | Some (Err _) => (st, a, Some (EText "invalid deb package URL"))
              | Some (Ok info) =>
                  match find_package (map_range (default ∅ (packages (part st) !! origin))) (Artifact_Sha256 a) with
                  | Some (pkg, entry) => (st, check_entry (part st) info pkg entry a, None)
                  | None => (st, reject "deb file digest not listed in packages file" md ∅ a, None)
                  end
              end
          end
      end
  end.

(** *** Package lists *)

Definition packages_type : string := "application/x.apt.packages".

(** The request annotations, or the one that is missing. *)
Definition packages_request (a : Artifact) : (string * string * string) + string :=
  match RequestStringAnnotation a apt_packages_id "suite" with
  | None => inr "suite"
  | Some suite =>
      match RequestStringAnnotation a apt_packages_id "component" with
      | None => inr "component"
      | Some component =>
          match RequestStringAnnotation a apt_packages_id "architecture" with
          | None => inr "architecture"
          | Some architecture => inl (suite, component, architecture)
          end
      end
  end.

(** Parses the list, which is in the state already, and decides. *)
Definition inspect_packages (origin path : string) (pkg : aptPackages) (md : ArtifactMetadata) (data : string)
    (st : IS) (a : Artifact) : IS * Artifact * option error :=
  let st := set_part (addPackages origin path pkg (part st)) st in
  match compressedReader data with
  | Err err => (st, a, Some err)
  | Ok r =>
      match parsePackages r with
      | Err err =>
          (st, reject "error parsing packages file" md
                 (<["error-msg" := AStr (error_string err)]> {[ "package-count" := AInt 0 ]}) a, None)
      | Ok (n, entries) =>
          let notes : Annotation := {[ "package-count" := AInt n ]} in
          let '(ps, a) :=
            match release_note a with
            | Some releaseDigest =>
                (validatePackages (Artifact_Sha256 a) (part st),
                 AnnotateResponse apt_packages_id (<["release-file" := AStr releaseDigest]> notes)
                   (SetResponseApproved apt_packages_id "packages file successfully parsed" md a))
            | None => (part st, reject "packages file not verified against release file" md notes a)
            end in
          (set_part (addPackages origin path (set_entries entries pkg) ps) st, a, None)
      end
  end.

Definition Packages_InspectArtifact (st : IS) (data : string) (a : Artifact) : IS * Artifact * option error :=
  if MimetypeIs a deb_type then validateDebianPackage st a
  else if negb (MimetypeIs a packages_type) then (st, a, None)
  else match Parse (DownloadURL a) with
  | Err err => (st, a, Some (EText ("cannot parse URL: " +:+ error_string err)))
  | Ok u =>
      match packages_request a with
      | inr what =>
          (st, SetResponseUnknown apt_packages_id (what +:+ " not specified in request URL") NoMetadata a, None)
      | inl (suite, component, architecture) =>
          let md vendor := index_metadata packages_type "Packages"
                             (suite +:+ " " +:+ component +:+ " Packages file") vendor suite architecture in
          match RequestStringAnnotation a apt_packages_id "cfg-name" with
          | None => (st, reject "Packages file downloaded from unknown repository" (md "") ∅ a, None)
          | Some cfgName =>
              match getOriginAlias (NormalizedOrigin u) cfgName with
              | None => (st, reject "Unknown repository configuration name" (md "") {[ "cfg-name" := AStr cfgName ]} a, None)
              | Some origin =>
                  let pkg := newAptPackages (Artifact_Sha256 a) origin suite component architecture in
                  let vendor := default "" (ResponseStringAnnotation a apt_release_id "vendor") in
                  inspect_packages origin (Path u) pkg (md vendor) data st a
              end
          end
      end
  end.

Definition AptPackagesInspector : Inspector (IS := IS) :=
  mkInspector apt_packages_id Packages_InspectRequest Packages_InspectArtifact.

(** ** Lemmas *)

Lemma reject_frame reason md notes a b : response_frame apt_packages_id a b ->
  response_frame apt_packages_id a (reject reason md notes b).
Proof. unfold reject. auto with frames. Qed.
#[local] Hint Resolve reject_frame : frames.

Lemma check_entry_frame st info pkg entry a : response_frame apt_packages_id a (check_entry st info pkg entry a).
Proof. unfold check_entry. repeat case_match; auto with frames. Qed.
#[local] Hint Resolve check_entry_frame : frames.

Lemma inspect_packages_frame origin path pkg md data st a st' a' e :
  inspect_packages origin path pkg md data st a = (st', a', e) -> response_frame apt_packages_id a a'.
Proof. unfold inspect_packages. repeat case_match; intros; simplify_eq; auto with frames. Qed.

#[export] Instance Packages_laws : InspectorLaws AptPackagesInspector.
Proof.
  split; simpl.
  - intros st a st' a' e. apply url_request_frame. intros []; simpl; auto with frames.
  - intros st data a st' a' e. unfold Packages_InspectArtifact, validateDebianPackage, panics.
    repeat case_match; intros; simplify_eq; eauto using inspect_packages_frame with frames.
Qed.

(** A file that is no package does not become one. *)
Lemma Packages_type st data a st' a' e :
  MimetypeIs a deb_type = false -> Packages_InspectArtifact st data a = (st', a', e) ->
  MimetypeIs a' deb_type = false.
Proof.
  intros Hd H. destruct (MimetypeIs a' deb_type) eqn:E; [|done].
  rewrite <- Hd. symmetry. revert E. apply (retyped_is packages_type); [|done].
  revert H. unfold Packages_InspectArtifact, inspect_packages, reject. rewrite Hd.
  repeat case_match; intros; simplify_eq; auto 10 with retyped.
Qed.

(** *** What the state comes from *)

(** Every list with entries was read from a file with its digest. *)
Definition list_read (digest : string -> Sha256Digest) (pkg : aptPackages) : Prop :=
  ap_entries pkg = ∅ \/
  exists data r n, digest data = ap_sha256 pkg /\ compressedReader data = Ok r /\
    parsePackages r = Ok (n, ap_entries pkg).
Definition lists_read (digest : string -> Sha256Digest) (ps : PackagesState) : Prop :=
  forall origin m path pkg, packages ps !! origin = Some m -> m !! path = Some pkg -> list_read digest pkg.

Lemma addPackages_read digest origin path pkg ps : list_read digest pkg -> lists_read digest ps ->
  lists_read digest (addPackages origin path pkg ps).
Proof.
  intros Hp Hps o m p pk. simpl. rewrite lookup_insert. case_decide as Ho; [|by eauto].
  intros [= <-]. rewrite lookup_insert. case_decide; [by intros [= <-]|]. subst o.
  destruct (packages ps !! origin) as [m'|] eqn:E; simpl; [by eauto|by rewrite lookup_empty].
Qed.
Lemma validatePackages_read digest d ps : lists_read digest ps -> lists_read digest (validatePackages d ps).
Proof. exact id. Qed.

Context {PL : PartLaws IS PackagesState}.

Lemma inspect_packages_state digest origin path pkg md data st a st' a' e :
  digest data = ap_sha256 pkg -> ap_entries pkg = ∅ -> lists_read digest (part st) ->
  inspect_packages origin path pkg md data st a = (st', a', e) ->
  lists_read digest (part st') /\
  (forall d, validated (part st') !! d = Some tt ->
     validated (part st) !! d = Some tt \/ d = Artifact_Sha256 a /\ exists v, release_note a = Some v).
Proof.
  intros Hd He Hr. unfold inspect_packages.
  pose proof (addPackages_read digest origin path pkg (part st) (or_introl He) Hr) as Hadd.
  destruct (compressedReader data) as [r|] eqn:Ec; [|intros; simplify_eq; rewrite part_set; auto].
  destruct (parsePackages r) as [[n entries]|] eqn:Ep; [|intros; simplify_eq; rewrite part_set; auto].
  assert (list_read digest (set_entries entries pkg)) by (right; exists data, r, n; auto).
  destruct (release_note a) as [v|]; intros; simplify_eq; rewrite !part_set; simpl;
    (split; [auto using addPackages_read, validatePackages_read|]); [|by auto].
  intros d. rewrite lookup_insert. case_decide; [|by auto]. subst d. eauto.
Qed.

(** A run of the inspector: a list of packages may become valid, if the release inspector has found it. *)
Lemma Packages_state digest st data a st' a' e :
  digest data = Artifact_Sha256 a -> lists_read digest (part st) ->
  Packages_InspectArtifact st data a = (st', a', e) ->
  lists_read digest (part st') /\
  (forall d, validated (part st') !! d = Some tt -> validated (part st) !! d = Some tt \/
     d = Artifact_Sha256 a /\ MimetypeIs a packages_type = true /\ exists v, release_note a = Some v).
Proof.
  intros Hd Hr. unfold Packages_InspectArtifact, validateDebianPackage, panics.
  destruct (MimetypeIs a deb_type); [repeat case_match; intros; simplify_eq; by auto|].
  destruct (MimetypeIs a packages_type); [|intros; simplify_eq/=; by auto].
  repeat case_match; intros; simplify_eq; try by auto. simpl in *.
  match goal with Hi : inspect_packages _ _ _ _ _ _ _ = _ |- _ =>
    apply (inspect_packages_state digest) in Hi as [? Hv]; [|done..] end.
  split; [done|]. intros d [?|[-> ?]]%Hv; auto.
Qed.

Lemma check_entry_opinion st info pkg entry a :
  response_opinion apt_packages_id (check_entry st info pkg entry a) = Some Rejected \/
  response_opinion apt_packages_id (check_entry st info pkg entry a) = Some Unknown.
Proof.
  unfold check_entry, reject.
  repeat case_match; autorewrite with opinions; auto.
Qed.

(** What it means that the inspector has nothing against a package. *)
Lemma check_entry_unknown st info pkg entry a :
  response_opinion apt_packages_id (check_entry st info pkg entry a) = Some Unknown ->
  validated st !! ap_sha256 pkg = Some tt /\ Artifact_Size a = pe_Size entry /\
  du_Architecture info = pe_Architecture entry.
Proof.
  unfold check_entry, reject, isValidPackages.
  destruct (validated st !! ap_sha256 pkg) as [[]|]; simpl; [|by autorewrite with opinions].
  destruct (Z.eqb_spec (Artifact_Size a) (pe_Size entry)); simpl; [|by autorewrite with opinions].
  destruct (String.eqb_spec (du_Architecture info) (pe_Architecture entry)); simpl; [done|by autorewrite with opinions].
Qed.

Lemma find_package_Some l digest pkg entry : find_package l digest = Some (pkg, entry) ->
  exists path, In (path, pkg) l /\ ap_entries pkg !! digest = Some entry.
Proof.
  induction l as [|[p q] l IH]; simpl; [done|]. unfold getPackagesEntry.
  destruct (ap_entries q !! digest) eqn:E; [intros [= <- <-]; eauto|].
  intros (path & ? & ?)%IH. eauto.
Qed.
End Packages.

(** ** The chain from a signed release to a package *)

Section Chain.
Context `{ML : MimeLib} `{GL : GlobLib} `{MO : MapOrder} {MOL : MapOrderLaws} `{XZ : Xz} `{GZ : Gzip} `{KB : KeyBlock}.
Context (cfg : AptInspectorConfig) (digest : string -> Sha256Digest).

(** The digest is that of a file listed in a release file signed with a configured key. *)
Definition trusted_digest (d : Sha256Digest) : Prop :=
  exists rel entry, signed_release cfg rel /\ rf_Files rel !! d = Some entry.

(** What holds of the two states after any inspections: releases are signed, lists of packages are those of
    files with their digest, and only trusted lists are valid. *)
Record apt_inv (releases : ReleaseState) (ps : PackagesState) : Prop := {
  inv_releases : forall root rel, releases !! root = Some rel -> signed_release cfg rel;
  inv_lists : lists_read digest ps;
  inv_validated : forall d, validated ps !! d = Some tt -> trusted_digest d;
}.

Lemma apt_inv_init : apt_inv ∅ empty_PackagesState.
Proof. split; simpl; [intros ? ?|intros ? ? ? ?; simpl|intros ?]; by rewrite lookup_empty. Qed.

(** The package is listed, with its size, in a package list that a signed release file lists. *)
Definition trusted_package (a : Artifact) (name version : string) : Prop :=
  exists rel lentry data r n entries entry,
    signed_release cfg rel /\ rf_Files rel !! digest data = Some lentry /\
    compressedReader data = Ok r /\ parsePackages r = Ok (n, entries) /\
    entries !! Artifact_Sha256 a = Some entry /\ pe_Size entry = Artifact_Size a /\
    pe_Pkg entry = name /\ pe_Version entry = version.

Context {IS : Type} `{PR : !Part IS ReleaseState} {PRL : PartLaws IS ReleaseState}.
Context `{PP : !Part IS PackagesState} {PPL : PartLaws IS PackagesState}.
Context {RP : PartOther IS ReleaseState PackagesState} {PRO : PartOther IS PackagesState ReleaseState}.

Lemma Release_inv (st : IS) data a st' a' e : apt_inv (part st) (part st) ->
  Release_InspectArtifact cfg st data a = (st', a', e) -> apt_inv (part st') (part st').
Proof.
  intros [Hrel Hread Hval] H.
  apply (Release_state cfg) in H as [->|(_ & _ & _ & rel & root & -> & _ & Hsig)]; [done|].
  rewrite part_set, part_other. split; [|done..].
  intros root' rel'. unfold setReleaseState. rewrite lookup_insert. case_decide; [by intros [= <-]|eauto].
Qed.

(** The note of the release inspector makes a list of packages trusted. *)
Lemma Release_trusts (st : IS) data a st' a' e v : apt_inv (part st) (part st) -> release_note a = None ->
  Release_InspectArtifact cfg st data a = (st', a', e) ->
  MimetypeIs a' packages_type = true -> release_note a' = Some v -> trusted_digest (Artifact_Sha256 a').
Proof.
  intros [Hrel _ _] Hn H Hm Hv.
  pose proof (law_response (InspectorLaws := Release_laws cfg) _ _ _ _ _ _ H) as Hf. simpl in Hf.
  unfold Artifact_Sha256. rewrite (fr_sha256 _ _ (rs_frame _ _ _ Hf)).
  destruct (index_file a) eqn:Hi.
  - destruct (Release_note cfg _ _ _ _ _ _ _ Hi Hn H Hv) as (root & rel & entry & Hr & He & _).
    exists rel, entry. eauto.
  - apply (Release_type cfg _ _ _ _ _ _ packages_type Hi) in H as Hm'; [|done..].
    unfold index_file, packages_type in *. by rewrite Hm' in Hi.
Qed.

Lemma Packages_releases (st : IS) data a st' a' e : Packages_InspectArtifact cfg st data a = (st', a', e) ->
  part (A := ReleaseState) st' = part st.
Proof.
  unfold Packages_InspectArtifact, validateDebianPackage, inspect_packages, panics.
  repeat case_match; intros; simplify_eq; by rewrite ?part_other.
Qed.

Lemma Packages_inv (st : IS) data a st' a' e : apt_inv (part st) (part st) ->
  digest data = Artifact_Sha256 a ->
  (forall v, MimetypeIs a packages_type = true -> release_note a = Some v -> trusted_digest (Artifact_Sha256 a)) ->
  Packages_InspectArtifact cfg st data a = (st', a', e) -> apt_inv (part st') (part st').
Proof.
  intros [Hrel Hread Hval] Hd Hnote H. pose proof H as Hs.
  eapply (Packages_state cfg digest) in H as [Hl Hv]; [|done..].
  apply Packages_releases in Hs. rewrite Hs. split; [done..|].
  intros d [Hold|(-> & Hm & v & Hn)]%Hv; eauto.
Qed.

(** A package the inspector does not object to. *)
Lemma package_trusted (st : IS) data a st' a' :
  apt_inv (part st) (part st) -> MimetypeIs a deb_type = true -> ResponseInspection a !! apt_packages_id = None ->
  Packages_InspectArtifact cfg st data a = (st', a', None) ->
  response_opinion apt_packages_id a' = Some Rejected \/ exists name version, trusted_package a name version.
Proof.
  intros [Hrel Hread Hval] Hm Hno. unfold Packages_InspectArtifact, validateDebianPackage, panics. rewrite Hm.
  assert (Hrej : forall reason md notes, response_opinion apt_packages_id (reject reason md notes a) = Some Rejected).
  { intros. unfold reject. by autorewrite with opinions. }
  destruct (Parse _) as [u|]; [|done].
  destruct (RequestStringAnnotation _ _ _) as [cfgName|]; [|intros; simplify_eq; auto].
  destruct (getOriginAlias _ _ _) as [origin|]; [|intros; simplify_eq; auto].
  destruct (NewDebPackageURLInfo _ _) as [[info|]|]; [|done..].
  destruct (find_package _ _) as [[pkg entry]|] eqn:Ef; [|intros; simplify_eq; auto]. intros [= <- <-].
  apply find_package_Some in Ef as (path & Hin & He). apply map_range_elem in Hin.
  destruct (packages (part st) !! origin) as [m|] eqn:Eo; simpl in Hin; [|by rewrite lookup_empty in Hin].
  destruct (Hread origin m path pkg Eo Hin) as [Hnone|(pdata & r & n & Hd & Hc & Hp)];
    [by rewrite Hnone, lookup_empty in He|].
  destruct (decide (response_opinion apt_packages_id (check_entry (part st) info pkg entry a) = Some Unknown)) as [Hu|Hu].
  - right. apply check_entry_unknown in Hu as (Hv & Hs & _). apply Hval in Hv as (rel & lentry & Hsig & Hl).
    exists (pe_Pkg entry), (pe_Version entry), rel, lentry, pdata, r, n, (ap_entries pkg), entry.
    rewrite Hd. eauto 10.
  - left. destruct (check_entry_opinion (part st) info pkg entry a) as [?|?]; [done|congruence].
Qed.
End Chain.
