(* ===== verification/License.v ===== *)
(** * Licenses

    The license check of [utils/file_utils.go], which runs the [licensecheck] program; what it prints for a file
    with some content is a parameter. *)
From stdpp Require Import base strings list option.
From Stdlib Require Import ZArith Lia Ascii.
From S2P Require Import Prelude GoStrings GoCodec Platform Regexp.

(** The standard output of [licensecheck --machine --shortname-scheme=spdx] for a file, or why it failed. *)
Class LicenseTool := { licensecheck : string -> string -> result string }.

(** The name of the file [os.CreateTemp] makes, or why it fails. *)
Class TempFiles := { os_CreateTemp : result string }.

Definition reExpat : Regexp := MustCompile "\bExpat\b".

(** [ReplaceAllLiteralString] for an expression that does not match the empty text: after a match the search
    goes on behind it, otherwise one rune further. *)
Fixpoint replace_from (fuel : nat) (rx : Regexp) (p : pos) (new : string) : string :=
  match fuel with
  | O => snd p
  | S n =>
      match snd p with
      | "" => ""
      | _ =>
          match run (prog rx) p [] with
          | (q, _) :: _ => new +:+ replace_from n rx q new
          | [] => let q := forward (rune_width (snd p)) p in between p q +:+ replace_from n rx q new
          end
      end
  end.
Definition ReplaceAllLiteralString (rx : Regexp) (s new : string) : string :=
  replace_from (S (String.length s)) rx (start s) new.

Section License.
Context `{LT : LicenseTool} `{OS : Os}.

(** The second field of the output; Debian's name of the MIT license is replaced. *)
Definition license_field (out : string) : string :=
  match Split (TrimSpace out) (chr 9) with
  | _ :: license :: _ => ReplaceAllLiteralString reExpat license "MIT"
  | _ => ""
  end.

(** [GetLicense] of a file with some content; the license is empty when there is an error. *)
Definition GetLicense (filename content : string) : string * option error :=
  match licensecheck filename content with
  | Err err => ("", Some (EText ("license check error: " +:+ error_string err)))
  | Ok out => (license_field out, None)
  end.

(** The first of the files that exists; one that cannot be read has no content for the program. *)
Fixpoint CheckLicenseFiles (fs : FS) (files : list string) : string * option error :=
  match files with
  | [] => ("", None)
  | f :: files' =>
      match os_Stat fs f with
      | Err _ => CheckLicenseFiles fs files'
      | Ok _ =>
          match GetLicense f (match os_ReadFile fs f with Ok c => c | Err _ => "" end) with
          | (_, Some err) => ("", Some err)
          | r => r
          end
      end
  end.
End License.

Example license_field_example :
  license_field ("/tmp/x" +:+ str1 (chr 9) +:+ "Expat and/or GPL-2" +:+ str1 nl) = "MIT and/or GPL-2".
Proof. by vm_compute. Qed.
Example Expat_word : ReplaceAllLiteralString reExpat "NotExpat Expat" "MIT" = "NotExpat MIT".
Proof. by vm_compute. Qed.
