(* ===== verification/AptIndex.v ===== *)
(** * Translations and command lists

    [inspectors/apt/translation.go] and [inspectors/apt/commands.go]: the inspectors of the compressed translation
    files and command lists of an archive, which approve only what the release inspector found in a release. *)
From stdpp Require Import base gmap strings list option fin_maps.
From Stdlib Require Import ZArith Lia Ascii.
From S2P Require Import Prelude GoStrings GoCodec Platform HttpUtil Digests Artifact Net Config.
From S2P Require Import Inspectors InspectorLib Archives OpenPgp Regexp Url AptConfig AptRelease.

(** ** Parsing *)

(** What was seen of the item being read, and the language and the number of items before it. *)
Record translation := mktranslation {
  statePackage : bool;
  stateMD5sum : bool;
  stateDescription : bool;
  tr_lang : string;
  itemCount : Z;
}.

Definition translation_line (line : string) (s : translation) : result translation :=
  if HasPrefix line "Package: " then
    if statePackage s then Err (EText "misplaced package fields in translation file")
    else Ok (mktranslation true (stateMD5sum s) (stateDescription s) (tr_lang s) (itemCount s))
  else if HasPrefix line "Description-md5: " then
    if negb (statePackage s) then Err (EText "description-md5 field without Package field")
    else Ok (mktranslation (statePackage s) true (stateDescription s) (tr_lang s) (itemCount s))
  else if HasPrefix line "Description-" then
    if negb (stateMD5sum s) || negb (statePackage s) then
      Err (EText "description field without Package or Description-md5 field")
    else
      let lang := if String.eqb (tr_lang s) "" then
                    match Cut line ":" with
                    | Some (descLang, _) => TrimPrefix descLang "Description-"
                    | None => tr_lang s
                    end
                  else tr_lang s in
      Ok (mktranslation (statePackage s) (stateMD5sum s) true lang (itemCount s))
  else if HasPrefix line " " then
    if negb (stateDescription s) then Err (EText "description field without Package or Description-md5 field")
    else Ok s
  else if String.eqb line "" then
    Ok (mktranslation false false false (tr_lang s) (if stateDescription s then itemCount s + 1 else itemCount s)%Z)
  else Ok s.
Fixpoint translation_lines (lines : list string) (s : translation) : result translation :=
  match lines with [] => Ok s | l :: rest => s' ← translation_line l s; translation_lines rest s' end.

(** The language and the number of items; the last item may lack the empty line after it. *)
Definition parseTranslationFile (lines : list string) : result (string * Z) :=
  s ← translation_lines lines (mktranslation false false false "" 0);
  if (0 <? itemCount s)%Z then
    if statePackage s && negb (stateMD5sum s) then
      Err (EText "description-md5 field missing for the last Package")
    else if statePackage s && negb (stateDescription s) then
      Err (EText "description field missing for the last Package")
    else Ok (tr_lang s, itemCount s)
  else Err (EText "not a valid translation file").

Definition errIllFormed : error := EText "ill-formed commands file header".

(** Suite, component and architecture up to an empty line, and the lines after it. *)
Fixpoint header_lines (lines : list string) (suite component arch : string) :
    result (string * string * string * list string) :=
  let stop rest := if String.eqb suite "" || String.eqb component "" || String.eqb arch "" then Err errIllFormed
                   else Ok (suite, component, arch, rest) in
  match lines with
  | [] => stop []
  | "" :: rest => stop rest
  | line :: rest =>
      match Cut line ":" with
      | None => Err errIllFormed
      | Some (k, v) =>
          let k := TrimSpace k in
          let v := TrimSpace v in
          if String.eqb k "suite" then header_lines rest v component arch
          else if String.eqb k "component" then header_lines rest suite v arch
          else if String.eqb k "arch" then header_lines rest suite component v
          else header_lines rest suite component arch
      end
  end.
Definition parseHeader (lines : list string) : result (string * string * string * list string) :=
  header_lines lines "" "" "".

(** The number of items, each closed by an empty line. *)
Fixpoint parse_pkgs (lines : list string) (stateName stateVersion stateCommands : bool) (itemCount : Z) : result Z :=
  match lines with
  | [] => Ok itemCount
  | line :: rest =>
      if HasPrefix line "name: " then
        if stateName then Err (EText "duplicate name field in commands file")
        else parse_pkgs rest true stateVersion stateCommands itemCount
      else if HasPrefix line "version: " then
        if stateVersion then Err (EText "duplicate version field in commands file")
        else parse_pkgs rest stateName true stateCommands itemCount
      else if HasPrefix line "commands: " then
        if stateCommands then Err (EText "duplicate commands field in commands file")
        else parse_pkgs rest stateName stateVersion true itemCount
      else if String.eqb line "" then
        if negb stateName || negb stateVersion || negb stateCommands then
          Err (EText "ill-formed entry in commands file")
        else parse_pkgs rest false false false (itemCount + 1)
      else parse_pkgs rest stateName stateVersion stateCommands itemCount
  end.
Definition parsePkgList (lines : list string) : result Z := parse_pkgs lines false false false 0.

(** ** The inspectors *)

Definition apt_translations_id : string := "apt.translations".
Definition apt_commands_id : string := "apt.commands".
Definition translation_type : string := "application/x.apt.translation".
Definition commands_type : string := "application/x.apt.commands".

Section AptIndex.
Context `{ML : MimeLib} `{GL : GlobLib} `{MO : MapOrder} `{XZ : Xz}.
Context {IS : Type} (cfg : AptInspectorConfig).

(** The vendor the release inspector found, and the decision by its note about the release. *)
Definition release_vendor (a : Artifact) : string := default "" (ResponseStringAnnotation a apt_release_id "vendor").
Definition decide_listed (id ok_reason bad_reason : string) (md : ArtifactMetadata) (notes : Annotation) (a : Artifact) :
    Artifact :=
  AnnotateResponse id notes
    match release_note a with
    | Some _ => SetResponseApproved id ok_reason md a
    | None => SetResponseRejected id bad_reason md a
    end.

Definition Translation_InspectRequest (st : IS) (a : Artifact) : IS * Artifact * option error :=
  url_request (fun u => NewTranslationURLInfo u cfg)
    (fun i a => AnnotateRequest apt_translations_id
       (str_notes [("repository", tu_Repository i); ("suite", tu_Suite i); ("component", tu_Component i)])
       (SetRequestPending apt_translations_id "valid URL for Translation file" a)) st a.

Definition Translation_InspectArtifact (st : IS) (data : string) (a : Artifact) : IS * Artifact * option error :=
  if negb (MimetypeIs a translation_type) then (st, a, None)
  else match Parse (DownloadURL a) with
  | Err err => (st, a, Some (EText ("cannot parse URL: " +:+ error_string err)))
  | Ok _ =>
      let md := index_metadata translation_type "Translation" "" in
      match xz_NewReader (bytes data) with
      | Err _ => (st, SetResponseUnknown apt_translations_id "cannot read xz file" (md "" "" "") a, None)
      | Ok r =>
          match parseTranslationFile (fst (Scanner_Buffer 1048576 (body_data r))) with
          | Err err => (st, SetResponseRejected apt_translations_id (error_string err) (md "" "" "") a, None)
          | Ok (lang, count) =>
              match RequestStringAnnotation a apt_translations_id "suite" with
              | None =>
                  (st, SetResponseUnknown apt_translations_id "suite not specified in request URL" (md "" "" "") a, None)
              | Some suite =>
                  (st, decide_listed apt_translations_id "translation file successfully parsed"
                         "translation file not verified against release file" (md (release_vendor a) suite "")
                         (<["translation-language" := AStr lang]> {[ "translation-count" := AInt count ]}) a, None)
              end
          end
      end
  end.

Definition AptTranslationInspector : Inspector (IS := IS) :=
  mkInspector apt_translations_id Translation_InspectRequest Translation_InspectArtifact.

Definition Commands_InspectRequest (st : IS) (a : Artifact) : IS * Artifact * option error :=
  url_request (fun u => NewCommandURLInfo u cfg)
    (fun i a => AnnotateRequest apt_commands_id
       (str_notes [("repository", cu_Repository i); ("suite", cu_Suite i); ("component", cu_Component i)])
       (SetRequestPending apt_commands_id "valid URL for Commands file" a)) st a.

Definition Commands_InspectArtifact (st : IS) (data : string) (a : Artifact) : IS * Artifact * option error :=
  if negb (MimetypeIs a commands_type) then (st, a, None)
  else match Parse (DownloadURL a) with
  | Err err => (st, a, Some (EText ("cannot parse URL: " +:+ error_string err)))
  | Ok _ =>
      let md := index_metadata commands_type "Commands" "Commands list for command-not-found" in
      let reject reason suite := (st, SetResponseRejected apt_commands_id reason (md "" suite "") a, None) in
      match xz_NewReader (bytes data) with
      | Err _ => reject "cannot read xz file" ""
      | Ok r =>
          match parseHeader (fst (Scanner_Buffer 1048576 (body_data r))) with
          | Err err => reject (error_string err) ""
          | Ok (suite, component, arch, rest) =>
              match parsePkgList (tl rest) with
              | Err err => reject (error_string err) suite
              | Ok count =>
                  (st, decide_listed apt_commands_id "commands file successfully parsed"
                         "commands file not verified against release file" (md (release_vendor a) suite "")
                         (<["count" := AInt count]>
                            (str_notes [("suite", suite); ("component", component); ("arch", arch)])) a, None)
              end
          end
      end
  end.

Definition AptCommandsInspector : Inspector (IS := IS) :=
  mkInspector apt_commands_id Commands_InspectRequest Commands_InspectArtifact.

(** ** Lemmas *)

Lemma decide_listed_frame id r1 r2 md notes a b : response_frame id a b ->
  response_frame id a (decide_listed id r1 r2 md notes b).
Proof. unfold decide_listed. case_match; auto with frames. Qed.
#[local] Hint Resolve decide_listed_frame : frames.

Lemma decide_listed_opinion id r1 r2 md notes a :
  response_opinion id (decide_listed id r1 r2 md notes a) = Some Approved <-> exists v, release_note a = Some v.
Proof. unfold decide_listed. destruct (release_note a); autorewrite with opinions; naive_solver. Qed.

#[export] Instance Translation_laws : InspectorLaws AptTranslationInspector.
Proof.
  split; simpl.
  - intros st a st' a' e. apply url_request_frame. auto with frames.
  - unfold Translation_InspectArtifact. solve_frame.
Qed.

#[export] Instance Commands_laws : InspectorLaws AptCommandsInspector.
Proof.
  split; simpl.
  - intros st a st' a' e. apply url_request_frame. auto with frames.
  - unfold Commands_InspectArtifact. solve_frame.
Qed.

(** The types they may give a file. *)
Lemma Translation_retyped st data a st' a' e :
  Translation_InspectArtifact st data a = (st', a', e) -> retyped translation_type a a'.
Proof.
  unfold Translation_InspectArtifact, decide_listed. repeat case_match; intros; simplify_eq; auto 10 with retyped.
Qed.
Lemma Commands_retyped st data a st' a' e :
  Commands_InspectArtifact st data a = (st', a', e) -> retyped commands_type a a'.
Proof.
  unfold Commands_InspectArtifact, decide_listed. repeat case_match; intros; simplify_eq; auto 10 with retyped.
Qed.
End AptIndex.

(** An item is counted when its description was seen. *)
Example parseTranslationFile_example :
  parseTranslationFile ["Package: a"; "Description-md5: 1"; "Description-en: x"; " y"; ""; "Package: b";
    "Description-md5: 2"; "Description-en: z"] = Ok ("en", 1%Z).
Proof. by vm_compute. Qed.
(** The list of commands follows two empty lines. *)
Example parseHeader_commands :
  match parseHeader ["suite: jammy"; "component: main"; "arch: amd64"; ""; ""; "name: a"; "version: 1"; "commands: c"; ""]
  with Ok (_, rest) => parsePkgList (tl rest) | Err e => Err e end = Ok 1%Z.
Proof. by vm_compute. Qed.
