(* ===== verification/Deb.v ===== *)
(** * Debian packages

    [inspectors/deb/deb.go]: the inspector that reads the control data and the copyright file of a package. It
    approves only what the inspector of package lists found valid. *)
From stdpp Require Import base gmap strings list option fin_maps.
From Stdlib Require Import ZArith Lia Ascii.
From S2P Require Import Prelude GoStrings GoCodec Platform HttpUtil Digests Artifact Net Config.
From S2P Require Import Inspectors InspectorLib Archives OpenPgp Regexp Url License AptConfig AptRelease AptPackages.

(** [github.com/blakesmith/ar] and zstd of [github.com/klauspost/compress]: the members of an archive with the error
    after them ([None] is [io.EOF]), and the decompressed stream. *)
Class Ar := { ar_read : Body -> list (string * Body) * option error }.
Class Zstd := { zstd_NewReader : Body -> result Body }.
(** [unicode.ToUpper] on the encoding of a rune. *)
Class Unicode := { unicode_ToUpper : string -> string }.

(** The runes of a text, encoded; an invalid byte is the replacement character. *)
Fixpoint rune_texts (fuel : nat) (s : string) : list string :=
  match fuel, s with
  | S n, String _ _ =>
      match rune_len s with
      | O => RuneErrorBytes :: rune_texts n (str_drop 1 s)
      | S k => str_take (S k) s :: rune_texts n (str_drop (S k) s)
      end
  | _, _ => []
  end.
Definition runes (s : string) : list string := rune_texts (String.length s) s.

(** ** Metadata as it is filled in *)

Definition with_Name (m : ArtifactMetadata) (v : string) : ArtifactMetadata :=
  mkArtifactMetadata (am_Type m) v (am_Version m) (am_Vendor m) (am_Description m) (am_Author m) (am_AuthorEmail m)
    (am_Architecture m) (am_License m) (am_Copyright m) (am_SourcePackage m) (am_StoreRevision m) (am_AptSuite m)
    (am_ContentID m).
Definition with_Version (m : ArtifactMetadata) (v : string) : ArtifactMetadata :=
  mkArtifactMetadata (am_Type m) (am_Name m) v (am_Vendor m) (am_Description m) (am_Author m) (am_AuthorEmail m)
    (am_Architecture m) (am_License m) (am_Copyright m) (am_SourcePackage m) (am_StoreRevision m) (am_AptSuite m)
    (am_ContentID m).
Definition with_Vendor (m : ArtifactMetadata) (v : string) : ArtifactMetadata :=
  mkArtifactMetadata (am_Type m) (am_Name m) (am_Version m) v (am_Description m) (am_Author m) (am_AuthorEmail m)
    (am_Architecture m) (am_License m) (am_Copyright m) (am_SourcePackage m) (am_StoreRevision m) (am_AptSuite m)
    (am_ContentID m).
Definition with_Description (m : ArtifactMetadata) (v : string) : ArtifactMetadata :=
  mkArtifactMetadata (am_Type m) (am_Name m) (am_Version m) (am_Vendor m) v (am_Author m) (am_AuthorEmail m)
    (am_Architecture m) (am_License m) (am_Copyright m) (am_SourcePackage m) (am_StoreRevision m) (am_AptSuite m)
    (am_ContentID m).
Definition with_Author (m : ArtifactMetadata) (v : string) : ArtifactMetadata :=
  mkArtifactMetadata (am_Type m) (am_Name m) (am_Version m) (am_Vendor m) (am_Description m) v (am_AuthorEmail m)
    (am_Architecture m) (am_License m) (am_Copyright m) (am_SourcePackage m) (am_StoreRevision m) (am_AptSuite m)
    (am_ContentID m).
Definition with_Architecture (m : ArtifactMetadata) (v : string) : ArtifactMetadata :=
  mkArtifactMetadata (am_Type m) (am_Name m) (am_Version m) (am_Vendor m) (am_Description m) (am_Author m)
    (am_AuthorEmail m) v (am_License m) (am_Copyright m) (am_SourcePackage m) (am_StoreRevision m) (am_AptSuite m)
    (am_ContentID m).
Definition with_License (m : ArtifactMetadata) (v : string) : ArtifactMetadata :=
  mkArtifactMetadata (am_Type m) (am_Name m) (am_Version m) (am_Vendor m) (am_Description m) (am_Author m)
    (am_AuthorEmail m) (am_Architecture m) v (am_Copyright m) (am_SourcePackage m) (am_StoreRevision m)
    (am_AptSuite m) (am_ContentID m).
Definition with_SourcePackage (m : ArtifactMetadata) (v : string) : ArtifactMetadata :=
  mkArtifactMetadata (am_Type m) (am_Name m) (am_Version m) (am_Vendor m) (am_Description m) (am_Author m)
    (am_AuthorEmail m) (am_Architecture m) (am_License m) (am_Copyright m) v (am_StoreRevision m) (am_AptSuite m)
    (am_ContentID m).

(** The metadata so far and the error; [None] is a panic. *)
Notation filled := (option (ArtifactMetadata * option error)).

(** Goes on with the metadata if there is no error. *)
Definition and_then (c : filled) (f : ArtifactMetadata -> filled) : filled :=
  match c with Some (md, None) => f md | _ => c end.
Fixpoint each {A} (f : A -> ArtifactMetadata -> filled) (l : list A) (md : ArtifactMetadata) : filled :=
  match l with [] => Some (md, None) | x :: l' => and_then (f x md) (each f l') end.

Definition deb_id : string := "deb".

Section Deb.
Context `{ML : MimeLib} `{GL : GlobLib} `{MO : MapOrder} `{XZ : Xz} `{GZ : Gzip} `{ZS : Zstd} `{TR : Tar} `{AR : Ar}
  `{UC : Unicode} `{TF : TempFiles} `{LT : LicenseTool}.

(** ** Control data *)

(** The access to the first rune of an empty description panics. *)
Definition control_field (k v : string) (md : ArtifactMetadata) : filled :=
  if String.eqb k "Package" then Some (with_Name md v, None)
  else if String.eqb k "Version" then Some (with_Version md v, None)
  else if String.eqb k "Architecture" then Some (with_Architecture md v, None)
  else if String.eqb k "Description" then
    match runes v with
    | [] => None
    | r :: rest => Some (with_Description md (String.concat "" (unicode_ToUpper r :: rest)), None)
    end
  else if String.eqb k "Maintainer" then Some (with_Vendor md v, None)
  else if String.eqb k "Source" then Some (with_SourcePackage md v, None)
  else Some (md, None).

(** The lines up to the first empty one. *)
Fixpoint control_lines (lines : list string) (md : ArtifactMetadata) : filled :=
  match lines with
  | [] | "" :: _ => Some (md, None)
  | line :: rest =>
      if HasPrefix line " " then control_lines rest md
      else match Cut line ":" with
           | None => control_lines rest md
           | Some (k, v) => and_then (control_field k (TrimSpace v) md) (control_lines rest)
           end
  end.
Definition parseControl (tf : Body) (md : ArtifactMetadata) : filled :=
  and_then (control_lines (fst (Scanner_Lines (body_data tf))) md) (fun md =>
    Some (md, if String.eqb (am_Name md) "" || String.eqb (am_Version md) "" then
                Some (EText "package name and version not listed in control file") else None)).

(** The entries of an archive, then its error. *)
Definition each_tar (f : tar_entry -> ArtifactMetadata -> filled) (zf : Body) (md : ArtifactMetadata) : filled :=
  let '(entries, err) := tar_read zf in and_then (each f entries md) (fun md => Some (md, err)).

Definition parseControlTar (zf : Body) (md : ArtifactMetadata) : filled :=
  each_tar (fun h md => if String.eqb (te_Name h) "./control" then parseControl (te_Body h) md else Some (md, None)) zf md.

(** ** The copyright file *)

Definition copyright : Regexp := MustCompile "^\./usr/share/doc/[^/]+/copyright$".

Definition copyright_line (line : string) (md : ArtifactMetadata) : ArtifactMetadata :=
  if HasPrefix line " " then md
  else match Cut line ": " with
       | Some (k, v) => if String.eqb k "Upstream author" then with_Author md v else md
       | None => md
       end.

(** The lines are also copied to a temporary file, for the license check. *)
Definition parseCopyright (tf : Body) (md : ArtifactMetadata) : ArtifactMetadata * option error :=
  let lines := fst (Scanner_Lines (body_data tf)) in
  match os_CreateTemp with
  | Err err => (md, Some err)
  | Ok temp =>
      let md := fold_left (fun md line => copyright_line line md) lines md in
      let '(license, err) := GetLicense temp (String.concat "" (map (fun l => l +:+ str1 nl) lines)) in
      (with_License md license, err)
  end.

Definition parseDataTar (zf : Body) (md : ArtifactMetadata) : filled :=
  each_tar (fun h md => if MatchString copyright (te_Name h) then Some (parseCopyright (te_Body h) md)
                        else Some (md, None)) zf md.

(** ** The package *)

Definition getDebianBinaryVersion (af : Body) : string :=
  match fst (Scanner_Lines (body_data af)) with [] => "" | line :: _ => TrimSpace line end.

(** A compressed member. *)
Definition unpacked (r : result Body) (parse : Body -> ArtifactMetadata -> filled) (md : ArtifactMetadata) : filled :=
  match r with Err err => Some (md, Some err) | Ok zf => parse zf md end.

Definition read_member (m : string * Body) (md : ArtifactMetadata) : filled :=
  let '(name, af) := m in
  let named := String.eqb name in
  if named "debian-binary" then
    let ver := getDebianBinaryVersion af in
    Some (md, if negb (String.eqb ver "2.0") then Some (EText ("unknown debian binary version '" +:+ ver +:+ "'")) else None)
  else if named "control.tar.gz" then unpacked (gzip_NewReader af) parseControlTar md
  else if named "control.tar.xz" then unpacked (xz_NewReader af) parseControlTar md
  else if named "control.tar.zst" || named "control.tar.zstd" then unpacked (zstd_NewReader af) parseControlTar md
  else if named "control.tar" then parseControlTar af md
  else if named "data.tar.gz" then unpacked (gzip_NewReader af) parseDataTar md
  else if named "data.tar.xz" then unpacked (xz_NewReader af) parseDataTar md
  else if named "data.tar.zst" || named "data.tar.zstd" then unpacked (zstd_NewReader af) parseDataTar md
  else if named "data.tar" then parseDataTar af md
  else Some (md, None).

Definition readDebMetadata (f : Body) (md : ArtifactMetadata) : filled :=
  let '(members, err) := ar_read f in
  and_then (each read_member members md) (fun md =>
    Some (md, match err with
              | Some err => Some (EWrap "ar parse error: " err "")
              | None => if String.eqb (am_Name md) "" || String.eqb (am_Version md) "" then
                          Some (EText "cannot read name and version from control metadata") else None
              end)).

(** ** The inspector *)

Context {IS : Type} (cfg : AptInspectorConfig).

Definition Deb_InspectRequest (st : IS) (a : Artifact) : IS * Artifact * option error :=
  url_request (fun u => NewDebPackageURLInfo u cfg)
    (fun i a => AnnotateRequest deb_id
       (str_notes [("repository", du_Repository i); ("component", du_Component i); ("name", du_Name i);
          ("version", du_Version i); ("architecture", du_Architecture i)])
       (SetRequestPending deb_id "valid URL for deb package" a)) st a.

Definition Deb_InspectArtifact (st : IS) (data : string) (a : Artifact) : IS * Artifact * option error :=
  if negb (MimetypeIs a deb_type) then (st, a, None)
  else match readDebMetadata (bytes data) NoMetadata with
  | None => (st, a, Some index_out_of_range)
  | Some (md, Some err) => (st, SetResponseRejected deb_id (error_string err) md a, None)
  | Some (md, None) =>
      match ResponseBoolAnnotation a apt_packages_id "packages-is-valid" with
      | None => (st, SetResponseRejected deb_id "deb file not verified against Packages file" md a, None)
      | Some false => (st, SetResponseRejected deb_id "deb file listed in invalid Packages file" md a, None)
      | Some true =>
          (st, SetResponseApproved deb_id "deb package successfully parsed and listed in valid Packages file" md a, None)
      end
  end.

Definition DebInspector : Inspector (IS := IS) := mkInspector deb_id Deb_InspectRequest Deb_InspectArtifact.

(** ** Lemmas *)

#[export] Instance Deb_laws : InspectorLaws DebInspector.
Proof.
  split; simpl.
  - intros st a st' a' e. apply url_request_frame. auto with frames.
  - unfold Deb_InspectArtifact. solve_frame.
Qed.

(** What fills in the metadata keeps an error where it was found. *)
Lemma each_app {A} (f : A -> ArtifactMetadata -> filled) l1 l2 md :
  each f (l1 ++ l2) md = and_then (each f l1 md) (each f l2).
Proof.
  revert md. induction l1 as [|x l1 IH]; intros md; simpl; [done|].
  destruct (f x md) as [[md' [e|]]|]; simpl; auto.
Qed.

Lemma Deb_approved st data a st' a' : Deb_InspectArtifact st data a = (st', a', None) ->
  ResponseInspection a !! deb_id = None -> response_opinion deb_id a' = Some Approved ->
  MimetypeIs a deb_type = true /\
  exists md, readDebMetadata (bytes data) NoMetadata = Some (md, None) /\ am_Name md <> "" /\ am_Version md <> "" /\
    a' = SetResponseApproved deb_id "deb package successfully parsed and listed in valid Packages file" md a /\
    ResponseBoolAnnotation a apt_packages_id "packages-is-valid" = Some true.
Proof.
  unfold Deb_InspectArtifact. intros H Hno Hop.
  assert (Hold : response_opinion deb_id a = None) by (unfold response_opinion; by rewrite Hno).
  destruct (MimetypeIs a deb_type); [|simplify_eq/=; congruence]. split; [done|]. simpl in H.
  destruct (readDebMetadata _ _) as [[md [err|]]|] eqn:Er; [|..|done];
    [simplify_eq; by autorewrite with opinions in Hop|].
  destruct (ResponseBoolAnnotation _ _ _) as [[]|]; simplify_eq; [|by autorewrite with opinions in Hop..].
  exists md. split; [done|].
  assert (Hne : am_Name md <> "" /\ am_Version md <> ""); [|naive_solver].
  revert Er. unfold readDebMetadata. destruct (ar_read _) as [members err].
  destruct (each _ _ _) as [[md' [e|]]|]; simpl; [done| |done].
  destruct err; [done|]. intros [= <- Hn]. revert Hn.
  destruct (String.eqb_spec (am_Name md') ""), (String.eqb_spec (am_Version md') ""); simpl; auto; done.
Qed.
End Deb.

(** A description without text ends in a panic. *)
Lemma deb_empty_description_panics `{Unicode} md : control_field "Description" "" md = None.
Proof. reflexivity. Qed.
