(* ===== verification/Detectors.v ===== *)
(** * Detection of file types

    The detectors of [inspectors/apt] and the list of all detectors with the types they extend, which
    [inspectors/inspectors.go] registers with the mimetype library at start-up. *)
From stdpp Require Import base gmap strings list option fin_maps.
From Stdlib Require Import ZArith Lia Ascii.
From S2P Require Import Prelude GoStrings GoCodec Platform HttpUtil Digests Artifact Net Config.
From S2P Require Import Inspectors InspectorLib Archives AptConfig AptRelease AptPackages Snap.

(** What one [Read] of a decompressed stream gives for a buffer of some size; [io.EOF] is no error here. *)
Class FirstRead := { first_read : nat -> Body -> result string }.

Section Detectors.
Context `{XZ : Xz} `{GZ : Gzip} `{FR : FirstRead}.

(** The names of the fields up to an empty line or the size; [None] if a line is no field. *)
Fixpoint packages_fields (lines : list string) (fields : gmap string unit) : option (gmap string unit) :=
  match lines with
  | [] | "" :: _ => Some fields
  | line :: rest =>
      match Cut line ":" with
      | None => None
      | Some (k, _) => if String.eqb k "Size" then Some fields else packages_fields rest (<[k := tt]> fields)
      end
  end.

Definition has_fields (fields : gmap string unit) (l : list string) : bool :=
  forallb (fun k => match fields !! k with Some _ => true | None => false end) l.

Definition AptPackagesDetector (raw : string) (limit : Z) : bool :=
  match compressedReader raw with
  | Err _ => false
  | Ok r =>
      match first_read 4096 r with
      | Err _ => false
      | Ok buf =>
          match packages_fields (fst (Scanner_Lines buf)) ∅ with
          | None => false
          | Some fields =>
              has_fields fields ["Package"; "Architecture"; "Version"; "Built-Using"] ||
              has_fields fields ["Package"; "Architecture"; "Version"; "Priority"; "Section"; "Maintainer"]
          end
      end
  end.

(** The fields of a text, and whether there are as many as expected. *)
Fixpoint text_fields (lines : list string) (fields : gmap string unit) : option (gmap string unit) :=
  match lines with
  | [] | "" :: _ => Some fields
  | line :: rest =>
      if HasPrefix line " " then text_fields rest fields
      else match Cut line ":" with
           | None => None
           | Some (k, _) => text_fields rest (<[k := tt]> fields)
           end
  end.
Definition getTextFields (buf : string) (n : nat) : option (gmap string unit) :=
  fields ← text_fields (fst (Scanner_Lines buf)) ∅;
  if size fields =? n then Some fields else None.

Definition text_detector (bufsize : nat) (expectedFields : list string) (raw : string) : bool :=
  match xz_NewReader (bytes raw) with
  | Err _ => false
  | Ok r =>
      match first_read bufsize r with
      | Err _ => false
      | Ok buf => match getTextFields buf 3 with Some fields => has_fields fields expectedFields | None => false end
      end
  end.
Definition AptTranslationDetector (raw : string) (limit : Z) : bool :=
  text_detector 1024 ["Package"; "Description-md5"] raw.
Definition AptCommandsDetector (raw : string) (limit : Z) : bool :=
  text_detector 4096 ["suite"; "component"; "arch"] raw.

(** The type extended, the detector, the new type and its file extension, in the order of registration. *)
Definition mime_extensions : list (string * (string -> Z -> bool) * string * string) := [
  ("application/x-xz", AptPackagesDetector, "application/x.apt.packages", "");
  ("application/x-gzip", AptPackagesDetector, "application/x.apt.packages", "");
  ("application/x-xz", AptTranslationDetector, "application/x.apt.translation", "");
  ("application/x-xz", AptCommandsDetector, "application/x.apt.commands", "");
  ("application/octet-stream", SquashFsDetector, "application/x.squashfs", "");
  ("text/plain", AssertionDetector, "application/x.ubuntu.assertion", ".assert")
].

(** No text is both a translation and a list of commands: the three fields of a list of commands are all
    different from those of a translation. *)
Lemma text_detectors_differ buf f1 : getTextFields buf 3 = Some f1 ->
  has_fields f1 ["suite"; "component"; "arch"] = true -> has_fields f1 ["Package"] = false.
Proof.
  unfold getTextFields. destruct (text_fields _ _) as [f|]; simpl; [|done].
  destruct (Nat.eqb_spec (size f) 3) as [Hs|]; [|done]. intros [= <-] Hc.
  unfold has_fields in *. simpl in *. split_bools.
  destruct (f !! "Package") as [[]|] eqn:Hp; [|done]. exfalso.
  destruct (f !! "suite") as [[]|] eqn:Hsu; [|done]. destruct (f !! "component") as [[]|] eqn:Hco; [|done].
  destruct (f !! "arch") as [[]|] eqn:Har; [|done].
  set (g := <["Package" := tt]> (<["suite" := tt]> (<["component" := tt]> {["arch" := tt]})) : gmap string unit).
  assert (Hsub : g ⊆ f).
  { apply map_subseteq_spec. intros i x. unfold g. rewrite !lookup_insert, lookup_singleton.
    repeat case_decide; subst; intros; simplify_eq; done. }
  apply map_subseteq_size in Hsub.
  assert (size g = 4) by (by vm_compute). lia.
Qed.
End Detectors.
