(* ===== verification/Chisel.v ===== *)
(** * Chisel releases

    [inspectors/chisel/release.go]: the inspector of the archive of a chisel release, whose chisel.yaml must be
    complete and have a key of the package archives of the configuration. *)
From stdpp Require Import base gmap strings list option fin_maps.
From Stdlib Require Import ZArith Lia Ascii.
From S2P Require Import Prelude GoStrings GoCodec Platform HttpUtil Digests Artifact Net Config.
From S2P Require Import Inspectors InspectorLib Archives OpenPgp Regexp Url AptConfig AptRelease.

Record chiselArchive := mkchiselArchive {
  ca_Components : list string;
  ca_Suites : list string;
  ca_PublicKeys : list string;
}.
Record chiselPubKey := mkchiselPubKey { ck_ID : string; ck_Armor : string }.
Record chiselYaml := mkchiselYaml {
  cy_Format : string;
  cy_Archives : gmap string chiselArchive;
  cy_PublicKeys : gmap string chiselPubKey;
}.

(** [yaml.v3]: the fields above of the first document. *)
Class ChiselYamlLib := { decode_yaml : Body -> result chiselYaml }.

Definition chisel_id : string := "chisel.release".
Definition chiselYamlPath : Regexp := MustCompile "^chisel-releases-(.*)/chisel.yaml$".
Definition chiselDir : Regexp := MustCompile "^chisel-releases-.*/".
Definition errUnrecognized : error := ESentinel "unrecognized artifact".
Definition chisel_type : string := "application/x.canonical.chisel-release".

Section Chisel.
Context `{ML : MimeLib} `{GL : GlobLib} `{MO : MapOrder} `{GZ : Gzip} `{TR : Tar} `{PG : OpenPGP} `{CY : ChiselYamlLib}.
Context {IS : Type} (cfg : ChiselInspectorConfig) (aptCfg : AptInspectorConfig).

(** ** The file chisel.yaml *)

(** The first error of a loop. *)
Fixpoint first_error {A} (f : A -> option error) (l : list A) : option error :=
  match l with [] => None | x :: l' => match f x with Some e => Some e | None => first_error f l' end end.

Definition is_empty {A} (l : list A) : bool := match l with [] => true | _ => false end.

Definition check_archive (data : chiselYaml) (na : string * chiselArchive) : option error :=
  let '(name, archive) := na in
  if is_empty (ca_Components archive) || is_empty (ca_Suites archive) || is_empty (ca_PublicKeys archive) then
    Some (EText ("archive " +:+ Quote name +:+ " has missing fields"))
  else first_error (fun key => match cy_PublicKeys data !! key with
         | Some _ => None
         | None => Some (EText ("archive " +:+ Quote name +:+ " pubkey " +:+ Quote key +:+ " undefined"))
         end) (ca_PublicKeys archive).
Definition check_pubkey (nk : string * chiselPubKey) : option error :=
  let '(name, key) := nk in
  if String.eqb (ck_ID key) "" || String.eqb (ck_Armor key) "" then
    Some (EText ("pubkey " +:+ Quote name +:+ " has missing fields"))
  else None.

(** What is wrong with the decoded file; the loops are over maps. *)
Definition check_chiselYaml (data : chiselYaml) : option error :=
  if String.eqb (cy_Format data) "" || is_empty (map_range (cy_Archives data)) || is_empty (map_range (cy_PublicKeys data)) then
    Some (EText "missing fields")
  else match first_error (check_archive data) (map_range (cy_Archives data)) with
       | Some err => Some err
       | None => first_error check_pubkey (map_range (cy_PublicKeys data))
       end.
Definition parseChiselYaml (r : Body) : result chiselYaml :=
  let wrap err := Err (EWrap "invalid chisel.yaml: " err "") in
  match decode_yaml r with
  | Err err => wrap err
  | Ok data => match check_chiselYaml data with Some err => wrap err | None => Ok data end
  end.

(** ** The archive *)

(** The name of the release and its file; a directory beside the release makes the archive unknown. *)
Fixpoint inspect_entries (l : list tar_entry) : result (string * chiselYaml) :=
  match l with
  | [] => Err errUnrecognized
  | h :: l' =>
      match FindStringSubmatch chiselYamlPath (te_Name h) with
      | [_; release] => data ← parseChiselYaml (te_Body h); Ok (release, data)
      | _ => if te_Dir h && is_empty (FindStringSubmatch chiselDir (te_Name h)) then Err errUnrecognized
             else inspect_entries l'
      end
  end.
Definition inspectTarball (r : Body) : result (string * chiselYaml) := inspect_entries (fst (tar_read r)).

(** ** Keys *)

(** Whether a repository has the key: the loop over the repositories, until one has it or cannot be decoded. *)
Fixpoint find_repo_key (l : list (string * AptInspectorConfigRepository)) (pubKey : PublicKey) : result bool :=
  match l with
  | [] => Ok false
  | (repoName, repo) :: l' =>
      match DecodePubKey (Config.PublicKey repo) true with
      | Err err => Err (EWrap ("cannot parse APT repository " +:+ repoName +:+ " public key: ") err "")
      | Ok repoKeys =>
          if existsb (fun repoKey => (KeyId repoKey =? KeyId pubKey)%Z) repoKeys then Ok true
          else find_repo_key l' pubKey
      end
  end.
Fixpoint valid_keys (l : list (string * chiselPubKey)) : option error :=
  match l with
  | [] => Some (EText "invalid chisel.yaml: no public key is present in APT configuration")
  | (keyName, keyData) :: l' =>
      match DecodePubKey (ck_Armor keyData) false with
      | Err err => Some (EWrap ("cannot parse chisel.yaml public key " +:+ keyName +:+ ": ") err "")
      | Ok [] => Some index_out_of_range
      | Ok (pubKey :: _) =>
          match find_repo_key (map_range (Repositories aptCfg)) pubKey with
          | Err err => Some err
          | Ok true => None
          | Ok false => valid_keys l'
          end
      end
  end.
Definition validPubKeys (data : chiselYaml) : option error := valid_keys (map_range (cy_PublicKeys data)).

(** ** The inspector *)

(** The URL as it was requested is matched. *)
Definition Chisel_InspectRequest (st : IS) (a : Artifact) : IS * Artifact * option error :=
  match match_globs (chisel_URLs cfg) (DownloadURL a) with
  | None => panics st a
  | Some true => (st, SetRequestPending chisel_id "request matches valid URL" a, None)
  | Some false => (st, a, None)
  end.

Definition chisel_metadata (release : string) (data : chiselYaml) : ArtifactMetadata :=
  mkArtifactMetadata chisel_type "chisel-release" (cy_Format data) "Canonical" ("Chisel release file for " +:+ release)
    "" "" "" "" "" "" "" "" "".

Definition Chisel_InspectArtifact (st : IS) (data : string) (a : Artifact) : IS * Artifact * option error :=
  if negb (MimetypeIs a "application/gzip") then (st, a, None)
  else match gzip_NewReader (bytes data) with
  | Err _ => (st, a, None)
  | Ok zf =>
      match inspectTarball zf with
      | Err err =>
          (st, if bool_decide (err = errUnrecognized) then a
               else SetResponseRejected chisel_id ("invalid tarball: " +:+ error_string err)
                      (typed_metadata chisel_type) a, None)
      | Ok (release, yaml) =>
          let md := chisel_metadata release yaml in
          (st, match validPubKeys yaml with
               | Some err => SetResponseRejected chisel_id ("invalid public-keys: " +:+ error_string err) md a
               | None => SetResponseApproved chisel_id "artifact successfully parsed" md a
               end, None)
      end
  end.

Definition ChiselReleaseInspector : Inspector (IS := IS) :=
  mkInspector chisel_id Chisel_InspectRequest Chisel_InspectArtifact.

(** ** Lemmas *)

#[export] Instance Chisel_laws : InspectorLaws ChiselReleaseInspector.
Proof.
  split; simpl.
  - unfold Chisel_InspectRequest, panics. solve_frame.
  - unfold Chisel_InspectArtifact. solve_frame.
Qed.

Lemma first_error_None {A} (f : A -> option error) l : first_error f l = None <-> forall x, In x l -> f x = None.
Proof. induction l as [|x l IH]; simpl; [naive_solver|]. destruct (f x) eqn:E; naive_solver congruence. Qed.

Lemma find_repo_key_true l pubKey : find_repo_key l pubKey = Ok true ->
  exists name repo keys k, In (name, repo) l /\ DecodePubKey (Config.PublicKey repo) true = Ok keys /\
    In k keys /\ KeyId k = KeyId pubKey.
Proof.
  induction l as [|[name repo] l IH]; simpl; [done|].
  destruct (DecodePubKey _ true) as [keys|] eqn:Ek; [|done].
  destruct (existsb _ keys) eqn:Ex; [|naive_solver].
  intros _. apply existsb_exists in Ex as (k & ? & ?%Z.eqb_eq). exists name, repo, keys, k. auto.
Qed.

Lemma valid_keys_None l : valid_keys l = None -> exists name key pubKey rest,
  In (name, key) l /\ DecodePubKey (ck_Armor key) false = Ok (pubKey :: rest) /\
  find_repo_key (map_range (Repositories aptCfg)) pubKey = Ok true.
Proof.
  induction l as [|[name key] l IH]; simpl; [done|].
  destruct (DecodePubKey _ false) as [[|pubKey rest]|] eqn:Ek; [done| |done].
  destruct (find_repo_key _ pubKey) as [[]|] eqn:Ef; [|naive_solver|done].
  intros _. exists name, key, pubKey, rest. auto.
Qed.

(** A file as the comment of [parseChiselYaml] wants it. *)
Record valid_chiselYaml (data : chiselYaml) : Prop := {
  vy_format : cy_Format data <> "";
  vy_archives : cy_Archives data <> ∅;
  vy_keys : cy_PublicKeys data <> ∅;
  vy_archive : forall name ar, cy_Archives data !! name = Some ar ->
    ca_Components ar <> [] /\ ca_Suites ar <> [] /\ ca_PublicKeys ar <> [] /\
    forall key, In key (ca_PublicKeys ar) -> exists k, cy_PublicKeys data !! key = Some k;
  vy_key : forall name k, cy_PublicKeys data !! name = Some k -> ck_ID k <> "" /\ ck_Armor k <> "";
}.

Context {MOL : MapOrderLaws}.

Lemma map_range_empty {A} (m : gmap string A) : is_empty (map_range m) = true <-> m = ∅.
Proof.
  split.
  - intros H. apply map_eq. intros k. rewrite lookup_empty. destruct (m !! k) as [x|] eqn:E; [|done].
    apply map_range_elem in E. by destruct (map_range m).
  - intros ->. destruct (map_range ∅) as [|[k x] l] eqn:E; [done|].
    assert (Hk : In (k, x) (map_range (∅ : gmap string A))) by (rewrite E; by left).
    apply map_range_elem in Hk. by rewrite lookup_empty in Hk.
Qed.

Lemma is_empty_false {A} (l : list A) : is_empty l = false <-> l <> [].
Proof. by destruct l. Qed.

(** The checks accept exactly such files, in whatever order the maps are visited. *)
Lemma check_chiselYaml_spec data : check_chiselYaml data = None <-> valid_chiselYaml data.
Proof.
  unfold check_chiselYaml.
  destruct (String.eqb_spec (cy_Format data) ""); [split; [done|intros []; congruence]|].
  destruct (is_empty (map_range (cy_Archives data))) eqn:Ea;
    [apply map_range_empty in Ea; split; [done|intros []; congruence]|].
  destruct (is_empty (map_range (cy_PublicKeys data))) eqn:Ek;
    [apply map_range_empty in Ek; split; [done|intros []; congruence]|]. simpl.
  assert (Ha : cy_Archives data <> ∅) by (rewrite <- map_range_empty; congruence).
  assert (Hk : cy_PublicKeys data <> ∅) by (rewrite <- map_range_empty; congruence).
  destruct (first_error (check_archive data) _) eqn:E1.
  - split; [done|]. intros [_ _ _ Harch _]. exfalso.
    enough (first_error (check_archive data) (map_range (cy_Archives data)) = None) by congruence.
    apply first_error_None. intros [name ar] Hin%map_range_elem. destruct (Harch name ar Hin) as (H1 & H2 & H3 & H4).
    unfold check_archive. rewrite !(proj2 (is_empty_false _)) by done. simpl.
    apply first_error_None. intros key Hkey. by destruct (H4 key Hkey) as [k ->].
  - rewrite first_error_None. split.
    + intros Hp. split; [done..| |].
      * intros name ar Hin%map_range_elem. rewrite first_error_None in E1. specialize (E1 _ Hin).
        unfold check_archive in E1. destruct (is_empty (ca_Components ar)) eqn:Q1; [done|].
        destruct (is_empty (ca_Suites ar)) eqn:Q2; [done|]. destruct (is_empty (ca_PublicKeys ar)) eqn:Q3; [done|].
        simpl in E1. rewrite is_empty_false in Q1, Q2, Q3. repeat (split; [done|]). intros key Hkey.
        rewrite first_error_None in E1. specialize (E1 key Hkey). simpl in E1.
        destruct (cy_PublicKeys data !! key); [eauto|done].
      * intros name k Hin%map_range_elem. specialize (Hp _ Hin). simpl in Hp.
        destruct (String.eqb_spec (ck_ID k) ""), (String.eqb_spec (ck_Armor k) ""); done.
    + intros [_ _ _ _ Hp] [name k] Hin%map_range_elem. destruct (Hp name k Hin) as [H1 H2]. simpl.
      destruct (String.eqb_spec (ck_ID k) ""), (String.eqb_spec (ck_Armor k) ""); done.
Qed.

(** C27: An approved chisel release has the type gzip and a chisel.yaml whose fields are complete, and one of the
    keys in it has the ID of a key of an archive of the configuration. *)
Theorem chisel_approved : forall (st st' : IS) data a a',
  response_opinion chisel_id a <> Some Approved ->
  Chisel_InspectArtifact st data a = (st', a', None) -> response_opinion chisel_id a' = Some Approved ->
  exists zf release yaml, gzip_NewReader (bytes data) = Ok zf /\ inspectTarball zf = Ok (release, yaml) /\
    valid_chiselYaml yaml /\
    exists name key pubKey rest repoName repo keys k,
      cy_PublicKeys yaml !! name = Some key /\ DecodePubKey (ck_Armor key) false = Ok (pubKey :: rest) /\
      Repositories aptCfg !! repoName = Some repo /\ DecodePubKey (Config.PublicKey repo) true = Ok keys /\
      In k keys /\ KeyId k = KeyId pubKey.
Proof.
  intros st st' data a a' Hno H Hop. unfold Chisel_InspectArtifact in H.
  destruct (negb _); [by simplify_eq|]. destruct (gzip_NewReader _) as [zf|] eqn:Ez; [|by simplify_eq].
  destruct (inspectTarball zf) as [[release yaml]|err] eqn:Et.
  2: { case_bool_decide; simplify_eq; by autorewrite with opinions in Hop. }
  destruct (validPubKeys yaml) eqn:Ev; simplify_eq; [by autorewrite with opinions in Hop|].
  exists zf, release, yaml. split; [done|]. split; [done|]. split.
  - apply check_chiselYaml_spec. revert Et. unfold inspectTarball.
    induction (fst (tar_read zf)) as [|h l IH]; simpl; [done|].
    assert (Hp : forall b, parseChiselYaml b = Ok yaml -> check_chiselYaml yaml = None).
    { intros b. unfold parseChiselYaml. repeat case_match; intros; simplify_eq; done. }
    repeat case_match; try done. intros (d & Hd & [= <- <-])%bind_Ok. by eapply Hp.
  - apply valid_keys_None in Ev as (name & key & pubKey & rest & Hin & Hk & Hf).
    apply map_range_elem in Hin. apply find_repo_key_true in Hf as (repoName & repo & keys & k & Hr & ? & ? & ?).
    apply map_range_elem in Hr. eauto 20.
Qed.
End Chisel.

(** ** Witnesses *)

Section ChiselDemo.
#[local] Existing Instance text_mime.
#[local] Existing Instance literal_glob.
#[local] Existing Instance list_order.
#[local] Existing Instance list_order_laws.
#[local] Existing Instance plain_gzip.
#[local] Existing Instance toy_pgp.
#[local] Instance demo_chisel_tar : Tar := fixed_tar [mkTarEntry "chisel-releases-ubuntu-24.04/" true (bytes "");
  mkTarEntry "chisel-releases-ubuntu-24.04/chisel.yaml" false (bytes "y")].
#[local] Instance demo_chisel_yaml : ChiselYamlLib := {| decode_yaml := fun _ => Ok (mkchiselYaml "v1"
  {[ "ubuntu" := mkchiselArchive ["main"] ["noble"] ["k"] ]} {[ "k" := mkchiselPubKey "1" "abc" ]}) |}.

Definition demo_chisel_apt : AptInspectorConfig :=
  mkAptInspectorConfig {[ "ubuntu" := mkAptRepository [] [] [] "key" "" ]}.
Definition demo_gzip_file : Artifact :=
  set_Meta (mkMetadata "application/gzip" zero_sha1 zero_sha256 0 "" "" "" "" "" "" "" "" "" "" "" "" "") NewArtifact.
Definition demo_chisel_run : unit * Artifact * option error :=
  Chisel_InspectArtifact demo_chisel_apt tt "data" demo_gzip_file.

Lemma chisel_approved_witness : ResponseApproved demo_chisel_run.1.2 = true /\
  exists yaml name key, valid_chiselYaml yaml /\ cy_PublicKeys yaml !! name = Some key.
Proof.
  split; [by vm_compute|].
  destruct (chisel_approved demo_chisel_apt demo_chisel_run.1.1 tt "data" demo_gzip_file demo_chisel_run.1.2)
    as (zf & release & yaml & _ & _ & Hv & name & key & pk & rest & rn & repo & keys & k & Hk & _);
    [by vm_compute|unfold demo_chisel_run; apply triple_eta; by vm_compute|by vm_compute|].
  exists yaml, name, key. split; [exact Hv|exact Hk].
Defined.
End ChiselDemo.
