(* ===== verification/GoMod.v ===== *)
(** * Go modules fetched with git

    [inspectors/gomod]: the inspector that looks for a go.mod file in the checkout of the upload-pack inspector. *)
From stdpp Require Import base gmap strings list option fin_maps.
From Stdlib Require Import ZArith Lia Ascii.
From S2P Require Import Prelude GoStrings GoCodec Platform HttpUtil Digests Artifact Net Config.
From S2P Require Import Inspectors InspectorLib Regexp PathMatch Url License Git.

(** A failed type assertion panics. *)
Definition interface_conversion : error := ESentinel "interface conversion".

(** ** URLs *)

(** No origin is valid; the list is a variable that only tests change. *)
Definition validOrigins : list Regexp := [].
Definition reGoModuleGit : Regexp := MustCompile "^/([^/]+/)*([^/]+)/git-upload-pack$".

Definition checkValidOrigin (u : URL) : option error :=
  let origin := Scheme u +:+ "://" +:+ Host u in
  if existsb (fun h => MatchString h origin) validOrigins then None
  else Some (EText ("invalid origin " +:+ origin)).

Record goModuleURLInfo := mkgoModuleURLInfo { gi_project : string }.
Definition newGoModuleGitURLInfo (u : URL) : result goModuleURLInfo :=
  match checkValidOrigin u with
  | Some err => Err err
  | None =>
      let m := FindStringSubmatch reGoModuleGit (Path u) in
      if negb (List.length m =? 3) && negb (List.length m =? 2) then
        Err (EText (Path u +:+ ": not a valid URL path for git go modules"))
      else Ok (mkgoModuleURLInfo (List.last m ""))
  end.

(** ** The file go.mod *)

Record goMod := mkgoMod { gm_Name : string; gm_GoVersion : string }.

(** The loop over the lines, up to the first requirement. *)
Fixpoint gomod_lines (lines : list string) (m : goMod) : goMod :=
  match lines with
  | [] => m
  | line :: rest =>
      if HasPrefix line "module " then
        gomod_lines rest (mkgoMod (TrimByte (TrimPrefix line "module ") dquote) (gm_GoVersion m))
      else if HasPrefix line "go " then gomod_lines rest (mkgoMod (gm_Name m) (TrimPrefix line "go "))
      else if HasPrefix line "require " then m
      else gomod_lines rest m
  end.

(** The value as a map of strings. *)
Fixpoint string_entries (l : list (string * AnyVal)) : option (gmap string string) :=
  match l with
  | [] => Some ∅
  | (k, AStr v) :: l' => m ← string_entries l'; Some (<[k := v]> m)
  | _ => None
  end.
Definition as_string_map (v : AnyVal) : option (gmap string string) :=
  match v with AMap l => string_entries l | _ => None end.

Definition go_module_id : string := "go.module.git".

Section GoMod.
Context `{ML : MimeLib} `{OS : Os} `{MO : MapOrder} `{LT : LicenseTool}.
Context {IS : Type} `{PS : !Part IS FS}.

(** A directory of that name can be opened, but has no lines. *)
Definition goMod_parse (fs : FS) (path : string) : result goMod :=
  let m := mkgoMod "" "" in
  match os_ReadFile fs path with
  | Ok text => Ok (gomod_lines (fst (Scanner_Lines text)) m)
  | Err err => match os_Stat fs path with Ok true => Ok m | _ => Err err end
  end.

(** The first tag of the object in the order of the iteration. *)
Definition getVersionTag (haystack : gmap string string) (needle : string) : string :=
  match List.find (fun kv => String.eqb (snd kv) needle) (map_range haystack) with
  | Some (k, _) => k
  | None => ""
  end.

(** ** The inspector *)

Definition GoMod_InspectRequest (st : IS) (a : Artifact) : IS * Artifact * option error :=
  match Parse (DownloadURL a) with
  | Err err => (st, a, Some (EText ("cannot parse URL: " +:+ error_string err)))
  | Ok u =>
      if negb (RequestHeaderContains a "Content-Type" "application/x-git-upload-pack-request") then (st, a, None)
      else if negb (RequestHeaderContains a "Accept" "application/x-git-upload-pack-result") then (st, a, None)
      else match newGoModuleGitURLInfo u with
           | Err _ => (st, a, None)
           | Ok _ =>
               if bool_decide (RequestStringAnnotation a upload_pack_id "command" = Some "fetch") then
                 (st, SetRequestUnknown go_module_id "unsupported origin" a, None)
               else (st, a, None)
           end
  end.

(** The last two elements of a module path. *)
Definition module_name (name : string) : string * string :=
  match rev (Split name slash) with
  | last :: vendor :: _ => (last, vendor)
  | _ => (name, "")
  end.

Definition module_metadata (name vendor version license : string) : ArtifactMetadata :=
  mkArtifactMetadata "application/x.go.module.git-repo" name version vendor "" "" "" "" license "" "" "" "" "".

Definition inspect_module (st : IS) (checkoutPath : string) (gm : goMod) (a : Artifact) :
    IS * Artifact * option error :=
  let '(name, vendor) := module_name (gm_Name gm) in
  match RequestAnnotation a upload_pack_id "wants" with
  | None => (st, a, Some (EText "cannot read request want annotation"))
  | Some (AStrs (want :: _)) =>
      match ResponseAnnotation a upload_pack_id "tags" with
      | None =>
          (st, SetResponseUnknown go_module_id "cannot find go module version tag"
                 (module_metadata name vendor "" "") a, None)
      | Some tags =>
          match as_string_map tags with
          | None => (st, a, Some interface_conversion)
          | Some tags =>
              let license := fst (CheckLicenseFiles (part st)
                (map (fun f => filepath_Join [checkoutPath; f]) ["LICENSE"; "COPYING"; "License"; "Copying"])) in
              let notes : Annotation := {[ "module" := AStr (gm_Name gm) ]} in
              (st, AnnotateResponse go_module_id
                     (if String.eqb (gm_GoVersion gm) "" then notes else <["go" := AStr (gm_GoVersion gm)]> notes)
                     (SetResponseApproved go_module_id "go module found"
                        (module_metadata name vendor (getVersionTag tags want) license) a), None)
          end
      end
  | Some _ => (st, a, Some (EText "cannot read want annotation"))
  end.

Definition GoMod_InspectArtifact (st : IS) (data : string) (a : Artifact) : IS * Artifact * option error :=
  if negb (String.eqb (Artifact_ContentType a) "application/x-git-upload-pack-result") then (st, a, None)
  else match ResponseStringAnnotation a upload_pack_id "git-checkout-path" with
  | None => (st, SetResponseUnknown go_module_id "no git checkout found" NoMetadata a, None)
  | Some checkoutPath =>
      let goModPath := filepath_Join [checkoutPath; "go.mod"] in
      match os_Stat (part st) goModPath with
      | Err _ => (st, a, None)
      | Ok _ =>
          match goMod_parse (part st) goModPath with
          | Err err =>
              (st, AnnotateResponse go_module_id {[ "error-msg" := AStr (error_string err) ]}
                     (SetResponseUnknown go_module_id "cannot parse go.mod file" NoMetadata a), None)
          | Ok gm => inspect_module st checkoutPath gm a
          end
      end
  end.

Definition GoModuleGitInspector : Inspector (IS := IS) :=
  mkInspector go_module_id GoMod_InspectRequest GoMod_InspectArtifact.

(** ** Lemmas *)

#[export] Instance GoMod_laws : InspectorLaws GoModuleGitInspector.
Proof.
  split; simpl.
  - unfold GoMod_InspectRequest. intros st a st' a' e H. repeat (case_match; simplify_eq; auto with frames).
  - unfold GoMod_InspectArtifact, inspect_module. intros st data a st' a' e H.
    repeat (case_match; simplify_eq; auto with frames).
Qed.

(** As there are no valid origins, the inspector has no opinion on any request, so in a strict session it
    never looks at a file. *)
Lemma go_module_request st a : GoMod_InspectRequest st a =
  (st, a, match Parse (DownloadURL a) with
          | Err err => Some (EText ("cannot parse URL: " +:+ error_string err)) | Ok _ => None end).
Proof.
  unfold GoMod_InspectRequest. destruct (Parse _) as [u|]; [|reflexivity].
  assert (Hu : exists err, newGoModuleGitURLInfo u = Err err) by (eexists; reflexivity).
  destruct Hu as [err Hu].
  destruct (RequestHeaderContains a "Content-Type" _).  2: reflexivity.
  destruct (RequestHeaderContains a "Accept" _); [|reflexivity]. simpl negb. cbn iota. by rewrite Hu.
Qed.

Lemma getVersionTag_spec {MOL : MapOrderLaws} tags want :
  (tags !! getVersionTag tags want = Some want) \/
  (getVersionTag tags want = "" /\ forall k, tags !! k <> Some want).
Proof.
  unfold getVersionTag. destruct (List.find _ _) as [[k v]|] eqn:E.
  - apply List.find_some in E as [Hin Hv]. simpl in Hv. apply String.eqb_eq in Hv as ->.
    apply map_range_elem in Hin. by left.
  - right. split; [done|]. intros k Hk. apply map_range_elem in Hk.
    apply (List.find_none _ _ E) in Hk. simpl in Hk. by rewrite String.eqb_refl in Hk.
Qed.
End GoMod.

Example gomod_lines_example :
  gomod_lines ["module example.com/a/b"; "go 1.22"; ""; "require x"; "go 9"] (mkgoMod "" "")
  = mkgoMod "example.com/a/b" "1.22".
Proof. by vm_compute. Qed.
