(* ===== verification/Cargo.v ===== *)
(** * Rust crates

    [inspectors/cargo]: the inspectors of the crate index and of crates, which compare what a file says with the
    request. TOML is a parameter. *)
From stdpp Require Import base gmap strings list option fin_maps.
From Stdlib Require Import ZArith Lia Ascii.
From S2P Require Import Prelude GoStrings GoCodec Platform HttpUtil Json JsonDecode Digests Artifact Net Config.
From S2P Require Import Inspectors InspectorLib Archives Regexp.

(** ** The index *)

Definition indexRequestOrigin : Regexp := MustCompile "^https://index.crates.io:443".
Definition indexConfigSlug : Regexp := MustCompile "/config.json$".
Definition indexCrateSlug : Regexp := MustCompile "/\w\w/\w\w/([\w-]+)$".

Record cargoConfig := mkcargoConfig { cc_Dl : string; cc_API : string }.
Definition decode_cargoConfig : json -> cargoConfig -> result cargoConfig := decode_struct (fun k v s =>
  if field_is "Dl" k then x ← decode_string v (cc_Dl s); Ok (mkcargoConfig x (cc_API s))
  else if field_is "API" k then x ← decode_string v (cc_API s); Ok (mkcargoConfig (cc_Dl s) x)
  else Ok s).
Record CrateEntry := mkCrateEntry { ce_Name : string; ce_Vers : string }.
Definition decode_CrateEntry : json -> CrateEntry -> result CrateEntry := decode_struct (fun k v s =>
  if field_is "Name" k then x ← decode_string v (ce_Name s); Ok (mkCrateEntry x (ce_Vers s))
  else if field_is "Vers" k then x ← decode_string v (ce_Vers s); Ok (mkCrateEntry (ce_Name s) x)
  else Ok s).

(** ** Crates *)

Definition crateRequestOrigin : Regexp := MustCompile "^https://static.crates.io:443".
Definition crateRequestSlug : Regexp := MustCompile "/crates/([\w-]+)/([\d\.]+)/download$".

Record cargoPackage := mkcargoPackage {
  cp_Name : string;
  cp_Version : string;
  cp_Description : string;
  cp_Authors : list string;
  cp_License : string;
}.
Record cargoToml := mkcargoToml { ct_Package : cargoPackage }.

(** [github.com/BurntSushi/toml]: the fields above of a Cargo.toml. *)
Class TomlLib := { decode_cargoToml : Body -> result cargoToml }.

Definition cargo_index_id : string := "cargo.index".
Definition cargo_crate_id : string := "cargo.crate".

Section Cargo.
Context `{ML : MimeLib} `{GZ : Gzip} `{TR : Tar} `{TL : TomlLib} {IS : Type}.

Definition Index_InspectRequest (st : IS) (a : Artifact) : IS * Artifact * option error :=
  let url := DownloadURL a in
  if String.eqb (FindString indexRequestOrigin url) "" then (st, a, None)
  else if negb (String.eqb (FindString indexConfigSlug url) "") then
    (st, AnnotateRequest cargo_index_id (<["is-config" := ABool true]> {[ "crate-name" := AStr "" ]})
           (SetRequestPending cargo_index_id "request matches valid URL" a), None)
  else match FindStringSubmatch indexCrateSlug url with
       | [_; crateName] =>
           (st, AnnotateRequest cargo_index_id (<["is-config" := ABool false]> {[ "crate-name" := AStr crateName ]})
                  (SetRequestUnknown cargo_index_id "unsupported origin" a), None)
       | _ => (st, a, None)
       end.

Definition handleConfigArtifact (data : string) (a : Artifact) : option ArtifactMetadata :=
  if negb (MimetypeIs a "application/json") then None
  else match json_Decode decode_cargoConfig (mkcargoConfig "" "") data with
       | Err _ => None
       | Ok read => Some (mkArtifactMetadata "application/json" "config.json for Cargo package index" "" (cc_API read)
                            "config.json for Cargo package index" (cc_API read) "" "" "" "" "" "" "" "")
       end.
Definition handleCrateArtifact (data : string) (a : Artifact) : option ArtifactMetadata :=
  if negb (MimetypeIs a "application/x-ndjson") then None
  else match json_Decode decode_CrateEntry (mkCrateEntry "" "") data with
       | Err _ => None
       | Ok entry => Some (mkArtifactMetadata "application/x-ndjson" (ce_Name entry) "" ""
                             ("Cargo package index for crate " +:+ quoted (ce_Name entry)) "" "" "" "" "" "" "" "" "")
       end.

Definition Index_InspectArtifact (st : IS) (data : string) (a : Artifact) : IS * Artifact * option error :=
  match RequestBoolAnnotation a cargo_index_id "is-config" with
  | None => (st, a, None)
  | Some true =>
      (st, match handleConfigArtifact data a with
           | Some md => SetResponseApproved cargo_index_id "document contains valid config.json" md a
           | None => a
           end, None)
  | Some false =>
      match RequestStringAnnotation a cargo_index_id "crate-name" with
      | None => (st, a, None)
      | Some crate =>
          (st, match handleCrateArtifact data a with
               | Some md => if String.eqb (am_Name md) crate then
                              SetResponseApproved cargo_index_id "document contains valid crate index" md a
                            else a
               | None => a
               end, None)
      end
  end.

Definition CargoIndexInspector : Inspector (IS := IS) :=
  mkInspector cargo_index_id Index_InspectRequest Index_InspectArtifact.

Definition Crate_InspectRequest (st : IS) (a : Artifact) : IS * Artifact * option error :=
  let url := DownloadURL a in
  match FindStringSubmatch crateRequestOrigin url with
  | [] => (st, a, None)
  | _ =>
      match FindStringSubmatch crateRequestSlug url with
      | [_; packageName; packageVersion] =>
          (st, AnnotateRequest cargo_crate_id
                 (str_notes [("package-name", packageName); ("package-version", packageVersion)])
                 (SetRequestUnknown cargo_crate_id "unsupported origin" a), None)
      | _ => (st, a, None)
      end
  end.

Definition parseCargoToml (tf : Body) : result ArtifactMetadata :=
  crateMD ← decode_cargoToml tf;
  let pack := ct_Package crateMD in
  Ok (mkArtifactMetadata "application/x.rust.crate" (cp_Name pack) (cp_Version pack) ""
        (TrimSpace (cp_Description pack)) (Join (cp_Authors pack) ", ") "" "" (cp_License pack) "" "" "" "" "").

Definition Crate_InspectArtifact (st : IS) (data : string) (a : Artifact) : IS * Artifact * option error :=
  if negb (MimetypeIs a "application/gzip") then (st, a, None)
  else match RequestStringAnnotation a cargo_crate_id "package-name" with
  | None => (st, a, None)
  | Some packageName =>
      match RequestStringAnnotation a cargo_crate_id "package-version" with
      | None => (st, a, None)
      | Some packageVersion =>
          match gzip_NewReader (bytes data) with
          | Err err => (st, a, Some err)
          | Ok zf =>
              match find_entry (packageName +:+ "-" +:+ packageVersion +:+ "/Cargo.toml") (fst (tar_read zf)) with
              | None => (st, a, None)
              | Some h =>
                  match parseCargoToml (te_Body h) with
                  | Err err => (st, a, Some err)
                  | Ok md =>
                      (st, if String.eqb (am_Name md) packageName && String.eqb (am_Version md) packageVersion then
                             SetResponseApproved cargo_crate_id "rust crate successfully parsed" md a
                           else a, None)
                  end
              end
          end
      end
  end.

Definition CargoCrateInspector : Inspector (IS := IS) :=
  mkInspector cargo_crate_id Crate_InspectRequest Crate_InspectArtifact.

(** ** Lemmas *)

#[export] Instance Index_laws : InspectorLaws CargoIndexInspector.
Proof.
  split; simpl.
  - unfold Index_InspectRequest. intros st a st' a' e H. repeat (case_match; simplify_eq; auto with frames).
  - unfold Index_InspectArtifact. intros st data a st' a' e H. repeat (case_match; simplify_eq; auto with frames).
Qed.
#[export] Instance Crate_laws : InspectorLaws CargoCrateInspector.
Proof.
  split; simpl.
  - unfold Crate_InspectRequest. intros st a st' a' e H. repeat (case_match; simplify_eq; auto with frames).
  - unfold Crate_InspectArtifact. intros st data a st' a' e H. repeat (case_match; simplify_eq; auto with frames).
Qed.

End Cargo.

(** ** Examples *)

(** The dots of the origins are not escaped, and what follows the port is not looked at. *)
Example crate_lookalike_origin :
  map (MatchString crateRequestOrigin)
    ["https://static.crates.io:443/crates/a/1.0/download"; "https://static-crates.io:443/crates/a/1.0/download";
     "https://static.crates.io:4430/crates/a/1.0/download"] = [true; true; true].
Proof. by vm_compute. Qed.
Example index_lookalike_origin :
  MatchString indexRequestOrigin "https://index-crates.io:443/config.json" = true.
Proof. by vm_compute. Qed.

Section CargoDemo.
#[local] Existing Instance text_mime.
#[local] Existing Instance plain_gzip.
#[local] Instance demo_crate_tar : Tar := fixed_tar [mkTarEntry "a-1.0/Cargo.toml" false (bytes "")].
#[local] Instance demo_toml : TomlLib := {| decode_cargoToml := fun _ =>
  Ok (mkcargoToml (mkcargoPackage "a" "1.0" " demo " ["x"; "y"] "MIT")) |}.
Definition demo_crate_file : Artifact :=
  set_Meta (mkMetadata "application/gzip" zero_sha1 zero_sha256 0 "" "" "" "" "" "" "" "" "" "" "" "" "")
    (AnnotateRequest cargo_crate_id (str_notes [("package-name", "a"); ("package-version", "1.0")])
       (SetRequestUnknown cargo_crate_id "" NewArtifact)).
Definition demo_crate_run : unit * Artifact * option error := Crate_InspectArtifact tt "data" demo_crate_file.

End CargoDemo.
