(* ===== verification/Maven.v ===== *)
(** * Maven artifacts

    [inspectors/maven]: the inspectors of jar files and of project object models. XML and zip archives are
    parameters. *)
From stdpp Require Import base gmap strings list option fin_maps.
From Stdlib Require Import ZArith Lia Ascii.
From S2P Require Import Prelude GoStrings GoCodec Platform HttpUtil Digests Artifact Net Config.
From S2P Require Import Inspectors InspectorLib Archives Regexp.

(** ** Project object models *)

Record parent := mkparent { pa_GroupID : string; pa_Version : string }.
(** The names of the developers and of the licenses stand for the lists of elements with that name. *)
Record project := mkproject {
  pr_ArtifactID : string;
  pr_GroupID : string;
  pr_Version : string;
  pr_Description : string;
  pr_Developers : list string;
  pr_Licenses : list string;
  pr_Parent : parent;
}.

(** [encoding/xml] with the tags of the struct. *)
Class PomXml := { decode_project : Body -> result project }.

Definition non_empty_or (s default : string) : string := if String.eqb s "" then default else s.

Definition parsePom `{PomXml} (tf : Body) : result ArtifactMetadata :=
  p ← decode_project tf;
  Ok (mkArtifactMetadata "" (pr_ArtifactID p) (non_empty_or (pr_Version p) (pa_Version (pr_Parent p)))
        (non_empty_or (pr_GroupID p) (pa_GroupID (pr_Parent p))) (pr_Description p) (Join (pr_Developers p) ", ") "" ""
        (Join (pr_Licenses p) " OR ") "" "" "" "" "").

(** ** URLs *)

Record artifactURL := mkartifactURL { au_ArtifactID : string; au_GroupID : string; au_Version : string }.

Definition parseURL (slug : Regexp) (url : string) : option artifactURL :=
  match FindStringSubmatch slug url with
  | [_; group; artifact; version] => Some (mkartifactURL artifact (ReplaceAll group slash ".") version)
  | _ => None
  end.

Definition jarRequestOrigin : Regexp := MustCompile "^https://repo.maven.apache.org:443".
Definition jarRequestSlug : Regexp := MustCompile "/maven2/((?:\w|\-|/)+).*/((?:\w|\-)+)/(.*)/.*.jar$".
Definition pomXML : Regexp := MustCompile "^META-INF/maven/([^/]+)/([^/]+)/pom.xml$".
Definition pomRequestOrigin : Regexp := MustCompile "^https://repo.maven.apache.org:443".
Definition pomRequestSlug : Regexp := MustCompile "/maven2/((?:\w|\-|/)+).*/((?:\w|\-)+)/(.*)/.*.pom$".

Definition maven_jar_id : string := "maven.jar".
Definition maven_pom_id : string := "maven.pom".

Section Maven.
Context `{ML : MimeLib} `{PX : PomXml} `{ZP : Zip} {IS : Type}.

(** The two inspectors look at requests in the same way. *)
Definition inspect_maven_request (id : string) (origin slug : Regexp) (st : IS) (a : Artifact) :
    IS * Artifact * option error :=
  match FindStringSubmatch origin (DownloadURL a) with
  | [] => (st, a, None)
  | _ =>
      match parseURL slug (DownloadURL a) with
      | Some u =>
          (st, AnnotateRequest id (str_notes [("group-id", au_GroupID u); ("artifact-id", au_ArtifactID u);
                   ("version", au_Version u)]) (SetRequestUnknown id "unsupported origin" a), None)
      | None => (st, a, None)
      end
  end.

Definition Jar_InspectRequest : IS -> Artifact -> IS * Artifact * option error :=
  inspect_maven_request maven_jar_id jarRequestOrigin jarRequestSlug.

(** The first project object model decides. *)
Fixpoint inspect_jar (files : list zip_file) (a : Artifact) : Artifact * option error :=
  match files with
  | [] => (a, None)
  | i :: rest =>
      match FindStringSubmatch pomXML (zf_Name i) with
      | [_; groupID; artifactID] =>
          match zf_Open i with
          | Err err => (a, Some err)
          | Ok zf =>
              match parsePom zf with
              | Err err => (a, Some err)
              | Ok md =>
                  (if String.eqb (am_Name md) artifactID then
                     AnnotateResponse maven_jar_id (str_notes [("group-id", groupID); ("artifact-id", artifactID)])
                       (SetResponseApproved maven_jar_id "Maven pom successfully parsed and validated" md a)
                   else a, None)
              end
          end
      | _ => inspect_jar rest a
      end
  end.
Definition Jar_InspectArtifact (st : IS) (data : string) (a : Artifact) : IS * Artifact * option error :=
  if negb (MimetypeIs a "application/jar") then (st, a, None)
  else match zip_read data with
       | Err err => (st, a, Some err)
       | Ok files => let '(a, err) := inspect_jar files a in (st, a, err)
       end.

Definition MavenJarInspector : Inspector (IS := IS) := mkInspector maven_jar_id Jar_InspectRequest Jar_InspectArtifact.

Definition Pom_InspectRequest : IS -> Artifact -> IS * Artifact * option error :=
  inspect_maven_request maven_pom_id pomRequestOrigin pomRequestSlug.

Definition with_pom_name (md : ArtifactMetadata) (name : string) : ArtifactMetadata :=
  mkArtifactMetadata (am_Type md) name (am_Version md) (am_Vendor md) (am_Description md) (am_Author md)
    (am_AuthorEmail md) (am_Architecture md) (am_License md) (am_Copyright md) (am_SourcePackage md)
    (am_StoreRevision md) (am_AptSuite md) (am_ContentID md).

Definition Pom_InspectArtifact (st : IS) (data : string) (a : Artifact) : IS * Artifact * option error :=
  if negb (MimetypeIs a "text/xml") then (st, a, None)
  else match RequestStringAnnotation a maven_pom_id "artifact-id" with
  | None => (st, a, None)
  | Some artifactID =>
      match RequestStringAnnotation a maven_pom_id "version" with
      | None => (st, a, None)
      | Some version =>
          match parsePom (bytes data) with
          | Err err => (st, a, Some err)
          | Ok md =>
              (st, if String.eqb (am_Name md) artifactID && String.eqb (am_Version md) version then
                     SetResponseApproved maven_pom_id "Maven pom successfully parsed and validated"
                       (with_pom_name md ("Maven POM file for '" +:+ artifactID +:+ "'")) a
                   else a, None)
          end
      end
  end.

Definition MavenPomInspector : Inspector (IS := IS) := mkInspector maven_pom_id Pom_InspectRequest Pom_InspectArtifact.

(** ** Lemmas *)

Lemma inspect_maven_request_frame id origin slug st a st' a' e :
  inspect_maven_request id origin slug st a = (st', a', e) -> request_frame id a a'.
Proof. unfold inspect_maven_request. intros H. repeat (case_match; simplify_eq; auto with frames). Qed.

Lemma inspect_jar_frame files a a' e : inspect_jar files a = (a', e) -> response_frame maven_jar_id a a'.
Proof.
  induction files as [|i files IH]; simpl; [intros; simplify_eq; auto with frames|].
  repeat (case_match; try (intros; simplify_eq; by auto with frames)).
Qed.

#[export] Instance Jar_laws : InspectorLaws MavenJarInspector.
Proof.
  split; simpl.
  - intros. by eapply inspect_maven_request_frame.
  - intros st data a st' a' e. unfold Jar_InspectArtifact.
    repeat case_match; intros; simplify_eq; eauto using inspect_jar_frame with frames.
Qed.
#[export] Instance Pom_laws : InspectorLaws MavenPomInspector.
Proof.
  split; simpl.
  - intros. by eapply inspect_maven_request_frame.
  - unfold Pom_InspectArtifact. intros st data a st' a' e H. repeat (case_match; simplify_eq; auto with frames).
Qed.

(** A file that is approved as a project object model says what the request named. *)
Lemma pom_matches_request st data a st' a' : response_opinion maven_pom_id a <> Some Approved ->
  Pom_InspectArtifact st data a = (st', a', None) -> response_opinion maven_pom_id a' = Some Approved ->
  exists md, parsePom (bytes data) = Ok md /\
    RequestStringAnnotation a maven_pom_id "artifact-id" = Some (am_Name md) /\
    RequestStringAnnotation a maven_pom_id "version" = Some (am_Version md).
Proof.
  intros Hno H Hop. unfold Pom_InspectArtifact in H.
  destruct (negb _); [by simplify_eq|].
  destruct (RequestStringAnnotation a maven_pom_id "artifact-id") as [id|]; [|by simplify_eq].
  destruct (RequestStringAnnotation a maven_pom_id "version") as [v|]; [|by simplify_eq].
  destruct (parsePom _) as [md|] eqn:Ep; [|by simplify_eq]. exists md.
  destruct (String.eqb_spec (am_Name md) id), (String.eqb_spec (am_Version md) v); simpl in H; simplify_eq; done.
Qed.
End Maven.

Example pomRequest_example :
  parseURL pomRequestSlug "https://repo.maven.apache.org:443/maven2/org/a/lib/1.0/lib-1.0.pom"
  = Some (mkartifactURL "lib" "org.a" "1.0").
Proof. by vm_compute. Qed.
Example maven_lookalike_origin : MatchString jarRequestOrigin "https://repo-maven.apache.org:443/" = true.
Proof. by vm_compute. Qed.
