(* ===== verification/Pip.v ===== *)
(** * Python packages

    [inspectors/pip] but the wheels: URLs, the simple index, metadata files and source distributions. The HTML
    tokenizer is a parameter. *)
From stdpp Require Import base gmap strings list option fin_maps.
From Stdlib Require Import ZArith Lia Ascii.
From S2P Require Import Prelude GoStrings GoCodec Platform HttpUtil Digests Artifact Net Config.
From S2P Require Import Inspectors InspectorLib Archives Regexp Url License.

(** ** URLs *)

Definition validOrigins : list Regexp := [MustCompile "^https://files\.pythonhosted\.org:443$"].
Definition reWheel : Regexp :=
  MustCompile "^/packages/[0-9a-f]{2}/[0-9a-f]{2}/[0-9a-f]{60}/.+-[_a-zA-Z0-9\.-]+\.whl$".
Definition reSdist : Regexp :=
  MustCompile "^/packages/[0-9a-f]{2}/[0-9a-f]{2}/[0-9a-f]{60}/.+-[_a-zA-Z0-9\.-]+\.tar\.gz$".
Definition reMetadata : Regexp :=
  MustCompile "^/packages/[0-9a-f]{2}/[0-9a-f]{2}/[0-9a-f]{60}/.+-[_a-zA-Z0-9\.-]+\.metadata$".

(** Every origin of the list must match. *)
Definition checkValidOrigin (u : URL) : option error :=
  let origin := Scheme u +:+ "://" +:+ Host u in
  if forallb (fun h => MatchString h origin) validOrigins then None
  else Some (EText ("invalid origin " +:+ origin)).

Definition check_url (re : Regexp) (u : URL) : option error :=
  match checkValidOrigin u with
  | Some err => Some err
  | None => if negb (MatchString re (Path u)) then Some (EText ("invalid URL path " +:+ Path u)) else None
  end.
Definition checkWheelURL : URL -> option error := check_url reWheel.
Definition checkSdistURL : URL -> option error := check_url reSdist.
Definition checkMetadataURL : URL -> option error := check_url reMetadata.

(** ** Metadata *)

Record pyMeta := mkpyMeta {
  py_mver : string;
  py_name : string;
  py_version : string;
  py_summary : string;
  py_author : string;
  py_email : string;
  py_maintainer : string;
}.

Definition py_field (k v : string) (m : pyMeta) : pyMeta :=
  if String.eqb k "metadata-version" then
    mkpyMeta v (py_name m) (py_version m) (py_summary m) (py_author m) (py_email m) (py_maintainer m)
  else if String.eqb k "name" then
    mkpyMeta (py_mver m) v (py_version m) (py_summary m) (py_author m) (py_email m) (py_maintainer m)
  else if String.eqb k "version" then
    mkpyMeta (py_mver m) (py_name m) v (py_summary m) (py_author m) (py_email m) (py_maintainer m)
  else if String.eqb k "summary" then
    mkpyMeta (py_mver m) (py_name m) (py_version m) v (py_author m) (py_email m) (py_maintainer m)
  else if String.eqb k "author" then
    mkpyMeta (py_mver m) (py_name m) (py_version m) (py_summary m) v (py_email m) (py_maintainer m)
  else if String.eqb k "author-email" then
    mkpyMeta (py_mver m) (py_name m) (py_version m) (py_summary m) (py_author m) v (py_maintainer m)
  else if String.eqb k "maintainer" then
    mkpyMeta (py_mver m) (py_name m) (py_version m) (py_summary m) (py_author m) (py_email m) v
  else m.

(** The fields of the lines up to the first empty one, and those lines. *)
Fixpoint py_lines (lines : list string) (m : pyMeta) : pyMeta * list string :=
  match lines with
  | [] | "" :: _ => (m, [])
  | line :: rest =>
      let m := match Cut line ":" with
               | Some (k, v) => py_field (ToLower k) (TrimSpace v) m
               | None => m
               end in
      let '(m, copied) := py_lines rest m in (m, line :: copied)
  end.
Definition scan_metadata (text : Body) : pyMeta * list string :=
  py_lines (fst (Scanner_Lines (body_data text))) (mkpyMeta "" "" "" "" "" "" "").

(** The author, or else the maintainer. *)
Definition py_vendor (m : pyMeta) : string := if String.eqb (py_author m) "" then py_maintainer m else py_author m.
Definition py_missing (m : pyMeta) : bool :=
  String.eqb (py_mver m) "" || String.eqb (py_name m) "" || String.eqb (py_version m) "".
Definition py_artifact (type name description license : string) (m : pyMeta) : ArtifactMetadata :=
  mkArtifactMetadata type name (py_version m) (py_vendor m) description (py_author m) (py_email m) "" license "" "" "" "" "".

(** The text of the lines in a temporary file. *)
Definition copied_text (l : list string) : string := String.concat "" (map (fun line => line +:+ str1 nl) l).

(** ** The simple index *)

Definition index_pattern : string := "^https://pypi.org:443/simple/([\w-]+)/$".
Definition indexRequestURL : Regexp := MustCompile index_pattern.

(** [golang.org/x/net/html]: the start and self-closing tags of a document, with their name and attributes, and
    the error after them ([None] is [io.EOF]). *)
Record html_tag := mkhtmlTag { tag_Data : string; tag_Attr : list (string * string) }.
Class Html := { html_tags : string -> list html_tag * option error }.

Definition simple_index_id : string := "pip.simple-index".
Definition pip_metadata_id : string := "pip.metadata".
Definition sdist_id : string := "pip.sdist".

(** The content if some attribute gives the name. *)
Definition extractMetaProperty (t : html_tag) (name : string) : option string :=
  if existsb (fun kv => String.eqb (fst kv) "name" && String.eqb (snd kv) name) (tag_Attr t) then
    Some (fold_left (fun c kv => if String.eqb (fst kv) "content" then snd kv else c) (tag_Attr t) "")
  else None.

(** The host without the port. *)
Definition plain_host (u : URL) : string :=
  match Cut (Host u) ":" with Some (String c h, _) => String c h | _ => Host u end.

Section Pip.
Context `{ML : MimeLib} `{HT : Html} `{GZ : Gzip} `{TR : Tar} `{TF : TempFiles} `{LT : LicenseTool} {IS : Type}.

(** The annotation "match" is the expression, which prints as its text. *)
Definition SimpleIndex_InspectRequest (st : IS) (a : Artifact) : IS * Artifact * option error :=
  match FindStringSubmatch indexRequestURL (DownloadURL a) with
  | _ :: name :: _ =>
      (st, AnnotateRequest simple_index_id (str_notes [("match", index_pattern); ("package-name", name)])
             (SetRequestUnknown simple_index_id "unsupported origin" a), None)
  | _ => (st, a, None)
  end.

(** A tag with a known version decides; an unknown version is rejected, but a later tag may still be good. *)
Fixpoint html_index (pkgName : string) (tags : list html_tag) (err : option error) (a : Artifact) :
    Artifact * option error :=
  match tags with
  | [] => (a, err)
  | t :: rest =>
      if negb (String.eqb (tag_Data t) "meta") then html_index pkgName rest err a
      else match extractMetaProperty t "pypi:repository-version" with
      | None => html_index pkgName rest err a
      | Some ver =>
          let notes := str_notes [("format", "HTML"); ("repository-version", ver)] in
          if String.eqb ver "1.1" || String.eqb ver "1.2" then
            match Parse (DownloadURL a) with
            | Err e => (a, Some e)
            | Ok u =>
                let host := plain_host u in
                (AnnotateResponse simple_index_id notes
                   (SetResponseApproved simple_index_id "document contains pypi repository version"
                      (mkArtifactMetadata "text/html" ("Simple index for '" +:+ pkgName +:+ "'") "" host
                         ("PyPI repository index HTML file for package '" +:+ pkgName +:+ "'") host
                         "" "" "" "" "" "" "" "") a), None)
            end
          else html_index pkgName rest err
                 (AnnotateResponse simple_index_id notes
                    (SetResponseRejected simple_index_id "unknown pypi repository version"
                       (mkArtifactMetadata "text/html" "" "" "" "" "" "" "" "" "" "" "" "" "") a))
      end
  end.
Definition parseHTMLIndex (data : string) (pkgName : string) (a : Artifact) : Artifact * option error :=
  let '(tags, err) := html_tags data in html_index pkgName tags err a.

Definition parseJSONIndex (pkgName : string) (a : Artifact) : Artifact * option error :=
  match Parse (DownloadURL a) with
  | Err e => (a, Some e)
  | Ok u =>
      let host := plain_host u in
      (AnnotateResponse simple_index_id (str_notes [("format", "JSON"); ("repository-version", "v1")])
         (SetResponseApproved simple_index_id "content type is pip simple index"
            (mkArtifactMetadata "application/json" "PyPI JSON index" "v1+json" host
               ("PyPI repository index JSON file for package '" +:+ pkgName +:+ "'") host "" "" "" "" "" "" "" "") a), None)
  end.

Definition SimpleIndex_InspectArtifact (st : IS) (data : string) (a : Artifact) : IS * Artifact * option error :=
  match RequestStringAnnotation a simple_index_id "package-name" with
  | None => (st, a, None)
  | Some pkgName =>
      let '(a, err) :=
        if MimetypeIs a "text/html" then parseHTMLIndex data pkgName a
        else if MimetypeIs a "application/json" &&
                String.eqb (Artifact_ContentType a) "application/vnd.pypi.simple.v1+json" then parseJSONIndex pkgName a
        else (a, None) in
      (st, a, err)
  end.

Definition SimpleIndexInspector : Inspector (IS := IS) :=
  mkInspector simple_index_id SimpleIndex_InspectRequest SimpleIndex_InspectArtifact.

(** ** Metadata files and source distributions *)

(** The request of a file at the known origin. *)
Definition inspect_pip_request (id : string) (check : URL -> option error) (st : IS) (a : Artifact) :
    IS * Artifact * option error :=
  match Parse (DownloadURL a) with
  | Err err => (st, a, Some (EText ("cannot parse URL: " +:+ error_string err)))
  | Ok u => (st, match check u with None => SetRequestUnknown id "unsupported origin" a | Some _ => a end, None)
  end.

Definition Metadata_InspectRequest : IS -> Artifact -> IS * Artifact * option error :=
  inspect_pip_request pip_metadata_id checkMetadataURL.

(** The name is kept with its text around it, so that it is never empty. *)
Definition metadata_name (l : list string) (m : pyMeta) : string :=
  if existsb (fun line => match Cut line ":" with Some (k, _) => String.eqb (ToLower k) "name" | None => false end) l
  then "metadata file for package '" +:+ py_name m +:+ "'" else "".

Definition parseMetadataFile (f : Body) (a : Artifact) : Artifact :=
  let '(m, lines) := scan_metadata f in
  let name := metadata_name lines m in
  if String.eqb (py_mver m) "" || String.eqb name "" || String.eqb (py_version m) "" then a
  else AnnotateResponse pip_metadata_id {[ "metadata-version" := AStr (py_mver m) ]}
         (SetResponseApproved pip_metadata_id "metadata file successfully parsed"
            (py_artifact "application/x.python.metadata" name "Python metadata file" "" m) a).

Definition Metadata_InspectArtifact (st : IS) (data : string) (a : Artifact) : IS * Artifact * option error :=
  if negb (MimetypeIs a "text/plain") then (st, a, None) else (st, parseMetadataFile (bytes data) a, None).

Definition MetadataInspector : Inspector (IS := IS) :=
  mkInspector pip_metadata_id Metadata_InspectRequest Metadata_InspectArtifact.

Definition Sdist_InspectRequest : IS -> Artifact -> IS * Artifact * option error :=
  inspect_pip_request sdist_id checkSdistURL.

Definition rePkgInfo : Regexp := MustCompile "^\w+-[0-9A-Za-z\.-]+/PKG-INFO$".

Definition parsePkgInfo (tf : Body) (a : Artifact) : Artifact * option error :=
  match os_CreateTemp with
  | Err err => (a, Some err)
  | Ok temp =>
      let '(m, lines) := scan_metadata tf in
      if py_missing m then (a, None)
      else match GetLicense temp (copied_text lines) with
           | (_, Some err) => (a, Some err)
           | (license, None) =>
               (AnnotateResponse sdist_id {[ "metadata-version" := AStr (py_mver m) ]}
                  (SetResponseApproved sdist_id "sdist file successfully parsed"
                     (py_artifact "application/x.python.sdist" (py_name m) (py_summary m) license m) a), None)
           end
  end.

Definition Sdist_InspectArtifact (st : IS) (data : string) (a : Artifact) : IS * Artifact * option error :=
  if negb (MimetypeIs a "application/gzip") then (st, a, None)
  else match gzip_NewReader (bytes data) with
  | Err err => (st, a, Some err)
  | Ok zf =>
      match List.find (fun h => MatchString rePkgInfo (te_Name h)) (fst (tar_read zf)) with
      | None => (st, a, None)
      | Some h => let '(a, err) := parsePkgInfo (te_Body h) a in (st, a, err)
      end
  end.

Definition SdistInspector : Inspector (IS := IS) := mkInspector sdist_id Sdist_InspectRequest Sdist_InspectArtifact.

(** ** Lemmas *)

Lemma html_index_frame pkg tags err a b b' e : response_frame simple_index_id a b ->
  html_index pkg tags err b = (b', e) -> response_frame simple_index_id a b'.
Proof.
  revert b. induction tags as [|t tags IH]; intros b Hb; simpl; [by intros; simplify_eq|].
  repeat (case_match; try (intros; simplify_eq; by auto with frames)); eauto with frames.
Qed.

Lemma inspect_pip_request_frame id check st a st' a' e : inspect_pip_request id check st a = (st', a', e) ->
  request_frame id a a'.
Proof. unfold inspect_pip_request. repeat case_match; intros; simplify_eq; auto with frames. Qed.

#[export] Instance SimpleIndex_laws : InspectorLaws SimpleIndexInspector.
Proof.
  split; simpl.
  - unfold SimpleIndex_InspectRequest. intros st a st' a' e H. repeat (case_match; simplify_eq; auto with frames).
  - intros st data a st' a' e. unfold SimpleIndex_InspectArtifact, parseHTMLIndex, parseJSONIndex.
    repeat case_match; intros; simplify_eq; eauto using html_index_frame with frames.
Qed.
#[export] Instance Metadata_laws : InspectorLaws MetadataInspector.
Proof.
  split; simpl.
  - intros. by eapply inspect_pip_request_frame.
  - unfold Metadata_InspectArtifact, parseMetadataFile. solve_frame.
Qed.
#[export] Instance Sdist_laws : InspectorLaws SdistInspector.
Proof.
  split; simpl.
  - intros. by eapply inspect_pip_request_frame.
  - unfold Sdist_InspectArtifact, parsePkgInfo. intros st data a st' a' e H.
    repeat (case_match; simplify_eq; auto with frames).
Qed.

(** No inspector of Python packages finds a request valid: a strict session never downloads one. *)
Lemma pip_requests_unknown id check st a st' a' e : inspect_pip_request id check st a = (st', a', e) ->
  request_opinion id a' <> Some Pending \/ request_opinion id a = Some Pending.
Proof.
  unfold inspect_pip_request. destruct (Parse _) as [u|]; [destruct (check u)|]; intros; simplify_eq.
  1, 3: destruct (decide (request_opinion id a' = Some Pending)); auto.
  left. unfold request_opinion. by rewrite (proj2 (proj2 (SetRequest_lookup _ _ _))).
Qed.
End Pip.

Example check_wheel_example : checkWheelURL (mkURL "https" "files.pythonhosted.org:443"
  ("/packages/0a/1b/" +:+ String.concat "" (repeat "0" 60) +:+ "/pkg-1.0-py3-none-any.whl") "") = None.
Proof. by vm_compute. Qed.
