(* ===== verification/Wheel.v ===== *)
(** * Python wheels

    [inspectors/pip/wheel.go], with [ZipMatches] of [utils/file_utils.go]: the inspector that compares the files of
    a wheel with the sizes and digests in its RECORD. *)
From stdpp Require Import base gmap strings list option fin_maps.
From Stdlib Require Import ZArith Lia Ascii.
From S2P Require Import Prelude GoStrings GoCodec Platform HttpUtil Digests Artifact Net Config.
From S2P Require Import Inspectors InspectorLib Archives Regexp Url License AptRelease Snap Pip.

(** ** Which files a zip archive has *)

(** Each match of a file with a pattern counts; [None] when enough were seen. *)
Fixpoint count_matches (name : string) (patterns : list Regexp) (num : Z) : option Z :=
  match patterns with
  | [] => Some num
  | p :: patterns' =>
      if MatchString p name then
        if (num - 1 =? 0)%Z then None else count_matches name patterns' (num - 1)
      else count_matches name patterns' num
  end.
Fixpoint files_match (files : list zip_file) (patterns : list Regexp) (num : Z) : bool :=
  match files with
  | [] => false
  | f :: files' =>
      match count_matches (zf_Name f) patterns num with
      | None => true
      | Some num => files_match files' patterns num
      end
  end.
Definition ZipMatches `{Zip} (data : string) (patterns : list Regexp) : bool :=
  match zip_read data with
  | Err _ => false
  | Ok files => files_match files patterns (Z.of_nat (List.length patterns))
  end.

(** ** Digests in a RECORD *)

(** [base64.RawURLEncoding.DecodeString], by way of the standard alphabet with padding. *)
Definition std_char (c : ascii) : ascii :=
  if Ascii.eqb c "-" then "+"%char else if Ascii.eqb c "_" then "/"%char else c.
Fixpoint std_chars (s : string) : string :=
  match s with "" => "" | String c s' => String (std_char c) (std_chars s') end.
Definition raw_url_decode (s : string) : result string :=
  let s := ReplaceAll (ReplaceAll s nl "") cr "" in
  if negb (str_forall (fun c => negb (mem_char c "+/=")) s) then Err CorruptInputError
  else match String.length s mod 4 with
       | 0 => b64_groups (std_chars s)
       | 2 => b64_groups (std_chars s +:+ "==")
       | 3 => b64_groups (std_chars s +:+ "=")
       | _ => Err CorruptInputError
       end.

(** [copy] into an array of zeros. *)
Definition to_digest (dst : string) : Sha256Digest := str_take 32 (dst +:+ zero_sha256).

(** ** Notes *)

Record wheelNotes := mkwheelNotes {
  wn_Annotation : Annotation;
  requirementFaults : list string;
  integrityFaults : list string;
  missingFiles : list string;
  extraFiles : list string;
}.
Definition newWheelNotes : wheelNotes := mkwheelNotes ∅ [] [] [] [].
Definition note (key : string) (v : AnyVal) (n : wheelNotes) : wheelNotes :=
  mkwheelNotes (Annotation_Add (wn_Annotation n) key v) (requirementFaults n) (integrityFaults n) (missingFiles n)
    (extraFiles n).
Definition requirementFault (msg : string) (n : wheelNotes) : wheelNotes :=
  mkwheelNotes (wn_Annotation n) (requirementFaults n ++ [msg]) (integrityFaults n) (missingFiles n) (extraFiles n).
Definition integrityFault (msg : string) (n : wheelNotes) : wheelNotes :=
  mkwheelNotes (wn_Annotation n) (requirementFaults n) (integrityFaults n ++ [msg]) (missingFiles n) (extraFiles n).
Definition missingFile (name : string) (n : wheelNotes) : wheelNotes :=
  mkwheelNotes (wn_Annotation n) (requirementFaults n) (integrityFaults n) (missingFiles n ++ [name]) (extraFiles n).
Definition extraFile (name : string) (n : wheelNotes) : wheelNotes :=
  mkwheelNotes (wn_Annotation n) (requirementFaults n) (integrityFaults n) (missingFiles n) (extraFiles n ++ [name]).

Record memberFile := mkmemberFile { mf_Name : string; mf_Sha256 : Sha256Digest; mf_Size : Z }.
Definition zero_memberFile : memberFile := mkmemberFile "" zero_sha256 0.

Definition wheel_id : string := "pip.wheel".
Definition wheel_type : string := "application/x.python.wheel".
Definition wheelPatterns : list Regexp :=
  [MustCompile "^\w+-[^/]+\.dist-info/WHEEL$"; MustCompile "^\w+-[^/]+\.dist-info/METADATA$";
   MustCompile "^\w+-[^/]+\.dist-info/RECORD$"].
Definition reWheelMetadata : Regexp := MustCompile "^\w+-[^/]+\.dist-info/METADATA$".
Definition reRecord : Regexp := MustCompile "^\w+-[^/]*\.dist-info/RECORD$".

(** A digest, split at the first equals sign; [None] is the panic when there is none. *)
Definition split_digest (digest : string) : string * option string :=
  match Cut digest "=" with Some (t, d) => (t, Some d) | None => (digest, None) end.

Section Wheel.
Context `{ML : MimeLib} `{MO : MapOrder} `{ZP : Zip} `{HA : Hashes} `{TF : TempFiles} `{LT : LicenseTool} {IS : Type}.

(** ** The RECORD *)

(** What one line says about the remaining files: a fault ends the check. *)
Inductive record_step :=
| RecordFault (f : wheelNotes -> wheelNotes)
| RecordSelf (fileMap : gmap string memberFile)
| RecordOk (fileMap : gmap string memberFile)
| RecordPanic.

Definition record_line (rname line : string) (fileMap : gmap string memberFile) : record_step :=
  match Split line "," with
  | [name; digest; rsize] =>
      if String.eqb digest "" && String.eqb name rname then RecordSelf (delete name fileMap)
      else match Atoi rsize with
      | Err _ => RecordFault (integrityFault (name +:+ ": malformed size '" +:+ rsize +:+ "' in RECORD"))
      | Ok size =>
          let f := default zero_memberFile (fileMap !! name) in
          if negb (size =? mf_Size f)%Z then
            RecordFault (integrityFault (name +:+ ": file size " +:+ Itoa (mf_Size f) +:+
              " does not match recorded size " +:+ Itoa size))
          else
            let '(dtype, d) := split_digest digest in
            if negb (String.eqb dtype "sha256") then
              RecordFault (integrityFault (name +:+ ": unknown digest type '" +:+ dtype +:+ "'"))
            else match d with
            | None => RecordPanic
            | Some d =>
                match raw_url_decode d with
                | Err err => RecordFault (integrityFault (name +:+ ": digest decode error: " +:+ error_string err))
                | Ok dst =>
                    match fileMap !! name with
                    | None => RecordFault (missingFile name)
                    | Some member =>
                        if negb (String.eqb (mf_Sha256 member) (to_digest dst)) then
                          RecordFault (integrityFault (name +:+ ": digest mismatch"))
                        else RecordOk (delete name fileMap)
                    end
                end
            end
      end
  | _ => RecordFault (integrityFault ("malformed RECORD entry: '" +:+ line +:+ "'"))
  end.

(** The files not in the RECORD are extra; their order is that of the iteration. *)
Fixpoint record_lines (rname : string) (lines : list string) (fileMap : gmap string memberFile) (num : Z)
    (n : wheelNotes) : option wheelNotes :=
  match lines with
  | [] => Some (fold_left (fun n kv => extraFile (fst kv) n) (map_range fileMap)
                  (note "parsed-record-entries" (AInt num) n))
  | line :: rest =>
      match record_line rname line fileMap with
      | RecordFault f => Some (f n)
      | RecordSelf m => record_lines rname rest m num n
      | RecordOk m => record_lines rname rest m (num + 1) n
      | RecordPanic => None
      end
  end.

(** Of files with the same name the last one counts. *)
Definition file_map (files : list memberFile) : gmap string memberFile :=
  fold_left (fun m f => <[mf_Name f := f]> m) files ∅.
Definition checkRecord (zf : Body) (rname : string) (files : list memberFile) (n : wheelNotes) : option wheelNotes :=
  record_lines rname (fst (Scanner_Lines (body_data zf))) (file_map files) 0 n.

(** [None] is the panic. *)
Definition readWheelRecord (zfiles : list zip_file) (files : list memberFile) (n : wheelNotes) :
    option (wheelNotes * option error) :=
  match List.find (fun f => MatchString reRecord (zf_Name f)) zfiles with
  | None => Some (n, Some (EText "RECORD file not found"))
  | Some f => match zf_Open f with
              | Err err => Some (n, Some err)
              | Ok zf => n ← checkRecord zf (zf_Name f) files n; Some (n, None)
              end
  end.

(** ** Files and metadata *)

Fixpoint list_files (zfiles : list zip_file) : result (list memberFile) :=
  match zfiles with
  | [] => Ok []
  | f :: rest =>
      zf ← zf_Open f;
      if zf_Dir f then list_files rest
      else match body_err zf with
           | Some err => Err err
           | None => l ← list_files rest;
                     Ok (mkmemberFile (zf_Name f) (sha256_Sum (body_data zf)) (zf_Size f) :: l)
           end
  end.
Definition listWheelFiles (zfiles : list zip_file) (n : wheelNotes) : result (list memberFile * wheelNotes) :=
  l ← list_files zfiles; Ok (l, note "files" (AInt (Z.of_nat (List.length l))) n).

(** The metadata, with the version of their format. *)
Definition scanWheelMetadata (zf : Body) : result (ArtifactMetadata * string) :=
  match os_CreateTemp with
  | Err err => Err err
  | Ok temp =>
      let '(m, lines) := scan_metadata zf in
      match GetLicense temp (copied_text lines) with
      | (_, Some err) => Err err
      | (license, None) => Ok (py_artifact wheel_type (py_name m) (py_summary m) license m, py_mver m)
      end
  end.
Definition readWheelMetadata (zfiles : list zip_file) (n : wheelNotes) : result (ArtifactMetadata * wheelNotes) :=
  match List.find (fun f => MatchString reWheelMetadata (zf_Name f)) zfiles with
  | None => Ok (NoMetadata, requirementFault "METADATA file not found" n)
  | Some f =>
      zf ← zf_Open f;
      '(md, ver) ← scanWheelMetadata zf;
      let n := if String.eqb (am_Name md) "" then requirementFault "wheel name not found" n else n in
      let n := if String.eqb (am_Version md) "" then requirementFault "wheel version not found" n else n in
      Ok (md, if String.eqb ver "" then requirementFault "wheel metadata version not found" n
              else note "metadata-version" (AStr ver) n)
  end.

(** ** The inspector *)

Definition note_list (key : string) (l : list string) (n : wheelNotes) : wheelNotes :=
  match l with [] => n | _ => note key (AStrs l) n end.

Definition processOpinion (md : ArtifactMetadata) (n : wheelNotes) (a : Artifact) : Artifact :=
  let reject reason n := AnnotateResponse wheel_id (wn_Annotation n) (SetResponseRejected wheel_id reason md a) in
  match requirementFaults n with
  | _ :: _ => reject "wheel file requirements not met" (note "faults" (AStrs (requirementFaults n)) n)
  | [] =>
      match integrityFaults n ++ missingFiles n ++ extraFiles n with
      | _ :: _ =>
          reject "wheel file parsed but failed integrity verification"
            (note_list "extra-files" (extraFiles n)
               (note_list "missing-files" (missingFiles n) (note_list "faults" (integrityFaults n) n)))
      | [] => AnnotateResponse wheel_id (wn_Annotation n)
                (SetResponseApproved wheel_id "wheel file successfully parsed" md a)
      end
  end.

Definition Wheel_InspectRequest : IS -> Artifact -> IS * Artifact * option error :=
  inspect_pip_request wheel_id checkWheelURL.

(** The archive is opened again for each step. *)
Definition Wheel_InspectArtifact (st : IS) (data : string) (a : Artifact) : IS * Artifact * option error :=
  if negb (MimetypeIs a "application/zip") then (st, a, None)
  else if negb (ZipMatches data wheelPatterns) then (st, a, None)
  else match zip_read data with
  | Err err => (st, a, Some err)
  | Ok zfiles =>
      match readWheelMetadata zfiles newWheelNotes with
      | Err err => (st, a, Some err)
      | Ok (md, n) =>
          if negb (String.eqb (am_Type md) wheel_type) then (st, a, None)
          else match listWheelFiles zfiles n with
          | Err err => (st, a, Some err)
          | Ok (fileList, n) =>
              match readWheelRecord zfiles fileList n with
              | None => (st, a, Some index_out_of_range)
              | Some (_, Some err) => (st, a, Some err)
              | Some (n, None) => (st, processOpinion md n a, None)
              end
          end
      end
  end.

Definition WheelInspector : Inspector (IS := IS) := mkInspector wheel_id Wheel_InspectRequest Wheel_InspectArtifact.

(** ** Lemmas *)

Lemma processOpinion_frame md n a : response_frame wheel_id a (processOpinion md n a).
Proof. unfold processOpinion. repeat case_match; auto with frames. Qed.

#[export] Instance Wheel_laws : InspectorLaws WheelInspector.
Proof.
  split; simpl.
  - intros. by eapply inspect_pip_request_frame.
  - unfold Wheel_InspectArtifact. intros st data a st' a' e H.
    repeat (case_match; simplify_eq; auto using processOpinion_frame with frames).
Qed.

(** No fault of any kind. *)
Definition faultless (n : wheelNotes) : Prop :=
  requirementFaults n = [] /\ integrityFaults n = [] /\ missingFiles n = [] /\ extraFiles n = [].

Lemma processOpinion_approved md n a :
  response_opinion wheel_id (processOpinion md n a) = Some Approved <-> faultless n.
Proof.
  unfold processOpinion, faultless. destruct (requirementFaults n); [|autorewrite with opinions; naive_solver].
  destruct (integrityFaults n ++ missingFiles n ++ extraFiles n) as [|x l] eqn:E; autorewrite with opinions.
  - apply app_nil in E as [-> [-> ->]%app_nil]. naive_solver.
  - split; [done|]. intros (_ & H1 & H2 & H3). by rewrite H1, H2, H3 in E.
Qed.

(** A line that accounts for a file: its size and the SHA-256 digest of its content. *)
Definition recorded (lines : list string) (name : string) (m : memberFile) : Prop :=
  exists line d dst rsize, In line lines /\ Split line "," = [name; "sha256=" +:+ d; rsize] /\
    Atoi rsize = Ok (mf_Size m) /\ raw_url_decode d = Ok dst /\ mf_Sha256 m = to_digest dst.

Lemma split_digest_sha256 digest d : split_digest digest = ("sha256", Some d) -> digest = "sha256=" +:+ d.
Proof.
  unfold split_digest. destruct (Cut digest "=") as [[t d']|] eqn:E; [|done].
  intros [= -> ->]. by apply Cut_Some in E.
Qed.

Lemma record_line_ok rname line fm fm' : record_line rname line fm = RecordOk fm' ->
  exists name m, fm !! name = Some m /\ fm' = delete name fm /\ recorded [line] name m.
Proof.
  unfold record_line. destruct (Split line ",") as [|name [|digest [|rsize [|? ?]]]] eqn:Es; try done.
  destruct (_ && _); [done|]. destruct (Atoi rsize) as [z|] eqn:Ea; [|done].
  destruct (Z.eqb_spec z (mf_Size (default zero_memberFile (fm !! name)))) as [Hz|]; [|done]. simpl.
  destruct (split_digest digest) as [t d] eqn:Ed. destruct (String.eqb_spec t "sha256") as [->|]; [|done]. simpl.
  destruct d as [d|]; [|done]. destruct (raw_url_decode d) as [dst|] eqn:Er; [|done].
  destruct (fm !! name) as [m|] eqn:Em; [|done].
  destruct (String.eqb_spec (mf_Sha256 m) (to_digest dst)) as [Hd|]; [|done]. intros [= <-].
  exists name, m. split; [done|]. split; [done|]. exists line, d, dst, rsize.
  apply split_digest_sha256 in Ed. simpl in Hz. subst. split; [by left|]. auto.
Qed.

Lemma record_line_self rname line fm fm' : record_line rname line fm = RecordSelf fm' -> fm' = delete rname fm.
Proof.
  unfold record_line. destruct (Split line ",") as [|name [|digest [|rsize [|? ?]]]]; try done.
  destruct (String.eqb digest "") eqn:E1; simpl; [destruct (String.eqb_spec name rname) as [->|]|].
  - by intros [= <-].
  - repeat case_match; done.
  - repeat case_match; done.
Qed.

Lemma record_line_fault rname line fm f n : record_line rname line fm = RecordFault f -> ~ faultless (f n).
Proof.
  unfold record_line, faultless. intros H.
  assert (Hf : (exists msg, f = integrityFault msg) \/ exists name, f = missingFile name).
  { revert H. repeat case_match; intros; simplify_eq; eauto. }
  destruct Hf as [[msg ->]|[name ->]]; simpl; intros (_ & H1 & H2 & _).
  - by destruct (integrityFaults n).
  - by destruct (missingFiles n).
Qed.

Lemma extra_files l n : faultless (fold_left (fun n kv => extraFile (fst kv) n) l n) -> @nil (string * memberFile) = l.
Proof.
  revert n. induction l as [|kv l IH]; intros n; simpl; [done|]. intros H. exfalso.
  pose proof (IH _ H) as <-. simpl in H. destruct H as (_ & _ & _ & H). simpl in H. by destruct (extraFiles n).
Qed.

(** The check finds no fault only if every file but the RECORD itself has a line. *)
Lemma record_lines_spec {MOL : MapOrderLaws} rname lines fm num n n' :
  record_lines rname lines fm num n = Some n' -> faultless n' ->
  forall name m, fm !! name = Some m -> name <> rname -> recorded lines name m.
Proof.
  revert fm num. induction lines as [|line lines IH]; intros fm num; simpl.
  - intros [= <-] Hf%extra_files name m Hm. apply map_range_elem in Hm. by rewrite <- Hf in Hm.
  - assert (Hmono : forall name m, recorded lines name m -> recorded (line :: lines) name m).
    { intros name m (l & d & dst & rs & ? & ?). exists l, d, dst, rs. split; [by right|done]. }
    destruct (record_line rname line fm) as [f|fm'|fm'|] eqn:E; [|..|done].
    + intros [= <-] Hf. by apply (record_line_fault _ _ _ _ n) in E.
    + apply record_line_self in E as ->. intros H Hf name m Hm Hne. apply Hmono.
      eapply IH; [exact H|done| |done]. by rewrite lookup_delete_ne.
    + apply record_line_ok in E as (x & mx & Hx & -> & Hrec). intros H Hf name m Hm Hne.
      destruct (decide (name = x)) as [->|Hnx].
      * simplify_eq. destruct Hrec as (l & d & dst & rs & [->|[]] & ?). exists l, d, dst, rs. split; [by left|done].
      * apply Hmono. eapply IH; [exact H|done| |done]. by rewrite lookup_delete_ne.
Qed.

(** C14: In an approved wheel every file but the RECORD is accounted for by a line of the RECORD, with the size in
    the archive and the SHA-256 digest of its content. Of files with the same name that is the last. *)
Theorem wheel_verified {MOL : MapOrderLaws} : forall (st : IS) data a st' a' e,
  response_opinion wheel_id a <> Some Approved -> Wheel_InspectArtifact st data a = (st', a', e) ->
  response_opinion wheel_id a' = Some Approved ->
  exists zfiles files rf text, zip_read data = Ok zfiles /\ list_files zfiles = Ok files /\
    In rf zfiles /\ MatchString reRecord (zf_Name rf) = true /\ zf_Open rf = Ok text /\
    forall name m, file_map files !! name = Some m -> name <> zf_Name rf ->
      recorded (fst (Scanner_Lines (body_data text))) name m.
Proof.
  intros st data a st' a' e Hno H Hop. unfold Wheel_InspectArtifact in H.
  destruct (negb _); [by simplify_eq|]. destruct (negb _); [by simplify_eq|].
  destruct (zip_read data) as [zfiles|] eqn:Ez; [|by simplify_eq].
  destruct (readWheelMetadata _ _) as [[md n]|]; [|by simplify_eq].
  destruct (negb _); [by simplify_eq|].
  destruct (listWheelFiles zfiles n) as [[files n1]|] eqn:El; [|by simplify_eq].
  destruct (readWheelRecord zfiles files n1) as [[n2 [err|]]|] eqn:Er; [by simplify_eq| |by simplify_eq].
  injection H as <- <- <-. apply processOpinion_approved in Hop.
  unfold listWheelFiles in El. apply bind_Ok in El as (l & Hl & [= -> <-]).
  unfold readWheelRecord in Er. destruct (List.find _ zfiles) as [rf|] eqn:Ef; [|done].
  apply List.find_some in Ef as [Hin Hm]. destruct (zf_Open rf) as [text|] eqn:Eo; [|done].
  destruct (checkRecord _ _ _ _) as [n'|] eqn:Ec; simpl in Er; [|done]. injection Er as ->.
  exists zfiles, files, rf, text. do 5 (split; [done|]).
  intros name m Hfm Hne. eapply record_lines_spec; [exact Ec|exact Hop|exact Hfm|exact Hne].
Qed.

End Wheel.

(** ** Witnesses *)

Section WheelDemo.
#[local] Existing Instance text_mime.
#[local] Existing Instance list_order.
#[local] Existing Instance list_order_laws.
#[local] Instance demo_hashes : Hashes := {| sha1_Sum := fun _ => zero_sha1; sha256_Sum := to_digest |}.
#[local] Instance demo_wheel_temp : TempFiles := {| os_CreateTemp := Ok "/tmp/tmpfile-1" |}.
#[local] Instance demo_wheel_license : LicenseTool := {| licensecheck := fun f _ => Ok f |}.

Definition demo_member (name content : string) : zip_file :=
  mkZipFile name false (Z.of_nat (String.length content)) (Ok (bytes content)).
Definition demo_metadata : string := Join ["Metadata-Version: 2.1"; "Name: p"; "Version: 1"; ""; "text"] (str1 nl).
Definition demo_files : list (string * string) :=
  [("p/__init__.py", "pass"); ("p-1.dist-info/WHEEL", "w"); ("p-1.dist-info/METADATA", demo_metadata)].
Definition demo_record : string :=
  Join (map (fun f => fst f +:+ ",sha256=" +:+ raw_url (b64_encode (to_digest (snd f))) +:+ "," +:+
               Itoa (Z.of_nat (String.length (snd f)))) demo_files ++ ["p-1.dist-info/RECORD,,"]) (str1 nl).
#[local] Instance demo_wheel_zip : Zip :=
  fixed_zip (map (fun f => demo_member (fst f) (snd f)) (demo_files ++ [("p-1.dist-info/RECORD", demo_record)])).
Definition demo_wheel_file : Artifact :=
  set_Meta (mkMetadata "application/zip" zero_sha1 zero_sha256 0 "" "" "" "" "" "" "" "" "" "" "" "" "") NewArtifact.
Definition demo_wheel_run : unit * Artifact * option error := Wheel_InspectArtifact tt "data" demo_wheel_file.

Lemma wheel_verified_witness : ResponseApproved demo_wheel_run.1.2 = true /\
  exists lines m, recorded lines "p/__init__.py" m /\ mf_Size m = 4%Z.
Proof.
  split; [by vm_compute|].
  destruct (wheel_verified tt "data" demo_wheel_file demo_wheel_run.1.1 demo_wheel_run.1.2 None)
    as (zfiles & files & rf & text & Hz & Hl & Hin & Hre & _ & Hall);
    [by vm_compute|unfold demo_wheel_run; apply triple_eta; by vm_compute|by vm_compute|].
  vm_compute in Hz. injection Hz as <-. vm_compute in Hl. injection Hl as <-.
  assert (Hrf : "p/__init__.py" <> zf_Name rf).
  { intros Heq. rewrite <- Heq in Hre. by vm_compute in Hre. }
  exists (fst (Scanner_Lines (body_data text))), (mkmemberFile "p/__init__.py" (to_digest "pass") 4).
  split; [|done]. apply (Hall "p/__init__.py"); [by vm_compute|exact Hrf].
Defined.

(** A RECORD with a digest without an equals sign. *)
Example record_panic_example : record_line "r" "f,sha256,4" {[ "f" := mkmemberFile "f" zero_sha256 4 ]} = RecordPanic.
Proof. by vm_compute. Qed.
End WheelDemo.
