(* ===== verification/Registry.v ===== *)
(** * The registered inspectors

    [New] of [inspectors/inspectors.go] with the format inspectors of this development: the state they keep
    between files, the constructors, the identifiers under which they are found, and what holds of a whole run
    of the inspectors, whose steps depend on each other: a Debian package is approved only on the ground of a
    package list and a release file that were inspected before. *)
From stdpp Require Import base gmap strings list option fin_maps.
From Stdlib Require Import ZArith Lia Ascii.
From S2P Require Import Prelude GoStrings GoCodec Platform HttpUtil Json Digests Artifact Net Config Inspectors InspectorLib Url Archives OpenPgp Assertion Git Craft BldBin Store Lxd SnapApi SnapRefresh Snap AptConfig AptRelease AptPackages AptIndex License Deb Chisel GoMod Cargo Maven Pip Wheel.

(** ** The state *)

(** The fields of the inspectors of a session and the file system they share. *)
Record InspectorState `{Os} `{OpenPGP} `{HttpClient} := mkInspectorState {
  is_files : FS;
  is_snap : SnapStore;
  is_store : StoreIds;
  is_repos : GitRepos;
  is_products : ProductItems;
  is_releases : ReleaseState;
  is_packages : PackagesState;
}.

Section State.
Context `{OS : Os} `{PG : OpenPGP} `{HC : HttpClient}.

#[export] Instance part_files : Part InspectorState FS := {| part := is_files; set_part := fun x s =>
  mkInspectorState _ _ _ x (is_snap s) (is_store s) (is_repos s) (is_products s) (is_releases s) (is_packages s) |}.
#[export] Instance part_snap : Part InspectorState SnapStore := {| part := is_snap; set_part := fun x s =>
  mkInspectorState _ _ _ (is_files s) x (is_store s) (is_repos s) (is_products s) (is_releases s) (is_packages s) |}.
#[export] Instance part_store : Part InspectorState StoreIds := {| part := is_store; set_part := fun x s =>
  mkInspectorState _ _ _ (is_files s) (is_snap s) x (is_repos s) (is_products s) (is_releases s) (is_packages s) |}.
#[export] Instance part_repos : Part InspectorState GitRepos := {| part := is_repos; set_part := fun x s =>
  mkInspectorState _ _ _ (is_files s) (is_snap s) (is_store s) x (is_products s) (is_releases s) (is_packages s) |}.
#[export] Instance part_products : Part InspectorState ProductItems := {| part := is_products; set_part := fun x s =>
  mkInspectorState _ _ _ (is_files s) (is_snap s) (is_store s) (is_repos s) x (is_releases s) (is_packages s) |}.
#[export] Instance part_releases : Part InspectorState ReleaseState := {| part := is_releases; set_part := fun x s =>
  mkInspectorState _ _ _ (is_files s) (is_snap s) (is_store s) (is_repos s) (is_products s) x (is_packages s) |}.
#[export] Instance part_packages : Part InspectorState PackagesState := {| part := is_packages; set_part := fun x s =>
  mkInspectorState _ _ _ (is_files s) (is_snap s) (is_store s) (is_repos s) (is_products s) (is_releases s) x |}.

(** What belongs to the inspectors of releases and of package lists. *)
Definition apt_part (s : InspectorState) : ReleaseState * PackagesState := (is_releases s, is_packages s).

Ltac split_state := split; [by intros|by intros []|by intros].
#[export] Instance part_files_laws : PartLaws InspectorState FS.
Proof. split_state. Qed.
#[export] Instance part_snap_laws : PartLaws InspectorState SnapStore.
Proof. split_state. Qed.
#[export] Instance part_store_laws : PartLaws InspectorState StoreIds.
Proof. split_state. Qed.
#[export] Instance part_repos_laws : PartLaws InspectorState GitRepos.
Proof. split_state. Qed.
#[export] Instance part_products_laws : PartLaws InspectorState ProductItems.
Proof. split_state. Qed.
#[export] Instance part_releases_laws : PartLaws InspectorState ReleaseState.
Proof. split_state. Qed.
#[export] Instance part_packages_laws : PartLaws InspectorState PackagesState.
Proof. split_state. Qed.
#[export] Instance releases_other : PartOther InspectorState ReleaseState PackagesState.
Proof. by split. Qed.
#[export] Instance packages_other : PartOther InspectorState PackagesState ReleaseState.
Proof. by split. Qed.
End State.

(** ** The constructors *)

Section Registry.
Context `{ML : MimeLib} `{GL : GlobLib} `{OS : Os} `{MO : MapOrder} {MOL : MapOrderLaws} `{PG : OpenPGP} `{HC : HttpClient} `{S3 : Sha3}.
Context `{SQ : SquashFs} `{SY : SnapYamlLib} `{XZ : Xz} `{GZ : Gzip} `{ZS : Zstd} `{TR : Tar} `{AR : Ar} `{ZP : Zip}.
Context `{BY : BldBinYaml} `{LY : LxdYaml} `{CRY : CraftYamlLib} `{CHY : ChiselYamlLib} `{TL : TomlLib} `{PX : PomXml}.
Context `{HT : Html} `{PN : Png} `{KB : !KeyBlock} `{HA : Hashes} `{UC : Unicode} `{TF : TempFiles} `{LT : LicenseTool}.
Context `{GT : !GitTools}.

Notation IS := InspectorState.

(** The fuel is that of the signature chains of assertions. *)
Definition registry (fuel : nat) : Constructors (IS := IS) := {|
  NewSnapInspector := SnapInspector fuel;
  NewSnapAssertionInspector := SnapAssertionInspector fuel;
  NewSnapInfoInspector := SnapInfoInspector;
  NewSnapRefreshInspector := SnapRefreshInspector;
  NewSnapSectionsInspector := SnapSectionsInspector;
  NewSnapAuthSessionsInspector := SnapAuthSessionsInspector;
  NewSnapAuthNonceInspector := SnapAuthNonceInspector;
  NewSnapAuthRequestIDInspector := SnapAuthRequestIDInspector;
  NewSnapNamesInspector := SnapNamesInspector;
  NewStoreInfoAPIInspector := StoreInfoAPIInspector;
  NewStoreResolveAPIInspector := StoreResolveAPIInspector;
  NewStoreTransformsAPIInspector := StoreTransformsAPIInspector;
  NewStoreAppMediaInspector := StoreAppMediaInspector;
  NewBldBinInspector := BldBinInspector;
  NewSimpleIndexInspector := SimpleIndexInspector;
  NewWheelInspector := WheelInspector;
  NewSdistInspector := SdistInspector;
  NewMetadataInspector := MetadataInspector;
  NewAptReleaseInspector := AptReleaseInspector;
  NewAptPackagesInspector := AptPackagesInspector;
  NewAptTranslationInspector := AptTranslationInspector;
  NewAptCommandsInspector := AptCommandsInspector;
  NewDebInspector := DebInspector;
  NewChiselReleaseInspector := ChiselReleaseInspector;
  NewSmartQueryInspector := SmartQueryInspector;
  NewUploadPackInspector := UploadPackInspector;
  NewGoModuleGitInspector := GoModuleGitInspector;
  NewRockcraftInspector := RockcraftInspector;
  NewCharmcraftInspector := CharmcraftInspector;
  NewSnapcraftInspector := SnapcraftInspector;
  NewSourcecraftInspector := SourcecraftInspector;
  NewBincraftInspector := BincraftInspector;
  NewIndexInspector := CargoIndexInspector;
  NewCrateInspector := CargoCrateInspector;
  NewJarInspector := MavenJarInspector;
  NewPomInspector := MavenPomInspector;
  NewSimpleStreamsIndexInspector := SimpleStreamsIndexInspector;
  NewSimpleStreamsDownloadInspector := SimpleStreamsDownloadInspector;
  NewRootfsInspector := RootfsInspector;
  NewInstanceTypesInspector := InstanceTypesInspector;
|}.

Lemma registry_laws fuel cfg : Forall InspectorLaws (insList (registry fuel) cfg).
Proof. repeat (apply Forall_cons; split; [simpl; apply _|]). apply Forall_nil. exact I. Qed.

Lemma registry_ids fuel cfg : map ID (insList (registry fuel) cfg) = [
  "snap"; "snap.assertion"; "snap.info"; "snap.refresh"; "snap.sections"; "snap.auth-sessions"; "snap.auth-nonce";
  "snap.auth-request-id"; "snap.names"; "store.info-api"; "store.resolve-api"; "store.transforms-api";
  "store.appmedia"; "bld.bin"; "pip.simple-index"; "pip.wheel"; "pip.sdist"; "pip.metadata"; "apt.release";
  "apt.packages"; "apt.translations"; "apt.commands"; "deb"; "chisel.release"; "git.smart-query"; "git.upload-pack";
  "go.module.git"; "craft.rockcraft"; "craft.charmcraft"; "craft.snapcraft"; "craft.sourcecraft"; "craft.bincraft";
  "cargo.index"; "cargo.crate"; "maven.jar"; "maven.pom"; "lxd.simple-streams.index"; "lxd.simple-streams.download";
  "lxd.rootfs"; "lxd.instance-types"; "default"].
Proof. vm_compute. reflexivity. Qed.

(** ** Which inspectors touch the state of releases and package lists *)

Definition requests_keep (ins : Inspector (IS := IS)) : Prop :=
  forall st a st' a' e, InspectRequest ins st a = (st', a', e) -> apt_part st' = apt_part st.
Definition files_keep (ins : Inspector (IS := IS)) : Prop :=
  forall st data a st' a' e, InspectArtifact ins st data a = (st', a', e) -> apt_part st' = apt_part st.

Lemma url_request_keeps {A} (info : ParsedURL -> option (result A)) mark (st : IS) a st' a' e :
  url_request info mark st a = (st', a', e) -> apt_part st' = apt_part st.
Proof. unfold url_request, panics. repeat case_match; intros; by simplify_eq. Qed.

Lemma as_VerifySignature_keeps fuel assert (st st' : IS) e :
  as_VerifySignature fuel assert st = (st', e) -> apt_part st' = apt_part st.
Proof. unfold as_VerifySignature. repeat case_match; intros; by simplify_eq. Qed.
Lemma fetch_assertion_keeps f (st st' : IS) r : fetch_assertion f st = (st', r) -> apt_part st' = apt_part st.
Proof. unfold fetch_assertion. repeat case_match; intros; by simplify_eq. Qed.

Create HintDb keeps.
#[local] Hint Resolve as_VerifySignature_keeps fetch_assertion_keeps url_request_keeps : keeps.

(** The equations of the steps that were taken, in turn. *)
Ltac solve_keeps :=
  repeat case_match; intros; simplify_eq/=; try done;
  repeat match goal with
  | H : ?f = (?st1, _) |- apt_part ?st1 = _ => etrans; [solve [eauto with keeps nocore]|]; clear H
  | H : ?f = (?st1, _, _) |- apt_part ?st1 = _ => etrans; [solve [eauto with keeps nocore]|]; clear H
  end; try done.

Lemma checkSnapRevisionAssertion_keeps fuel rev digest a (st st' : IS) r :
  checkSnapRevisionAssertion fuel rev digest a st = (st', r) -> apt_part st' = apt_part st.
Proof. unfold checkSnapRevisionAssertion. solve_keeps. Qed.
Lemma inspect_snap_image_keeps cfg (st : IS) data a rev decl account st' a' e :
  inspect_snap_image cfg st data a rev decl account = (st', a', e) -> apt_part st' = apt_part st.
Proof. unfold inspect_snap_image. solve_keeps. Qed.
#[local] Hint Resolve checkSnapRevisionAssertion_keeps inspect_snap_image_keeps : keeps.

Lemma Snap_keeps fuel cfg (st : IS) data a st' a' e :
  Snap_InspectArtifact fuel cfg st data a = (st', a', e) -> apt_part st' = apt_part st.
Proof. unfold Snap_InspectArtifact. solve_keeps. Qed.
Lemma SnapAssertion_keeps fuel (st : IS) data a st' a' e :
  SnapAssertion_InspectArtifact fuel st data a = (st', a', e) -> apt_part st' = apt_part st.
Proof. unfold SnapAssertion_InspectArtifact. solve_keeps. Qed.

Ltac head_of t := match t with ?f _ => head_of f | _ => t end.
(** Looks into the operation and what it calls at the end. *)
Ltac unfold_head := match goal with |- ?f = _ -> _ => let h := head_of f in unfold h end.
Ltac keeps_step := progress first [unfold_head; cbv beta zeta | case_match].
Ltac look_keeps := intros *; repeat keeps_step; intros; simplify_eq/=; try done; solve_keeps.

Lemma UploadPack_keeps (st : IS) data a st' a' e :
  UploadPack_InspectArtifact st data a = (st', a', e) -> apt_part st' = apt_part st.
Proof.
  unfold UploadPack_InspectArtifact. destruct (negb _); [intros; by simplify_eq|].
  destruct (RequestStringAnnotation a upload_pack_id "repository") as [repo|]; [|intros; by simplify_eq].
  assert (Hc : apt_part (initRepoState repo st) = apt_part st) by done.
  revert Hc. generalize (initRepoState repo st). intros st1 Hc. cbv zeta.
  unfold inspectResponseCommand, inspectLsRefsResponse, inspectFetchResponse.
  repeat case_match; intros; simplify_eq; unfold apt_part; simpl; congruence.
Qed.

Lemma SimpleStreamsDownload_keeps (st : IS) data a st' a' e :
  SimpleStreamsDownload_InspectArtifact st data a = (st', a', e) -> apt_part st' = apt_part st.
Proof.
  unfold SimpleStreamsDownload_InspectArtifact, inspectProductItem, extractSupportedUbuntuImages.
  repeat case_match; intros; simplify_eq; done.
Qed.

(** Requests change none of it, and files only through the two inspectors. *)
Lemma requests_keep_all fuel cfg : Forall requests_keep (insList (registry fuel) cfg).
Proof.
  repeat (apply Forall_cons; split; [intros st a st' a' e; simpl|]); [..|by apply Forall_nil].
  all: first [solve [intros; by eapply url_request_keeps] | solve [look_keeps]].
Qed.

Definition touches (id : string) : bool := String.eqb id apt_release_id || String.eqb id apt_packages_id.

Lemma files_keep_all fuel cfg :
  Forall (fun ins => touches (ID ins) = false -> files_keep ins) (insList (registry fuel) cfg).
Proof.
  repeat (apply Forall_cons; split; [intros Ht st data a st' a' e; simpl|]); [..|by apply Forall_nil].
  all: first [discriminate Ht
    | solve [eauto using Snap_keeps, SnapAssertion_keeps, UploadPack_keeps, SimpleStreamsDownload_keeps]
    | solve [look_keeps]].
Qed.

(** ** Whole runs *)

(** Runs of inspectors that do not touch that part of the state. *)
Lemma run_keeps (m : gmap string (Inspector (IS := IS))) perm data l st a st' a' e :
  (forall id ins, m !! id = Some ins -> touches id = false -> files_keep ins) ->
  Forall (fun id => touches id = false) l ->
  run_artifact m perm data l st a = (st', a', e) -> apt_part st' = apt_part st.
Proof.
  intros Hm Hl. revert st a. induction Hl as [|id l Ht _ IH]; intros st a; simpl; [by intros; simplify_eq|].
  destruct (negb _); [apply IH|]. destruct (m !! id) as [ins|] eqn:Ei; [|by intros; simplify_eq].
  destruct (InspectArtifact ins st data a) as [[st1 a1] [err|]] eqn:E; apply (Hm _ _ Ei Ht) in E;
    [intros [= <- <- <-]; exact E|]. intros H. rewrite <- E. exact (IH _ _ H).
Qed.

Lemma run_requests_keeps (m : gmap string (Inspector (IS := IS))) l st a st' a' e :
  (forall id ins, m !! id = Some ins -> requests_keep ins) ->
  run_request m l st a = (st', a', e) -> apt_part st' = apt_part st.
Proof.
  intros Hm. revert st a. induction l as [|id l IH]; intros st a; simpl; [by intros; simplify_eq|].
  destruct (m !! id) as [ins|] eqn:Ei; [|by intros; simplify_eq].
  destruct (InspectRequest ins st a) as [[st1 a1] [err|]] eqn:E; apply (Hm _ _ Ei) in E; [intros [= <- <- <-]; exact E|].
  intros H. rewrite <- E. exact (IH _ _ H).
Qed.

Section Runs.
Context (fuel : nat) (perm : bool) (cfg : InspectorsConfig) (digest : string -> Sha256Digest).

(** The inspectors of a session. *)
Definition session_inspectors : Inspectors (IS := IS) := Inspectors_New (registry fuel) perm cfg.
Notation m := (insmap session_inspectors).

Lemma session_ids_distinct : NoDup (map ID (insList (registry fuel) cfg)).
Proof. rewrite registry_ids. refine (bool_decide_eq_true_1 _ _). by vm_compute. Qed.

Lemma session_found ins : In ins (insList (registry fuel) cfg) -> m !! ID ins = Some ins.
Proof. apply register_distinct, session_ids_distinct. Qed.

Lemma session_lookup id ins : m !! id = Some ins -> ID ins = id /\
  InspectorLaws ins /\ requests_keep ins /\ (touches id = false -> files_keep ins).
Proof.
  intros H. apply register_lookup in H as [[Hin <-]|H]; [|by rewrite lookup_empty in H].
  apply list_elem_of_In in Hin. split; [done|].
  pose proof (registry_laws fuel cfg) as H1. pose proof (requests_keep_all fuel cfg) as H2.
  pose proof (files_keep_all fuel cfg) as H3. rewrite Forall_forall in H1, H2, H3. auto.
Qed.

Lemma session_laws id ins : m !! id = Some ins -> InspectorLaws ins /\ ID ins = id.
Proof. intros H%session_lookup. tauto. Qed.

(** C15: The registry of a session is well-formed, whatever the configuration: the 41 inspectors have different
    identifiers and are listed in the order of the source, with the one for unrecognised artifacts last; each is
    found under its own identifier, nothing else is found, and each keeps to the inspector interface. *)
Theorem session_inspectors_typed :
  insps_wf session_inspectors /\ NoDup (Inspectors_List session_inspectors) /\
  List.length (Inspectors_List session_inspectors) = 41 /\
  List.last (Inspectors_List session_inspectors) "" = "default" /\
  (forall id ins, GetInspector session_inspectors id = Ok ins <-> In ins (insList (registry fuel) cfg) /\ ID ins = id) /\
  Forall InspectorLaws (insList (registry fuel) cfg).
Proof.
  split; [apply insps_wf_New, registry_laws|].
  change (Inspectors_List session_inspectors) with (map ID (insList (registry fuel) cfg)).
  split; [apply session_ids_distinct|]. split; [done|]. split; [done|]. split; [|apply registry_laws].
  intros id ins. unfold GetInspector. split.
  - destruct (m !! id) as [ins'|] eqn:E; [|done]. intros [= <-].
    apply register_lookup in E as [?|E]; [done|by rewrite lookup_empty in E].
  - intros [Hin <-]. by rewrite session_found.
Qed.

Definition apt_ok (st : IS) : Prop := apt_inv (Apt cfg) digest (part st) (part st).

Lemma apt_part_ok st st' : apt_part st' = apt_part st -> apt_ok st -> apt_ok st'.
Proof. unfold apt_part, apt_ok. simpl. by intros [= -> ->]. Qed.

Lemma run_others data l st a st' a' e : Forall (fun id => touches id = false) l ->
  run_artifact m perm data l st a = (st', a', e) -> apt_part st' = apt_part st.
Proof. apply run_keeps. intros id ins H%session_lookup. tauto. Qed.
Lemma run_requests l st a st' a' e : run_request m l st a = (st', a', e) -> apt_part st' = apt_part st.
Proof. apply run_requests_keeps. intros id ins H%session_lookup. tauto. Qed.

(** The order of the inspectors around those of package archives. *)
Definition before_apt : list string := take 18 (map ID (insList (registry fuel) cfg)).
Definition after_deb : list string := drop 23 (map ID (insList (registry fuel) cfg)).
Lemma session_order : ids session_inspectors = before_apt ++ apt_release_id :: apt_packages_id ::
  [apt_translations_id; apt_commands_id] ++ deb_id :: after_deb.
Proof.
  change (ids session_inspectors) with (map ID (insList (registry fuel) cfg)).
  unfold before_apt, after_deb. by rewrite registry_ids.
Qed.

Lemma others_before : Forall (fun id => touches id = false) before_apt.
Proof. unfold before_apt. rewrite registry_ids. repeat (apply Forall_cons; split; [done|]). by apply Forall_nil. Qed.
Lemma others_after : Forall (fun id => touches id = false) after_deb.
Proof. unfold after_deb. rewrite registry_ids. repeat (apply Forall_cons; split; [done|]). by apply Forall_nil. Qed.
Lemma not_before id : In id [apt_release_id; apt_packages_id; deb_id] -> ~ In id before_apt.
Proof. unfold before_apt. rewrite registry_ids. simpl. intros H H'. naive_solver. Qed.
Lemma not_after id : In id [apt_release_id; apt_packages_id; deb_id] -> ~ In id after_deb.
Proof. unfold after_deb. rewrite registry_ids. simpl. intros H H'. naive_solver. Qed.

Lemma not_between id : In id [apt_release_id; apt_packages_id; deb_id] -> ~ In id [apt_translations_id; apt_commands_id].
Proof. simpl. intros H H'. naive_solver. Qed.

Lemma found_release : m !! apt_release_id = Some (AptReleaseInspector (Apt cfg)).
Proof. apply (session_found (AptReleaseInspector (Apt cfg))). simpl. tauto. Qed.
Lemma found_packages : m !! apt_packages_id = Some (AptPackagesInspector (Apt cfg)).
Proof. apply (session_found (AptPackagesInspector (Apt cfg))). simpl. tauto. Qed.
Lemma found_translations : m !! apt_translations_id = Some (AptTranslationInspector (Apt cfg)).
Proof. apply (session_found (AptTranslationInspector (Apt cfg))). simpl. tauto. Qed.
Lemma found_commands : m !! apt_commands_id = Some (AptCommandsInspector (Apt cfg)).
Proof. apply (session_found (AptCommandsInspector (Apt cfg))). simpl. tauto. Qed.
Lemma found_deb : m !! deb_id = Some (DebInspector (Apt cfg)).
Proof. apply (session_found (DebInspector (Apt cfg))). simpl. tauto. Qed.

Lemma session_permissive : permissive session_inspectors = perm.
Proof. done. Qed.
#[local] Opaque session_inspectors.

(** A file that was not inspected before, whose digest is that of its content. *)
Definition fresh_file (data : string) (a : Artifact) : Prop :=
  ResponseInspection a = ∅ /\ digest data = Artifact_Sha256 a.

(** The states after inspections of any requests and files. *)
Inductive reachable : IS -> Prop :=
| reach_new st : apt_part st = (∅, empty_PackagesState) -> reachable st
| reach_request st a st' a' e : reachable st ->
    RunRequestInspectors session_inspectors st a = (st', a', e) -> reachable st'
| reach_file st dir fs a st' a' e : reachable st ->
    (forall data, OpenArtifactFile fs (data_file dir a) = Ok data -> fresh_file data a) ->
    RunArtifactInspectors session_inspectors dir fs st a = (st', a', e) -> reachable st'.

Lemma reach_request_run st a : reachable st -> reachable (RunRequestInspectors session_inspectors st a).1.1.
Proof.
  intros Hst. destruct (RunRequestInspectors session_inspectors st a) as [[st' a'] e] eqn:E.
  by eapply reach_request.
Qed.
Lemma reach_file_run st dir fs a : reachable st ->
  (forall data, OpenArtifactFile fs (data_file dir a) = Ok data -> fresh_file data a) ->
  reachable (RunArtifactInspectors session_inspectors dir fs st a).1.1.
Proof.
  intros Hst Hf. destruct (RunArtifactInspectors session_inspectors dir fs st a) as [[st' a'] e] eqn:E.
  by eapply reach_file.
Qed.

(** What the inspector of package lists sees, and the state it finds, when a run comes to it. *)
Definition at_packages (data : string) (a0 : Artifact) (st : IS) (a : Artifact) : Prop :=
  apt_ok st /\ artifact_frame a0 a /\ ResponseInspection a !! apt_packages_id = None /\
  ResponseInspection a !! deb_id = None /\
  (forall v, MimetypeIs a packages_type = true -> release_note a = Some v ->
     trusted_digest (Apt cfg) (Artifact_Sha256 a)).

Lemma release_note_none a : ResponseInspection a !! apt_release_id = None -> release_note a = None.
Proof. intros H. unfold release_note, ResponseStringAnnotation, inspectionAnnotation. by rewrite H. Qed.

(** A run up to that point. *)
Lemma run_to_packages data l st a st' a' e : apt_ok st -> fresh_file data a ->
  run_artifact m perm data (before_apt ++ apt_release_id :: l) st a = (st', a', e) ->
  (exists st1 a1, at_packages data a st1 a1 /\ run_artifact m perm data l st1 a1 = (st', a', e)) \/
  apt_ok st' /\ is_Some e.
Proof.
  intros Hok [Hno Hd] H. apply run_artifact_app in H as [(err & -> & H)|(st1 & a1 & H1 & H2)].
  { right. split; [|by eauto]. eapply apt_part_ok; [|exact Hok]. exact (run_others _ _ _ _ _ _ _ others_before H). }
  assert (Hok1 : apt_ok st1).
  { eapply apt_part_ok; [|exact Hok]. exact (run_others _ _ _ _ _ _ _ others_before H1). }
  destruct (run_artifact_frame _ _ _ _ _ _ _ _ _ session_laws H1) as [Hf _].
  pose proof (run_artifact_other _ _ _ _ _ _ _ _ _ session_laws H1) as Ho1.
  assert (Hnew : forall id, In id [apt_release_id; apt_packages_id; deb_id] -> ResponseInspection a1 !! id = None).
  { intros id Hin. rewrite (Ho1 id (not_before id Hin)). by rewrite Hno. }
  destruct (run_artifact_step _ _ _ _ _ _ _ _ _ _ _ found_release H2)
    as [H3|[(st2 & a2 & H3 & H4)|(err & a2 & H3 & ->)]].
  - left. exists st1, a1. split; [|done]. split; [done|]. split; [done|].
    do 2 (split; [apply Hnew; simpl; tauto|]). intros v _. rewrite release_note_none; [done|]. apply Hnew. by left.
  - left. exists st2, a2. split; [|done]. simpl in H3.
    pose proof (law_response (InspectorLaws := Release_laws (Apt cfg)) _ _ _ _ _ _ H3) as F. simpl in F.
    split; [exact (Release_inv _ digest _ _ _ _ _ _ Hok1 H3)|]. split; [etrans; [exact Hf|apply (rs_frame _ _ _ F)]|].
    do 2 (split; [rewrite (rs_own _ _ _ F) by done; apply Hnew; simpl; tauto|]).
    intros v. eapply Release_trusts; [exact Hok1| |exact H3]. apply release_note_none, Hnew. by left.
  - right. split; [|by eauto]. exact (Release_inv _ digest _ _ _ _ _ _ Hok1 H3).
Qed.

Lemma artifact_frame_sha256 a b : artifact_frame a b -> Artifact_Sha256 b = Artifact_Sha256 a.
Proof. intros F. unfold Artifact_Sha256. apply (fr_sha256 _ _ F). Qed.

(** Runs keep the state of both inspectors good. *)
Lemma run_ok data st a st' a' e : apt_ok st -> fresh_file data a ->
  run_artifact m perm data (ids session_inspectors) st a = (st', a', e) -> apt_ok st'.
Proof.
  rewrite session_order. intros Hok Hf H. pose proof Hf as [_ Hd].
  apply run_to_packages in H as [(st1 & a1 & (Hok1 & Hfr & _ & _ & Hn) & H)|[? _]]; [|done..].
  rewrite <- (artifact_frame_sha256 _ _ Hfr) in Hd.
  assert (Hrest : Forall (fun id => touches id = false) ([apt_translations_id; apt_commands_id] ++ deb_id :: after_deb)).
  { do 3 (apply Forall_cons; split; [done|]). apply others_after. }
  destruct (run_artifact_step _ _ _ _ _ _ _ _ _ _ _ found_packages H) as [H3|[(st2 & a2 & H3 & H4)|(err & a2 & H3 & ->)]].
  - eapply apt_part_ok; [|exact Hok1]. exact (run_others _ _ _ _ _ _ _ Hrest H3).
  - eapply apt_part_ok; [exact (run_others _ _ _ _ _ _ _ Hrest H4)|].
    exact (Packages_inv _ digest _ _ _ _ _ _ Hok1 Hd Hn H3).
  - exact (Packages_inv _ digest _ _ _ _ _ _ Hok1 Hd Hn H3).
Qed.

Lemma reachable_ok st : reachable st -> apt_ok st.
Proof.
  induction 1 as [st H|st a st' a' e _ IH H|st dir fs a st' a' e _ IH Hf H].
  - unfold apt_part in H. injection H as H1 H2. unfold apt_ok. simpl. rewrite H1, H2. apply apt_inv_init.
  - eapply apt_part_ok; [|exact IH]. eapply run_requests, H.
  - unfold RunArtifactInspectors in H. destruct (OpenArtifactFile _ _) as [data|] eqn:Eo; [|by simplify_eq].
    destruct (DetectReader data) as [t|]; [|by simplify_eq].
    rewrite session_permissive in H. eapply run_ok; [exact IH| |exact H]. exact (Hf data eq_refl).
Qed.

(** Two inspectors come between, which do not make a file a package. *)
Lemma run_between data st a st' a' :
  run_artifact m perm data [apt_translations_id; apt_commands_id] st a = (st', a', None) ->
  MimetypeIs a' deb_type = true -> MimetypeIs a deb_type = true.
Proof.
  assert (Hc : forall st a, run_artifact m perm data [apt_commands_id] st a = (st', a', None) ->
    MimetypeIs a' deb_type = true -> MimetypeIs a deb_type = true).
  { intros st1 a1 H. destruct (run_artifact_step _ _ _ _ _ _ _ _ _ _ _ found_commands H)
      as [H1|[(st2 & a2 & H1 & H2)|(err & a2 & H1 & [=])]]; [by injection H1 as <- <-|].
    injection H2 as <- <-. apply Commands_retyped in H1. by apply (retyped_is _ _ _ _ H1). }
  intros H. destruct (run_artifact_step _ _ _ _ _ _ _ _ _ _ _ found_translations H)
    as [H1|[(st2 & a2 & H1 & H2)|(err & a2 & H1 & [=])]]; [by eapply Hc|].
  simpl in H1. apply Translation_retyped in H1. intros Ht. apply (retyped_is _ _ _ _ H1); [done|]. by eapply Hc.
Qed.

(** A run up to the packages inspector's opinion. *)
Lemma run_packages_deb data a0 st a st' a' : at_packages data a0 st a ->
  run_artifact m perm data (apt_packages_id :: [apt_translations_id; apt_commands_id] ++ deb_id :: after_deb) st a
    = (st', a', None) ->
  response_opinion deb_id a' = Some Approved ->
  response_opinion apt_packages_id a' = Some Rejected \/
  exists name version, trusted_package (Apt cfg) digest a name version.
Proof.
  intros (Hok & Hfr & Hnp & Hnd & _) H Hop.
  assert (Hrest : forall st a, run_artifact m perm data ([apt_translations_id; apt_commands_id] ++ deb_id :: after_deb)
      st a = (st', a', None) -> ResponseInspection a !! deb_id = None ->
    ResponseInspection a' !! apt_packages_id = ResponseInspection a !! apt_packages_id /\
    MimetypeIs a deb_type = true /\ ResponseBoolAnnotation a apt_packages_id "packages-is-valid" = Some true).
  { clear H Hok Hfr Hnp Hnd st a. intros st a H Hnd. apply run_artifact_app in H as [(? & [=] & _)|(st1 & a1 & H1 & H2)].
    pose proof (run_artifact_other _ _ _ _ _ _ _ _ _ session_laws H1) as Ho1.
    assert (Hnd1 : ResponseInspection a1 !! deb_id = None) by (rewrite Ho1; [exact Hnd|apply not_between; simpl; tauto]).
    assert (Hafter : forall st a, run_artifact m perm data after_deb st a = (st', a', None) ->
      forall id, In id [apt_release_id; apt_packages_id; deb_id] -> ResponseInspection a' !! id = ResponseInspection a !! id).
    { intros st2 a2 H id Hin. apply (run_artifact_other _ _ _ _ _ _ _ _ _ session_laws H). by apply not_after. }
    destruct (run_artifact_step _ _ _ _ _ _ _ _ _ _ _ found_deb H2) as [H3|[(st2 & a2 & H3 & H4)|(err & a2 & H3 & [=])]].
    { exfalso. unfold response_opinion in Hop. by rewrite (Hafter _ _ H3 deb_id), Hnd1 in Hop by (simpl; tauto). }
    pose proof (Hafter _ _ H4) as Hid. simpl in H3.
    pose proof (law_response (InspectorLaws := Deb_laws (Apt cfg)) _ _ _ _ _ _ H3) as F. simpl in F.
    apply Deb_approved in H3 as (Hm & md & _ & _ & _ & _ & Hv); [|done|].
    2: { unfold response_opinion in *. by rewrite <- (Hid deb_id) by (simpl; tauto). }
    assert (Hsame : ResponseInspection a1 !! apt_packages_id = ResponseInspection a !! apt_packages_id)
      by (apply Ho1, not_between; simpl; tauto).
    split; [|split; [by eapply run_between|]].
    - rewrite (Hid apt_packages_id) by (simpl; tauto). by rewrite (rs_own _ _ _ F).
    - revert Hv. unfold ResponseBoolAnnotation, inspectionAnnotation. by rewrite Hsame. }
  destruct (run_artifact_step _ _ _ _ _ _ _ _ _ _ _ found_packages H) as [H3|[(st2 & a2 & H3 & H4)|(err & a2 & H3 & [=])]].
  - apply Hrest in H3 as (_ & _ & Hv); [|done]. exfalso.
    unfold ResponseBoolAnnotation, inspectionAnnotation in Hv. by rewrite Hnp in Hv.
  - simpl in H3. pose proof (law_response (InspectorLaws := Packages_laws (Apt cfg)) _ _ _ _ _ _ H3) as F. simpl in F.
    apply Hrest in H4 as (Hs & Hm & _); [|by rewrite (rs_own _ _ _ F)].
    unfold response_opinion at 1. rewrite Hs. eapply package_trusted; [exact Hok| |exact Hnp|exact H3].
    destruct (MimetypeIs a deb_type) eqn:E; [done|]. by rewrite (Packages_type (Apt cfg) _ _ _ _ _ _ E H3) in Hm.
Qed.

(** C2: The chain of trust of Debian packages, over the whole run of the inspectors. Whatever requests and files a
    session's inspectors have seen before, if a run without errors over a new file leaves an approval of the
    inspector of packages and no rejection, then the package is listed, with its digest and size, in a package
    list that was read, and the digest of that list is in a release file signed with a key of the
    configuration. *)
Theorem approved_package_trusted : forall dir fs st a st' a',
  reachable st -> ResponseInspection a = ∅ ->
  (forall data, OpenArtifactFile fs (data_file dir a) = Ok data -> digest data = Artifact_Sha256 a) ->
  RunArtifactInspectors session_inspectors dir fs st a = (st', a', None) ->
  response_opinion deb_id a' = Some Approved -> ResponseRejected a' = false ->
  exists name version, trusted_package (Apt cfg) digest a name version.
Proof.
  intros dir fs st a st' a' Hst Hno Hd H Hop Hrej. apply reachable_ok in Hst.
  unfold RunArtifactInspectors in H. destruct (OpenArtifactFile _ _) as [data|] eqn:Eo; [|done].
  destruct (DetectReader data) as [t|]; [|done]. rewrite session_permissive, session_order in H.
  assert (Hf : fresh_file data (set_detected_type t a)) by (split; [done|by apply Hd]).
  apply run_to_packages in H as [(st1 & a1 & Hat & H)|[_ [? [=]]]]; [|done..].
  destruct (run_packages_deb _ _ _ _ _ _ Hat H Hop) as [Hr%rejected_by|(name & version & Ht)]; [congruence|].
  destruct Hat as (_ & F & _). exists name, version.
  destruct Ht as (rel & lentry & d & r & n & entries & entry & Hs & Hl & Hc & Hp & He & Hz & Hn).
  exists rel, lentry, d, r, n, entries, entry.
  rewrite (artifact_frame_sha256 _ _ F) in He. unfold Artifact_Size in *. rewrite (fr_size _ _ F) in Hz. auto 10.
Qed.
End Runs.
End Registry.

(** ** A session that fetches a package

    The third-party code is replaced by functions that know just enough for the three files. *)

Section RegistryDemo.
#[local] Existing Instance literal_glob.
#[local] Existing Instance list_order.
#[local] Existing Instance list_order_laws.
#[local] Existing Instance plain_xz.
#[local] Existing Instance plain_gzip.
#[local] Instance demo_mime : MimeLib := {| MIME := string; MIME_String := id; MIME_Is := String.eqb;
  DetectReader := fun data => Ok (if HasPrefix data clear_signed then "text/plain"
    else if HasPrefix data "Package:" then packages_type else deb_type) |}.
#[local] Instance demo_zstd : Zstd := {| zstd_NewReader := Ok |}.
#[local] Instance demo_deb_tar : Tar := fixed_tar [mkTarEntry "./control" false
  (bytes ("Package: hello" +:+ str1 nl +:+ "Version: 1" +:+ str1 nl +:+ "Description: says hello" +:+ str1 nl))].
#[local] Instance demo_ar : Ar := {| ar_read := fun b => ([("debian-binary", bytes "2.0"); ("control.tar", b)], None) |}.
#[local] Instance demo_unicode : Unicode := {| unicode_ToUpper := fun r => match r with "s" => "S" | _ => r end |}.
#[local] Instance demo_temp : TempFiles := {| os_CreateTemp := Ok "/tmp/tmpfile-1" |}.
#[local] Instance demo_license : LicenseTool := {| licensecheck := fun f _ => Ok f |}.
#[local] Instance demo_pgp : OpenPGP := {|
  OpenPgp.PublicKey := string;
  Signature := unit;
  armor_Decode := fun s => Ok ([PubKeyPacket s], None);
  clearsign_Decode := fun s =>
    match strip_prefix clear_signed s with Some body => Some ([SigPacket tt], None, body) | None => None end;
  packet_Read := fun s => Ok (PubKeyPacket s, "");
  key_verify := fun k _ _ => if String.eqb k "key" then None else Some (EText "bad signature");
  KeyId := fun _ => 1%Z;
  rsa_key := Some;
|}.
#[local] Instance demo_blocks : KeyBlock := {|
  armor_block := fun s => Ok (PublicKeyType, Ok (PubKeyPacket s));
  KeyIdString := fun k => k;
|}.
(** The first byte of a file, 32 times. *)
Definition demo_digest (data : string) : Sha256Digest :=
  match data with String c _ => str_of_bytes (repeat (N_of_ascii c) 32) | "" => zero_sha256 end.
Definition unread {A} : result A := Err (EText "not read here").
#[local] Instance demo_reg_http : HttpClient := {| World := unit; client_Get := fun w _ => (w, unread) |}.
#[local] Instance demo_reg_sha3 : Sha3 := {| sha3_384 := id |}.
#[local] Instance demo_reg_squashfs : SquashFs := {| squashfs_Open := fun _ _ => unread |}.
#[local] Instance demo_reg_snap : SnapYamlLib := {| decode_snapYaml := fun _ => unread |}.
#[local] Instance demo_reg_zip : Zip := {| zip_read := fun _ => unread |}.
#[local] Instance demo_reg_bin : BldBinYaml := {| ReadMetadata := fun _ => unread |}.
#[local] Instance demo_reg_lxd : LxdYaml := {| decode_types := fun _ => unread; decode_infos := fun _ => unread;
  decode_index := fun _ => unread |}.
#[local] Instance demo_reg_craft : CraftYamlLib := {| decode_craft := fun _ => unread; decode_charm := fun _ => unread |}.
#[local] Instance demo_reg_chisel : ChiselYamlLib := {| decode_yaml := fun _ => unread |}.
#[local] Instance demo_reg_toml : TomlLib := {| decode_cargoToml := fun _ => unread |}.
#[local] Instance demo_reg_pom : PomXml := {| decode_project := fun _ => unread |}.
#[local] Instance demo_reg_html : Html := {| html_tags := fun _ => ([], None) |}.
#[local] Instance demo_reg_png : Png := {| png_DecodeConfig := fun _ => unread |}.
#[local] Instance demo_reg_hashes : Hashes := {| sha1_Sum := fun _ => zero_sha1; sha256_Sum := demo_digest |}.
#[local] Instance demo_reg_git : GitTools (OS := mem_os) := @Build_GitTools mem_os
  (fun fs _ _ => (fs, unread)) (fun fs _ => (fs, None)) (fun _ _ _ => None) (fun fs _ _ _ => (fs, None))
  (fun fs _ _ => (fs, None)).

Definition demo_cfg : InspectorsConfig :=
  let c := empty_inspectors_config in
  mkInspectorsConfig (mkAptInspectorConfig
    {[ "ubuntu" := mkAptRepository [Some "https://a:443/ubuntu"] [Some "jammy"] [Some "main"] "key" "" ]})
    (Git c) (Crafts c) (Chisel c) (Snap c) (Store c) (BldBin c).
Definition demo_inspectors := session_inspectors 3 false demo_cfg.

Definition demo_lines (l : list string) : string := Join l (str1 nl).
Definition demo_list : string := demo_lines ["Package: hello"; "Version: 1"; "Architecture: amd64"; "Size: 3";
  "SHA256: " +:+ Sha256_String (demo_digest "deb")].
Definition demo_inrelease : string := clear_signed +:+ demo_lines ["Hash: SHA512"; ""; "Origin: Ubuntu"; "Label: Ubuntu";
  "Suite: jammy"; "Version: 22.04"; "Codename: jammy"; "Date: today"; "Architectures: amd64"; "Components: main";
  "SHA256:"; " " +:+ Sha256_String (demo_digest demo_list) +:+ " 120 main/binary-amd64/Packages.gz"].

(** A request, its inspection, the file, and the inspection of the file. *)
Definition demo_request (url : string) : Artifact :=
  set_CurrentDownload (mkDownload zero_time zero_time "GET" url "" "" ∅ 200 "" "" ∅ zero_sha256) NewArtifact.
Definition demo_asked (st : InspectorState) (url : string) : InspectorState * Artifact * option error :=
  RunRequestInspectors demo_inspectors st (demo_request url).
Definition demo_got (data : string) (size : Z) (a : Artifact) : Artifact :=
  set_Meta (mkMetadata "" zero_sha1 (demo_digest data) size "" "" "" "" "" "" "" "" "" "" "" "" "") a.
Definition demo_fs (data : string) : @FS mem_os := {[ data_file "/spool" (demo_got data 0 NewArtifact) := Some data ]}.
Definition demo_inspect (r : InspectorState * Artifact * option error) (data : string) (size : Z) :
    InspectorState * Artifact * option error :=
  RunArtifactInspectors demo_inspectors "/spool" (demo_fs data) r.1.1 (demo_got data size r.1.2).

Definition demo_st0 : InspectorState := mkInspectorState _ _ _ ∅ (mkSnapStore ∅ tt) ∅ (mkGitRepos ∅ ∅) None ∅ empty_PackagesState.
Definition demo_rel_asked := demo_asked demo_st0 "https://a:443/ubuntu/dists/jammy/InRelease".
Definition demo_rel_run := demo_inspect demo_rel_asked demo_inrelease 300.
Definition demo_list_asked := demo_asked demo_rel_run.1.1 "https://a:443/ubuntu/dists/jammy/main/binary-amd64/Packages.gz".
Definition demo_list_run := demo_inspect demo_list_asked demo_list 120.
Definition demo_deb_asked := demo_asked demo_list_run.1.1 "https://a:443/ubuntu/pool/main/h/hello/hello_1_amd64.deb".
Definition demo_deb_run := demo_inspect demo_deb_asked "deb" 3.

(** The one file of the file system is read. *)
Lemma demo_reach_file st a data size : reachable 3 false demo_cfg demo_digest st -> ResponseInspection a = ∅ ->
  reachable 3 false demo_cfg demo_digest
    (RunArtifactInspectors demo_inspectors "/spool" (demo_fs data) st (demo_got data size a)).1.1.
Proof.
  intros Hst Hno. apply reach_file_run; [exact Hst|]. intros text Ht. split; [exact Hno|].
  change (data_file "/spool" (demo_got data size a)) with (data_file "/spool" (demo_got data 0 NewArtifact)) in Ht.
  unfold OpenArtifactFile, demo_fs in Ht. revert Ht. generalize (data_file "/spool" (demo_got data 0 NewArtifact)).
  intros path. change (mem_ReadFile {[ path := Some data ]} path = Ok text -> demo_digest text = Artifact_Sha256 (demo_got data size a)).
  unfold mem_ReadFile. rewrite lookup_singleton. case_decide; [by intros [= <-]|done].
Qed.

Lemma demo_session_reached : reachable 3 false demo_cfg demo_digest demo_deb_asked.1.1.
Proof.
  apply reach_request_run, demo_reach_file; [|by vm_compute].
  apply reach_request_run, demo_reach_file; [|by vm_compute].
  apply reach_request_run, reach_new. done.
Qed.

Lemma approved_package_trusted_witness : Artifact_Approved demo_deb_run.1.2 = true /\
  exists name version, trusted_package (Apt demo_cfg) demo_digest (demo_got "deb" 3 demo_deb_asked.1.2) name version.
Proof.
  split; [by vm_compute|].
  apply (approved_package_trusted 3 false demo_cfg demo_digest "/spool" (demo_fs "deb") demo_deb_asked.1.1
    (demo_got "deb" 3 demo_deb_asked.1.2) demo_deb_run.1.1 demo_deb_run.1.2);
    [exact demo_session_reached|by vm_compute| |unfold demo_deb_run, demo_inspect, demo_inspectors; apply triple_eta; by vm_compute|
     by vm_compute|by vm_compute].
  intros data Hd. vm_compute in Hd. injection Hd as <-. by vm_compute.
Defined.
End RegistryDemo.
