(* ===== verification/SessionSpec.v ===== *)
(** * What the service promises about sessions, and that it does

    An abstract specification of sessions as their users see them: a table of tokens, policies and verdicts, with
    the events that change or observe it. The dispatcher of [service/service.go] with its handlers, goroutines and
    timers refines it: every step of the system is an event of the specification or changes nothing it knows of,
    and the answers are those of the event. *)
From stdpp Require Import base gmap strings list option fin_maps relations.
From Stdlib Require Import ZArith Lia Ascii.
From S2P Require Import Prelude GoStrings GoCodec Platform Json Net Digests Artifact.
From S2P Require Import Report Config Secrets SecLog Inspectors Session Messages Service ServiceProps Dispatcher.

(** ** The specification *)

Record SpecSession := mkSpecSession {
  sp_token : string;
  sp_revoked : bool;
  sp_permissive : bool;
  sp_verdicts : gmap Sha256Digest OpinionKind;
}.
Notation Spec := (gmap string SpecSession).

Definition spec_revoke (s : SpecSession) : SpecSession :=
  mkSpecSession (sp_token s) true (sp_permissive s) (sp_verdicts s).
Definition spec_record (d : Sha256Digest) (v : OpinionKind) (s : SpecSession) : SpecSession :=
  mkSpecSession (sp_token s) (sp_revoked s) (sp_permissive s) (<[d := v]> (sp_verdicts s)).

(** Credentials are good while the session is there and its token is not revoked. *)
Definition spec_auth (m : Spec) (id pw : string) : bool :=
  match m !! id with Some s => negb (sp_revoked s) && String.eqb (sp_token s) pw | None => false end.

Inductive SpecEvent :=
| EvAuth (id pw : string) (ok : bool)
| EvCreated (id token : string) (perm : bool)
| EvRevoked (id token : string)
| EvWrongToken (id token : string)
| EvReport (id : string) (artifacts : list (Sha256Digest * OpinionKind))
| EvUnrevoked (id : string)
| EvRecorded (id : string) (d : Sha256Digest) (v : OpinionKind)
| EvKnown (id : string) (d : Sha256Digest) (refused : bool)
| EvEnded (id : string)
| EvMissing (id : string)
| EvPresent (id : string)
| EvOther.

Inductive spec_step (m : Spec) : SpecEvent -> Spec -> Prop :=
| sp_auth id pw : spec_step m (EvAuth id pw (spec_auth m id pw)) m
| sp_create id token perm : m !! id = None ->
    spec_step m (EvCreated id token perm) (<[id := mkSpecSession token false perm ∅]> m)
| sp_revoke id s : m !! id = Some s -> spec_step m (EvRevoked id (sp_token s)) (<[id := spec_revoke s]> m)
| sp_wrong_token id token s : m !! id = Some s -> sp_token s <> token -> spec_step m (EvWrongToken id token) m
| sp_report id s l : m !! id = Some s -> sp_revoked s = true ->
    (forall d v, In (d, v) l -> sp_verdicts s !! d = Some v) -> spec_step m (EvReport id l) m
| sp_unrevoked id s : m !! id = Some s -> sp_revoked s = false -> spec_step m (EvUnrevoked id) m
| sp_recorded id s d v : m !! id = Some s -> sp_verdicts s !! d = None -> v = Approved \/ v = Rejected ->
    spec_step m (EvRecorded id d v) (<[id := spec_record d v s]> m)
| sp_known id s d v : m !! id = Some s -> sp_verdicts s !! d = Some v ->
    spec_step m (EvKnown id d (negb (sp_permissive s) && bool_decide (v = Rejected))) m
| sp_end id : is_Some (m !! id) -> spec_step m (EvEnded id) (delete id m)
| sp_missing id : m !! id = None -> spec_step m (EvMissing id) m
| sp_present id : is_Some (m !! id) -> spec_step m (EvPresent id) m
| sp_other : spec_step m EvOther m.

(** A revoked token stays revoked, and a verdict stays, as long as the session is there. *)
Lemma spec_step_mono m ev m' id s s' : spec_step m ev m' -> m !! id = Some s -> m' !! id = Some s' ->
  sp_token s' = sp_token s /\ sp_permissive s' = sp_permissive s /\
  (sp_revoked s = true -> sp_revoked s' = true) /\ sp_verdicts s ⊆ sp_verdicts s'.
Proof.
  assert (Hrefl : m !! id = Some s -> m !! id = Some s' -> sp_token s' = sp_token s /\ sp_permissive s' = sp_permissive s /\
    (sp_revoked s = true -> sp_revoked s' = true) /\ sp_verdicts s ⊆ sp_verdicts s') by (intros; by simplify_eq).
  intros H Hs. destruct H; auto.
  - rewrite lookup_insert. case_decide; [simplify_eq; congruence|auto].
  - rewrite lookup_insert. case_decide; [intros; by simplify_eq/=|auto].
  - rewrite lookup_insert. case_decide; [|auto]. intros; simplify_eq/=. split_and!; try done. by apply insert_subseteq.
  - rewrite lookup_delete. case_decide; [done|auto].
Qed.

(** ** The abstraction *)

Section Refinement.
Context `{ML : MimeLib} `{GL : GlobLib} `{OS : Os} `{VT : VersionText} `{Y : !YamlLib}
  `{FT : FloatText} `{CU : !CertUpdate} {IS : Type}.
Variable C : Constructors (IS := IS).
Variable st0 : IS.
Notation World := (World (IS := IS)).
Notation SessState := (SessState (IS := IS)).
Notation Session := (Session (IS := IS)).
Notation handle := (handleMessages C st0).

Definition abs_session (s : Session) : SpecSession :=
  mkSpecSession (Token s) (revoked s) (Permissive s) (Result <$> A s).
Definition abs_sessions (st : SessState) : Spec := omap (fun p => abs_session <$> objs st !! p) (sessions st).
Definition abs (w : World) : Spec := abs_sessions (w_sess w).

Lemma abs_lookup st id : abs_sessions st !! id = abs_session <$> active st id.
Proof.
  unfold abs_sessions, active. rewrite lookup_omap. destruct (sessions st !! id) as [p|]; simpl; [|done]. done.
Qed.

Lemma abs_ext st st' : (forall id, abs_session <$> active st' id = abs_session <$> active st id) ->
  abs_sessions st' = abs_sessions st.
Proof. intros H. apply map_eq. intros id. by rewrite !abs_lookup. Qed.

(** An update of an object that the specification does not see. *)
Lemma abs_set_obj_same st p o o' : objs st !! p = Some o -> abs_session o' = abs_session o ->
  abs_sessions (set_obj p o' st) = abs_sessions st.
Proof.
  intros Hp Ho. apply abs_ext. intros id. unfold active. simpl.
  destruct (sessions st !! id) as [q|]; simpl; [|done]. rewrite lookup_insert. case_decide; [|done].
  subst. rewrite Hp. simpl. by rewrite Ho.
Qed.

(** An update of an active session. *)
Lemma abs_set_obj st id p o' : sess_wf st -> sessions st !! id = Some p ->
  abs_sessions (set_obj p o' st) = <[id := abs_session o']> (abs_sessions st).
Proof.
  intros Hwf Hid. apply map_eq. intros id'. rewrite lookup_insert, !abs_lookup. unfold active. simpl.
  case_decide as Hd.
  - subst id'. rewrite Hid. simpl. by rewrite lookup_insert_eq.
  - destruct (sessions st !! id') as [q|] eqn:Eq; simpl; [|done]. rewrite lookup_insert_ne; [done|]. intros <-.
    destruct (wf_table _ Hwf _ _ Hid) as (s1 & H1 & <- & _), (wf_table _ Hwf _ _ Eq) as (s2 & H2 & <- & _). congruence.
Qed.

Lemma abs_AddDownload di (s : Session) : abs_session (AddDownload di s) = abs_session s.
Proof.
  unfold AddDownload. destruct (HasArtifact s (dl_Sha256 di)); [|done]. unfold abs_session. simpl. f_equal.
  apply map_eq. intros k. rewrite !lookup_fmap, lookup_alter. case_decide; [|done].
  subst. by destruct (A s !! dl_Sha256 di).
Qed.

Lemma abs_AddArtifact a (s : Session) : A s !! Sha256 (Meta a) = None ->
  abs_session (AddArtifact a s) = spec_record (Sha256 (Meta a)) (Result a) (abs_session s).
Proof.
  intros H. unfold AddArtifact. rewrite H. unfold abs_session, spec_record. simpl. by rewrite fmap_insert.
Qed.

(** The end of a session, if all is saved. *)
Lemma abs_Finish st fs p o order ss fs' e : sess_wf st -> objs st !! p = Some o -> sessions st !! s_ID o = Some p ->
  Finish p order st fs = Some (ss, fs', e) ->
  abs_sessions ss = match e with None => delete (s_ID o) (abs_sessions st) | Some _ => abs_sessions st end.
Proof.
  intros Hwf Hp Hs HF. destruct (Finish_active st fs p o order Hwf Hp Hs) as (ss1 & fs1 & e1 & HF1 & _ & _ & _ & Hoth & He).
  rewrite HF in HF1. injection HF1 as <- <- <-. destruct e as [e|].
  - destruct He as [Hsess Hobj]. apply abs_ext. intros id. unfold active. rewrite Hsess.
    destruct (sessions st !! id) as [q|]; simpl; [|done]. destruct (decide (q = p)) as [->|Hq]; [|by rewrite Hoth].
    by rewrite Hobj, Hp.
  - destruct He as (Hsess & t & Hobj & _). apply map_eq. intros id.
    rewrite abs_lookup, lookup_delete. unfold active. rewrite Hsess, lookup_delete.
    case_decide as Hd; [done|]. rewrite abs_lookup. unfold active.
    destruct (sessions st !! id) as [q|] eqn:Eq; simpl; [|done]. rewrite Hoth; [done|]. intros ->.
    destruct (wf_table _ Hwf _ _ Eq) as (s2 & H2 & Hid & _). congruence.
Qed.

Lemma abs_NewWithID (st : SessState) sid token spool timeout perm secrets ov cs uuid now p s st' :
  sess_wf st -> sessions st !! makeSessionID uuid = None ->
  NewWithID C st0 sid token spool timeout perm secrets ov cs uuid now st = (p, s, st') ->
  abs_sessions st !! s_ID s = None /\ Token s = token /\
  abs_sessions st' = <[s_ID s := mkSpecSession token false perm ∅]> (abs_sessions st).
Proof.
  intros Hwf Hu H. destruct (new_session_active _ _ _ _ _ _ _ _ _ _ _ _ _ _ _ _ Hwf Hu H)
    as (Hno & Hyes & Hperm & _ & Hrev & _ & Hoth).
  assert (Ht : Token s = token /\ A s = ∅) by (unfold NewWithID in H; injection H as <- <- <-; done).
  destruct Ht as [Ht HA]. split; [by rewrite abs_lookup, Hno|]. split; [done|].
  apply map_eq. intros id. rewrite abs_lookup, lookup_insert. case_decide as Hd.
  - subst id. rewrite Hyes. simpl. unfold abs_session, IsRevoked in *. by rewrite Ht, Hrev, Hperm, HA, fmap_empty.
  - by rewrite Hoth, abs_lookup.
Qed.

(** ** What an answer shows *)

Definition verdict_of (a : Artifact) : Sha256Digest * OpinionKind := (Sha256 (Meta a), Result a).

(** The event that the outputs for a request stand for. *)
Inductive shows (w : World) : Request -> list Output -> SpecEvent -> Prop :=
| shows_status rch v : shows w GetServiceStatus [Reply rch (AnsStatus v)] EvOther
| shows_auth rch v evs ok :
    shows w (ProxyAuth v) (map Event evs ++ [Reply rch (AnsAuth ok)]) (EvAuth (pa_ID v) (pa_Pw v) ok)
| shows_created rch v id token :
    shows w (CreateSession v) [Reply rch (AnsCredentials (mkSessionCredentials id token None))]
      (EvCreated id token (String.eqb (cs_Policy v) "permissive"))
| shows_not_created rch v e : shows w (CreateSession v) [Reply rch (failed_credentials e)] EvOther
| shows_revoked rch id token t1 t2 sp :
    shows w (RevokeToken id token) [Reply rch (AnsRevoked (mkRevokeTokenResult id t1 t2 sp None))] (EvRevoked id token)
| shows_revoke_missing rch id token :
    shows w (RevokeToken id token) [Reply rch (revoke_failed ErrSessionNotFound)] (EvMissing id)
| shows_wrong_token rch id token :
    shows w (RevokeToken id token) [Reply rch (revoke_failed ErrInvalidSessionToken)] (EvWrongToken id token)
| shows_report rch id r : sr_Err r = None ->
    shows w (SessionReport id) [Reply rch (AnsReport r)] (EvReport id (map verdict_of (sr_Artifacts r)))
| shows_report_missing rch id e :
    shows w (SessionReport id) [Reply rch (report_failed e ErrSessionNotFound)] (EvMissing id)
| shows_unrevoked rch id e :
    shows w (SessionReport id) [Reply rch (report_failed e ErrSessionActive)] (EvUnrevoked id)
| shows_ended rch id : shows w (EndSession id) [Reply rch (AnsError None)] (EvEnded id)
| shows_end_missing rch id :
    shows w (EndSession id) [Reply rch (AnsError (Some ErrSessionNotFound))] (EvMissing id)
| shows_not_ended rch id e : shows w (EndSession id) [Reply rch (AnsError (Some e))] (EvPresent id)
| shows_delete_refused rch id :
    shows w (DeleteResources id) [Reply rch (AnsError (Some ErrSessionNotFinished))] (EvPresent id)
| shows_delete rch id spool : shows w (DeleteResources id) [Spawn (DeleteTask rch spool id)] (EvMissing id)
| shows_request_missing rch pa a e : w_arts w !! pa = Some a ->
    shows w (RequestInspectionMsg pa) [Reply rch (AnsError (Some e))] (EvMissing (SessionID a))
| shows_request rch p pa a : w_arts w !! pa = Some a ->
    shows w (RequestInspectionMsg pa) [Spawn (InspectRequestTask rch p pa)] (EvPresent (SessionID a))
| shows_response_missing rch pa a e : w_arts w !! pa = Some a ->
    shows w (ResponseInspectionMsg pa) [Reply rch (AnsError (Some e))] (EvMissing (SessionID a))
| shows_known rch pa a (refused : bool) : w_arts w !! pa = Some a ->
    shows w (ResponseInspectionMsg pa) [Reply rch (AnsError (if refused then Some ErrRejectedArtifact else None))]
      (EvKnown (SessionID a) (Sha256 (Meta a)) refused)
| shows_not_saved rch pa a e : w_arts w !! pa = Some a ->
    shows w (ResponseInspectionMsg pa) [Reply rch (AnsError (Some e))] (EvPresent (SessionID a))
| shows_response rch p pa a : w_arts w !! pa = Some a ->
    shows w (ResponseInspectionMsg pa) [Spawn (InspectResponseTask rch p pa)] (EvPresent (SessionID a))
| shows_complete_missing rch pa a e : w_arts w !! pa = Some a ->
    shows w (CompleteInspectionMsg pa) [Reply rch (AnsError (Some e))] (EvMissing (SessionID a))
| shows_completed rch pa a : w_arts w !! pa = Some a ->
    shows w (CompleteInspectionMsg pa) [Reply rch (AnsError None)] (EvRecorded (SessionID a) (Sha256 (Meta a)) (Result a))
| shows_completed_again rch pa a : w_arts w !! pa = Some a ->
    shows w (CompleteInspectionMsg pa) [Reply rch (AnsError None)] (EvPresent (SessionID a))
| shows_fetchctl rch v evs r : shows w (FetchCtl v) (map Event evs ++ [Reply rch (AnsFetchCtl r)]) EvOther
| shows_fetchctl_created rch v evs r id token perm : fc_Operation v = "create-session" -> ctl_Status r = "ok" ->
    shows w (FetchCtl v) (map Event evs ++ [Reply rch (AnsFetchCtl r)]) (EvCreated id token perm).

(** What a handler does is an event of the specification, and its outputs are those of the event. *)
Definition refines (w : World) (q : Request) (r : World * list Output) : Prop :=
  exists ev, shows w q (snd r) ev /\ spec_step (abs w) ev (abs (fst r)).

Lemma abs_active w id p : world_ok w -> sessions (w_sess w) !! id = Some p ->
  exists o, objs (w_sess w) !! p = Some o /\ s_ID o = id /\ session_ok o /\ abs w !! id = Some (abs_session o).
Proof.
  intros Hw Hid. destruct (session_of_active w id p Hw Hid) as (o & Ho & Hi & Hok).
  exists o. split_and!; try done. unfold abs. rewrite abs_lookup. unfold active. rewrite Hid. simpl. by rewrite Ho.
Qed.
Lemma abs_missing w id : sessions (w_sess w) !! id = None -> abs w !! id = None.
Proof. intros H. unfold abs. rewrite abs_lookup. unfold active. by rewrite H. Qed.

Lemma handleResponseInspection_refines rch pa a d w : world_ok w -> w_arts w !! pa = Some a ->
  refines w (ResponseInspectionMsg pa) (handleResponseInspection rch pa a d w).
Proof.
  intros Hw Ha. unfold handleResponseInspection.
  destruct (GetSession (w_sess w) (SessionID a)) as [p|] eqn:Ep; unfold GetSession, sessions_Get in Ep.
  2: { exists (EvMissing (SessionID a)). split; [by eapply shows_response_missing|]. apply sp_missing. by apply abs_missing. }
  destruct (abs_active w _ p Hw Ep) as (o & Ho & _ & _ & Habs). rewrite Ho.
  set (a1 := set_CurrentDownload _ a). unfold HasArtifact, ArtifactResult.
  destruct (A o !! Sha256 (Meta a)) as [a0|] eqn:E0.
  - set (o1 := AddDownload _ o).
    assert (E1 : abs_session o1 = abs_session o) by apply abs_AddDownload.
    assert (HP : Permissive o1 = Permissive o) by (change (sp_permissive (abs_session o1) = Permissive o); by rewrite E1).
    assert (HR : Result <$> A o1 !! Sha256 (Meta a) = Some (Result a0)).
    { change ((Result <$> A o1) !! Sha256 (Meta a) = Some (Result a0)) || rewrite <- lookup_fmap.
      change (Result <$> A o1) with (sp_verdicts (abs_session o1)). rewrite E1. simpl. by rewrite lookup_fmap, E0. }
    destruct (A o1 !! Sha256 (Meta a)) as [a2|] eqn:E2; [|done]. injection HR as HR.
    set (w2 := remove_tempfile _ _).
    assert (Hsame : abs w2 = abs w).
    { unfold abs, w2. simpl. by eapply abs_set_obj_same. }
    rewrite HP, HR. exists (EvKnown (SessionID a) (Sha256 (Meta a)) (negb (Permissive o) && bool_decide (Result a0 = Rejected))).
    assert (Hstep : spec_step (abs w) (EvKnown (SessionID a) (Sha256 (Meta a))
      (negb (Permissive o) && bool_decide (Result a0 = Rejected))) (abs w2)).
    { rewrite Hsame. apply (sp_known _ _ (abs_session o)); [done|]. simpl. by rewrite lookup_fmap, E0. }
    destruct (_ && _) eqn:Eb; split; try exact Hstep.
    + by apply (shows_known w rch pa a true).
    + by apply (shows_known w rch pa a false).
  - exists (EvPresent (SessionID a)). destruct (SaveData a1 _) as [fs [e|]]; split.
    + by apply shows_not_saved.
    + apply (sp_present (abs w)). by rewrite Habs.
    + by apply shows_response.
    + apply (sp_present (abs w)). by rewrite Habs.
Qed.

Lemma handleCompleteInspection_refines rch pa a w : world_ok w -> w_arts w !! pa = Some a -> judged a ->
  refines w (CompleteInspectionMsg pa) (handleCompleteInspection rch a w).
Proof.
  intros Hw Ha Hj. unfold handleCompleteInspection.
  destruct (GetSession (w_sess w) (SessionID a)) as [p|] eqn:Ep; unfold GetSession, sessions_Get in Ep.
  2: { exists (EvMissing (SessionID a)). split; [by eapply shows_complete_missing|]. apply sp_missing. by apply abs_missing. }
  destruct (abs_active w _ p Hw Ep) as (o & Ho & _ & _ & Habs). rewrite Ho. unfold HasArtifact.
  destruct (A o !! Sha256 (Meta a)) as [a0|] eqn:E0; simpl negb; cbn iota.
  - exists (EvPresent (SessionID a)). split; [by apply shows_completed_again|]. simpl.
    assert (Hsame : abs (set_session p (AddDownload (CurrentDownload a) o) w) = abs w).
    { unfold abs. simpl. eapply abs_set_obj_same; [exact Ho|]. apply abs_AddDownload. }
    rewrite Hsame. apply (sp_present (abs w)). by rewrite Habs.
  - exists (EvRecorded (SessionID a) (Sha256 (Meta a)) (Result a)). split; [by apply shows_completed|]. simpl.
    unfold abs at 2. simpl. erewrite abs_set_obj by (apply Hw || exact Ep).
    rewrite abs_AddDownload, abs_AddArtifact by done.
    apply sp_recorded; [done| |exact Hj]. simpl. by rewrite lookup_fmap, E0.
Qed.

Lemma handleCreateSession_refines rch v d w : world_ok w -> draws_fresh d w ->
  refines w (CreateSession v) (handleCreateSession C st0 rch v d w).
Proof.
  intros Hw [_ Hd]. unfold handleCreateSession.
  destruct (String.eqb (cs_Policy v) "permissive") eqn:Ep.
  1: destruct (PermissiveMode (w_opt w)); simpl andb; cbn iota;
      [|exists EvOther; split; [apply shows_not_created|apply sp_other]].
  all: simpl andb; cbn iota; cbv zeta.
  all: destruct (ValidateSecrets _) as [err|]; [exists EvOther; split; [apply shows_not_created|apply sp_other]|].
  all: destruct (New _ _ _ _ _ _ _ _ _ _ _ _ _) as [[p o] ss] eqn:E; unfold New in E.
  all: destruct (abs_NewWithID _ _ _ _ _ _ _ _ _ _ _ _ _ _ (proj1 Hw) Hd E) as (Hno & Htok & Habs).
  all: eexists; split; [apply shows_created|]; rewrite Ep; unfold abs; simpl; rewrite Habs, Htok; by apply sp_create.
Qed.

Lemma handleRevokeToken_refines rch id token d w : world_ok w ->
  refines w (RevokeToken id token) (handleRevokeToken rch id token d w).
Proof.
  intros Hw. unfold handleRevokeToken.
  destruct (GetSession (w_sess w) id) as [p|] eqn:Ep; unfold GetSession, sessions_Get in Ep.
  2: { exists (EvMissing id). split; [apply shows_revoke_missing|]. apply sp_missing. by apply abs_missing. }
  destruct (abs_active w _ p Hw Ep) as (o & Ho & Hi & _ & Habs). rewrite Ho. unfold Revoke.
  destruct (String.eqb_spec token (Token o)) as [->|Hne]; simpl negb; cbn iota.
  - exists (EvRevoked id (Token o)). split; [simpl; rewrite Hi; apply shows_revoked|].
    unfold abs at 2. simpl. erewrite abs_set_obj by (apply Hw || exact Ep).
    change (abs_session _) with (spec_revoke (abs_session o)). change (Token o) with (sp_token (abs_session o)).
    by apply sp_revoke.
  - exists (EvWrongToken id token). split; [apply shows_wrong_token|]. eapply sp_wrong_token; [exact Habs|]. simpl. congruence.
Qed.

Lemma handleSessionReport_refines rch id d w : world_ok w ->
  refines w (SessionReport id) (handleSessionReport rch id d w).
Proof.
  intros Hw. unfold handleSessionReport, active.
  destruct (sessions (w_sess w) !! id) as [p|] eqn:Ep; simpl.
  2: { exists (EvMissing id). split; [apply shows_report_missing|]. apply sp_missing. by apply abs_missing. }
  destruct (abs_active w _ p Hw Ep) as (o & Ho & _ & Hok & Habs). rewrite Ho. unfold IsRevoked.
  destruct (revoked o) eqn:Er; simpl negb; cbn iota.
  - eexists. split; [by apply shows_report|]. simpl. eapply sp_report; [exact Habs|done|].
    intros dg v Hin. apply in_map_iff in Hin as (a & [= <- <-] & Hin).
    unfold Artifacts in Hin. apply list_elem_of_In, list_elem_of_omap in Hin as (k & _ & Hk).
    simpl. rewrite lookup_fmap. destruct (so_arts _ Hok _ _ Hk) as [-> _]. by rewrite Hk.
  - exists (EvUnrevoked id). split; [apply shows_unrevoked|]. by eapply sp_unrevoked.
Qed.

(** A session that is finished, or not. *)
Lemma finish_abs w id p d : world_ok w -> sessions (w_sess w) !! id = Some p ->
  exists ss fs e, Finish p (d_digests d) (w_sess w) (w_fs w) = Some (ss, fs, e) /\
    abs_sessions ss = match e with None => delete id (abs w) | Some _ => abs w end.
Proof.
  intros Hw Hid. destruct (session_of_active w id p Hw Hid) as (o & Ho & Hi & _). subst id.
  destruct (good_step_Finish w p o d Hw Ho Hid) as (ss & fs & e & HF & _).
  exists ss, fs, e. split; [done|]. exact (abs_Finish _ _ _ _ _ _ _ _ (proj1 Hw) Ho Hid HF).
Qed.

Lemma handleEndSession_refines rch id d w : world_ok w ->
  refines w (EndSession id) (handleEndSession rch id d w).
Proof.
  intros Hw. unfold handleEndSession, finish_session.
  destruct (GetSession (w_sess w) id) as [p|] eqn:Ep; unfold GetSession, sessions_Get in Ep.
  2: { exists (EvMissing id). split; [apply shows_end_missing|]. apply sp_missing. by apply abs_missing. }
  destruct (abs_active w _ p Hw Ep) as (o & _ & _ & _ & Habs).
  destruct (finish_abs w id p d Hw Ep) as (ss & fs & e & -> & Hss). destruct e as [e|].
  - exists (EvPresent id). split; [apply shows_not_ended|]. unfold abs at 2. simpl. rewrite Hss. apply (sp_present (abs w)). by rewrite Habs.
  - exists (EvEnded id). split; [apply shows_ended|]. unfold abs at 2. simpl. rewrite Hss. apply sp_end. by rewrite Habs.
Qed.

Lemma handleFetchCtl_refines rch v d w w' r evs : world_ok w -> draws_fresh d w ->
  handleFetchCtl C st0 v d w = (w', r, evs) ->
  refines w (FetchCtl v) (w', map Event evs ++ [Reply rch (AnsFetchCtl r)]).
Proof.
  intros Hw [Hd _]. unfold handleFetchCtl.
  assert (Hother : forall w1 r1 evs1, w_sess w1 = w_sess w ->
    refines w (FetchCtl v) (w1, map Event evs1 ++ [Reply rch (AnsFetchCtl r1)])).
  { intros w1 r1 evs1 Hs. exists EvOther. split; [apply shows_fetchctl|]. simpl. unfold abs at 2. rewrite Hs. apply sp_other. }
  destruct (String.eqb _ "version"); [intros; simplify_eq; by apply Hother|].
  destruct (String.eqb _ "update-config").
  { unfold fetchCtlUpdateConfig. destruct (UpdateConfig _ _ _ _ _ _) as [[cs fs] err].
    destruct err, (fc_ValidateOnly v); intros; simplify_eq; by apply Hother. }
  destruct (String.eqb _ "update-cert").
  { unfold fetchCtlUpdateCert. destruct (proxyUpdateCert _ _ _ _ _) as [fs err].
    destruct err, (fc_ValidateOnly v); intros; simplify_eq; by apply Hother. }
  destruct (String.eqb_spec (fc_Operation v) "create-session") as [Hop|].
  - unfold fetchCtlCreateSession. destruct (unmarshal_payload _) as [params|]; [|intros; simplify_eq; by apply Hother].
    destruct (if String.eqb _ "" then _ else _) as [cfg|]; [|intros; simplify_eq; by apply Hother].
    destruct (NewWithID _ _ _ _ _ _ _ _ _ _ _ _ _) as [[p o] ss] eqn:E. intros; simplify_eq.
    destruct (abs_NewWithID _ _ _ _ _ _ _ _ _ _ _ _ _ _ (proj1 Hw) Hd E) as (Hno & Htok & Habs).
    eexists. split; [by apply shows_fetchctl_created|]. simpl. unfold abs. simpl. rewrite Habs. by apply sp_create.
  - destruct (String.eqb _ "list-artifacts"); intros; simplify_eq; by apply Hother.
Qed.

Lemma CheckAuth_abs w id pw h c ag : (CheckAuth (w_sess w) id pw h c ag).1 = spec_auth (abs w) id pw.
Proof.
  unfold CheckAuth, spec_auth, abs. rewrite abs_lookup. destruct (active (w_sess w) id) as [o|]; simpl; [|done].
  destruct (revoked o); [done|]. by destruct (String.eqb (Token o) pw).
Qed.

Lemma handle_refines m d w : world_ok w -> msg_ok w m -> draws_fresh d w -> refines w (Req m) (handle m d w).
Proof.
  intros Hw Hm Hd. destruct m as [rch q]. unfold handleMessages. simpl in *. destruct q; simpl in *.
  - exists EvOther. split; [apply shows_status|apply sp_other].
  - unfold with_art. destruct (Hm a eq_refl) as [a0 Ha]. rewrite Ha. unfold handleRequestInspection.
    destruct (GetSession (w_sess w) (SessionID a0)) as [p|] eqn:Ep; unfold GetSession, sessions_Get in Ep.
    + destruct (abs_active w _ p Hw Ep) as (o & _ & _ & _ & Habs).
      exists (EvPresent (SessionID a0)). split; [by apply shows_request|]. apply (sp_present (abs w)). by rewrite Habs.
    + exists (EvMissing (SessionID a0)). split; [by eapply shows_request_missing|]. apply sp_missing. by apply abs_missing.
  - unfold with_art. destruct (Hm a eq_refl) as [a0 Ha]. rewrite Ha. by apply handleResponseInspection_refines.
  - unfold with_art. destruct Hm as (a0 & Ha & Hj). rewrite Ha. by apply handleCompleteInspection_refines.
  - by apply handleCreateSession_refines.
  - by apply handleRevokeToken_refines.
  - by apply handleSessionReport_refines.
  - by apply handleEndSession_refines.
  - unfold handleDeleteResources.
    destruct (GetSession (w_sess w) id) as [p|] eqn:Ep; unfold GetSession, sessions_Get in Ep.
    + destruct (abs_active w _ p Hw Ep) as (o & _ & _ & _ & Habs).
      exists (EvPresent id). split; [apply shows_delete_refused|]. apply (sp_present (abs w)). by rewrite Habs.
    + exists (EvMissing id). split; [apply shows_delete|]. apply sp_missing. by apply abs_missing.
  - pose proof (CheckAuth_abs w (pa_ID v) (pa_Pw v) (pa_HostIP v) (pa_ClientIP v) (pa_Agent v)) as Hok.
    destruct (CheckAuth _ _ _ _ _ _) as [ok evs]. simpl in Hok. subst ok.
    eexists. split; [apply shows_auth|apply sp_auth].
  - destruct (handleFetchCtl _ _ _ _ _) as [[w' r] evs] eqn:E. by eapply handleFetchCtl_refines.
Qed.

(** ** Goroutines and timers *)

Lemma run_task_abs t ch w w' outs msgs : run_task t ch (w : World) = (w', outs, msgs) -> abs w' = abs w.
Proof.
  destruct t as [rch p pa|rch p pa|rch e crch|rch spool id]; simpl; [| |by intros; simplify_eq|].
  - destruct (objs (w_sess w) !! p) as [o|] eqn:Ho, (w_arts w !! pa) as [a|]; try (by intros; simplify_eq).
    destruct (runRequestInspection _ _ _) as [[st a'] e]. intros; simplify_eq. unfold abs. simpl. by eapply abs_set_obj_same.
  - destruct (objs (w_sess w) !! p) as [o|] eqn:Ho, (w_arts w !! pa) as [a|]; try (by intros; simplify_eq).
    destruct (runResponseInspection _ _ _ _) as [[st a'] e]. intros; simplify_eq. unfold abs. simpl. by eapply abs_set_obj_same.
  - destruct (RemoveResources _ _ _) as [fs e]. by intros; simplify_eq.
Qed.

Lemma handleExpired_abs id d w : world_ok w ->
  abs (fst (handleExpired id d w)) = abs w \/
  is_Some (abs w !! id) /\ abs (fst (handleExpired id d w)) = delete id (abs w).
Proof.
  intros Hw. unfold handleExpired, finish_session.
  destruct (GetSession (w_sess w) id) as [p|] eqn:Ep; unfold GetSession, sessions_Get in Ep; [|by left].
  destruct (abs_active w _ p Hw Ep) as (o & _ & _ & _ & Habs).
  destruct (finish_abs w id p d Hw Ep) as (ss & fs & e & -> & Hss). simpl. unfold abs at 1. simpl. rewrite Hss.
  destruct e; [by left|right]. split; [by rewrite Habs|]. unfold abs at 1. simpl. by rewrite Hss.
Qed.

Lemma apply_outputs_world outs (s : Sys (IS := IS)) : sys_w (apply_outputs s outs) = sys_w s.
Proof.
  revert s. induction outs as [|o outs IH]; intros s; [done|].
  change (apply_outputs s (o :: outs)) with (apply_outputs (apply_output s o) outs). rewrite IH. by destruct o.
Qed.

(** ** Properties *)

Hypothesis C_laws : forall cfg, Forall InspectorLaws (insList C cfg).

Lemma message_event s m d w' outs : reachable C st0 s -> In m (inbox s) -> draws_fresh d (sys_w s) ->
  handle m d (sys_w s) = (w', outs) ->
  exists ev, shows (sys_w s) (Req m) outs ev /\ spec_step (abs (sys_w s)) ev (abs w').
Proof.
  intros Hr Hin Hd E. pose proof (reachable_inv _ _ C_laws _ Hr) as Hi.
  pose proof (inv_msgs _ Hi) as Hm. rewrite List.Forall_forall in Hm.
  pose proof (handle_refines m d (sys_w s) (inv_world _ Hi) (Hm m Hin) Hd) as H. rewrite E in H. exact H.
Qed.

Lemma step_event s s' : reachable C st0 s -> sys_step C st0 s s' ->
  exists ev, spec_step (abs (sys_w s)) ev (abs (sys_w s')).
Proof.
  intros Hr. pose proof (inv_world _ (reachable_inv _ _ C_laws _ Hr)) as Hw. intros [H|[H|H]].
  - exists EvOther. destruct H; apply sp_other.
  - destruct H as [H|H]; [destruct H as [s pre m post d w outs _ Hin Hd HE]|destruct H as [s pre t post w outs msgs _ _ HE|]].
    + rewrite apply_outputs_world. destruct (message_event s m d w outs Hr) as (ev & _ & Hev); [|done..|by exists ev].
      rewrite Hin. apply in_elt.
    + rewrite apply_outputs_world. exists EvOther. simpl. rewrite (run_task_abs _ _ _ _ _ _ HE). apply sp_other.
    + exists EvOther. apply sp_other.
  - destruct H as [H|[id H]]; [destruct H as [s p o t Hp Hst|s p o Hp Hs Hch]|destruct H as [s rest d w outs Hh Hch HE]].
    + exists EvOther. simpl. assert (Hsame : abs (set_session p (set_timer t o) (sys_w s)) = abs (sys_w s)).
      { unfold abs. simpl. by eapply abs_set_obj_same. }
      rewrite Hsame. apply sp_other.
    + exists EvOther. simpl. unfold abs at 2. simpl.
      assert (Hsame : abs_sessions (set_obj p (set_timer (sent (timer o)) o) (w_sess (sys_w s))) = abs (sys_w s)).
      { by eapply abs_set_obj_same. }
      unfold abs_sessions in Hsame. simpl in Hsame. unfold abs_sessions. simpl. rewrite Hsame. apply sp_other.
    + rewrite apply_outputs_world. simpl.
      set (w0 := set_w_sess _ _) in HE. assert (Hw0 : world_ok w0).
      { apply good_step_chan; [done|]. pose proof (wf_chan _ (proj1 Hw)) as Hl. rewrite Hch in Hl. simpl in *. lia. }
      change (abs (sys_w s)) with (abs w0). destruct (handleExpired_abs id d w0 Hw0) as [Hs|[Hp Hs]]; rewrite HE in Hs; simpl in Hs.
      * exists EvOther. rewrite Hs. apply sp_other.
      * exists (EvEnded id). rewrite Hs. by apply sp_end.
Qed.

(** C3: The system refines the specification of sessions: in every reachable state each step, of a client, of the
    dispatcher with any waiting message, of a goroutine or of a clock, is an event of the specification; for a
    message it is the event that the handler's answer shows. *)
Theorem sessions_refine : forall s, reachable C st0 s ->
  (forall s', sys_step C st0 s s' -> exists ev, spec_step (abs (sys_w s)) ev (abs (sys_w s'))) /\
  (forall m d w' outs, In m (inbox s) -> draws_fresh d (sys_w s) -> handle m d (sys_w s) = (w', outs) ->
     exists ev, shows (sys_w s) (Req m) outs ev /\ spec_step (abs (sys_w s)) ev (abs w')).
Proof. intros s Hr. split; [intros; by eapply step_event|intros; by eapply message_event]. Qed.

(** C12: From one reachable state to any later one in which the ID was never free, a session keeps its token and
    policy, a revoked token stays revoked, and no recorded verdict is lost or changed. *)
Theorem sessions_monotone : forall s s' id x x', reachable C st0 s ->
  rtc (fun a b => sys_step C st0 a b /\ is_Some (abs (sys_w b) !! id)) s s' ->
  abs (sys_w s) !! id = Some x -> abs (sys_w s') !! id = Some x' ->
  sp_token x' = sp_token x /\ sp_permissive x' = sp_permissive x /\
  (sp_revoked x = true -> sp_revoked x' = true) /\ sp_verdicts x ⊆ sp_verdicts x'.
Proof.
  intros s s' id x x' Hr H. revert x Hr. induction H as [s|s s1 s' [Hst [x1 Hx1]] H IH]; intros x Hr Hx Hx'.
  - by simplify_eq.
  - destruct (step_event s s1 Hr Hst) as (ev & Hev).
    assert (Hr1 : reachable C st0 s1) by (destruct Hr as (s0 & ? & ?); exists s0; split; [done|by eapply rtc_r]).
    destruct (spec_step_mono _ _ _ _ _ _ Hev Hx Hx1) as (H1 & H2 & H3 & H4).
    destruct (IH x1 Hr1 Hx1 Hx') as (H5 & H6 & H7 & H8).
    split_and!; [congruence|congruence|auto|by etrans].
Qed.
End Refinement.

(** ** Witnesses *)

Section SpecDemo.
#[local] Existing Instance text_mime.
#[local] Existing Instance literal_glob.
#[local] Existing Instance mem_os.
#[local] Existing Instance demo_version.
#[local] Existing Instance sample_yaml.
#[local] Existing Instance same_text.
#[local] Existing Instance demo_cert.

(** A client asks for a session; the dispatcher makes it. *)
Definition demo_create : Message := mkMessage 0 (CreateSession (mkCreateSession 60 "strict" [] empty_override "" "")).
Definition demo_waiting : Sys (IS := unit) := mkSys empty_world [demo_create] [] ∅ 1 [] false.
Definition demo_handled := handleMessages sample_constructors tt demo_create demo_draws empty_world.
Definition demo_created : Sys (IS := unit) :=
  apply_outputs (mkSys demo_handled.1 [] [] ∅ 1 [] false) demo_handled.2.

Lemma demo_waiting_reachable : reachable sample_constructors tt demo_waiting.
Proof.
  exists demo_sys. split; [by repeat split|]. apply rtc_once. left.
  by apply (step_request demo_sys (Req demo_create)).
Qed.
Lemma demo_fresh : draws_fresh demo_draws (sys_w demo_waiting).
Proof. by split; vm_compute. Qed.
Lemma demo_create_step : sys_step sample_constructors tt demo_waiting demo_created.
Proof.
  right. left. left. apply (step_message _ _ demo_waiting [] demo_create [] demo_draws demo_handled.1 demo_handled.2);
    [done|done|exact demo_fresh|]. exact (surjective_pairing demo_handled).
Qed.
Lemma demo_created_reachable : reachable sample_constructors tt demo_created.
Proof.
  destruct demo_waiting_reachable as (s0 & ? & ?). exists s0. split; [done|]. eapply rtc_r; [done|exact demo_create_step].
Qed.

Lemma sessions_refine_witness :
  exists ev, shows empty_world (Req demo_create) demo_handled.2 ev /\ spec_step (abs empty_world) ev (abs demo_handled.1).
Proof.
  apply (proj2 (sessions_refine sample_constructors tt sample_laws demo_waiting demo_waiting_reachable)
    demo_create demo_draws demo_handled.1 demo_handled.2 (or_introl eq_refl) demo_fresh).
  exact (surjective_pairing demo_handled).
Defined.

(** The token is revoked. *)
Definition demo_id : string := makeSessionID (d_uuid demo_draws).
Definition demo_revoke : Message := mkMessage 1 (RevokeToken demo_id (randomString 20 (d_token demo_draws))).
Definition demo_revoking : Sys (IS := unit) :=
  mkSys (sys_w demo_created) [demo_revoke] [] (answers demo_created) 2 [] false.
Definition demo_later : Draws := mkDraws 9%Z (nul_bytes 18) (nul_bytes 19) (fun i => i) [] [].
Definition demo_revoked := handleMessages sample_constructors tt demo_revoke demo_later (sys_w demo_created).
Definition demo_over : Sys (IS := unit) :=
  apply_outputs (mkSys demo_revoked.1 [] [] (answers demo_created) 2 [] false) demo_revoked.2.

Lemma sessions_monotone_witness : exists x x',
  abs (sys_w demo_created) !! demo_id = Some x /\ abs (sys_w demo_over) !! demo_id = Some x' /\
  sp_token x' = sp_token x /\ sp_revoked x = false /\ sp_revoked x' = true.
Proof.
  destruct (abs (sys_w demo_created) !! demo_id) as [x|] eqn:Hx; [|by vm_compute in Hx].
  destruct (abs (sys_w demo_over) !! demo_id) as [x'|] eqn:Hx'; [|by vm_compute in Hx'].
  exists x, x'. split; [done|]. split; [done|]. split; [|split].
  - apply (sessions_monotone sample_constructors tt sample_laws demo_created demo_over demo_id x x'
      demo_created_reachable); [|exact Hx|exact Hx'].
    eapply rtc_l; [split|eapply rtc_once; split].
    + left. by apply (step_request demo_created (Req demo_revoke)).
    + eexists. exact Hx.
    + right. left. left. apply (step_message _ _ demo_revoking [] demo_revoke [] demo_later demo_revoked.1 demo_revoked.2);
        [done|done|by split; vm_compute|]. exact (surjective_pairing demo_revoked).
    + eexists. exact Hx'.
  - vm_compute in Hx. by injection Hx as <-.
  - vm_compute in Hx'. by injection Hx' as <-.
Defined.
End SpecDemo.
